(* ===== verification/_CoqProject ===== *)
-Q . S2P
Prelude.v
LogLevel.v
EfiTypes.v
Common.v
Names.v
UefiVariable.v
Storage.v
StorageInv.v
Samples.v
StorageSpec.v
StorageTrace.v
Serializer.v
SerializerSpec.v
Barrier.v
Crypto.v
SigList.v
Layout.v
Headers.v
Auth.v
AuthLib.v
CText.v
Server.v
Xapi.v
XapiSamples.v
Persistence.v
XapiNet.v
Requests.v
AuthSamples.v
ServerSamples.v
ServerSpec.v
SetVariable.v
AuthSpec.v
AuthSecurity.v
PlatformMode.v
PrivateVars.v
SignedData.v
SigListSpec.v
Triples.v
WellFormed.v
XapiBackend.v
Depriv.v
Daemon.v
DaemonSamples.v
DaemonSpec.v
StartupSpec.v
Enrolment.v
Accepted.v
AuthObject.v
KeyUpdates.v
KeyAppends.v
KeyEnrolment.v
Session.v
Protected.v
Log.v
LogSpec.v
CertCallbacks.v
Concurrent.v
ConcurrentSpec.v
Heap.v
HeapVar.v
HeapSpec.v
HeapLeak.v
