(* ===== verification/Prelude.v ===== *)
(** * uefistored: the UEFI variable service of a virtual machine

    uefistored serves the UEFI variable services of one virtual machine: the
    firmware writes a request into a shared page, the daemon parses it, updates
    its variable store, enforces Secure Boot authentication, and writes the
    reply into the same page.  This development models that program from the
    shared page down to the slot array and proves what it promises.

    ** Parts of the program, and the file that models each

    - [Prelude]: machine-width integers ([u8] ... [u64], [s64]: the wrap-around
      written out), bytes, little-endian codecs, reads and writes of byte
      objects, the result type [outcome] and the state monad [M], and the class
      [Allocator] for [malloc] and [realloc].
    - [EfiTypes]: inc/uefi/types.h, inc/config.h, inc/common.h,
      src/uefi/guids.c: status codes, attributes, GUIDs, offsets of the
      authentication descriptor.
    - [Common]: src/common.c, UTF-16 strings and white space.
    - [Names]: the other status codes of inc/uefi/types.h and the name objects
      of src/varnames.c.
    - [Layout]: the structures of inc/ as C lays them out ([sizeof], [OFFSET_OF]),
      and [Headers]: the rest of the constants, GUIDs, names and inline functions
      of inc/.
    - [Barrier]: inc/barrier.h, the accesses by which src/serializer.c reads and
      writes the shared page.
    - [UefiVariable]: inc/variable.h and src/variable.c.  [variable_t] is the
      structure; its invariants are [live_wf] and [canonical].
    - [Storage]: src/storage.c.  The record [storage] holds the globals
      [variables], [total], [used] and [storage_iter_index].
    - [Serializer]: src/serializer.c, [from_bytes_to_vars] of src/variable.c and
      [list_size] of src/xapi.c.
    - [Crypto]: src/uefi/pkcs7_verify.c over the class [OpenSSL].
    - [SigList] and [Auth]: src/uefi/auth.c; signature lists in the first, the
      verification and processing of updates in the second.  [auth_state] holds
      the store, the globals [setup_mode], [auth_enforce] and
      [secure_boot_enabled], and the caller's data object.
    - [AuthLib]: src/uefi/authlib.c over the class [FileSystem].
    - [Server]: src/xen_variable_server.c, [is_secure_boot_variable] of
      src/uefi/utils.c and the backend hooks of inc/backend.h.  [server] adds
      [efi_at_runtime], the shared page, the log level and the backend's own
      state.

    - [CText]: the C library's functions on 8-bit strings, [snprintf] and the
      number readers, and the parts of src/xapi.c that work on text.
    - [Xapi]: src/xapi.c, the backend [xapidb]: saving and resuming, messages
      to the toolstack, sessions, the rate of sends.  [xapi_state] holds its
      globals and the host's state, of any type with an instance of [Host]
      (files, the socket, the clock); base64 and XML are the classes [Base64]
      and [Libxml2].
    - [Concurrent]: the parsers and the dispatcher of src/xen_variable_server.c
      once more, on a page that changes under their hands: a guest is a function
      from the number of the fetch to the page; the handlers behind the parsers
      are those of [Server].
    - [Heap]: the operations of src/variable.c and src/storage.c, and the lists of
      src/xapi.c, once more on a heap of blocks ([heap], [hvar], [hstorage]),
      with [malloc], [realloc] and [free].
    - [LogLevel]: the levels of inc/log.h.
    - [Log]: src/log.c and the macros of inc/log.h, with [storage_print_all], [printargs] and
      [debug_request], on a [console]; GLib's key files are the class
      [GKeyFile].
    - [CertCallbacks]: [pkcs7_print] and [X509_verify_cb] of
      src/uefi/pkcs7_verify.c.
    - [Depriv]: src/depriv.c over the class [Kernel].
    - [Daemon]: src/uefistored.c over the class [Xen] (the hypervisor's
      libraries, XenStore, the remaining system calls).  [daemon] holds the
      server and the file's globals; [main] is composed of [parse_options],
      [open_xen], [open_ioreq_server], [open_ports], [read_flags],
      [load_state], [require_secure_boot] and [handler_loop] in the order of the
      code.

    The calls go Daemon -> Server -> Auth -> Storage -> UefiVariable; Server ->
    Serializer; Auth -> SigList -> Crypto; Daemon -> AuthLib -> Auth; Daemon ->
    Depriv; and the server calls the backend through the record [backend_t],
    whose instance is [xapidb].

    ** How C is represented

    A pointer argument is the object it points into, from the pointed-to byte
    on, or an object with an offset where the code moves a pointer; [None] is
    the null pointer.  A [variable_t *] into the slot array is a slot number.
    Reading or writing outside an object is the result [Fault OutOfBounds], a
    null dereference, a failed [assert] and a division by zero have faults of
    their own; so a theorem that a call returns [Ok] includes that it is
    memory-safe.  A function that changes globals or its buffers is a state
    computation [M S A := S -> outcome (A * S)].  Functions that free memory
    just drop the object: the data of a variable is a value, which [HeapSpec]
    justifies for the store; when other blocks are freed is not modelled.
    [malloc] and [realloc] may refuse a request; the theorems that need memory
    assume [grants n] (requests up to [n] bytes succeed), and [zero_allocator]
    shows that this can hold.  OpenSSL is the class [OpenSSL]: the functions the code
    calls, on abstract certificates and structures; its one law is that a
    SHA-256 digest has 32 bytes.  [toy_openssl] is an instance, used by the
    witnesses.

    ** The theorems

    - The store ([StorageInv], [StorageSpec], [StorageTrace]): the invariant
      [storage_inv] is preserved by every operation; every sequence of calls
      behaves like a finite map from (name, GUID) to values ([abs] and the
      [spec_*] functions), C1; the counters and the limits, C2; enumeration is
      complete and ends.
    - The heap ([HeapVar], [HeapSpec], [HeapLeak]): a simulation between the store with
      pointers and the store without; it uses and frees its blocks properly and
      loses none, C6; the lists made of it lose theirs, C38.
    - Serialization ([SerializerSpec]): round trips of variables and of lists,
      C5; safety of reading untrusted fields.
    - Authentication ([AuthSpec], [AuthSecurity], [PlatformMode],
      [PrivateVars], [SignedData]): keys change only through verified updates in
      user mode, C7; time stamps grow, C12; the platform mode is published and
      follows the PK, C13 and C14; what is signed and how the structure is
      wrapped, C15 and C16, and the missing check on the descriptor's length,
      C17; private variables keep their owner, also when appended to, C28.  [Protected] puts this
      together: whatever requests a guest sends, the keys and the read-only
      variables stay as they are while no signature of theirs verifies, C3,
      against the class [KeepsVariables] of backends.
    - What authentication promises the owner of the keys ([Accepted],
      [AuthObject], [KeyUpdates], [KeyAppends], [KeyEnrolment]): the updates that
      pass are exactly the verified ones, C8; an update of a key laid out as signing tools
      write it ([auth_object]) and signed by a trusted certificate is carried
      out, as a plain update, C9, and as an append, C10; and in setup mode a
      PK signed with the key it carries is enrolled, C11.
    - The server ([Requests], [ServerSpec], [SetVariable], [Session]): the reply
      to each command is the abstract store's, so that a session of requests is
      a session with the abstract store, C18, and the names a guest asks for one
      by one are the accessible variables, C19; reading requests are safe on
      any page below the log level DEBUG, C21, at which a reply to GetVariable
      may be followed by a read past a literal; refused updates, C22; two gaps in the treatment of names: a
      name with its terminator is not taken for a key's, so that keys are
      written, and stored keys hidden, without a signature, C24, and a name of
      one byte is read out of its bounds.
    - The guest at work meanwhile ([Concurrent], [ConcurrentSpec]): every byte of
      a request is fetched once, so that a request whose page changes is as one
      whose page does not, or refused, C20, and leaves a well-formed state, C4;
      but the dispatcher and the handler each fetch the version, and a guest
      that changes it in between stops the daemon, C23.
    - Signature lists ([SigListSpec]): the filter and the format check compute
      functions on structures, C25 and C26; a list of size zero, C27.
    - The backend ([Persistence], [XapiNet]): saving and resuming restores what
      is reported of the store, or nothing when the file is above 32 KiB, C29; the
      message to the toolstack is exact, C30,
      and too long for its buffer for large stores, C31; a response is read
      whole, C32; sends, with a pause or without, are limited in time, C33, but
      three per second are reached where two were meant.
    - The invariant of the whole state ([Triples], [WellFormed], [XapiBackend],
      [StartupSpec]): a calculus of triples; every request keeps the state well
      formed, C34, against the class [KeepsStore] that a backend satisfies, with
      [xapidb_keeps_store] for [xapidb]; from the start of the process every
      state of the daemon is, C37.
    - The daemon ([DaemonSpec], [Depriv], [Enrolment]): with secure boot enabled
      it serves only with the keys enrolled, C35; ready requests are answered,
      C36; the flags read from XenStore, and what is written there;
      the privileges dropped, C39; the command line; the mode at start-up
      matches the PK, C40; what is read of the key files.
    - The headers ([Layout], [Headers], [Names], [Barrier]): the sizes and
      offsets used elsewhere are those of the structures, whose fields are in
      order and disjoint; the readers of fields read the fields; names, GUIDs and
      codes differ from each other; an integer is read from the page and
      written to it in one access, and the cursors of [Serializer] do so.
    - Printing ([LogSpec], [CertCallbacks]): the configured level; nothing is
      printed below DEBUG; what is printed of names and data can be read back,
      but a name that fills its object is read past its end; certificates in
      print and the ones the callback accepts.
    - [Samples], [AuthSamples], [ServerSamples], [XapiSamples],
      [DaemonSamples]: the concrete inputs, with an instance of every class, at
      which the theorems are instantiated.

    ** Fuel and bounds

    A loop whose bound is data takes fuel, one unit per iteration, and running
    out is [Fault OutOfFuel], never a value; a theorem that such a loop returns
    [Ok] therefore includes that it ends.  The loops over signature lists get
    one unit more than the object has bytes (the loop over the certificates of
    a list of the KEK as many as it has certificates): every iteration over a non-empty
    list or signature moves forward by at least a byte, and the iterations that
    do not are the subject of C27.  Loops over the store's slots get the number
    of slots, loops over the variables of a list the declared count.  Numbers
    of the model are those of the code: 128 slots, names of 256 bytes, data of
    32 KiB, a page of 64 KiB.

    Reads from the socket that are interrupted are tried again; [interrupts] bounds
    how often in a row, and the theorems on the backend hold for every bound.
    [handler_loop n] is [n] iterations of the event loop, which has no end;
    theorems hold for every [n].

    ** Not modelled

    The messages that the functions outside [Log] and [CertCallbacks] print:
    they do not change what these functions return, except at the level DEBUG,
    where the arguments of [dprint_name] and [pkcs7_print] matter (see there);
    the comparison that [handle_get_variable] makes at that level is part of its
    model.
    The order in which the processor makes accesses to different places visible
    (the barriers of inc/barrier.h).  In [Concurrent] a reply goes to the page as
    the guest has it when the last byte of the request was fetched.  The function
    types of inc/uefi/hash.h and [free_variable_list] of src/serializer.c, which
    no code uses.  Signals arrive between iterations of the event loop only, and
    what follows the clean-up in the handler (the signal raised again) is the end
    of the run.  [getopt_long] is the list of options it returns.  Fields of an
    I/O request that the guest may change while it is handled are read once.
    The tests, fuzzers and scripts are left aside. *)
From Stdlib Require Export ZArith Lia Strings.Byte.
From stdpp Require Export base list gmap.

#[global] Set Default Goal Selector "!".
#[export] Set Default Proof Using "Type".

Open Scope Z_scope.

Declare Scope uefi_scope.
Delimit Scope uefi_scope with uefi.
Open Scope uefi_scope.

(** ** Faults and outcomes

    A C computation either produces a value or does something the language
    gives no meaning to (or stops the process).  The faults are kept apart, so
    that a theorem can say which of them is reached. *)
Inductive fault : Type :=
  | OutOfBounds   (** access outside an object *)
  | NullDeref     (** access through a null pointer *)
  | DivByZero     (** integer division by zero *)
  | AssertFail    (** a failed [assert], or [abort] *)
  | InvalidFree   (** [free] or [realloc] of a pointer that is not to an allocated block *)
  | OutOfFuel.    (** the loop's iteration budget is exhausted *)

Inductive outcome (A : Type) : Type :=
  | Ok (a : A)
  | Fault (f : fault).
Arguments Ok {A} a.
Arguments Fault {A} f.

Definition obind {A B} (m : outcome A) (k : A -> outcome B) : outcome B :=
  match m with
  | Ok a => k a
  | Fault f => Fault f
  end.

Notation "'let*' x := m 'in' k" := (obind m (fun x => k))
  (at level 10, x pattern, m at level 100, k at level 200,
   format "'[v' 'let*'  x  :=  m  'in' '//' k ']'") : uefi_scope.

(** [assert (cond)]. *)
Definition oassert (b : bool) : outcome unit :=
  if b then Ok tt else Fault AssertFail.

(** ** State with faults *)
Definition M (S A : Type) : Type := S -> outcome (A * S).

Definition ret {S A} (a : A) : M S A := fun s => Ok (a, s).
Definition bind {S A B} (m : M S A) (k : A -> M S B) : M S B :=
  fun s => match m s with
           | Ok (a, s') => k a s'
           | Fault f => Fault f
           end.
Definition mget {S} : M S S := fun s => Ok (s, s).
Definition mput {S} (s : S) : M S unit := fun _ => Ok (tt, s).
Definition mgets {S A} (f : S -> A) : M S A := fun s => Ok (f s, s).
Definition mmodify {S} (f : S -> S) : M S unit := fun s => Ok (tt, f s).
(** A computation without state, run inside a stateful one. *)
Definition mlift {S A} (o : outcome A) : M S A :=
  fun s => match o with
           | Ok a => Ok (a, s)
           | Fault f => Fault f
           end.
(** A computation on a part of the state. *)
Definition mzoom {S T A} (get : S -> T) (put : T -> S -> S) (m : M T A) : M S A :=
  fun s => match m (get s) with
           | Ok (a, t) => Ok (a, put t s)
           | Fault f => Fault f
           end.

Notation "x <- m ;; k" := (bind m (fun x => k))
  (at level 100, m at next level, k at level 200, right associativity) : uefi_scope.
Notation "' p <- m ;; k" := (bind m (fun p => k))
  (at level 20, p pattern, m at level 99, k at level 200) : uefi_scope.
Notation "m ;; k" := (bind m (fun _ => k))
  (at level 100, k at level 200, right associativity) : uefi_scope.

(** [runs m s a s']: the computation [m] started in [s] returns [a] and
    leaves [s']. *)
Definition runs {S A} (m : M S A) (s : S) (a : A) (s' : S) : Prop :=
  m s = Ok (a, s').

Lemma bind_runs {S A B} (m : M S A) (k : A -> M S B) s a s' :
  m s = Ok (a, s') -> bind m k s = k a s'.
Proof. intros H. unfold bind. by rewrite H. Qed.

Lemma bind_inv {S A B} (m : M S A) (k : A -> M S B) s b s'' :
  bind m k s = Ok (b, s'') ->
  exists a s', m s = Ok (a, s') /\ k a s' = Ok (b, s'').
Proof. unfold bind. destruct (m s) as [[a s']|f]; [eauto|done]. Qed.

Lemma obind_inv {A B} (m : outcome A) (k : A -> outcome B) b :
  obind m k = Ok b -> exists a, m = Ok a /\ k a = Ok b.
Proof. destruct m; cbn; [eauto|done]. Qed.

Lemma mlift_runs {S A} (o : outcome A) (s : S) a :
  o = Ok a -> mlift o s = Ok (a, s).
Proof. by intros ->. Qed.

Lemma bind_assoc {S A B C} (m : M S A) (k : A -> M S B) (h : B -> M S C) s :
  bind (bind m k) h s = bind m (fun a => bind (k a) h) s.
Proof. unfold bind. by destruct (m s) as [[]|]. Qed.

(** A computation that leaves the state as it is. *)
Definition keeps {S A} (m : M S A) : Prop := forall s a s', m s = Ok (a, s') -> s' = s.

Lemma keeps_ret {S A} (a : A) : keeps (@ret S A a).
Proof. by intros s b s' [= _ ->]. Qed.
Lemma keeps_mget {S} : keeps (@mget S).
Proof. by intros s b s' [= _ ->]. Qed.
Lemma keeps_mgets {S A} (f : S -> A) : keeps (mgets f).
Proof. by intros s b s' [= _ ->]. Qed.
Lemma keeps_mlift {S A} (o : outcome A) : keeps (@mlift S A o).
Proof. intros s b s'. unfold mlift. destruct o; [|done]. by intros [= _ ->]. Qed.
Lemma keeps_bind {S A B} (m : M S A) (k : A -> M S B) :
  keeps m -> (forall a, keeps (k a)) -> keeps (bind m k).
Proof.
  intros Hm Hk s b s' (a & s1 & H1 & H2)%bind_inv.
  apply Hk in H2 as ->. by eapply Hm.
Qed.
Lemma keeps_mzoom {S T A} (get : S -> T) (put : T -> S -> S) (m : M T A) :
  keeps m -> (forall s, put (get s) s = s) -> keeps (mzoom get put m).
Proof.
  intros Hm Hp s a s'. unfold mzoom. destruct (m (get s)) as [[b t]|] eqn:E; [|done].
  apply Hm in E as ->. intros [= _ <-]. apply Hp.
Qed.

(** ** Machine integers

    A [w]-bit unsigned integer is a [Z]; the wrap-around is written where the
    code's arithmetic can leave the range. *)
Definition u8 (x : Z) : Z := x mod 0x100.
Definition u16 (x : Z) : Z := x mod 0x10000.
Definition u32 (x : Z) : Z := x mod 0x100000000.
Definition u64 (x : Z) : Z := x mod 0x10000000000000000.
(** Conversion to a signed 64-bit integer ([long], [ssize_t]). *)
Definition s64 (x : Z) : Z :=
  let y := u64 x in if y <? 0x8000000000000000 then y else y - 0x10000000000000000.
(** Conversion to a signed 32-bit integer ([int]). *)
Definition s32 (x : Z) : Z :=
  let y := u32 x in if y <? 0x80000000 then y else y - 0x100000000.
Definition INT_MAX : Z := 0x7fffffff.

Lemma u8_id x : 0 <= x < 0x100 -> u8 x = x.
Proof. apply Z.mod_small. Qed.
Lemma u16_id x : 0 <= x < 0x10000 -> u16 x = x.
Proof. apply Z.mod_small. Qed.
Lemma u32_id x : 0 <= x < 0x100000000 -> u32 x = x.
Proof. apply Z.mod_small. Qed.
Lemma u64_id x : 0 <= x < 0x10000000000000000 -> u64 x = x.
Proof. apply Z.mod_small. Qed.
Lemma s64_id x : 0 <= x < 0x8000000000000000 -> s64 x = x.
Proof.
  intros. unfold s64. rewrite u64_id by lia. by rewrite (proj2 (Z.ltb_lt _ _)) by lia.
Qed.
Lemma s32_id x : 0 <= x < 0x80000000 -> s32 x = x.
Proof.
  intros. unfold s32. rewrite u32_id by lia. by rewrite (proj2 (Z.ltb_lt _ _)) by lia.
Qed.
Lemma u64_range x : 0 <= u64 x < 0x10000000000000000.
Proof. by apply Z.mod_pos_bound. Qed.
Lemma u64_diff_0 x y : 0 <= y < 0x10000000000000000 -> u64 (x - y) = 0 -> y = u64 x.
Proof.
  intros Hy Hd. unfold u64 in *. rewrite Zminus_mod in Hd.
  rewrite (Z.mod_small y) in Hd by done. pose proof (u64_range x) as Hx. unfold u64 in Hx.
  destruct (Z.eq_dec y (x mod 0x10000000000000000)); [done|].
  apply Z.mod_divide in Hd as [k Hk]; nia.
Qed.
Lemma u32_range x : 0 <= u32 x < 0x100000000.
Proof. by apply Z.mod_pos_bound. Qed.

(** [attrs & bit]. *)
Definition has (attrs bit : Z) : bool := negb (Z.land attrs bit =? 0).

Lemma ldiff_unset attrs bit : has attrs bit = false -> Z.ldiff attrs bit = attrs.
Proof.
  unfold has. intros Hb%negb_false_iff%Z.eqb_eq.
  rewrite <-(Z.lor_ldiff_and attrs bit) at 2. by rewrite Hb, Z.lor_0_r.
Qed.

(** ** Bytes *)
Abbreviation bytes := (list byte).

Definition byte_of_Z (x : Z) : byte := default x00 (Byte.of_N (Z.to_N (x mod 256))).
Definition Z_of_byte (b : byte) : Z := Z.of_N (Byte.to_N b).

#[export] Instance byte_eq_dec : EqDecision byte := Byte.byte_eq_dec.
#[export] Instance byte_inhabited : Inhabited byte := populate x00.
#[export] Program Instance byte_countable : Countable byte :=
  inj_countable Byte.to_N Byte.of_N _.
Next Obligation. apply Byte.of_to_N. Qed.

Lemma Z_of_byte_range b : 0 <= Z_of_byte b < 256.
Proof. unfold Z_of_byte. pose proof (Byte.to_N_bounded b). lia. Qed.

Lemma byte_of_Z_of_byte b : byte_of_Z (Z_of_byte b) = b.
Proof.
  unfold byte_of_Z. rewrite Z.mod_small by apply Z_of_byte_range.
  unfold Z_of_byte. by rewrite N2Z.id, Byte.of_to_N.
Qed.

Lemma Z_of_byte_of_Z x : Z_of_byte (byte_of_Z x) = x mod 256.
Proof.
  unfold byte_of_Z, Z_of_byte.
  pose proof (Z.mod_pos_bound x 256 ltac:(lia)) as Hx.
  destruct (Byte.of_N (Z.to_N (x mod 256))) as [b|] eqn:E; cbn.
  - apply Byte.to_of_N in E. lia.
  - apply Byte.of_N_None_iff in E. lia.
Qed.

Lemma Z_of_byte_inj b1 b2 : Z_of_byte b1 = Z_of_byte b2 -> b1 = b2.
Proof. intros H. by rewrite <-(byte_of_Z_of_byte b1), H, byte_of_Z_of_byte. Qed.

(** *** Little-endian integers in memory *)
Fixpoint le_encode (n : nat) (x : Z) : bytes :=
  match n with
  | O => []
  | S n' => byte_of_Z x :: le_encode n' (x / 256)
  end.

Fixpoint le_decode (bs : bytes) : Z :=
  match bs with
  | [] => 0
  | b :: bs' => Z_of_byte b + 256 * le_decode bs'
  end.

Lemma length_le_encode n x : length (le_encode n x) = n.
Proof. revert x. induction n; intros; cbn; [done|]. by rewrite IHn. Qed.

Lemma le_decode_range bs : 0 <= le_decode bs < 256 ^ Z.of_nat (length bs).
Proof.
  induction bs as [|b bs IH]; cbn [le_decode length]; [lia|].
  pose proof (Z_of_byte_range b).
  rewrite Nat2Z.inj_succ, Z.pow_succ_r by lia. lia.
Qed.

Lemma le_decode_encode n x : 0 <= x < 256 ^ Z.of_nat n -> le_decode (le_encode n x) = x.
Proof.
  revert x. induction n as [|n IH]; intros x Hx; cbn [le_decode le_encode].
  - cbn in Hx. lia.
  - rewrite Nat2Z.inj_succ, Z.pow_succ_r in Hx by lia.
    rewrite IH, Z_of_byte_of_Z.
    + pose proof (Z.div_mod x 256). lia.
    + split; [apply Z.div_pos; lia|apply Z.div_lt_upper_bound; lia].
Qed.

Lemma le_encode_decode bs : le_encode (length bs) (le_decode bs) = bs.
Proof.
  induction bs as [|b bs IH]; cbn [length le_encode le_decode]; [done|].
  pose proof (Z_of_byte_range b).
  f_equal.
  - apply Z_of_byte_inj. rewrite Z_of_byte_of_Z, Z.mul_comm, Z_mod_plus_full.
    by apply Z.mod_small.
  - by rewrite Z.mul_comm, Z_div_plus_full, (Z.div_small (Z_of_byte b)), Z.add_0_l by lia.
Qed.

Lemma le_decode_encode_mod n x : le_decode (le_encode n x) = x mod 256 ^ Z.of_nat n.
Proof.
  revert x. induction n as [|n IH]; intros x; cbn [le_decode le_encode].
  - by rewrite Z.mod_1_r.
  - rewrite Nat2Z.inj_succ, Z.pow_succ_r by lia.
    rewrite IH, Z_of_byte_of_Z.
    rewrite Z.rem_mul_r by lia. lia.
Qed.

(** ** Objects in memory

    An object is the list of its bytes.  Every access names an offset and a
    size and faults when it leaves the object. *)
Definition zlen {A} (l : list A) : Z := Z.of_nat (length l).

Lemma zlen_nonneg {A} (l : list A) : 0 <= zlen l.
Proof. unfold zlen. lia. Qed.
Lemma zlen_app {A} (l k : list A) : zlen (l ++ k) = zlen l + zlen k.
Proof. unfold zlen. rewrite length_app. lia. Qed.
Lemma zlen_replicate {A} n (x : A) : zlen (replicate n x) = Z.of_nat n.
Proof. unfold zlen. by rewrite length_replicate. Qed.
Lemma zlen_cons {A} (x : A) l : zlen (x :: l) = 1 + zlen l.
Proof. unfold zlen. cbn [length]. lia. Qed.
Lemma zlen_nil {A} : zlen (@nil A) = 0.
Proof. done. Qed.
Lemma zlen_nil_inv {A} (l : list A) : zlen l = 0 -> l = [].
Proof. destruct l; [done|]. rewrite zlen_cons. pose proof (zlen_nonneg l). lia. Qed.
Lemma zlen_take {A} n (l : list A) : zlen (take n l) = Z.min (Z.of_nat n) (zlen l).
Proof. unfold zlen. rewrite length_take. lia. Qed.
Lemma zlen_drop {A} n (l : list A) : zlen (drop n l) = Z.max 0 (zlen l - Z.of_nat n).
Proof. unfold zlen. rewrite length_drop. lia. Qed.
Lemma zlen_le_encode n x : zlen (le_encode n x) = Z.of_nat n.
Proof. unfold zlen. by rewrite length_le_encode. Qed.

(** [n] bytes at offset [off]. *)
Definition read_bytes (src : bytes) (off n : Z) : outcome bytes :=
  if (0 <=? off) && (0 <=? n) && (off + n <=? zlen src)
  then Ok (take (Z.to_nat n) (drop (Z.to_nat off) src))
  else Fault OutOfBounds.

(** The object after [src] has been stored at offset [off]. *)
Definition write_bytes (dst : bytes) (off : Z) (src : bytes) : outcome bytes :=
  if (0 <=? off) && (off + zlen src <=? zlen dst)
  then Ok (take (Z.to_nat off) dst ++ src ++ drop (Z.to_nat (off + zlen src)) dst)
  else Fault OutOfBounds.

(** [memcpy(dst + doff, src + soff, n)]. *)
Definition memcpy (dst : bytes) (doff : Z) (src : bytes) (soff n : Z) : outcome bytes :=
  let* b := read_bytes src soff n in
  write_bytes dst doff b.

(** [memcmp(a + aoff, b + boff, n) == 0]. *)
Definition memcmp_eq (a : bytes) (aoff : Z) (b : bytes) (boff n : Z) : outcome bool :=
  let* x := read_bytes a aoff n in
  let* y := read_bytes b boff n in
  Ok (bool_decide (x = y)).

(** An integer of [n] bytes at offset [off]. *)
Definition read_le (n : nat) (src : bytes) (off : Z) : outcome Z :=
  let* b := read_bytes src off (Z.of_nat n) in
  Ok (le_decode b).

Lemma read_bytes_ok src off n :
  0 <= off -> 0 <= n -> off + n <= zlen src ->
  read_bytes src off n = Ok (take (Z.to_nat n) (drop (Z.to_nat off) src)).
Proof.
  intros. unfold read_bytes.
  by rewrite (proj2 (Z.leb_le 0 off)), (proj2 (Z.leb_le 0 n)), (proj2 (Z.leb_le _ _)) by lia.
Qed.

Lemma read_bytes_oob src off n :
  zlen src < off + n -> read_bytes src off n = Fault OutOfBounds.
Proof.
  intros. unfold read_bytes. rewrite (proj2 (Z.leb_gt (off + n) _)) by lia.
  by rewrite andb_false_r.
Qed.

Lemma read_bytes_inv src off n b :
  read_bytes src off n = Ok b ->
  0 <= off /\ 0 <= n /\ off + n <= zlen src /\
  b = take (Z.to_nat n) (drop (Z.to_nat off) src) /\ zlen b = n.
Proof.
  unfold read_bytes. destruct (_ && _) eqn:E; [|done]. intros [= <-].
  rewrite !andb_true_iff, !Z.leb_le in E.
  rewrite zlen_take, zlen_drop. repeat split; lia || done.
Qed.

Lemma read_bytes_app pre b post :
  read_bytes (pre ++ b ++ post) (zlen pre) (zlen b) = Ok b.
Proof.
  rewrite read_bytes_ok by (rewrite ?zlen_app; pose proof (zlen_nonneg pre);
    pose proof (zlen_nonneg b); pose proof (zlen_nonneg post); lia).
  unfold zlen. rewrite !Nat2Z.id, drop_app_length, take_app_length. done.
Qed.

Lemma read_bytes_full src : read_bytes src 0 (zlen src) = Ok src.
Proof.
  rewrite read_bytes_ok by (pose proof (zlen_nonneg src); lia).
  unfold zlen. rewrite Nat2Z.id. cbn. by rewrite drop_0, firstn_all.
Qed.

Lemma read_bytes_prefix src n :
  0 <= n <= zlen src -> read_bytes src 0 n = Ok (take (Z.to_nat n) src).
Proof. intros. by rewrite read_bytes_ok, drop_0 by lia. Qed.

Lemma write_bytes_ok dst off src :
  0 <= off -> off + zlen src <= zlen dst ->
  write_bytes dst off src
  = Ok (take (Z.to_nat off) dst ++ src ++ drop (Z.to_nat (off + zlen src)) dst).
Proof.
  intros. unfold write_bytes.
  by rewrite (proj2 (Z.leb_le 0 off)), (proj2 (Z.leb_le _ _)) by lia.
Qed.

Lemma write_bytes_inv dst off src d :
  write_bytes dst off src = Ok d ->
  0 <= off /\ off + zlen src <= zlen dst /\
  d = take (Z.to_nat off) dst ++ src ++ drop (Z.to_nat (off + zlen src)) dst.
Proof.
  unfold write_bytes. destruct (_ && _) eqn:E; [|done]. intros [= <-].
  rewrite andb_true_iff, !Z.leb_le in E. repeat split; lia.
Qed.

Lemma write_bytes_length dst off src d :
  write_bytes dst off src = Ok d -> zlen d = zlen dst.
Proof.
  intros (H1 & H2 & ->)%write_bytes_inv.
  pose proof (zlen_nonneg src).
  rewrite !zlen_app, zlen_take, zlen_drop. lia.
Qed.

Lemma write_bytes_full dst src :
  zlen src = zlen dst -> write_bytes dst 0 src = Ok src.
Proof.
  intros H. rewrite write_bytes_ok by lia. rewrite H, Z.add_0_l.
  unfold zlen. rewrite Nat2Z.id, drop_all, app_nil_r. done.
Qed.

Lemma write_bytes_prefix dst src :
  zlen src <= zlen dst ->
  write_bytes dst 0 src = Ok (src ++ drop (length src) dst).
Proof.
  intros H. rewrite write_bytes_ok by lia. rewrite Z.add_0_l.
  unfold zlen. by rewrite Nat2Z.id.
Qed.

Lemma memcmp_eq_ok a b aoff boff n :
  0 <= aoff -> 0 <= boff -> 0 <= n -> aoff + n <= zlen a -> boff + n <= zlen b ->
  memcmp_eq a aoff b boff n
  = Ok (bool_decide (take (Z.to_nat n) (drop (Z.to_nat aoff) a)
                     = take (Z.to_nat n) (drop (Z.to_nat boff) b))).
Proof. intros. unfold memcmp_eq. by rewrite !read_bytes_ok by done. Qed.

(** ** The allocator

    [malloc] may refuse a request; a block it grants has the requested size
    and arbitrary contents.  Which requests are granted, and the contents, are
    a parameter of every definition that allocates. *)
Class Allocator : Type := {
  malloc : Z -> option bytes;
  malloc_size : forall n b, 0 <= n -> malloc n = Some b -> zlen b = n
}.

(** [realloc (p, n)]: the old contents up to the new size. *)
Definition realloc `{Allocator} (p : option bytes) (n : Z) : option bytes :=
  match malloc n with
  | None => None
  | Some fresh =>
      let old := match p with Some b => b | None => [] end in
      Some (take (Z.to_nat n) old ++ drop (length old) fresh)
  end.

Lemma realloc_size `{Allocator} p n b :
  0 <= n -> realloc p n = Some b -> zlen b = n.
Proof.
  intros Hn. unfold realloc. destruct (malloc n) as [f|] eqn:E; [|done].
  apply malloc_size in E; [|done]. intros [= <-].
  rewrite zlen_app, zlen_take, zlen_drop. unfold zlen in *. lia.
Qed.

(** An allocator that grants every request with zeroed memory. *)
Program Definition zero_allocator : Allocator :=
  {| malloc := fun n => Some (replicate (Z.to_nat n) x00) |}.
Next Obligation. intros n b Hn [= <-]. rewrite zlen_replicate. lia. Qed.

(** A program environment in which requests up to [n] bytes are granted. *)
Definition grants `{Allocator} (n : Z) : Prop :=
  forall k, 0 <= k <= n -> is_Some (malloc k).

Lemma zero_allocator_grants n : @grants zero_allocator n.
Proof. intros k _. by eexists. Qed.

Lemma grants_le `{Allocator} n k : grants n -> k <= n -> grants k.
Proof. intros G Hk m Hm. apply G. lia. Qed.

(** A granted block has the size asked for. *)
Lemma grants_block `{Allocator} n k :
  grants n -> 0 <= k <= n -> exists b, malloc k = Some b /\ zlen b = k.
Proof.
  intros G Hk. destruct (G k Hk) as [b Hb]. exists b. split; [done|].
  apply malloc_size in Hb; [done|lia].
Qed.

Lemma realloc_grants `{Allocator} n p k :
  grants n -> 0 <= k <= n -> is_Some (realloc p k).
Proof. intros G Hk. unfold realloc. destruct (G k Hk) as [b ->]. by eexists. Qed.

(** ** Automation *)
Create HintDb uefi.
Create Rewrite HintDb zlen.
#[export] Hint Resolve keeps_ret keeps_mget keeps_mgets keeps_mlift keeps_bind : uefi.
#[export] Hint Resolve zlen_nonneg Z_of_byte_range u64_range u32_range : uefi.
#[export] Hint Rewrite @zlen_app @zlen_replicate @zlen_cons @zlen_nil
  @zlen_take @zlen_drop zlen_le_encode : zlen.

(** Linear arithmetic after the lengths of lists have been computed. *)
Ltac zlia := first [lia | autorewrite with zlen in *; unfold zlen in *; lia].

(** ... and after the code's numeric constants have been unfolded. *)
Create HintDb consts.
Ltac clia := first [zlia | autounfold with consts in *; zlia].

(** Decide the integer comparisons of the goal that arithmetic settles. *)
Ltac zb :=
  repeat match goal with
  | |- context [?a >? ?b] => rewrite (Z.gtb_ltb a b)
  | |- context [?a <? ?b] =>
      first [rewrite (proj2 (Z.ltb_lt a b)) by clia
            |rewrite (proj2 (Z.ltb_ge a b)) by clia]
  | |- context [?a <=? ?b] =>
      first [rewrite (proj2 (Z.leb_le a b)) by clia
            |rewrite (proj2 (Z.leb_gt a b)) by clia]
  | |- context [?a =? ?b] =>
      first [rewrite (proj2 (Z.eqb_eq a b)) by clia
            |rewrite (proj2 (Z.eqb_neq a b)) by clia]
  end; cbn [negb andb orb].

(** Open a run of a bind: split a successful run into its steps. *)
Ltac minv H :=
  lazymatch type of H with
  | bind _ _ _ = Ok _ =>
      let a := fresh "r" in let s := fresh "st" in
      let H1 := fresh "Hrun" in let H2 := fresh "Hrest" in
      apply bind_inv in H as (a & s & H1 & H2)
  | obind _ _ = Ok _ =>
      let a := fresh "r" in
      let H1 := fresh "Hrun" in let H2 := fresh "Hrest" in
      apply obind_inv in H as (a & H1 & H2)
  end.

(** A computation built from ones that keep the state. *)
Ltac keeps :=
  repeat (first [apply keeps_bind; [|intros ?] | apply keeps_ret | apply keeps_mlift
                | apply keeps_mget | apply keeps_mgets | solve [eauto with uefi]
                | case_match | progress cbv zeta]).

(** Filtering is finding again and again. *)
Lemma list_find_filter {A} (P : A -> Prop) `{!forall x, Decision (P x)} (l : list A) :
  filter P l = match list_find P l with
               | Some (j, x) => x :: filter P (drop (S j) l)
               | None => []
               end.
Proof.
  induction l as [|x l IH]; [done|]. rewrite filter_cons. cbn [list_find].
  destruct (decide (P x)); cbn [drop]; [done|].
  rewrite IH. by destruct (list_find P l) as [[j y]|].
Qed.

(** ... also for a stronger property. *)
Lemma filter_find {A} (P Q : A -> Prop) `{!forall x, Decision (P x), !forall x, Decision (Q x)}
    (l : list A) :
  (forall x, P x -> Q x) ->
  filter P l = match list_find Q l with
               | Some (j, x) => filter P (x :: drop (S j) l)
               | None => []
               end.
Proof.
  intros HPQ. induction l as [|x l IH]; [done|]. cbn [list_find].
  destruct (decide (Q x)); cbn [drop]; [done|].
  rewrite filter_cons_False by auto. rewrite IH. by destruct (list_find Q l) as [[j y]|].
Qed.

Lemma ret_inv {S A} (a b : A) (s s' : S) : ret a s = Ok (b, s') -> a = b /\ s = s'.
Proof. by intros [= -> ->]. Qed.

Lemma mlift_inv {S A} (o : outcome A) (s s' : S) a :
  mlift o s = Ok (a, s') -> o = Ok a /\ s' = s.
Proof. unfold mlift. destruct o; [|done]. by intros [= -> ->]. Qed.

(** ** Filling a block from its start *)
Lemma write_next w rest off bs :
  zlen w = off -> zlen bs <= zlen rest ->
  write_bytes (w ++ rest) off bs = Ok ((w ++ bs) ++ drop (length bs) rest).
Proof.
  intros <- Hl. pose proof (zlen_nonneg w).
  rewrite write_bytes_ok by (rewrite ?zlen_app; lia).
  unfold zlen. rewrite Nat2Z.id, take_app_length.
  rewrite drop_app_ge by lia. rewrite <-app_assoc. do 4 f_equal. lia.
Qed.

Lemma memcpy_next w rest off src soff n :
  zlen w = off -> 0 <= soff -> 0 <= n -> soff + n <= zlen src -> n <= zlen rest ->
  memcpy (w ++ rest) off src soff n
  = Ok ((w ++ take (Z.to_nat n) (drop (Z.to_nat soff) src)) ++ drop (Z.to_nat n) rest).
Proof.
  intros Hw Hs Hn Hl Hr. unfold memcpy. rewrite read_bytes_ok by done. cbn [obind].
  assert (E : zlen (take (Z.to_nat n) (drop (Z.to_nat soff) src)) = n) by zlia.
  rewrite write_next by (done || lia). unfold zlen in E. do 3 f_equal. lia.
Qed.

Lemma write_first block bs :
  zlen bs <= zlen block -> write_bytes block 0 bs = Ok (bs ++ drop (length bs) block).
Proof. by apply (write_next [] block). Qed.
Lemma memcpy_first block src n :
  0 <= n -> n <= zlen src -> n <= zlen block ->
  memcpy block 0 src 0 n = Ok (take (Z.to_nat n) src ++ drop (Z.to_nat n) block).
Proof.
  intros. exact (memcpy_next [] block 0 src 0 n eq_refl ltac:(lia) ltac:(lia) ltac:(lia)
                   ltac:(lia)).
Qed.

Lemma write_last w rest off bs :
  zlen w = off -> zlen bs = zlen rest -> write_bytes (w ++ rest) off bs = Ok (w ++ bs).
Proof.
  intros Hw Hl. rewrite write_next by lia. by rewrite drop_ge, app_nil_r by (unfold zlen in Hl; lia).
Qed.

Lemma write_mid a old b bs off :
  zlen a = off -> zlen bs = zlen old -> write_bytes (a ++ old ++ b) off bs = Ok (a ++ bs ++ b).
Proof.
  intros <- Hl. pose proof (zlen_nonneg a). pose proof (zlen_nonneg b).
  rewrite write_bytes_ok by (rewrite ?zlen_app; lia). f_equal.
  unfold zlen in *. rewrite Nat2Z.id, take_app_length. do 2 f_equal.
  rewrite app_assoc, drop_app_length'; [done|]. rewrite length_app. lia.
Qed.

(** ** Parts of an object

    [holds block off bs]: the object has the bytes [bs] at offset [off]. *)
Definition holds (block : bytes) (off : Z) (bs : bytes) : Prop :=
  exists pre post, block = pre ++ bs ++ post /\ zlen pre = off.

Lemma holds_app block off a b :
  holds block off (a ++ b) -> holds block off a /\ holds block (off + zlen a) b.
Proof.
  intros (pre & post & -> & <-). split.
  - exists pre, (b ++ post). by rewrite <-app_assoc.
  - exists (pre ++ a), post. rewrite <-!app_assoc. by rewrite zlen_app.
Qed.

Lemma holds_read block off bs n :
  holds block off bs -> n = zlen bs -> read_bytes block off n = Ok bs.
Proof. intros (pre & post & -> & <-) ->. apply read_bytes_app. Qed.

Lemma holds_read_le block off k x :
  holds block off (le_encode k x) -> 0 <= x < 256 ^ Z.of_nat k -> read_le k block off = Ok x.
Proof.
  intros Hh Hx. unfold read_le. rewrite (holds_read _ _ _ _ Hh) by (by rewrite zlen_le_encode).
  cbn [obind]. by rewrite le_decode_encode.
Qed.

Lemma holds_range block off bs : holds block off bs -> 0 <= off /\ off + zlen bs <= zlen block.
Proof.
  intros (pre & post & -> & <-). pose proof (zlen_nonneg pre). pose proof (zlen_nonneg post).
  rewrite !zlen_app. lia.
Qed.

(** An object after [bs] has been written over its start. *)
Definition overwrite (bs page : bytes) : bytes := bs ++ drop (length bs) page.

Lemma zlen_overwrite bs page : zlen bs <= zlen page -> zlen (overwrite bs page) = zlen page.
Proof. intros H. pose proof (zlen_nonneg bs). unfold overwrite. zlia. Qed.
