(* ===== verification/LogLevel.v ===== *)
(** * Log levels

    The levels of [inc/log.h].  The level is a global variable that
    [logging_init] ([Log.v]) sets before anything else runs. *)
From S2P Require Import Prelude.

(** [enum loglevel] *)
Inductive loglevel_t : Type :=
  | LOGLEVEL_ERROR
  | LOGLEVEL_WARNING
  | LOGLEVEL_INFO
  | LOGLEVEL_DEBUG.

(** The value of the enumeration constant. *)
Definition level_num (l : loglevel_t) : Z :=
  match l with
  | LOGLEVEL_ERROR => 0
  | LOGLEVEL_WARNING => 1
  | LOGLEVEL_INFO => 2
  | LOGLEVEL_DEBUG => 3
  end.

#[export] Instance loglevel_eq_dec : EqDecision loglevel_t.
Proof. solve_decision. Defined.
