(* ===== verification/EfiTypes.v ===== *)
(** * UEFI types, status codes, GUIDs and names

    [inc/uefi/types.h], [inc/config.h], [inc/common.h], [src/uefi/guids.c],
    [src/varnames.c] and the GUID macros of
    [inc/uefi/image_authentication.h]. *)
From S2P Require Export Prelude.

(** ** [inc/uefi/types.h]: status codes *)
Definition MAX_BIT : Z := 0x8000000000000000.
Definition ENCODE_ERROR (a : Z) : Z := Z.lor MAX_BIT a.

Definition EFI_SUCCESS : Z := 0.
Definition EFI_INVALID_PARAMETER : Z := ENCODE_ERROR 2.
Definition EFI_UNSUPPORTED : Z := ENCODE_ERROR 3.
Definition EFI_BUFFER_TOO_SMALL : Z := ENCODE_ERROR 5.
Definition EFI_DEVICE_ERROR : Z := ENCODE_ERROR 7.
Definition EFI_WRITE_PROTECTED : Z := ENCODE_ERROR 8.
Definition EFI_OUT_OF_RESOURCES : Z := ENCODE_ERROR 9.
Definition EFI_NOT_FOUND : Z := ENCODE_ERROR 14.
Definition EFI_SECURITY_VIOLATION : Z := ENCODE_ERROR 26.
Abbreviation EFI_STATUS := Z (only parsing).

(** ** [inc/uefi/types.h]: variable attributes *)
Definition EFI_VARIABLE_NON_VOLATILE : Z := 0x1.
Definition EFI_VARIABLE_BOOTSERVICE_ACCESS : Z := 0x2.
Definition EFI_VARIABLE_RUNTIME_ACCESS : Z := 0x4.
Definition EFI_VARIABLE_HARDWARE_ERROR_RECORD : Z := 0x8.
Definition EFI_VARIABLE_AUTHENTICATED_WRITE_ACCESS : Z := 0x10.
Definition EFI_VARIABLE_TIME_BASED_AUTHENTICATED_WRITE_ACCESS : Z := 0x20.
Definition EFI_VARIABLE_APPEND_WRITE : Z := 0x40.

(** [inc/common.h] *)
Definition RT_BS_ATTRS : Z :=
  Z.lor EFI_VARIABLE_RUNTIME_ACCESS EFI_VARIABLE_BOOTSERVICE_ACCESS.
Definition PAGE_SIZE : Z := Z.shiftl 4 10.
Definition SHMEM_PAGES : Z := 16.
Definition SHMEM_SIZE : Z := SHMEM_PAGES * PAGE_SIZE.
Definition MAX_SHARED_OVMF_MEM : Z := SHMEM_PAGES * PAGE_SIZE.

(** ** [inc/config.h] *)
Definition KB (x : Z) : Z := x * 1024.
Definition UEFISTORED_VERSION : Z := 1.
Definition MAX_VAR_COUNT : Z := 128.
Definition MAX_VARIABLE_NAME_SIZE : Z := 256.
Definition MAX_VARIABLE_NAME_CHARS : Z := Eval cbv in MAX_VARIABLE_NAME_SIZE / 2.
Definition MAX_VARIABLE_DATA_SIZE : Z := KB 32.
Definition MAX_VARIABLE_SIZE : Z := MAX_VARIABLE_NAME_SIZE + MAX_VARIABLE_DATA_SIZE.
Definition MAX_STORAGE_SIZE : Z :=
  MAX_VAR_COUNT * MAX_VARIABLE_NAME_SIZE * MAX_VARIABLE_DATA_SIZE.

#[export] Hint Unfold KB PAGE_SIZE SHMEM_PAGES SHMEM_SIZE MAX_SHARED_OVMF_MEM
  UEFISTORED_VERSION MAX_VAR_COUNT MAX_VARIABLE_NAME_SIZE MAX_VARIABLE_NAME_CHARS
  MAX_VARIABLE_DATA_SIZE MAX_VARIABLE_SIZE MAX_STORAGE_SIZE : consts.

(** ** [EFI_TIME]

    Sixteen bytes without padding; the fields are unsigned. *)
Record EFI_TIME : Type := mk_time {
  Year : Z; Month : Z; Day : Z; Hour : Z; Minute : Z; Second : Z; Pad1 : Z;
  Nanosecond : Z; TimeZone : Z; Daylight : Z; Pad2 : Z
}.
#[export] Instance EFI_TIME_eq_dec : EqDecision EFI_TIME.
Proof. solve_decision. Defined.

Definition zero_time : EFI_TIME := mk_time 0 0 0 0 0 0 0 0 0 0 0.

(** The object representation of an [EFI_TIME], and its inverse. *)
Definition time_bytes (t : EFI_TIME) : bytes :=
  le_encode 2 (Year t) ++ le_encode 1 (Month t) ++ le_encode 1 (Day t) ++
  le_encode 1 (Hour t) ++ le_encode 1 (Minute t) ++ le_encode 1 (Second t) ++
  le_encode 1 (Pad1 t) ++ le_encode 4 (Nanosecond t) ++ le_encode 2 (TimeZone t) ++
  le_encode 1 (Daylight t) ++ le_encode 1 (Pad2 t).

Definition read_time (src : bytes) (off : Z) : outcome EFI_TIME :=
  let* y := read_le 2 src off in
  let* mo := read_le 1 src (off + 2) in
  let* d := read_le 1 src (off + 3) in
  let* h := read_le 1 src (off + 4) in
  let* mi := read_le 1 src (off + 5) in
  let* s := read_le 1 src (off + 6) in
  let* p1 := read_le 1 src (off + 7) in
  let* n := read_le 4 src (off + 8) in
  let* tz := read_le 2 src (off + 12) in
  let* dl := read_le 1 src (off + 14) in
  let* p2 := read_le 1 src (off + 15) in
  Ok (mk_time y mo d h mi s p1 n tz dl p2).

Definition time_ok (t : EFI_TIME) : Prop :=
  0 <= Year t < 0x10000 /\ 0 <= Month t < 0x100 /\ 0 <= Day t < 0x100 /\
  0 <= Hour t < 0x100 /\ 0 <= Minute t < 0x100 /\ 0 <= Second t < 0x100 /\
  0 <= Pad1 t < 0x100 /\ 0 <= Nanosecond t < 0x100000000 /\
  0 <= TimeZone t < 0x10000 /\ 0 <= Daylight t < 0x100 /\ 0 <= Pad2 t < 0x100.

Lemma zlen_time_bytes t : zlen (time_bytes t) = 16.
Proof. unfold time_bytes. by autorewrite with zlen. Qed.
Lemma zero_time_ok : time_ok zero_time.
Proof. unfold time_ok; cbn; lia. Qed.
#[export] Hint Resolve zero_time_ok : uefi.

(** ** [EFI_GUID]

    The code only copies and compares the sixteen bytes of a GUID, so a GUID
    is its object representation. *)
Abbreviation EFI_GUID := bytes (only parsing).
Definition mk_guid (d1 d2 d3 : Z) (d4 : list Z) : EFI_GUID :=
  le_encode 4 d1 ++ le_encode 2 d2 ++ le_encode 2 d3 ++ (byte_of_Z <$> d4).
Definition zero_guid : EFI_GUID := replicate 16 x00.

(** [src/uefi/guids.c] *)
Definition gEfiGlobalVariableGuid : EFI_GUID :=
  mk_guid 0x8BE4DF61 0x93CA 0x11D2 [0xAA; 0x0D; 0x00; 0xE0; 0x98; 0x03; 0x2B; 0x8C].
Definition gShimLockGuid : EFI_GUID :=
  mk_guid 0x605dab50 0xe046 0x4300 [0xab; 0xb6; 0x3d; 0xd8; 0x10; 0xdd; 0x8b; 0x23].
Definition gEfiCertDbGuid : EFI_GUID :=
  mk_guid 0xd9bee56e 0x75dc 0x49d9 [0xb4; 0xd7; 0xb5; 0x34; 0x21; 0xf; 0x63; 0x7a].
Definition gEfiVendorKeysNvGuid : EFI_GUID :=
  mk_guid 0x9073e4e0 0x60ec 0x4b6e [0x99; 0x3; 0x4c; 0x22; 0x3c; 0x26; 0xf; 0x3c].
Definition gEfiFileInfoGuid : EFI_GUID :=
  mk_guid 0x09576E92 0x6D3F 0x11D2 [0x8E; 0x39; 0x00; 0xA0; 0xC9; 0x69; 0x72; 0x3B].
Definition gEfiImageSecurityDatabaseGuid : EFI_GUID :=
  mk_guid 0xd719b2cb 0x3d3a 0x4596 [0xa3; 0xbc; 0xda; 0xd0; 0xe; 0x67; 0x65; 0x6f].
Definition gEfiCertX509Guid : EFI_GUID :=
  mk_guid 0xa5c059a1 0x94e4 0x4aa7 [0x87; 0xb5; 0xab; 0x15; 0x5c; 0x2b; 0xf0; 0x72].
Definition gEfiCertPkcs7Guid : EFI_GUID :=
  mk_guid 0x4aafd29d 0x68df 0x49ee [0x8a; 0xa9; 0x34; 0x7d; 0x37; 0x56; 0x65; 0xa7].
Definition gEfiSecureBootEnableDisableGuid : EFI_GUID :=
  mk_guid 0xf0a30bc7 0xaf08 0x4556 [0x99; 0xc4; 0x0; 0x10; 0x9; 0xc9; 0x3a; 0x44].
Definition gEfiCustomModeEnableGuid : EFI_GUID :=
  mk_guid 0xc076ec0c 0x7028 0x4399 [0xa0; 0x72; 0x71; 0xee; 0x5c; 0x44; 0x8b; 0x9f].

(** [inc/uefi/image_authentication.h]: signature types. *)
Definition EFI_CERT_SHA256_GUID : EFI_GUID :=
  mk_guid 0xc1c41626 0x504c 0x4092 [0xac; 0xa9; 0x41; 0xf9; 0x36; 0x93; 0x43; 0x28].
Definition EFI_CERT_RSA2048_GUID : EFI_GUID :=
  mk_guid 0x3c5766e8 0x269c 0x4e34 [0xaa; 0x14; 0xed; 0x77; 0x6e; 0x85; 0xb3; 0xb6].
Definition EFI_CERT_RSA2048_SHA256_GUID : EFI_GUID :=
  mk_guid 0xe2b36190 0x879b 0x4a3d [0xad; 0x8d; 0xf2; 0xe7; 0xbb; 0xa3; 0x27; 0x84].
Definition EFI_CERT_SHA1_GUID : EFI_GUID :=
  mk_guid 0x826ca512 0xcf10 0x4ac9 [0xb1; 0x87; 0xbe; 0x1; 0x49; 0x66; 0x31; 0xbd].
Definition EFI_CERT_RSA2048_SHA1_GUID : EFI_GUID :=
  mk_guid 0x67f8444f 0x8743 0x48f1 [0xa3; 0x28; 0x1e; 0xaa; 0xb8; 0x73; 0x60; 0x80].
Definition EFI_CERT_X509_GUID : EFI_GUID :=
  mk_guid 0xa5c059a1 0x94e4 0x4aa7 [0x87; 0xb5; 0xab; 0x15; 0x5c; 0x2b; 0xf0; 0x72].
Definition EFI_CERT_SHA224_GUID : EFI_GUID :=
  mk_guid 0xb6e5233 0xa65c 0x44c9 [0x94; 0x7; 0xd9; 0xab; 0x83; 0xbf; 0xc8; 0xbd].
Definition EFI_CERT_SHA384_GUID : EFI_GUID :=
  mk_guid 0xff3e5307 0x9fd0 0x48c9 [0x85; 0xf1; 0x8a; 0xd5; 0x6c; 0x70; 0x1e; 0x1].
Definition EFI_CERT_SHA512_GUID : EFI_GUID :=
  mk_guid 0x93e0fae 0xa6c4 0x4f50 [0x9f; 0x1b; 0xd4; 0x1e; 0x2b; 0x89; 0xc1; 0x9a].
Definition EFI_CERT_X509_SHA256_GUID : EFI_GUID :=
  mk_guid 0x3bd2a492 0x96c0 0x4079 [0xb4; 0x20; 0xfc; 0xf9; 0x8e; 0xf1; 0x03; 0xed].
Definition EFI_CERT_X509_SHA384_GUID : EFI_GUID :=
  mk_guid 0x7076876e 0x80c2 0x4ee6 [0xaa; 0xd2; 0x28; 0xb3; 0x49; 0xa6; 0x86; 0x5b].
Definition EFI_CERT_X509_SHA512_GUID : EFI_GUID :=
  mk_guid 0x446dbf63 0x2502 0x4cda [0xbc; 0xfa; 0x24; 0x65; 0xd2; 0xb0; 0xfe; 0x9d].

(** [inc/uefi/utils.h] *)
Definition compare_guid (guid1 guid2 : EFI_GUID) : bool := bool_decide (guid1 = guid2).

Lemma compare_guid_spec g1 g2 : compare_guid g1 g2 = true <-> g1 = g2.
Proof. apply bool_decide_eq_true. Qed.

(** ** Wide string literals

    [L"..."] with 16-bit characters ([-fshort-wchar]): the object includes the
    terminating zero character; [sizeof_wchar] leaves it out. *)
Fixpoint wchars (cs : list Z) : bytes :=
  match cs with
  | [] => []
  | c :: cs' => le_encode 2 c ++ wchars cs'
  end.
Definition L (cs : list Z) : bytes := wchars cs ++ le_encode 2 0.
Definition sizeof_wchar (str : bytes) : Z := zlen str - 2.

Definition EFI_PLATFORM_KEY_NAME : bytes := L [0x50; 0x4b].
Definition EFI_KEY_EXCHANGE_KEY_NAME : bytes := L [0x4b; 0x45; 0x4b].
Definition EFI_IMAGE_SECURITY_DATABASE : bytes := L [0x64; 0x62].
Definition EFI_IMAGE_SECURITY_DATABASE1 : bytes := L [0x64; 0x62; 0x78].
Definition EFI_IMAGE_SECURITY_DATABASE2 : bytes := L [0x64; 0x62; 0x74].
(** "SecureBoot" *)
Definition EFI_SECURE_BOOT_MODE_NAME : bytes :=
  L [0x53; 0x65; 0x63; 0x75; 0x72; 0x65; 0x42; 0x6f; 0x6f; 0x74].
(** "SetupMode" *)
Definition EFI_SETUP_MODE_NAME : bytes :=
  L [0x53; 0x65; 0x74; 0x75; 0x70; 0x4d; 0x6f; 0x64; 0x65].
(** "AuditMode" *)
Definition AUDIT_MODE_NAME : bytes :=
  L [0x41; 0x75; 0x64; 0x69; 0x74; 0x4d; 0x6f; 0x64; 0x65].
(** "DeployedMode" *)
Definition DEPLOYED_MODE_NAME : bytes :=
  L [0x44; 0x65; 0x70; 0x6c; 0x6f; 0x79; 0x65; 0x64; 0x4d; 0x6f; 0x64; 0x65].
(** "SignatureSupport" *)
Definition EFI_SIGNATURE_SUPPORT_NAME : bytes :=
  L [0x53; 0x69; 0x67; 0x6e; 0x61; 0x74; 0x75; 0x72; 0x65;
     0x53; 0x75; 0x70; 0x70; 0x6f; 0x72; 0x74].
(** "SecureBootEnable" *)
Definition EFI_SECURE_BOOT_ENABLE_NAME : bytes :=
  L [0x53; 0x65; 0x63; 0x75; 0x72; 0x65; 0x42; 0x6f; 0x6f; 0x74;
     0x45; 0x6e; 0x61; 0x62; 0x6c; 0x65].

(** ** Commands of the RPC protocol ([command_t]) *)
Definition COMMAND_GET_VARIABLE : Z := 0.
Definition COMMAND_SET_VARIABLE : Z := 1.
Definition COMMAND_GET_NEXT_VARIABLE : Z := 2.
Definition COMMAND_QUERY_VARIABLE_INFO : Z := 3.
Definition COMMAND_NOTIFY_SB_FAILURE : Z := 4.

(** ** Platform modes and certificate types *)
Definition SETUP_MODE : Z := 1.
Definition USER_MODE : Z := 0.
Definition WIN_CERT_TYPE_EFI_GUID : Z := 0x0EF1.
Definition TWO_BYTE_ENCODE : Z := 0x82.
Definition SHA256_DIGEST_SIZE : Z := 32.

(** ** Layout of the packed structures

    Offsets and sizes the code computes with [sizeof] and [OFFSET_OF]. *)
Definition sizeof_EFI_GUID : Z := 16.
Definition sizeof_EFI_TIME : Z := 16.
(** [OFFSET_OF (EFI_VARIABLE_AUTHENTICATION_2, AuthInfo)] *)
Definition OFFSET_OF_AUTHINFO2 : Z := 16.
(** [OFFSET_OF (WIN_CERTIFICATE_UEFI_GUID, CertData)] *)
Definition OFFSET_OF_CERTDATA : Z := 24.
Definition OFFSET_OF_AUTHINFO2_CERT_DATA : Z := OFFSET_OF_AUTHINFO2 + OFFSET_OF_CERTDATA.
(** [AUTHINFO_SIZE]: monotonic count, certificate header, RSA-2048 block. *)
Definition AUTHINFO_SIZE : Z := 8 + OFFSET_OF_CERTDATA + (16 + 256 + 256).
Definition sizeof_EFI_SIGNATURE_LIST : Z := 28.
(** [sizeof (EFI_SIGNATURE_DATA)]: the owner and one byte of data. *)
Definition sizeof_EFI_SIGNATURE_DATA : Z := 17.

#[export] Hint Unfold sizeof_EFI_GUID sizeof_EFI_TIME OFFSET_OF_AUTHINFO2
  OFFSET_OF_CERTDATA OFFSET_OF_AUTHINFO2_CERT_DATA AUTHINFO_SIZE
  sizeof_EFI_SIGNATURE_LIST sizeof_EFI_SIGNATURE_DATA SHA256_DIGEST_SIZE : consts.

(** [AUTHINFO2_SIZE (data)] reads the certificate's length field. *)
Definition AUTHINFO2_SIZE (data : bytes) : outcome Z :=
  let* dwLength := read_le 4 data 16 in
  Ok (u64 (OFFSET_OF_AUTHINFO2 + dwLength)).
