(* ===== verification/Common.v ===== *)
(** * Common string helpers

    [src/common.c]: UTF-16 strings, the white-space stripper of the command
    line and the names of status codes.  A [const UTF16 *] argument is the
    object it points into, from the pointed-to byte to the object's end;
    [None] is the null pointer. *)
From stdpp Require Import strings.
From S2P Require Import Prelude EfiTypes.

(** ** [strlen16] *)

(** The loop: one 16-bit character at a time until the zero character.
    Reading past the object's end faults. *)
Fixpoint strlen16_loop (p1 : bytes) : outcome Z :=
  match p1 with
  | b0 :: b1 :: rest =>
      if le_decode [b0; b1] =? 0 then Ok 0
      else let* len := strlen16_loop rest in Ok (len + 1)
  | _ => Fault OutOfBounds
  end.

Definition strlen16 (str : option bytes) : outcome Z :=
  match str with
  | None => Ok 0
  | Some s => strlen16_loop s
  end.

Definition strsize16 (str : option bytes) : outcome Z :=
  match str with
  | None => Ok 0
  | Some _ => let* len := strlen16 str in Ok (u64 (len * 2))
  end.

(** ** [uc2_ascii_safe], [uc2_ascii]

    [ascii] is the destination object, returned with its new contents. *)
Fixpoint uc2_ascii_loop (fuel : nat) (uc2 : bytes) (uc2_len : Z) (ascii : bytes)
    (len i : Z) : outcome (bytes * Z) :=
  match fuel with
  | O => Fault OutOfFuel
  | S fuel' =>
      if (i <? uc2_len) && (i <? len) then
        let* c := read_le 2 uc2 (2 * i) in
        if c =? 0 then Ok (ascii, i)
        else
          let* ascii' := write_bytes ascii i [byte_of_Z c] in
          uc2_ascii_loop fuel' uc2 uc2_len ascii' len (i + 1)
      else Ok (ascii, i)
  end.

Definition uc2_ascii_safe (uc2 : option bytes) (uc2_len : Z) (ascii : option bytes)
    (len : Z) : outcome (option bytes) :=
  match uc2, ascii with
  | Some u, Some a =>
      let* (a', i) := uc2_ascii_loop (S (length u)) u uc2_len a len 0 in
      let* a'' := write_bytes a' i [x00] in
      Ok (Some a'')
  | _, _ => Ok ascii
  end.

Definition uc2_ascii (uc2 ascii : option bytes) (len : Z) : outcome (option bytes) :=
  match uc2, ascii with
  | Some _, Some _ =>
      let* sz := strsize16 uc2 in
      uc2_ascii_safe uc2 (sz + 2) ascii len
  | _, _ => Ok ascii
  end.

(** ** [strcmp16], [strncpy16] *)

(** The value of [memcmp] on two byte sequences of the same length: the sign
    of the first difference. *)
Fixpoint memcmp_sign (a b : bytes) : Z :=
  match a, b with
  | x :: a', y :: b' =>
      if Z_of_byte x =? Z_of_byte y then memcmp_sign a' b'
      else if Z_of_byte x <? Z_of_byte y then -1 else 1
  | _, _ => 0
  end.

Definition strcmp16 (a b : option bytes) : outcome Z :=
  match a, b with
  | Some sa, Some sb =>
      let* a_sz := strsize16 a in
      let* b_sz := strsize16 b in
      if negb (a_sz =? b_sz) then Ok (-1)
      else
        let n := if a_sz <? b_sz then a_sz else b_sz in
        let* x := read_bytes sa 0 n in
        let* y := read_bytes sb 0 n in
        Ok (memcmp_sign x y)
  | _, _ => Ok (-1)
  end.

(** Returns the status and the new contents of the object [a] points to. *)
Definition strncpy16 (a b : option bytes) (n : Z) : outcome (Z * option bytes) :=
  match a, b with
  | Some da, Some sb =>
      let* b_sz := strsize16 b in
      if b_sz >? n then Ok (-1, a)
      else let* da' := memcpy da 0 sb 0 b_sz in Ok (0, Some da')
  | _, _ => Ok (-1, a)
  end.

(** ** [strstrip] *)

(** [isspace] in the C locale. *)
Definition isspace (c : byte) : bool :=
  let z := Z_of_byte c in (z =? 0x20) || ((0x09 <=? z) && (z <=? 0x0d)).

(** [strlen] on 8-bit strings. *)
Fixpoint strlen (s : bytes) : outcome Z :=
  match s with
  | [] => Fault OutOfBounds
  | b :: s' =>
      if bool_decide (b = x00) then Ok 0
      else let* n := strlen s' in Ok (n + 1)
  end.

(** [while (end >= s && isspace( *end)) end--]; [k] is [end - s + 1]. *)
Fixpoint strip_end (s : bytes) (k : nat) : nat :=
  match k with
  | O => O
  | S k' => if isspace (s !!! k') then strip_end s k' else k
  end.

(** [while ( *s && isspace( *s)) s++]: how far the pointer advances. *)
Fixpoint strip_start (s : bytes) : nat :=
  match s with
  | b :: s' => if negb (bool_decide (b = x00)) && isspace b then S (strip_start s') else O
  | [] => O
  end.

(** The pointer returned, as an offset into [s], and the new contents of the
    object. *)
Definition strstrip (s : bytes) : outcome (Z * bytes) :=
  let* size := strlen s in
  if size =? 0 then Ok (0, s)
  else
    let k := strip_end s (Z.to_nat size) in
    let* s' := write_bytes s (Z.of_nat k) [x00] in
    Ok (Z.of_nat (strip_start s'), s').

(** ** [efi_status_str] *)
Definition efi_status_str (status : EFI_STATUS) : string :=
  if status =? EFI_SUCCESS then "EFI_SUCCESS"
  else if status =? EFI_INVALID_PARAMETER then "EFI_INVALID_PARAMETER"
  else if status =? EFI_UNSUPPORTED then "EFI_UNSUPPORTED"
  else if status =? EFI_DEVICE_ERROR then "EFI_DEVICE_ERROR"
  else if status =? EFI_NOT_FOUND then "EFI_NOT_FOUND"
  else if status =? EFI_BUFFER_TOO_SMALL then "EFI_BUFFER_TOO_SMALL"
  else if status =? EFI_OUT_OF_RESOURCES then "EFI_OUT_OF_RESOURCES"
  else if status =? EFI_SECURITY_VIOLATION then "EFI_SECURITY_VIOLATION"
  else "UNKNOWN".

(** ** Strings and their contents

    [cstr16 p cs]: the object starts with the characters [cs], none of them
    zero, followed by the zero character. *)
Definition char16_ok (c : Z) : Prop := 0 < c < 0x10000.

Definition cstr16 (p : bytes) (cs : list Z) : Prop :=
  Forall char16_ok cs /\ exists rest, p = wchars cs ++ le_encode 2 0 ++ rest.

Lemma zlen_wchars cs : zlen (wchars cs) = 2 * zlen cs.
Proof.
  induction cs as [|c cs IH]; cbn [wchars]; [done|].
  rewrite zlen_app, zlen_le_encode, IH, zlen_cons. lia.
Qed.
#[export] Hint Rewrite zlen_wchars : zlen.

Lemma strlen16_loop_char c rest :
  char16_ok c ->
  strlen16_loop (le_encode 2 c ++ rest) = let* n := strlen16_loop rest in Ok (n + 1).
Proof.
  intros Hc. pose proof (le_decode_encode 2 c) as E.
  cbn [le_encode app strlen16_loop] in *.
  rewrite E by (unfold char16_ok in Hc; lia).
  by rewrite (proj2 (Z.eqb_neq c 0)) by (unfold char16_ok in Hc; lia).
Qed.

Lemma strlen16_cstr p cs : cstr16 p cs -> strlen16 (Some p) = Ok (zlen cs).
Proof.
  intros [Hcs [rest ->]]. cbn [strlen16].
  induction Hcs as [|c cs Hc Hcs IH]; [done|].
  cbn [wchars]. rewrite <-app_assoc, strlen16_loop_char by done.
  rewrite IH. cbn [obind]. rewrite zlen_cons. f_equal. lia.
Qed.

Lemma strlen16_inv p n : strlen16 (Some p) = Ok n -> exists cs, cstr16 p cs /\ n = zlen cs.
Proof.
  cbn [strlen16]. revert n. induction p as [p IH] using (induction_ltof1 _ (@length byte)).
  intros n. destruct p as [|b0 [|b1 rest]]; cbn [strlen16_loop]; [done|done|].
  pose proof (le_decode_range [b0; b1]) as Hr.
  pose proof (le_encode_decode [b0; b1]) as He. cbn [length] in He, Hr.
  destruct (le_decode [b0; b1] =? 0) eqn:E.
  - intros [= <-]. apply Z.eqb_eq in E. exists []. split; [|done].
    split; [constructor|]. exists rest. rewrite <-E. cbn [wchars]. by rewrite He.
  - intros H. apply obind_inv in H as (m & Hm & [= <-]).
    apply Z.eqb_neq in E.
    destruct (IH rest) with (n := m) as (cs & [Hcs [r ->]] & ->).
    { unfold ltof; cbn; lia. }
    { done. }
    exists (le_decode [b0; b1] :: cs). split; [|rewrite zlen_cons; lia].
    split; [constructor; [unfold char16_ok; lia|done]|].
    exists r. cbn [wchars]. by rewrite He.
Qed.

(** Equal prefixes encode the same character. *)
Lemma le_encode2_app_inj c d r1 r2 :
  0 <= c < 0x10000 -> 0 <= d < 0x10000 ->
  le_encode 2 c ++ r1 = le_encode 2 d ++ r2 -> c = d /\ r1 = r2.
Proof.
  intros Hc Hd E. apply app_inj_1 in E as [E ->]; [|by rewrite !length_le_encode].
  apply (f_equal le_decode) in E. by rewrite !le_decode_encode in E by lia.
Qed.

(** The contents of a string are determined by the object. *)
Lemma wchars_inj cs ds r1 r2 :
  Forall char16_ok cs -> Forall char16_ok ds ->
  wchars cs ++ le_encode 2 0 ++ r1 = wchars ds ++ le_encode 2 0 ++ r2 -> cs = ds.
Proof.
  unfold char16_ok. intros Hcs. revert ds.
  induction Hcs as [|c cs Hc Hcs IH]; intros [|d ds] Hds E; [done| | |];
    try apply Forall_cons in Hds as [Hd Hds]; cbn [wchars] in E;
    rewrite <-?app_assoc in E; apply le_encode2_app_inj in E as [E1 E2]; try lia.
  f_equal; [done|by apply IH].
Qed.

Lemma cstr16_fun p cs ds : cstr16 p cs -> cstr16 p ds -> cs = ds.
Proof.
  intros [Hcs [r1 ->]] [Hds [r2 E]]. by eapply wchars_inj.
Qed.

Lemma memcmp_sign_zero a b :
  length a = length b -> memcmp_sign a b = 0 <-> a = b.
Proof.
  revert b. induction a as [|x a IH]; intros [|y b] Hl; cbn; try done.
  destruct (Z_of_byte x =? Z_of_byte y) eqn:E.
  - apply Z.eqb_eq, Z_of_byte_inj in E as ->.
    rewrite IH by (cbn in Hl; lia). split; [by intros ->|by intros [= ->]].
  - apply Z.eqb_neq in E.
    split; [destruct (_ <? _); lia|]. intros [= -> ->]. done.
Qed.

Lemma strsize16_cstr p cs :
  cstr16 p cs -> zlen p < 0x10000000000000000 -> strsize16 (Some p) = Ok (2 * zlen cs).
Proof.
  intros H Hp. cbn [strsize16]. rewrite (strlen16_cstr _ _ H). cbn [obind].
  destruct H as [_ [r ->]]. rewrite u64_id by zlia. f_equal. lia.
Qed.

(** [strcmp16] decides equality of the strings' contents. *)
Lemma strcmp16_cstr p q cs ds :
  cstr16 p cs -> cstr16 q ds ->
  zlen p < 0x10000000000000000 -> zlen q < 0x10000000000000000 ->
  exists r, strcmp16 (Some p) (Some q) = Ok r /\ (r = 0 <-> cs = ds).
Proof.
  intros Hp Hq Lp Lq. unfold strcmp16.
  rewrite (strsize16_cstr _ _ Hp Lp), (strsize16_cstr _ _ Hq Lq). cbn [obind].
  destruct (2 * zlen cs =? 2 * zlen ds) eqn:E; cbn [negb]; cycle 1.
  { apply Z.eqb_neq in E. exists (-1). split; [done|]. split; [lia|]. intros ->. lia. }
  apply Z.eqb_eq in E. rewrite E, Z.ltb_irrefl.
  destruct Hp as [Fc [r1 ->]], Hq as [Fd [r2 ->]].
  rewrite !read_bytes_prefix by zlia. cbn [obind].
  assert (Hlc : Z.to_nat (2 * zlen ds) = length (wchars cs)).
  { pose proof (zlen_wchars cs). unfold zlen in *. lia. }
  assert (Hld : Z.to_nat (2 * zlen ds) = length (wchars ds)).
  { pose proof (zlen_wchars ds). unfold zlen in *. lia. }
  rewrite Hlc, take_app_length, <-Hlc, Hld, take_app_length.
  eexists. split; [done|]. rewrite memcmp_sign_zero by congruence.
  split; [|by intros ->]. intros Hw.
  apply (wchars_inj cs ds [] []); [done|done|]. by rewrite Hw.
Qed.

Lemma cstr16_L cs : Forall char16_ok cs -> cstr16 (L cs) cs.
Proof. intros H. split; [done|]. exists []. unfold L. by rewrite app_nil_r. Qed.
