(* ===== verification/Names.v ===== *)
(** * Status codes and name objects

    The rest of the status codes of [inc/uefi/types.h], with the macros that
    classify them, and the name objects of [src/varnames.c]. *)
From Stdlib Require Import Strings.String.
From S2P Require Import Prelude EfiTypes Common.

(** ** Status codes *)
Definition ENCODE_WARNING (a : Z) : Z := u64 a.

Definition EFI_LOAD_ERROR : Z := ENCODE_ERROR 1.
Definition EFI_BAD_BUFFER_SIZE : Z := ENCODE_ERROR 4.
Definition EFI_NOT_READY : Z := ENCODE_ERROR 6.
Definition EFI_VOLUME_CORRUPTED : Z := ENCODE_ERROR 10.
Definition EFI_VOLUME_FULL : Z := ENCODE_ERROR 11.
Definition EFI_NO_MEDIA : Z := ENCODE_ERROR 12.
Definition EFI_MEDIA_CHANGED : Z := ENCODE_ERROR 13.
Definition EFI_ACCESS_DENIED : Z := ENCODE_ERROR 15.
Definition EFI_NO_RESPONSE : Z := ENCODE_ERROR 16.
Definition EFI_NO_MAPPING : Z := ENCODE_ERROR 17.
Definition EFI_TIMEOUT : Z := ENCODE_ERROR 18.
Definition EFI_NOT_STARTED : Z := ENCODE_ERROR 19.
Definition EFI_ALREADY_STARTED : Z := ENCODE_ERROR 20.
Definition EFI_ABORTED : Z := ENCODE_ERROR 21.
Definition EFI_ICMP_ERROR : Z := ENCODE_ERROR 22.
Definition EFI_TFTP_ERROR : Z := ENCODE_ERROR 23.
Definition EFI_PROTOCOL_ERROR : Z := ENCODE_ERROR 24.
Definition EFI_INCOMPATIBLE_VERSION : Z := ENCODE_ERROR 25.
Definition EFI_CRC_ERROR : Z := ENCODE_ERROR 27.
Definition EFI_END_OF_MEDIA : Z := ENCODE_ERROR 28.
Definition EFI_END_OF_FILE : Z := ENCODE_ERROR 31.

Definition EFI_WARN_UNKNOWN_GLYPH : Z := ENCODE_WARNING 1.
Definition EFI_WARN_DELETE_FAILURE : Z := ENCODE_WARNING 2.
Definition EFI_WARN_WRITE_FAILURE : Z := ENCODE_WARNING 3.
Definition EFI_WARN_BUFFER_TOO_SMALL : Z := ENCODE_WARNING 4.

(** [((uint64_t) (RETURN_STATUS) (a)) < 0] on unsigned integers. *)
Definition RETURN_ERROR (a : Z) : bool := u64 a <? 0.
Definition EFI_ERROR (a : Z) : bool := negb (a =? EFI_SUCCESS).

(** All the codes, success first. *)
Definition error_codes : list Z :=
  [EFI_LOAD_ERROR; EFI_INVALID_PARAMETER; EFI_UNSUPPORTED; EFI_BAD_BUFFER_SIZE;
   EFI_BUFFER_TOO_SMALL; EFI_NOT_READY; EFI_DEVICE_ERROR; EFI_WRITE_PROTECTED;
   EFI_OUT_OF_RESOURCES; EFI_VOLUME_CORRUPTED; EFI_VOLUME_FULL; EFI_NO_MEDIA;
   EFI_MEDIA_CHANGED; EFI_NOT_FOUND; EFI_ACCESS_DENIED; EFI_NO_RESPONSE; EFI_NO_MAPPING;
   EFI_TIMEOUT; EFI_NOT_STARTED; EFI_ALREADY_STARTED; EFI_ABORTED; EFI_ICMP_ERROR;
   EFI_TFTP_ERROR; EFI_PROTOCOL_ERROR; EFI_INCOMPATIBLE_VERSION; EFI_SECURITY_VIOLATION;
   EFI_CRC_ERROR; EFI_END_OF_MEDIA; EFI_END_OF_FILE].
Definition warning_codes : list Z :=
  [EFI_WARN_UNKNOWN_GLYPH; EFI_WARN_DELETE_FAILURE; EFI_WARN_WRITE_FAILURE;
   EFI_WARN_BUFFER_TOO_SMALL].

(** The codes differ from each other, and the errors are the ones with the
    upper bit; [RETURN_ERROR], which compares an unsigned integer with zero, holds
    of none of them, while [EFI_ERROR] holds of the warnings too. *)
Theorem status_codes_classified :
  NoDup (EFI_SUCCESS :: error_codes ++ warning_codes) /\
  Forall (fun e => Z.testbit e 63 = true /\ 0 <= e < 0x10000000000000000) error_codes /\
  Forall (fun e => Z.testbit e 63 = false) (EFI_SUCCESS :: warning_codes) /\
  (forall a, RETURN_ERROR a = false) /\
  (forall a, EFI_ERROR a = true <-> a <> EFI_SUCCESS).
Proof.
  split_and!.
  - apply (bool_decide_unpack _). by vm_compute.
  - apply (bool_decide_unpack _). by vm_compute.
  - apply (bool_decide_unpack _). by vm_compute.
  - intros a. unfold RETURN_ERROR. pose proof (u64_range a). apply Z.ltb_ge. lia.
  - intros a. unfold EFI_ERROR. rewrite negb_true_iff. apply Z.eqb_neq.
Qed.

(** The names [efi_status_str] knows; WRITE_PROTECTED, with which the server
    refuses updates of the read-only variables, is not one of them. *)
Theorem status_name_unknown (status : EFI_STATUS) :
  efi_status_str status = "UNKNOWN"%string <->
  status ∉ [EFI_SUCCESS; EFI_INVALID_PARAMETER; EFI_UNSUPPORTED; EFI_DEVICE_ERROR; EFI_NOT_FOUND;
            EFI_BUFFER_TOO_SMALL; EFI_OUT_OF_RESOURCES; EFI_SECURITY_VIOLATION].
Proof.
  unfold efi_status_str. rewrite !not_elem_of_cons.
  repeat match goal with
  | |- context [status =? ?c] => destruct (Z.eqb_spec status c); [split; [done|tauto]|]
  end.
  split; [|done]. intros _. split_and!; try done. apply not_elem_of_nil.
Qed.

(** ** [src/varnames.c]

    Arrays of 16-bit characters. *)
Module VarNames.

Definition SETUP_MODE_NAME : bytes := L [0x53; 0x65; 0x74; 0x75; 0x70; 0x4d; 0x6f; 0x64; 0x65].
Definition KEK_NAME : bytes := L [0x4b; 0x45; 0x4b].
Definition PK_NAME : bytes := L [0x50; 0x4b].
Definition CERT_DB_NAME : bytes := L [0x63; 0x65; 0x72; 0x74; 0x64; 0x62].
Definition CERT_DBV_NAME : bytes := L [0x63; 0x65; 0x72; 0x74; 0x64; 0x62; 0x76].
Definition VENDOR_KEYS_NAME : bytes := L [0x56; 0x65; 0x6e; 0x64; 0x6f; 0x72; 0x4b; 0x65; 0x79;
    0x73].
Definition VENDOR_KEYS_NV_NAME : bytes := L [0x56; 0x65; 0x6e; 0x64; 0x6f; 0x72; 0x4b; 0x65;
    0x79; 0x73; 0x4e; 0x76].
(** Without the terminator. *)
Definition SECURE_BOOT_ENABLE_NAME : bytes := wchars [0x53; 0x65; 0x63; 0x75; 0x72; 0x65; 0x42;
    0x6f; 0x6f; 0x74; 0x45; 0x6e; 0x61; 0x62; 0x6c; 0x65].
Definition SECURE_BOOT_NAME : bytes := L [0x53; 0x65; 0x63; 0x75; 0x72; 0x65; 0x42; 0x6f; 0x6f;
    0x74].
Definition SECURE_BOOT_MODE_NAME : bytes := L [0x53; 0x65; 0x63; 0x75; 0x72; 0x65; 0x42; 0x6f;
    0x6f; 0x74; 0x4d; 0x6f; 0x64; 0x65].
Definition DB_NAME : bytes := L [0x64; 0x62].
Definition DBX_NAME : bytes := L [0x64; 0x62; 0x78].
Definition DBT_NAME : bytes := L [0x64; 0x62; 0x74].
Definition CUSTOM_MODE_NAME : bytes := L [0x43; 0x75; 0x73; 0x74; 0x6f; 0x6d; 0x4d; 0x6f; 0x64;
    0x65].

(** The arrays spell the literals used elsewhere, but for the one without its
    terminator: a comparison with it reads past its end. *)
Theorem names_spelled :
  PK_NAME = EFI_PLATFORM_KEY_NAME /\ KEK_NAME = EFI_KEY_EXCHANGE_KEY_NAME /\
  DB_NAME = EFI_IMAGE_SECURITY_DATABASE /\ DBX_NAME = EFI_IMAGE_SECURITY_DATABASE1 /\
  DBT_NAME = EFI_IMAGE_SECURITY_DATABASE2 /\ SETUP_MODE_NAME = EFI_SETUP_MODE_NAME /\
  SECURE_BOOT_NAME = EFI_SECURE_BOOT_MODE_NAME /\
  SECURE_BOOT_ENABLE_NAME ++ [x00; x00] = EFI_SECURE_BOOT_ENABLE_NAME /\
  strcmp16 (Some SECURE_BOOT_ENABLE_NAME) (Some EFI_SECURE_BOOT_ENABLE_NAME) = Fault OutOfBounds.
Proof. split_and!; by vm_compute. Qed.

End VarNames.
