(* ===== verification/UefiVariable.v ===== *)
(** * UEFI variables

    [inc/variable.h] and [src/variable.c]: the variable structure and its
    operations, their effect on every field, and the well-formedness of the
    structures they build.

    A [variable_t *] argument is the address of a structure the caller owns
    (an element of an array, a local or a fresh block), so it is never null
    and the operation returns the structure's new value.  Other pointers can be
    null: [option bytes]. *)
From S2P Require Import Prelude EfiTypes Common.

(** ** The structure *)
Record variable_t : Type := mk_var {
  var_name : bytes;            (** [UTF16 name[MAX_VARIABLE_NAME_CHARS]], 256 bytes *)
  var_namesz : Z;              (** [uint64_t namesz] *)
  var_data : option bytes;     (** [uint8_t *data], a heap block *)
  var_datasz : Z;              (** [uint64_t datasz] *)
  var_guid : EFI_GUID;
  var_attrs : Z;               (** [uint32_t attrs] *)
  var_timestamp : EFI_TIME;
  var_cert : bytes             (** [uint8_t cert[SHA256_DIGEST_SIZE]] *)
}.

#[export] Instance variable_eq_dec : EqDecision variable_t.
Proof. solve_decision. Defined.

Definition zero_name : bytes := replicate 256 x00.
Definition zero_cert : bytes := replicate 32 x00.

(** [memset (var, 0, sizeof ( *var))], and the elements of [calloc]ed arrays. *)
Definition zero_var : variable_t :=
  mk_var zero_name 0 None 0 zero_guid 0 zero_time zero_cert.

(** Field assignments. *)
Definition with_name (n : bytes) (sz : Z) (v : variable_t) : variable_t :=
  mk_var n sz (var_data v) (var_datasz v) (var_guid v) (var_attrs v)
         (var_timestamp v) (var_cert v).
Definition with_data (d : option bytes) (sz : Z) (v : variable_t) : variable_t :=
  mk_var (var_name v) (var_namesz v) d sz (var_guid v) (var_attrs v)
         (var_timestamp v) (var_cert v).
Definition with_guid (g : EFI_GUID) (v : variable_t) : variable_t :=
  mk_var (var_name v) (var_namesz v) (var_data v) (var_datasz v) g (var_attrs v)
         (var_timestamp v) (var_cert v).
Definition with_attrs (a : Z) (v : variable_t) : variable_t :=
  mk_var (var_name v) (var_namesz v) (var_data v) (var_datasz v) (var_guid v) a
         (var_timestamp v) (var_cert v).
Definition with_timestamp (t : EFI_TIME) (v : variable_t) : variable_t :=
  mk_var (var_name v) (var_namesz v) (var_data v) (var_datasz v) (var_guid v)
         (var_attrs v) t (var_cert v).
Definition with_cert (c : bytes) (v : variable_t) : variable_t :=
  mk_var (var_name v) (var_namesz v) (var_data v) (var_datasz v) (var_guid v)
         (var_attrs v) (var_timestamp v) c.

(** ** Operations of [src/variable.c] *)
Section operations.
Context `{Allocator}.

Definition variable_set_attrs (var : variable_t) (attrs : Z) : Z * variable_t :=
  (0, with_attrs attrs var).

(** The write of [datasz] bytes of [data] at offset [off] of [var->data]. *)
Definition store_data (var : variable_t) (off : Z) (data : bytes) (datasz : Z) :
    outcome variable_t :=
  match var_data var with
  | None => Fault NullDeref
  | Some block =>
      let* block' := memcpy block off data 0 datasz in
      Ok (with_data (Some block') (var_datasz var) var)
  end.

Definition variable_set_data (var : variable_t) (data : option bytes) (datasz : Z)
    (append : bool) : outcome (Z * variable_t) :=
  match data with
  | None => Ok (-1, var)
  | Some src =>
      if datasz =? 0 then Ok (-1, var)
      else if datasz >? MAX_VARIABLE_DATA_SIZE then Ok (-2, var)
      else if negb append then
        let block :=
          if negb (var_datasz var =? datasz) then malloc datasz else var_data var in
        let* var' := store_data (with_data block datasz var) 0 src datasz in
        Ok (0, var')
      else
        let newsz := u64 (var_datasz var + datasz) in
        if newsz >? MAX_VARIABLE_DATA_SIZE then Ok (-12, var)
        else
          let block := realloc (var_data var) newsz in
          let* var' := store_data (with_data block (var_datasz var) var)
                                  (var_datasz var) src datasz in
          Ok (0, with_data (var_data var') newsz var')
  end.

Definition variable_set_guid (var : variable_t) (guid : option EFI_GUID) :
    outcome (Z * variable_t) :=
  match guid with
  | None => Ok (-1, var)
  | Some g =>
      let* g' := memcpy (var_guid var) 0 g 0 sizeof_EFI_GUID in
      Ok (0, with_guid g' var)
  end.

(** [var->name[i]], a 16-bit element of the fixed array. *)
Definition name_char (var : variable_t) (i : Z) : outcome Z :=
  if i <? MAX_VARIABLE_NAME_CHARS then read_le 2 (var_name var) (2 * i)
  else Fault OutOfBounds.

(** The index [namesz / sizeof (UTF16) - 1] is computed in [uint64_t]. *)
Definition sanitize_namesz (var : variable_t) : outcome variable_t :=
  let* c := name_char var (u64 (var_namesz var / 2 - 1)) in
  if c =? 0 then Ok (with_name (var_name var) (u64 (var_namesz var - 2)) var)
  else Ok var.

Definition variable_set_name (var : variable_t) (name : option bytes) (namesz : Z) :
    outcome (Z * variable_t) :=
  match name with
  | None => Ok (-22, var)
  | Some src =>
      if namesz >? MAX_VARIABLE_NAME_SIZE then Ok (-22, var)
      else if namesz =? 0 then Ok (-1, var)
      else
        let* n := memcpy (var_name var) 0 src 0 namesz in
        let* var' := sanitize_namesz (with_name n namesz var) in
        Ok (0, var')
  end.

Definition variable_set_timestamp (var : variable_t) (timestamp : option EFI_TIME) :
    Z * variable_t :=
  match timestamp with
  | None => (-1, var)
  | Some t => (0, with_timestamp t var)
  end.

Definition variable_set_cert (var : variable_t) (cert : option bytes) :
    outcome (Z * variable_t) :=
  match cert with
  | None => Ok (-1, var)
  | Some c =>
      let* c' := memcpy (var_cert var) 0 c 0 SHA256_DIGEST_SIZE in
      Ok (0, with_cert c' var)
  end.

(** [memset (var->data, 0, datasz)] and [memset (var->name, 0, namesz)] of the
    cleanup labels. *)
Definition clear_data (var : variable_t) (datasz : Z) : outcome variable_t :=
  store_data var 0 (replicate (Z.to_nat datasz) x00) datasz.
Definition clear_name (var : variable_t) (namesz : Z) : outcome variable_t :=
  let* n := write_bytes (var_name var) 0 (replicate (Z.to_nat namesz) x00) in
  Ok (with_name n (var_namesz var) var).
Definition cleanup_name (var : variable_t) (namesz : Z) : outcome (Z * variable_t) :=
  let* var' := clear_name var namesz in Ok (-1, var').
Definition cleanup_data (var : variable_t) (namesz datasz : Z) : outcome (Z * variable_t) :=
  let* var' := clear_data var datasz in cleanup_name var' namesz.

Definition variable_create_noalloc (var : variable_t) (name : option bytes) (namesz : Z)
    (data : option bytes) (datasz : Z) (guid : option EFI_GUID) (attrs : Z)
    (timestamp : option EFI_TIME) (cert : option bytes) : outcome (Z * variable_t) :=
  match name, data, guid with
  | Some _, Some _, Some _ =>
      if datasz =? 0 then Ok (-1, var)
      else
        let* (ret, var) := variable_set_name var name namesz in
        if ret <? 0 then Ok (-1, var)
        else
        let* (ret, var) := variable_set_data var data datasz false in
        if ret <? 0 then cleanup_name var namesz
        else
        let* (ret, var) := variable_set_guid var guid in
        if ret <? 0 then cleanup_data var namesz datasz
        else
        let '(ret, var) := variable_set_attrs var attrs in
        if ret <? 0 then cleanup_data var namesz datasz
        else
        let '(ret, var) := match timestamp with
                           | Some _ => variable_set_timestamp var timestamp
                           | None => (0, var)
                           end in
        if ret <? 0 then cleanup_data var namesz datasz
        else
        let* (ret, var) := match cert with
                           | Some _ => variable_set_cert var cert
                           | None => Ok (0, var)
                           end in
        if ret <? 0 then cleanup_data var namesz datasz
        else Ok (0, var)
  | _, _, _ => Ok (-1, var)
  end.

(** [None] is the null pointer; [calloc] failing is [malloc] failing for the
    structure's size. *)
Definition sizeof_variable_t : Z := 352.

Definition variable_create (name : option bytes) (namesz : Z) (data : option bytes)
    (datasz : Z) (guid : option EFI_GUID) (attrs : Z) : outcome (option variable_t) :=
  match name, data, guid with
  | Some _, Some _, Some g =>
      if datasz =? 0 then Ok None
      else match malloc sizeof_variable_t with
      | None => Ok None
      | Some _ =>
          let* (ret, var) := variable_set_name zero_var name namesz in
          if ret <? 0 then Ok None
          else
          let* (ret, var) := variable_set_data var data datasz false in
          if ret <? 0 then Ok None
          else
          let* g' := memcpy (var_guid var) 0 g 0 sizeof_EFI_GUID in
          Ok (Some (with_attrs attrs (with_guid g' var)))
      end
  | _, _, _ => Ok None
  end.

(** The freed block and the cleared fields leave the zero structure. *)
Definition variable_destroy_noalloc (var : variable_t) : variable_t := zero_var.

Definition variable_copy (dst src : variable_t) : outcome (Z * variable_t) :=
  let* (ret, dst) := variable_set_name dst (Some (var_name src)) (var_namesz src) in
  if ret <? 0 then Ok (ret, dst)
  else
  let* (ret, dst) := variable_set_data dst (var_data src) (var_datasz src) false in
  if ret <? 0 then Ok (ret, dst)
  else
  let* (ret, dst) := variable_set_guid dst (Some (var_guid src)) in
  if ret <? 0 then Ok (ret, dst)
  else
  let '(ret, dst) := variable_set_attrs dst (var_attrs src) in
  if ret <? 0 then Ok (ret, dst) else Ok (0, dst).

Definition block_of (p : option bytes) : outcome bytes :=
  match p with Some b => Ok b | None => Fault NullDeref end.

Definition variable_eq (a b : variable_t) : outcome bool :=
  if negb (var_namesz a =? var_namesz b) then Ok false
  else if negb (var_datasz a =? var_datasz b) then Ok false
  else
  let* same_name := memcmp_eq (var_name a) 0 (var_name b) 0 (var_namesz a) in
  if negb same_name then Ok false
  else
  let* da := block_of (var_data a) in
  let* db := block_of (var_data b) in
  memcmp_eq da 0 db 0 (var_datasz a).

Definition variable_serialized_namesz (var : variable_t) : Z := var_namesz var.

(** The serialized size of a variable. *)
Definition variable_size (var : variable_t) : Z :=
  u64 (8 + variable_serialized_namesz var + 8 + var_datasz var + 16 + 4 + 16 + 32).

(** [variable_is_valid] of [inc/variable.h]. *)
Definition variable_is_valid (var : variable_t) : outcome bool :=
  let* c := name_char var 0 in
  Ok (negb (c =? 0) && negb (var_namesz var =? 0)).

(** [find_variable]: the index of the first element with the given name and
    GUID. *)
Fixpoint find_variable_loop (name : bytes) (namesz : Z) (guid : EFI_GUID)
    (vars : list variable_t) : outcome (option nat) :=
  match vars with
  | [] => Ok None
  | var :: vars' =>
      let next :=
        let* r := find_variable_loop name namesz guid vars' in Ok (S <$> r) in
      if negb (var_namesz var =? namesz) then next
      else
        let* same_name := memcmp_eq (var_name var) 0 name 0 (var_namesz var) in
        if same_name then
          let* same_guid := memcmp_eq guid 0 (var_guid var) 0 sizeof_EFI_GUID in
          if same_guid then Ok (Some O) else next
        else next
  end.

Definition find_variable (name : option bytes) (namesz : Z) (guid : option EFI_GUID)
    (variables : list variable_t) : outcome (option nat) :=
  match name, guid with
  | Some n, Some g => find_variable_loop n namesz g variables
  | _, _ => Ok None
  end.

End operations.

#[export] Hint Unfold sizeof_variable_t : consts.
Arguments variable_set_data : simpl never.
Arguments variable_set_name : simpl never.
Arguments variable_create_noalloc : simpl never.
Arguments variable_copy : simpl never.
Arguments find_variable : simpl never.

(** ** Names *)

(** The 16-bit character at byte offset [2 * i] of an object. *)
Definition char_at (n : bytes) (i : Z) : Z := le_decode (take 2 (drop (Z.to_nat (2 * i)) n)).

(** A name argument the storage accepts: at least one character, not starting
    with the zero character, at most 256 bytes, and readable. *)
Record name_arg (n : bytes) (sz : Z) : Prop := {
  na_size : 2 <= sz <= 256;
  na_object : sz <= zlen n;
  na_first : char_at n 0 <> 0
}.

(** ... that does not end with the zero character either. *)
Record canonical_name (n : bytes) (sz : Z) : Prop := {
  cn_arg :> name_arg n sz;
  cn_last : char_at n (sz / 2 - 1) <> 0
}.

(** The [namesz] the structure ends up with. *)
Definition sanitized (n : bytes) (sz : Z) : Z :=
  if char_at n (sz / 2 - 1) =? 0 then sz - 2 else sz.

Lemma sanitized_canonical n sz : canonical_name n sz -> sanitized n sz = sz.
Proof. intros [_ Hl]. unfold sanitized. by rewrite (proj2 (Z.eqb_neq _ _) Hl). Qed.

Lemma read_le2_char n i :
  0 <= i -> 2 * i + 2 <= zlen n -> read_le 2 n (2 * i) = Ok (char_at n i).
Proof. intros. unfold read_le. by rewrite read_bytes_ok by lia. Qed.

Lemma read_le2_first n : 2 <= zlen n -> read_le 2 n 0 = Ok (char_at n 0).
Proof. intros. by apply (read_le2_char n 0). Qed.

Lemma name_char_ok v i :
  zlen (var_name v) = 256 -> 0 <= i < 128 -> name_char v i = Ok (char_at (var_name v) i).
Proof.
  intros Hn Hi. unfold name_char. zb. apply read_le2_char; lia.
Qed.

Lemma take_drop_prefix {A} (l k : list A) (m i j : nat) :
  take m l = take m k -> (i + j <= m)%nat -> take j (drop i l) = take j (drop i k).
Proof.
  intros E Hm.
  assert (Hgen : forall x : list A, take j (drop i x) = take j (drop i (take m x))).
  { intros x. rewrite skipn_firstn_comm, take_take. f_equal. lia. }
  by rewrite (Hgen l), (Hgen k), E.
Qed.

Lemma char_at_prefix n k sz i :
  take (Z.to_nat sz) n = take (Z.to_nat sz) k -> 0 <= i -> 2 * i + 2 <= sz ->
  char_at n i = char_at k i.
Proof.
  intros E Hi Hs. unfold char_at. f_equal.
  eapply take_drop_prefix; [exact E|lia].
Qed.

Lemma take_take_app_drop {A} (l k : list A) m :
  (m <= length l)%nat -> take m (take m l ++ k) = take m l.
Proof.
  intros Hm. rewrite take_app_le by (rewrite length_take; lia).
  rewrite take_take. f_equal. lia.
Qed.

(** [variable_set_name] on an accepted name. *)
Lemma variable_set_name_ok v n sz :
  zlen (var_name v) = 256 -> 2 <= sz <= 256 -> sz <= zlen n ->
  variable_set_name v (Some n) sz
  = Ok (0, with_name (take (Z.to_nat sz) n ++ drop (Z.to_nat sz) (var_name v))
                     (sanitized n sz) v).
Proof.
  intros Hv Hsz Hn. unfold variable_set_name. zb.
  unfold memcpy. rewrite read_bytes_prefix by lia. cbn [obind].
  rewrite write_bytes_prefix by (rewrite zlen_take; lia). cbn [obind].
  assert (Hlen : length (take (Z.to_nat sz) n) = Z.to_nat sz).
  { rewrite length_take. unfold zlen in *. lia. }
  rewrite Hlen.
  set (name' := take (Z.to_nat sz) n ++ drop (Z.to_nat sz) (var_name v)).
  assert (Hn' : zlen name' = 256) by (unfold name'; zlia).
  assert (Hidx : 0 <= sz / 2 - 1 < 128 /\ 2 * (sz / 2 - 1) + 2 <= sz).
  { pose proof (Z.div_mod sz 2). pose proof (Z.mod_pos_bound sz 2). lia. }
  unfold sanitize_namesz.
  change (var_namesz (with_name name' sz v)) with sz.
  change (var_name (with_name name' sz v)) with name'.
  rewrite u64_id by lia.
  rewrite name_char_ok by (cbn; lia). cbn [obind var_name with_name].
  assert (Hc : char_at name' (sz / 2 - 1) = char_at n (sz / 2 - 1)).
  { apply char_at_prefix with (sz := sz); [|lia|lia].
    unfold name'. apply take_take_app_drop. unfold zlen in *. lia. }
  rewrite Hc. unfold sanitized.
  destruct (char_at n (sz / 2 - 1) =? 0); cbn [obind]; [|done].
  rewrite u64_id by lia. done.
Qed.

(** ** Data *)

(** The data pointer and size agree. *)
Definition data_ok (v : variable_t) : Prop :=
  match var_data v with
  | None => var_datasz v = 0
  | Some d => zlen d = var_datasz v
  end.

Section data.
Context `{Allocator}.

Lemma variable_set_data_replace v src n :
  grants MAX_VARIABLE_DATA_SIZE -> data_ok v ->
  1 <= n <= MAX_VARIABLE_DATA_SIZE -> n <= zlen src ->
  variable_set_data v (Some src) n false
  = Ok (0, with_data (Some (take (Z.to_nat n) src)) n v).
Proof.
  intros G Hv Hn Hsrc. unfold variable_set_data.
  zb.
  assert (Hblk : exists b, (if negb (var_datasz v =? n) then malloc n else var_data v) = Some b
                           /\ zlen b = n).
  { destruct (var_datasz v =? n) eqn:E; cbn [negb].
    - apply Z.eqb_eq in E. unfold data_ok in Hv.
      destruct (var_data v) as [d|]; [exists d; split; [done|lia]|lia].
    - destruct (G n) as [b Hb]; [lia|]. exists b. split; [done|].
      apply malloc_size in Hb; [done|lia]. }
  destruct Hblk as (b & -> & Hb).
  unfold store_data, memcpy. cbn [var_data with_data].
  rewrite read_bytes_prefix by lia. cbn [obind].
  rewrite write_bytes_full by (rewrite zlen_take; lia). done.
Qed.

Lemma variable_set_data_append v d src n :
  grants MAX_VARIABLE_DATA_SIZE -> var_data v = Some d -> zlen d = var_datasz v ->
  1 <= n -> n <= zlen src -> zlen d + n <= MAX_VARIABLE_DATA_SIZE ->
  variable_set_data v (Some src) n true
  = Ok (0, with_data (Some (d ++ take (Z.to_nat n) src)) (zlen d + n) v).
Proof.
  intros G Hd Hsz Hn Hsrc Hmax. pose proof (zlen_nonneg d).
  unfold variable_set_data.
  rewrite u64_id by clia. zb. rewrite Hd, <-Hsz. unfold realloc.
  destruct (G (zlen d + n)) as [f Hf]; [lia|]. rewrite Hf.
  apply malloc_size in Hf; [|lia].
  unfold store_data, memcpy. cbn [var_data with_data].
  rewrite read_bytes_prefix by lia. cbn [obind].
  rewrite (take_ge d) by (unfold zlen in *; lia).
  rewrite write_bytes_ok by zlia. cbn [obind var_data with_data].
  assert (E1 : Z.to_nat (zlen d) = length d) by (unfold zlen; lia).
  rewrite E1, take_app_length.
  rewrite (drop_ge _ (Z.to_nat (_ + _)))
    by (rewrite length_app, length_drop; unfold zlen in *; rewrite length_take; lia).
  by rewrite app_nil_r.
Qed.

(** Appending past the limit leaves the variable as it was. *)
Lemma variable_set_data_append_full v src n :
  0 <= var_datasz v <= MAX_VARIABLE_DATA_SIZE ->
  1 <= n <= MAX_VARIABLE_DATA_SIZE -> MAX_VARIABLE_DATA_SIZE < var_datasz v + n ->
  variable_set_data v (Some src) n true = Ok (-12, v).
Proof.
  intros Hv Hn Hmax. unfold variable_set_data.
  rewrite u64_id by clia. by zb.
Qed.

Lemma variable_set_data_empty v src append :
  variable_set_data v (Some src) 0 append = Ok (-1, v).
Proof. done. Qed.

Lemma variable_set_guid_ok v g :
  zlen (var_guid v) = 16 -> zlen g = 16 ->
  variable_set_guid v (Some g) = Ok (0, with_guid g v).
Proof.
  intros Hv Hg. unfold variable_set_guid, memcpy, sizeof_EFI_GUID.
  rewrite read_bytes_prefix by lia. cbn [obind].
  rewrite take_ge by (unfold zlen in *; lia).
  by rewrite write_bytes_full by lia.
Qed.

Lemma variable_set_cert_ok v c :
  zlen (var_cert v) = 32 -> zlen c = 32 ->
  variable_set_cert v (Some c) = Ok (0, with_cert c v).
Proof.
  intros Hv Hc. unfold variable_set_cert, memcpy, SHA256_DIGEST_SIZE.
  rewrite read_bytes_prefix by lia. cbn [obind].
  rewrite take_ge by (unfold zlen in *; lia).
  by rewrite write_bytes_full by lia.
Qed.

End data.

(** ** Well-formed structures *)

(** A slot in use. *)
Record live_wf (v : variable_t) : Prop := {
  lw_name : zlen (var_name v) = 256;
  lw_namesz : 2 <= var_namesz v <= 256;
  lw_first : char_at (var_name v) 0 <> 0;
  lw_data : exists d, var_data v = Some d /\ zlen d = var_datasz v;
  lw_datasz : 1 <= var_datasz v <= MAX_VARIABLE_DATA_SIZE;
  lw_guid : zlen (var_guid v) = 16;
  lw_attrs : 0 <= var_attrs v < 0x100000000;
  lw_time : time_ok (var_timestamp v);
  lw_cert : zlen (var_cert v) = 32
}.

(** The name is zero after its [namesz] bytes and does not end with the zero
    character: the structure holds its name in the one possible way. *)
Record canonical (v : variable_t) : Prop := {
  ca_last : char_at (var_name v) (var_namesz v / 2 - 1) <> 0;
  ca_pad : var_name v = take (Z.to_nat (var_namesz v)) (var_name v)
                        ++ replicate (Z.to_nat (256 - var_namesz v)) x00
}.

(** The code's test for a used slot: [name[0] != 0].  A slot not in use is
    zeroed. *)
Definition live (v : variable_t) : bool := negb (char_at (var_name v) 0 =? 0).

Definition slot_wf (v : variable_t) : Prop :=
  if live v then live_wf v else v = zero_var.
Definition slot_canonical (v : variable_t) : Prop :=
  if live v then canonical v else True.

Lemma live_wf_live v : live_wf v -> live v = true.
Proof. intros [? ? H]. unfold live. by rewrite (proj2 (Z.eqb_neq _ _) H). Qed.
Lemma slot_wf_live v : slot_wf v -> live v = true -> live_wf v.
Proof. unfold slot_wf. intros H Hl. by rewrite Hl in H. Qed.
Lemma slot_wf_free v : slot_wf v -> live v = false -> v = zero_var.
Proof. unfold slot_wf. intros H Hl. by rewrite Hl in H. Qed.
Lemma live_slot_wf v : live_wf v -> slot_wf v.
Proof. intros H. unfold slot_wf. by rewrite live_wf_live. Qed.
Lemma zero_slot_wf : slot_wf zero_var.
Proof. done. Qed.
#[export] Hint Resolve live_wf_live live_slot_wf zero_slot_wf : uefi.

(** A slot is in use or zeroed. *)
Lemma slot_wf_cases v : slot_wf v -> live_wf v \/ v = zero_var.
Proof. unfold slot_wf. destruct (live v); auto. Qed.

Lemma slot_wf_name v : slot_wf v -> zlen (var_name v) = 256.
Proof. intros [Hl| ->]%slot_wf_cases; [apply Hl|done]. Qed.
Lemma slot_wf_guid v : slot_wf v -> zlen (var_guid v) = 16.
Proof. intros [Hl| ->]%slot_wf_cases; [apply Hl|done]. Qed.
Lemma slot_wf_cert v : slot_wf v -> zlen (var_cert v) = 32.
Proof. intros [Hl| ->]%slot_wf_cases; [apply Hl|done]. Qed.
#[export] Hint Resolve slot_wf_name slot_wf_guid slot_wf_cert : uefi.

Lemma live_wf_data_ok v : live_wf v -> data_ok v.
Proof. intros H. destruct (lw_data _ H) as (d & Hd & Hs). unfold data_ok. by rewrite Hd. Qed.
#[export] Hint Resolve live_wf_data_ok : uefi.

(** [variable_is_valid] on a slot. *)
Lemma variable_is_valid_ok v : slot_wf v -> variable_is_valid v = Ok (live v).
Proof.
  intros [Hl| ->]%slot_wf_cases; [|done]. unfold variable_is_valid, live.
  rewrite name_char_ok by (lia || apply Hl). cbn [obind].
  pose proof (lw_namesz _ Hl). pose proof (lw_first _ Hl). by zb.
Qed.

(** The name stored for an accepted name argument: its bytes, then zeros. *)
Definition stored_name (n : bytes) (sz : Z) : bytes :=
  take (Z.to_nat sz) n ++ replicate (Z.to_nat (256 - sz)) x00.

Lemma zlen_stored_name n sz :
  0 <= sz <= 256 -> sz <= zlen n -> zlen (stored_name n sz) = 256.
Proof. intros. unfold stored_name. zlia. Qed.

Lemma stored_name_prefix n sz :
  0 <= sz -> sz <= zlen n -> take (Z.to_nat sz) (stored_name n sz) = take (Z.to_nat sz) n.
Proof.
  intros. unfold stored_name. apply take_take_app_drop. unfold zlen in *. lia.
Qed.

Lemma sanitized_range n sz : name_arg n sz -> 2 <= sanitized n sz <= sz.
Proof.
  intros [Hs _ Hf]. unfold sanitized.
  destruct (char_at n (sz / 2 - 1) =? 0) eqn:E; [|lia].
  apply Z.eqb_eq in E.
  assert (sz / 2 - 1 <> 0) by (intros E0; by rewrite E0 in E).
  pose proof (Z.div_mod sz 2). pose proof (Z.mod_pos_bound sz 2). lia.
Qed.

Section creation.
Context `{Allocator}.

(** The variable [variable_create_noalloc] makes of a free slot. *)
Definition created (n : bytes) (sz : Z) (src : bytes) (dsz : Z) (g : EFI_GUID)
    (attrs : Z) (ts : option EFI_TIME) (cert : option bytes) : variable_t :=
  mk_var (stored_name n sz) (sanitized n sz) (Some (take (Z.to_nat dsz) src)) dsz g attrs
         (default zero_time ts) (default zero_cert cert).

Lemma variable_create_noalloc_ok n sz src dsz g attrs ts cert :
  grants MAX_VARIABLE_DATA_SIZE ->
  2 <= sz <= 256 -> sz <= zlen n ->
  1 <= dsz <= MAX_VARIABLE_DATA_SIZE -> dsz <= zlen src -> zlen g = 16 ->
  (forall c, cert = Some c -> zlen c = 32) ->
  variable_create_noalloc zero_var (Some n) sz (Some src) dsz (Some g) attrs ts cert
  = Ok (0, created n sz src dsz g attrs ts cert).
Proof.
  intros G Hsz Hn Hd Hsrc Hg Hc.
  unfold variable_create_noalloc. zb.
  rewrite variable_set_name_ok by (done || lia). cbn [obind Z.ltb Z.compare].
  rewrite variable_set_data_replace by done. cbn [obind Z.ltb Z.compare].
  rewrite variable_set_guid_ok by (cbn; done). cbn [obind Z.ltb Z.compare].
  unfold variable_set_attrs. cbn [Z.ltb Z.compare].
  assert (Hpad : drop (Z.to_nat sz) (var_name zero_var) = replicate (Z.to_nat (256 - sz)) x00).
  { cbn [var_name zero_var]. unfold zero_name. rewrite drop_replicate. f_equal. lia. }
  unfold created, stored_name. rewrite <-Hpad.
  destruct ts as [t|], cert as [c|]; cbn [variable_set_timestamp Z.ltb Z.compare obind];
    try (rewrite variable_set_cert_ok by auto; cbn [obind Z.ltb Z.compare]); done.
Qed.

(** A creation without data leaves the slot as it was. *)
Lemma variable_create_noalloc_empty v n sz src g attrs ts cert :
  variable_create_noalloc v (Some n) sz (Some src) 0 (Some g) attrs ts cert = Ok (-1, v).
Proof. done. Qed.

End creation.

Lemma created_live_wf n sz src dsz g attrs ts cert :
  name_arg n sz -> 1 <= dsz <= MAX_VARIABLE_DATA_SIZE -> dsz <= zlen src -> zlen g = 16 ->
  0 <= attrs < 0x100000000 -> (forall t, ts = Some t -> time_ok t) ->
  (forall c, cert = Some c -> zlen c = 32) ->
  live_wf (created n sz src dsz g attrs ts cert).
Proof.
  intros Hn Hd Hsrc Hg Ha Ht Hc. pose proof (sanitized_range _ _ Hn) as Hs.
  destruct Hn as [Hsz Ho Hf].
  constructor; cbn [var_name var_namesz var_data var_datasz var_guid var_attrs
                    var_timestamp var_cert created]; try done.
  - apply zlen_stored_name; lia.
  - lia.
  - rewrite (char_at_prefix _ n sz); [done|apply stored_name_prefix; lia|lia|lia].
  - eexists. split; [done|]. zlia.
  - destruct ts as [t|]; cbn; [by apply Ht|apply zero_time_ok].
  - destruct cert as [c|]; cbn; [by apply Hc|done].
Qed.

Lemma created_canonical n sz src dsz g attrs ts cert :
  canonical_name n sz -> canonical (created n sz src dsz g attrs ts cert).
Proof.
  intros Hc. pose proof (sanitized_canonical _ _ Hc) as Hs.
  destruct Hc as [[Hsz Ho Hf] Hl].
  constructor; cbn [var_name var_namesz created]; rewrite Hs.
  - rewrite (char_at_prefix _ n sz); [done|apply stored_name_prefix; lia| |].
    + pose proof (Z.div_mod sz 2). pose proof (Z.mod_pos_bound sz 2). lia.
    + pose proof (Z.div_mod sz 2). pose proof (Z.mod_pos_bound sz 2). lia.
  - by rewrite stored_name_prefix by lia.
Qed.

(** What a canonical structure stores is what creating it again stores. *)
Lemma created_again v name d :
  live_wf v -> canonical v ->
  take (Z.to_nat (var_namesz v)) name = take (Z.to_nat (var_namesz v)) (var_name v) ->
  var_namesz v <= zlen name -> var_data v = Some d -> zlen d = var_datasz v ->
  created name (var_namesz v) d (var_datasz v) (var_guid v) (var_attrs v)
    (Some (var_timestamp v)) (Some (var_cert v)) = v.
Proof.
  intros Hl [Hc Hp] Hn Hsz Hd Hs. pose proof (lw_namesz _ Hl).
  pose proof (Z.div_mod (var_namesz v) 2). pose proof (Z.mod_pos_bound (var_namesz v) 2).
  unfold created, stored_name, sanitized.
  rewrite (char_at_prefix _ (var_name v) (var_namesz v)) by (done || lia).
  rewrite (proj2 (Z.eqb_neq _ 0) Hc).
  rewrite Hn, <-Hp, (take_ge d) by (unfold zlen in Hs; lia).
  cbn [default from_option]. rewrite <-Hd. by destruct v.
Qed.

(** ** Keys and lookup *)

(** A variable is identified by the bytes of its name and its GUID. *)
Abbreviation key := (bytes * bytes)%type.
Definition var_key (v : variable_t) : key := (take (Z.to_nat (var_namesz v)) (var_name v), var_guid v).
Definition arg_key (n : bytes) (sz : Z) (g : EFI_GUID) : key := (take (Z.to_nat sz) n, g).

Definition has_key (k : key) (v : variable_t) : Prop := live v = true /\ var_key v = k.
#[export] Instance has_key_dec k v : Decision (has_key k v).
Proof. unfold has_key. apply _. Defined.

(** The first slot in use that holds the key. *)
Definition slot_of (k : key) (vars : list variable_t) : option (nat * variable_t) :=
  list_find (has_key k) vars.

Lemma has_key_namesz v n sz g :
  slot_wf v -> 0 <= sz -> sz <= zlen n -> has_key (arg_key n sz g) v -> var_namesz v = sz.
Proof.
  intros Hwf Hsz Hn [Hl Hk]. pose proof (slot_wf_live _ Hwf Hl) as Hlw.
  apply (f_equal fst), (f_equal length) in Hk. cbn in Hk. rewrite !length_take in Hk.
  pose proof (lw_namesz _ Hlw). pose proof (lw_name _ Hlw). unfold zlen in *. lia.
Qed.

(** The search of [find_variable] is the lookup of the key. *)
Lemma find_variable_pos n sz g vars :
  Forall slot_wf vars -> 1 <= sz -> sz <= zlen n -> zlen g = 16 ->
  find_variable (Some n) sz (Some g) vars = Ok (fst <$> slot_of (arg_key n sz g) vars).
Proof.
  intros Hwf Hsz Hn Hg. unfold find_variable.
  induction Hwf as [|v vars Hv Hvars IH]; [done|].
  cbn [find_variable_loop]. rewrite IH. cbn [obind].
  unfold slot_of. cbn [list_find].
  assert (Hskip : ~ has_key (arg_key n sz g) v ->
    Ok (S <$> (fst <$> list_find (has_key (arg_key n sz g)) vars))
    = Ok (fst <$> (if decide (has_key (arg_key n sz g) v) then Some (0%nat, v)
          else prod_map S id <$> list_find (has_key (arg_key n sz g)) vars))).
  { intros Hno. rewrite decide_False by done. by destruct (list_find _ vars) as [[]|]. }
  destruct (var_namesz v =? sz) eqn:Esz; cbn [negb]; cycle 1.
  { apply Z.eqb_neq in Esz. apply Hskip. intros Hk.
    apply Esz. by eapply has_key_namesz; [..|exact Hk]; [|lia|]. }
  apply Z.eqb_eq in Esz.
  destruct (slot_wf_cases _ Hv) as [Hl| ->]; [|cbn in Esz; lia].
  rewrite memcmp_eq_ok by (rewrite ?(lw_name _ Hl); pose proof (lw_namesz _ Hl); lia).
  cbn [obind]. rewrite !drop_0, Esz.
  unfold sizeof_EFI_GUID. rewrite memcmp_eq_ok by (rewrite ?Hg, ?(lw_guid _ Hl); lia).
  cbn [obind]. rewrite !drop_0, !(take_ge _ (Z.to_nat 16))
    by (pose proof (lw_guid _ Hl); unfold zlen in *; lia).
  destruct (bool_decide (_ = take _ n)) eqn:E1; cycle 1.
  { apply bool_decide_eq_false in E1. apply Hskip. intros [_ [= Hk _]].
    by rewrite Esz in Hk. }
  destruct (bool_decide (g = _)) eqn:E2; cycle 1.
  { apply bool_decide_eq_false in E2. apply Hskip. intros [_ [= _ Hk]]. congruence. }
  apply bool_decide_eq_true in E1, E2.
  rewrite decide_True; [done|]. split; [by apply live_wf_live|].
  unfold var_key, arg_key. by rewrite Esz, E1, E2.
Qed.

Lemma find_variable_ok n sz g vars :
  Forall slot_wf vars -> 2 <= sz -> sz <= zlen n -> zlen g = 16 ->
  find_variable (Some n) sz (Some g) vars = Ok (fst <$> slot_of (arg_key n sz g) vars).
Proof. intros. apply find_variable_pos; done || lia. Qed.

Lemma slot_of_Some k vars i v :
  slot_of k vars = Some (i, v) -> vars !! i = Some v /\ has_key k v.
Proof. intros (H1 & H2 & _)%list_find_Some. done. Qed.

Lemma with_name_id v : with_name (var_name v) (var_namesz v) v = v.
Proof. by destruct v. Qed.

(** Storing the name a slot already has changes nothing. *)
Lemma variable_set_name_same v n sz g :
  live_wf v -> canonical_name n sz -> var_key v = arg_key n sz g ->
  variable_set_name v (Some n) sz = Ok (0, v).
Proof.
  intros Hl Hc Hk.
  pose proof (has_key_namesz v n sz g) as Hns.
  destruct Hc as [[Hsz Ho Hf] Hla].
  assert (Hn : var_namesz v = sz).
  { apply Hns; [by apply live_slot_wf|lia|done|]. split; [by apply live_wf_live|done]. }
  rewrite variable_set_name_ok by (done || apply Hl).
  rewrite sanitized_canonical by done.
  apply (f_equal fst) in Hk. cbn in Hk. rewrite Hn in Hk.
  rewrite <-Hk, take_drop, <-Hn, with_name_id. done.
Qed.

(** [variable_copy] copies everything but the time stamp and the certificate
    digest. *)
Lemma variable_copy_ok `{Allocator} dst src :
  grants MAX_VARIABLE_DATA_SIZE ->
  zlen (var_name dst) = 256 -> data_ok dst -> zlen (var_guid dst) = 16 ->
  live_wf src ->
  variable_copy dst src
  = Ok (0, mk_var (take (Z.to_nat (var_namesz src)) (var_name src)
                   ++ drop (Z.to_nat (var_namesz src)) (var_name dst))
                  (sanitized (var_name src) (var_namesz src))
                  (var_data src) (var_datasz src) (var_guid src) (var_attrs src)
                  (var_timestamp dst) (var_cert dst)).
Proof.
  intros G Hn Hd Hg Hs. unfold variable_copy.
  pose proof (lw_namesz _ Hs). pose proof (lw_name _ Hs). pose proof (lw_datasz _ Hs).
  destruct (lw_data _ Hs) as (d & Hsd & Hsz).
  rewrite variable_set_name_ok by lia. cbn [obind Z.ltb Z.compare].
  rewrite Hsd, variable_set_data_replace by (done || lia).
  cbn [obind Z.ltb Z.compare].
  rewrite variable_set_guid_ok by (cbn; done || apply Hs). cbn [obind Z.ltb Z.compare].
  cbn [variable_set_attrs Z.ltb Z.compare].
  rewrite take_ge by (unfold zlen in *; lia). done.
Qed.
