(* ===== verification/Storage.v ===== *)
(** * The variable store

    [src/storage.c]: a fixed array of [MAX_VAR_COUNT] slots with the counters
    [total] and [used] and the iteration index.  A [variable_t *] into the array
    is a slot number.  [efi_at_runtime], which [storage.c] imports from the
    server, is an argument of the functions that read it. *)
From S2P Require Import Prelude EfiTypes Common UefiVariable.

(** ** State *)
Record storage : Type := mk_storage {
  variables : list variable_t;
  total : Z;                     (** [size_t] *)
  used : Z;                      (** [uint64_t] *)
  storage_iter_index : Z         (** [size_t] *)
}.

(** The zero-initialised statics. *)
Definition storage_init : storage :=
  mk_storage (replicate (Z.to_nat MAX_VAR_COUNT) zero_var) 0 0 0.

Definition set_variables (vs : list variable_t) (s : storage) : storage :=
  mk_storage vs (total s) (used s) (storage_iter_index s).
Definition set_slot (i : nat) (v : variable_t) (s : storage) : storage :=
  set_variables (<[i := v]> (variables s)) s.
Definition set_iter (i : Z) (s : storage) : storage :=
  mk_storage (variables s) (total s) (used s) i.

Definition slot_at (s : storage) (i : nat) : outcome variable_t :=
  match variables s !! i with
  | Some v => Ok v
  | None => Fault OutOfBounds
  end.

(** ** Macros and predicates *)
Definition rt_deny_access (efi_at_runtime : bool) (attrs : Z) : bool :=
  efi_at_runtime && negb (has attrs EFI_VARIABLE_RUNTIME_ACCESS).

Definition is_delete (attrs datasz : Z) : bool := (datasz =? 0) || (attrs =? 0).

(** What one variable adds to [used]. *)
Definition slot_cost : Z := MAX_VARIABLE_NAME_SIZE + MAX_VARIABLE_DATA_SIZE.
#[export] Hint Unfold slot_cost : consts.

Section operations.
Context `{Allocator}.

Definition storage_count : M storage Z := mgets total.
Definition storage_used : M storage Z := mgets used.

Definition storage_destroy : M storage unit :=
  mmodify (fun s =>
    mk_storage (variable_destroy_noalloc <$> variables s) 0 0 (storage_iter_index s)).

Definition storage_find_variable (name : option bytes) (namesz : Z)
    (guid : option EFI_GUID) : M storage (option nat) :=
  s <- mget ;; mlift (find_variable name namesz guid (variables s)).

Definition storage_exists (name : option bytes) (namesz : Z) (guid : option EFI_GUID) :
    M storage bool :=
  var <- storage_find_variable name namesz guid ;;
  ret (match var with Some _ => true | None => false end).

(** The status, and the values of [*attrs], [data] and [*data_size] after the
    call. *)
Definition storage_get (efi_at_runtime : bool) (name : option bytes) (namesz : Z)
    (guid : option EFI_GUID) (attrs : option Z) (data : bytes) (data_size : option Z) :
    M storage (EFI_STATUS * (option Z * bytes * option Z)) :=
  let out st := ret (st, (attrs, data, data_size)) in
  match name, guid, data_size, attrs with
  | Some _, Some _, Some dsz, Some _ =>
      var <- storage_find_variable name namesz guid ;;
      match var with
      | None => out EFI_NOT_FOUND
      | Some i =>
          s <- mget ;;
          v <- mlift (slot_at s i) ;;
          if rt_deny_access efi_at_runtime (var_attrs v) then out EFI_NOT_FOUND
          else if dsz <? var_datasz v then
            ret (EFI_BUFFER_TOO_SMALL, (attrs, data, Some (var_datasz v)))
          else if dsz >? MAX_SHARED_OVMF_MEM then out EFI_DEVICE_ERROR
          else
            src <- mlift (block_of (var_data v)) ;;
            d <- mlift (memcpy data 0 src 0 (var_datasz v)) ;;
            ret (EFI_SUCCESS, (Some (var_attrs v), d, Some (var_datasz v)))
      end
  | _, _, _, _ => out EFI_DEVICE_ERROR
  end.

(** The status and [*var]. *)
Definition storage_get_var_ptr (name : option bytes) (namesz : Z) (guid : option EFI_GUID) :
    M storage (EFI_STATUS * option nat) :=
  match name, guid with
  | Some _, Some _ =>
      var <- storage_find_variable name namesz guid ;;
      ret (match var with
           | None => (EFI_NOT_FOUND, None)
           | Some i => (EFI_SUCCESS, Some i)
           end)
  | _, _ => ret (EFI_DEVICE_ERROR, None)
  end.

(** The loop of [storage_iter]: [inl] is the jump to [err], [inr] the
    normal exit; the index is the static's value. *)
Fixpoint storage_iter_loop (fuel : nat) (vars : list variable_t) (idx : Z)
    (var : variable_t) : outcome ((variable_t + variable_t) * Z) :=
  if idx <? MAX_VAR_COUNT then
    match fuel with
    | O => Fault OutOfFuel
    | S fuel' =>
        match vars !! Z.to_nat idx with
        | None => Fault OutOfBounds
        | Some p =>
            let* valid := variable_is_valid p in
            if negb valid then storage_iter_loop fuel' vars (idx + 1) var
            else
              let* (r, var') := variable_copy var p in
              if r <? 0 then Ok (inl var', idx + 1) else Ok (inr var', idx + 1)
        end
    end
  else Ok (inr var, idx).

(** The status and [*var]. *)
Definition storage_iter (var : variable_t) : M storage (EFI_STATUS * variable_t) :=
  s <- mget ;;
  '(r, idx) <- mlift (storage_iter_loop (Z.to_nat MAX_VAR_COUNT) (variables s)
                        (storage_iter_index s) var) ;;
  match r with
  | inl var' => mmodify (set_iter 0) ;; ret (EFI_DEVICE_ERROR, var')
  | inr var' =>
      if idx >=? MAX_VAR_COUNT then mmodify (set_iter 0) ;; ret (EFI_NOT_FOUND, var')
      else mmodify (set_iter idx) ;; ret (EFI_SUCCESS, var')
  end.

Definition storage_remove (name : option bytes) (namesz : Z) (guid : option EFI_GUID) :
    M storage EFI_STATUS :=
  match name, guid with
  | Some n, Some g =>
      s <- mget ;;
      found <- mlift (find_variable_loop n namesz g (variables s)) ;;
      match found with
      | None => ret EFI_NOT_FOUND
      | Some i =>
          v <- mlift (slot_at s i) ;;
          mput (mk_storage (<[i := variable_destroy_noalloc v]> (variables s))
                  (u64 (total s - 1)) (u64 (used s - slot_cost)) (storage_iter_index s)) ;;
          ret EFI_SUCCESS
      end
  | _, _ => ret EFI_DEVICE_ERROR
  end.

(** The first slot whose name starts with the zero character. *)
Fixpoint find_empty_slot (vars : list variable_t) : outcome (option nat) :=
  match vars with
  | [] => Ok None
  | var :: vars' =>
      let* c := name_char var 0 in
      if c =? 0 then Ok (Some O)
      else let* r := find_empty_slot vars' in Ok (S <$> r)
  end.

(** [storage_set] when the variable exists, in slot [i]. *)
Definition storage_set_existing (i : nat) (name : option bytes) (namesz : Z)
    (data : option bytes) (datasz attrs : Z) (append : bool) : M storage EFI_STATUS :=
  s <- mget ;;
  v <- mlift (slot_at s i) ;;
  if negb (var_attrs v =? attrs) then ret EFI_INVALID_PARAMETER
  else
  '(r, v) <- mlift (variable_set_name v name namesz) ;;
  mmodify (set_slot i v) ;;
  if r =? -2 then ret EFI_OUT_OF_RESOURCES
  else if r <? 0 then ret EFI_DEVICE_ERROR
  else
  '(r, v) <- mlift (variable_set_data v data datasz append) ;;
  mmodify (set_slot i v) ;;
  if r =? -2 then ret EFI_OUT_OF_RESOURCES
  else if r <? 0 then ret EFI_DEVICE_ERROR
  else
  mmodify (set_slot i (with_attrs attrs v)) ;;
  ret EFI_SUCCESS.

(** [storage_set] when it does not. *)
Definition storage_set_new (name : option bytes) (namesz : Z) (guid : option EFI_GUID)
    (data : option bytes) (datasz attrs : Z) : M storage EFI_STATUS :=
  s <- mget ;;
  empty <- mlift (find_empty_slot (variables s)) ;;
  match empty with
  | None => ret EFI_DEVICE_ERROR
  | Some i =>
      v <- mlift (slot_at s i) ;;
      '(r, v) <- mlift (variable_create_noalloc v name namesz data datasz guid attrs None None) ;;
      mmodify (set_slot i v) ;;
      if r <? 0 then ret EFI_DEVICE_ERROR
      else
      mmodify (fun s => mk_storage (variables s) (u64 (total s + 1)) (u64 (used s + slot_cost))
                          (storage_iter_index s)) ;;
      ret EFI_SUCCESS
  end.

Definition storage_set (name : option bytes) (namesz : Z) (guid : option EFI_GUID)
    (data : option bytes) (datasz attrs : Z) : M storage EFI_STATUS :=
  match name, guid with
  | Some n, Some g =>
      used <- storage_used ;;
      if (namesz >? MAX_VARIABLE_NAME_SIZE) || (datasz >? MAX_VARIABLE_DATA_SIZE)
         || (u64 (datasz + namesz + used) >? MAX_STORAGE_SIZE)
      then ret EFI_OUT_OF_RESOURCES
      else
      let append := has attrs EFI_VARIABLE_APPEND_WRITE in
      if ((datasz =? 0) && negb append) || (attrs =? 0) then storage_remove name namesz guid
      else
      match data with
      | None => ret EFI_DEVICE_ERROR
      | Some _ =>
          let attrs := Z.ldiff attrs EFI_VARIABLE_APPEND_WRITE in
          s <- mget ;;
          found <- mlift (find_variable_loop n namesz g (variables s)) ;;
          match found with
          | Some i => storage_set_existing i name namesz data datasz attrs append
          | None => storage_set_new name namesz guid data datasz attrs
          end
      end
  | _, _ => ret EFI_DEVICE_ERROR
  end.

Definition storage_set_with_timestamp (name : option bytes) (namesz : Z)
    (guid : option EFI_GUID) (data : option bytes) (datasz attrs : Z)
    (timestamp : option EFI_TIME) : M storage EFI_STATUS :=
  match name, data, guid, timestamp with
  | Some _, Some _, Some _, Some _ =>
      status <- storage_set name namesz guid data datasz attrs ;;
      if is_delete attrs datasz then ret status
      else
      '(status, var) <- storage_get_var_ptr name namesz guid ;;
      match var with
      | None => ret status
      | Some i =>
          s <- mget ;;
          v <- mlift (slot_at s i) ;;
          let '(r, v) := variable_set_timestamp v timestamp in
          mmodify (set_slot i v) ;;
          if r <? 0 then ret EFI_DEVICE_ERROR else ret EFI_SUCCESS
      end
  | _, _, _, _ => ret EFI_DEVICE_ERROR
  end.

(** The first slot from [i] on that is valid and accessible. *)
Fixpoint find_accessible (efi_at_runtime : bool) (i : nat) (vars : list variable_t) :
    outcome (option nat) :=
  match vars with
  | [] => Ok None
  | var :: vars' =>
      let* valid := variable_is_valid var in
      if valid && negb (rt_deny_access efi_at_runtime (var_attrs var)) then Ok (Some i)
      else find_accessible efi_at_runtime (S i) vars'
  end.

Definition storage_get_first (efi_at_runtime : bool) : M storage (option nat) :=
  s <- mget ;;
  if total s =? 0 then ret None
  else mlift (find_accessible efi_at_runtime 0 (variables s)).

Definition storage_next_variable (efi_at_runtime : bool) (name : bytes) (namesz : Z)
    (guid : EFI_GUID) : M storage (option nat) :=
  c <- mlift (read_le 2 name 0) ;;
  if (c =? 0) || (namesz =? 0) then storage_get_first efi_at_runtime
  else
  s <- mget ;;
  prev <- mlift (find_variable_loop name namesz guid (variables s)) ;;
  match prev with
  | None => ret None
  | Some i => mlift (find_accessible efi_at_runtime (S i) (drop (S i) (variables s)))
  end.

End operations.
