(* ===== verification/StorageInv.v ===== *)
(** * Invariants of the store

    The structural invariant [storage_wf] (array length, well-formed slots,
    counters), the stronger [storage_inv] (canonical names, unique keys), the
    behaviour of each operation of [Storage] under them, and their
    preservation. *)
From S2P Require Import Prelude EfiTypes Common UefiVariable Storage.

(** ** Counting the slots in use *)
Fixpoint nlive (vars : list variable_t) : Z :=
  match vars with
  | [] => 0
  | v :: vars' => Z.b2z (live v) + nlive vars'
  end.

Lemma nlive_range vars : 0 <= nlive vars <= zlen vars.
Proof.
  induction vars as [|v vars IH]; cbn [nlive]; [done|].
  rewrite zlen_cons. destruct (live v); cbn [Z.b2z]; lia.
Qed.

Lemma nlive_insert vars i v v' :
  vars !! i = Some v ->
  nlive (<[i:=v']> vars)
  = nlive vars - Z.b2z (live v) + Z.b2z (live v').
Proof.
  revert i. induction vars as [|w vars IH]; intros [|i] Hi; try done.
  - injection Hi as ->. simpl. lia.
  - simpl in Hi |- *. rewrite (IH i Hi). lia.
Qed.

Lemma nlive_free_slot vars i v : vars !! i = Some v -> live v = false -> nlive vars < zlen vars.
Proof.
  revert i. induction vars as [|w vars IH]; intros [|i] Hi Hl; try done.
  - injection Hi as ->. cbn [nlive]. rewrite Hl, zlen_cons. cbn [Z.b2z]. pose proof (nlive_range vars). lia.
  - cbn in Hi |- *. rewrite zlen_cons. specialize (IH i Hi Hl). destruct (live w); cbn [Z.b2z]; lia.
Qed.

Lemma nlive_live_slot vars i v : vars !! i = Some v -> live v = true -> 0 < nlive vars.
Proof.
  revert i. induction vars as [|w vars IH]; intros [|i] Hi Hl; try done.
  - injection Hi as ->. cbn [nlive]. rewrite Hl. cbn [Z.b2z]. pose proof (nlive_range vars). lia.
  - cbn in Hi |- *. specialize (IH i Hi Hl). destruct (live w); cbn [Z.b2z]; lia.
Qed.

Lemma nlive_zero_vars n : nlive (replicate n zero_var) = 0.
Proof. by induction n. Qed.

(** ** The invariants *)
Record storage_wf (s : storage) : Prop := {
  sw_len : zlen (variables s) = MAX_VAR_COUNT;
  sw_slots : Forall slot_wf (variables s);
  sw_total : total s = nlive (variables s);
  sw_used : used s = slot_cost * nlive (variables s);
  sw_iter : 0 <= storage_iter_index s <= MAX_VAR_COUNT
}.

(** No two slots in use hold the same key. *)
Definition keys_unique (vars : list variable_t) : Prop :=
  forall i j v w, vars !! i = Some v -> vars !! j = Some w ->
    live v = true -> live w = true -> var_key v = var_key w -> i = j.

Record storage_inv (s : storage) : Prop := {
  si_wf :> storage_wf s;
  si_canonical : Forall slot_canonical (variables s);
  si_unique : keys_unique (variables s)
}.

Lemma storage_wf_counts s :
  storage_wf s -> 0 <= total s <= 128 /\ used s = 33024 * total s.
Proof.
  intros [Hl _ Ht Hu _]. pose proof (nlive_range (variables s)).
  clia.
Qed.

Lemma storage_init_inv : storage_inv storage_init.
Proof.
  constructor; [constructor|..]; cbn [variables total used storage_iter_index storage_init].
  - by rewrite zlen_replicate.
  - by apply Forall_replicate.
  - by rewrite nlive_zero_vars.
  - by rewrite nlive_zero_vars.
  - clia.
  - by apply Forall_replicate.
  - intros i j v w [-> _]%lookup_replicate. done.
Qed.
#[export] Hint Resolve storage_init_inv si_wf : uefi.

Lemma slot_wf_lookup s i v : storage_wf s -> variables s !! i = Some v -> slot_wf v.
Proof. intros Hs Hi. by eapply Forall_lookup_1; [apply Hs|]. Qed.

Lemma slot_canonical_live s i v :
  storage_inv s -> variables s !! i = Some v -> live v = true -> canonical v.
Proof.
  intros Hs Hi Hl. pose proof (Forall_lookup_1 _ _ _ _ (si_canonical _ Hs) Hi) as H.
  unfold slot_canonical in H. by rewrite Hl in H.
Qed.

Lemma slot_at_ok s i v : variables s !! i = Some v -> slot_at s i = Ok v.
Proof. unfold slot_at. by intros ->. Qed.

(** Replacing a slot by one of the same liveness and key keeps the invariants. *)
Lemma set_slot_wf s i v v' :
  storage_wf s -> variables s !! i = Some v -> slot_wf v' -> live v' = live v ->
  storage_wf (set_slot i v' s).
Proof.
  intros [Hl Hs Ht Hu Hi] Hv Hv' Hlive.
  constructor; cbn [variables total used storage_iter_index set_slot set_variables].
  - unfold zlen in *. by rewrite length_insert.
  - by apply Forall_insert.
  - rewrite (nlive_insert _ _ _ _ Hv), Hlive. lia.
  - rewrite (nlive_insert _ _ _ _ Hv), Hlive. lia.
  - done.
Qed.

Lemma keys_unique_insert vars i v v' :
  keys_unique vars -> vars !! i = Some v -> live v = true -> var_key v' = var_key v ->
  keys_unique (<[i:=v']> vars).
Proof.
  intros Hu Hi Hl Hk j1 j2 w1 w2 H1 H2 L1 L2 E.
  apply list_lookup_insert_Some in H1 as [(<- & -> & _)|(N1 & H1)];
  apply list_lookup_insert_Some in H2 as [(<- & -> & _)|(N2 & H2)]; try done.
  - apply (Hu i j2 v w2); [done..|]. congruence.
  - apply (Hu j1 i w1 v); [done..|]. congruence.
  - by eapply Hu.
Qed.

Lemma keys_unique_insert_new vars i v' :
  keys_unique vars -> slot_of (var_key v') vars = None -> keys_unique (<[i:=v']> vars).
Proof.
  intros Hu Hn j1 j2 w1 w2 H1 H2 L1 L2 E.
  pose proof (list_find_None (has_key (var_key v')) vars) as [HN _].
  specialize (HN Hn).
  apply list_lookup_insert_Some in H1 as [(<- & -> & _)|(N1 & H1)];
  apply list_lookup_insert_Some in H2 as [(<- & -> & _)|(N2 & H2)]; try done.
  - exfalso. eapply Forall_lookup_1 in HN; [|exact H2]. apply HN. by split.
  - exfalso. eapply Forall_lookup_1 in HN; [|exact H1]. apply HN. by split.
  - by eapply Hu.
Qed.

Lemma keys_unique_insert_dead vars i v' :
  keys_unique vars -> live v' = false -> keys_unique (<[i:=v']> vars).
Proof.
  intros Hu Hn j1 j2 w1 w2 H1 H2 L1 L2 E.
  apply list_lookup_insert_Some in H1 as [(<- & -> & _)|(N1 & H1)]; [congruence|].
  apply list_lookup_insert_Some in H2 as [(<- & -> & _)|(N2 & H2)]; [congruence|].
  by eapply Hu.
Qed.

Lemma set_slot_inv s i v v' :
  storage_inv s -> variables s !! i = Some v -> live v = true ->
  live_wf v' -> canonical v' -> var_key v' = var_key v ->
  storage_inv (set_slot i v' s).
Proof.
  intros [Hw Hc Hu] Hi Hl Hv' Hc' Hk. constructor.
  - eapply set_slot_wf; [done|done|by apply live_slot_wf|].
    by rewrite Hl, live_wf_live.
  - cbn. apply Forall_insert; [done|]. unfold slot_canonical. by rewrite live_wf_live.
  - cbn. by eapply keys_unique_insert.
Qed.

(** With unique keys the lookup finds the slot that holds the key. *)
Lemma slot_of_unique vars k i v :
  keys_unique vars -> vars !! i = Some v -> has_key k v -> slot_of k vars = Some (i, v).
Proof.
  intros Hu Hi [Hl Hk]. unfold slot_of. apply list_find_Some.
  split_and!; [done|by split|]. intros j w Hj Hji [Hlw Hkw].
  assert (i = j) by (apply (Hu i j v w); congruence || done). lia.
Qed.

(** ** Behaviour of the searches *)
Lemma find_empty_slot_ok vars :
  Forall slot_wf vars ->
  find_empty_slot vars = Ok (fst <$> list_find (fun v => live v = false) vars).
Proof.
  induction 1 as [|v vars Hv Hvars IH]; [done|].
  cbn [find_empty_slot list_find].
  rewrite name_char_ok by (lia || by apply slot_wf_name). cbn [obind].
  rewrite IH. unfold live. destruct (char_at (var_name v) 0 =? 0); cbn [negb].
  - by rewrite decide_True.
  - rewrite decide_False by done. cbn [obind]. by destruct (list_find _ vars) as [[]|].
Qed.

Lemma no_empty_slot vars :
  list_find (fun v => live v = false) vars = None -> nlive vars = zlen vars.
Proof.
  intros H%list_find_None. induction H as [|v vars Hv Hvars IH]; [done|].
  cbn [nlive]. rewrite zlen_cons, IH. by destruct (live v).
Qed.

Lemma storage_find_variable_pos s n sz g :
  storage_wf s -> 1 <= sz -> sz <= zlen n -> zlen g = 16 ->
  storage_find_variable (Some n) sz (Some g) s
  = Ok (fst <$> slot_of (arg_key n sz g) (variables s), s).
Proof.
  intros Hs Hsz Hn Hg. unfold storage_find_variable, bind, mget, mlift.
  by rewrite find_variable_pos by (done || apply Hs).
Qed.
Lemma storage_find_variable_ok s n sz g :
  storage_wf s -> 2 <= sz -> sz <= zlen n -> zlen g = 16 ->
  storage_find_variable (Some n) sz (Some g) s
  = Ok (fst <$> slot_of (arg_key n sz g) (variables s), s).
Proof. intros. apply storage_find_variable_pos; done || lia. Qed.

(** ** Removal *)
Lemma storage_remove_ok s n sz g :
  storage_wf s -> 1 <= sz -> sz <= zlen n -> zlen g = 16 ->
  storage_remove (Some n) sz (Some g) s
  = Ok match slot_of (arg_key n sz g) (variables s) with
       | None => (EFI_NOT_FOUND, s)
       | Some (i, _) =>
           (EFI_SUCCESS, mk_storage (<[i := zero_var]> (variables s)) (total s - 1)
                           (used s - slot_cost) (storage_iter_index s))
       end.
Proof.
  intros Hs Hsz Hn Hg. unfold storage_remove, bind, mget, mlift, mput.
  pose proof (find_variable_pos n sz g (variables s)) as Hf. unfold find_variable in Hf.
  rewrite Hf by (done || apply Hs).
  destruct (slot_of _ _) as [[i v]|] eqn:E; [|done].
  cbn. apply slot_of_Some in E as [Hi [Hl _]].
  rewrite (slot_at_ok _ _ _ Hi).
  pose proof (storage_wf_counts _ Hs).
  assert (0 < total s) by (rewrite (sw_total _ Hs); by eapply nlive_live_slot).
  by rewrite !u64_id by clia.
Qed.

Lemma remove_slot_wf s i v :
  storage_wf s -> variables s !! i = Some v -> live v = true ->
  storage_wf (mk_storage (<[i := zero_var]> (variables s)) (total s - 1)
                         (used s - slot_cost) (storage_iter_index s)).
Proof.
  intros [Hl Hs Ht Hu Hi] Hv Hlv.
  constructor; cbn [variables total used storage_iter_index].
  - unfold zlen in *. by rewrite length_insert.
  - by apply Forall_insert.
  - rewrite (nlive_insert _ _ _ _ Hv), Hlv. change (live zero_var) with false. cbn [Z.b2z]. lia.
  - rewrite (nlive_insert _ _ _ _ Hv), Hlv. change (live zero_var) with false. cbn [Z.b2z]. clia.
  - done.
Qed.

Lemma remove_slot_inv s i v :
  storage_inv s -> variables s !! i = Some v -> live v = true ->
  storage_inv (mk_storage (<[i := zero_var]> (variables s)) (total s - 1)
                          (used s - slot_cost) (storage_iter_index s)).
Proof.
  intros [Hw Hc Hk] Hv Hlv.
  constructor; [by eapply remove_slot_wf|..]; cbn [variables].
  - by apply Forall_insert.
  - by apply keys_unique_insert_dead.
Qed.

(** ** Updates *)
Lemma masked_attrs_range attrs :
  0 <= attrs < 0x100000000 ->
  0 <= Z.ldiff attrs EFI_VARIABLE_APPEND_WRITE < 0x100000000.
Proof.
  intros [H1 H2].
  assert (0 <= Z.ldiff attrs EFI_VARIABLE_APPEND_WRITE) by (apply Z.ldiff_nonneg; lia).
  split; [done|].
  destruct (Z.eq_dec (Z.ldiff attrs EFI_VARIABLE_APPEND_WRITE) 0) as [->|Hne]; [lia|].
  assert (Hlog : Z.log2 (Z.ldiff attrs EFI_VARIABLE_APPEND_WRITE) < 32); cycle 1.
  { apply Z.log2_lt_pow2 in Hlog; lia. }
  apply Z.le_lt_trans with (Z.log2 attrs); cycle 1.
  { apply Z.log2_lt_pow2; [|lia].
    destruct (Z.eq_dec attrs 0) as [->|]; [done|lia]. }
  destruct (Z.eq_dec attrs 0) as [->|]; [done|].
  destruct (Z.lt_ge_cases (Z.log2 attrs) (Z.log2 (Z.ldiff attrs EFI_VARIABLE_APPEND_WRITE)))
    as [Hlt|]; [exfalso|done].
  pose proof (Z.bit_log2 (Z.ldiff attrs EFI_VARIABLE_APPEND_WRITE) ltac:(lia)) as Hb.
  rewrite Z.ldiff_spec, Z.bits_above_log2 in Hb by lia. done.
Qed.

Lemma with_attrs_id v : with_attrs (var_attrs v) v = v.
Proof. by destruct v. Qed.
Lemma set_slot_set_slot i v w s : set_slot i v (set_slot i w s) = set_slot i v s.
Proof. unfold set_slot, set_variables. cbn. by rewrite list_insert_insert_eq. Qed.
Lemma set_slot_id i v s : variables s !! i = Some v -> set_slot i v s = s.
Proof. intros H. unfold set_slot. rewrite list_insert_id by done. by destruct s. Qed.

(** The data an update leaves: [None] when it is refused. *)
Definition updated_data (old new : bytes) (append : bool) : option bytes :=
  if append then
    if zlen old + zlen new >? MAX_VARIABLE_DATA_SIZE then None else Some (old ++ new)
  else Some new.

Section updates.
Context `{Allocator}.

Lemma storage_set_existing_ok s i v d n sz g src dsz attrs append :
  grants MAX_VARIABLE_DATA_SIZE -> storage_inv s -> variables s !! i = Some v ->
  live v = true -> canonical_name n sz -> var_key v = arg_key n sz g ->
  var_data v = Some d ->
  0 <= dsz <= MAX_VARIABLE_DATA_SIZE -> dsz <= zlen src ->
  storage_set_existing i (Some n) sz (Some src) dsz attrs append s
  = Ok (if negb (var_attrs v =? attrs) then (EFI_INVALID_PARAMETER, s)
        else if dsz =? 0 then (EFI_DEVICE_ERROR, s)
        else match updated_data d (take (Z.to_nat dsz) src) append with
             | None => (EFI_DEVICE_ERROR, s)
             | Some d' => (EFI_SUCCESS, set_slot i (with_data (Some d') (zlen d') v) s)
             end).
Proof.
  intros G Hs Hi Hl Hn Hk Hd Hdsz Hsrc.
  pose proof (slot_wf_live _ (slot_wf_lookup _ _ _ Hs Hi) Hl) as Hw.
  assert (Hsz : zlen d = var_datasz v).
  { destruct (lw_data _ Hw) as (d' & E & ?). congruence. }
  pose proof (lw_datasz _ Hw) as Hr.
  unfold storage_set_existing, bind, mget, mlift, mmodify, ret.
  rewrite (slot_at_ok _ _ _ Hi).
  destruct (var_attrs v =? attrs) eqn:Ea; cbn [negb]; [|done]. apply Z.eqb_eq in Ea as <-.
  rewrite (variable_set_name_same _ _ _ _ Hw Hn Hk). cbn [Z.eqb Z.ltb Z.compare].
  rewrite (set_slot_id _ _ _ Hi).
  destruct (dsz =? 0) eqn:E0.
  { apply Z.eqb_eq in E0 as ->. rewrite variable_set_data_empty.
    by rewrite (set_slot_id _ _ _ Hi). }
  apply Z.eqb_neq in E0. unfold updated_data. destruct append.
  - rewrite zlen_take, Z2Nat.id, Z.min_l by lia.
    destruct (zlen d + dsz >? MAX_VARIABLE_DATA_SIZE) eqn:Em; rewrite Z.gtb_ltb in Em.
    + apply Z.ltb_lt in Em. rewrite variable_set_data_append_full by lia.
      by rewrite (set_slot_id _ _ _ Hi).
    + apply Z.ltb_ge in Em.
      rewrite (variable_set_data_append _ d) by (done || lia). cbn [Z.eqb Z.ltb Z.compare].
      rewrite set_slot_set_slot. rewrite zlen_app, zlen_take, Z2Nat.id, Z.min_l by lia.
      by destruct v.
  - rewrite variable_set_data_replace by (done || lia || by apply live_wf_data_ok).
    cbn [Z.eqb Z.ltb Z.compare].
    rewrite set_slot_set_slot. rewrite zlen_take, Z2Nat.id, Z.min_l by lia. by destruct v.
Qed.

Lemma storage_set_new_ok s n sz g src dsz attrs :
  grants MAX_VARIABLE_DATA_SIZE -> storage_wf s ->
  name_arg n sz -> zlen g = 16 ->
  0 <= dsz <= MAX_VARIABLE_DATA_SIZE -> dsz <= zlen src ->
  storage_set_new (Some n) sz (Some g) (Some src) dsz attrs s
  = Ok (match list_find (fun v => live v = false) (variables s) with
        | None => (EFI_DEVICE_ERROR, s)
        | Some (i, _) =>
            if dsz =? 0 then (EFI_DEVICE_ERROR, s)
            else
            (EFI_SUCCESS,
             mk_storage (<[i := created n sz src dsz g attrs None None]> (variables s))
                        (total s + 1) (used s + slot_cost) (storage_iter_index s))
        end).
Proof.
  intros G Hs Hn Hg Hdsz Hsrc.
  unfold storage_set_new, bind, mget, mlift, mmodify, ret.
  rewrite find_empty_slot_ok by apply Hs.
  destruct (list_find _ _) as [[i v]|] eqn:E; [|done].
  cbn [fmap option_fmap option_map fst].
  apply list_find_Some in E as (Hi & Hl & _).
  rewrite (slot_at_ok _ _ _ Hi).
  pose proof (slot_wf_free _ (slot_wf_lookup _ _ _ Hs Hi) Hl) as ->.
  pose proof (nlive_free_slot _ _ _ Hi Hl) as Hfree.
  rewrite (sw_len _ Hs) in Hfree. pose proof (storage_wf_counts _ Hs) as [Hc1 Hc2].
  pose proof (sw_total _ Hs).
  destruct (dsz =? 0) eqn:E0.
  { apply Z.eqb_eq in E0 as ->. rewrite variable_create_noalloc_empty.
    by rewrite (set_slot_id _ _ _ Hi). }
  apply Z.eqb_neq in E0. destruct Hn as [Hsz Ho Hf].
  rewrite variable_create_noalloc_ok by (done || lia).
  cbn [Z.ltb Z.compare set_slot set_variables variables total used storage_iter_index].
  by rewrite !u64_id by clia.
Qed.

End updates.

(** What an insertion into the first free slot keeps. *)
Lemma insert_slot_wf s i v v' :
  storage_wf s -> variables s !! i = Some v -> live v = false -> live_wf v' ->
  storage_wf (mk_storage (<[i := v']> (variables s)) (total s + 1) (used s + slot_cost)
                         (storage_iter_index s)).
Proof.
  intros [Hl Hs Ht Hu Hi] Hv Hlv Hv'.
  constructor; cbn [variables total used storage_iter_index].
  - unfold zlen in *. by rewrite length_insert.
  - apply Forall_insert; [done|by apply live_slot_wf].
  - rewrite (nlive_insert _ _ _ _ Hv), Hlv, live_wf_live by done. cbn [Z.b2z]. lia.
  - rewrite (nlive_insert _ _ _ _ Hv), Hlv, live_wf_live by done. cbn [Z.b2z]. clia.
  - done.
Qed.

Lemma insert_slot_inv s i v v' :
  storage_inv s -> variables s !! i = Some v -> live v = false -> live_wf v' ->
  canonical v' -> slot_of (var_key v') (variables s) = None ->
  storage_inv (mk_storage (<[i := v']> (variables s)) (total s + 1) (used s + slot_cost)
                          (storage_iter_index s)).
Proof.
  intros [Hw Hc Hk] Hv Hlv Hv' Hc' Hn.
  constructor; [by eapply insert_slot_wf|..]; cbn [variables].
  - apply Forall_insert; [done|]. unfold slot_canonical. by rewrite live_wf_live.
  - by apply keys_unique_insert_new.
Qed.
