(* ===== verification/Samples.v ===== *)
(** * Sample data

    Small concrete variables and a store that holds them: the inputs at which
    the general theorems are instantiated. *)
From S2P Require Import Prelude EfiTypes Common UefiVariable Storage StorageInv.

Definition name_A : bytes := L [0x41].
Definition guid_1 : EFI_GUID := replicate 16 x01.
Definition guid_2 : EFI_GUID := replicate 16 x02.

Lemma name_A_ok : canonical_name name_A 2.
Proof. by repeat constructor. Qed.

(** A boot-time variable and one accessible at run time. *)
Definition var_1 : variable_t := created name_A 2 [x07] 1 guid_1 3 None None.
Definition var_2 : variable_t := created name_A 2 [x08] 1 guid_2 7 None None.

Lemma var_1_ok : live_wf var_1 /\ canonical var_1.
Proof.
  pose proof name_A_ok as Hn.
  split; [|by apply created_canonical].
  apply created_live_wf; first [done | apply Hn | clia | idtac].
Qed.
Lemma var_2_ok : live_wf var_2 /\ canonical var_2.
Proof.
  pose proof name_A_ok as Hn.
  split; [|by apply created_canonical].
  apply created_live_wf; first [done | apply Hn | clia | idtac].
Qed.

(** The store with these two variables. *)
Definition store_2 : storage :=
  mk_storage (var_1 :: var_2 :: replicate 126 zero_var) 2 66048 0.

Lemma store_2_inv : storage_inv store_2.
Proof.
  destruct var_1_ok as [L1 C1], var_2_ok as [L2 C2].
  constructor; [constructor; cbn [variables total used storage_iter_index store_2]|..];
    cbn [variables store_2].
  - done.
  - apply Forall_cons; split; [by apply live_slot_wf|].
    apply Forall_cons; split; [by apply live_slot_wf|].
    apply Forall_replicate, zero_slot_wf.
  - done.
  - done.
  - clia.
  - apply Forall_cons; split; [unfold slot_canonical; by rewrite live_wf_live|].
    apply Forall_cons; split; [unfold slot_canonical; by rewrite live_wf_live|].
    by apply Forall_replicate.
  - intros i j v w Hi Hj Hv Hw Hk.
    assert (Hdead : forall k x, replicate 126 zero_var !! k = Some x -> live x = true -> False).
    { intros k x Hx Hl. by apply lookup_replicate in Hx as [-> _]. }
    destruct i as [|[|i]], j as [|[|j]]; try done;
      try (exfalso; eapply Hdead; [exact Hi|done]);
      try (exfalso; eapply Hdead; [exact Hj|done]);
      injection Hi as <-; injection Hj as <-; vm_compute in Hk; congruence.
Qed.

(** A store that holds the given variables in its first slots. *)
Definition store_of (vars : list variable_t) : storage :=
  mk_storage (vars ++ replicate (128 - length vars) zero_var) (zlen vars) (33024 * zlen vars) 0.

Lemma nlive_of vars k :
  Forall live_wf vars -> nlive (vars ++ replicate k zero_var) = zlen vars.
Proof.
  induction 1 as [|v vars Hv _ IH]; [apply nlive_zero_vars|]. cbn [app nlive].
  by rewrite live_wf_live, IH, zlen_cons by done.
Qed.

Lemma store_of_inv vars :
  Forall live_wf vars -> Forall canonical vars -> NoDup (var_key <$> vars) ->
  (length vars <= 128)%nat -> storage_inv (store_of vars).
Proof.
  intros Hl Hc Hnd Hn.
  constructor; [constructor|..]; cbn [variables total used storage_iter_index store_of].
  - rewrite zlen_app, zlen_replicate. unfold zlen. clia.
  - apply Forall_app. split; [|apply Forall_replicate, zero_slot_wf].
    eapply Forall_impl; [exact Hl|]. apply live_slot_wf.
  - by rewrite nlive_of.
  - rewrite nlive_of by done. clia.
  - clia.
  - apply Forall_app. split; [|by apply Forall_replicate].
    eapply Forall_impl; [exact Hc|]. intros v Hv. unfold slot_canonical. by destruct (live v).
  - intros i j v w Hi Hj Hv Hw Hk.
    assert (Hin : forall k x, (vars ++ replicate (128 - length vars) zero_var) !! k = Some x ->
                    live x = true -> (var_key <$> vars) !! k = Some (var_key x)).
    { intros k x [Hx|[_ Hx]]%lookup_app_Some Hlx.
      - by rewrite list_lookup_fmap, Hx.
      - apply lookup_replicate in Hx as [-> _]. done. }
    eapply NoDup_lookup; [exact Hnd|by apply Hin|]. rewrite Hk. by apply Hin.
Qed.
