(* ===== verification/StorageSpec.v ===== *)
(** * The store refines a finite map

    The abstract store is a finite map from (name, GUID) to a value, with room
    for 128 entries.  [abs] reads it off the slot array; each operation of
    [src/storage.c] computes the operation of the abstract store. *)
From S2P Require Import Prelude EfiTypes Common UefiVariable Storage StorageInv.

(** ** The abstract store *)
Record value : Type := mk_value {
  val_attrs : Z;
  val_data : bytes;
  val_time : EFI_TIME;
  val_cert : bytes
}.

Abbreviation var_map := (gmap key value).

Definition value_of (v : variable_t) : value :=
  mk_value (var_attrs v) (match var_data v with Some d => d | None => [] end)
           (var_timestamp v) (var_cert v).

Fixpoint abs (vars : list variable_t) : var_map :=
  match vars with
  | [] => ∅
  | v :: vars' => if live v then <[var_key v := value_of v]> (abs vars') else abs vars'
  end.

Lemma val_data_of v d : var_data v = Some d -> val_data (value_of v) = d.
Proof. intros H. cbn. by rewrite H. Qed.

Definition with_val_data (d : bytes) (x : value) : value :=
  mk_value (val_attrs x) d (val_time x) (val_cert x).

(** [GetVariable]: the status and the value, as the runtime phase allows. *)
Definition spec_get (efi_at_runtime : bool) (k : key) (m : var_map) : option value :=
  match m !! k with
  | Some x => if rt_deny_access efi_at_runtime (val_attrs x) then None else Some x
  | None => None
  end.

Definition spec_remove (k : key) (m : var_map) : EFI_STATUS * var_map :=
  match m !! k with
  | Some _ => (EFI_SUCCESS, delete k m)
  | None => (EFI_NOT_FOUND, m)
  end.

(** [SetVariable] of [data] with the attributes [attrs] (append bit included). *)
Definition spec_set (k : key) (data : bytes) (attrs : Z) (m : var_map) :
    EFI_STATUS * var_map :=
  let append := has attrs EFI_VARIABLE_APPEND_WRITE in
  let a := Z.ldiff attrs EFI_VARIABLE_APPEND_WRITE in
  if ((zlen data =? 0) && negb append) || (attrs =? 0) then spec_remove k m
  else
  match m !! k with
  | Some x =>
      if negb (val_attrs x =? a) then (EFI_INVALID_PARAMETER, m)
      else if zlen data =? 0 then (EFI_DEVICE_ERROR, m)
      else match updated_data (val_data x) data append with
           | None => (EFI_DEVICE_ERROR, m)
           | Some d => (EFI_SUCCESS, <[k := with_val_data d x]> m)
           end
  | None =>
      if (Z.of_nat (size m) =? MAX_VAR_COUNT) || (zlen data =? 0) then (EFI_DEVICE_ERROR, m)
      else (EFI_SUCCESS, <[k := mk_value a data zero_time zero_cert]> m)
  end.

(** ** Lookups *)
Lemma abs_lookup vars k : abs vars !! k = value_of ∘ snd <$> slot_of k vars.
Proof.
  induction vars as [|v vars IH]; [done|].
  cbn [abs]. unfold slot_of in *. cbn [list_find].
  destruct (live v) eqn:Hl; cycle 1.
  { rewrite IH, decide_False by (intros [? _]; congruence).
    by destruct (list_find _ vars) as [[]|]. }
  destruct (decide (has_key k v)) as [[_ <-]|Hn].
  - by rewrite lookup_insert_eq.
  - rewrite lookup_insert_ne, IH by (intros ?; apply Hn; by split).
    by destruct (list_find _ vars) as [[]|].
Qed.

Lemma slot_of_insert_ne vars i v v' k :
  vars !! i = Some v -> ~ has_key k v -> ~ has_key k v' ->
  slot_of k (<[i:=v']> vars) = slot_of k vars.
Proof.
  unfold slot_of. revert i. induction vars as [|w vars IH]; intros [|i] Hi Hv Hv'; try done.
  - injection Hi as ->. simpl. by rewrite !decide_False.
  - simpl in Hi |- *. destruct (decide _); [done|]. by rewrite (IH i).
Qed.

Lemma abs_insert vars i v v' :
  keys_unique vars -> vars !! i = Some v -> live v' = true ->
  (live v = true -> var_key v' = var_key v) ->
  (live v = false -> slot_of (var_key v') vars = None) ->
  abs (<[i:=v']> vars) = <[var_key v' := value_of v']> (abs vars).
Proof.
  intros Hu Hi Hl' Hk Hn. apply map_eq. intros k. rewrite abs_lookup.
  destruct (decide (k = var_key v')) as [->|Hne].
  - rewrite lookup_insert_eq, (slot_of_unique _ _ i v'); [done| | |by split].
    + destruct (live v) eqn:Hl.
      * eapply keys_unique_insert; eauto.
      * by apply keys_unique_insert_new, Hn.
    + apply list_lookup_insert_eq. by eapply lookup_lt_Some.
  - rewrite lookup_insert_ne, abs_lookup by done. f_equal.
    eapply slot_of_insert_ne; [done| |].
    + intros [Hl E]. apply Hne. rewrite <-E, Hk; done.
    + intros [_ E]. by apply Hne.
Qed.

Lemma abs_remove vars i v :
  keys_unique vars -> vars !! i = Some v -> live v = true ->
  abs (<[i:=zero_var]> vars) = delete (var_key v) (abs vars).
Proof.
  intros Hu Hi Hl. apply map_eq. intros k. rewrite abs_lookup.
  destruct (decide (k = var_key v)) as [->|Hne].
  - rewrite lookup_delete_eq.
    destruct (slot_of _ _) as [[j w]|] eqn:E; [|done]. exfalso.
    apply slot_of_Some in E as [Hj [Hlw Hkw]].
    apply list_lookup_insert_Some in Hj as [(<- & <- & _)|(Hij & Hj)]; [done|].
    by apply Hij, (Hu i j v w).
  - rewrite lookup_delete_ne, abs_lookup by done. f_equal.
    eapply slot_of_insert_ne; [done| |by intros [? _]].
    intros [_ E]. by apply Hne.
Qed.

Lemma keys_unique_tail v vars : keys_unique (v :: vars) -> keys_unique vars.
Proof.
  intros H i j w1 w2 Hi Hj L1 L2 E.
  specialize (H (S i) (S j) w1 w2 Hi Hj L1 L2 E). lia.
Qed.

Lemma abs_size vars : keys_unique vars -> Z.of_nat (size (abs vars)) = nlive vars.
Proof.
  induction vars as [|v vars IH]; intros Hu; [done|].
  cbn [abs nlive]. pose proof (keys_unique_tail _ _ Hu) as Ht. specialize (IH Ht).
  destruct (live v) eqn:Hl; cbn [Z.b2z]; [|lia].
  rewrite map_size_insert_None; [lia|].
  rewrite abs_lookup. destruct (slot_of _ _) as [[j w]|] eqn:E; [|done]. exfalso.
  apply slot_of_Some in E as [Hj [Hlw Hkw]].
  by specialize (Hu 0%nat (S j) v w eq_refl Hj Hl Hlw (eq_sym Hkw)).
Qed.

Lemma abs_zero_vars n : abs (replicate n zero_var) = ∅.
Proof. by induction n. Qed.

(** ** The refinement *)
Lemma canonical_stored v d :
  live_wf v -> 1 <= zlen d <= MAX_VARIABLE_DATA_SIZE ->
  live_wf (with_data (Some d) (zlen d) v).
Proof. intros [] Hd. constructor; cbn; eauto. Qed.

Lemma storage_remove_refines s n sz g :
  storage_inv s -> name_arg n sz -> zlen g = 16 ->
  exists st s', storage_remove (Some n) sz (Some g) s = Ok (st, s') /\ storage_inv s' /\
    (st, abs (variables s')) = spec_remove (arg_key n sz g) (abs (variables s)) /\
    storage_iter_index s' = storage_iter_index s.
Proof.
  intros Hs [Hsz Ho _] Hg.
  rewrite storage_remove_ok by (apply Hs || done || lia).
  unfold spec_remove. rewrite abs_lookup.
  destruct (slot_of _ _) as [[i v]|] eqn:E; cbn; [|by eexists _, _].
  apply slot_of_Some in E as [Hi [Hl Hk]].
  eexists _, _. split_and!; [done|by eapply remove_slot_inv| |done].
  cbn. by rewrite (abs_remove _ _ v), Hk by (apply Hs || done).
Qed.

Section refinement.
Context `{Allocator}.

(** The two bounds of the size check that [MAX_STORAGE_SIZE] adds nothing to. *)
Lemma storage_size_check s sz dsz :
  storage_wf s -> 0 <= sz <= MAX_VARIABLE_NAME_SIZE -> 0 <= dsz <= MAX_VARIABLE_DATA_SIZE ->
  (u64 (dsz + sz + used s) >? MAX_STORAGE_SIZE) = false.
Proof.
  intros Hs Hsz Hd. pose proof (storage_wf_counts _ Hs).
  rewrite u64_id by clia. by zb.
Qed.

(** A call without data or attributes is a removal. *)
Lemma storage_set_delete s n sz g :
  storage_wf s -> name_arg n sz ->
  storage_set (Some n) sz (Some g) None 0 0 s = storage_remove (Some n) sz (Some g) s.
Proof.
  intros Hs [Hsz _ _]. unfold storage_set, bind, storage_used, mgets, mget, mlift.
  rewrite storage_size_check by (done || clia).
  rewrite (Z.gtb_ltb sz), (proj2 (Z.ltb_ge _ sz)) by clia. done.
Qed.

(** [storage_set] past its guards. *)
Lemma storage_set_body s n sz g src dsz attrs :
  storage_wf s -> name_arg n sz -> zlen g = 16 -> 0 <= dsz <= MAX_VARIABLE_DATA_SIZE ->
  storage_set (Some n) sz (Some g) (Some src) dsz attrs s
  = (if ((dsz =? 0) && negb (has attrs EFI_VARIABLE_APPEND_WRITE)) || (attrs =? 0)
     then storage_remove (Some n) sz (Some g) s
     else match slot_of (arg_key n sz g) (variables s) with
          | Some (i, _) =>
              storage_set_existing i (Some n) sz (Some src) dsz
                (Z.ldiff attrs EFI_VARIABLE_APPEND_WRITE)
                (has attrs EFI_VARIABLE_APPEND_WRITE) s
          | None => storage_set_new (Some n) sz (Some g) (Some src) dsz
                      (Z.ldiff attrs EFI_VARIABLE_APPEND_WRITE) s
          end).
Proof.
  intros Hs [Hsz Ho Hf] Hg Hd.
  unfold storage_set, bind, storage_used, mgets, mget, mlift.
  rewrite storage_size_check by (done || clia).
  rewrite (Z.gtb_ltb sz), (Z.gtb_ltb dsz).
  rewrite (proj2 (Z.ltb_ge _ sz)), (proj2 (Z.ltb_ge _ dsz)) by clia. cbn [orb].
  destruct (_ || _); [done|].
  pose proof (find_variable_ok n sz g (variables s)) as Hfv. unfold find_variable in Hfv.
  rewrite Hfv by (apply Hs || done || lia).
  by destruct (slot_of _ _) as [[]|].
Qed.

(** The two ways a value is stored: over an existing variable, and in a free
    slot. *)
Section store_value.
Context (s : storage) (n : bytes) (sz : Z) (g : EFI_GUID) (src : bytes) (dsz attrs : Z).
Context (G : grants MAX_VARIABLE_DATA_SIZE) (Hs : storage_inv s) (Hn : canonical_name n sz)
  (Hg : zlen g = 16) (Hd : 0 <= dsz <= MAX_VARIABLE_DATA_SIZE) (Hsrc : dsz <= zlen src)
  (Ha : 0 <= attrs < 0x100000000)
  (Hset : ((dsz =? 0) && negb (has attrs EFI_VARIABLE_APPEND_WRITE)) || (attrs =? 0) = false).
#[local] Set Default Proof Using "Type*".

(** What storing a value must do. *)
Abbreviation stores := (fun m : M storage EFI_STATUS =>
  exists st s', m s = Ok (st, s') /\ storage_inv s' /\
    (st, abs (variables s'))
      = spec_set (arg_key n sz g) (take (Z.to_nat dsz) src) attrs (abs (variables s)) /\
    storage_iter_index s' = storage_iter_index s).

Lemma set_existing_refines i v :
  slot_of (arg_key n sz g) (variables s) = Some (i, v) ->
  stores (storage_set_existing i (Some n) sz (Some src) dsz
            (Z.ldiff attrs EFI_VARIABLE_APPEND_WRITE) (has attrs EFI_VARIABLE_APPEND_WRITE)).
Proof.
  intros E. pose proof (cn_arg _ _ Hn) as Hna. pose proof (masked_attrs_range _ Ha) as Hma.
  unfold spec_set. rewrite zlen_take, Z2Nat.id, Z.min_l, Hset, abs_lookup, E by lia.
  cbn [fmap option_fmap option_map snd compose]. apply slot_of_Some in E as [Hi [Hl Hk]].
  pose proof (slot_wf_live _ (slot_wf_lookup _ _ _ Hs Hi) Hl) as Hw.
  destruct (lw_data _ Hw) as (d & Hvd & Hvsz).
  rewrite (storage_set_existing_ok _ _ v d) with (g := g) by done.
  cbn [value_of val_attrs val_data]. rewrite Hvd. cbn match.
  destruct (negb (var_attrs v =? _)); [by eexists _, _|].
  destruct (dsz =? 0) eqn:E0; [by eexists _, _|]. apply Z.eqb_neq in E0.
  pose proof (lw_datasz _ Hw) as Hdr.
  destruct (updated_data _ _ _) as [d'|] eqn:Eu; [|by eexists _, _].
  assert (Hd' : 1 <= zlen d' <= MAX_VARIABLE_DATA_SIZE).
  { unfold updated_data in Eu. destruct (has _ _).
    - destruct (_ >? _) eqn:Eg; [done|]. injection Eu as <-.
      rewrite Z.gtb_ltb in Eg. apply Z.ltb_ge in Eg. zlia.
    - injection Eu as <-. zlia. }
  eexists _, _. split_and!; [done| | |done].
  - eapply set_slot_inv; [done..| | |done].
    + by apply canonical_stored.
    + destruct (slot_canonical_live _ _ _ Hs Hi Hl). by constructor.
  - cbn [variables set_slot set_variables].
    by rewrite (abs_insert _ _ v), <-Hk by (apply Hs || done || congruence).
Qed.

Lemma set_new_refines :
  slot_of (arg_key n sz g) (variables s) = None ->
  stores (storage_set_new (Some n) sz (Some g) (Some src) dsz
            (Z.ldiff attrs EFI_VARIABLE_APPEND_WRITE)).
Proof.
  intros E. pose proof (cn_arg _ _ Hn) as Hna. pose proof (masked_attrs_range _ Ha) as Hma.
  unfold spec_set. rewrite zlen_take, Z2Nat.id, Z.min_l, Hset, abs_lookup, E by lia.
  cbn [fmap option_fmap option_map]. rewrite storage_set_new_ok by (apply Hs || done).
  rewrite abs_size by apply Hs.
  destruct (list_find _ _) as [[i w]|] eqn:Ef; cycle 1.
  { apply no_empty_slot in Ef. rewrite Ef, (sw_len _ Hs), Z.eqb_refl. cbn [orb].
    by eexists _, _. }
  apply list_find_Some in Ef as (Hi & Hl & _).
  pose proof (nlive_free_slot _ _ _ Hi Hl) as Hfr. rewrite (sw_len _ Hs) in Hfr.
  rewrite (proj2 (Z.eqb_neq _ MAX_VAR_COUNT)) by lia. cbn [orb].
  destruct (dsz =? 0) eqn:E0; [by eexists _, _|]. apply Z.eqb_neq in E0.
  set (v' := created n sz src dsz g _ None None).
  assert (Hk' : var_key v' = arg_key n sz g).
  { unfold var_key, arg_key, v', created. cbn [var_namesz var_name var_guid].
    rewrite sanitized_canonical by done. destruct Hna as [Hsz Ho _].
    by rewrite stored_name_prefix by lia. }
  assert (Hw' : live_wf v') by (apply created_live_wf; done || lia).
  eexists _, _. split_and!; [done| | |done].
  - eapply insert_slot_inv; [done..|by apply created_canonical|by rewrite Hk'].
  - cbn [variables].
    rewrite (abs_insert _ _ w), Hk'; [done|apply Hs|done|by apply live_wf_live|congruence|].
    intros _. by rewrite Hk'.
Qed.

End store_value.

Lemma storage_set_refines s n sz g src dsz attrs :
  grants MAX_VARIABLE_DATA_SIZE -> storage_inv s -> canonical_name n sz -> zlen g = 16 ->
  0 <= dsz <= MAX_VARIABLE_DATA_SIZE -> dsz <= zlen src -> 0 <= attrs < 0x100000000 ->
  exists st s',
    storage_set (Some n) sz (Some g) (Some src) dsz attrs s = Ok (st, s') /\
    storage_inv s' /\
    (st, abs (variables s'))
      = spec_set (arg_key n sz g) (take (Z.to_nat dsz) src) attrs (abs (variables s)) /\
    storage_iter_index s' = storage_iter_index s.
Proof.
  intros G Hs Hn Hg Hd Hsrc Ha. pose proof (cn_arg _ _ Hn) as Hna.
  rewrite storage_set_body by (apply Hs || done).
  destruct ((_ && _) || _) eqn:Hset.
  - unfold spec_set. rewrite zlen_take, Z2Nat.id, Z.min_l, Hset by lia.
    by apply storage_remove_refines.
  - destruct (slot_of _ _) as [[i v]|] eqn:E; [by eapply set_existing_refines|].
    by apply set_new_refines.
Qed.

End refinement.

(** ** Reads *)
Lemma storage_find_abs s n sz g :
  storage_wf s -> 1 <= sz -> sz <= zlen n -> zlen g = 16 ->
  exists r, storage_find_variable (Some n) sz (Some g) s = Ok (r, s) /\
    match r with
    | Some i => exists v, variables s !! i = Some v /\ live_wf v /\
                  var_key v = arg_key n sz g /\
                  abs (variables s) !! arg_key n sz g = Some (value_of v)
    | None => abs (variables s) !! arg_key n sz g = None
    end.
Proof.
  intros Hs Hsz Hn Hg. rewrite storage_find_variable_pos by done.
  eexists. split; [done|]. rewrite abs_lookup.
  destruct (slot_of _ _) as [[i v]|] eqn:E; cbn; [|done].
  apply slot_of_Some in E as [Hi [Hl Hk]]. exists v. split_and!; try done.
  by apply (slot_wf_live _ (slot_wf_lookup _ _ _ Hs Hi)).
Qed.

Lemma storage_get_var_ptr_ok s n sz g :
  storage_wf s -> 1 <= sz -> sz <= zlen n -> zlen g = 16 ->
  storage_get_var_ptr (Some n) sz (Some g) s
  = Ok (match slot_of (arg_key n sz g) (variables s) with
        | Some (i, _) => (EFI_SUCCESS, Some i)
        | None => (EFI_NOT_FOUND, None)
        end, s).
Proof.
  intros Hs Hsz Hn Hg. unfold storage_get_var_ptr, bind.
  rewrite storage_find_variable_pos by done. by destruct (slot_of _ _) as [[]|].
Qed.

(** What [GetVariable] answers into a buffer of [dsz] bytes. *)
Definition spec_get_reply (rt : bool) (k : key) (buf : bytes) (dsz a : Z) (m : var_map) :
    EFI_STATUS * (option Z * bytes * option Z) :=
  match spec_get rt k m with
  | None => (EFI_NOT_FOUND, (Some a, buf, Some dsz))
  | Some x =>
      if dsz <? zlen (val_data x) then
        (EFI_BUFFER_TOO_SMALL, (Some a, buf, Some (zlen (val_data x))))
      else (EFI_SUCCESS, (Some (val_attrs x), val_data x ++ drop (length (val_data x)) buf,
                          Some (zlen (val_data x))))
  end.

Lemma storage_get_refines rt s n sz g a buf dsz :
  storage_wf s -> name_arg n sz -> zlen g = 16 ->
  0 <= dsz <= MAX_SHARED_OVMF_MEM -> dsz <= zlen buf ->
  storage_get rt (Some n) sz (Some g) (Some a) buf (Some dsz) s
  = Ok (spec_get_reply rt (arg_key n sz g) buf dsz a (abs (variables s)), s).
Proof.
  intros Hs [Hsz Ho _] Hg Hd Hb. unfold storage_get, bind.
  destruct (storage_find_abs s n sz g) as (r & -> & Hr); [done|lia|done|done|].
  unfold spec_get_reply, spec_get.
  destruct r as [i|]; [|by rewrite Hr].
  destruct Hr as (v & Hi & Hl & Hk & ->).
  unfold mget, mlift, ret. rewrite (slot_at_ok _ _ _ Hi).
  destruct (lw_data _ Hl) as (d & Hvd & Hvs). pose proof (val_data_of _ _ Hvd) as Hval.
  cbn [val_attrs value_of] in *. destruct (rt_deny_access _ _); [done|].
  rewrite Hval, Hvd, <-Hvs.
  destruct (dsz <? zlen d) eqn:E; [done|]. apply Z.ltb_ge in E.
  rewrite Z.gtb_ltb, (proj2 (Z.ltb_ge _ dsz)) by lia.
  cbn [block_of]. unfold memcpy. rewrite read_bytes_full. cbn [obind].
  by rewrite write_bytes_prefix by lia.
Qed.

(** ** Time-stamped updates *)
Definition with_val_time (t : EFI_TIME) (x : value) : value :=
  mk_value (val_attrs x) (val_data x) t (val_cert x).

Definition spec_set_with_timestamp (k : key) (data : bytes) (attrs : Z) (t : EFI_TIME)
    (m : var_map) : EFI_STATUS * var_map :=
  let '(st, m') := spec_set k data attrs m in
  if is_delete attrs (zlen data) then (st, m')
  else match m' !! k with
       | None => (EFI_NOT_FOUND, m')
       | Some x => (EFI_SUCCESS, <[k := with_val_time t x]> m')
       end.

Lemma with_timestamp_live t v : live_wf v -> time_ok t -> live_wf (with_timestamp t v).
Proof. by intros [] Ht; constructor; cbn. Qed.

(** The end of [storage_set_with_timestamp]: the slot the name is found in gets
    the time stamp. *)
Lemma stamp_refines s n sz g t :
  storage_inv s -> canonical_name n sz -> zlen g = 16 -> time_ok t ->
  exists st s',
    ('(status, var) <- storage_get_var_ptr (Some n) sz (Some g) ;;
     match var with
     | None => ret status
     | Some i =>
         s <- mget ;;
         v <- mlift (slot_at s i) ;;
         let '(r, v) := variable_set_timestamp v (Some t) in
         mmodify (set_slot i v) ;;
         if r <? 0 then ret EFI_DEVICE_ERROR else ret EFI_SUCCESS
     end) s = Ok (st, s') /\ storage_inv s' /\
    (st, abs (variables s'))
      = match abs (variables s) !! arg_key n sz g with
        | None => (EFI_NOT_FOUND, abs (variables s))
        | Some x => (EFI_SUCCESS, <[arg_key n sz g := with_val_time t x]> (abs (variables s)))
        end /\
    storage_iter_index s' = storage_iter_index s.
Proof.
  intros Hs Hn Hg Ht. destruct (cn_arg _ _ Hn) as [Hsz Ho _]. unfold bind at 1.
  rewrite storage_get_var_ptr_ok by (apply Hs || done || lia).
  rewrite abs_lookup.
  destruct (slot_of _ _) as [[i v]|] eqn:E; cbn [fmap option_fmap option_map snd compose];
    [|by eexists _, _].
  apply slot_of_Some in E as [Hi [Hl Hk]].
  pose proof (slot_wf_live _ (slot_wf_lookup _ _ _ Hs Hi) Hl) as Hw.
  unfold bind, mget, mlift, mmodify, ret. rewrite (slot_at_ok _ _ _ Hi).
  cbn [variable_set_timestamp Z.ltb Z.compare].
  eexists _, _. split_and!; [done| | |done].
  - eapply set_slot_inv; [done..|by apply with_timestamp_live| |done].
    destruct (slot_canonical_live _ _ _ Hs Hi Hl). by constructor.
  - cbn [variables set_slot set_variables].
    by rewrite (abs_insert _ _ v), <-Hk by (apply Hs || done || congruence).
Qed.

Lemma storage_set_with_timestamp_refines `{Allocator} s n sz g src dsz attrs t :
  grants MAX_VARIABLE_DATA_SIZE -> storage_inv s -> canonical_name n sz -> zlen g = 16 ->
  0 <= dsz <= MAX_VARIABLE_DATA_SIZE -> dsz <= zlen src -> 0 <= attrs < 0x100000000 ->
  time_ok t ->
  exists st s',
    storage_set_with_timestamp (Some n) sz (Some g) (Some src) dsz attrs (Some t) s
      = Ok (st, s') /\ storage_inv s' /\
    (st, abs (variables s'))
      = spec_set_with_timestamp (arg_key n sz g) (take (Z.to_nat dsz) src) attrs t
          (abs (variables s)) /\
    storage_iter_index s' = storage_iter_index s.
Proof.
  intros G Hs Hn Hg Hd Hsrc Ha Ht.
  destruct (storage_set_refines s n sz g src dsz attrs) as (st & s1 & Hrun & Hs1 & Hspec & Hit);
    [done..|].
  unfold storage_set_with_timestamp, bind. rewrite Hrun.
  unfold spec_set_with_timestamp. rewrite <-Hspec.
  rewrite zlen_take, Z2Nat.id, Z.min_l by lia.
  destruct (is_delete _ _); [by eexists _, _|].
  destruct (stamp_refines s1 n sz g t) as (st2 & s2 & Hrun2 & Hs2 & Hspec2 & Hit2); [done..|].
  exists st2, s2. unfold bind in Hrun2. by rewrite <-Hit, <-Hit2.
Qed.
