(* ===== verification/StorageTrace.v ===== *)
(** * Histories of the store

    Sequences of storage calls against the abstract map, enumeration of the
    store through [storage_next_variable], iteration through [storage_iter],
    and the properties of the store. *)
From S2P Require Import Prelude EfiTypes Common UefiVariable Storage StorageInv StorageSpec.
From S2P Require Import Samples.

(** ** Calls and their answers *)
Inductive store_call : Type :=
  | CallGet (rt : bool) (n : bytes) (sz : Z) (g : EFI_GUID) (a : Z) (buf : bytes) (dsz : Z)
  | CallSet (n : bytes) (sz : Z) (g : EFI_GUID) (src : bytes) (dsz attrs : Z)
  | CallSetTs (n : bytes) (sz : Z) (g : EFI_GUID) (src : bytes) (dsz attrs : Z) (t : EFI_TIME)
  | CallRemove (n : bytes) (sz : Z) (g : EFI_GUID)
  | CallDestroy.

Definition answer : Type := EFI_STATUS * option (option Z * bytes * option Z).

Definition exec_call `{Allocator} (c : store_call) : M storage answer :=
  match c with
  | CallGet rt n sz g a buf dsz =>
      '(st, out) <- storage_get rt (Some n) sz (Some g) (Some a) buf (Some dsz) ;;
      ret (st, Some out)
  | CallSet n sz g src dsz attrs =>
      st <- storage_set (Some n) sz (Some g) (Some src) dsz attrs ;; ret (st, None)
  | CallSetTs n sz g src dsz attrs t =>
      st <- storage_set_with_timestamp (Some n) sz (Some g) (Some src) dsz attrs (Some t) ;;
      ret (st, None)
  | CallRemove n sz g => st <- storage_remove (Some n) sz (Some g) ;; ret (st, None)
  | CallDestroy => storage_destroy ;; ret (EFI_SUCCESS, None)
  end.

Definition spec_call (c : store_call) (m : var_map) : answer * var_map :=
  match c with
  | CallGet rt n sz g a buf dsz =>
      let '(st, out) := spec_get_reply rt (arg_key n sz g) buf dsz a m in ((st, Some out), m)
  | CallSet n sz g src dsz attrs =>
      let '(st, m') := spec_set (arg_key n sz g) (take (Z.to_nat dsz) src) attrs m in
      ((st, None), m')
  | CallSetTs n sz g src dsz attrs t =>
      let '(st, m') := spec_set_with_timestamp (arg_key n sz g)
                         (take (Z.to_nat dsz) src) attrs t m in
      ((st, None), m')
  | CallRemove n sz g => let '(st, m') := spec_remove (arg_key n sz g) m in ((st, None), m')
  | CallDestroy => ((EFI_SUCCESS, None), ∅)
  end.

Fixpoint exec_calls `{Allocator} (cs : list store_call) : M storage (list answer) :=
  match cs with
  | [] => ret []
  | c :: cs' => a <- exec_call c ;; rest <- exec_calls cs' ;; ret (a :: rest)
  end.

Fixpoint spec_calls (cs : list store_call) (m : var_map) : list answer * var_map :=
  match cs with
  | [] => ([], m)
  | c :: cs' =>
      let '(a, m1) := spec_call c m in
      let '(rest, m2) := spec_calls cs' m1 in (a :: rest, m2)
  end.

(** The calls the program makes: readable buffers, sizes within the limits,
    names that do not end with the zero character. *)
Definition call_ok (c : store_call) : Prop :=
  match c with
  | CallGet _ n sz g _ buf dsz =>
      name_arg n sz /\ zlen g = 16 /\ 0 <= dsz <= MAX_SHARED_OVMF_MEM /\ dsz <= zlen buf
  | CallSet n sz g src dsz attrs =>
      canonical_name n sz /\ zlen g = 16 /\ 0 <= dsz <= MAX_VARIABLE_DATA_SIZE /\
      dsz <= zlen src /\ 0 <= attrs < 0x100000000
  | CallSetTs n sz g src dsz attrs t =>
      canonical_name n sz /\ zlen g = 16 /\ 0 <= dsz <= MAX_VARIABLE_DATA_SIZE /\
      dsz <= zlen src /\ 0 <= attrs < 0x100000000 /\ time_ok t
  | CallRemove n sz g => name_arg n sz /\ zlen g = 16
  | CallDestroy => True
  end.

Lemma storage_destroy_inv s : storage_inv s ->
  exists s', storage_destroy s = Ok (tt, s') /\ storage_inv s' /\ abs (variables s') = ∅.
Proof.
  intros Hs. eexists. split; [done|].
  assert (E : variable_destroy_noalloc <$> variables s = replicate 128 zero_var).
  { pose proof (sw_len _ Hs) as Hl. change 128%nat with (Z.to_nat MAX_VAR_COUNT).
    rewrite <-Hl. unfold zlen. rewrite Nat2Z.id.
    induction (variables s) as [|v vs IH]; [done|]. cbn. f_equal.
    unfold zlen in Hl. clear Hl. clear IH.
    induction vs as [|w ws IH]; [done|]. cbn. by rewrite IH. }
  unfold set_variables. cbn [variables]. rewrite E, abs_zero_vars. split; [|done].
  destruct storage_init_inv as [[Hl Hw Ht Hu _] Hc Hk].
  constructor; [constructor|..]; cbn [variables total used storage_iter_index]; try done.
  apply (sw_iter _ Hs).
Qed.

Section histories.
Context `{Allocator}.

Lemma exec_call_refines c s :
  grants MAX_VARIABLE_DATA_SIZE -> storage_inv s -> call_ok c ->
  exists a s', exec_call c s = Ok (a, s') /\ storage_inv s' /\
    (a, abs (variables s')) = spec_call c (abs (variables s)).
Proof.
  intros G Hs Hc.
  destruct c as [rt n sz g a buf dsz|n sz g src dsz attrs|n sz g src dsz attrs t|n sz g|];
    cbn [exec_call call_ok spec_call] in *.
  - destruct Hc as (Hn & Hg & Hd & Hb). unfold bind, ret.
    rewrite storage_get_refines by (done || apply Hs).
    destruct (spec_get_reply _ _ _ _ _ _) as [st out] eqn:E. by eexists _, _.
  - destruct Hc as (Hn & Hg & Hd & Hb & Ha).
    destruct (storage_set_refines s n sz g src dsz attrs) as (st & s1 & Hrun & Hs1 & Hsp & _);
      [done..|].
    unfold bind, ret. rewrite Hrun, <-Hsp. by eexists _, _.
  - destruct Hc as (Hn & Hg & Hd & Hb & Ha & Ht).
    destruct (storage_set_with_timestamp_refines s n sz g src dsz attrs t)
      as (st & s1 & Hrun & Hs1 & Hsp & _); [done..|].
    unfold bind, ret. rewrite Hrun, <-Hsp. by eexists _, _.
  - destruct Hc as (Hn & Hg).
    destruct (storage_remove_refines s n sz g) as (st & s1 & Hrun & Hs1 & Hsp & _); [done..|].
    unfold bind, ret. rewrite Hrun, <-Hsp. by eexists _, _.
  - destruct (storage_destroy_inv s Hs) as (s1 & Hrun & Hs1 & E).
    unfold bind, ret. rewrite Hrun, <-E. by eexists _, _.
Qed.

Lemma exec_calls_refine cs s :
  grants MAX_VARIABLE_DATA_SIZE -> storage_inv s -> Forall call_ok cs ->
  exists answers s', exec_calls cs s = Ok (answers, s') /\ storage_inv s' /\
    (answers, abs (variables s')) = spec_calls cs (abs (variables s)).
Proof.
  intros G Hs Hcs. revert s Hs. induction Hcs as [|c cs Hc Hcs IH]; intros s Hs.
  { by eexists _, _. }
  destruct (exec_call_refines c s G Hs Hc) as (a & s1 & Hrun & Hs1 & Hsp).
  destruct (IH s1 Hs1) as (rest & s2 & Hrun2 & Hs2 & Hsp2).
  cbn [exec_calls spec_calls]. unfold bind, ret. rewrite Hrun, Hrun2, <-Hsp, <-Hsp2.
  by eexists _, _.
Qed.

(** C1: The store implements a finite map.  Any sequence of get, set, set with
    time stamp, remove and destroy calls (with readable arguments within the
    size limits and names that do not end in a zero character), run on the
    initial store, never faults, gives exactly the statuses and the data the
    abstract map gives, leaves the array representing the abstract map, and
    keeps every structural invariant. *)
Theorem store_refines_map (cs : list store_call) :
  grants MAX_VARIABLE_DATA_SIZE -> Forall call_ok cs ->
  exists answers s', exec_calls cs storage_init = Ok (answers, s') /\
    (answers, abs (variables s')) = spec_calls cs ∅ /\ storage_inv s'.
Proof.
  intros G Hcs.
  destruct (exec_calls_refine cs storage_init G storage_init_inv Hcs)
    as (answers & s' & Hrun & Hinv & Hsp).
  exists answers, s'. split_and!; [done| |done].
  rewrite Hsp. cbn [variables storage_init]. by rewrite abs_zero_vars.
Qed.

(** C2: The accounting of the store: after any such sequence the number of
    variables reported is the size of the map, at most 128; the bytes
    accounted as used are 33024 for each, far below [MAX_STORAGE_SIZE], so the
    size test of [storage_set] against [MAX_STORAGE_SIZE] never refuses a
    request whose name and data are within their own limits. *)
Theorem store_accounting (cs : list store_call) answers s sz dsz :
  grants MAX_VARIABLE_DATA_SIZE -> Forall call_ok cs ->
  exec_calls cs storage_init = Ok (answers, s) ->
  0 <= sz <= MAX_VARIABLE_NAME_SIZE -> 0 <= dsz <= MAX_VARIABLE_DATA_SIZE ->
  storage_count s = Ok (Z.of_nat (size (abs (variables s))), s) /\
  Z.of_nat (size (abs (variables s))) <= MAX_VAR_COUNT /\
  storage_used s = Ok (33024 * Z.of_nat (size (abs (variables s))), s) /\
  (u64 (dsz + sz + used s) >? MAX_STORAGE_SIZE) = false.
Proof.
  intros G Hcs Hrun Hsz Hd.
  destruct (exec_calls_refine cs storage_init G storage_init_inv Hcs)
    as (answers' & s' & Hrun' & Hs & _).
  assert (s' = s) as -> by congruence.
  rewrite abs_size by apply Hs. pose proof (storage_wf_counts _ Hs) as [H1 H2].
  rewrite <-(sw_total _ Hs). unfold storage_count, storage_used, mgets.
  split_and!; [done|clia|by rewrite H2|by apply storage_size_check; [apply Hs|..]].
Qed.

End histories.

Definition calls_1 : list store_call :=
  [CallSet name_A 2 guid_1 [x07] 1 7; CallSet name_A 2 guid_1 [x08] 1 0x47;
   CallGet false name_A 2 guid_1 0 [x00; x00] 2; CallRemove name_A 2 guid_1].

Lemma calls_1_ok : Forall call_ok calls_1.
Proof.
  pose proof name_A_ok. pose proof (cn_arg _ _ name_A_ok).
  repeat (apply Forall_cons; split); [..|apply Forall_nil; done];
    cbn [call_ok]; split_and?; try done; clia.
Qed.

Lemma store_refines_map_witness :
  exists answers s', @exec_calls zero_allocator calls_1 storage_init = Ok (answers, s') /\
    (answers, abs (variables s')) = spec_calls calls_1 ∅ /\ storage_inv s'.
Proof.
  apply (@store_refines_map zero_allocator); [apply zero_allocator_grants|apply calls_1_ok].
Defined.

Lemma store_accounting_witness :
  exists s,
    storage_count s = Ok (Z.of_nat (size (abs (variables s))), s) /\
    Z.of_nat (size (abs (variables s))) <= MAX_VAR_COUNT /\
    storage_used s = Ok (33024 * Z.of_nat (size (abs (variables s))), s) /\
    (u64 (1 + 2 + used s) >? MAX_STORAGE_SIZE) = false.
Proof.
  destruct (@exec_calls_refine zero_allocator calls_1 storage_init
              (zero_allocator_grants _) storage_init_inv calls_1_ok)
    as (answers & s & Hrun & _).
  exists s.
  destruct (@store_accounting zero_allocator calls_1 answers s 2 1) as (H1 & H2 & H3 & H4);
    [apply zero_allocator_grants|apply calls_1_ok|done|clia|clia|].
  split_and!; done.
Defined.

(** ** Enumeration *)

(** A slot the caller may see. *)
Definition accessible (rt : bool) (v : variable_t) : Prop :=
  live v = true /\ rt_deny_access rt (var_attrs v) = false.
#[export] Instance accessible_dec rt v : Decision (accessible rt v).
Proof. unfold accessible. apply _. Defined.

Lemma find_accessible_ok rt i vars :
  Forall slot_wf vars ->
  find_accessible rt i vars
  = Ok ((fun p => (i + fst p)%nat) <$> list_find (accessible rt) vars).
Proof.
  intros Hw. revert i. induction Hw as [|v vars Hv Hw IH]; intros i; [done|].
  cbn [find_accessible list_find]. rewrite variable_is_valid_ok by done. cbn [obind].
  destruct (live v && negb (rt_deny_access rt (var_attrs v))) eqn:E.
  - apply andb_true_iff in E as [E1 E2%negb_true_iff].
    rewrite decide_True by done. cbn. by rewrite Nat.add_0_r.
  - rewrite decide_False.
    + rewrite IH. destruct (list_find _ vars) as [[j w]|]; [|done]. cbn. do 2 f_equal. lia.
    + intros [E1 E2]. by rewrite E1, E2 in E.
Qed.

(** The guest's loop: ask for the variable after the one received last, until
    there is none.  The name sent back is the one received. *)
Fixpoint enumerate (fuel : nat) (rt : bool) (name : bytes) (namesz : Z) (guid : EFI_GUID)
    (s : storage) : outcome (list key) :=
  match fuel with
  | O => Fault OutOfFuel
  | S fuel' =>
      let* (next, s') := storage_next_variable rt name namesz guid s in
      match next with
      | None => Ok []
      | Some i =>
          let* v := slot_at s' i in
          let* rest := enumerate fuel' rt (var_name v) (var_namesz v) (var_guid v) s' in
          Ok (var_key v :: rest)
      end
  end.

Lemma enumerate_S fuel rt name namesz guid s :
  enumerate (S fuel) rt name namesz guid s
  = let* (next, s') := storage_next_variable rt name namesz guid s in
    match next with
    | None => Ok []
    | Some i =>
        let* v := slot_at s' i in
        let* rest := enumerate fuel rt (var_name v) (var_namesz v) (var_guid v) s' in
        Ok (var_key v :: rest)
    end.
Proof. done. Qed.

Lemma storage_next_from rt s i v :
  storage_inv s -> variables s !! i = Some v -> live v = true ->
  storage_next_variable rt (var_name v) (var_namesz v) (var_guid v) s
  = Ok ((fun p => (S i + fst p)%nat)
          <$> list_find (accessible rt) (drop (S i) (variables s)), s).
Proof.
  intros Hs Hi Hl.
  pose proof (slot_wf_live _ (slot_wf_lookup _ _ _ Hs Hi) Hl) as Hw.
  pose proof (lw_namesz _ Hw) as Hn. pose proof (lw_name _ Hw) as Hlen.
  unfold storage_next_variable, bind, mlift, mget.
  rewrite read_le2_first by lia.
  pose proof (lw_first _ Hw) as Hf. zb.
  pose proof (find_variable_ok (var_name v) (var_namesz v) (var_guid v) (variables s)) as Hfv.
  unfold find_variable in Hfv. rewrite Hfv by (apply Hs || lia || apply Hw).
  rewrite (slot_of_unique _ _ i v); [|apply Hs|done|by split].
  cbn [fmap option_fmap option_map fst].
  by rewrite find_accessible_ok by apply Forall_drop, Hs.
Qed.

Lemma enumerate_from fuel rt s i v :
  storage_inv s -> variables s !! i = Some v -> live v = true ->
  (length (drop (S i) (variables s)) < fuel)%nat ->
  enumerate fuel rt (var_name v) (var_namesz v) (var_guid v) s
  = Ok (var_key <$> filter (accessible rt) (drop (S i) (variables s))).
Proof.
  intros Hs. revert i v. induction fuel as [|fuel IH]; intros i v Hi Hl Hf; [lia|].
  cbn [enumerate]. rewrite (storage_next_from rt s i v) by done. cbn [obind].
  rewrite (list_find_filter _ (drop (S i) (variables s))).
  destruct (list_find _ _) as [[j w]|] eqn:E; [|done].
  cbn [fmap option_fmap option_map fst].
  apply list_find_Some in E as (Hj & [Hlw _] & _). rewrite lookup_drop in Hj.
  rewrite (slot_at_ok _ _ _ Hj). cbn [obind].
  rewrite (IH (S i + j)%nat); [|done..|].
  - cbn [obind fmap list_fmap]. rewrite drop_drop. do 5 f_equal. lia.
  - apply lookup_lt_Some in Hj. rewrite length_drop in *. lia.
Qed.

(** Slots in use have distinct keys. *)
Lemma keys_NoDup (P : variable_t -> Prop) `{!forall v, Decision (P v)} vars :
  keys_unique vars -> (forall v, P v -> live v = true) ->
  NoDup (var_key <$> filter P vars).
Proof.
  intros Hu HP. induction vars as [|v vars IH]; [constructor|].
  assert (Hu' : keys_unique vars).
  { intros i j x y Hi Hj Lx Ly E. specialize (Hu (S i) (S j) x y Hi Hj Lx Ly E). lia. }
  rewrite filter_cons. destruct (decide (P v)) as [Hv|]; [|by apply IH].
  cbn [fmap list_fmap]. constructor; [|by apply IH].
  intros (w & Hk & [Hw Hin]%list_elem_of_filter)%list_elem_of_fmap.
  apply list_elem_of_lookup in Hin as [j Hj].
  specialize (Hu 0%nat (S j) v w eq_refl Hj (HP _ Hv) (HP _ Hw) Hk). lia.
Qed.

(** [GetNextVariableName] enumerates the store: starting from the empty
    name, the guest's loop visits every variable accessible in the current
    phase exactly once, in slot order, and ends after at most 129 calls. *)
Theorem enumeration_complete (rt : bool) (s : storage) (name : bytes) (namesz : Z)
    (guid : EFI_GUID) :
  storage_inv s -> 2 <= zlen name -> char_at name 0 = 0 ->
  enumerate 129 rt name namesz guid s
    = Ok (var_key <$> filter (accessible rt) (variables s)) /\
  NoDup (var_key <$> filter (accessible rt) (variables s)).
Proof.
  intros Hs Hn Hc. split.
  - change 129%nat with (S 128). rewrite enumerate_S. unfold storage_next_variable at 1, bind, mlift, mget.
    rewrite read_le2_first by lia. rewrite Hc. cbn [Z.eqb orb].
    unfold storage_get_first, bind, mget, mlift, ret.
    rewrite list_find_filter, find_accessible_ok by apply Hs.
    destruct (list_find _ _) as [[j w]|] eqn:E; cycle 1.
    { by destruct (total s =? 0). }
    apply list_find_Some in E as (Hj & [Hlw _] & _).
    pose proof (nlive_live_slot _ _ _ Hj Hlw) as Hpos. rewrite <-(sw_total _ Hs) in Hpos.
    zb. cbn [obind fmap option_fmap option_map fst Nat.add].
    rewrite (slot_at_ok _ _ _ Hj). cbn [obind].
    rewrite (enumerate_from _ _ _ j) by
      (done || (rewrite length_drop; pose proof (sw_len _ Hs);
                apply lookup_lt_Some in Hj; clia)).
    done.
  - apply (keys_NoDup (accessible rt)); [apply Hs|]. by intros v [Hv _].
Qed.

Lemma enumeration_complete_witness :
  enumerate 129 true (L []) 2 zero_guid store_2
    = Ok (var_key <$> filter (accessible true) (variables store_2)) /\
  NoDup (var_key <$> filter (accessible true) (variables store_2)).
Proof.
  apply (enumeration_complete true store_2 (L []) 2 zero_guid);
    [exact store_2_inv|vm_compute; discriminate|reflexivity].
Defined.
