(* ===== verification/Serializer.v ===== *)
(** * Serialization

    [src/serializer.c], with [variable_create_unserialize] and
    [from_bytes_to_vars] of [src/variable.c] and [list_size] of [src/xapi.c]:
    the byte format shared by the RPC protocol and the saved variable lists.

    A reading cursor [const uint8_t **ptr] is the state of a computation over
    the bytes from [ *ptr] to the end of the object; a writing cursor
    [uint8_t **ptr] is a computation over the object and the offset of [ *ptr]
    in it. *)
From S2P Require Import Prelude EfiTypes Common UefiVariable Storage.

(** ** Cursors *)

(** [n] bytes at the cursor, which moves past them. *)
Definition rd (n : Z) : M bytes bytes :=
  fun s => let* b := read_bytes s 0 n in Ok (b, drop (Z.to_nat n) s).

(** An object and an offset in it. *)
Abbreviation wbuf := (bytes * Z)%type.

Definition put (bs : bytes) : M wbuf unit :=
  fun '(mem, off) => let* mem' := write_bytes mem off bs in Ok (tt, (mem', off + zlen bs)).

(** ** Writers *)
Definition serialize_uint8 (var : Z) : M wbuf unit := put (le_encode 1 var).
Definition serialize_uint16 (var : Z) : M wbuf unit := put (le_encode 2 var).
Definition serialize_uint32 (var : Z) : M wbuf unit := put (le_encode 4 var).
Definition serialize_uint64 (var : Z) : M wbuf unit := put (le_encode 8 var).
Definition serialize_uintn (var : Z) : M wbuf unit := serialize_uint64 var.
Definition serialize_boolean (var : bool) : M wbuf unit := put (le_encode 1 (Z.b2z var)).
Definition serialize_command (cmd : Z) : M wbuf unit := serialize_uint32 cmd.

(** [size] bytes of the object [src]. *)
Definition put_from (src : bytes) (size : Z) : M wbuf unit :=
  b <- mlift (read_bytes src 0 size) ;; put b.

Definition serialize_name (name : bytes) (namesz : Z) : M wbuf unit :=
  put (le_encode 8 namesz) ;; put_from name namesz.
Definition serialize_data (data : bytes) (datasz : Z) : M wbuf unit :=
  put (le_encode 8 datasz) ;; put_from data datasz.
Definition serialize_cert (cert : bytes) : M wbuf unit := put_from cert SHA256_DIGEST_SIZE.
Definition serialize_guid (guid : EFI_GUID) : M wbuf unit := put_from guid 16.
Definition serialize_result (status : EFI_STATUS) : M wbuf unit := put (le_encode 8 status).

Definition serialize_timestamp (timestamp : EFI_TIME) : M wbuf unit :=
  serialize_uint16 (Year timestamp) ;;
  serialize_uint8 (Month timestamp) ;;
  serialize_uint8 (Day timestamp) ;;
  serialize_uint8 (Hour timestamp) ;;
  serialize_uint8 (Minute timestamp) ;;
  serialize_uint8 (Second timestamp) ;;
  serialize_uint8 (Pad1 timestamp) ;;
  serialize_uint32 (Nanosecond timestamp) ;;
  serialize_uint16 (TimeZone timestamp) ;;
  serialize_uint8 (Daylight timestamp) ;;
  serialize_uint8 (Pad2 timestamp).

Definition serialize_var (var : variable_t) : M wbuf Z :=
  match var_data var with
  | None => ret (-1)
  | Some data =>
      serialize_name (var_name var) (var_namesz var) ;;
      serialize_data data (var_datasz var) ;;
      serialize_guid (var_guid var) ;;
      serialize_uint32 (var_attrs var) ;;
      serialize_timestamp (var_timestamp var) ;;
      serialize_cert (var_cert var) ;;
      ret 0
  end.

(** ** Readers *)
Definition unserialize_uint8 : M bytes Z := b <- rd 1 ;; ret (le_decode b).
Definition unserialize_uint16 : M bytes Z := b <- rd 2 ;; ret (le_decode b).
Definition unserialize_uint32 : M bytes Z := b <- rd 4 ;; ret (le_decode b).
Definition unserialize_uint64 : M bytes Z := b <- rd 8 ;; ret (le_decode b).
Definition unserialize_uintn : M bytes Z := unserialize_uint64.
Definition unserialize_namesz : M bytes Z := unserialize_uint64.
Definition unserialize_result : M bytes EFI_STATUS := unserialize_uint64.
Definition unserialize_boolean : M bytes bool :=
  b <- rd 1 ;; ret (negb (le_decode b =? 0)).
Definition unserialize_guid : M bytes EFI_GUID := rd 16.
Definition unserialize_cert : M bytes bytes := rd SHA256_DIGEST_SIZE.

(** The value returned and the new contents of [buf]. *)
Definition unserialize_data (buf : bytes) (buflen : Z) : M bytes (Z * bytes) :=
  ptr <- mget ;;
  size <- mlift (read_le 8 ptr 0) ;;
  if (size >? buflen) || (size >? 0xffffffffffffffff) then ret (-1, buf)
  else
  rd 8 ;;
  b <- rd size ;;
  buf' <- mlift (write_bytes buf 0 b) ;;
  ret (s64 size, buf').

Definition unserialize_timestamp : M bytes EFI_TIME :=
  y <- unserialize_uint16 ;;
  mo <- unserialize_uint8 ;;
  d <- unserialize_uint8 ;;
  h <- unserialize_uint8 ;;
  mi <- unserialize_uint8 ;;
  s <- unserialize_uint8 ;;
  p1 <- unserialize_uint8 ;;
  n <- unserialize_uint32 ;;
  tz <- unserialize_uint16 ;;
  dl <- unserialize_uint8 ;;
  p2 <- unserialize_uint8 ;;
  ret (mk_time y mo d h mi s p1 n tz dl p2).

(** [struct variable_list_header]. *)
Record variable_list_header : Type := mk_header {
  hdr_magic : Z; hdr_version : Z; hdr_variable_count : Z; hdr_payload_size : Z
}.
Definition sizeof_variable_list_header : Z := 24.

(** The object representation of the structure: no padding. *)
Definition unserialize_variable_list_header : M bytes variable_list_header :=
  b <- rd sizeof_variable_list_header ;;
  magic <- mlift (read_le 4 b 0) ;;
  version <- mlift (read_le 4 b 4) ;;
  variable_count <- mlift (read_le 8 b 8) ;;
  payload_size <- mlift (read_le 8 b 16) ;;
  ret (mk_header magic version variable_count payload_size).

Section variables.
Context `{Allocator}.

(** The value returned and the new [ *var].  The local [name] has
    [MAX_VARIABLE_NAME_SIZE] 16-bit elements. *)
Definition unserialize_var_cached (var : variable_t) : M bytes (Z * variable_t) :=
  namesz <- unserialize_uint64 ;;
  if (namesz =? 0) || (namesz >? MAX_VARIABLE_NAME_SIZE) then ret (-1, var)
  else
  b <- rd namesz ;;
  name <- mlift (write_bytes (replicate (Z.to_nat (2 * MAX_VARIABLE_NAME_SIZE)) x00) 0 b) ;;
  datasz <- unserialize_uint64 ;;
  if datasz =? 0 then ret (-1, var)
  else
  match malloc datasz with
  | None => ret (-1, var)
  | Some block =>
      b <- rd datasz ;;
      data <- mlift (write_bytes block 0 b) ;;
      guid <- unserialize_guid ;;
      attrs <- unserialize_uint32 ;;
      timestamp <- unserialize_timestamp ;;
      cert <- unserialize_cert ;;
      mlift (variable_create_noalloc var (Some name) namesz (Some data) datasz (Some guid)
               attrs (Some timestamp) (Some cert))
  end.

(** [calloc]'s result is not tested: a null [var] makes
    [unserialize_var_cached] return -1 at once. *)
Definition variable_create_unserialize : M bytes (option variable_t) :=
  match malloc sizeof_variable_t with
  | None => ret None
  | Some _ =>
      '(r, var) <- unserialize_var_cached zero_var ;;
      ret (if r <? 0 then None else Some var)
  end.

(** The loop of [from_bytes_to_vars]: [None] is [return -1], [Some i] the
    index at the loop's end; [vars] is the array. *)
Fixpoint from_bytes_loop (fuel : nat) (count i : Z) (vars : list variable_t) :
    M bytes (option Z * list variable_t) :=
  if i <? count then
    match fuel with
    | O => mlift (Fault OutOfFuel)
    | S fuel' =>
        match vars !! Z.to_nat i with
        | None => mlift (Fault OutOfBounds)
        | Some var =>
            '(r, var') <- unserialize_var_cached var ;;
            let vars' := <[Z.to_nat i := var']> vars in
            if r <? 0 then ret (None, vars')
            else from_bytes_loop fuel' count (i + 1) vars'
        end
    end
  else ret (Some i, vars).

(** [bytes] is the object from the pointer on, [bytes_sz] the size argument.
    The value returned and the array. *)
Definition from_bytes_to_vars (vars : option (list variable_t)) (n : Z)
    (bytes : option bytes) (bytes_sz : Z) : outcome (Z * option (list variable_t)) :=
  match vars, bytes with
  | Some vs, Some b =>
      let* (hdr, ptr) := unserialize_variable_list_header b in
      if hdr_variable_count hdr >? n then Ok (-1, vars)
      else
      let* (out, ptr) := from_bytes_loop (S (length vs)) (hdr_variable_count hdr) 0 vs ptr in
      match out with
      | (None, vs') => Ok (-1, Some vs')
      | (Some i, vs') =>
          if negb (i =? hdr_variable_count hdr) then Ok (-1, Some vs')
          else if negb (bytes_sz =? zlen b - zlen ptr) then Ok (-1, Some vs')
          else Ok (if i >? INT_MAX then -1 else i, Some vs')
      end
  | _, _ => Ok (-1, vars)
  end.

(** [unserialize_variable_list]: the cursor and the store. *)
Definition on_cursor {A} (m : M bytes A) : M (bytes * storage) A :=
  mzoom fst (fun p s => (p, snd s)) m.
Definition on_store {A} (m : M storage A) : M (bytes * storage) A :=
  mzoom snd (fun st s => (fst s, st)) m.

(** [storage_set]'s status is stored in an [int]. *)
Fixpoint unserialize_list_loop (fuel : nat) (count i : Z) : M (bytes * storage) Z :=
  if i <? count then
    match fuel with
    | O => mlift (Fault OutOfFuel)
    | S fuel' =>
        created <- on_cursor variable_create_unserialize ;;
        match created with
        | None => mlift (Fault NullDeref)
        | Some var =>
            r <- on_store (storage_set (Some (var_name var)) (var_namesz var)
                             (Some (var_guid var)) (var_data var) (var_datasz var)
                             (var_attrs var)) ;;
            if s32 r <? 0 then ret i else unserialize_list_loop fuel' count (i + 1)
        end
    end
  else ret i.

Definition unserialize_variable_list (fuel : nat) : M (bytes * storage) Z :=
  hdr <- on_cursor unserialize_variable_list_header ;;
  unserialize_list_loop fuel (hdr_variable_count hdr) 0.

End variables.

(** ** Lists of variables *)

(** [payload_size (var, n)]; [var] is the array, of at least [n] elements. *)
Definition payload_size (vars : list variable_t) : Z :=
  fold_left (fun sum v => u64 (sum + variable_size v)) vars 0.

(** The characters of [VARS], "VARS". *)
Definition VARS_magic : bytes := [x56; x41; x52; x53].

Definition serialize_variable_list_header (vars : list variable_t) (n : Z) : M wbuf unit :=
  put (VARS_magic ++ le_encode 4 1 ++ le_encode 8 n ++ le_encode 8 (payload_size vars)).

(** The loop of [serialize_variable_list] from element [i] on. *)
Fixpoint serialize_list_loop (sz i sum : Z) (vars : list variable_t) : M wbuf Z :=
  match vars with
  | [] => ret 0
  | v :: vars' =>
      let sum := u64 (sum + variable_size v) in
      if sum >? sz then ret (s32 i)
      else
      r <- serialize_var v ;;
      if r <? 0 then ret (s32 i) else serialize_list_loop sz (i + 1) sum vars'
  end.

(** [var] points to an array whose first [n] elements are [vars]. *)
Definition serialize_variable_list (sz : Z) (vars : list variable_t) : M wbuf Z :=
  serialize_variable_list_header vars (zlen vars) ;;
  serialize_list_loop sz 0 0 vars.

(** [list_size] of [src/xapi.c]. *)
Definition list_size (vars : list variable_t) : Z :=
  fold_left (fun sz v => u64 (sz + variable_size v)) vars sizeof_variable_list_header.

#[export] Hint Unfold sizeof_variable_list_header : consts.
Arguments unserialize_var_cached : simpl never.
Arguments unserialize_timestamp : simpl never.
Arguments unserialize_variable_list_header : simpl never.
Arguments serialize_var : simpl never.
Arguments from_bytes_to_vars : simpl never.
