(* ===== verification/SerializerSpec.v ===== *)
(** * Serialization: the format and the round trips

    The byte sequence each writer produces ([emits]) and each reader accepts
    ([parses]), the format of a variable ([var_bytes]) and of a list of
    variables ([list_bytes]), and the round trips between them. *)
From S2P Require Import Prelude EfiTypes Common UefiVariable Storage Serializer Samples.

(** ** Writers that produce, readers that accept, a byte sequence *)

Definition emits {A} (m : M wbuf A) (a : A) (bs : bytes) : Prop :=
  forall pre old post, zlen old = zlen bs ->
    m (pre ++ old ++ post, zlen pre) = Ok (a, (pre ++ bs ++ post, zlen (pre ++ bs))).

Definition parses {A} (m : M bytes A) (bs : bytes) (a : A) : Prop :=
  forall rest, m (bs ++ rest) = Ok (a, rest).

Lemma emits_put bs : emits (put bs) tt bs.
Proof.
  intros pre old post Ho. unfold put.
  pose proof (zlen_nonneg pre). pose proof (zlen_nonneg post).
  rewrite write_bytes_ok by (autorewrite with zlen; lia). cbn [obind]. rewrite zlen_app.
  unfold zlen in *. rewrite Nat2Z.id, take_app_length.
  rewrite (drop_app_ge pre) by lia. rewrite drop_app_ge by lia.
  replace (_ - _ - _)%nat with 0%nat by lia. done.
Qed.

Lemma emits_ret {A} (a : A) : emits (ret a) a [].
Proof.
  intros pre old post Ho. apply zlen_nil_inv in Ho as ->. unfold ret. by rewrite app_nil_r.
Qed.

Lemma emits_bind {A B} (m : M wbuf A) (k : A -> M wbuf B) a b bs1 bs2 :
  emits m a bs1 -> emits (k a) b bs2 -> emits (bind m k) b (bs1 ++ bs2).
Proof.
  intros H1 H2 pre old post Ho. rewrite zlen_app in Ho.
  pose proof (zlen_nonneg bs1). pose proof (zlen_nonneg bs2).
  rewrite <-(take_drop (length bs1) old), <-app_assoc.
  erewrite bind_runs by (apply H1; unfold zlen in *; rewrite length_take; lia).
  rewrite (app_assoc pre). rewrite H2 by (unfold zlen in *; rewrite length_drop; lia).
  by rewrite <-!app_assoc.
Qed.

Lemma emits_last {A B} (m : M wbuf A) (a : A) (b : B) bs :
  emits m a bs -> emits (m ;; ret b) b bs.
Proof. intros H. rewrite <-(app_nil_r bs). by eapply emits_bind; [|apply emits_ret]. Qed.

Lemma emits_put_from src size :
  0 <= size <= zlen src -> emits (put_from src size) tt (take (Z.to_nat size) src).
Proof.
  intros Hs pre old post Ho. unfold put_from.
  rewrite read_bytes_prefix by done. by apply emits_put.
Qed.

Lemma parses_ret {A} (a : A) : parses (ret a) [] a.
Proof. done. Qed.

Lemma parses_bind {A B} (m : M bytes A) (k : A -> M bytes B) a b bs1 bs2 :
  parses m bs1 a -> parses (k a) bs2 b -> parses (bind m k) (bs1 ++ bs2) b.
Proof.
  intros H1 H2 rest. rewrite <-app_assoc. by erewrite bind_runs by apply H1.
Qed.

Lemma parses_map {A B} (m : M bytes A) (f : A -> B) a bs :
  parses m bs a -> parses (x <- m ;; ret (f x)) bs (f a).
Proof. intros H rest. by erewrite bind_runs by apply H. Qed.

Lemma parses_rd bs n : zlen bs = n -> parses (rd n) bs bs.
Proof.
  intros <- rest. unfold rd. pose proof (zlen_nonneg rest).
  rewrite read_bytes_prefix by zlia. cbn [obind].
  unfold zlen. by rewrite Nat2Z.id, drop_app_length, take_app_length.
Qed.

Lemma parses_le n x :
  0 <= x < 256 ^ Z.of_nat n ->
  parses (b <- rd (Z.of_nat n) ;; ret (le_decode b)) (le_encode n x) x.
Proof.
  intros Hx. rewrite <-(le_decode_encode n x) at 2 by done.
  by apply (parses_map (rd _) le_decode), parses_rd, zlen_le_encode.
Qed.

Lemma parses_uint8 x : 0 <= x < 0x100 -> parses unserialize_uint8 (le_encode 1 x) x.
Proof. apply (parses_le 1). Qed.
Lemma parses_uint16 x : 0 <= x < 0x10000 -> parses unserialize_uint16 (le_encode 2 x) x.
Proof. apply (parses_le 2). Qed.
Lemma parses_uint32 x : 0 <= x < 0x100000000 -> parses unserialize_uint32 (le_encode 4 x) x.
Proof. apply (parses_le 4). Qed.
Lemma parses_uint64 x :
  0 <= x < 0x10000000000000000 -> parses unserialize_uint64 (le_encode 8 x) x.
Proof. apply (parses_le 8). Qed.
Lemma parses_boolean b : parses unserialize_boolean (le_encode 1 (Z.b2z b)) b.
Proof.
  intros rest. unfold unserialize_boolean.
  erewrite bind_runs by (apply parses_rd, (zlen_le_encode 1)).
  unfold ret. rewrite le_decode_encode by (destruct b; cbn; lia). by destruct b.
Qed.
#[export] Hint Resolve parses_uint8 parses_uint16 parses_uint32 parses_uint64 parses_boolean
  : uefi.

(** One step of a reader or writer whose format is right-nested. *)
Ltac parse_step := eapply parses_bind; [solve [eauto with uefi | apply parses_rd; zlia]|].
Ltac emit_step := eapply emits_bind; [solve [apply emits_put | apply emits_put_from; zlia
                                            | eauto with uefi]|].

(** A data field: its length, then its bytes. *)
Definition data_field (b : bytes) : bytes := le_encode 8 (zlen b) ++ b.

Lemma data_field_prefix b n :
  0 <= n <= zlen b ->
  data_field (take (Z.to_nat n) b) = le_encode 8 n ++ take (Z.to_nat n) b.
Proof. intros. unfold data_field. by replace (zlen (take _ _)) with n by zlia. Qed.

Lemma emits_name name sz :
  0 <= sz <= zlen name ->
  emits (serialize_name name sz) tt (data_field (take (Z.to_nat sz) name)).
Proof.
  intros Hs. rewrite data_field_prefix by done.
  eapply emits_bind; [apply emits_put|by apply emits_put_from].
Qed.

Lemma emits_data d sz :
  0 <= sz <= zlen d ->
  emits (serialize_data d sz) tt (data_field (take (Z.to_nat sz) d)).
Proof. apply emits_name. Qed.

Lemma emits_data_full d : emits (serialize_data d (zlen d)) tt (data_field d).
Proof.
  pose proof (zlen_nonneg d) as Hd. pose proof (emits_data d (zlen d)) as H.
  rewrite take_ge in H by (unfold zlen; lia). apply H. lia.
Qed.

Lemma emits_guid g : zlen g = 16 -> emits (serialize_guid g) tt g.
Proof.
  intros Hg. rewrite <-(take_ge g (Z.to_nat 16)) at 2 by (unfold zlen in Hg; lia).
  apply emits_put_from. lia.
Qed.

Lemma emits_cert c : zlen c = 32 -> emits (serialize_cert c) tt c.
Proof.
  intros Hg. rewrite <-(take_ge c (Z.to_nat 32)) at 2 by (unfold zlen in Hg; lia).
  apply emits_put_from. unfold SHA256_DIGEST_SIZE. lia.
Qed.

Lemma emits_timestamp t : emits (serialize_timestamp t) tt (time_bytes t).
Proof.
  unfold serialize_timestamp, time_bytes, serialize_uint8, serialize_uint16, serialize_uint32.
  do 10 emit_step. apply emits_put.
Qed.
#[export] Hint Resolve emits_guid emits_cert emits_timestamp emits_data emits_name : uefi.

Lemma parses_guid g : zlen g = 16 -> parses unserialize_guid g g.
Proof. apply parses_rd. Qed.
Lemma parses_cert c : zlen c = 32 -> parses unserialize_cert c c.
Proof. apply parses_rd. Qed.

Lemma parses_timestamp t : time_ok t -> parses unserialize_timestamp (time_bytes t) t.
Proof.
  intros (H1 & H2 & H3 & H4 & H5 & H6 & H7 & H8 & H9 & H10 & H11).
  unfold unserialize_timestamp, time_bytes.
  rewrite <-(app_nil_r (le_encode 1 (Pad2 t))).
  do 11 parse_step. destruct t. apply parses_ret.
Qed.
#[export] Hint Resolve parses_guid parses_cert parses_timestamp : uefi.

(** ** A data field read into a buffer *)

(** [unserialize_data] accepts exactly the fields that fit in the buffer. *)
Lemma unserialize_data_field buf buflen b rest :
  zlen b <= buflen -> buflen <= zlen buf -> buflen < 0x8000000000000000 ->
  unserialize_data buf buflen (data_field b ++ rest)
  = Ok ((zlen b, b ++ drop (length b) buf), rest).
Proof.
  intros Hb Hbuf Hmax. pose proof (zlen_nonneg b).
  unfold unserialize_data, data_field, bind, mget, mlift.
  rewrite <-app_assoc. unfold read_le.
  rewrite read_bytes_prefix by (autorewrite with zlen; pose proof (zlen_nonneg rest); lia).
  cbn [obind]. rewrite take_app_length' by (by rewrite length_le_encode).
  rewrite le_decode_encode by lia. zb.
  rewrite (parses_rd (le_encode 8 (zlen b)) 8) by apply zlen_le_encode.
  rewrite (parses_rd b) by done. rewrite write_bytes_prefix by lia.
  unfold ret. by rewrite s64_id by lia.
Qed.

Lemma unserialize_data_refused buf buflen size ptr :
  read_le 8 ptr 0 = Ok size -> buflen < size ->
  unserialize_data buf buflen ptr = Ok ((-1, buf), ptr).
Proof.
  intros Hr Hs. unfold unserialize_data, bind, mget, mlift, ret. rewrite Hr. by zb.
Qed.

(** ** A variable *)
Definition var_bytes (v : variable_t) : bytes :=
  data_field (take (Z.to_nat (var_namesz v)) (var_name v)) ++
  data_field (match var_data v with Some d => d | None => [] end) ++
  var_guid v ++ le_encode 4 (var_attrs v) ++ time_bytes (var_timestamp v) ++ var_cert v.

Lemma zlen_data_field b : zlen (data_field b) = 8 + zlen b.
Proof. unfold data_field. zlia. Qed.
#[export] Hint Rewrite zlen_data_field zlen_time_bytes : zlen.

Lemma zlen_var_bytes v : live_wf v -> zlen (var_bytes v) = variable_size v.
Proof.
  intros Hv. destruct (lw_data _ Hv) as (d & Hd & Hs).
  pose proof (lw_name _ Hv). pose proof (lw_namesz _ Hv). pose proof (lw_datasz _ Hv).
  pose proof (lw_guid _ Hv). pose proof (lw_cert _ Hv).
  unfold var_bytes, variable_size, variable_serialized_namesz. rewrite Hd.
  rewrite u64_id by clia. autorewrite with zlen. lia.
Qed.

Lemma variable_size_range v :
  live_wf v -> 87 <= variable_size v <= 33108.
Proof.
  intros Hv. pose proof (lw_namesz _ Hv). pose proof (lw_datasz _ Hv).
  unfold variable_size, variable_serialized_namesz. rewrite u64_id by clia. clia.
Qed.

Lemma emits_var v : live_wf v -> emits (serialize_var v) 0 (var_bytes v).
Proof.
  intros Hv. destruct (lw_data _ Hv) as (d & Hd & Hs).
  pose proof (lw_name _ Hv). pose proof (lw_namesz _ Hv). pose proof (lw_datasz _ Hv).
  pose proof (lw_guid _ Hv). pose proof (lw_cert _ Hv).
  unfold serialize_var, var_bytes, serialize_uint32. rewrite Hd.
  eapply emits_bind; [apply emits_name; lia|].
  rewrite <-Hs. eapply emits_bind; [apply emits_data_full|].
  do 3 emit_step. by eapply emits_last, emits_cert.
Qed.
#[export] Hint Resolve emits_var : uefi.

Section variables.
Context `{Allocator}.

(** Reading a variable's bytes into a free slot restores the variable. *)
Lemma parses_var v :
  grants MAX_VARIABLE_DATA_SIZE -> live_wf v -> canonical v ->
  parses (unserialize_var_cached zero_var) (var_bytes v) (0, v).
Proof.
  intros G Hv Hc rest. destruct (lw_data _ Hv) as (d & Hd & Hs).
  pose proof (lw_name _ Hv) as Hn. pose proof (lw_namesz _ Hv) as Hns.
  pose proof (lw_datasz _ Hv) as Hds.
  pose proof (lw_guid _ Hv) as Hg. pose proof (lw_cert _ Hv) as Hce.
  unfold unserialize_var_cached, var_bytes. rewrite Hd.
  rewrite data_field_prefix by lia. unfold data_field. rewrite Hs, <-!app_assoc.
  erewrite bind_runs by (apply parses_uint64; lia). zb.
  erewrite bind_runs by (apply parses_rd; zlia).
  erewrite bind_runs; cycle 1.
  { apply mlift_runs, write_bytes_prefix. clia. }
  erewrite bind_runs by (apply parses_uint64; clia). zb.
  destruct (G (var_datasz v)) as [block Hb]; [lia|]. rewrite Hb.
  apply malloc_size in Hb; [|lia].
  erewrite bind_runs by (apply parses_rd; lia).
  erewrite bind_runs; cycle 1.
  { apply mlift_runs, write_bytes_full. lia. }
  erewrite bind_runs by by apply parses_guid.
  erewrite bind_runs by (apply parses_uint32, Hv).
  erewrite bind_runs by (apply parses_timestamp, Hv).
  erewrite bind_runs by by apply parses_cert.
  apply mlift_runs. rewrite variable_create_noalloc_ok; [|done|lia|zlia|lia|lia|done|].
  - rewrite created_again with (v := v); try done; [|zlia].
    rewrite take_app_le by (rewrite length_take; unfold zlen in Hn; lia).
    by rewrite take_take, Nat.min_id.
  - by intros c [= <-].
Qed.

End variables.

(** ** A list of variables *)
Definition vars_bytes (vars : list variable_t) : bytes := concat (var_bytes <$> vars).
Definition header_bytes (vars : list variable_t) : bytes :=
  VARS_magic ++ le_encode 4 1 ++ le_encode 8 (zlen vars) ++ le_encode 8 (payload_size vars).
Definition list_bytes (vars : list variable_t) : bytes := header_bytes vars ++ vars_bytes vars.

(** The sizes add up without wrapping for any list that fits the store. *)
Lemma sum_sizes vars acc :
  Forall live_wf vars -> 0 <= acc -> acc + 33108 * zlen vars < 0x10000000000000000 ->
  fold_left (fun sum v => u64 (sum + variable_size v)) vars acc = acc + zlen (vars_bytes vars).
Proof.
  intros Hv. revert acc. induction Hv as [|v vars Hv Hvs IH]; intros acc Ha Hmax.
  { change (acc = acc + 0). lia. }
  rewrite zlen_cons in Hmax. pose proof (zlen_nonneg vars).
  pose proof (variable_size_range _ Hv). cbn [fold_left]. rewrite u64_id by lia.
  rewrite IH by lia. unfold vars_bytes. cbn [fmap list_fmap concat].
  rewrite zlen_app, zlen_var_bytes by done. lia.
Qed.

Lemma vars_bytes_range vars :
  Forall live_wf vars -> 0 <= zlen (vars_bytes vars) <= 33108 * zlen vars.
Proof.
  induction 1 as [|v vars Hv _ IH]; [done|]. unfold vars_bytes in *.
  cbn [fmap list_fmap concat]. rewrite zlen_app, zlen_cons, zlen_var_bytes by done.
  pose proof (variable_size_range _ Hv). lia.
Qed.

Lemma zlen_header vars : zlen (header_bytes vars) = 24.
Proof. unfold header_bytes. by autorewrite with zlen. Qed.

Lemma emits_list_loop vars sz i sum :
  Forall live_wf vars -> 0 <= sum -> sum + zlen (vars_bytes vars) <= sz ->
  sum + 33108 * zlen vars < 0x10000000000000000 ->
  emits (serialize_list_loop sz i sum vars) 0 (vars_bytes vars).
Proof.
  intros Hv. revert i sum. induction Hv as [|v vars Hv Hvs IH]; intros i sum Hs Hsz Hmax.
  { apply emits_ret. }
  pose proof (variable_size_range _ Hv). pose proof (vars_bytes_range _ Hvs).
  rewrite zlen_cons in Hmax. unfold vars_bytes in *. cbn [fmap list_fmap concat] in *.
  rewrite zlen_app, zlen_var_bytes in Hsz by done.
  cbn [serialize_list_loop]. rewrite u64_id by lia. zb.
  eapply emits_bind; [by apply emits_var|]. cbn [Z.ltb Z.compare]. apply IH; lia.
Qed.

Lemma emits_list vars sz :
  Forall live_wf vars -> zlen (vars_bytes vars) <= sz ->
  33108 * zlen vars < 0x10000000000000000 ->
  emits (serialize_variable_list sz vars) 0 (list_bytes vars).
Proof.
  intros Hv Hsz Hmax. unfold serialize_variable_list, list_bytes, serialize_variable_list_header.
  eapply emits_bind; [apply emits_put|]. by apply emits_list_loop.
Qed.

Lemma list_size_ok vars :
  Forall live_wf vars -> zlen vars <= MAX_VAR_COUNT ->
  list_size vars = zlen (list_bytes vars).
Proof.
  intros Hv Hn. unfold list_size, list_bytes. rewrite sum_sizes by (done || clia).
  by rewrite zlen_app, zlen_header.
Qed.

Section lists.
Context `{Allocator}.

Lemma parses_header vars :
  Forall live_wf vars -> zlen vars <= MAX_VAR_COUNT ->
  parses unserialize_variable_list_header (header_bytes vars)
    (mk_header (le_decode VARS_magic) 1 (zlen vars) (payload_size vars)).
Proof.
  intros Hv Hn rest. pose proof (zlen_nonneg vars) as Hpos.
  assert (Hp : 0 <= payload_size vars < 0x10000000000000000).
  { unfold payload_size. rewrite sum_sizes by (done || clia).
    pose proof (vars_bytes_range _ Hv). clia. }
  unfold unserialize_variable_list_header.
  erewrite bind_runs by (apply parses_rd, zlen_header).
  assert (Hle : forall n x pre post, 0 <= x < 256 ^ Z.of_nat n ->
    read_le n (pre ++ le_encode n x ++ post) (zlen pre) = Ok x).
  { intros n x pre post Hx. unfold read_le.
    pose proof (read_bytes_app pre (le_encode n x) post) as E.
    rewrite zlen_le_encode in E. rewrite E. cbn [obind]. by rewrite le_decode_encode. }
  unfold header_bytes. erewrite bind_runs; cycle 1.
  { by apply mlift_runs. }
  erewrite bind_runs; cycle 1.
  { apply mlift_runs, (Hle 4%nat 1 VARS_magic). lia. }
  erewrite bind_runs; cycle 1.
  { apply mlift_runs. rewrite app_assoc. apply (Hle 8%nat _ (VARS_magic ++ le_encode 4 1)). clia. }
  erewrite bind_runs; cycle 1.
  { apply mlift_runs. rewrite (app_assoc VARS_magic), (app_assoc (VARS_magic ++ _)).
    rewrite <-(app_nil_r (le_encode 8 (payload_size _))).
    apply (Hle 8%nat _ ((VARS_magic ++ le_encode 4 1) ++ le_encode 8 (zlen vars))). lia. }
  done.
Qed.

(** Reading the variables one after the other into free slots. *)
Lemma parses_vars vars done k fuel :
  grants MAX_VARIABLE_DATA_SIZE ->
  Forall live_wf vars -> Forall canonical vars ->
  (length vars <= k)%nat -> (length vars < fuel)%nat ->
  parses (from_bytes_loop fuel (zlen done + zlen vars) (zlen done)
            (done ++ replicate k zero_var))
         (vars_bytes vars)
         (Some (zlen done + zlen vars),
          done ++ vars ++ replicate (k - length vars) zero_var).
Proof.
  intros G Hv. revert done k fuel. induction Hv as [|v vars Hv Hvs IH];
    intros done k fuel Hc Hk Hf rest.
  - rewrite zlen_nil, Z.add_0_r. cbn [length app]. rewrite Nat.sub_0_r.
    unfold vars_bytes. cbn [fmap list_fmap concat app].
    destruct fuel; [cbn in Hf; lia|]. cbn [from_bytes_loop]. by rewrite Z.ltb_irrefl.
  - apply Forall_cons in Hc as [Hc Hcs]. cbn [length] in Hk, Hf.
    destruct fuel as [|fuel]; [lia|]. destruct k as [|k]; [lia|].
    rewrite zlen_cons. pose proof (zlen_nonneg vars). cbn [from_bytes_loop]. zb.
    assert (Hi : Z.to_nat (zlen done) = length done) by (unfold zlen; lia).
    rewrite Hi, lookup_app_r, Nat.sub_diag by lia. cbn [replicate lookup list_lookup].
    unfold vars_bytes. cbn [fmap list_fmap concat]. rewrite <-app_assoc.
    erewrite bind_runs by by apply parses_var. cbn [Z.ltb Z.compare].
    rewrite insert_app_r_alt, Nat.sub_diag by lia. cbn [insert list_insert].
    replace (done ++ v :: replicate k zero_var)
      with ((done ++ [v]) ++ replicate k zero_var) by by rewrite <-app_assoc.
    specialize (IH (done ++ [v]) k fuel Hcs ltac:(lia) ltac:(lia) rest).
    rewrite zlen_app in IH. change (zlen [v]) with 1 in IH.
    replace (zlen done + (1 + zlen vars)) with (zlen done + 1 + zlen vars) by lia.
    etrans; [exact IH|]. by rewrite <-app_assoc.
Qed.

(** Reading a whole list, with more bytes after it. *)
Lemma from_bytes_list vars post :
  grants MAX_VARIABLE_DATA_SIZE -> Forall live_wf vars -> Forall canonical vars ->
  zlen vars <= MAX_VAR_COUNT ->
  from_bytes_to_vars (Some (replicate 128 zero_var)) MAX_VAR_COUNT (Some (list_bytes vars ++ post))
    (zlen (list_bytes vars))
  = Ok (zlen vars, Some (vars ++ replicate (128 - length vars) zero_var)).
Proof.
  intros G Hv Hc Hn. pose proof (zlen_nonneg vars) as Hpos.
  unfold from_bytes_to_vars. cbn [obind].
  unfold list_bytes at 1. rewrite <-app_assoc, parses_header by done.
  cbn [obind hdr_variable_count]. zb.
  pose proof (parses_vars vars [] 128 (S (length (replicate 128 zero_var))) G Hv Hc) as P.
  rewrite zlen_nil, !Z.add_0_l in P. cbn [app] in P.
  rewrite P by (rewrite ?length_replicate; unfold zlen in *; clia).
  cbn [obind]. rewrite Z.eqb_refl, zlen_app. cbn [negb].
  replace (zlen (list_bytes vars) + zlen post - zlen post) with (zlen (list_bytes vars)) by lia.
  rewrite Z.eqb_refl. cbn [negb]. unfold INT_MAX. by zb.
Qed.

End lists.

Lemma emits_whole {A} (m : M wbuf A) a bs block :
  emits m a bs -> zlen block = zlen bs -> m (block, 0) = Ok (a, (bs, zlen bs)).
Proof.
  intros Hm Hl. specialize (Hm [] block [] Hl). cbn [app] in Hm.
  by rewrite !app_nil_r in Hm.
Qed.

(** ** Properties *)

(** A stored variable survives serialization: [serialize_var] writes
    exactly [variable_size] bytes at the cursor and nothing else, and
    [unserialize_var_cached], reading them back into a free slot, restores
    every field of the variable and stops right after its bytes. *)
Theorem variable_roundtrip `{Allocator} (v : variable_t) (pre old post : bytes) :
  grants MAX_VARIABLE_DATA_SIZE -> live_wf v -> canonical v ->
  zlen old = variable_size v ->
  exists bs,
    zlen bs = variable_size v /\
    serialize_var v (pre ++ old ++ post, zlen pre)
      = Ok (0, (pre ++ bs ++ post, zlen pre + variable_size v)) /\
    unserialize_var_cached zero_var (bs ++ post) = Ok ((0, v), post).
Proof.
  intros G Hv Hc Ho. exists (var_bytes v). rewrite <-zlen_var_bytes in Ho |- * by done.
  split_and!; [done| |by apply parses_var].
  rewrite <-zlen_app. by apply emits_var.
Qed.

Lemma variable_roundtrip_witness :
  exists bs,
    zlen bs = variable_size var_1 /\
    serialize_var var_1 ([x00] ++ replicate 87 x00 ++ [x01], zlen [x00])
      = Ok (0, ([x00] ++ bs ++ [x01], zlen [x00] + variable_size var_1)) /\
    @unserialize_var_cached zero_allocator zero_var (bs ++ [x01]) = Ok ((0, var_1), [x01]).
Proof.
  apply (@variable_roundtrip zero_allocator var_1 [x00] (replicate 87 x00) [x01]);
    [apply zero_allocator_grants|apply var_1_ok|apply var_1_ok|reflexivity].
Defined.

(** C5: A list of up to [MAX_VAR_COUNT] stored variables survives
    serialization: [serialize_variable_list] fills a block of [list_size]
    bytes to its last byte, and [from_bytes_to_vars] gives back the number of
    variables and the variables themselves, in order, followed by free
    slots. *)
Theorem variable_list_roundtrip `{Allocator} (vars : list variable_t) (block : bytes) :
  grants MAX_VARIABLE_DATA_SIZE -> Forall live_wf vars -> Forall canonical vars ->
  zlen vars <= MAX_VAR_COUNT -> zlen block = list_size vars ->
  exists mem,
    zlen mem = list_size vars /\
    serialize_variable_list (list_size vars) vars (block, 0)
      = Ok (0, (mem, list_size vars)) /\
    from_bytes_to_vars (Some (replicate 128 zero_var)) MAX_VAR_COUNT (Some mem)
      (list_size vars)
    = Ok (zlen vars, Some (vars ++ replicate (128 - length vars) zero_var)).
Proof.
  intros G Hv Hc Hn Hb. pose proof (zlen_nonneg vars) as Hpos.
  rewrite list_size_ok in Hb |- * by done. exists (list_bytes vars).
  split_and!; [done| |].
  - apply emits_whole; [|done]. apply emits_list; [done| |clia].
    unfold list_bytes. rewrite zlen_app, zlen_header. lia.
  - rewrite <-(app_nil_r (list_bytes vars)) at 1. by apply from_bytes_list.
Qed.

Lemma variable_list_roundtrip_witness :
  exists mem,
    zlen mem = list_size [var_1; var_2] /\
    serialize_variable_list (list_size [var_1; var_2]) [var_1; var_2]
        (replicate 198 x00, 0)
      = Ok (0, (mem, list_size [var_1; var_2])) /\
    @from_bytes_to_vars zero_allocator (Some (replicate 128 zero_var)) MAX_VAR_COUNT (Some mem)
      (list_size [var_1; var_2])
    = Ok (2, Some ([var_1; var_2] ++ replicate 126 zero_var)).
Proof.
  pose proof var_1_ok as [L1 C1]. pose proof var_2_ok as [L2 C2].
  apply (@variable_list_roundtrip zero_allocator [var_1; var_2] (replicate 198 x00));
    [apply zero_allocator_grants
    |exact (Forall_cons_2 _ _ _ L1 (Forall_cons_2 _ _ _ L2 (Forall_nil_2 _)))
    |exact (Forall_cons_2 _ _ _ C1 (Forall_cons_2 _ _ _ C2 (Forall_nil_2 _)))
    |vm_compute; discriminate|reflexivity].
Defined.

Lemma unserialize_data_any (buf : bytes) (buflen : Z) (ptr : bytes) :
  0 <= buflen <= zlen buf -> zlen buf < 0x8000000000000000 -> 8 + buflen <= zlen ptr ->
  exists size, read_le 8 ptr 0 = Ok size /\
    unserialize_data buf buflen ptr =
      if size >? buflen then Ok ((-1, buf), ptr)
      else Ok ((size, take (Z.to_nat size) (drop 8 ptr) ++ drop (Z.to_nat size) buf),
               drop (Z.to_nat (8 + size)) ptr).
Proof.
  intros Hb Hmax Hp. unfold read_le. rewrite read_bytes_prefix by lia. cbn [obind].
  eexists; split; [done|].
  change (Z.to_nat (Z.of_nat 8)) with (Z.to_nat 8).
  set (size := le_decode (take (Z.to_nat 8) ptr)).
  assert (Hsz : 0 <= size < 0x10000000000000000).
  { pose proof (le_decode_range (take (Z.to_nat 8) ptr)) as R.
    rewrite length_take, Nat.min_l in R by (unfold zlen in Hp; lia). exact R. }
  destruct (size >? buflen) eqn:E.
  { apply unserialize_data_refused with (size := size); [|lia].
    unfold read_le. by rewrite read_bytes_prefix by lia. }
  set (b := take (Z.to_nat size) (drop 8 ptr)).
  assert (Hlb : zlen b = size) by (unfold b; zlia).
  assert (He : le_encode 8 size = take 8 ptr).
  { pose proof (le_encode_decode (take (Z.to_nat 8) ptr)) as R.
    rewrite length_take, Nat.min_l in R by (unfold zlen in Hp; lia). exact R. }
  assert (Hptr : ptr = data_field b ++ drop (Z.to_nat (8 + size)) ptr).
  { unfold data_field. rewrite Hlb, He, <-app_assoc. unfold b.
    replace (Z.to_nat (8 + size)) with (8 + Z.to_nat size)%nat by lia.
    by rewrite <-drop_drop, !take_drop. }
  clearbody b. etrans; [exact (f_equal (unserialize_data buf buflen) Hptr)|].
  rewrite unserialize_data_field by lia. rewrite Hlb.
  by replace (length b) with (Z.to_nat size) by (unfold zlen in Hlb; lia).
Qed.

(** C6: Reading a length-prefixed field of a request is safe whatever its
    bytes are: with [8 + buflen] bytes left at the cursor, [unserialize_data]
    never leaves either object; a declared length above [buflen] is refused
    with -1, leaving the cursor and the buffer as they were; otherwise exactly
    the declared number of bytes is copied to the start of the buffer and the
    cursor moves past the field. *)
Theorem unserialize_data_total (buf : bytes) (buflen : Z) (ptr : bytes) :
  0 <= buflen <= zlen buf -> zlen buf < 0x8000000000000000 -> 8 + buflen <= zlen ptr ->
  exists size, read_le 8 ptr 0 = Ok size /\
    unserialize_data buf buflen ptr =
      if size >? buflen then Ok ((-1, buf), ptr)
      else Ok ((size, take (Z.to_nat size) (drop 8 ptr) ++ drop (Z.to_nat size) buf),
               drop (Z.to_nat (8 + size)) ptr).
Proof. exact (unserialize_data_any buf buflen ptr). Qed.

Lemma unserialize_data_total_witness :
  exists size, read_le 8 (replicate 12 x02) 0 = Ok size /\
    unserialize_data (replicate 4 x00) 4 (replicate 12 x02) =
      if size >? 4 then Ok ((-1, replicate 4 x00), replicate 12 x02)
      else Ok ((size, take (Z.to_nat size) (drop 8 (replicate 12 x02))
                      ++ drop (Z.to_nat size) (replicate 4 x00)),
               drop (Z.to_nat (8 + size)) (replicate 12 x02)).
Proof.
  apply (unserialize_data_total (replicate 4 x00) 4 (replicate 12 x02));
    vm_compute; repeat split; discriminate.
Defined.
