(* ===== verification/Barrier.v ===== *)
(** * Accesses to shared memory

    [inc/barrier.h]: the macros through which [src/serializer.c] reads and
    writes the page it shares with the guest.  An integer of one, two, four or
    eight bytes is one access; an object of any other size is copied as
    [memcpy] copies it, byte by byte.  What the other side does meanwhile is a
    function that gives the memory at each access (for the reads), and what it
    may see is the memory after each access (for the writes). *)
From S2P Require Import Prelude EfiTypes Common UefiVariable Storage Serializer.

Definition word_size (size : Z) : bool := bool_decide (size ∈ [1; 2; 4; 8]).

(** ** Reads *)
Section reads.
Context (guest : nat -> bytes).

(** [size] bytes at [p] in one access; the state counts the accesses. *)
Definition access (p size : Z) : M nat bytes :=
  fun t => let* b := read_bytes (guest t) p size in Ok (b, S t).

Fixpoint builtin_memcpy (p : Z) (n : nat) : M nat bytes :=
  match n with
  | O => ret []
  | S n' => b <- access p 1 ;; rest <- builtin_memcpy (p + 1) n' ;; ret (b ++ rest)
  end.

Definition __read_once_size (p size : Z) : M nat bytes :=
  if word_size size then access p size else builtin_memcpy p (Z.to_nat size).

(** An unsigned integer of [size] bytes. *)
Definition READ_ONCE (p size : Z) : M nat Z :=
  b <- __read_once_size p size ;; ret (le_decode b).

End reads.

(** ** Writes

    The values the memory takes, one for each access. *)
Fixpoint memcpy_steps (mem : bytes) (p : Z) (src : bytes) : outcome (list bytes) :=
  match src with
  | [] => Ok []
  | b :: src' =>
      let* mem' := write_bytes mem p [b] in
      let* rest := memcpy_steps mem' (p + 1) src' in
      Ok (mem' :: rest)
  end.

Definition __write_once_size (mem : bytes) (p : Z) (res : bytes) (size : Z) : outcome (list bytes) :=
  let* src := read_bytes res 0 size in
  if word_size size then let* mem' := write_bytes mem p src in Ok [mem']
  else memcpy_steps mem p src.

Definition WRITE_ONCE (mem : bytes) (p : Z) (n : nat) (val : Z) : outcome (list bytes) :=
  __write_once_size mem p (le_encode n val) (Z.of_nat n).

(** The memory in the end. *)
Definition memory_after (mem : bytes) (steps : list bytes) : bytes := default mem (last steps).

(** ** Lemmas *)
Lemma word_size_bounds size : word_size size = true -> 1 <= size <= 8.
Proof. intros H%bool_decide_eq_true. set_unfold. lia. Qed.

(** Where [size] bytes at [p] are in the memory. *)
Lemma read_split mem p size b :
  read_bytes mem p size = Ok b ->
  exists pre post, mem = pre ++ b ++ post /\ zlen pre = p /\ zlen b = size.
Proof.
  intros (H1 & H2 & H3 & -> & Hl)%read_bytes_inv.
  exists (take (Z.to_nat p) mem), (drop (Z.to_nat size) (drop (Z.to_nat p) mem)).
  rewrite !take_drop. split_and!; [done| |done]. rewrite zlen_take. lia.
Qed.

Lemma write_bytes_app pre old new post :
  zlen new = zlen old -> write_bytes (pre ++ old ++ post) (zlen pre) new = Ok (pre ++ new ++ post).
Proof.
  intros H. pose proof (zlen_nonneg pre). pose proof (zlen_nonneg post).
  rewrite write_bytes_ok by (rewrite ?zlen_app; lia). f_equal.
  replace (Z.to_nat (zlen pre)) with (length pre) by (unfold zlen; lia).
  replace (Z.to_nat (zlen pre + zlen new)) with (length (pre ++ old))
    by (rewrite length_app; unfold zlen in *; lia).
  rewrite take_app_length. do 2 f_equal. by rewrite app_assoc, drop_app_length.
Qed.

Lemma memcpy_stable mem p t pre b post :
  mem = pre ++ b ++ post -> zlen pre = p ->
  builtin_memcpy (fun _ => mem) p (length b) t = Ok (b, (length b + t)%nat).
Proof.
  revert p t pre. induction b as [|x b IH]; intros p t pre -> <-; [done|].
  change ((x :: b) ++ post) with ([x] ++ b ++ post).
  cbn [builtin_memcpy length]. unfold bind at 1, access at 1.
  rewrite (read_bytes_app pre [x] (b ++ post) : read_bytes _ _ 1 = _). cbn [obind].
  unfold bind. rewrite (IH _ (S t) (pre ++ [x])); [|by rewrite <- app_assoc|by rewrite zlen_app].
  cbn. unfold ret. by rewrite <- plus_n_Sm.
Qed.

Lemma memcpy_settles pre old src post :
  length src = length old ->
  exists steps, memcpy_steps (pre ++ old ++ post) (zlen pre) src = Ok steps /\
                memory_after (pre ++ old ++ post) steps = pre ++ src ++ post.
Proof.
  revert pre old. induction src as [|x src IH]; intros pre [|y old]; try done.
  - intros _. by exists [].
  - intros [= H]. cbn [memcpy_steps]. change ((y :: old) ++ post) with ([y] ++ old ++ post).
    rewrite (write_bytes_app pre [y] [x] (old ++ post)) by done. cbn [obind].
    destruct (IH (pre ++ [x]) old H) as (steps & Hs & E).
    rewrite zlen_app, <- !app_assoc in Hs. cbn [app] in Hs.
    change (zlen [x]) with 1 in Hs. change (pre ++ [x] ++ old ++ post) with (pre ++ x :: old ++ post).
    rewrite Hs. cbn [obind]. eexists. split; [done|].
    revert E. unfold memory_after. rewrite last_cons, <- !app_assoc. cbn [app].
    by destruct (last steps).
Qed.

(** ** What the macros guarantee *)

(** An integer is read from the memory as it is at one moment; the guest cannot
    change a part of it meanwhile. *)
Theorem read_once_untorn (guest : nat -> bytes) p size t b t' :
  word_size size = true -> __read_once_size guest p size t = Ok (b, t') ->
  t' = S t /\ read_bytes (guest t) p size = Ok b.
Proof.
  unfold __read_once_size, access. intros -> H. by destruct read_bytes; simplify_eq/=.
Qed.

(** A GUID read that way may be one the guest never wrote. *)
Theorem read_once_torn :
  exists (guest : nat -> bytes) b t,
    __read_once_size guest 0 16 0%nat = Ok (b, t) /\
    forall t, read_bytes (guest t) 0 16 <> Ok b.
Proof.
  exists (fun t => if (t <? 8)%nat then replicate 16 x00 else replicate 16 xff).
  exists (replicate 8 x00 ++ replicate 8 xff), 16%nat. split; [by vm_compute|].
  intros t. by destruct (t <? 8)%nat.
Qed.

(** Without a writer every size is read as it is in the memory. *)
Theorem read_once_stable mem p size b t :
  read_bytes mem p size = Ok b ->
  exists t', __read_once_size (fun _ => mem) p size t = Ok (b, t').
Proof.
  intros H. unfold __read_once_size, access. destruct (word_size size).
  - rewrite H. by eexists.
  - destruct (read_split _ _ _ _ H) as (pre & post & -> & <- & <-).
    replace (Z.to_nat (zlen b)) with (length b) by (unfold zlen; lia).
    eexists. by eapply memcpy_stable.
Qed.

(** A write ends with the object in its place, and that of an integer has no
    intermediate state. *)
Theorem write_once_settles mem p res size src mem' :
  read_bytes res 0 size = Ok src -> write_bytes mem p src = Ok mem' ->
  exists steps, __write_once_size mem p res size = Ok steps /\ memory_after mem steps = mem' /\
                (word_size size = true -> steps = [mem']).
Proof.
  intros Hr Hw. unfold __write_once_size. rewrite Hr. cbn [obind].
  destruct (word_size size); [rewrite Hw; by exists [mem']|].
  pose proof Hw as (Hp & Hl & _)%write_bytes_inv. pose proof (zlen_nonneg src).
  pose proof (read_bytes_ok mem p (zlen src) Hp ltac:(lia) Hl) as Ho.
  destruct (read_split _ _ _ _ Ho) as (pre & post & Hm & <- & Hz). clear Ho.
  revert Hm Hz. generalize (take (Z.to_nat (zlen src)) (drop (Z.to_nat (zlen pre)) mem)) as old.
  intros old -> Hz. rewrite write_bytes_app in Hw by done. injection Hw as <-.
  destruct (memcpy_settles pre old src post) as (steps & Hs & E); [unfold zlen in Hz; lia|].
  by exists steps.
Qed.

(** The cursors of [src/serializer.c] go through the macros. *)
Lemma cursor_bytes mem p size b t :
  word_size size = true -> 0 <= p ->
  read_bytes mem p size = Ok b ->
  __read_once_size (fun _ => mem) p size t = Ok (b, S t) /\
  rd size (drop (Z.to_nat p) mem) = Ok (b, drop (Z.to_nat (p + size)) mem).
Proof.
  intros Hw Hp Hb. pose proof (word_size_bounds _ Hw).
  unfold __read_once_size, access, rd. rewrite Hw, Hb. split; [done|].
  apply read_bytes_inv in Hb as (_ & _ & ? & -> & _).
  rewrite read_bytes_ok by (rewrite ?zlen_drop; lia). cbn [obind].
  by rewrite drop_0, drop_drop, Z2Nat.inj_add by lia.
Qed.

Theorem cursors_read_once mem p t :
  0 <= p -> p + 8 <= zlen mem ->
  let read m := m (drop (Z.to_nat p) mem) in
  let once size := READ_ONCE (fun _ => mem) p size t in
  (exists x8 x16 x32 x64,
    (once 1 = Ok (x8, S t) /\ read unserialize_uint8 = Ok (x8, drop (Z.to_nat (p + 1)) mem)) /\
    (once 2 = Ok (x16, S t) /\ read unserialize_uint16 = Ok (x16, drop (Z.to_nat (p + 2)) mem)) /\
    (once 4 = Ok (x32, S t) /\ read unserialize_uint32 = Ok (x32, drop (Z.to_nat (p + 4)) mem)) /\
    (once 8 = Ok (x64, S t) /\ read unserialize_uint64 = Ok (x64, drop (Z.to_nat (p + 8)) mem))).
Proof.
  intros Hp Hl. cbn zeta.
  assert (H : forall size, word_size size = true -> size <= 8 -> exists x,
    READ_ONCE (fun _ => mem) p size t = Ok (x, S t) /\
    (b <- rd size ;; ret (le_decode b)) (drop (Z.to_nat p) mem)
    = Ok (x, drop (Z.to_nat (p + size)) mem)).
  { intros size Hw Hs. pose proof (word_size_bounds _ Hw).
    destruct (cursor_bytes mem p size _ t Hw Hp (read_bytes_ok mem p size Hp ltac:(lia) ltac:(lia)))
      as [E1 E2].
    unfold READ_ONCE, bind. rewrite E1, E2. by eexists. }
  destruct (H 1) as [x8 ?], (H 2) as [x16 ?], (H 4) as [x32 ?], (H 8) as [x64 ?]; try done.
  by exists x8, x16, x32, x64.
Qed.

Theorem cursors_write_once mem p n x mem' :
  word_size (Z.of_nat n) = true ->
  WRITE_ONCE mem p n x = Ok [mem'] <->
  put (le_encode n x) (mem, p) = Ok (tt, (mem', p + Z.of_nat n)).
Proof.
  intros Hw. unfold WRITE_ONCE, __write_once_size, put. rewrite Hw.
  pose proof (read_bytes_full (le_encode n x)) as Hf. rewrite zlen_le_encode in Hf.
  rewrite Hf, zlen_le_encode. cbn [obind].
  destruct write_bytes; [|done]. cbn [obind]. split; by intros [= <-].
Qed.
