(* ===== verification/Crypto.v ===== *)
(** * Certificates and signatures

    [src/uefi/pkcs7_verify.c], with [X509_from_buf] of
    [inc/uefi/pkcs7_verify.h].  OpenSSL itself is an interface: the class
    [OpenSSL] lists the functions of the library that the code calls, on
    abstract certificates and PKCS#7 structures.

    The [EFI_VARIABLE_AUTHENTICATION_2] descriptor is the start of the data
    object of a [SetVariable] call; its fields are read from the object at
    their offsets. *)
From S2P Require Import Prelude EfiTypes Common UefiVariable.

(** ** The library

    [d2i_X509] and [d2i_PKCS7] parse the bytes they are given; the functions
    that can only fail for lack of resources have their outcome as a field. *)
Class OpenSSL : Type := {
  X509 : Type;
  PKCS7 : Type;
  d2i_X509 : bytes -> option X509;
  i2d_X509 : X509 -> bytes;
  (** [X509_get_pubkey] gives an RSA key that [RSAPublicKey_dup] copies *)
  X509_has_rsa_pubkey : X509 -> bool;
  X509_has_subject_name : X509 -> bool;
  (** [X509_NAME_get_text_by_NID (.., NID_commonName, ..)]: the text written to
      a buffer of the given size, without the terminating zero *)
  X509_common_name : X509 -> Z -> option bytes;
  (** [ASN1_get_object] on an object and the maximal length: how far the
      pointer moves, the length and the tag stored *)
  ASN1_get_object : bytes -> Z -> Z * Z * Z;
  d2i_PKCS7 : bytes -> option PKCS7;
  PKCS7_type_is_signed : PKCS7 -> bool;
  PKCS7_get0_signers : PKCS7 -> option (list X509);
  (** [PKCS7_verify] with a store that holds one trusted certificate *)
  PKCS7_verify : PKCS7 -> X509 -> bytes -> bool;
  EVP_add_digest : bool;
  X509_STORE_new : bool;
  X509_STORE_add_cert : X509 -> bool;
  BIO_new : bool;
  BIO_write : bytes -> Z;
  SHA256 : bytes -> option bytes;
  SHA256_size : forall b d, SHA256 b = Some d -> zlen d = 32
}.

Definition V_ASN1_SEQUENCE : Z := 16.

(** ** Fields of the authentication descriptor *)
Definition auth_dwLength (auth : bytes) : outcome Z := read_le 4 auth 16.
Definition auth_wCertificateType (auth : bytes) : outcome Z := read_le 2 auth 22.
Definition auth_CertType (auth : bytes) : outcome EFI_GUID := read_bytes auth 24 16.
Definition auth_TimeStamp (auth : bytes) : outcome EFI_TIME := read_time auth 0.

(** [AuthInfo.Hdr.dwLength - OFFSET_OF (WIN_CERTIFICATE_UEFI_GUID, CertData)] in
    [uint32_t]. *)
Definition auth_sig_data_size (auth : bytes) : outcome Z :=
  let* dwLength := auth_dwLength auth in Ok (u32 (dwLength - OFFSET_OF_CERTDATA)).

(** ** ContentInfo *)

(** [data[i] != c], evaluated only when the conditions before it are false. *)
Definition byte_differs (data : bytes) (i c : Z) : outcome bool :=
  let* b := read_le 1 data i in Ok (negb (b =? c)).
Definition or_else (a : outcome bool) (b : outcome bool) : outcome bool :=
  let* x := a in if x then Ok true else b.

Definition mOidValue : bytes := [x2a; x86; x48; x86; xf7; x0d; x01; x07; x02].

(** [off] is where [data] points in its object. *)
Definition is_content_info (data : bytes) (off : Z) (data_size : Z) : outcome bool :=
  let* no :=
    or_else (Ok (data_size <? 16))
   (or_else (byte_differs data (off + 4) 0x06)
   (or_else (byte_differs data (off + 5) 0x09)
   (or_else (let* same := memcmp_eq data (off + 6) mOidValue 0 9 in Ok (negb same))
   (or_else (byte_differs data (off + 15) 0xA0)
            (byte_differs data (off + 16) 0x82))))) in
  Ok (negb no).

(** The two bytes of a 16-bit length, most significant first. *)
Definition be16 (x : Z) : bytes := [byte_of_Z (Z.shiftr (u16 x) 8); byte_of_Z (Z.land (u16 x) 0xff)].

Section pkcs7.
Context `{Allocator} `{OpenSSL}.

(** The block returned and [*wrapped_size].  [wrapped[i] = ..] writes one byte
    of the block. *)
Definition wrap_with_content_info (data : option bytes) (off : Z) (size : Z)
    (wrapped_size : Z) : outcome (option bytes * Z) :=
  match data with
  | None => Ok (None, wrapped_size)
  | Some d =>
      let* info := is_content_info d off size in
      if info then
        match malloc size with
        | None => Ok (None, 0)
        | Some wrapped =>
            let* wrapped := memcpy wrapped 0 d off size in
            Ok (Some wrapped, size)
        end
      else
        let wrapped_size := u32 (size + 19) in
        match malloc wrapped_size with
        | None => Ok (None, 0)
        | Some wrapped =>
            let* wrapped := write_bytes wrapped 0 [x30] in
            let* wrapped := write_bytes wrapped 1 [x82] in
            let* wrapped := write_bytes wrapped 2 (be16 (u32 (wrapped_size - 4))) in
            let* wrapped := write_bytes wrapped 4 [x06] in
            let* wrapped := write_bytes wrapped 5 [x09] in
            let* wrapped := memcpy wrapped 6 mOidValue 0 9 in
            let* wrapped := write_bytes wrapped 15 [xa0] in
            let* wrapped := write_bytes wrapped 16 [x82] in
            let* wrapped := write_bytes wrapped 17 (be16 size) in
            let* wrapped := memcpy wrapped 19 d off size in
            Ok (Some wrapped, wrapped_size)
        end
  end.

(** ** PKCS#7 structures *)

(** [X509_from_buf (buf + off, len)]; a negative length gives the parser no
    bytes. *)
Definition X509_from_buf (buf : bytes) (off len : Z) : outcome (option X509) :=
  let* der := read_bytes buf off (Z.max 0 (s64 len)) in
  Ok (d2i_X509 der).

(** The block and [*len]. *)
Definition X509_to_buf (cert : option X509) : option (bytes * Z) :=
  match cert with
  | None => None
  | Some c =>
      let der := i2d_X509 c in
      match malloc (zlen der) with
      | None => None
      | Some _ => Some (der, zlen der)
      end
  end.

(** The status and [*certs]. *)
Definition pkcs7_get_signers (pkcs7 : option PKCS7) : EFI_STATUS * option (list X509) :=
  match pkcs7 with
  | None => (EFI_SECURITY_VIOLATION, None)
  | Some p =>
      if negb (PKCS7_type_is_signed p) then (EFI_SECURITY_VIOLATION, None)
      else
        match PKCS7_get0_signers p with
        | None => (EFI_SECURITY_VIOLATION, None)
        | Some certs => (EFI_SUCCESS, Some certs)
        end
  end.

Definition pkcs7_from_auth (auth : option bytes) : outcome (option PKCS7) :=
  match auth with
  | None => Ok None
  | Some a =>
      let* sig_data_size := auth_sig_data_size a in
      if sig_data_size =? 0 then Ok None
      else
      let* (sig_data, sig_data_size) :=
        wrap_with_content_info (Some a) OFFSET_OF_AUTHINFO2_CERT_DATA sig_data_size
          sig_data_size in
      match sig_data with
      | None => Ok None
      | Some block =>
          let* der := read_bytes block 0 (Z.max 0 (s32 sig_data_size)) in
          match d2i_PKCS7 der with
          | None => Ok None
          | Some pkcs7 =>
              if negb (PKCS7_type_is_signed pkcs7) then Ok None else Ok (Some pkcs7)
          end
      end
  end.

(** [sk_X509_value (certs, sk_X509_num (certs) - 1)]; null for an empty stack. *)
Definition last_cert (certs : list X509) : option X509 := last certs.

(** The certificate and [*certs]. *)
Definition pkcs7_get_top_cert (pkcs7 : option PKCS7) : option X509 * option (list X509) :=
  match pkcs7 with
  | None => (None, None)
  | Some p =>
      match PKCS7_get0_signers p with
      | None => (None, None)
      | Some certs => (last_cert certs, Some certs)
      end
  end.

(** The block with its length, and [*certs]. *)
Definition pkcs7_get_top_cert_der (pkcs7 : option PKCS7) :
    option (bytes * Z) * option (list X509) :=
  match pkcs7 with
  | None => (None, None)
  | Some _ =>
      let '(top_cert, certs) := pkcs7_get_top_cert pkcs7 in
      match top_cert with
      | None => (None, certs)
      | Some _ => (X509_to_buf top_cert, certs)
      end
  end.

Definition pkcs7_verify (pkcs7 : option PKCS7) (trusted_cert : option X509)
    (new_data : option bytes) (new_data_size : Z) : outcome bool :=
  match new_data with
  | None => Ok false
  | Some d =>
      if new_data_size >? INT_MAX then Ok false
      else
      match pkcs7, trusted_cert with
      | Some p, Some cert =>
          if negb EVP_add_digest then Ok false
          else if negb (PKCS7_type_is_signed p) then Ok false
          else if negb X509_STORE_new then Ok false
          else if negb (X509_STORE_add_cert cert) then Ok false
          else if negb BIO_new then Ok false
          else
          let* _ := oassert (new_data_size <? INT_MAX) in
          let* content := read_bytes d 0 new_data_size in
          if negb (BIO_write content =? s32 new_data_size) then Ok false
          else Ok (PKCS7_verify p cert content)
      | _, _ => Ok false
      end
  end.

End pkcs7.

Arguments wrap_with_content_info : simpl never.
Arguments is_content_info : simpl never.
Arguments pkcs7_from_auth : simpl never.
Arguments pkcs7_verify : simpl never.
