(* ===== verification/SigList.v ===== *)
(** * Signature lists

    The signature-list routines of [src/uefi/auth.c]: filtering out known
    signatures on append, the format check, the comparison of a certificate
    with a list's first entry, the search of a certificate database.

    A pointer into a block is the block with an offset; an
    [EFI_SIGNATURE_LIST *] reads its fields from the block at that offset.  The
    loops take fuel, one unit per iteration; each iteration of a loop over
    lists consumes the list's size, so a loop that exhausts fuel the size of
    its input is one that meets a list of size zero and never ends. *)
From S2P Require Import Prelude EfiTypes Common UefiVariable Crypto.

(** ** Fields of [EFI_SIGNATURE_LIST] *)
Definition sl_SignatureType (d : bytes) (off : Z) : outcome EFI_GUID := read_bytes d off 16.
Definition sl_SignatureListSize (d : bytes) (off : Z) : outcome Z := read_le 4 d (off + 16).
Definition sl_SignatureHeaderSize (d : bytes) (off : Z) : outcome Z := read_le 4 d (off + 20).
Definition sl_SignatureSize (d : bytes) (off : Z) : outcome Z := read_le 4 d (off + 24).

(** The [uint64_t] division and remainder by a [uint32_t]. *)
Definition udiv (x y : Z) : outcome Z := if y =? 0 then Fault DivByZero else Ok (x / y).
Definition umod (x y : Z) : outcome Z := if y =? 0 then Fault DivByZero else Ok (x mod y).

(** [SignatureListSize - sizeof (EFI_SIGNATURE_LIST) - SignatureHeaderSize]. *)
Definition sigs_size (list_size header_size : Z) : Z :=
  u64 (list_size - sizeof_EFI_SIGNATURE_LIST - header_size).

(** ** [cert_equals_esl] *)
Definition cert_equals_esl (cert_der : bytes) (cert_size : Z) (old_esl : bytes) : outcome bool :=
  let* header_size := sl_SignatureHeaderSize old_esl 0 in
  let* signature_size := sl_SignatureSize old_esl 0 in
  if negb (cert_size =? u64 (signature_size - (sizeof_EFI_SIGNATURE_DATA - 1))) then Ok false
  else memcmp_eq old_esl (sizeof_EFI_SIGNATURE_LIST + header_size + 16) cert_der 0 cert_size.

(** ** [FilterSignatureList] *)

(** The loop over the signatures of one list of the original data, from
    signature [j] at offset [cert] on: is the signature at [new_cert] among
    them? *)
Fixpoint match_cert_loop (fuel : nat) (data : bytes) (cert : Z) (new_data : bytes)
    (new_cert : Z) (size : Z) (j cert_count : Z) : outcome bool :=
  if j <? cert_count then
    match fuel with
    | O => Fault OutOfFuel
    | S fuel' =>
        let* same := memcmp_eq new_data new_cert data cert size in
        if same then Ok true
        else match_cert_loop fuel' data (cert + size) new_data new_cert size (j + 1) cert_count
    end
  else Ok false.

(** The loop over the lists of the original data, from the one at [certList]
    on; the result is [!is_new_cert]. *)
Fixpoint known_cert_loop (fuel : nat) (data : bytes) (certList Size : Z) (new_data : bytes)
    (new_cert_list new_cert : Z) : outcome bool :=
  if Size >? 0 then
    let* list_size := sl_SignatureListSize data certList in
    if Size >=? list_size then
      match fuel with
      | O => Fault OutOfFuel
      | S fuel' =>
          let* sig_type := sl_SignatureType data certList in
          let* new_type := sl_SignatureType new_data new_cert_list in
          let* sig_size := sl_SignatureSize data certList in
          let* new_size := sl_SignatureSize new_data new_cert_list in
          let* known :=
            if compare_guid sig_type new_type && (sig_size =? new_size) then
              let* header_size := sl_SignatureHeaderSize data certList in
              let* cert_count := udiv (sigs_size list_size header_size) sig_size in
              match_cert_loop (S (length data)) data
                (certList + sizeof_EFI_SIGNATURE_LIST + header_size) new_data new_cert sig_size
                0 cert_count
            else Ok false in
          if known then Ok true
          else known_cert_loop fuel' data (certList + list_size) (Size - list_size) new_data
                 new_cert_list new_cert
      end
    else Ok false
  else Ok false.

(** The loop over the signatures of one list of the new data, from signature
    [i] at [new_cert] on.  The result is [CopiedCount], [Tail] as an offset
    into [Tempdata], and [Tempdata]. *)
Fixpoint copy_certs_loop (fuel : nat) (data : bytes) (data_size : Z) (new_data : bytes)
    (new_cert_list new_cert : Z) (header_size signature_size : Z) (i new_certCount : Z)
    (copied : Z) (Tail : Z) (Tempdata : bytes) : outcome (Z * Z * bytes) :=
  if i <? new_certCount then
    match fuel with
    | O => Fault OutOfFuel
    | S fuel' =>
        let* known := known_cert_loop (S (Z.to_nat data_size)) data 0 data_size new_data
                        new_cert_list new_cert in
        let next copied Tail Tempdata :=
          copy_certs_loop fuel' data data_size new_data new_cert_list
            (new_cert + signature_size) header_size signature_size (i + 1) new_certCount
            copied Tail Tempdata in
        if known then next copied Tail Tempdata
        else
          let* (Tail, Tempdata) :=
            if copied =? 0 then
              let n := u64 (sizeof_EFI_SIGNATURE_LIST + header_size) in
              let* t := memcpy Tempdata Tail new_data new_cert_list n in
              Ok (Tail + n, t)
            else Ok (Tail, Tempdata) in
          let* Tempdata := memcpy Tempdata Tail new_data new_cert signature_size in
          next (u64 (copied + 1)) (Tail + signature_size) Tempdata
    end
  else Ok (copied, Tail, Tempdata).

(** The loop over the lists of the new data.  The result is [Tail] and
    [Tempdata]. *)
Fixpoint filter_lists_loop (fuel : nat) (data : bytes) (data_size : Z) (new_data : bytes)
    (new_cert_list new_data_size : Z) (Tail : Z) (Tempdata : bytes) : outcome (Z * bytes) :=
  if new_data_size >? 0 then
    let* list_size := sl_SignatureListSize new_data new_cert_list in
    if new_data_size >=? list_size then
      match fuel with
      | O => Fault OutOfFuel
      | S fuel' =>
          let* header_size := sl_SignatureHeaderSize new_data new_cert_list in
          let* signature_size := sl_SignatureSize new_data new_cert_list in
          let* new_certCount := udiv (sigs_size list_size header_size) signature_size in
          let* (copied_tail, Tempdata) :=
            copy_certs_loop (S (length new_data)) data data_size new_data new_cert_list
              (new_cert_list + sizeof_EFI_SIGNATURE_LIST + header_size) header_size
              signature_size 0 new_certCount 0 Tail Tempdata in
          let '(copied, Tail) := copied_tail in
          let* Tempdata :=
            if negb (copied =? 0) then
              let SignatureListSize :=
                u64 (sizeof_EFI_SIGNATURE_LIST + header_size + copied * signature_size) in
              write_bytes Tempdata (Tail - SignatureListSize + 16)
                (le_encode 4 SignatureListSize)
            else Ok Tempdata in
          filter_lists_loop fuel' data data_size new_data (new_cert_list + list_size)
            (new_data_size - list_size) Tail Tempdata
      end
    else Ok (Tail, Tempdata)
  else Ok (Tail, Tempdata).

Section filter.
Context `{Allocator}.

(** [new_data] points to offset [off] of its block.  The result is the status,
    the block and [*new_data_size]. *)
Definition FilterSignatureList (data : bytes) (data_size : Z) (new_data : bytes) (off : Z)
    (new_data_size : Z) : outcome (EFI_STATUS * bytes * Z) :=
  if new_data_size =? 0 then Ok (EFI_SUCCESS, new_data, new_data_size)
  else
  match malloc new_data_size with
  | None => Ok (EFI_OUT_OF_RESOURCES, new_data, new_data_size)
  | Some Tempdata =>
      let* (Tail, Tempdata) :=
        filter_lists_loop (S (Z.to_nat new_data_size)) data data_size new_data off
          new_data_size 0 Tempdata in
      let* new_data := memcpy new_data off Tempdata 0 Tail in
      Ok (EFI_SUCCESS, new_data, Tail)
  end.

End filter.

(** ** [check_signature_list_format] *)

(** Signature type, header size, data size. *)
Definition ANY_SIZE : Z := 0xffffffff.
Definition supported_sigs : list (EFI_GUID * Z * Z) :=
  [(EFI_CERT_SHA256_GUID, 0, 32);
   (EFI_CERT_RSA2048_GUID, 0, 256);
   (EFI_CERT_RSA2048_SHA256_GUID, 0, 256);
   (EFI_CERT_SHA1_GUID, 0, 20);
   (EFI_CERT_RSA2048_SHA1_GUID, 0, 256);
   (EFI_CERT_X509_GUID, 0, ANY_SIZE);
   (EFI_CERT_SHA224_GUID, 0, 28);
   (EFI_CERT_SHA384_GUID, 0, 48);
   (EFI_CERT_SHA512_GUID, 0, 64);
   (EFI_CERT_X509_SHA256_GUID, 0, 48);
   (EFI_CERT_X509_SHA384_GUID, 0, 64);
   (EFI_CERT_X509_SHA512_GUID, 0, 80)].

(** The inner [for]: the first supported type that matches, and its sizes. *)
Fixpoint check_sig_item (items : list (EFI_GUID * Z * Z)) (sig_type : EFI_GUID)
    (header_size signature_size : Z) : EFI_STATUS :=
  match items with
  | [] => EFI_INVALID_PARAMETER
  | (SigType, SigHeaderSize, SigDataSize) :: items' =>
      if compare_guid sig_type SigType then
        if negb (SigDataSize =? ANY_SIZE)
           && negb (u64 (signature_size - sizeof_EFI_GUID) =? SigDataSize)
        then EFI_INVALID_PARAMETER
        else if negb (SigHeaderSize =? ANY_SIZE) && negb (header_size =? SigHeaderSize)
        then EFI_INVALID_PARAMETER
        else EFI_SUCCESS
      else check_sig_item items' sig_type header_size signature_size
  end.

Section check.
Context `{OpenSSL}.

(** The certificate, when the construction succeeds. *)
Definition x509_construct_certificate (cert : option bytes) (off cert_size : Z) :
    outcome (option X509) :=
  match cert with
  | None => Ok None
  | Some c =>
      if cert_size >? INT_MAX then Ok None
      else let* der := read_bytes c off cert_size in Ok (d2i_X509 der)
  end.

Definition rsa_get_pub_key_from_x509 (cert : option bytes) (off cert_size : Z) : outcome bool :=
  match cert with
  | None => Ok false
  | Some _ =>
      let* x509_cert := x509_construct_certificate cert off cert_size in
      match x509_cert with
      | None => Ok false
      | Some x => Ok (X509_has_rsa_pubkey x)
      end
  end.

(** The loop over the lists.  [inl] is an early return; [inr] the offset of
    [SigList] and [SigCount] at the loop's end. *)
Fixpoint check_lists_loop (fuel : nat) (data : bytes) (SigList sig_data_size SigCount : Z) :
    outcome (EFI_STATUS + Z * Z) :=
  if sig_data_size >? 0 then
    let* list_size := sl_SignatureListSize data SigList in
    if sig_data_size >=? list_size then
      match fuel with
      | O => Fault OutOfFuel
      | S fuel' =>
          let* sig_type := sl_SignatureType data SigList in
          let* header_size := sl_SignatureHeaderSize data SigList in
          let* signature_size := sl_SignatureSize data SigList in
          if negb (check_sig_item supported_sigs sig_type header_size signature_size
                   =? EFI_SUCCESS)
          then Ok (inl EFI_INVALID_PARAMETER)
          else
          let* valid :=
            if compare_guid sig_type gEfiCertX509Guid then
              rsa_get_pub_key_from_x509 (Some data)
                (SigList + sizeof_EFI_SIGNATURE_LIST + header_size + 16)
                (u64 (signature_size - sizeof_EFI_GUID))
            else Ok true in
          if negb valid then Ok (inl EFI_INVALID_PARAMETER)
          else
          let* rest := umod (sigs_size list_size header_size) signature_size in
          if negb (rest =? 0) then Ok (inl EFI_INVALID_PARAMETER)
          else
          let* count := udiv (sigs_size list_size header_size) signature_size in
          check_lists_loop fuel' data (SigList + list_size) (sig_data_size - list_size)
            (u32 (SigCount + count))
      end
    else Ok (inr (SigList, SigCount))
  else Ok (inr (SigList, SigCount)).

(** [data] points to offset [off] of its block; [name], [guid] and [data] are
    not null. *)
Definition check_signature_list_format (name : bytes) (guid : EFI_GUID) (data : bytes) (off : Z)
    (data_size : Z) : outcome EFI_STATUS :=
  if data_size =? 0 then Ok EFI_SUCCESS
  else
  let named str := let* c := strcmp16 (Some name) (Some str) in Ok (c =? 0) in
  let* pk := if compare_guid guid gEfiGlobalVariableGuid then named EFI_PLATFORM_KEY_NAME
             else Ok false in
  let* listed :=
    if pk then Ok true
    else
      or_else (if compare_guid guid gEfiGlobalVariableGuid then named EFI_KEY_EXCHANGE_KEY_NAME
               else Ok false)
              (if compare_guid guid gEfiImageSecurityDatabaseGuid then
                 or_else (named EFI_IMAGE_SECURITY_DATABASE)
                (or_else (named EFI_IMAGE_SECURITY_DATABASE1)
                         (named EFI_IMAGE_SECURITY_DATABASE2))
               else Ok false) in
  if negb listed then Ok EFI_SUCCESS
  else
  let* out := check_lists_loop (S (Z.to_nat data_size)) data off data_size 0 in
  match out with
  | inl status => Ok status
  | inr (SigList, SigCount) =>
      if negb (u64 (SigList - off) =? data_size) then Ok EFI_INVALID_PARAMETER
      else if pk && (SigCount >? 1) then Ok EFI_INVALID_PARAMETER
      else Ok EFI_SUCCESS
  end.

End check.

(** ** [find_certs_from_db] *)
Record cert_location : Type := mk_location {
  cert_offset : Z; cert_data_size : Z; cert_node_offset : Z; cert_node_size : Z
}.

(** The loop from [offset] on. *)
Fixpoint find_certs_loop (fuel : nat) (name : bytes) (guid : EFI_GUID) (data : bytes)
    (data_size : Z) (offset : Z) : outcome (EFI_STATUS * option cert_location) :=
  if offset <? u32 data_size then
    match fuel with
    | O => Fault OutOfFuel
    | S fuel' =>
        let* vendor := read_bytes data offset 16 in
        if compare_guid vendor guid then
          let* node_size := read_le 4 data (offset + 16) in
          let* name_size := read_le 4 data (offset + 20) in
          let* cert_size := read_le 4 data (offset + 24) in
          if negb (node_size =? u64 (16 + 4 * 3 + cert_size + 2 * name_size))
          then Ok (EFI_INVALID_PARAMETER, None)
          else
          let offset' := u32 (offset + 16 + 4 * 3) in
          let* len := strlen16 (Some name) in
          let* same := if name_size =? len then memcmp_eq data offset' name 0 (name_size * 2)
                       else Ok false in
          if same then
            Ok (EFI_SUCCESS,
                Some (mk_location (u32 (offset' + name_size * 2)) cert_size offset node_size))
          else find_certs_loop fuel' name guid data data_size
                 (u32 (offset' + name_size * 2 + cert_size))
        else
          let* node_size := read_le 4 data (offset + 16) in
          find_certs_loop fuel' name guid data data_size (u32 (offset + node_size))
    end
  else Ok (EFI_NOT_FOUND, None).

(** The status and the four output parameters (all of them given). *)
Definition find_certs_from_db (name : option bytes) (guid : option EFI_GUID)
    (data : option bytes) (data_size : Z) : outcome (EFI_STATUS * option cert_location) :=
  match name, guid, data with
  | Some n, Some g, Some d =>
      if data_size <? 4 then Ok (EFI_INVALID_PARAMETER, None)
      else
      let* cert_db_list_size := read_le 4 d 0 in
      if negb (cert_db_list_size =? u32 data_size) then Ok (EFI_INVALID_PARAMETER, None)
      else find_certs_loop (S (Z.to_nat (u32 data_size))) n g d data_size 4
  | _, _, _ => Ok (EFI_INVALID_PARAMETER, None)
  end.

Arguments FilterSignatureList : simpl never.
Arguments check_signature_list_format : simpl never.
Arguments cert_equals_esl : simpl never.
