(* ===== verification/Layout.v ===== *)
(** * Layout of the structures

    The structures the headers declare, laid out as the C ABI of the platform
    does (x86-64: scalars are aligned to their size, a structure to its most
    aligned field unless it is packed), and the agreement of the constants and
    readers of the other files with these declarations. *)
From Stdlib Require Import Strings.String.
From stdpp Require Import sorting.
From S2P Require Import Prelude EfiTypes UefiVariable Crypto SigList.
#[local] Open Scope string_scope.

(** ** Types and their layout *)
#[warnings="-register-all"]
Inductive ctype : Type :=
  | Scalar (size : Z)
  | Array (elem : ctype) (n : Z)
  | Struct (packed : bool) (fields : list (string * ctype)).

Fixpoint alignof (t : ctype) : Z :=
  match t with
  | Scalar size => size
  | Array elem _ => alignof elem
  | Struct packed fields =>
      if packed then 1
      else (fix go fs := match fs with [] => 1 | (_, f) :: fs => Z.max (alignof f) (go fs) end)
             fields
  end.

Definition round_up (x a : Z) : Z := (x + a - 1) / a * a.

Fixpoint sizeof (t : ctype) : Z :=
  match t with
  | Scalar size => size
  | Array elem n => sizeof elem * n
  | Struct packed fields =>
      round_up
        ((fix go off fs :=
            match fs with
            | [] => off
            | (_, f) :: fs => go (round_up off (if packed then 1 else alignof f) + sizeof f) fs
            end) 0 fields)
        (alignof (Struct packed fields))
  end.

(** The fields with their offsets and sizes, from [off] on. *)
Fixpoint placed (packed : bool) (off : Z) (fields : list (string * ctype)) : list (string * Z * Z) :=
  match fields with
  | [] => []
  | (name, f) :: fields =>
      let at_ := round_up off (if packed then 1 else alignof f) in
      (name, at_, sizeof f) :: placed packed (at_ + sizeof f) fields
  end.

Definition fields_of (t : ctype) : list (string * Z * Z) :=
  match t with Struct packed fields => placed packed 0 fields | _ => [] end.

(** [OFFSET_OF (t, field)] *)
Definition OFFSET_OF (t : ctype) (field : string) : option Z :=
  (fun '(_, (_, off, _)) => off) <$> list_find (fun e => e.1.1 = field) (fields_of t).

(** ** The declarations *)
Definition uint8_t : ctype := Scalar 1.
Definition uint16_t : ctype := Scalar 2.
Definition uint32_t : ctype := Scalar 4.
Definition uint64_t : ctype := Scalar 8.
Definition pointer : ctype := Scalar 8.

Definition s_EFI_TIME : ctype :=
  Struct false [("Year", uint16_t); ("Month", uint8_t); ("Day", uint8_t); ("Hour", uint8_t);
    ("Minute", uint8_t); ("Second", uint8_t); ("Pad1", uint8_t); ("Nanosecond", uint32_t);
    ("TimeZone", uint16_t); ("Daylight", uint8_t); ("Pad2", uint8_t)].
Definition s_EFI_GUID : ctype :=
  Struct false [("Data1", uint32_t); ("Data2", uint16_t); ("Data3", uint16_t);
    ("Data4", Array uint8_t 8)].

Definition s_WIN_CERTIFICATE : ctype :=
  Struct false [("dwLength", uint32_t); ("wRevision", uint16_t); ("wCertificateType", uint16_t)].
Definition s_EFI_CERT_BLOCK_RSA_2048_SHA256 : ctype :=
  Struct false [("HashType", s_EFI_GUID); ("PublicKey", Array uint8_t 256);
    ("Signature", Array uint8_t 256)].
Definition s_WIN_CERTIFICATE_UEFI_GUID : ctype :=
  Struct false [("Hdr", s_WIN_CERTIFICATE); ("CertType", s_EFI_GUID);
    ("CertData", Array uint8_t 1)].
Definition s_EFI_VARIABLE_AUTHENTICATION : ctype :=
  Struct false [("MonotonicCount", uint64_t); ("AuthInfo", s_WIN_CERTIFICATE_UEFI_GUID)].
Definition s_EFI_VARIABLE_AUTHENTICATION_2 : ctype :=
  Struct false [("TimeStamp", s_EFI_TIME); ("AuthInfo", s_WIN_CERTIFICATE_UEFI_GUID)].
Definition s_AUTH_VARIABLE_INFO : ctype :=
  Struct false [("VariableName", pointer); ("VendorGuid", pointer); ("Attributes", uint32_t);
    ("DataSize", uint64_t); ("Data", pointer); ("PubKeyIndex", uint32_t);
    ("MonotonicCount", uint64_t); ("TimeStamp", pointer)].
Definition s_AUTH_CERT_DB_DATA : ctype :=
  Struct true [("VendorGuid", s_EFI_GUID); ("CertNodeSize", uint32_t); ("NameSize", uint32_t);
    ("CertDataSize", uint32_t)].
Definition s_EFI_CERT_DATA : ctype :=
  Struct true [("CertDataLength", uint32_t); ("CertDataBuffer", Array uint8_t 0)].
Definition s_EFI_CERT_STACK : ctype := Struct true [("CertNumber", uint8_t)].
Definition s_EFI_SIGNATURE_ITEM : ctype :=
  Struct false [("SigType", s_EFI_GUID); ("SigHeaderSize", uint32_t); ("SigDataSize", uint32_t)].

(** [inc/uefi/image_authentication.h] *)
Definition s_EFI_SIGNATURE_DATA : ctype :=
  Struct true [("SignatureOwner", s_EFI_GUID); ("SignatureData", Array uint8_t 1)].
Definition s_EFI_SIGNATURE_LIST : ctype :=
  Struct true [("SignatureType", s_EFI_GUID); ("SignatureListSize", uint32_t);
    ("SignatureHeaderSize", uint32_t); ("SignatureSize", uint32_t)].
Definition s_EFI_CERT_X509_SHA256 : ctype :=
  Struct true [("ToBeSignedHash", Array uint8_t 32); ("TimeOfRevocation", s_EFI_TIME)].
Definition s_EFI_CERT_X509_SHA384 : ctype :=
  Struct true [("ToBeSignedHash", Array uint8_t 48); ("TimeOfRevocation", s_EFI_TIME)].
Definition s_EFI_CERT_X509_SHA512 : ctype :=
  Struct true [("ToBeSignedHash", Array uint8_t 64); ("TimeOfRevocation", s_EFI_TIME)].

(** [inc/uefi/hash.h] *)
Definition EFI_SHA1_HASH : ctype := Array uint8_t 20.
Definition EFI_SHA224_HASH : ctype := Array uint8_t 28.
Definition EFI_SHA256_HASH : ctype := Array uint8_t 32.
Definition EFI_SHA384_HASH : ctype := Array uint8_t 48.
Definition EFI_SHA512_HASH : ctype := Array uint8_t 64.

(** [struct variable_list_header] of [inc/serializer.h] and [struct variable]
    of [inc/variable.h] *)
Definition s_variable_list_header : ctype :=
  Struct false [("magic", uint32_t); ("version", uint32_t); ("variable_count", uint64_t);
    ("payload_size", uint64_t)].
Definition s_variable : ctype :=
  Struct false [("name", Array uint16_t MAX_VARIABLE_NAME_CHARS); ("namesz", uint64_t);
    ("data", pointer); ("datasz", uint64_t); ("guid", s_EFI_GUID); ("attrs", uint32_t);
    ("timestamp", s_EFI_TIME); ("cert", Array uint8_t SHA256_DIGEST_SIZE)].

(** ** Any structure

    The fields do not overlap, stand in their order at multiples of their
    alignment, and lie inside the structure. *)
Definition sized (t : ctype) : Prop := 0 <= sizeof t /\ 1 <= alignof t.
Definition before (a b : string * Z * Z) : Prop := a.1.2 + a.2 <= b.1.2.

Lemma round_up_spec x a : 1 <= a -> x <= round_up x a < x + a /\ (a | round_up x a).
Proof.
  intros Ha. unfold round_up. split; [|apply Z.divide_factor_r].
  pose proof (Z.div_mod (x + a - 1) a ltac:(lia)). pose proof (Z.mod_pos_bound (x + a - 1) a ltac:(lia)).
  nia.
Qed.

Lemma placed_bounds packed off fields :
  Forall (fun f => sized f.2) fields ->
  Forall (fun e => off <= e.1.2 /\ 0 <= e.2) (placed packed off fields).
Proof.
  intros Hf. revert off. induction Hf as [|[name f] fields [Hs Ha] _ IH]; intros off; [done|].
  cbn [placed snd] in *. set (a := if packed then 1 else alignof f).
  destruct (round_up_spec off a) as [[H1 _] _]; [unfold a; destruct packed; lia|].
  constructor; [done|]. eapply Forall_impl; [apply IH|]. cbn. intros e He. lia.
Qed.

Theorem fields_in_order packed off fields :
  Forall (fun f => sized f.2) fields ->
  StronglySorted before (placed packed off fields).
Proof.
  intros Hf. revert off. induction Hf as [|[name f] fields Hs Hf IH]; intros off; cbn [placed];
    constructor; [apply IH|].
  eapply Forall_impl; [by apply placed_bounds|]. by intros e [He _].
Qed.

Lemma sizeof_struct packed fields :
  sizeof (Struct packed fields)
  = round_up (match last (placed packed 0 fields) with Some e => e.1.2 + e.2 | None => 0 end)
      (alignof (Struct packed fields)).
Proof.
  cbn [sizeof]. f_equal.
  enough (Hgen : forall off,
    (fix go off fs := match fs with
     | [] => off
     | (_, f) :: fs => go (round_up off (if packed then 1 else alignof f) + sizeof f) fs
     end) off fields
    = match last (placed packed off fields) with Some e => e.1.2 + e.2 | None => off end)
    by apply Hgen.
  induction fields as [|[name f] fields IH]; intros off; [done|].
  cbn [placed]. rewrite IH. destruct fields as [|[name' f'] fields]; [done|]. cbn [placed].
  change (last (?a :: ?b :: ?c)) with (last (b :: c)).
  by destruct (last _) eqn:E; [|apply last_None in E].
Qed.

Theorem fields_inside fields packed e :
  Forall (fun f => sized f.2) fields -> 1 <= alignof (Struct packed fields) ->
  e ∈ fields_of (Struct packed fields) ->
  0 <= e.1.2 /\ e.1.2 + e.2 <= sizeof (Struct packed fields).
Proof.
  intros Hf Ha He. cbn [fields_of] in He. pose proof (placed_bounds packed 0 fields Hf) as Hb.
  split; [by apply (proj1 (Forall_forall _ _) Hb e He)|]. rewrite sizeof_struct.
  destruct (last (placed packed 0 fields)) as [z|] eqn:El; cycle 1.
  { apply last_None in El. rewrite El in He. by apply not_elem_of_nil in He. }
  apply last_Some in El as [es El]. pose proof (fields_in_order packed 0 fields Hf) as Hs.
  rewrite El in Hs, He, Hb. apply Forall_app in Hb as [_ [[_ Hz] _]%Forall_cons].
  destruct (round_up_spec (z.1.2 + z.2) _ Ha) as [[Hr _] _].
  apply elem_of_app in He as [He|He%list_elem_of_singleton]; [|subst; lia].
  pose proof (StronglySorted_app_1_elem_of _ _ _ e z Hs He ltac:(by apply list_elem_of_singleton)) as Hez.
  unfold before in Hez. lia.
Qed.

(** ** The structures of the program *)

(** A scalar field of a structure at [base]. *)
Definition field_type (t : ctype) (field : string) : option ctype :=
  match t with
  | Struct _ fields => snd ∘ snd <$> list_find (fun f => f.1 = field) fields
  | _ => None
  end.
Definition read_field (t : ctype) (field : string) (d : bytes) (base : Z) : outcome Z :=
  match OFFSET_OF t field, field_type t field with
  | Some off, Some f => read_le (Z.to_nat (sizeof f)) d (base + off)
  | _, _ => Fault OutOfBounds
  end.

(** The constants are those of the declarations. *)
Theorem constants_of_layout :
  sizeof s_EFI_GUID = sizeof_EFI_GUID /\ sizeof s_EFI_TIME = sizeof_EFI_TIME /\
  OFFSET_OF s_EFI_VARIABLE_AUTHENTICATION_2 "AuthInfo" = Some OFFSET_OF_AUTHINFO2 /\
  OFFSET_OF s_WIN_CERTIFICATE_UEFI_GUID "CertData" = Some OFFSET_OF_CERTDATA /\
  match OFFSET_OF s_EFI_VARIABLE_AUTHENTICATION "AuthInfo",
        OFFSET_OF s_WIN_CERTIFICATE_UEFI_GUID "CertData" with
  | Some info, Some cert => Some (info + cert + sizeof s_EFI_CERT_BLOCK_RSA_2048_SHA256)
  | _, _ => None
  end = Some AUTHINFO_SIZE /\
  sizeof s_EFI_SIGNATURE_LIST = sizeof_EFI_SIGNATURE_LIST /\
  sizeof s_EFI_SIGNATURE_DATA = sizeof_EFI_SIGNATURE_DATA.
Proof. by vm_compute. Qed.

(** The readers read the fields of the declarations. *)
Theorem readers_of_layout (d : bytes) (off : Z) :
  sl_SignatureListSize d off = read_field s_EFI_SIGNATURE_LIST "SignatureListSize" d off /\
  sl_SignatureHeaderSize d off = read_field s_EFI_SIGNATURE_LIST "SignatureHeaderSize" d off /\
  sl_SignatureSize d off = read_field s_EFI_SIGNATURE_LIST "SignatureSize" d off /\
  auth_dwLength d = read_field s_WIN_CERTIFICATE "dwLength" d OFFSET_OF_AUTHINFO2 /\
  auth_wCertificateType d = read_field s_WIN_CERTIFICATE "wCertificateType" d OFFSET_OF_AUTHINFO2 /\
  read_time d off =
    (let* y := read_field s_EFI_TIME "Year" d off in
     let* mo := read_field s_EFI_TIME "Month" d off in
     let* da := read_field s_EFI_TIME "Day" d off in
     let* h := read_field s_EFI_TIME "Hour" d off in
     let* mi := read_field s_EFI_TIME "Minute" d off in
     let* s := read_field s_EFI_TIME "Second" d off in
     let* p1 := read_field s_EFI_TIME "Pad1" d off in
     let* n := read_field s_EFI_TIME "Nanosecond" d off in
     let* tz := read_field s_EFI_TIME "TimeZone" d off in
     let* dl := read_field s_EFI_TIME "Daylight" d off in
     let* p2 := read_field s_EFI_TIME "Pad2" d off in
     Ok (mk_time y mo da h mi s p1 n tz dl p2)).
Proof.
  unfold read_field, read_time. 
  repeat match goal with |- context [OFFSET_OF ?t ?f] =>
    let r := eval vm_compute in (OFFSET_OF t f) in change (OFFSET_OF t f) with r end.
  repeat match goal with |- context [field_type ?t ?f] =>
    let r := eval vm_compute in (field_type t f) in change (field_type t f) with r end.
  cbn [sizeof]. rewrite !Z.add_0_r. done.
Qed.

(** The sizes of the table of [check_signature_list_format] are those of the
    hashes, and for the hashes of certificates those of the structures. *)
Theorem table_of_layout :
  (fun '(t, d) => (t, sizeof d)) <$>
    [(EFI_CERT_SHA1_GUID, EFI_SHA1_HASH); (EFI_CERT_SHA224_GUID, EFI_SHA224_HASH);
     (EFI_CERT_SHA256_GUID, EFI_SHA256_HASH); (EFI_CERT_SHA384_GUID, EFI_SHA384_HASH);
     (EFI_CERT_SHA512_GUID, EFI_SHA512_HASH); (EFI_CERT_X509_SHA256_GUID, s_EFI_CERT_X509_SHA256);
     (EFI_CERT_X509_SHA384_GUID, s_EFI_CERT_X509_SHA384);
     (EFI_CERT_X509_SHA512_GUID, s_EFI_CERT_X509_SHA512)]
  ⊆ (fun '(t, _, d) => (t, d)) <$> supported_sigs.
Proof. by apply (bool_decide_unpack _); vm_compute. Qed.
