(* ===== verification/Headers.v ===== *)
(** * The rest of the headers

    Constants, GUIDs, variable names and combinations of attributes that
    [inc/] declares beside those the other files use, and the inline functions of
    [inc/uefi/utils.h].  Most of them come with the headers of the UEFI reference
    implementation and the program does not use them; what is shown is that they fit
    together and with the ones it does use. *)
From Stdlib Require Import Strings.String Strings.Ascii.
From S2P Require Import Prelude EfiTypes Common Names UefiVariable Storage.
From S2P Require Import Crypto SigList Layout.

(** ** Wide string literals

    [L"..."], written with the characters themselves. *)
Definition codes (s : string) : list Z := Z.of_nat <$> (nat_of_ascii <$> list_ascii_of_string s).
Definition W (s : string) : bytes := L (codes s).

(** ** [inc/uefi/global_variable.h] *)
Definition EFI_LANG_CODES_VARIABLE_NAME : bytes := W "LangCodes".
Definition EFI_LANG_VARIABLE_NAME : bytes := W "Lang".
Definition EFI_TIME_OUT_VARIABLE_NAME : bytes := W "Timeout".
Definition EFI_PLATFORM_LANG_CODES_VARIABLE_NAME : bytes := W "PlatformLangCodes".
Definition EFI_PLATFORM_LANG_VARIABLE_NAME : bytes := W "PlatformLang".
Definition EFI_CON_IN_VARIABLE_NAME : bytes := W "ConIn".
Definition EFI_CON_OUT_VARIABLE_NAME : bytes := W "ConOut".
Definition EFI_ERR_OUT_VARIABLE_NAME : bytes := W "ErrOut".
Definition EFI_CON_IN_DEV_VARIABLE_NAME : bytes := W "ConInDev".
Definition EFI_CON_OUT_DEV_VARIABLE_NAME : bytes := W "ConOutDev".
Definition EFI_ERR_OUT_DEV_VARIABLE_NAME : bytes := W "ErrOutDev".
Definition EFI_BOOT_ORDER_VARIABLE_NAME : bytes := W "BootOrder".
Definition EFI_BOOT_NEXT_VARIABLE_NAME : bytes := W "BootNext".
Definition EFI_BOOT_CURRENT_VARIABLE_NAME : bytes := W "BootCurrent".
Definition EFI_BOOT_OPTION_SUPPORT_VARIABLE_NAME : bytes := W "BootOptionSupport".
Definition EFI_DRIVER_ORDER_VARIABLE_NAME : bytes := W "DriverOrder".
Definition EFI_SYS_PREP_ORDER_VARIABLE_NAME : bytes := W "SysPrepOrder".
Definition EFI_HW_ERR_REC_SUPPORT_VARIABLE_NAME : bytes := W "HwErrRecSupport".
Definition EFI_KEK_DEFAULT_VARIABLE_NAME : bytes := W "KEKDefault".
Definition EFI_PK_DEFAULT_VARIABLE_NAME : bytes := W "PKDefault".
Definition EFI_DB_DEFAULT_VARIABLE_NAME : bytes := W "dbDefault".
Definition EFI_DBX_DEFAULT_VARIABLE_NAME : bytes := W "dbxDefault".
Definition EFI_DBT_DEFAULT_VARIABLE_NAME : bytes := W "dbtDefault".
Definition EFI_OS_INDICATIONS_SUPPORT_VARIABLE_NAME : bytes := W "OsIndicationsSupported".
Definition EFI_OS_INDICATIONS_VARIABLE_NAME : bytes := W "OsIndications".
Definition EFI_VENDOR_KEYS_VARIABLE_NAME : bytes := W "VendorKeys".

Definition global_variable_names : list bytes :=
  [EFI_LANG_CODES_VARIABLE_NAME; EFI_LANG_VARIABLE_NAME; EFI_TIME_OUT_VARIABLE_NAME;
   EFI_PLATFORM_LANG_CODES_VARIABLE_NAME; EFI_PLATFORM_LANG_VARIABLE_NAME;
   EFI_CON_IN_VARIABLE_NAME; EFI_CON_OUT_VARIABLE_NAME; EFI_ERR_OUT_VARIABLE_NAME;
   EFI_CON_IN_DEV_VARIABLE_NAME; EFI_CON_OUT_DEV_VARIABLE_NAME;
   EFI_ERR_OUT_DEV_VARIABLE_NAME; EFI_BOOT_ORDER_VARIABLE_NAME;
   EFI_BOOT_NEXT_VARIABLE_NAME; EFI_BOOT_CURRENT_VARIABLE_NAME;
   EFI_BOOT_OPTION_SUPPORT_VARIABLE_NAME; EFI_DRIVER_ORDER_VARIABLE_NAME;
   EFI_SYS_PREP_ORDER_VARIABLE_NAME; EFI_HW_ERR_REC_SUPPORT_VARIABLE_NAME;
   EFI_SETUP_MODE_NAME; EFI_KEY_EXCHANGE_KEY_NAME; EFI_PLATFORM_KEY_NAME;
   EFI_SIGNATURE_SUPPORT_NAME; EFI_SECURE_BOOT_MODE_NAME; EFI_KEK_DEFAULT_VARIABLE_NAME;
   EFI_PK_DEFAULT_VARIABLE_NAME; EFI_DB_DEFAULT_VARIABLE_NAME;
   EFI_DBX_DEFAULT_VARIABLE_NAME; EFI_DBT_DEFAULT_VARIABLE_NAME;
   EFI_OS_INDICATIONS_SUPPORT_VARIABLE_NAME; EFI_OS_INDICATIONS_VARIABLE_NAME;
   EFI_VENDOR_KEYS_VARIABLE_NAME].

(** ** [inc/uefi/auth_var_format.h], [inc/varnames.h], [inc/uefi/types.h] *)
Definition EFI_CUSTOM_MODE_NAME : bytes := W "CustomMode".
Definition EFI_VENDOR_KEYS_NV_VARIABLE_NAME : bytes := W "VendorKeysNv".
Definition EFI_CERT_DB_NAME : bytes := W "certdb".
Definition EFI_CERT_DB_VOLATILE_NAME : bytes := W "certdbv".
Definition EFI_SECURE_BOOT_ENABLE_DISABLE : EFI_GUID :=
  mk_guid 0xf0a30bc7 0xaf08 0x4556 [0x99; 0xc4; 0x0; 0x10; 0x9; 0xc9; 0x3a; 0x44].
Definition SECURE_BOOT_ENABLE : Z := 1.
Definition SECURE_BOOT_DISABLE : Z := 0.
Definition CUSTOM_SECURE_BOOT_MODE : Z := 1.
Definition STANDARD_SECURE_BOOT_MODE : Z := 0.
Definition VENDOR_KEYS_VALID : Z := 1.
Definition VENDOR_KEYS_MODIFIED : Z := 0.
Definition SECURE_BOOT_MODE_ENABLE : Z := 1.
Definition SECURE_BOOT_MODE_DISABLE : Z := 0.
Definition WIN_CERT_TYPE_EFI_PKCS115 : Z := 0x0EF0.
Definition MAX_2_BITS : Z := 0xC000000000000000.
Definition MAX_ADDRESS : Z := 0xFFFFFFFFFFFFFFFF.
Definition EFI_MAX_BIT : Z := 0x8000000000000000.
Definition EFIERR (a : Z) : Z := Z.lor EFI_MAX_BIT a.

(** Combinations of attributes. *)
Definition VARIABLE_ATTRIBUTE_NV_BS : Z :=
  Z.lor EFI_VARIABLE_NON_VOLATILE EFI_VARIABLE_BOOTSERVICE_ACCESS.
Definition VARIABLE_ATTRIBUTE_BS_RT : Z :=
  Z.lor EFI_VARIABLE_BOOTSERVICE_ACCESS EFI_VARIABLE_RUNTIME_ACCESS.
Definition VARIABLE_ATTRIBUTE_BS_RT_AT : Z :=
  Z.lor VARIABLE_ATTRIBUTE_BS_RT EFI_VARIABLE_TIME_BASED_AUTHENTICATED_WRITE_ACCESS.
Definition VARIABLE_ATTRIBUTE_NV_BS_RT : Z :=
  Z.lor VARIABLE_ATTRIBUTE_BS_RT EFI_VARIABLE_NON_VOLATILE.
Definition VARIABLE_ATTRIBUTE_NV_BS_RT_HR : Z :=
  Z.lor VARIABLE_ATTRIBUTE_NV_BS_RT EFI_VARIABLE_HARDWARE_ERROR_RECORD.
Definition VARIABLE_ATTRIBUTE_NV_BS_RT_AT : Z :=
  Z.lor VARIABLE_ATTRIBUTE_NV_BS_RT EFI_VARIABLE_TIME_BASED_AUTHENTICATED_WRITE_ACCESS.
Definition VARIABLE_ATTRIBUTE_AT : Z := EFI_VARIABLE_TIME_BASED_AUTHENTICATED_WRITE_ACCESS.
Definition VARIABLE_ATTRIBUTE_NV_BS_RT_HR_AT : Z :=
  Z.lor VARIABLE_ATTRIBUTE_NV_BS_RT_HR VARIABLE_ATTRIBUTE_AT.
Definition VARIABLE_ATTRIBUTE_AT_AW : Z :=
  Z.lor EFI_VARIABLE_TIME_BASED_AUTHENTICATED_WRITE_ACCESS EFI_VARIABLE_AUTHENTICATED_WRITE_ACCESS.
Definition VARIABLE_ATTRIBUTE_NV_BS_RT_AW : Z :=
  Z.lor VARIABLE_ATTRIBUTE_NV_BS_RT EFI_VARIABLE_AUTHENTICATED_WRITE_ACCESS.
Definition VARIABLE_ATTRIBUTE_NV_BS_RT_HR_AT_AW : Z :=
  Z.lor VARIABLE_ATTRIBUTE_NV_BS_RT_HR VARIABLE_ATTRIBUTE_AT_AW.

Definition attribute_masks : list Z :=
  [VARIABLE_ATTRIBUTE_NV_BS; VARIABLE_ATTRIBUTE_BS_RT; VARIABLE_ATTRIBUTE_BS_RT_AT;
   VARIABLE_ATTRIBUTE_NV_BS_RT; VARIABLE_ATTRIBUTE_NV_BS_RT_HR;
   VARIABLE_ATTRIBUTE_NV_BS_RT_AT; VARIABLE_ATTRIBUTE_AT;
   VARIABLE_ATTRIBUTE_NV_BS_RT_HR_AT; VARIABLE_ATTRIBUTE_AT_AW;
   VARIABLE_ATTRIBUTE_NV_BS_RT_AW; VARIABLE_ATTRIBUTE_NV_BS_RT_HR_AT_AW].

(** ** [inc/uefi/hash.h], [inc/uefi/image_authentication.h], [inc/uefi/guids.h] *)
Definition EFI_HASH_SERVICE_BINDING_PROTOCOL : EFI_GUID :=
  mk_guid 0x42881c98 0xa4f3 0x44b0 [0xa3; 0x9d; 0xdf; 0xa1; 0x86; 0x67; 0xd8; 0xcd].
Definition EFI_HASH_PROTOCOL_GUID : EFI_GUID :=
  mk_guid 0xc5184932 0xdba5 0x46db [0xa5; 0xba; 0xcc; 0x0b; 0xda; 0x9c; 0x14; 0x35].
Definition EFI_HASH_ALGORITHM_SHA1_GUID : EFI_GUID :=
  mk_guid 0x2ae9d80f 0x3fb2 0x4095 [0xb7; 0xb1; 0xe9; 0x31; 0x57; 0xb9; 0x46; 0xb6].
Definition EFI_HASH_ALGORITHM_SHA224_GUID : EFI_GUID :=
  mk_guid 0x8df01a06 0x9bd5 0x4bf7 [0xb0; 0x21; 0xdb; 0x4f; 0xd9; 0xcc; 0xf4; 0x5b].
Definition EFI_HASH_ALGORITHM_SHA256_GUID : EFI_GUID :=
  mk_guid 0x51aa59de 0xfdf2 0x4ea3 [0xbc; 0x63; 0x87; 0x5f; 0xb7; 0x84; 0x2e; 0xe9].
Definition EFI_HASH_ALGORITHM_SHA384_GUID : EFI_GUID :=
  mk_guid 0xefa96432 0xde33 0x4dd2 [0xae; 0xe6; 0x32; 0x8c; 0x33; 0xdf; 0x77; 0x7a].
Definition EFI_HASH_ALGORITHM_SHA512_GUID : EFI_GUID :=
  mk_guid 0xcaa4381e 0x750c 0x4770 [0xb8; 0x70; 0x7a; 0x23; 0xb4; 0xe4; 0x21; 0x30].
Definition EFI_HASH_ALGORTIHM_MD5_GUID : EFI_GUID :=
  mk_guid 0xaf7c79c 0x65b5 0x4319 [0xb0; 0xae; 0x44; 0xec; 0x48; 0x4e; 0x4a; 0xd7].
Definition EFI_GLOBAL_VARIABLE_GUID : EFI_GUID :=
  mk_guid 0x8BE4DF61 0x93CA 0x11D2 [0xAA; 0x0D; 0x00; 0xE0; 0x98; 0x03; 0x2B; 0x8C].
Definition EFI_IMAGE_SECURITY_DATABASE_GUID : EFI_GUID :=
  mk_guid 0xd719b2cb 0x3d3a 0x4596 [0xa3; 0xbc; 0xda; 0xd0; 0xe; 0x67; 0x65; 0x6f].
Definition EFI_CERT_TYPE_PKCS7_GUID : EFI_GUID :=
  mk_guid 0x4aafd29d 0x68df 0x49ee [0x8a; 0xa9; 0x34; 0x7d; 0x37; 0x56; 0x65; 0xa7].

Definition all_guids : list EFI_GUID :=
  [gEfiGlobalVariableGuid; gShimLockGuid; gEfiCertDbGuid; gEfiVendorKeysNvGuid; gEfiFileInfoGuid;
   gEfiImageSecurityDatabaseGuid; gEfiSecureBootEnableDisableGuid; gEfiCustomModeEnableGuid;
   EFI_CERT_SHA256_GUID; EFI_CERT_RSA2048_GUID; EFI_CERT_RSA2048_SHA256_GUID; EFI_CERT_SHA1_GUID;
   EFI_CERT_RSA2048_SHA1_GUID; EFI_CERT_X509_GUID; EFI_CERT_SHA224_GUID; EFI_CERT_SHA384_GUID;
   EFI_CERT_SHA512_GUID; EFI_CERT_X509_SHA256_GUID; EFI_CERT_X509_SHA384_GUID;
   EFI_CERT_X509_SHA512_GUID; EFI_CERT_TYPE_PKCS7_GUID;
   EFI_HASH_SERVICE_BINDING_PROTOCOL; EFI_HASH_PROTOCOL_GUID; EFI_HASH_ALGORITHM_SHA1_GUID;
   EFI_HASH_ALGORITHM_SHA224_GUID; EFI_HASH_ALGORITHM_SHA256_GUID;
   EFI_HASH_ALGORITHM_SHA384_GUID; EFI_HASH_ALGORITHM_SHA512_GUID;
   EFI_HASH_ALGORTIHM_MD5_GUID].

Definition EFI_IMAGE_EXECUTION_AUTHENTICATION : Z := 0x7.
Definition EFI_IMAGE_EXECUTION_AUTH_UNTESTED : Z := 0x0.
Definition EFI_IMAGE_EXECUTION_AUTH_SIG_FAILED : Z := 0x1.
Definition EFI_IMAGE_EXECUTION_AUTH_SIG_PASSED : Z := 0x2.
Definition EFI_IMAGE_EXECUTION_AUTH_SIG_NOT_FOUND : Z := 0x3.
Definition EFI_IMAGE_EXECUTION_AUTH_SIG_FOUND : Z := 0x4.
Definition EFI_IMAGE_EXECUTION_POLICY_FAILED : Z := 0x5.
Definition EFI_IMAGE_EXECUTION_INITIALIZED : Z := 0x8.

(** The actions: each but [INITIALIZED], a flag, is within the mask
    [AUTHENTICATION]. *)
Definition image_actions : list Z :=
  [EFI_IMAGE_EXECUTION_AUTH_UNTESTED; EFI_IMAGE_EXECUTION_AUTH_SIG_FAILED;
   EFI_IMAGE_EXECUTION_AUTH_SIG_PASSED; EFI_IMAGE_EXECUTION_AUTH_SIG_NOT_FOUND;
   EFI_IMAGE_EXECUTION_AUTH_SIG_FOUND; EFI_IMAGE_EXECUTION_POLICY_FAILED].

Definition s_EFI_IMAGE_EXECUTION_INFO : ctype :=
  Struct false [("Action"%string, uint32_t); ("InfoSize"%string, uint32_t)].
Definition s_EFI_IMAGE_EXECUTION_INFO_TABLE : ctype :=
  Struct false [("NumberOfImages"%string, uint64_t)].
Definition EFI_MD5_HASH : ctype := Array uint8_t 16.

(** ** [inc/common.h], [inc/config.h], [inc/uefi/utils.h] *)
Definition PTR_DIFF (p1 p2 : Z) : Z := u64 (p1 - p2).
Definition BUFFER_REMAINING (start curr : Z) : Z := u64 (MAX_SHARED_OVMF_MEM - PTR_DIFF start curr).
Definition VAR_PADDING : Z := 48.
Definition UTF16_CHAR_SZ : Z := sizeof uint16_t.
Definition min (x y : Z) : Z := if x <? y then x else y.
Definition UEFISTORED_ERROR : Z := 1.
Definition VAR_NOT_FOUND : Z := -10.
Definition MB (x : Z) : Z := KB x * 1024.

Definition ReadUnaligned32 (src : bytes) (off : Z) : outcome Z :=
  let* val := memcpy (replicate 4 x00) 0 src off 4 in
  Ok (le_decode val).

(** "Always True for OVMF" *)
Definition UserPhysicalPresent : bool := true.

(** ** Names *)
Definition ascii_name (s : string) : Prop := Forall (fun c => c <> "000"%char) (list_ascii_of_string s).

Lemma codes_ok s : ascii_name s -> Forall char16_ok (codes s).
Proof.
  unfold codes, ascii_name. intros H. rewrite !Forall_fmap.
  eapply Forall_impl; [exact H|]. intros c Hc. cbn in Hc |- *.
  pose proof (nat_ascii_bounded c). unfold char16_ok. split; [|lia].
  destruct (decide (nat_of_ascii c = 0%nat)) as [E|]; [|lia].
  destruct Hc. rewrite <- (ascii_nat_embedding c), E. done.
Qed.

Lemma codes_inj s t : codes s = codes t -> s = t.
Proof.
  unfold codes. intros H%list_fmap_eq_inj; [|exact Nat2Z.inj].
  apply list_fmap_eq_inj in H.
  - by rewrite <- (string_of_list_ascii_of_string s), H, string_of_list_ascii_of_string.
  - intros c d E. by rewrite <- (ascii_nat_embedding c), E, ascii_nat_embedding.
Qed.

(** [strcmp16] tells the literals apart, and [sizeof_wchar] is the size that
    [strsize16] computes.  An object is smaller than the address space. *)
Section literals.
#[local] Set Default Proof Using "Type*".
Context (s t : string).
Hypothesis (Hs : ascii_name s) (Ls : zlen (W s) < 0x10000000000000000).
Hypothesis (Ht : ascii_name t) (Lt : zlen (W t) < 0x10000000000000000).

Theorem literals_compared :
  exists r, strcmp16 (Some (W s)) (Some (W t)) = Ok r /\ (r = 0 <-> s = t).
Proof.
  destruct (strcmp16_cstr (W s) (W t) (codes s) (codes t)) as (r & Hr & E);
    [by apply cstr16_L, codes_ok|by apply cstr16_L, codes_ok|done..|].
  exists r. split; [done|]. rewrite E. split; [apply codes_inj|by intros ->].
Qed.

Theorem literal_size : strsize16 (Some (W s)) = Ok (sizeof_wchar (W s)).
Proof using Hs Ls.
  rewrite (strsize16_cstr _ (codes s)) by (try apply cstr16_L, codes_ok; done).
  unfold sizeof_wchar, W, L. rewrite zlen_app, zlen_le_encode, zlen_wchars. f_equal. lia.
Qed.

End literals.

(** The names of the headers differ from each other, and fit the name of a
    variable. *)
Theorem names_distinct :
  NoDup global_variable_names /\
  Forall (fun n => sizeof_wchar n <= MAX_VARIABLE_NAME_SIZE) global_variable_names.
Proof. split; apply (bool_decide_unpack _); by vm_compute. Qed.

(** What two headers declare is the same. *)
Theorem headers_agree :
  EFI_CUSTOM_MODE_NAME = VarNames.CUSTOM_MODE_NAME /\
  EFI_VENDOR_KEYS_NV_VARIABLE_NAME = VarNames.VENDOR_KEYS_NV_NAME /\
  EFI_VENDOR_KEYS_VARIABLE_NAME = VarNames.VENDOR_KEYS_NAME /\
  EFI_CERT_DB_NAME = VarNames.CERT_DB_NAME /\
  EFI_CERT_DB_VOLATILE_NAME = VarNames.CERT_DBV_NAME /\
  EFI_SECURE_BOOT_ENABLE_DISABLE = gEfiSecureBootEnableDisableGuid /\
  EFI_GLOBAL_VARIABLE_GUID = gEfiGlobalVariableGuid /\
  EFI_IMAGE_SECURITY_DATABASE_GUID = gEfiImageSecurityDatabaseGuid /\
  EFI_CERT_TYPE_PKCS7_GUID = gEfiCertPkcs7Guid /\ EFI_CERT_X509_GUID = gEfiCertX509Guid.
Proof. by vm_compute. Qed.

(** ** GUIDs, codes and masks *)
Theorem guids_distinct : NoDup all_guids /\ Forall (fun g => zlen g = sizeof s_EFI_GUID) all_guids.
Proof. split; apply (bool_decide_unpack _); by vm_compute. Qed.

(** The masks have bits of the low six only: none covers [APPEND_WRITE]. *)
Theorem masks_without_append :
  NoDup attribute_masks /\
  Forall (fun m => Z.land m EFI_VARIABLE_APPEND_WRITE = 0 /\ Z.land m 0x3f = m) attribute_masks /\
  VARIABLE_ATTRIBUTE_BS_RT = RT_BS_ATTRS.
Proof. split_and!; [apply (bool_decide_unpack _); by vm_compute..|done]. Qed.

Theorem actions_masked :
  NoDup image_actions /\
  Forall (fun a => Z.land a EFI_IMAGE_EXECUTION_AUTHENTICATION = a) image_actions /\
  Z.land EFI_IMAGE_EXECUTION_INITIALIZED EFI_IMAGE_EXECUTION_AUTHENTICATION = 0.
Proof. split_and!; [apply (bool_decide_unpack _); by vm_compute..|done]. Qed.

Theorem error_encodings a : EFIERR a = ENCODE_ERROR a.
Proof. done. Qed.

(** ** Arithmetic of [inc/common.h] *)

(** The macro subtracts its pointers the wrong way round: what it calls the
    remaining size grows as the pointer moves, and is right with its arguments
    exchanged. *)
Theorem buffer_remaining_grows start n :
  0 <= n <= MAX_SHARED_OVMF_MEM ->
  BUFFER_REMAINING start (start + n) = MAX_SHARED_OVMF_MEM + n /\
  BUFFER_REMAINING (start + n) start = MAX_SHARED_OVMF_MEM - n.
Proof.
  change MAX_SHARED_OVMF_MEM with 65536. intros Hn. unfold BUFFER_REMAINING, PTR_DIFF, u64.
  change MAX_SHARED_OVMF_MEM with 65536.
  rewrite !Zminus_mod_idemp_r.
  replace (65536 - (start - (start + n))) with (65536 + n) by lia.
  replace (65536 - (start + n - start)) with (65536 - n) by lia.
  by rewrite !Z.mod_small by lia.
Qed.

(** The copy that [ReadUnaligned32] makes is the integer at that place. *)
Theorem unaligned_read src off : ReadUnaligned32 src off = read_le 4 src off.
Proof.
  unfold ReadUnaligned32, memcpy, read_le. cbn [Z.of_nat].
  destruct (read_bytes src off _) as [b|f] eqn:E; [|done]. cbn [obind].
  apply read_bytes_inv in E as (_ & _ & _ & _ & Hb). rewrite write_bytes_full; [done|].
  by rewrite Hb.
Qed.

Theorem storage_in_megabytes : MAX_STORAGE_SIZE = MB 1024 /\ UTF16_CHAR_SZ = 2.
Proof. done. Qed.
