(* ===== verification/Auth.v ===== *)
(** * Authenticated variables

    [src/uefi/auth.c]: the verification of time-based authenticated updates and
    the processing of PK, KEK, db/dbx/dbt and private variables.

    The state holds the variable store, the globals the functions read or
    write, and the data object of the [SetVariable] call in progress, which
    [FilterSignatureList] edits in place; pointers to the authentication
    descriptor and to the payload are offset 0 and an offset of that object. *)
From S2P Require Import Prelude EfiTypes Common UefiVariable Storage Crypto SigList.

(** ** State *)
Record auth_state : Type := mk_auth {
  au_store : storage;
  setup_mode : Z;                (** [uint8_t setup_mode] *)
  secure_boot_enabled : bool;
  auth_enforce : bool;
  au_data : bytes                (** the object [data] points to *)
}.

Definition set_store (st : storage) (s : auth_state) : auth_state :=
  mk_auth st (setup_mode s) (secure_boot_enabled s) (auth_enforce s) (au_data s).
Definition set_setup_mode (m : Z) (s : auth_state) : auth_state :=
  mk_auth (au_store s) m (secure_boot_enabled s) (auth_enforce s) (au_data s).
Definition set_data (d : bytes) (s : auth_state) : auth_state :=
  mk_auth (au_store s) (setup_mode s) (secure_boot_enabled s) (auth_enforce s) d.

(** A call of the store, and a computation on the data object. *)
Definition on_store {A} (m : M storage A) : M auth_state A := mzoom au_store set_store m.
Definition with_data_object {A} (f : bytes -> outcome A) : M auth_state A :=
  s <- mget ;; mlift (f (au_data s)).

(** [auth_var_t] *)
Inductive auth_var_t : Type :=
  | AUTH_VAR_TYPE_PK
  | AUTH_VAR_TYPE_KEK
  | AUTH_VAR_TYPE_PRIV
  | AUTH_VAR_TYPE_PAYLOAD.

Definition sha256_oid : bytes := [x60; x86; x48; x01; x65; x03; x04; x02; x01].

(** ** Time stamps *)
Definition auth_internal_compare_timestamp (first second : EFI_TIME) : bool :=
  if negb (Year first =? Year second) then Year first <? Year second
  else if negb (Month first =? Month second) then Month first <? Month second
  else if negb (Day first =? Day second) then Day first <? Day second
  else if negb (Hour first =? Hour second) then Hour first <? Hour second
  else if negb (Minute first =? Minute second) then Minute first <? Minute second
  else Second first <=? Second second.

Definition NeedPhysicallyPresent (name : bytes) (guid : EFI_GUID) : outcome bool :=
  if compare_guid guid gEfiSecureBootEnableDisableGuid then
    let* c := strcmp16 (Some name) (Some EFI_SECURE_BOOT_ENABLE_NAME) in Ok (c =? 0)
  else Ok false.

(** [is_var (var, str)] *)
Definition is_var (var : variable_t) (str : bytes) : outcome bool :=
  if var_namesz var =? sizeof_wchar str
  then memcmp_eq (var_name var) 0 str 0 (var_namesz var)
  else Ok false.

(** Variables whose value is a signature list that appends are filtered for. *)
Definition is_signature_list_var (var : variable_t) : outcome bool :=
  or_else
    (if compare_guid (var_guid var) gEfiImageSecurityDatabaseGuid then
       or_else (is_var var EFI_IMAGE_SECURITY_DATABASE)
      (or_else (is_var var EFI_IMAGE_SECURITY_DATABASE1)
               (is_var var EFI_IMAGE_SECURITY_DATABASE2))
     else Ok false)
    (if compare_guid (var_guid var) gEfiGlobalVariableGuid
     then is_var var EFI_KEY_EXCHANGE_KEY_NAME else Ok false).

Section auth.
Context `{Allocator} `{OpenSSL}.

(** ** Digest of the signer *)

(** The status, the block and [*tbs_len]. *)
Definition X509_get_tbs_cert (cert : option X509) : outcome (EFI_STATUS * option bytes) :=
  match X509_to_buf cert with
  | None => Ok (EFI_DEVICE_ERROR, None)
  | Some (buf, len) =>
      let '(hdr1, tmp_len, tag1) := ASN1_get_object buf len in
      if negb (tag1 =? V_ASN1_SEQUENCE) then Ok (EFI_SECURITY_VIOLATION, None)
      else
      let '(hdr2, tmp_len, tag2) := ASN1_get_object (drop (Z.to_nat hdr1) buf) tmp_len in
      if negb (tag2 =? V_ASN1_SEQUENCE) then Ok (EFI_SECURITY_VIOLATION, None)
      else
      let tbs_len := u64 (tmp_len + hdr2) in
      match malloc tbs_len with
      | None => Ok (EFI_DEVICE_ERROR, None)
      | Some block =>
          let* tbs := memcpy block 0 buf hdr1 tbs_len in
          Ok (EFI_SUCCESS, Some tbs)
      end
  end.

(** The status and the digest. *)
Definition sha256_priv_sig (certs : list X509) (top_level_cert : option X509) :
    outcome (EFI_STATUS * option bytes) :=
  match certs with
  | [] => Fault NullDeref
  | signer :: _ =>
      if negb (X509_has_subject_name signer) then Ok (EFI_SECURITY_VIOLATION, None)
      else
      match X509_common_name signer 128 with
      | None => Ok (EFI_SECURITY_VIOLATION, None)
      | Some text =>
          let* (status, tbs_cert) := X509_get_tbs_cert top_level_cert in
          match tbs_cert with
          | None => Ok (status, None)
          | Some tbs =>
              let* n := strlen (text ++ [x00]) in
              match SHA256 (take (Z.to_nat n) text ++ tbs) with
              | None => Ok (EFI_DEVICE_ERROR, None)
              | Some digest => Ok (EFI_SUCCESS, Some digest)
              end
          end
      end
  end.

(** The signers of the descriptor's SignedData, the last of them and the digest:
    the steps [sha256_from_auth] and [verify_priv] share. *)
Definition signers_digest (pkcs7 : PKCS7) : outcome (option (X509 * bytes)) :=
  match pkcs7_get_signers (Some pkcs7) with
  | (_, None) => Ok None
  | (_, Some signer_certs) =>
      match last_cert signer_certs with
      | None => Ok None
      | Some top_cert =>
          let* (_, digest) := sha256_priv_sig signer_certs (Some top_cert) in
          Ok (match digest with Some d => Some (top_cert, d) | None => None end)
      end
  end.

Definition sha256_from_auth (efi_auth : bytes) : outcome (EFI_STATUS * option bytes) :=
  let* pkcs7 := pkcs7_from_auth (Some efi_auth) in
  match pkcs7 with
  | None => Ok (EFI_SECURITY_VIOLATION, None)
  | Some p =>
      let* r := signers_digest p in
      match r with
      | None => Ok (EFI_SECURITY_VIOLATION, None)
      | Some (_, digest) => Ok (EFI_SUCCESS, Some digest)
      end
  end.

(** ** The store *)

(** The status, [*data] and [*data_size]. *)
Definition auth_internal_find_variable (name : bytes) (namesz : Z) (guid : EFI_GUID) :
    M auth_state (EFI_STATUS * option (option bytes * Z)) :=
  '(status, var) <- on_store (storage_get_var_ptr (Some name) namesz (Some guid)) ;;
  match var with
  | Some i =>
      s <- mget ;;
      v <- mlift (slot_at (au_store s) i) ;;
      ret (status, Some (var_data v, var_datasz v))
  | None => ret (status, None)
  end.

(** [FilterSignatureList]'s status is not looked at. *)
Definition auth_internal_update_variable_with_timestamp (name : bytes) (namesz : Z)
    (guid : EFI_GUID) (off data_size attrs : Z) : M auth_state EFI_STATUS :=
  '(_, var) <- on_store (storage_get_var_ptr (Some name) namesz (Some guid)) ;;
  s <- mget ;;
  let set data_size :=
    s <- mget ;;
    timestamp <- mlift (auth_TimeStamp (au_data s)) ;;
    on_store (storage_set_with_timestamp (Some name) namesz (Some guid)
                (Some (drop (Z.to_nat off) (au_data s))) data_size attrs (Some timestamp)) in
  match var with
  | Some i =>
      if has attrs EFI_VARIABLE_APPEND_WRITE then
        v <- mlift (slot_at (au_store s) i) ;;
        sig_list <- mlift (is_signature_list_var v) ;;
        if (sig_list : bool) then
          let old := match var_data v with Some block => block | None => [] end in
          '(_, data, data_size) <-
            mlift (FilterSignatureList old (var_datasz v) (au_data s) off data_size) ;;
          mmodify (set_data data) ;;
          if data_size =? 0 then ret EFI_SUCCESS else set data_size
        else set data_size
      else set data_size
  | None => set data_size
  end.

(** ** Platform mode *)
Definition update_platform_mode (mode : Z) : M auth_state EFI_STATUS :=
  let set name value :=
    on_store (storage_set (Some name) (sizeof_wchar name) (Some gEfiGlobalVariableGuid)
                (Some [byte_of_Z value]) 1 RT_BS_ATTRS) in
  mlift (oassert ((mode =? USER_MODE) || (mode =? SETUP_MODE))) ;;
  mmodify (set_setup_mode (u8 mode)) ;;
  s <- mget ;;
  let secure_boot := if mode =? USER_MODE then Z.b2z (secure_boot_enabled s) else 0 in
  status <- set EFI_SECURE_BOOT_MODE_NAME secure_boot ;;
  if negb (status =? EFI_SUCCESS) then ret status
  else
  status <- set EFI_SETUP_MODE_NAME (setup_mode s) ;;
  if negb (status =? EFI_SUCCESS) then ret status
  else
  set DEPLOYED_MODE_NAME (if mode =? SETUP_MODE then 1 else 0).

(** ** Verification of the signature *)

(** Against the certificate in the payload. *)
Definition verify_payload (off : Z) (new_data : bytes) (new_data_size : Z) :
    M auth_state bool :=
  with_data_object (fun efi_auth =>
    let* header_size := sl_SignatureHeaderSize efi_auth off in
    let* signature_size := sl_SignatureSize efi_auth off in
    let* trusted_cert :=
      X509_from_buf efi_auth (off + sizeof_EFI_SIGNATURE_LIST + header_size + 16)
        (u64 (signature_size - (sizeof_EFI_SIGNATURE_DATA - 1))) in
    match trusted_cert with
    | None => Ok false
    | Some _ =>
        let* pkcs7 := pkcs7_from_auth (Some efi_auth) in
        match pkcs7 with
        | None => Ok false
        | Some _ => pkcs7_verify pkcs7 trusted_cert (Some new_data) new_data_size
        end
    end).

(** Against the signer itself, which must be the one of the stored variable. *)
Definition verify_priv (name : bytes) (namesz : Z) (guid : EFI_GUID) (new_data : bytes)
    (new_data_size : Z) : M auth_state bool :=
  pkcs7 <- with_data_object (fun efi_auth => pkcs7_from_auth (Some efi_auth)) ;;
  match pkcs7 with
  | None => ret false
  | Some p =>
      r <- mlift (signers_digest p) ;;
      match r with
      | None => ret false
      | Some (top_cert, digest) =>
          '(_, var) <- on_store (storage_get_var_ptr (Some name) namesz (Some guid)) ;;
          s <- mget ;;
          same <-
            match var with
            | Some i =>
                if auth_enforce s then
                  v <- mlift (slot_at (au_store s) i) ;;
                  mlift (memcmp_eq digest 0 (var_cert v) 0 SHA256_DIGEST_SIZE)
                else ret true
            | None => ret true
            end ;;
          if negb same then ret false
          else mlift (pkcs7_verify (Some p) (Some top_cert) (Some new_data) new_data_size)
      end
  end.

(** Against the platform key. *)
Definition verify_pk (new_data : bytes) (new_data_size : Z) : M auth_state bool :=
  pkcs7 <- with_data_object (fun efi_auth => pkcs7_from_auth (Some efi_auth)) ;;
  match pkcs7 with
  | None => ret false
  | Some _ =>
      let '(top_cert_der, _) := pkcs7_get_top_cert_der pkcs7 in
      match top_cert_der with
      | None => ret false
      | Some (der, der_size) =>
          '(_, found) <- auth_internal_find_variable EFI_PLATFORM_KEY_NAME
                           (sizeof_wchar EFI_PLATFORM_KEY_NAME) gEfiGlobalVariableGuid ;;
          match found with
          | Some (Some old_esl, _) =>
              same <- mlift (cert_equals_esl der (u32 der_size) old_esl) ;;
              if negb same then ret false
              else
              let '(top_cert, _) := pkcs7_get_top_cert pkcs7 in
              mlift (pkcs7_verify pkcs7 top_cert (Some new_data) new_data_size)
          | _ => ret false
          end
      end
  end.

(** The certificate of the signature at [sig], which has [sig_size] bytes. *)
Definition X509_from_sig_data (obj : bytes) (sig sig_size : Z) : outcome (option X509) :=
  X509_from_buf obj (sig + 16) (u64 (sig_size - (sizeof_EFI_SIGNATURE_DATA - 1))).

(** Against the certificates of the key exchange keys: the loop over the
    signatures of one list from [cert] on (a certificate that does not parse
    leaves [cert] where it is)...  The loop runs [cert_count] times at most, and
    that is its fuel. *)
Fixpoint verify_kek_certs (fuel : nat) (pkcs7 : PKCS7) (kek : bytes) (signature_size : Z)
    (new_data : bytes) (new_data_size : Z) (cert i cert_count : Z) : outcome bool :=
  if i <? cert_count then
    match fuel with
    | O => Fault OutOfFuel
    | S fuel' =>
        let* trusted_cert := X509_from_sig_data kek cert signature_size in
        match trusted_cert with
        | None => verify_kek_certs fuel' pkcs7 kek signature_size new_data new_data_size
                    cert (i + 1) cert_count
        | Some _ =>
            let* verified := pkcs7_verify (Some pkcs7) trusted_cert (Some new_data)
                               new_data_size in
            if verified then Ok true
            else verify_kek_certs fuel' pkcs7 kek signature_size new_data new_data_size
                   (cert + signature_size) (i + 1) cert_count
        end
    end
  else Ok false.

(** ... and the loop over the lists. *)
Fixpoint verify_kek_lists (fuel : nat) (pkcs7 : PKCS7) (kek : bytes) (cert_list kek_size : Z)
    (new_data : bytes) (new_data_size : Z) : outcome bool :=
  if kek_size >? 0 then
    let* list_size := sl_SignatureListSize kek cert_list in
    if kek_size >=? list_size then
      match fuel with
      | O => Fault OutOfFuel
      | S fuel' =>
          let* sig_type := sl_SignatureType kek cert_list in
          let* verified :=
            if compare_guid sig_type gEfiCertX509Guid then
              let* header_size := sl_SignatureHeaderSize kek cert_list in
              let* signature_size := sl_SignatureSize kek cert_list in
              let* cert_count := udiv (sigs_size list_size header_size) signature_size in
              verify_kek_certs (Z.to_nat cert_count) pkcs7 kek signature_size new_data
                new_data_size (cert_list + sizeof_EFI_SIGNATURE_LIST + header_size) 0
                cert_count
            else Ok false in
          if verified then Ok true
          else verify_kek_lists fuel' pkcs7 kek (cert_list + list_size)
                 (kek_size - list_size) new_data new_data_size
      end
    else Ok false
  else Ok false.

Definition verify_kek (new_data : bytes) (new_data_size : Z) : M auth_state bool :=
  '(_, found) <- auth_internal_find_variable EFI_KEY_EXCHANGE_KEY_NAME
                   (sizeof_wchar EFI_KEY_EXCHANGE_KEY_NAME) gEfiGlobalVariableGuid ;;
  match found with
  | None => ret false
  | Some (kek, kek_size) =>
      pkcs7 <- with_data_object (fun efi_auth => pkcs7_from_auth (Some efi_auth)) ;;
      match pkcs7 with
      | None => ret false
      | Some p =>
          if kek_size >? 0 then
            block <- mlift (block_of kek) ;;
            mlift (verify_kek_lists (S (Z.to_nat kek_size)) p block 0 kek_size new_data
                     new_data_size)
          else ret false
      end
  end.

(** ** The signed data *)

(** [time->Pad1 != 0 || ...]: fields that shall be zero. *)
Definition timestamp_invalid (t : EFI_TIME) : bool :=
  negb (Pad1 t =? 0) || negb (Nanosecond t =? 0) || negb (TimeZone t =? 0)
  || negb (Daylight t =? 0) || negb (Pad2 t =? 0).

(** [new_data] and its size: (name, guid, attrs, time stamp, payload), the
    content of the signature.  [None] when the allocation fails. *)
Definition build_new_data (efi_auth : bytes) (name : bytes) (guid : EFI_GUID) (attrs : Z)
    (payload_ptr payload_size : Z) : outcome (option (bytes * Z)) :=
  let* name_size := strsize16 (Some name) in
  let new_data_size := u64 (payload_size + sizeof_EFI_TIME + 4 + sizeof_EFI_GUID + name_size) in
  match malloc new_data_size with
  | None => Ok None
  | Some new_data =>
      let* len := strlen16 (Some name) in
      let length := u64 (len * 2) in
      let* new_data := memcpy new_data 0 name 0 length in
      let* new_data := memcpy new_data length guid 0 16 in
      let* new_data := write_bytes new_data (length + 16) (le_encode 4 attrs) in
      let* new_data := memcpy new_data (length + 20) efi_auth 0 16 in
      let* new_data := memcpy new_data (length + 36) efi_auth payload_ptr payload_size in
      Ok (Some (new_data, new_data_size))
  end.

(** The digest algorithm of the SignedData is not SHA-256. *)
Definition wrong_digest_oid (wrap_data : bytes) (wrap_data_size : Z) : outcome bool :=
  if wrap_data_size >=? 32 + 9 then
    or_else (let* b := read_le 1 wrap_data 1 in
             Ok (negb (Z.land b TWO_BYTE_ENCODE =? TWO_BYTE_ENCODE)))
            (let* same := memcmp_eq wrap_data 32 sha256_oid 0 9 in Ok (negb same))
  else Ok false.

(** The status, [*var_payload_ptr] as an offset and [*var_payload_size]. *)
Definition verify_time_based_payload (name : bytes) (namesz : Z) (guid : EFI_GUID)
    (data_size attrs : Z) (auth_var_type : auth_var_t) (org_time_stamp : option EFI_TIME) :
    M auth_state (EFI_STATUS * option (Z * Z)) :=
  s <- mget ;;
  let efi_auth := au_data s in
  timestamp <- mlift (auth_TimeStamp efi_auth) ;;
  if timestamp_invalid timestamp then ret (EFI_SECURITY_VIOLATION, None)
  else if match org_time_stamp with
          | Some org => negb (has attrs EFI_VARIABLE_APPEND_WRITE)
                        && auth_internal_compare_timestamp timestamp org
          | None => false
          end
  then ret (EFI_SECURITY_VIOLATION, None)
  else
  cert_type_differs <-
    mlift (or_else (let* t := auth_wCertificateType efi_auth in
                    Ok (negb (t =? WIN_CERT_TYPE_EFI_GUID)))
                   (let* t := auth_CertType efi_auth in
                    Ok (negb (compare_guid t gEfiCertPkcs7Guid)))) ;;
  if (cert_type_differs : bool) then ret (EFI_SECURITY_VIOLATION, None)
  else
  sig_data_size <- mlift (auth_sig_data_size efi_auth) ;;
  '(wrap_data, wrap_data_size) <-
    mlift (wrap_with_content_info (Some efi_auth) OFFSET_OF_AUTHINFO2_CERT_DATA
             sig_data_size 0) ;;
  match wrap_data with
  | None => ret (EFI_DEVICE_ERROR, None)
  | Some wrapped =>
      wrong_oid <-
        (if has attrs EFI_VARIABLE_TIME_BASED_AUTHENTICATED_WRITE_ACCESS
         then mlift (wrong_digest_oid wrapped wrap_data_size) else ret false) ;;
      if (wrong_oid : bool) then ret (EFI_SECURITY_VIOLATION, None)
      else
      let payload_ptr := OFFSET_OF_AUTHINFO2_CERT_DATA + sig_data_size in
      let payload_size := u64 (data_size - OFFSET_OF_AUTHINFO2_CERT_DATA - sig_data_size) in
      built <- mlift (build_new_data efi_auth name guid attrs payload_ptr payload_size) ;;
      match built with
      | None => ret (EFI_OUT_OF_RESOURCES, None)
      | Some (new_data, new_data_size) =>
          verify_status <-
            match auth_var_type with
            | AUTH_VAR_TYPE_PK => verify_pk new_data new_data_size
            | AUTH_VAR_TYPE_PAYLOAD => verify_payload payload_ptr new_data new_data_size
            | AUTH_VAR_TYPE_KEK => verify_kek new_data new_data_size
            | AUTH_VAR_TYPE_PRIV => verify_priv name namesz guid new_data new_data_size
            end ;;
          if negb verify_status then
            mlift (pkcs7_from_auth (Some efi_auth)) ;;
            ret (EFI_SECURITY_VIOLATION, None)
          else
          status <- mlift (check_signature_list_format name guid efi_auth payload_ptr
                             payload_size) ;;
          if negb (status =? EFI_SUCCESS) then ret (status, None)
          else ret (EFI_SUCCESS, Some (payload_ptr, payload_size))
      end
  end.

(** ** Updates *)

(** [var->cert = digest] for the variable in slot [i]. *)
Definition set_slot_cert (i : nat) (digest : bytes) : M auth_state unit :=
  s <- mget ;;
  v <- mlift (slot_at (au_store s) i) ;;
  c <- mlift (write_bytes (var_cert v) 0 digest) ;;
  mmodify (set_store (set_slot i (with_cert c v) (au_store s))).

(** The status and the new value of [*var_del]; [None] leaves it alone. *)
Definition verify_time_based_payload_and_update (name : bytes) (namesz : Z)
    (guid : EFI_GUID) (data_size attrs : Z) (auth_var_type : auth_var_t) :
    M auth_state (EFI_STATUS * option bool) :=
  '(find_status, var) <- on_store (storage_get_var_ptr (Some name) namesz (Some guid)) ;;
  s <- mget ;;
  time_stamp <-
    match var with
    | Some i => v <- mlift (slot_at (au_store s) i) ;; ret (Some (var_timestamp v))
    | None => ret None
    end ;;
  '(status, payload) <- verify_time_based_payload name namesz guid data_size attrs
                          auth_var_type time_stamp ;;
  match payload with
  | None => ret (status, None)
  | Some (payload_ptr, payload_size) =>
      let is_del := (find_status =? EFI_SUCCESS) && (payload_size =? 0)
                    && negb (has attrs EFI_VARIABLE_APPEND_WRITE) in
      status <- auth_internal_update_variable_with_timestamp name namesz guid payload_ptr
                  payload_size attrs ;;
      if (status =? EFI_SUCCESS) && negb is_del then
        '(status, var) <- on_store (storage_get_var_ptr (Some name) namesz (Some guid)) ;;
        match var with
        | None => ret (status, None)
        | Some i =>
            '(status, digest) <- with_data_object sha256_from_auth ;;
            match digest with
            | None => ret (status, None)
            | Some d =>
                set_slot_cert i d ;;
                ret (status, Some (is_del && (status =? EFI_SUCCESS)))
            end
        end
      else ret (status, Some (is_del && (status =? EFI_SUCCESS)))
  end.

(** The attributes PK, KEK, db, dbx and dbt must have. *)
Definition key_attrs_missing (attrs : Z) : bool :=
  negb (has attrs EFI_VARIABLE_NON_VOLATILE)
  || negb (has attrs EFI_VARIABLE_TIME_BASED_AUTHENTICATED_WRITE_ACCESS).

(** Setup mode: the payload is stored without verification. *)
Definition update_unverified (name : bytes) (namesz : Z) (guid : EFI_GUID)
    (data_size attrs : Z) : M auth_state (EFI_STATUS * bool) :=
  payload <- with_data_object AUTHINFO2_SIZE ;;
  let payload_size := u64 (data_size - payload) in
  status <- with_data_object (fun data =>
              check_signature_list_format name guid data payload payload_size) ;;
  if negb (status =? EFI_SUCCESS) then ret (status, payload_size =? 0)
  else
  status <- auth_internal_update_variable_with_timestamp name namesz guid payload
              payload_size attrs ;;
  ret (status, payload_size =? 0).

Definition process_var_with_pk (name : bytes) (namesz : Z) (guid : EFI_GUID)
    (data_size attrs : Z) (is_pk : bool) : M auth_state EFI_STATUS :=
  if key_attrs_missing attrs then ret EFI_INVALID_PARAMETER
  else
  s <- mget ;;
  let verified type :=
    '(status, del) <- verify_time_based_payload_and_update name namesz guid data_size attrs
                        type ;;
    ret (status, match del with Some d => d | None => false end) in
  '(status, del) <-
    (if setup_mode s =? SETUP_MODE then
       if is_pk then verified AUTH_VAR_TYPE_PAYLOAD
       else update_unverified name namesz guid data_size attrs
     else verified AUTH_VAR_TYPE_PK) ;;
  if (status =? EFI_SUCCESS) && is_pk then
    s <- mget ;;
    if (setup_mode s =? SETUP_MODE) && negb del then update_platform_mode USER_MODE
    else if (setup_mode s =? USER_MODE) && del then update_platform_mode SETUP_MODE
    else ret status
  else ret status.

Definition process_var_with_kek (name : bytes) (namesz : Z) (guid : EFI_GUID)
    (data_size attrs : Z) : M auth_state EFI_STATUS :=
  if key_attrs_missing attrs then ret EFI_INVALID_PARAMETER
  else
  s <- mget ;;
  if setup_mode s =? USER_MODE then
    '(status, _) <- verify_time_based_payload_and_update name namesz guid data_size attrs
                      AUTH_VAR_TYPE_KEK ;;
    ret status
  else
    '(status, _) <- update_unverified name namesz guid data_size attrs ;;
    ret status.

Definition is_delete_auth_variable (org_attrs : Z) (data : bytes) (data_size attrs : Z) :
    outcome bool :=
  if (attrs =? org_attrs)
     && negb (Z.land attrs (Z.lor EFI_VARIABLE_AUTHENTICATED_WRITE_ACCESS
                EFI_VARIABLE_TIME_BASED_AUTHENTICATED_WRITE_ACCESS) =? 0)
  then
    if has attrs EFI_VARIABLE_TIME_BASED_AUTHENTICATED_WRITE_ACCESS then
      let* n := AUTHINFO2_SIZE data in Ok (u64 (data_size - n) =? 0)
    else Ok (u64 (data_size - AUTHINFO_SIZE) =? 0)
  else Ok false.

(** [org_variable_info] is zeroed and never filled, so its test for a
    write-protected variable is never true. *)
Definition process_variable (name : bytes) (namesz : Z) (guid : EFI_GUID)
    (data_size attrs : Z) : M auth_state EFI_STATUS :=
  '(_, var) <- on_store (storage_get_var_ptr (Some name) namesz (Some guid)) ;;
  s <- mget ;;
  delete <-
    match var with
    | Some i =>
        v <- mlift (slot_at (au_store s) i) ;;
        mlift (is_delete_auth_variable (var_attrs v) (au_data s) data_size attrs)
    | None => ret false
    end ;;
  if (delete : bool) then
    on_store (storage_set (Some name) namesz (Some guid) None 0 0)
  else if has attrs EFI_VARIABLE_AUTHENTICATED_WRITE_ACCESS then ret EFI_UNSUPPORTED
  else if has attrs EFI_VARIABLE_TIME_BASED_AUTHENTICATED_WRITE_ACCESS then
    '(status, _) <- verify_time_based_payload_and_update name namesz guid data_size attrs
                      AUTH_VAR_TYPE_PRIV ;;
    ret status
  else
    on_store (storage_set (Some name) namesz (Some guid) (Some (au_data s)) data_size attrs).

(** ** [auth_lib_process_variable] of [src/uefi/authlib.c] *)
Definition auth_lib_process_variable (name : bytes) (namesz : Z) (guid : EFI_GUID)
    (data_size attrs : Z) : M auth_state EFI_STATUS :=
  let named str := let* c := strcmp16 (Some name) (Some str) in Ok (c =? 0) in
  pk <- mlift (if compare_guid guid gEfiGlobalVariableGuid
               then named EFI_PLATFORM_KEY_NAME else Ok false) ;;
  if (pk : bool) then process_var_with_pk name namesz guid data_size attrs true
  else
  kek <- mlift (if compare_guid guid gEfiGlobalVariableGuid
                then named EFI_KEY_EXCHANGE_KEY_NAME else Ok false) ;;
  if (kek : bool) then process_var_with_pk name namesz guid data_size attrs false
  else
  db <- mlift (if compare_guid guid gEfiImageSecurityDatabaseGuid then
                 or_else (named EFI_IMAGE_SECURITY_DATABASE)
                (or_else (named EFI_IMAGE_SECURITY_DATABASE1)
                         (named EFI_IMAGE_SECURITY_DATABASE2))
               else Ok false) ;;
  if (db : bool) then
    status <- process_var_with_pk name namesz guid data_size attrs false ;;
    if negb (status =? EFI_SUCCESS) then process_var_with_kek name namesz guid data_size attrs
    else ret status
  else process_variable name namesz guid data_size attrs.

End auth.
