(* ===== verification/AuthLib.v ===== *)
(** * Authentication services: initialization

    [src/uefi/authlib.c]: the enrolment of the PK/KEK/db/dbx files found on disk
    and the initial platform mode.  ([auth_lib_process_variable] is in
    [Auth].)  The file system is an interface. *)
From S2P Require Import Prelude EfiTypes Common UefiVariable Storage Crypto SigList Auth.

(** [stat], [open], [read]: the return value, with the file size and the bytes
    read. *)
Class FileSystem : Type := {
  fs_stat : bytes -> Z * Z;
  fs_open : bytes -> Z;
  fs_read : bytes -> Z -> Z * bytes
}.

(** [struct auth_data] *)
Record auth_data : Type := mk_auth_data { path : bytes; var : variable_t }.

(** The four GUIDs of [signature_support], one after the other. *)
Definition signature_support : bytes :=
  EFI_CERT_SHA1_GUID ++ EFI_CERT_SHA256_GUID ++ EFI_CERT_RSA2048_GUID ++ EFI_CERT_X509_GUID.

Section files.
Context `{Allocator} `{FileSystem}.

(** The value returned and the structure.  A failed [read] frees the block but
    leaves the pointer. *)
Definition load_auth (auth : auth_data) : outcome (Z * auth_data) :=
  let '(r, st_size) := fs_stat (path auth) in
  if r <? 0 then Ok (r, auth)
  else
  let fd := fs_open (path auth) in
  if fd <? 0 then Ok (fd, auth)
  else
  let datasz := u64 st_size in
  let* _ := oassert (datasz <? MAX_VARIABLE_DATA_SIZE) in
  match malloc datasz with
  | None => Ok (-1, mk_auth_data (path auth) (with_data None datasz (var auth)))
  | Some block =>
      let '(n, content) := fs_read (path auth) datasz in
      if n <? 0 then
        Ok (-1, mk_auth_data (path auth) (with_data (Some block) datasz (var auth)))
      else
      let* block := write_bytes block 0 content in
      Ok (r, mk_auth_data (path auth) (with_data (Some block) datasz (var auth)))
  end.

(** The loop of [auth_lib_load]: without a KEK the PK is skipped. *)
Fixpoint auth_lib_load_loop (skip_pk : bool) (auths : list auth_data) :
    outcome (list auth_data) :=
  match auths with
  | [] => Ok []
  | auth :: auths' =>
      let named str :=
        let* c := strcmp16 (Some (var_name (var auth))) (Some str) in Ok (c =? 0) in
      let* skip := if skip_pk then named EFI_PLATFORM_KEY_NAME else Ok false in
      if skip then let* rest := auth_lib_load_loop skip_pk auths' in Ok (auth :: rest)
      else
      let* (r, auth') := load_auth auth in
      let* kek_missing := if r <? 0 then named EFI_KEY_EXCHANGE_KEY_NAME else Ok false in
      let* rest := auth_lib_load_loop (skip_pk || kek_missing) auths' in
      Ok (auth' :: rest)
  end.

Definition auth_lib_load (auths : option (list auth_data)) : outcome (option (list auth_data)) :=
  match auths with
  | None => Ok None
  | Some l => let* l' := auth_lib_load_loop false l in Ok (Some l')
  end.

End files.

Section initialize.
Context `{Allocator} `{OpenSSL}.

(** Each file's data is the data object of its call. *)
Fixpoint load_auth_files (auths : list auth_data) : M auth_state EFI_STATUS :=
  match auths with
  | [] => ret EFI_SUCCESS
  | auth :: auths' =>
      let v := var auth in
      exists_ <- on_store (storage_exists (Some (var_name v)) (var_namesz v)
                             (Some (var_guid v))) ;;
      if (exists_ : bool) then load_auth_files auths'
      else
      match var_data v with
      | None => load_auth_files auths'
      | Some data =>
          if var_datasz v =? 0 then load_auth_files auths'
          else
          mmodify (set_data data) ;;
          status <- auth_lib_process_variable (var_name v) (var_namesz v) (var_guid v)
                      (var_datasz v) (var_attrs v) ;;
          if negb (status =? EFI_SUCCESS) then ret status else load_auth_files auths'
      end
  end.

Definition auth_lib_initialize (auths : list auth_data) : M auth_state EFI_STATUS :=
  let set name value size :=
    on_store (storage_set (Some name) (sizeof_wchar name) (Some gEfiGlobalVariableGuid)
                (Some value) size RT_BS_ATTRS) in
  status <- set EFI_SIGNATURE_SUPPORT_NAME signature_support 64 ;;
  if negb (status =? EFI_SUCCESS) then ret status
  else
  status <- update_platform_mode SETUP_MODE ;;
  if negb (status =? EFI_SUCCESS) then ret status
  else
  status <- load_auth_files auths ;;
  if negb (status =? EFI_SUCCESS) then ret status
  else
  pk <- on_store (storage_exists (Some EFI_PLATFORM_KEY_NAME)
                    (sizeof_wchar EFI_PLATFORM_KEY_NAME) (Some gEfiGlobalVariableGuid)) ;;
  status <- (if (pk : bool) then update_platform_mode USER_MODE else ret EFI_SUCCESS) ;;
  if negb (status =? EFI_SUCCESS) then ret status
  else set AUDIT_MODE_NAME [x00] 1.

End initialize.

(** The blocks freed; the pointers stay. *)
Definition auth_lib_deinit (auths : list auth_data) : list (option bytes) :=
  (fun a => var_data (var a)) <$> auths.
