(* ===== verification/CText.v ===== *)
(** * C strings and HTTP text

    The string functions of the C library that [src/xapi.c] calls, on objects
    that hold 8-bit strings, and the helpers of that file that work on text:
    the status and the body of a response, the header of a request.  ([strlen]
    and [isspace] are in [Common].) *)
From Stdlib Require Import Strings.String.
From S2P Require Import Prelude EfiTypes Common.

Definition str (s : string) : bytes := list_byte_of_string s.
Definition NUL : byte := x00.
Definition CRLF : bytes := [x0d; x0a].

(** ** The C library *)

(** The characters before the terminator. *)
Definition c_string (s : bytes) : outcome bytes :=
  let* n := strlen s in Ok (take (Z.to_nat n) s).

(** At most [n] characters before the terminator. *)
Fixpoint c_chars (n : nat) (s : bytes) : outcome bytes :=
  match n, s with
  | O, _ => Ok []
  | S _, [] => Fault OutOfBounds
  | S n', b :: s' =>
      if bool_decide (b = NUL) then Ok []
      else let* r := c_chars n' s' in Ok (b :: r)
  end.

(** [strncpy (dst + off, src, n)] *)
Definition strncpy (dst : bytes) (off : Z) (src : bytes) (n : Z) : outcome bytes :=
  let* cs := c_chars (Z.to_nat n) src in
  write_bytes dst off (cs ++ replicate (Z.to_nat n - length cs) NUL).

(** [strncat (dst, src, n)] *)
Definition strncat (dst src : bytes) (n : Z) : outcome bytes :=
  let* len := strlen dst in
  let* cs := c_chars (Z.to_nat n) src in
  write_bytes dst len (cs ++ [NUL]).

(** [strchr (s, c)]: the object from the character on. *)
Fixpoint strchr (s : bytes) (c : byte) : outcome (option bytes) :=
  match s with
  | [] => Fault OutOfBounds
  | b :: s' =>
      if bool_decide (b = c) then Ok (Some s)
      else if bool_decide (b = NUL) then Ok None
      else strchr s' c
  end.

(** The first occurrence of [needle] in the characters [cs]. *)
Fixpoint find_text (cs needle : bytes) : option nat :=
  if bool_decide (take (length needle) cs = needle) then Some O
  else match cs with
       | [] => None
       | _ :: cs' => S <$> find_text cs' needle
       end.

(** [strstr (s, needle)]: the object from the occurrence on. *)
Definition strstr (s needle : bytes) : outcome (option bytes) :=
  let* cs := c_string s in
  Ok ((fun i => drop i s) <$> find_text cs needle).

(** [strtol (s, NULL, 10)] *)
Fixpoint skip_space (s : bytes) : outcome bytes :=
  match s with
  | [] => Fault OutOfBounds
  | b :: s' => if isspace b then skip_space s' else Ok s
  end.

Definition digit_of (b : byte) : option Z :=
  let z := Z_of_byte b in if (0x30 <=? z) && (z <=? 0x39) then Some (z - 0x30) else None.

Fixpoint digits (s : bytes) (acc : Z) : outcome Z :=
  match s with
  | [] => Fault OutOfBounds
  | b :: s' => match digit_of b with
               | Some d => digits s' (acc * 10 + d)
               | None => Ok acc
               end
  end.

Definition LONG_MAX : Z := 0x7fffffffffffffff.
Definition LONG_MIN : Z := -0x8000000000000000.

Definition strtol (s : bytes) : outcome Z :=
  let* s := skip_space s in
  let* n :=
    match s with
    | b :: s' =>
        if bool_decide (b = x2d) then let* n := digits s' 0 in Ok (- n)
        else if bool_decide (b = x2b) then digits s' 0
        else digits s 0
    | [] => Fault OutOfBounds
    end in
  Ok (Z.max LONG_MIN (Z.min LONG_MAX n)).

(** [strtol (s, &end, 0)]: the base is that of the C language; the value, and
    the text from [end] on, which is [s] when there is no number. *)
Definition hex_digit_of (b : byte) : option Z :=
  let z := Z_of_byte b in
  if (0x30 <=? z) && (z <=? 0x39) then Some (z - 0x30)
  else if (0x61 <=? z) && (z <=? 0x66) then Some (z - 0x61 + 10)
  else if (0x41 <=? z) && (z <=? 0x46) then Some (z - 0x41 + 10)
  else None.

Fixpoint digits_base (base : Z) (s : bytes) (acc : Z) : outcome (Z * bytes) :=
  match s with
  | [] => Fault OutOfBounds
  | b :: s' => match hex_digit_of b with
               | Some d => if d <? base then digits_base base s' (acc * base + d) else Ok (acc, s)
               | None => Ok (acc, s)
               end
  end.

(** The digits after a [0x] prefix, after a leading zero, or decimal ones. *)
Definition unsigned_base0 (s : bytes) : outcome (option (Z * bytes)) :=
  match s with
  | [] => Fault OutOfBounds
  | b0 :: s1 =>
      if bool_decide (b0 = x30) then
        match s1 with
        | b1 :: ((b2 :: _) as s2) =>
            match hex_digit_of b2 with
            | Some _ =>
                if bool_decide (b1 = x78) || bool_decide (b1 = x58)
                then let* r := digits_base 16 s2 0 in Ok (Some r)
                else let* r := digits_base 8 s 0 in Ok (Some r)
            | None => let* r := digits_base 8 s 0 in Ok (Some r)
            end
        | _ => let* r := digits_base 8 s 0 in Ok (Some r)
        end
      else match digit_of b0 with
           | Some _ => let* r := digits_base 10 s 0 in Ok (Some r)
           | None => Ok None
           end
  end.

Definition strtol0 (s : bytes) : outcome (Z * bytes) :=
  let* t := skip_space s in
  let* n :=
    match t with
    | b :: t' =>
        if bool_decide (b = x2d) then
          let* r := unsigned_base0 t' in Ok ((fun '(n, e) => (- n, e)) <$> r)
        else if bool_decide (b = x2b) then unsigned_base0 t'
        else unsigned_base0 t
    | [] => Fault OutOfBounds
    end in
  Ok (match n with
      | Some (n, e) => (Z.max LONG_MIN (Z.min LONG_MAX n), e)
      | None => (0, s)
      end).

(** [atoi (s)] *)
Definition atoi (s : bytes) : outcome Z := let* n := strtol s in Ok (s32 n).

(** [strncmp (a, b, n) == 0], [strcmp (a, b) == 0] *)
Fixpoint strncmp_eq (n : nat) (a b : bytes) : outcome bool :=
  match n with
  | O => Ok true
  | S n' =>
      match a, b with
      | x :: a', y :: b' =>
          if negb (bool_decide (x = y)) then Ok false
          else if bool_decide (x = NUL) then Ok true
          else strncmp_eq n' a' b'
      | _, _ => Fault OutOfBounds
      end
  end.
Fixpoint strcmp_eq (a b : bytes) : outcome bool :=
  match a, b with
  | x :: a', y :: b' =>
      if negb (bool_decide (x = y)) then Ok false
      else if bool_decide (x = NUL) then Ok true
      else strcmp_eq a' b'
  | _, _ => Fault OutOfBounds
  end.

(** [printf] formats: the text between the conversions, [%s] with its argument,
    [%d] and [%lu] with theirs. *)
Inductive piece : Type :=
  | Lit (s : bytes)
  | Str (p : option bytes)
  | Num (z : Z).

(** A decimal number of at most twenty digits, enough for 64 bits. *)
Definition digit_char (d : Z) : byte := byte_of_Z (0x30 + d).

Fixpoint decimal_digits (fuel : nat) (z : Z) : bytes :=
  match fuel with
  | O => []
  | S fuel' => if z <? 10 then [digit_char z]
               else decimal_digits fuel' (z / 10) ++ [digit_char (z mod 10)]
  end.

Definition decimal (z : Z) : bytes :=
  if z <? 0 then x2d :: decimal_digits 20 (- z) else decimal_digits 20 z.

Fixpoint format (ps : list piece) : outcome bytes :=
  match ps with
  | [] => Ok []
  | p :: ps' =>
      let* a := match p with
                | Lit s => Ok s
                | Str None => Fault NullDeref
                | Str (Some s) => c_string s
                | Num z => Ok (decimal z)
                end in
      let* r := format ps' in Ok (a ++ r)
  end.

(** [snprintf (dst + off, n, ...)]: the length of the whole text. *)
Definition snprintf (dst : bytes) (off n : Z) (ps : list piece) : outcome (Z * bytes) :=
  let* text := format ps in
  if zlen text >? INT_MAX then Ok (-1, dst)
  else if n =? 0 then Ok (zlen text, dst)
  else
  let* dst' := write_bytes dst off (take (Z.to_nat (n - 1)) text ++ [NUL]) in
  Ok (zlen text, dst').

(** ** Responses and request headers *)
Definition http_status (response : option bytes) : outcome Z :=
  match response with
  | None => Ok (-1)
  | Some r =>
      let* p := strchr r x20 in
      match p with
      | None => Ok (-1)
      | Some p =>
          let* status := strtol p in
          if (status =? LONG_MIN) || (status =? LONG_MAX) || (status >? INT_MAX) then Ok (-1)
          else Ok (s32 status)
      end
  end.

Definition response_body (response : option bytes) : outcome (option bytes) :=
  match response with
  | None => Ok None
  | Some r =>
      let* body := strstr r (CRLF ++ CRLF) in
      Ok (drop 4 <$> body)
  end.

(** [HTTP_HEADER] with its argument, the length of the body. *)
Definition HTTP_HEADER (body_len : Z) : list piece :=
  [Lit (str "POST / HTTP/1.1" ++ CRLF ++
        str "Host: _var_lib_xcp_xapi" ++ CRLF ++
        str "Accept-Encoding: identity" ++ CRLF ++
        str "User-Agent: uefistored/0.1" ++ CRLF ++
        str "Connection: close" ++ CRLF ++
        str "Content-Type: text/xml" ++ CRLF ++
        str "Content-Length: "); Num body_len; Lit (CRLF ++ CRLF)].

(** The message is the object [message] from [off] on. *)
Definition create_header (body_len : Z) (message : bytes) (off message_size : Z) :
    outcome (Z * bytes) :=
  snprintf message off message_size (HTTP_HEADER body_len).

(** ** Texts

    The characters of a C string: what comes before its terminator. *)
Definition text_ok (cs : bytes) : Prop := Forall (fun c => c <> NUL) cs.

Lemma strlen_text cs rest : text_ok cs -> strlen (cs ++ NUL :: rest) = Ok (zlen cs).
Proof.
  induction 1 as [|c cs Hc _ IH]; [done|]. cbn [app strlen].
  rewrite bool_decide_eq_false_2 by done. rewrite IH. cbn [obind]. rewrite zlen_cons. f_equal. lia.
Qed.

Lemma c_string_text cs rest : text_ok cs -> c_string (cs ++ NUL :: rest) = Ok cs.
Proof.
  intros H. unfold c_string. rewrite strlen_text by done. cbn [obind]. unfold zlen.
  by rewrite Nat2Z.id, take_app_length.
Qed.

Lemma c_chars_text n cs rest : text_ok cs -> c_chars n (cs ++ NUL :: rest) = Ok (take n cs).
Proof.
  intros H. revert n. induction H as [|c cs Hc _ IH]; intros [|n]; [done..|].
  cbn [app c_chars take]. rewrite bool_decide_eq_false_2 by done. by rewrite IH.
Qed.

Lemma text_app a b : text_ok a -> text_ok b -> text_ok (a ++ b).
Proof. intros Ha Hb. by apply Forall_app. Qed.

Lemma text_check cs : forallb (fun c => negb (bool_decide (c = NUL))) cs = true -> text_ok cs.
Proof.
  induction cs as [|c cs IH]; [by constructor|]. cbn [forallb]. intros [Hc H]%andb_true_iff.
  constructor; [|by apply IH]. by apply negb_true_iff, bool_decide_eq_false in Hc.
Qed.

(** ** Numbers as text *)
Lemma zlen_decimal_digits fuel z : zlen (decimal_digits fuel z) <= Z.of_nat fuel.
Proof.
  revert z. induction fuel as [|fuel IH]; intros z; [done|]. cbn [decimal_digits].
  destruct (z <? 10); [rewrite zlen_cons, zlen_nil; lia|].
  rewrite zlen_app. specialize (IH (z / 10)). change (zlen [digit_char (z mod 10)]) with 1. lia.
Qed.

Lemma zlen_decimal z : 0 <= z -> zlen (decimal z) <= 20.
Proof. intros Hz. unfold decimal. zb. apply (zlen_decimal_digits 20). Qed.

Lemma decimal_digit_ok d : 0 <= d < 10 -> digit_char d <> NUL /\ digit_of (digit_char d) = Some d.
Proof.
  intros Hd. unfold digit_char, digit_of.
  assert (Hz : Z_of_byte (byte_of_Z (0x30 + d)) = 0x30 + d)
    by (rewrite Z_of_byte_of_Z; apply Z.mod_small; lia).
  split; [intros He; apply (f_equal Z_of_byte) in He; rewrite Hz in He; change (Z_of_byte NUL) with 0 in He; lia|].
  rewrite Hz. zb. f_equal. lia.
Qed.

Lemma decimal_digits_text fuel z : 0 <= z -> text_ok (decimal_digits fuel z).
Proof.
  revert z. induction fuel as [|fuel IH]; intros z Hz; [by constructor|]. cbn [decimal_digits].
  destruct (Z.ltb_spec z 10); [constructor; [apply decimal_digit_ok; lia|by constructor]|].
  apply text_app; [apply IH; apply Z.div_pos; lia|].
  constructor; [|by constructor]. apply decimal_digit_ok. apply Z.mod_pos_bound. lia.
Qed.

Lemma decimal_text z : 0 <= z -> text_ok (decimal z).
Proof. intros Hz. unfold decimal. zb. by apply decimal_digits_text. Qed.

(** A text that fits its buffer of [n] bytes. *)
Lemma snprintf_ok ps text n :
  format ps = Ok text -> zlen text < n <= INT_MAX ->
  exists rest, snprintf (replicate (Z.to_nat n) NUL) 0 n ps = Ok (zlen text, text ++ NUL :: rest).
Proof.
  intros Hf Hn. pose proof (zlen_nonneg text). unfold snprintf. rewrite Hf. cbn [obind]. zb.
  rewrite take_ge by (unfold zlen in *; lia). eexists. rewrite write_bytes_prefix.
  - cbn [obind]. by rewrite <-app_assoc.
  - unfold zlen in *. rewrite length_app, length_replicate. cbn [length]. lia.
Qed.

Lemma strncmp_text a b :
  text_ok a -> text_ok b ->
  strncmp_eq (length a) (a ++ [NUL]) (b ++ [NUL]) = Ok (bool_decide (a `prefix_of` b)).
Proof.
  intros Ha. revert b. induction Ha as [|x a Hx _ IH]; intros b Hb.
  { rewrite bool_decide_eq_true_2; [done|apply prefix_nil]. }
  cbn [length app strncmp_eq]. destruct Hb as [|y b Hy Hb]; cbn [app].
  { rewrite (bool_decide_eq_false_2 (x = NUL)) by done. cbn [negb].
    rewrite bool_decide_eq_false_2; [done|]. intros H%prefix_nil_inv. done. }
  destruct (decide (x = y)) as [<-|Hxy].
  - rewrite bool_decide_eq_true_2, (bool_decide_eq_false_2 (x = NUL)) by done. cbn [negb].
    rewrite IH by done. f_equal. apply bool_decide_ext. split; [apply prefix_cons|apply prefix_cons_inv_2].
  - rewrite bool_decide_eq_false_2 by done. cbn [negb].
    rewrite bool_decide_eq_false_2; [done|]. by intros ?%prefix_cons_inv_1.
Qed.

(** *** Reading a printed number *)
Lemma digit_char_code d : 0 <= d < 10 -> Z_of_byte (digit_char d) = 0x30 + d.
Proof. intros Hd. unfold digit_char. rewrite Z_of_byte_of_Z. apply Z.mod_small. lia. Qed.

Lemma hex_digit_char d : 0 <= d < 10 -> hex_digit_of (digit_char d) = Some d.
Proof. intros Hd. unfold hex_digit_of. rewrite digit_char_code by done. zb. f_equal. lia. Qed.

(** A reader that accumulates decimal digits reads a printed number. *)
Lemma decimal_digits_read {R} (read : bytes -> Z -> R) :
  (forall d s acc, 0 <= d < 10 -> read (digit_char d :: s) acc = read s (acc * 10 + d)) ->
  forall fuel z s acc, 0 <= z < 10 ^ Z.of_nat fuel ->
  exists k, read (decimal_digits fuel z ++ s) acc = read s (acc * k + z).
Proof.
  intros Hread. induction fuel as [|fuel IH]; intros z s acc Hz.
  { exists 1. cbn [decimal_digits app]. f_equal. cbn in Hz. lia. }
  cbn [decimal_digits]. destruct (Z.ltb_spec z 10).
  { exists 10. cbn [app]. by rewrite Hread by lia. }
  rewrite Nat2Z.inj_succ, Z.pow_succ_r in Hz by lia.
  destruct (IH (z / 10) (digit_char (z mod 10) :: s) acc) as [k Hk].
  { split; [apply Z.div_pos; lia|apply Z.div_lt_upper_bound; lia]. }
  exists (k * 10). rewrite <-app_assoc. cbn [app]. rewrite Hk, Hread by (apply Z.mod_pos_bound; lia).
  f_equal. pose proof (Z.div_mod z 10). lia.
Qed.

Lemma decimal_digits_head fuel z :
  0 < z < 10 ^ Z.of_nat fuel ->
  exists d s, decimal_digits fuel z = digit_char d :: s /\ 1 <= d < 10.
Proof.
  revert z. induction fuel as [|fuel IH]; intros z Hz; [cbn in Hz; lia|]. cbn [decimal_digits].
  destruct (Z.ltb_spec z 10); [by exists z, []; split; [|lia]|].
  rewrite Nat2Z.inj_succ, Z.pow_succ_r in Hz by lia.
  destruct (IH (z / 10)) as (d & s & -> & Hd).
  { split; [apply Z.div_str_pos; lia|apply Z.div_lt_upper_bound; lia]. }
  by exists d, (s ++ [digit_char (z mod 10)]).
Qed.

Lemma decimal_head z :
  0 < z < 10 ^ 20 -> exists d s, decimal z = digit_char d :: s /\ 1 <= d < 10.
Proof. intros Hz. unfold decimal. zb. by apply decimal_digits_head. Qed.

(** A digit is neither white space nor a sign; only zero starts an octal number. *)
Lemma digit_char_other d c :
  0 <= d < 10 -> (Z_of_byte c - 0x30 =? d) = false -> bool_decide (digit_char d = c) = false.
Proof.
  intros Hd Hc%Z.eqb_neq. apply bool_decide_eq_false_2. intros <-. rewrite digit_char_code in Hc by done. lia.
Qed.

Ltac not_digit :=
  first [lia | match goal with |- (?x =? _) = false =>
                 let y := eval vm_compute in x in change x with y; apply Z.eqb_neq; lia end].

Lemma digit_char_skip d s : 0 <= d < 10 -> skip_space (digit_char d :: s) = Ok (digit_char d :: s).
Proof.
  intros Hd. cbn [skip_space]. unfold isspace. rewrite digit_char_code by done. zb. done.
Qed.

Lemma strtol_decimal z rest : 0 <= z <= LONG_MAX -> strtol (decimal z ++ NUL :: rest) = Ok z.
Proof.
  intros Hz. destruct (decide (z = 0)) as [->|Hnz]; [done|].
  assert (Hr : digits (decimal z ++ NUL :: rest) 0 = Ok z).
  { unfold decimal. zb.
    destruct (decimal_digits_read digits) with 20%nat z (NUL :: rest) 0 as [k ->].
    - intros d s acc Hd. cbn [digits]. by rewrite (proj2 (decimal_digit_ok d Hd)).
    - unfold LONG_MAX in Hz. change (10 ^ Z.of_nat 20) with 100000000000000000000. lia.
    - done. }
  destruct (decimal_head z) as (d & s & Hs & Hd).
  { unfold LONG_MAX in Hz. change (10 ^ 20) with 100000000000000000000. lia. }
  rewrite Hs in *. cbn [app] in *. unfold strtol. rewrite digit_char_skip by lia. cbn [obind].
  rewrite (digit_char_other d x2d), (digit_char_other d x2b) by not_digit.
  rewrite Hr. cbn [obind]. f_equal.
  unfold LONG_MIN, LONG_MAX in *. lia.
Qed.

Lemma unsigned_base0_zero rest : unsigned_base0 (x30 :: NUL :: rest) = Ok (Some (0, NUL :: rest)).
Proof.
  destruct rest as [|b rest]; [done|]. unfold unsigned_base0.
  rewrite bool_decide_eq_true_2 by done. by destruct (hex_digit_of b).
Qed.

Lemma strtol0_decimal z rest :
  0 <= z <= LONG_MAX -> strtol0 (decimal z ++ NUL :: rest) = Ok (z, NUL :: rest).
Proof.
  intros Hz. destruct (decide (z = 0)) as [->|Hnz].
  { change (decimal 0 ++ NUL :: rest) with (x30 :: NUL :: rest). unfold strtol0.
    change (skip_space _) with (Ok (x30 :: NUL :: rest)). cbn [obind].
    change (bool_decide (x30 = x2d)) with false. change (bool_decide (x30 = x2b)) with false.
    by rewrite unsigned_base0_zero. }
  assert (Hr : digits_base 10 (decimal z ++ NUL :: rest) 0 = Ok (z, NUL :: rest)).
  { unfold decimal. zb.
    destruct (decimal_digits_read (digits_base 10)) with 20%nat z (NUL :: rest) 0 as [k ->].
    - intros d s acc Hd. cbn [digits_base]. rewrite hex_digit_char by done. by zb.
    - unfold LONG_MAX in Hz. change (10 ^ Z.of_nat 20) with 100000000000000000000. lia.
    - done. }
  destruct (decimal_head z) as (d & s & Hs & Hd).
  { unfold LONG_MAX in Hz. change (10 ^ 20) with 100000000000000000000. lia. }
  rewrite Hs in *. cbn [app] in *. unfold strtol0. rewrite digit_char_skip by lia. cbn [obind].
  unfold unsigned_base0. rewrite (proj2 (decimal_digit_ok d ltac:(lia))).
  rewrite (digit_char_other d x2d), (digit_char_other d x2b), (digit_char_other d x30) by not_digit.
  rewrite Hr. cbn [obind fmap option_fmap].
  do 2 f_equal. unfold LONG_MIN, LONG_MAX in *. lia.
Qed.
