(* ===== verification/Server.v ===== *)
(** * The variable server

    [src/xen_variable_server.c], with [is_secure_boot_variable] of
    [src/uefi/utils.c] and the backend calls of [inc/backend.h]: parsing of
    requests from the page shared with the guest, the handlers of the RPC
    commands, and the dispatcher.

    The shared page is a field of the state; a handler parses it from its
    start and writes its reply over it.  Reads and writes happen in program
    order, from a page the guest leaves alone meanwhile; [Concurrent] has the same
    handlers on a page that the guest writes at any moment. *)
From S2P Require Import Prelude LogLevel EfiTypes Common UefiVariable Storage Serializer Crypto SigList.
From S2P Require Import Auth.

(** ** The backend

    The function pointers of [struct backend] that the server calls; each works
    on the store and the backend's own state [E]. *)
Record backend_t (E : Type) : Type := mk_backend {
  be_init : option (bool -> M (storage * E) Z);
  be_notify : option (M (storage * E) Z);
  be_save : option (M (storage * E) Z);
  be_set : option (M (storage * E) Z);
  be_cleanup : option (M (storage * E) unit)
}.
Arguments be_init {E} _.
Arguments be_notify {E} _.
Arguments be_save {E} _.
Arguments be_set {E} _.
Arguments be_cleanup {E} _.

(** ** State *)
Record server (E : Type) : Type := mk_server {
  sv_auth : auth_state;
  efi_at_runtime : bool;
  comm_buf : bytes;
  sv_loglevel : loglevel_t;   (** [loglevel] of src/log.c *)
  sv_ext : E
}.
Arguments mk_server {E} _ _ _ _ _.
Arguments sv_auth {E} _.
Arguments efi_at_runtime {E} _.
Arguments comm_buf {E} _.
Arguments sv_loglevel {E} _.
Arguments sv_ext {E} _.

(** [struct request] *)
Record request : Type := mk_request {
  req_version : Z;        (** [uint32_t] *)
  req_command : Z;        (** [command_t] *)
  req_namesz : Z;         (** [int] *)
  req_name : bytes;       (** [uint8_t[MAX_VARIABLE_NAME_SIZE]] *)
  req_buffer_size : Z;    (** [ssize_t] *)
  req_buffer : bytes;     (** [uint8_t[MAX_VARIABLE_DATA_SIZE]] *)
  req_guid : EFI_GUID;
  req_attrs : Z
}.

Definition zero_buffer : bytes := replicate (Z.to_nat MAX_VARIABLE_DATA_SIZE) x00.

(** ** Attributes and protected names *)
Definition evaluate_attrs (attrs : Z) : EFI_STATUS :=
  if has attrs EFI_VARIABLE_HARDWARE_ERROR_RECORD then EFI_UNSUPPORTED
  else if Z.land attrs RT_BS_ATTRS =? EFI_VARIABLE_RUNTIME_ACCESS then EFI_INVALID_PARAMETER
  else if has attrs EFI_VARIABLE_TIME_BASED_AUTHENTICATED_WRITE_ACCESS
          && has attrs EFI_VARIABLE_AUTHENTICATED_WRITE_ACCESS then EFI_SECURITY_VIOLATION
  else if has attrs EFI_VARIABLE_AUTHENTICATED_WRITE_ACCESS then EFI_UNSUPPORTED
  else EFI_SUCCESS.

(** [RT] set without [BS]. *)
Definition rt_without_bs (attrs : Z) : bool :=
  has attrs EFI_VARIABLE_RUNTIME_ACCESS && negb (has attrs EFI_VARIABLE_BOOTSERVICE_ACCESS).

(** [strcmp16_len (a, a_n, b)] *)
Definition strcmp16_len (a : bytes) (a_n : Z) (b : bytes) : outcome bool :=
  if a_n =? sizeof_wchar b then let* c := strcmp16 (Some a) (Some b) in Ok (c =? 0)
  else Ok false.

Definition is_ro (name : option bytes) (namesz : Z) (guid : option EFI_GUID) : outcome bool :=
  match name, guid with
  | Some n, Some g =>
      if negb (compare_guid g gEfiGlobalVariableGuid) then Ok false
      else
        or_else (strcmp16_len n namesz EFI_SECURE_BOOT_MODE_NAME)
       (or_else (strcmp16_len n namesz EFI_SETUP_MODE_NAME)
       (or_else (strcmp16_len n namesz AUDIT_MODE_NAME)
       (or_else (strcmp16_len n namesz DEPLOYED_MODE_NAME)
                (strcmp16_len n namesz EFI_SIGNATURE_SUPPORT_NAME))))
  | _, _ => Ok false
  end.

(** [namesz == sizeof_wchar (str) && memcmp (name, str, namesz) == 0] *)
Definition name_is (name : bytes) (namesz : Z) (str : bytes) : outcome bool :=
  if namesz =? sizeof_wchar str then memcmp_eq name 0 str 0 namesz else Ok false.

Definition is_secure_boot_variable (name : option bytes) (namesz : Z) (guid : option EFI_GUID) :
    outcome bool :=
  match name, guid with
  | Some n, Some g =>
      if compare_guid g gEfiGlobalVariableGuid then
        or_else (name_is n namesz EFI_PLATFORM_KEY_NAME)
                (name_is n namesz EFI_KEY_EXCHANGE_KEY_NAME)
      else if compare_guid g gEfiImageSecurityDatabaseGuid then
        or_else (name_is n namesz EFI_IMAGE_SECURITY_DATABASE)
       (or_else (name_is n namesz EFI_IMAGE_SECURITY_DATABASE1)
                (name_is n namesz EFI_IMAGE_SECURITY_DATABASE2))
      else Ok false
  | _, _ => Ok false
  end.

(** ** Parsing

    The status or value returned; when it is a success, the request and the
    new [efi_at_runtime]. *)
Definition zero_req_name : bytes := replicate 256 x00.

Definition unserialize_get_request : M bytes (EFI_STATUS * option (request * bool)) :=
  version <- unserialize_uint32 ;;
  if negb (version =? UEFISTORED_VERSION) then ret (EFI_UNSUPPORTED, None)
  else
  command <- unserialize_uint32 ;;
  '(namesz, name) <- unserialize_data zero_req_name MAX_VARIABLE_NAME_SIZE ;;
  if s32 namesz <? 0 then ret (EFI_OUT_OF_RESOURCES, None)
  else
  guid <- unserialize_guid ;;
  buffer_size <- unserialize_uint64 ;;
  rt <- unserialize_boolean ;;
  ret (EFI_SUCCESS,
       Some (mk_request version command (s32 namesz) name (s64 buffer_size) zero_buffer guid 0,
             rt)).

Definition unserialize_set_request : M bytes (EFI_STATUS * option (request * bool)) :=
  version <- unserialize_uint32 ;;
  mlift (oassert (version =? UEFISTORED_VERSION)) ;;
  command <- unserialize_uint32 ;;
  '(namesz, name) <- unserialize_data zero_req_name MAX_VARIABLE_NAME_SIZE ;;
  if s32 namesz <? 0 then ret (EFI_OUT_OF_RESOURCES, None)
  else
  guid <- unserialize_guid ;;
  '(buffer_size, buffer) <- unserialize_data zero_buffer MAX_VARIABLE_DATA_SIZE ;;
  if buffer_size <? 0 then ret (EFI_OUT_OF_RESOURCES, None)
  else
  attrs <- unserialize_uint32 ;;
  rt <- unserialize_boolean ;;
  ret (EFI_SUCCESS,
       Some (mk_request version command (s32 namesz) name buffer_size buffer guid attrs, rt)).

Definition unserialize_get_next_request : M bytes (Z * option (request * bool)) :=
  version <- unserialize_uint32 ;;
  mlift (oassert (version =? 1)) ;;
  command <- unserialize_uint32 ;;
  buffer_size <- unserialize_uintn ;;
  '(namesz, name) <- unserialize_data zero_req_name MAX_VARIABLE_NAME_SIZE ;;
  if s32 namesz <? 0 then ret (-1, None)
  else
  guid <- unserialize_guid ;;
  rt <- unserialize_boolean ;;
  ret (0, Some (mk_request version command (s32 namesz) name (s64 buffer_size) zero_buffer guid
                  0, rt)).

Section server.
Context `{Allocator} `{OpenSSL} {E : Type} (backend : option (backend_t E)).

Definition sv_store (s : server E) : storage := au_store (sv_auth s).
Definition set_sv_auth (a : auth_state) (s : server E) : server E :=
  mk_server a (efi_at_runtime s) (comm_buf s) (sv_loglevel s) (sv_ext s).
Definition set_sv_store (st : storage) (s : server E) : server E :=
  set_sv_auth (set_store st (sv_auth s)) s.
Definition set_runtime (rt : bool) (s : server E) : server E :=
  mk_server (sv_auth s) rt (comm_buf s) (sv_loglevel s) (sv_ext s).
Definition set_comm_buf (b : bytes) (s : server E) : server E :=
  mk_server (sv_auth s) (efi_at_runtime s) b (sv_loglevel s) (sv_ext s).

Definition sv_on_store {A} (m : M storage A) : M (server E) A := mzoom sv_store set_sv_store m.

(** A reader from the start of the page, and a writer to its start. *)
Definition parse {A} (m : M bytes A) : M (server E) A :=
  s <- mget ;; '(a, _) <- mlift (m (comm_buf s)) ;; ret a.
Definition reply (m : M wbuf unit) : M (server E) unit :=
  s <- mget ;;
  out <- mlift (m (comm_buf s, 0)) ;;
  mmodify (set_comm_buf (fst (snd out))).

(** A backend call on the store and the backend's state. *)
Definition run_backend {A} (m : M (storage * E) A) : M (server E) A :=
  mzoom (fun s => (sv_store s, sv_ext s))
        (fun p s => mk_server (set_store (fst p) (sv_auth s)) (efi_at_runtime s) (comm_buf s)
                      (sv_loglevel s) (snd p)) m.

(** [backend_notify], [backend_set] of [inc/backend.h]. *)
Definition backend_notify : M (server E) Z :=
  match backend with
  | Some b => match be_notify b with Some f => run_backend f | None => ret 0 end
  | None => ret 0
  end.
Definition backend_set : M (server E) unit :=
  match backend with
  | Some b => match be_set b with Some f => run_backend f ;; ret tt | None => ret tt end
  | None => ret tt
  end.

Definition reply_status (status : EFI_STATUS) : M (server E) unit :=
  reply (serialize_result status).

Definition serialize_buffer_too_small (required_size : Z) : M wbuf unit :=
  serialize_result EFI_BUFFER_TOO_SMALL ;; serialize_uintn required_size.

(** ** GetVariable *)

(** The value returned; the reply is written when it is -1. *)
Definition serialize_get_error (var : option variable_t) (req : request) : M (server E) Z :=
  s <- mget ;;
  match var with
  | None => reply_status EFI_NOT_FOUND ;; ret (-1)
  | Some v =>
      if efi_at_runtime s && negb (has (var_attrs v) EFI_VARIABLE_RUNTIME_ACCESS) then
        reply_status EFI_NOT_FOUND ;; ret (-1)
      else if u64 (req_buffer_size req) <? var_datasz v then
        reply (serialize_buffer_too_small (var_datasz v)) ;; ret (-1)
      else ret 0
  end.

(** The variable in the slot the store returned. *)
Definition slot_var (slot : option nat) : M (server E) (option variable_t) :=
  match slot with
  | None => ret None
  | Some i => s <- mget ;; v <- mlift (slot_at (sv_store s) i) ;; ret (Some v)
  end.

(** The end of the handler: at the level DEBUG the name is compared, over its
    whole size, with the literal [L"SecureBoot"] of 22 bytes, and the first byte
    of the value is read for the message. *)
Definition debug_secure_boot (v : variable_t) : M (server E) unit :=
  s <- mget ;;
  if level_num LOGLEVEL_DEBUG <=? level_num (sv_loglevel s) then
    same <- mlift (memcmp_eq EFI_SECURE_BOOT_MODE_NAME 0 (var_name v) 0 (var_namesz v)) ;;
    if (same : bool) then
      data <- mlift (block_of (var_data v)) ;; mlift (read_le 1 data 0) ;; ret tt
    else ret tt
  else ret tt.

(** What a handler does with the request it has parsed. *)
Definition get_variable_body (r : EFI_STATUS * option (request * bool)) : M (server E) unit :=
  let '(status, parsed) := r in
  match parsed with
  | None => reply_status status
  | Some (req, rt) =>
      mmodify (set_runtime rt) ;;
      if negb (req_command req =? COMMAND_GET_VARIABLE) then reply_status EFI_DEVICE_ERROR
      else if req_namesz req <=? 0 then reply_status EFI_INVALID_PARAMETER
      else
      slot <- sv_on_store (storage_find_variable (Some (req_name req)) (req_namesz req)
                             (Some (req_guid req))) ;;
      var <- slot_var slot ;;
      r <- serialize_get_error var req ;;
      if r <? 0 then ret tt
      else
      match var with
      | None => mlift (Fault NullDeref)
      | Some v =>
          data <- mlift (block_of (var_data v)) ;;
          reply (serialize_result EFI_SUCCESS ;;
                 serialize_uint32 (var_attrs v) ;;
                 serialize_data data (var_datasz v)) ;;
          debug_secure_boot v
      end
  end.

Definition handle_get_variable : M (server E) unit :=
  r <- parse unserialize_get_request ;; get_variable_body r.

(** ** QueryVariableInfo *)
Definition query_variable_info_body (attrs : Z) : M (server E) unit :=
  if (attrs =? 0) || rt_without_bs attrs then reply_status EFI_INVALID_PARAMETER
  else
  used <- sv_on_store storage_used ;;
  reply (serialize_result EFI_SUCCESS ;;
         serialize_uint64 MAX_STORAGE_SIZE ;;
         serialize_uint64 (u64 (MAX_STORAGE_SIZE - used)) ;;
         serialize_uint64 MAX_VARIABLE_SIZE).

Definition handle_query_variable_info : M (server E) unit :=
  version <- parse unserialize_uint32 ;;
  if negb (version =? UEFISTORED_VERSION) then reply_status EFI_DEVICE_ERROR
  else
  command <- parse (unserialize_uint32 ;; unserialize_uint32) ;;
  if negb (command =? COMMAND_QUERY_VARIABLE_INFO) then reply_status EFI_DEVICE_ERROR
  else
  attrs <- parse (unserialize_uint32 ;; unserialize_uint32 ;; unserialize_uint32) ;;
  query_variable_info_body attrs.

(** ** SetVariable *)

(** The authentication services on the request's buffer. *)
Definition run_auth {A} (data : bytes) (m : M auth_state A) : M (server E) A :=
  mzoom (fun s => set_data data (sv_auth s)) set_sv_auth m.

Definition set_variable_body (r : EFI_STATUS * option (request * bool)) : M (server E) unit :=
  let '(status, parsed) := r in
  match parsed with
  | None => reply_status status
  | Some (req, rt) =>
      mmodify (set_runtime rt) ;;
      if negb (req_command req =? COMMAND_SET_VARIABLE) then reply_status EFI_DEVICE_ERROR
      else
      first <- mlift (read_le 1 (req_name req) 0) ;;
      if (first =? 0) || rt_without_bs (req_attrs req) then reply_status EFI_INVALID_PARAMETER
      else
      ro <- mlift (is_ro (Some (req_name req)) (req_namesz req) (Some (req_guid req))) ;;
      if (ro : bool) then reply_status EFI_WRITE_PROTECTED
      else
      let status := evaluate_attrs (req_attrs req) in
      if negb (status =? EFI_SUCCESS) then reply_status status
      else
      auth <-
        (if has (req_attrs req) EFI_VARIABLE_TIME_BASED_AUTHENTICATED_WRITE_ACCESS
         then ret true
         else mlift (is_secure_boot_variable (Some (req_name req)) (req_namesz req)
                       (Some (req_guid req)))) ;;
      status <-
        (if (auth : bool) then
           run_auth (req_buffer req)
             (auth_lib_process_variable (req_name req) (req_namesz req) (req_guid req)
                (req_buffer_size req) (req_attrs req))
         else
           sv_on_store (storage_set (Some (req_name req)) (req_namesz req)
                          (Some (req_guid req)) (Some (req_buffer req)) (req_buffer_size req)
                          (req_attrs req))) ;;
      (if (status =? EFI_SUCCESS) && has (req_attrs req) EFI_VARIABLE_NON_VOLATILE
       then backend_set else ret tt) ;;
      reply_status status
  end.

Definition handle_set_variable : M (server E) unit :=
  r <- parse unserialize_set_request ;; set_variable_body r.

(** ** GetNextVariableName *)
Definition get_next_variable_body (r : Z * option (request * bool)) : M (server E) unit :=
  let '(_, parsed) := r in
  match parsed with
  | None => reply_status EFI_DEVICE_ERROR
  | Some (req, rt) =>
      mmodify (set_runtime rt) ;;
      mlift (oassert (req_version req =? 1)) ;;
      mlift (oassert (req_command req =? COMMAND_GET_NEXT_VARIABLE)) ;;
      slot <- sv_on_store (storage_next_variable rt (req_name req) (req_namesz req)
                             (req_guid req)) ;;
      next <- slot_var slot ;;
      match next with
      | None => reply_status EFI_NOT_FOUND
      | Some v =>
          let required := u64 (var_namesz v + 2) in
          if u64 (req_buffer_size req) <? required
          then reply (serialize_buffer_too_small required)
          else
          reply (serialize_result EFI_SUCCESS ;;
                 serialize_name (var_name v) (var_namesz v) ;;
                 serialize_guid (var_guid v))
      end
  end.

Definition handle_get_next_variable : M (server E) unit :=
  r <- parse unserialize_get_next_request ;; get_next_variable_body r.

(** ** Dispatch

    [None] is a null [comm_buf]. *)
Definition xen_variable_server_handle_request (mapped : bool) : M (server E) unit :=
  if negb mapped then ret tt
  else
  version <- parse unserialize_uint32 ;;
  if negb (version =? 1) then reply_status EFI_DEVICE_ERROR
  else
  command <- parse (unserialize_uint32 ;; unserialize_uint32) ;;
  if command =? COMMAND_GET_VARIABLE then handle_get_variable
  else if command =? COMMAND_SET_VARIABLE then handle_set_variable
  else if command =? COMMAND_GET_NEXT_VARIABLE then handle_get_next_variable
  else if command =? COMMAND_QUERY_VARIABLE_INFO then handle_query_variable_info
  else if command =? COMMAND_NOTIFY_SB_FAILURE then
    r <- backend_notify ;;
    if r <? 0 then reply_status EFI_DEVICE_ERROR else reply_status EFI_SUCCESS
  else ret tt.

End server.
