(* ===== verification/Xapi.v ===== *)
(** * The XAPI backend

    [src/xapi.c]: the variables are saved to a file when the virtual machine is
    suspended and read back when it resumes; on every change to a non-volatile
    variable they are sent to the toolstack, as base64 text in an XML-RPC
    request over HTTP, and they are fetched from there when the machine starts.

    The host (files, the socket, the clock), OpenSSL's base64 filter and libxml2
    are classes.  The backend works on the store and on its own globals. *)
From Stdlib Require Import Strings.String.
From S2P Require Import Prelude EfiTypes Common UefiVariable Storage Serializer CText Server.

(** ** The environment *)
Inductive read_result : Type :=
  | R_bytes (b : bytes)      (** none at the end of the stream *)
  | R_interrupted            (** -1 with [EINTR] *)
  | R_failed.                (** -1 *)

Class Host (E : Type) : Type := {
  fopen_r : bytes -> E -> bool;
  fstat : bytes -> E -> option Z;            (** [st_size] *)
  fread : bytes -> Z -> E -> bytes;
  fopen_w : bytes -> E -> option E;          (** the file is truncated *)
  fwrite : bytes -> bytes -> E -> Z * E;
  sys_socket : E -> Z * E;
  sys_connect : bytes -> E -> Z * E;
  sys_write : bytes -> E -> Z * E;
  sys_read : Z -> E -> read_result * E;
  sys_close : E -> E;
  sys_time : E -> Z * E;
  sys_sleep : Z -> E -> E                    (** nanoseconds *)
}.

(** A [BIO_f_base64] filter over a memory BIO: decoding at most so many bytes
    of a text, encoding a block. *)
Class Base64 : Type := {
  BIO_base64_read : bytes -> Z -> option bytes;
  BIO_base64_write : bytes -> option bytes
}.

Class Libxml2 : Type := {
  xmlDoc : Type;
  xmlNode : Type;
  xmlReadMemory : bytes -> option xmlDoc;
  xmlXPathNewContext : xmlDoc -> bool;
  xmlXPathEvalExpression : bytes -> xmlDoc -> option (option (list xmlNode));
  xmlChildrenNode : xmlNode -> option xmlNode;
  xmlNodeGetContent : option xmlNode -> option bytes   (** with its terminator *)
}.

(** ** Constants *)
Definition XAPI_CONNECT_RETRIES : nat := 5.
Definition XAPI_CONNECT_SLEEP : Z := 3.
Definition MAX_RESPONSE_SIZE : Z := 4096.
Definition MAX_RESUME_FILE_SIZE : Z := Eval cbv in 8 * PAGE_SIZE.
Definition MSG_SIZE : Z := Eval cbv in 64 * PAGE_SIZE.
Definition SESSION_ID_SIZE : Z := 512.
Definition BUFSIZ : Z := 8192.              (** of the C library *)
Definition sizeof_sun_path : Z := 108.
Definition MAX_CREDIT : Z := 100.
Definition CREDIT_PER_SECOND : Z := 2.
Definition NS_PER_CREDIT : Z := Eval cbv in 1000000000 / CREDIT_PER_SECOND.

#[export] Hint Unfold MAX_RESPONSE_SIZE MAX_RESUME_FILE_SIZE MSG_SIZE SESSION_ID_SIZE BUFSIZ
  sizeof_sun_path MAX_CREDIT CREDIT_PER_SECOND NS_PER_CREDIT : consts.

(** ** State: the globals of the file, and the host *)
Record xapi_state (E : Type) : Type := mk_xapi {
  vm_uuid : option bytes;
  socket_path : option bytes;
  save_path : option bytes;
  resume_path : option bytes;
  last_time : Z;
  send_credit : Z;          (** [unsigned int] *)
  host : E
}.
Arguments mk_xapi {E} _ _ _ _ _ _ _.
Arguments vm_uuid {E} _.
Arguments socket_path {E} _.
Arguments save_path {E} _.
Arguments resume_path {E} _.
Arguments last_time {E} _.
Arguments send_credit {E} _.
Arguments host {E} _.

Definition set_host {E} (h : E) (x : xapi_state E) : xapi_state E :=
  mk_xapi (vm_uuid x) (socket_path x) (save_path x) (resume_path x) (last_time x)
    (send_credit x) h.
Definition set_credit {E} (t c : Z) (x : xapi_state E) : xapi_state E :=
  mk_xapi (vm_uuid x) (socket_path x) (save_path x) (resume_path x) t c (host x).

(** A call that cannot fail, on the host. *)
Definition sys {E A} (f : E -> A * E) : M (xapi_state E) A :=
  fun x => let '(a, h) := f (host x) in Ok (a, set_host h x).

(** ** The list of variables *)
Section lists.
Context `{Allocator} `{Base64}.

(** The loop of [retrieve_nonvolatile_vars]. *)
Fixpoint retrieve_nonvolatile_loop (fuel : nat) (cnt n : Z) (vars : list variable_t)
    (tmp : variable_t) : M storage (Z * list variable_t) :=
  if cnt <? n then
    match fuel with
    | O => mlift (Fault OutOfFuel)
    | S fuel' =>
        '(status, tmp) <- storage_iter tmp ;;
        if status =? EFI_DEVICE_ERROR then ret (s32 cnt, vars)
        else if status =? EFI_NOT_FOUND then ret (if cnt >? INT_MAX then -1 else s32 cnt, vars)
        else
        mlift (oassert (status =? EFI_SUCCESS)) ;;
        if has (var_attrs tmp) EFI_VARIABLE_NON_VOLATILE then
          match vars !! Z.to_nat cnt with
          | None => mlift (Fault OutOfBounds)
          | Some dst =>
              '(_, dst) <- mlift (variable_copy dst tmp) ;;
              retrieve_nonvolatile_loop fuel' (cnt + 1) n (<[Z.to_nat cnt := dst]> vars) zero_var
          end
        else retrieve_nonvolatile_loop fuel' cnt n vars tmp
    end
  else ret (if cnt >? INT_MAX then -1 else s32 cnt, vars).

(** [vars] is the array of [n] structures; the count returned and the array. *)
Definition retrieve_nonvolatile_vars (n : Z) : M storage (Z * list variable_t) :=
  retrieve_nonvolatile_loop (S (Z.to_nat MAX_VAR_COUNT)) 0 n
    (replicate (Z.to_nat n) zero_var) zero_var.

(** A failing status is returned as the count. *)
Fixpoint retrieve_loop (fuel : nat) (cnt n : Z) (vars : list variable_t) :
    M storage (Z * list variable_t) :=
  if cnt <? n then
    match fuel with
    | O => mlift (Fault OutOfFuel)
    | S fuel' =>
        match vars !! Z.to_nat cnt with
        | None => mlift (Fault OutOfBounds)
        | Some next =>
            '(status, next) <- storage_iter next ;;
            let vars := <[Z.to_nat cnt := next]> vars in
            if status =? EFI_DEVICE_ERROR then ret (s32 status, vars)
            else if status =? EFI_NOT_FOUND
            then ret (if cnt >? INT_MAX then -1 else s32 cnt, vars)
            else
            mlift (oassert (status =? EFI_SUCCESS)) ;;
            retrieve_loop fuel' (cnt + 1) n vars
        end
    end
  else ret (if cnt >? INT_MAX then -1 else s32 cnt, vars).

Definition retrieve_vars (n : Z) : M storage (Z * list variable_t) :=
  retrieve_loop (S (Z.to_nat MAX_VAR_COUNT)) 0 n (replicate (Z.to_nat n) zero_var).

(** The block returned, with [ *size]. *)
Definition variable_list_bytes (nonvolatile : bool) : M storage (option (bytes * Z)) :=
  match malloc (MAX_VAR_COUNT * sizeof_variable_t) with
  | None => mlift (Fault NullDeref)
  | Some _ =>
      '(n, vars) <- (if nonvolatile then retrieve_nonvolatile_vars MAX_VAR_COUNT
                     else retrieve_vars MAX_VAR_COUNT) ;;
      if n <=? 0 then ret None
      else
      let vars := take (Z.to_nat n) vars in
      let size := list_size vars in
      match malloc size with
      | None => ret None
      | Some block =>
          '(r, (block, _)) <- mlift (serialize_variable_list size vars (block, 0)) ;;
          ret (if r <? 0 then None else Some (block, size))
      end
  end.

Definition bytes_to_base64 (buffer : bytes) (length : Z) : outcome (option bytes) :=
  if length <=? 0 then Ok None
  else
  let* b := read_bytes buffer 0 length in
  match BIO_base64_write b with
  | None => Ok None
  | Some text =>
      match malloc (zlen text + 1) with
      | None => Ok None
      | Some b64text => let* t := write_bytes b64text 0 (text ++ [NUL]) in Ok (Some t)
      end
  end.

(** The value returned and the new contents of [plaintext]. *)
Definition base64_to_bytes (plaintext : option bytes) (n : Z) (encoded : option bytes)
    (encoded_size : Z) : outcome (Z * option bytes) :=
  match plaintext, encoded with
  | Some p, Some e =>
      if (n =? 0) || (encoded_size =? 0) then Ok (-1, plaintext)
      else
      let* text := read_bytes e 0 encoded_size in
      match BIO_base64_read text encoded_size with
      | None => Ok (-2, plaintext)
      | Some [] => Ok (-1, plaintext)
      | Some d =>
          let* p := write_bytes p 0 d in
          Ok (if zlen d >? INT_MAX then -2 else zlen d, Some p)
      end
  | _, _ => Ok (-1, plaintext)
  end.

Definition variable_list_base64 : M storage (option bytes) :=
  list_ <- variable_list_bytes true ;;
  match list_ with
  | None => ret None
  | Some (block, size) => mlift (bytes_to_base64 block size)
  end.

(** [HTTP_BODY_SET_NVRAM_VARS] with its argument, and its size. *)
Definition HTTP_BODY_SET_NVRAM_VARS (vars : option bytes) : list piece :=
  [Lit (str "<?xml version='1.0'?>" ++
        str "<methodCall>" ++
        str "<methodName>VM.set_NVRAM_EFI_variables</methodName>" ++
        str "<params>" ++
        str "<param><value><string>DUMMYSESSION</string></value></param>" ++
        str "<param><value><string>DUMMYVM</string></value></param>" ++
        str "<param><value><string>"); Str vars;
   Lit (str "</string></value></param>" ++
        str "</params>" ++
        str "</methodCall>")].

Definition sizeof_format (ps : list piece) : Z :=
  1 + foldr (fun p n => n + match p with Lit s => zlen s | Str _ => 2 | Num _ => 3 end) 0 ps.

(** The value returned and the new contents of [buffer]. *)
Definition build_set_efi_vars_message (buffer : bytes) (n : Z) : M storage (Z * bytes) :=
  base64 <- variable_list_base64 ;;
  match base64 with
  | None => ret (-1, buffer)
  | Some text =>
      base64_size <- mlift (strlen text) ;;
      let body_len := sizeof_format (HTTP_BODY_SET_NVRAM_VARS base64) + base64_size - 1 in
      match malloc body_len with
      | None => ret (-1, buffer)
      | Some body =>
          '(r, body) <- mlift (snprintf body 0 body_len (HTTP_BODY_SET_NVRAM_VARS base64)) ;;
          if r <? 0 then ret (-1, buffer)
          else
          body_len <- mlift (strlen body) ;;
          '(hdr_len, buffer) <- mlift (create_header body_len buffer 0 n) ;;
          if hdr_len <? 0 then ret (-1, buffer)
          else
          buffer <- mlift (strncpy buffer hdr_len body (u64 (n - hdr_len))) ;;
          buffer <- mlift (write_bytes buffer (body_len + hdr_len) [NUL]) ;;
          ret (0, buffer)
      end
  end.

End lists.

(** ** The socket *)
Section socket.
Context {E : Type} `{Host E}.

(** Reads that are interrupted are repeated; [interrupts] bounds how many times
    the model follows in one call. *)
Context (interrupts : nat).

(** The loop of [read_socket]: [buf] is at offset [off] of the object, [size]
    bytes are left; the result is the value returned, and where the loop left
    [buf]. *)
Fixpoint read_socket_loop (fuel : nat) (mem : bytes) (off size : Z) :
    M (xapi_state E) (option Z * bytes) :=
  if size =? 0 then ret (Some off, mem)
  else
  match fuel with
  | O => mlift (Fault OutOfFuel)
  | S fuel' =>
      r <- sys (sys_read (if size >? BUFSIZ then BUFSIZ else size)) ;;
      match r with
      | R_interrupted => read_socket_loop fuel' mem off size
      | R_failed => ret (None, mem)
      | R_bytes [] => ret (Some off, mem)
      | R_bytes b =>
          mem <- mlift (write_bytes mem off b) ;;
          read_socket_loop fuel' mem (off + zlen b) (size - zlen b)
      end
  end.

Definition read_socket (buf : bytes) (size : Z) : M (xapi_state E) (Z * bytes) :=
  '(stop, buf) <- read_socket_loop (S (Z.to_nat size + interrupts)) buf 0 size ;;
  match stop with
  | None => ret (-1, buf)
  | Some off => buf <- mlift (write_bytes buf off [NUL]) ;; ret (0, buf)
  end.

(** The value returned and the new contents of [response], which may be the
    object [message]. *)
Definition send_request (message response : bytes) (buffer_size : Z) :
    M (xapi_state E) (Z * bytes) :=
  x <- mget ;;
  match socket_path x with
  | None => ret (-1, response)
  | Some p =>
      sun_path <- mlift (read_bytes p 0 sizeof_sun_path) ;;
      fd <- sys sys_socket ;;
      if fd <? 0 then ret (fd, response)
      else
      r <- sys (sys_connect sun_path) ;;
      if r <? 0 then
        sys (fun h => (tt, sys_close h)) ;;
        sys (fun h => (tt, sys_close h)) ;;
        ret (r, response)
      else
      text <- mlift (c_string message) ;;
      r <- sys (sys_write text) ;;
      if s32 r <? 0 then sys (fun h => (tt, sys_close h)) ;; ret (s32 r, response)
      else
      '(r, response) <- read_socket response buffer_size ;;
      if r <? 0 then sys (fun h => (tt, sys_close h)) ;; ret (r, response)
      else
      status <- mlift (http_status (Some response)) ;;
      sys (fun h => (tt, sys_close h)) ;;
      ret (if status =? 200 then 0 else -1, response)
  end.

(** Sends are limited to [MAX_CREDIT] at once and [CREDIT_PER_SECOND] on
    average. *)
Definition throttle : M (xapi_state E) unit :=
  cur_time <- sys sys_time ;;
  x <- mget ;;
  let diff_time := s64 (cur_time - last_time x) in
  let credit := u32 (send_credit x + diff_time * CREDIT_PER_SECOND) in
  let credit := if credit >? MAX_CREDIT then MAX_CREDIT else credit in
  mmodify (set_credit cur_time credit) ;;
  if credit >? 0 then mmodify (set_credit cur_time (credit - 1))
  else
    sys (fun h => (tt, sys_sleep NS_PER_CREDIT h)) ;;
    now <- sys sys_time ;;
    mmodify (set_credit now credit).

(** [xapi_connect]'s request; its length is a literal. *)
Definition LOGIN_BODY (decl : bytes) : list piece :=
  [Lit (decl ++
        str "<methodCall>" ++
        str "<methodName>session.login_with_password</methodName>" ++
        str "<params>" ++
        str "<param><value><string>root</string></value></param>" ++
        str "<param><value><string></string></value></param>" ++
        str "<param><value><string></string></value></param>" ++
        str "<param><value><string></string></value></param>" ++
        str "</params>" ++
        str "</methodCall>")].

Definition HTTP_LOGIN : list piece := HTTP_HEADER 307 ++ LOGIN_BODY (str "<?xml version='1.0'?>").

(** The local [response] is overwritten before it is read. *)
Fixpoint xapi_connect_loop (retries : nat) (r : Z) : M (xapi_state E) Z :=
  match retries with
  | O => ret r
  | S retries' =>
      text <- mlift (format HTTP_LOGIN) ;;
      '(r, _) <- send_request (text ++ [NUL]) (replicate (Z.to_nat MAX_RESPONSE_SIZE) NUL)
                   MAX_RESPONSE_SIZE ;;
      if r =? 0 then ret r
      else
        sys (fun h => (tt, sys_sleep (XAPI_CONNECT_SLEEP * 1000000000) h)) ;;
        xapi_connect_loop retries' r
  end.

Definition xapi_connect : M (xapi_state E) Z := xapi_connect_loop XAPI_CONNECT_RETRIES (-1).

Section requests.
Context `{Allocator} `{Libxml2}.

Definition ENOMEM : Z := 12.

(** [message] and [body] are the two halves of one block. *)
Definition xapi_request (response : bytes) (response_sz : Z) (ps : list piece) :
    M (xapi_state E) (Z * bytes) :=
  match malloc (2 * MSG_SIZE) with
  | None => ret (- ENOMEM, response)
  | Some _ =>
      let block := replicate (Z.to_nat (2 * MSG_SIZE)) NUL in
      '(r, block) <- mlift (snprintf block MSG_SIZE MSG_SIZE ps) ;;
      if r <? 0 then ret (r, response)
      else
      '(hdr_len, block) <- mlift (create_header r block 0 MSG_SIZE) ;;
      if hdr_len <? 0 then ret (-1, response)
      else
      message <- mlift (strncat block (drop (Z.to_nat MSG_SIZE) block)
                          (u64 (MSG_SIZE - hdr_len))) ;;
      send_request message response response_sz
  end.

(** *** Responses *)

(** The first node of a node set: [obj->nodesetval->nodeTab[0]]. *)
Definition first_node (nodes : option (list xmlNode)) : outcome xmlNode :=
  match nodes with
  | Some (n :: _) => Ok n
  | _ => Fault NullDeref
  end.

Definition MEMBER_1 : bytes :=
  str "/methodResponse/params/param/value/struct/member[1]/value".
Definition MEMBER_2 : bytes :=
  str "/methodResponse/params/param/value/struct/member[2]/value".
Definition EFI_VARIABLES : bytes :=
  str "/methodResponse/params/param/value/struct/member/value/struct/member[name=" ++
  [x22] ++ str "EFI-variables" ++ [x22] ++ str "]/value".

Definition SUCCESS_TEXT : bytes := str "Success" ++ [NUL].

Definition success (xml : option bytes) : outcome bool :=
  match xml with
  | None => Ok false
  | Some x =>
      let* len := strlen x in
      let* text := read_bytes x 0 (len + 1) in
      match xmlReadMemory text with
      | None => Ok false
      | Some doc =>
          if negb (xmlXPathNewContext doc) then Ok false
          else
          match xmlXPathEvalExpression MEMBER_1 doc with
          | None => Ok false
          | Some nodes =>
              let* node := first_node nodes in
              match xmlNodeGetContent (xmlChildrenNode node) with
              | None => Ok false
              | Some string => memcmp_eq string 0 SUCCESS_TEXT 0 8
              end
          end
      end
  end.

(** The value returned and the new contents of [dest]. *)
Definition get_value (body dest : option bytes) (n : Z) : outcome (Z * option bytes) :=
  match body, dest with
  | Some b, Some d =>
      let* text := c_string b in
      match xmlReadMemory text with
      | None => Ok (-1, dest)
      | Some doc =>
          if negb (xmlXPathNewContext doc) then Ok (-1, dest)
          else
          match xmlXPathEvalExpression MEMBER_2 doc with
          | None => Ok (-1, dest)
          | Some nodes =>
              let* node := first_node nodes in
              match xmlNodeGetContent (Some node) with
              | None => Ok (-1, dest)
              | Some string => let* d := strncpy d 0 string n in Ok (0, Some d)
              end
          end
      end
  | _, _ => Ok (-1, dest)
  end.

Definition get_response_content (response outstr : option bytes) (n : Z) :
    outcome (Z * option bytes) :=
  match response, outstr with
  | Some _, Some _ =>
      if n =? 0 then Ok (-1, outstr)
      else
      let* body := response_body response in
      let* ok := success body in
      if negb ok then Ok (-2, outstr) else get_value body outstr n
  | _, _ => Ok (-1, outstr)
  end.

(** [xmlNodeGetContent]'s result is not tested here. *)
Definition base64_from_response_body (buffer : option bytes) (n : Z) (body : option bytes) :
    outcome (Z * option bytes) :=
  match body, buffer with
  | Some b, Some d =>
      let* len := strlen b in
      let* text := read_bytes b 0 (len + 1) in
      match xmlReadMemory text with
      | None => Ok (-1, buffer)
      | Some doc =>
          if negb (xmlXPathNewContext doc) then Ok (-1, buffer)
          else
          match xmlXPathEvalExpression MEMBER_1 doc with
          | None => Ok (-1, buffer)
          | Some nodes =>
              let* node := first_node nodes in
              match xmlNodeGetContent (Some node) with
              | None => Fault NullDeref
              | Some string =>
                  let* same := memcmp_eq string 0 SUCCESS_TEXT 0 8 in
                  if negb same then Ok (-1, buffer)
                  else
                  match xmlXPathEvalExpression EFI_VARIABLES doc with
                  | None | Some None => Ok (-1, buffer)
                  | Some nodes =>
                      let* node := first_node nodes in
                      match xmlNodeGetContent (Some node) with
                      | None => Fault NullDeref
                      | Some string => let* d := strncpy d 0 string n in Ok (0, Some d)
                      end
                  end
              end
          end
      end
  | _, _ => Ok (-1, buffer)
  end.

Definition base64_from_response (buffer : option bytes) (n : Z) (response : option bytes) :
    outcome (Z * option bytes) :=
  let* body := response_body response in
  match body with
  | None => Ok (-1, buffer)
  | Some _ => base64_from_response_body buffer n body
  end.

(** *** Sessions *)
Definition XML_DECL : bytes := str "<?xmlversion='1.0'?>".

(** [response[1024] = { 0 }] *)
Definition small_response : bytes := replicate 1024 NUL.

Definition xapi_vm_get_by_uuid (session_id : option bytes) : M (xapi_state E) Z :=
  match session_id with
  | None => ret (-1)
  | Some _ =>
      x <- mget ;;
      '(status, response) <- xapi_request small_response 1024
        [Lit (XML_DECL ++
              str "<methodCall>" ++
              str "<methodName>VM.get_by_uuid</methodName>" ++
              str "<params>" ++
              str "<param><value><string>"); Str session_id;
         Lit (str "</string></value></param>" ++
              str "<param><value><string>"); Str (vm_uuid x);
         Lit (str "</string></value></param>" ++
              str "</params>" ++
              str "</methodCall>")] ;;
      if negb (status =? 0) then ret (-1)
      else
      ok <- mlift (let* body := response_body (Some response) in success body) ;;
      ret (if ok then 0 else -1)
  end.

(** The value returned and the new contents of [session_id]. *)
Definition session_login (session_id : option bytes) (n : Z) :
    M (xapi_state E) (Z * option bytes) :=
  match session_id with
  | None => ret (-1, session_id)
  | Some _ =>
      '(status, response) <- xapi_request small_response 1024 (LOGIN_BODY XML_DECL) ;;
      if negb (status =? 0) then ret (-1, session_id)
      else
      '(r, session_id) <- mlift (get_response_content (Some response) session_id n) ;;
      ret (if r <? 0 then -1 else 0, session_id)
  end.

Fixpoint session_login_loop (retries : nat) (r : Z) (out : option bytes) (n : Z) :
    M (xapi_state E) (Z * option bytes) :=
  match retries with
  | O => ret (r, out)
  | S retries' =>
      if r <? 0 then
        sys (fun h => (tt, sys_sleep 100000000 h)) ;;
        '(r, out) <- session_login out n ;;
        session_login_loop retries' r out n
      else ret (r, out)
  end.

Definition session_login_retry (out : option bytes) (n : Z) :
    M (xapi_state E) (Z * option bytes) :=
  match out with
  | None => ret (-1, out)
  | Some _ =>
      '(r, out) <- session_login out n ;;
      session_login_loop 5 r out n
  end.

Definition session_logout (session_id : option bytes) : M (xapi_state E) Z :=
  '(status, response) <- xapi_request small_response 1024
    [Lit (XML_DECL ++
          str "<methodCall>" ++
          str "<methodName>session.logout</methodName>" ++
          str "<params>" ++
          str "<param><value><string>"); Str session_id;
     Lit (str "</string></value></param>" ++
          str "</params>" ++
          str "</methodCall>")] ;;
  if negb (status =? 0) then ret (-1)
  else
  ok <- mlift (let* body := response_body (Some response) in success body) ;;
  ret (if ok then 0 else -1).

(** The local [session_id] is written to its end before it is read. *)
Definition new_session_id : option bytes := Some (replicate (Z.to_nat SESSION_ID_SIZE) NUL).

Definition xapi_get_nvram (session_id : option bytes) (buffer : option bytes) (n : Z) :
    M (xapi_state E) (Z * option bytes) :=
  match malloc MSG_SIZE with
  | None => ret (- ENOMEM, buffer)
  | Some _ =>
      x <- mget ;;
      '(status, response) <- xapi_request (replicate (Z.to_nat MSG_SIZE) NUL) MSG_SIZE
        [Lit (XML_DECL ++
              str "<methodCall>" ++
              str "<methodName>VM.get_NVRAM</methodName>" ++
              str "<params>" ++
              str "<param><value><string>"); Str session_id;
         Lit (str "</string></value></param>" ++
              str "<param><value><string>"); Str (vm_uuid x);
         Lit (str "</string></value></param>" ++
              str "</params>" ++
              str "</methodCall>")] ;;
      if negb (status =? 0) then ret (-1, buffer)
      else
      '(status, buffer) <- mlift (base64_from_response buffer n (Some response)) ;;
      ret (if negb (status =? 0) then -1 else status, buffer)
  end.

(** [MESSAGE_CREATE] with its arguments. *)
Definition MESSAGE_CREATE (session_id name : option bytes) (priority : Z)
    (cls uuid text : option bytes) : list piece :=
  let value p := [Lit (str "<param><value><string>"); Str p; Lit (str "</string></value></param>")] in
  [Lit (str "<?xml version='1.0'?>" ++
        str "<methodCall>" ++
        str "<methodName>message.create</methodName>" ++
        str "<params>")] ++
  value session_id ++ value name ++
  [Lit (str "<param><value><int>"); Num priority; Lit (str "</int></value></param>")] ++
  value cls ++ value uuid ++ value text ++
  [Lit (str "</params>" ++ str "</methodCall>")].

Definition literal (s : string) : option bytes := Some (str s ++ [NUL]).

Definition xapi_notify : M (xapi_state E) Z :=
  '(r, session_id) <- session_login_retry new_session_id SESSION_ID_SIZE ;;
  if r <? 0 then ret (-1)
  else
  x <- mget ;;
  '(r, _) <- xapi_request (replicate (Z.to_nat MAX_RESPONSE_SIZE) NUL) MAX_RESPONSE_SIZE
    (MESSAGE_CREATE session_id (literal "VM_SECURE_BOOT_FAILED") 5 (literal "VM") (vm_uuid x)
       (literal "The VM failed to pass Secure Boot verification")) ;;
  ret r.

Context `{Base64}.

(** The value returned and the array.  The decoded bytes and the base64 text
    are the two halves of one block. *)
Definition xapi_variables_request (vars : list variable_t) (n : Z) :
    M (xapi_state E) (Z * list variable_t) :=
  '(r, session_id) <- session_login_retry new_session_id SESSION_ID_SIZE ;;
  if r <? 0 then ret (0, vars)
  else
  r <- xapi_vm_get_by_uuid session_id ;;
  if r <? 0 then ret (0, vars)
  else
  match malloc (2 * MSG_SIZE) with
  | None => ret (- ENOMEM, vars)
  | Some _ =>
      '(r, b64) <- xapi_get_nvram session_id (Some (replicate (Z.to_nat MSG_SIZE) NUL))
                     MSG_SIZE ;;
      if r <? 0 then ret (0, vars)
      else
      session_logout session_id ;;
      match b64 with
      | None => mlift (Fault NullDeref)
      | Some text =>
          len <- mlift (strlen text) ;;
          '(r, plaintext) <- mlift (base64_to_bytes
              (Some (replicate (Z.to_nat MSG_SIZE) NUL ++ text)) MSG_SIZE b64 len) ;;
          if r <? 0 then ret (r, vars)
          else
          '(r, vars') <- mlift (from_bytes_to_vars (Some vars) n plaintext r) ;;
          ret (r, default vars vars')
      end
  end.

(** The array of [n] structures is [vars]. *)
Definition xapi_variables_read_file (vars : list variable_t) (n : Z) (fname : option bytes) :
    M (xapi_state E) (Z * list variable_t) :=
  match fname with
  | None => ret (0, vars)
  | Some f =>
      path <- mlift (c_string f) ;;
      x <- mget ;;
      if negb (fopen_r path (host x)) then ret (0, vars)
      else
      match fstat path (host x) with
      | None => ret (0, vars)
      | Some st_size =>
          if st_size >? MAX_RESUME_FILE_SIZE then ret (0, vars)
          else
          match malloc st_size with
          | None => ret (0, vars)
          | Some mem =>
              let content := fread path st_size (host x) in
              mem <- mlift (write_bytes mem 0 content) ;;
              if negb (zlen content =? st_size) then ret (0, vars)
              else
              '(r, vars') <- mlift (from_bytes_to_vars (Some vars) n (Some mem) (zlen content)) ;;
              ret (r, default vars vars')
          end
      end
  end.

(** ** The backend's functions, on the store and the globals *)
Definition on_storage {A} (m : M storage A) : M (storage * xapi_state E) A :=
  mzoom fst (fun st s => (st, snd s)) m.
Definition on_xapi {A} (m : M (xapi_state E) A) : M (storage * xapi_state E) A :=
  mzoom snd (fun x s => (fst s, x)) m.

(** One variable read back. *)
Definition restore_variable (var : variable_t) : M storage EFI_STATUS :=
  if has (var_attrs var) EFI_VARIABLE_TIME_BASED_AUTHENTICATED_WRITE_ACCESS then
    storage_set_with_timestamp (Some (var_name var)) (var_namesz var) (Some (var_guid var))
      (var_data var) (var_datasz var) (var_attrs var) (Some (var_timestamp var))
  else
    storage_set (Some (var_name var)) (var_namesz var) (Some (var_guid var)) (var_data var)
      (var_datasz var) (var_attrs var).

(** The loop of [xapi_init]. *)
Fixpoint restore_variables (vars : list variable_t) : M storage unit :=
  match vars with
  | [] => ret tt
  | var :: vars' =>
      status <- restore_variable var ;;
      mlift (oassert (status =? EFI_SUCCESS)) ;;
      restore_variables vars'
  end.

Definition xapi_init (resume : bool) : M (storage * xapi_state E) Z :=
  match malloc (MAX_VAR_COUNT * sizeof_variable_t) with
  | None => ret (-1)
  | Some _ =>
      s <- mget ;;
      match vm_uuid (snd s) with
      | None => ret (-1)
      | Some _ =>
          let variables := replicate (Z.to_nat MAX_VAR_COUNT) zero_var in
          '(r, variables) <- on_xapi
             (if resume
              then xapi_variables_read_file variables MAX_VAR_COUNT (resume_path (snd s))
              else xapi_variables_request variables MAX_VAR_COUNT) ;;
          if r <? 0 then ret r
          else
          on_storage (restore_variables (take (Z.to_nat r) variables)) ;;
          ret 0
      end
  end.

Definition xapi_set : M (storage * xapi_state E) Z :=
  on_xapi throttle ;;
  match malloc MSG_SIZE with
  | None => ret (- ENOMEM)
  | Some _ =>
      '(r, buffer) <- on_storage (build_set_efi_vars_message
                        (replicate (Z.to_nat MSG_SIZE) NUL) MSG_SIZE) ;;
      if r <? 0 then ret r
      else
      '(r, _) <- on_xapi (send_request buffer buffer MSG_SIZE) ;;
      ret r
  end.

(** The file is truncated before the list is made. *)
Definition xapi_save : M (storage * xapi_state E) Z :=
  s <- mget ;;
  match save_path (snd s) with
  | None => ret (-1)
  | Some p =>
      path <- mlift (c_string p) ;;
      match fopen_w path (host (snd s)) with
      | None => ret (-1)
      | Some h =>
          on_xapi (mmodify (set_host h)) ;;
          list_ <- on_storage (variable_list_bytes false) ;;
          match list_ with
          | None => ret (-1)
          | Some (block, size) =>
              b <- mlift (read_bytes block 0 size) ;;
              n <- on_xapi (sys (fwrite path b)) ;;
              ret (if n =? size then 0 else -1)
          end
      end
  end.

(** The blocks are freed; the pointers stay. *)
Definition xapi_cleanup : M (storage * xapi_state E) unit := ret tt.

Definition xapidb : backend_t (xapi_state E) :=
  mk_backend _ (Some xapi_init) (Some (on_xapi xapi_notify)) (Some xapi_save) (Some xapi_set)
    (Some xapi_cleanup).

End requests.
End socket.

(** The copy that [strdup] makes of a string. *)
Definition strdup (s : bytes) : outcome bytes := let* cs := c_string s in Ok (cs ++ [NUL]).

(** The value returned and the globals.  [strdup] is taken to succeed. *)
Definition xapi_parse_arg {E} (arg : bytes) (x : xapi_state E) : outcome (Z * xapi_state E) :=
  let after prefix :=
    let* p := strstr arg prefix in
    match p with
    | None => Ok None
    | Some p => let* s := strdup (drop (length prefix) p) in Ok (Some s)
    end in
  let* socket := after (str "socket:") in
  match socket with
  | Some s =>
      Ok (0, mk_xapi (vm_uuid x) (Some s) (save_path x) (resume_path x) (last_time x)
               (send_credit x) (host x))
  | None =>
  let* uuid := after (str "uuid:") in
  match uuid with
  | Some s =>
      let* (off, s) := strstrip s in
      Ok (0, mk_xapi (Some (drop (Z.to_nat off) s)) (socket_path x) (save_path x)
               (resume_path x) (last_time x) (send_credit x) (host x))
  | None =>
  let* save := after (str "save:") in
  match save with
  | Some s =>
      Ok (0, mk_xapi (vm_uuid x) (socket_path x) (Some s) (resume_path x) (last_time x)
               (send_credit x) (host x))
  | None =>
  let* resume := after (str "resume:") in
  match resume with
  | Some s =>
      Ok (0, mk_xapi (vm_uuid x) (socket_path x) (save_path x) (Some s) (last_time x)
               (send_credit x) (host x))
  | None => Ok (-1, x)
  end end end end.
