(* ===== verification/XapiSamples.v ===== *)
(** * Sample environment for the XAPI backend

    A host with one file, a scripted peer and a clock; base64 as the standard
    has it; an XML library for which every document reports success. *)
From Stdlib Require Import Strings.String.
From S2P Require Import Prelude EfiTypes Common UefiVariable Storage CText Server Xapi.

(** ** The host *)
Record toy_env : Type := mk_env {
  env_file : option bytes;
  env_incoming : list read_result;
  env_sent : bytes;
  env_clock : Z              (** nanoseconds *)
}.

Definition set_file (f : option bytes) (e : toy_env) : toy_env :=
  mk_env f (env_incoming e) (env_sent e) (env_clock e).

Definition toy_host : Host toy_env := {|
  fopen_r path e := match env_file e with Some _ => true | None => false end;
  fstat path e := zlen <$> env_file e;
  fread path n e := take (Z.to_nat n) (default [] (env_file e));
  fopen_w path e := Some (set_file (Some []) e);
  fwrite path b e := (zlen b, set_file (Some b) e);
  sys_socket e := (3, e);
  sys_connect p e := (0, e);
  sys_write b e := (zlen b, mk_env (env_file e) (env_incoming e) b (env_clock e));
  sys_read n e :=
    match env_incoming e with
    | [] => (R_bytes [], e)
    | r :: rs => (r, mk_env (env_file e) rs (env_sent e) (env_clock e))
    end;
  sys_close e := e;
  sys_time e := (env_clock e / 1000000000, e);
  sys_sleep ns e := mk_env (env_file e) (env_incoming e) (env_sent e) (env_clock e + ns)
|}.

Definition empty_env : toy_env := mk_env None [] [] 1000000000000.

(** The backend's globals at the start, with all the paths configured. *)
Definition toy_text : bytes := str "/tmp/vm".
Definition toy_path : bytes := toy_text ++ [NUL].
Definition sample_xapi (e : toy_env) : xapi_state toy_env :=
  mk_xapi (Some (str "42" ++ [NUL])) (Some (replicate 107 x61 ++ [NUL])) (Some toy_path)
    (Some toy_path) 0 MAX_CREDIT e.

(** ** Base64 *)
Definition b64_alphabet : bytes :=
  str "ABCDEFGHIJKLMNOPQRSTUVWXYZabcdefghijklmnopqrstuvwxyz0123456789+/".
Definition b64_char (n : Z) : byte := default x3d (b64_alphabet !! Z.to_nat n).

Fixpoint b64_encode (b : bytes) : bytes :=
  match b with
  | x :: y :: z :: r =>
      let n := Z_of_byte x * 65536 + Z_of_byte y * 256 + Z_of_byte z in
      [b64_char (n / 262144); b64_char (n / 4096 mod 64); b64_char (n / 64 mod 64);
       b64_char (n mod 64)] ++ b64_encode r
  | [x; y] =>
      let n := Z_of_byte x * 1024 + Z_of_byte y * 4 in
      [b64_char (n / 4096); b64_char (n / 64 mod 64); b64_char (n mod 64); x3d]
  | [x] =>
      let n := Z_of_byte x * 16 in
      [b64_char (n / 64); b64_char (n mod 64); x3d; x3d]
  | [] => []
  end.

Definition b64_value (c : byte) : Z :=
  match list_find (fun d => d = c) b64_alphabet with Some (i, _) => Z.of_nat i | None => 0 end.

Fixpoint b64_decode (t : bytes) : bytes :=
  match t with
  | a :: b :: c :: d :: r =>
      let n := b64_value a * 262144 + b64_value b * 4096 + b64_value c * 64 + b64_value d in
      (if bool_decide (c = x3d) then [byte_of_Z (n / 65536)]
       else if bool_decide (d = x3d) then [byte_of_Z (n / 65536); byte_of_Z (n / 256)]
       else [byte_of_Z (n / 65536); byte_of_Z (n / 256); byte_of_Z n]) ++ b64_decode r
  | _ => []
  end.

Definition toy_base64 : Base64 := {|
  BIO_base64_read t n := Some (b64_decode (take (Z.to_nat n) t));
  BIO_base64_write b := Some (b64_encode b)
|}.

Example b64_Man : b64_encode (str "Ma") = str "TWE=".
Proof. reflexivity. Qed.

Lemma b64_char_nonzero n : b64_char n <> NUL.
Proof.
  unfold b64_char. destruct (b64_alphabet !! Z.to_nat n) as [c|] eqn:E; [|done].
  apply list_elem_of_lookup_2 in E.
  assert (F : Forall (fun c => c <> NUL) b64_alphabet) by by apply (bool_decide_unpack _).
  by apply (proj1 (Forall_forall _ _) F).
Qed.

(** The text has four characters for every three bytes, and no zero. *)
Lemma b64_encode_text b :
  4 * zlen b <= 3 * zlen (b64_encode b) <= 4 * zlen b + 8 /\ Forall (fun c => c <> NUL) (b64_encode b).
Proof.
  induction b as [b IH] using (induction_ltof1 _ (@length byte)). unfold ltof in IH.
  destruct b as [|x [|y [|z r]]]; cbn [b64_encode].
  - done.
  - split; [done|]. repeat constructor; apply b64_char_nonzero || done.
  - split; [done|]. repeat constructor; apply b64_char_nonzero || done.
  - destruct (IH r) as [Hl Hf]; [cbn; lia|].
    rewrite zlen_app, !zlen_cons, zlen_nil. split; [lia|].
    repeat constructor; try apply b64_char_nonzero. exact Hf.
Qed.

(** ** XML *)
Definition toy_libxml2 : Libxml2 := {|
  xmlDoc := unit;
  xmlNode := unit;
  xmlReadMemory b := Some tt;
  xmlXPathNewContext d := true;
  xmlXPathEvalExpression p d := Some (Some [tt]);
  xmlChildrenNode n := Some tt;
  xmlNodeGetContent n := Some SUCCESS_TEXT
|}.
