(* ===== verification/Persistence.v ===== *)
(** * Saving the variables and reading them back

    [storage_iter] visits the slots in use, except the last slot of the array;
    the list that [variable_list_bytes] makes of them; and what a store saved
    to a file is after the machine resumes. *)
From S2P Require Import Prelude EfiTypes Common UefiVariable Storage StorageInv StorageSpec.
From S2P Require Import Samples StorageTrace Serializer SerializerSpec CText Server Xapi.
From S2P Require Import XapiSamples.

(** ** Copies of variables *)

(** What [variable_copy] makes of a variable in a zeroed structure: the time
    stamp and the digest of the signer are not copied. *)
Definition saved (v : variable_t) : variable_t :=
  mk_var (var_name v) (var_namesz v) (var_data v) (var_datasz v) (var_guid v) (var_attrs v)
    zero_time zero_cert.

(** ... and in a structure that has been copied to before. *)
Definition copied (dst v : variable_t) : variable_t :=
  mk_var (take (Z.to_nat (var_namesz v)) (var_name v)
          ++ drop (Z.to_nat (var_namesz v)) (var_name dst))
    (var_namesz v) (var_data v) (var_datasz v) (var_guid v) (var_attrs v) zero_time zero_cert.

Record blank (v : variable_t) : Prop := {
  bl_name : zlen (var_name v) = 256;
  bl_data : data_ok v;
  bl_guid : zlen (var_guid v) = 16;
  bl_time : var_timestamp v = zero_time;
  bl_cert : var_cert v = zero_cert
}.

Lemma zero_var_blank : blank zero_var.
Proof. by constructor. Qed.

Lemma saved_live v : live_wf v -> live_wf (saved v).
Proof. intros []. by constructor. Qed.

Lemma saved_canonical v : canonical v -> canonical (saved v).
Proof. by intros []; constructor. Qed.

Lemma zlen_copied_name dst v : blank dst -> live_wf v -> zlen (var_name (copied dst v)) = 256.
Proof.
  intros Hd Hv. pose proof (lw_name _ Hv). pose proof (lw_namesz _ Hv). pose proof (bl_name _ Hd).
  cbn [var_name copied]. zlia.
Qed.

Lemma copied_char dst v i :
  live_wf v -> 0 <= 2 * i -> 2 * i + 2 <= var_namesz v ->
  char_at (var_name (copied dst v)) i = char_at (var_name v) i.
Proof.
  intros Hv H0 Hi. pose proof (lw_name _ Hv). pose proof (lw_namesz _ Hv).
  apply (char_at_prefix _ _ (var_namesz v)); [|lia|lia].
  cbn [var_name copied]. rewrite take_app_length'; [done|].
  rewrite length_take. unfold zlen in *. lia.
Qed.

Lemma copied_live dst v : blank dst -> live_wf v -> live_wf (copied dst v).
Proof.
  intros Hd Hv. pose proof (zlen_copied_name _ _ Hd Hv).
  pose proof (copied_char dst v 0 Hv ltac:(lia)) as Hc.
  pose proof (lw_namesz _ Hv). constructor; try apply Hv; try done.
  rewrite Hc by lia. apply Hv.
Qed.

Lemma copied_blank dst v : blank dst -> live_wf v -> blank (copied dst v).
Proof.
  intros Hd Hv. constructor; [by apply zlen_copied_name| |apply Hv|done|done].
  unfold data_ok. cbn [copied var_data var_datasz].
  destruct (lw_data _ Hv) as (d & -> & Hl). done.
Qed.

Lemma copied_zero v : live_wf v -> canonical v -> copied zero_var v = saved v.
Proof.
  intros Hv [_ Hp]. pose proof (lw_namesz _ Hv). unfold copied, saved. f_equal.
  rewrite Hp at 2. f_equal. cbn [var_name zero_var]. unfold zero_name.
  rewrite drop_replicate. f_equal. lia.
Qed.

Lemma copied_last dst v :
  live_wf v -> canonical v ->
  char_at (var_name (copied dst v)) (var_namesz v / 2 - 1) <> 0.
Proof.
  intros Hv [Hc _]. pose proof (lw_namesz _ Hv).
  pose proof (Z.div_mod (var_namesz v) 2). pose proof (Z.mod_pos_bound (var_namesz v) 2).
  by rewrite copied_char by (done || lia).
Qed.

Lemma copied_again dst v :
  live_wf v -> canonical v -> copied zero_var (copied dst v) = saved v.
Proof.
  intros Hv Hc. rewrite <-(copied_zero v) by done. pose proof (lw_name _ Hv).
  pose proof (lw_namesz _ Hv). unfold copied.
  cbn [var_name var_namesz var_data var_datasz var_guid var_attrs]. f_equal. f_equal.
  rewrite take_app_length'; [done|]. rewrite length_take. unfold zlen in *. lia.
Qed.

(** ** The slots reported *)

(** The slots [storage_iter] reports: all but the last. *)
Definition reported (s : storage) : list variable_t := take 127 (variables s).

Lemma set_iter_inv i s : storage_inv s -> 0 <= i <= 128 -> storage_inv (set_iter i s).
Proof. intros [[] ? ?] Hi. constructor; [constructor|..]; done. Qed.

(** What follows the variable that [storage_iter] reports. *)
Lemma reported_step s idx k v :
  storage_inv s -> list_find (fun v => live v = true) (drop idx (reported s)) = Some (k, v) ->
  live_wf v /\ canonical v /\ (idx + k + 1 <= 127)%nat /\
  drop (S k) (drop idx (reported s)) = drop (idx + k + 1) (reported s).
Proof.
  intros Hs (Hk & Hl & _)%list_find_Some. pose proof (lookup_lt_Some _ _ _ Hk) as Hlt.
  assert (Hv : variables s !! (idx + k)%nat = Some v).
  { unfold reported in Hk, Hlt. rewrite lookup_drop in Hk.
    rewrite length_drop, length_take in Hlt. by rewrite lookup_take_lt in Hk by lia. }
  unfold reported in Hlt. rewrite length_drop, length_take in Hlt. split_and!; [| |lia|].
  - apply slot_wf_live; [exact (slot_wf_lookup _ _ _ Hs Hv)|done].
  - by eapply slot_canonical_live.
  - rewrite drop_drop. f_equal. lia.
Qed.

(** The copies of the variables reported from slot [idx] on. *)
Definition copies (P : variable_t -> Prop) `{!forall v, Decision (P v)} (idx : nat)
    (s : storage) : list variable_t :=
  saved <$> filter P (drop idx (reported s)).

(** The variables that are sent to the toolstack. *)
Definition nonvolatile (v : variable_t) : Prop :=
  live v = true /\ has (var_attrs v) EFI_VARIABLE_NON_VOLATILE = true.
#[export] Instance nonvolatile_dec v : Decision (nonvolatile v).
Proof. unfold nonvolatile. apply _. Defined.

Lemma insert_next (acc : list variable_t) k v :
  (0 < k)%nat ->
  <[length acc := v]> (acc ++ replicate k zero_var) = (acc ++ [v]) ++ replicate (k - 1) zero_var.
Proof.
  intros Hk. destruct k as [|k]; [lia|]. rewrite insert_app_r_alt, Nat.sub_diag by lia.
  cbn [replicate insert list_insert]. rewrite <-app_assoc. cbn. by rewrite Nat.sub_0_r.
Qed.

Lemma lookup_next (acc : list variable_t) k :
  (0 < k)%nat -> (acc ++ replicate k zero_var) !! length acc = Some zero_var.
Proof. intros Hk. rewrite lookup_app_r, Nat.sub_diag by lia. by destruct k; [lia|]. Qed.

Section copies.
Context `{Allocator} (G : grants MAX_VARIABLE_DATA_SIZE).
#[local] Set Default Proof Using "Type*".

Lemma copy_ok dst v :
  blank dst -> live_wf v -> char_at (var_name v) (var_namesz v / 2 - 1) <> 0 ->
  variable_copy dst v = Ok (0, copied dst v).
Proof.
  intros Hd Hv Hc. rewrite variable_copy_ok by (done || apply Hd).
  unfold sanitized. rewrite (proj2 (Z.eqb_neq _ _) Hc).
  by rewrite (bl_time _ Hd), (bl_cert _ Hd).
Qed.

(** ** [storage_iter] *)
Lemma storage_iter_loop_ok fuel vars idx dst :
  length vars = 128%nat -> Forall slot_wf vars -> Forall slot_canonical vars -> blank dst ->
  (idx <= 128)%nat -> (128 <= idx + fuel)%nat ->
  storage_iter_loop fuel vars (Z.of_nat idx) dst
  = Ok match list_find (fun v => live v = true) (drop idx vars) with
       | Some (k, v) => (inr (copied dst v), Z.of_nat (idx + k + 1))
       | None => (inr dst, 128)
       end.
Proof.
  intros Hlen Hw Hc Hd. revert idx. induction fuel as [|fuel IH]; intros idx Hi Hf.
  - assert (idx = 128%nat) as -> by lia. rewrite drop_ge by lia. done.
  - destruct (decide (idx = 128%nat)) as [->|Hne]; [rewrite drop_ge by lia; done|].
    cbn [storage_iter_loop]. change MAX_VAR_COUNT with 128. zb. rewrite Nat2Z.id.
    destruct (lookup_lt_is_Some_2 vars idx) as [v Hv]; [lia|]. rewrite Hv.
    pose proof (Forall_lookup_1 _ _ _ _ Hw Hv) as Hwv.
    pose proof (Forall_lookup_1 _ _ _ _ Hc Hv) as Hcv.
    rewrite variable_is_valid_ok by done. cbn [obind].
    rewrite (drop_S _ _ _ Hv). cbn [list_find].
    destruct (live v) eqn:Hl; cbn [negb].
    + unfold slot_wf, slot_canonical in *. rewrite Hl in Hwv, Hcv.
      rewrite copy_ok by (done || apply Hcv). cbn [obind Z.ltb Z.compare].
      rewrite decide_True by done. do 3 f_equal. lia.
    + rewrite decide_False by done. specialize (IH (S idx) ltac:(lia) ltac:(lia)).
      replace (Z.of_nat idx + 1) with (Z.of_nat (S idx)) by lia. rewrite IH.
      destruct (list_find _ _) as [[k w]|]; [|done]. cbn. do 3 f_equal. lia.
Qed.

Lemma storage_iter_ok s idx dst :
  storage_inv s -> storage_iter_index s = Z.of_nat idx -> (idx <= 127)%nat -> blank dst ->
  match list_find (fun v => live v = true) (drop idx (reported s)) with
  | Some (k, v) =>
      storage_iter dst s = Ok ((EFI_SUCCESS, copied dst v), set_iter (Z.of_nat (idx + k + 1)) s)
  | None => exists dst', storage_iter dst s = Ok ((EFI_NOT_FOUND, dst'), set_iter 0 s)
  end.
Proof.
  intros Hs Hidx Hi Hd. pose proof (sw_len _ Hs) as Hlen. change MAX_VAR_COUNT with 128 in Hlen.
  assert (Hl : length (variables s) = 128%nat) by (unfold zlen in Hlen; lia).
  unfold storage_iter, bind, mget, mlift. rewrite Hidx.
  rewrite storage_iter_loop_ok by (done || apply Hs || lia || clia).
  destruct (lookup_lt_is_Some_2 (variables s) 127) as [w Hw]; [lia|].
  assert (Happ : drop idx (variables s) = drop idx (reported s) ++ [w]).
  { rewrite <-(take_drop 127 (variables s)) at 1. unfold reported.
    rewrite drop_app_le by (rewrite length_take; lia). f_equal.
    rewrite (drop_S _ _ _ Hw), drop_ge by lia. done. }
  rewrite Happ. destruct (list_find _ (drop idx (reported s))) as [[k v]|] eqn:E.
  - rewrite (list_find_app_l _ _ _ _ _ E).
    apply list_find_Some in E as (Hk%lookup_lt_Some & _).
    unfold reported in Hk. rewrite length_drop, length_take in Hk.
    unfold mmodify, ret. change MAX_VAR_COUNT with 128. rewrite Z.geb_leb. by zb.
  - rewrite (list_find_app_r _ _ _ E). cbn [list_find].
    assert (Hlr : length (drop idx (reported s)) = (127 - idx)%nat).
    { unfold reported. rewrite length_drop, length_take. lia. }
    destruct (decide _); cbn [fmap option_fmap option_map prod_map fst snd].
    + eexists. unfold mmodify, ret. change MAX_VAR_COUNT with 128.
      rewrite Z.geb_leb, Hlr. zb. done.
    + by eexists.
Qed.

(** ** The loops that retrieve the variables *)

Lemma retrieve_loop_ok s idx fuel acc :
  storage_inv s -> storage_iter_index s = Z.of_nat idx ->
  (length acc <= idx)%nat -> (idx <= 127)%nat -> (127 < idx + fuel)%nat ->
  let all := acc ++ copies (fun v => live v = true) idx s in
  exists vars',
    retrieve_loop fuel (Z.of_nat (length acc)) 128 (acc ++ replicate (128 - length acc) zero_var) s
    = Ok ((zlen all, vars'), set_iter 0 s) /\
    take (length all) vars' = all.
Proof.
  revert s idx acc. induction fuel as [|fuel IH]; intros s idx acc Hs Hidx Hd Hi Hf; [lia|].
  cbn [retrieve_loop]. zb. rewrite Nat2Z.id, lookup_next by lia.
  pose proof (storage_iter_ok s idx zero_var Hs Hidx Hi zero_var_blank) as Hit.
  unfold copies. rewrite (list_find_filter _ (drop idx (reported s))).
  destruct (list_find _ _) as [[k v]|] eqn:E.
  - destruct (reported_step _ _ _ _ Hs E) as (Hlv & Hcv & Hle & Hdrop).
    erewrite bind_runs by exact Hit. rewrite Hdrop, copied_zero by done.
    change (EFI_SUCCESS =? EFI_DEVICE_ERROR) with false.
    change (EFI_SUCCESS =? EFI_NOT_FOUND) with false. cbn match.
    erewrite bind_runs by done. rewrite insert_next by lia.
    destruct (IH (set_iter (Z.of_nat (idx + k + 1)) s) (idx + k + 1)%nat (acc ++ [saved v]))
      as (vars' & Hrun & Htake); [apply set_iter_inv; [done|lia]|done| |lia..|].
    { rewrite length_app. cbn [length]. lia. }
    rewrite length_app in Hrun. cbn [length] in Hrun.
    rewrite Nat2Z.inj_add, Nat.sub_add_distr in Hrun. exists vars'.
    cbn [fmap list_fmap]. unfold copies in Hrun, Htake.
    rewrite <-(app_assoc acc [saved v] (saved <$> _)) in Hrun, Htake.
    split; [exact Hrun|exact Htake].
  - destruct Hit as [dst' Hit]. erewrite bind_runs by exact Hit. cbv beta iota.
    change (EFI_NOT_FOUND =? EFI_DEVICE_ERROR) with false. rewrite Z.eqb_refl.
    cbn [fmap list_fmap]. rewrite app_nil_r. unfold ret, INT_MAX. zb. rewrite s32_id by lia.
    eexists. split; [done|]. rewrite insert_next by lia.
    by rewrite <-app_assoc, take_app_length.
Qed.

Lemma retrieve_nonvolatile_loop_ok s idx fuel acc tmp :
  storage_inv s -> storage_iter_index s = Z.of_nat idx -> blank tmp ->
  (length acc <= idx)%nat -> (idx <= 127)%nat -> (127 < idx + fuel)%nat ->
  let all := acc ++ copies nonvolatile idx s in
  retrieve_nonvolatile_loop fuel (Z.of_nat (length acc)) 128
    (acc ++ replicate (128 - length acc) zero_var) tmp s
  = Ok ((zlen all, all ++ replicate (128 - length all) zero_var), set_iter 0 s).
Proof.
  revert s idx acc tmp. induction fuel as [|fuel IH];
    intros s idx acc tmp Hs Hidx Htmp Hd Hi Hf; [lia|].
  cbn [retrieve_nonvolatile_loop]. zb.
  pose proof (storage_iter_ok s idx tmp Hs Hidx Hi Htmp) as Hit.
  unfold copies. rewrite (filter_find _ (fun v => live v = true)) by by intros v [].
  destruct (list_find _ _) as [[k v]|] eqn:E; cycle 1.
  { destruct Hit as [dst' Hit]. erewrite bind_runs by exact Hit. cbv beta iota.
    change (EFI_NOT_FOUND =? EFI_DEVICE_ERROR) with false. rewrite Z.eqb_refl.
    cbn [fmap list_fmap]. rewrite app_nil_r. unfold ret, INT_MAX. zb. by rewrite s32_id by lia. }
  destruct (reported_step _ _ _ _ Hs E) as (Hlv & Hcv & Hle & Hdrop).
  erewrite bind_runs by exact Hit. rewrite Hdrop. cbv beta iota.
  change (EFI_SUCCESS =? EFI_DEVICE_ERROR) with false.
  change (EFI_SUCCESS =? EFI_NOT_FOUND) with false. cbn match.
  erewrite bind_runs by done.
  change (var_attrs (copied tmp v)) with (var_attrs v). rewrite filter_cons.
  pose proof (set_iter_inv (Z.of_nat (idx + k + 1)) s Hs ltac:(lia)) as Hs'.
  pose proof (live_wf_live _ Hlv).
  destruct (has (var_attrs v) EFI_VARIABLE_NON_VOLATILE) eqn:Env; cycle 1.
  { rewrite decide_False by (intros [_ ?]; congruence).
    rewrite (IH _ (idx + k + 1)%nat acc) by (done || lia || by apply copied_blank). done. }
  rewrite decide_True by done. rewrite Nat2Z.id, lookup_next by lia.
  erewrite bind_runs; cycle 1.
  { apply mlift_runs, copy_ok; [apply zero_var_blank|by apply copied_live|exact (copied_last tmp v Hlv Hcv)]. }
  cbv beta iota. rewrite copied_again, insert_next by (done || lia).
  specialize (IH (set_iter (Z.of_nat (idx + k + 1)) s) (idx + k + 1)%nat (acc ++ [saved v])
                zero_var Hs' eq_refl zero_var_blank).
  rewrite length_app in IH. cbn [length] in IH. rewrite Nat2Z.inj_add, Nat.sub_add_distr in IH.
  cbv zeta in IH. unfold copies in IH.
  rewrite <-(app_assoc acc [saved v] (saved <$> _)) in IH. apply IH; lia.
Qed.

End copies.

(** ** The list of variables *)

(** The copies that go into the list. *)
Definition listed (nonvolatile_only : bool) (s : storage) : list variable_t :=
  if nonvolatile_only then copies nonvolatile 0 s else copies (fun v => live v = true) 0 s.

Lemma copies_ok P `{!forall v, Decision (P v)} idx s :
  storage_inv s -> (forall v, P v -> live v = true) ->
  Forall live_wf (copies P idx s) /\ Forall canonical (copies P idx s) /\
  zlen (copies P idx s) <= 127.
Proof.
  intros Hs HP. unfold copies.
  assert (Hin : forall v, v ∈ filter P (drop idx (reported s)) -> live_wf v /\ canonical v).
  { intros v [Hp%HP Hin]%list_elem_of_filter.
    apply subseteq_drop, subseteq_take, list_elem_of_lookup in Hin as [i Hi].
    split; [|by eapply slot_canonical_live].
    by apply slot_wf_live; [eapply slot_wf_lookup; [apply Hs|]|]. }
  split_and!.
  - apply Forall_fmap, Forall_forall. intros v Hv. by apply saved_live, Hin.
  - apply Forall_fmap, Forall_forall. intros v Hv. by apply saved_canonical, Hin.
  - unfold zlen. rewrite length_fmap. pose proof (length_filter P (drop idx (reported s))) as Hl.
    unfold reported in Hl |- *. rewrite length_drop, length_take in Hl. lia.
Qed.

Lemma listed_ok nv s :
  storage_inv s ->
  Forall live_wf (listed nv s) /\ Forall canonical (listed nv s) /\ zlen (listed nv s) <= 127.
Proof. intros Hs. destruct nv; apply copies_ok; [done|by intros v []|done|done]. Qed.

Lemma set_iter_same s : storage_iter_index s = 0 -> set_iter 0 s = s.
Proof. destruct s. cbn. by intros ->. Qed.

(** The largest list. *)
Definition LIST_MAX : Z := 24 + 33108 * 128.

Lemma list_bytes_range l :
  Forall live_wf l -> zlen l <= 128 -> 24 <= zlen (list_bytes l) <= LIST_MAX.
Proof.
  intros Hl Hn. pose proof (vars_bytes_range _ Hl). unfold list_bytes, LIST_MAX.
  rewrite zlen_app, zlen_header. lia.
Qed.

Section list.
Context `{Allocator} (G : grants LIST_MAX).
#[local] Set Default Proof Using "Type*".

Lemma grants_data : grants MAX_VARIABLE_DATA_SIZE.
Proof. eapply grants_le; [exact G|]. unfold LIST_MAX. clia. Qed.

Lemma variable_list_bytes_ok nv s :
  storage_inv s -> storage_iter_index s = 0 ->
  variable_list_bytes nv s
  = Ok (match listed nv s with
        | [] => None
        | l => Some (list_bytes l, zlen (list_bytes l))
        end, s).
Proof.
  intros Hs Hidx. destruct (listed_ok nv s Hs) as (Hl & Hc & Hn). unfold variable_list_bytes.
  destruct (grants_block LIST_MAX (MAX_VAR_COUNT * sizeof_variable_t)) as (b & -> & _);
    [done|unfold LIST_MAX; clia|].
  assert (Hrun : exists vars',
    (if nv then retrieve_nonvolatile_vars MAX_VAR_COUNT else retrieve_vars MAX_VAR_COUNT) s
    = Ok ((zlen (listed nv s), vars'), s) /\ take (length (listed nv s)) vars' = listed nv s).
  { pose proof grants_data as Gd.
    pose proof (set_iter_same s Hidx) as Hsame.
    destruct nv.
    - eexists. split; [|apply take_app_length].
      pose proof (retrieve_nonvolatile_loop_ok Gd s 0 129 [] zero_var) as R. rewrite Hsame in R.
      apply R; first [done|apply zero_var_blank|cbn; lia].
    - pose proof (retrieve_loop_ok Gd s 0 129 []) as R. rewrite Hsame in R.
      apply R; first [done|cbn; lia]. }
  destruct Hrun as (vars' & Hrun & Htake). erewrite bind_runs by exact Hrun. cbv beta iota.
  pose proof (list_bytes_range _ Hl ltac:(lia)) as Hr.
  destruct (listed nv s) as [|v l] eqn:El; [done|]. rewrite <-El in *.
  assert (Hpos : 0 < zlen (listed nv s)) by (rewrite El, zlen_cons; pose proof (zlen_nonneg l); lia).
  zb. replace (Z.to_nat (zlen (listed nv s))) with (length (listed nv s)) by (unfold zlen; lia).
  rewrite Htake, list_size_ok by (done || clia).
  destruct (grants_block LIST_MAX (zlen (list_bytes (listed nv s)))) as (block & -> & Hblock);
    [done|lia|].
  erewrite bind_runs; cycle 1.
  { apply mlift_runs, emits_whole; [|exact Hblock]. apply emits_list; [done| |lia].
    unfold list_bytes. rewrite zlen_app, zlen_header. lia. }
  cbv beta iota. cbn [Z.ltb Z.compare]. unfold ret. by rewrite El.
Qed.

End list.

(** ** Reading the list back *)

(** The name of a variable in use, as an argument. *)
Lemma live_canonical_name v :
  live_wf v -> canonical v -> canonical_name (var_name v) (var_namesz v).
Proof.
  intros Hv [Hc _]. pose proof (lw_name _ Hv). pose proof (lw_namesz _ Hv).
  constructor; [constructor; [done|lia|apply Hv]|done].
Qed.

(** [SetVariable] on a key that is free. *)
Lemma spec_set_fresh k data attrs m :
  attrs <> 0 -> has attrs EFI_VARIABLE_APPEND_WRITE = false -> data <> [] -> m !! k = None ->
  Z.of_nat (size m) < MAX_VAR_COUNT ->
  spec_set k data attrs m = (EFI_SUCCESS, <[k := mk_value attrs data zero_time zero_cert]> m).
Proof.
  intros Ha Happ Hd Hk Hn. unfold spec_set. rewrite Happ, ldiff_unset, Hk by done.
  assert (H0 : zlen data <> 0) by by intros ?%zlen_nil_inv.
  rewrite (proj2 (Z.eqb_neq _ _) H0), (proj2 (Z.eqb_neq _ _) Ha). cbn [andb orb].
  by rewrite (proj2 (Z.eqb_neq _ MAX_VAR_COUNT)) by lia.
Qed.

Lemma spec_set_with_timestamp_fresh k data attrs m :
  attrs <> 0 -> has attrs EFI_VARIABLE_APPEND_WRITE = false -> data <> [] -> m !! k = None ->
  Z.of_nat (size m) < MAX_VAR_COUNT ->
  spec_set_with_timestamp k data attrs zero_time m
  = (EFI_SUCCESS, <[k := mk_value attrs data zero_time zero_cert]> m).
Proof.
  intros Ha Happ Hd Hk Hn. unfold spec_set_with_timestamp. rewrite spec_set_fresh by done.
  assert (H0 : zlen data <> 0) by by intros ?%zlen_nil_inv.
  unfold is_delete. rewrite (proj2 (Z.eqb_neq _ _) H0), (proj2 (Z.eqb_neq _ _) Ha). cbn [orb].
  by rewrite lookup_insert_eq, insert_insert_eq.
Qed.

(** A variable that can be set again from what is saved of it. *)
Definition restorable (v : variable_t) : Prop :=
  var_attrs v <> 0 /\ has (var_attrs v) EFI_VARIABLE_APPEND_WRITE = false.

Section restore.
Context `{Allocator} (G : grants MAX_VARIABLE_DATA_SIZE).
#[local] Set Default Proof Using "Type*".

Lemma restore_variable_ok v s :
  live_wf v -> canonical v -> restorable v -> storage_inv s ->
  abs (variables s) !! var_key v = None -> Z.of_nat (size (abs (variables s))) < MAX_VAR_COUNT ->
  exists s', restore_variable (saved v) s = Ok (EFI_SUCCESS, s') /\ storage_inv s' /\
    abs (variables s') = <[var_key v := value_of (saved v)]> (abs (variables s)).
Proof.
  intros Hv Hc [Ha Happ] Hs Hk Hn. pose proof (live_canonical_name _ Hv Hc) as Hname.
  destruct (lw_data _ Hv) as (d & Hd & Hsz). pose proof (lw_datasz _ Hv).
  assert (Hnil : d <> []) by (intros ->; change (0 = var_datasz v) in Hsz; lia).
  assert (Htake : take (Z.to_nat (var_datasz v)) d = d) by (apply take_ge; unfold zlen in Hsz; lia).
  assert (Hval : value_of (saved v) = mk_value (var_attrs v) d zero_time zero_cert).
  { unfold value_of. cbn [saved var_attrs var_data var_timestamp var_cert]. by rewrite Hd. }
  unfold restore_variable. cbn [saved var_attrs var_name var_namesz var_guid var_data var_datasz
                                  var_timestamp].
  rewrite Hd, Hval. destruct (has (var_attrs v) EFI_VARIABLE_TIME_BASED_AUTHENTICATED_WRITE_ACCESS).
  - destruct (storage_set_with_timestamp_refines s (var_name v) (var_namesz v) (var_guid v) d
                (var_datasz v) (var_attrs v) zero_time) as (st & s' & Hrun & Hs' & Hspec & _);
      try done; try lia; try apply Hv; try apply zero_time_ok.
    rewrite Htake, spec_set_with_timestamp_fresh in Hspec by done.
    injection Hspec as -> Habs. by exists s'.
  - destruct (storage_set_refines s (var_name v) (var_namesz v) (var_guid v) d
                (var_datasz v) (var_attrs v)) as (st & s' & Hrun & Hs' & Hspec & _);
      try done; try lia; try apply Hv.
    rewrite Htake, spec_set_fresh in Hspec by done.
    injection Hspec as -> Habs. by exists s'.
Qed.

Lemma abs_saved_free l k : k ∉ (var_key <$> l) -> abs (saved <$> l) !! k = None.
Proof.
  induction l as [|v l IH]; [done|]. cbn [fmap list_fmap abs]. rewrite not_elem_of_cons.
  intros [Hk Hl]. specialize (IH Hl). destruct (live (saved v)); [|done].
  by rewrite lookup_insert_ne.
Qed.

Lemma restore_variables_ok l s :
  Forall live_wf l -> Forall canonical l -> Forall restorable l -> NoDup (var_key <$> l) ->
  (forall v, v ∈ l -> abs (variables s) !! var_key v = None) ->
  Z.of_nat (size (abs (variables s))) + zlen l <= MAX_VAR_COUNT -> storage_inv s ->
  exists s', restore_variables (saved <$> l) s = Ok (tt, s') /\ storage_inv s' /\
    abs (variables s') = abs (saved <$> l) ∪ abs (variables s).
Proof.
  intros Hl. revert s. induction Hl as [|v l Hv Hl IH]; intros s Hc Hr Hnd Hfree Hn Hs.
  { exists s. split_and!; [done|done|]. cbn [fmap list_fmap abs]. by rewrite (left_id_L ∅ (∪)). }
  apply Forall_cons in Hc as [Hcv Hc], Hr as [Hrv Hr]. apply NoDup_cons in Hnd as [Hk Hnd].
  rewrite zlen_cons in Hn. pose proof (zlen_nonneg l).
  destruct (restore_variable_ok v s) as (s1 & Hrun & Hs1 & Habs);
    [done..|by apply Hfree, elem_of_cons; left|lia|].
  assert (Hk1 : abs (variables s) !! var_key v = None) by by apply Hfree, elem_of_cons; left.
  destruct (IH s1) as (s2 & Hrun2 & Hs2 & Habs2); try done.
  - intros w Hw. rewrite Habs, lookup_insert_ne; [by apply Hfree, elem_of_cons; right|].
    intros E. apply Hk. rewrite E. by apply list_elem_of_fmap_2.
  - rewrite Habs, map_size_insert_None by done. lia.
  - exists s2. split_and!; [|done|].
    + cbn [fmap list_fmap restore_variables]. erewrite bind_runs by exact Hrun.
      by erewrite bind_runs by done.
    + rewrite Habs2, Habs. cbn [fmap list_fmap abs].
      rewrite (live_wf_live _ (saved_live _ Hv)).
      change (var_key (saved v)) with (var_key v).
      rewrite <-insert_union_l, <-insert_union_r; [done|]. by apply abs_saved_free.
Qed.

End restore.

(** What saving and restoring leaves of a value: no time stamp, no signer. *)
Definition forget (x : value) : value := mk_value (val_attrs x) (val_data x) zero_time zero_cert.

Lemma abs_copies s :
  storage_inv s ->
  abs (copies (fun v => live v = true) 0 s) = forget <$> abs (reported s).
Proof.
  intros Hs. unfold copies. rewrite drop_0.
  assert (Hw : Forall slot_wf (reported s)) by by apply Forall_take, Hs.
  induction Hw as [|v l Hv _ IH].
  { change (∅ = forget <$> (∅ : var_map)). by rewrite fmap_empty. }
  rewrite filter_cons. cbn [abs]. destruct (live v) eqn:Hl.
  - rewrite decide_True by done. cbn [fmap list_fmap abs].
    rewrite (live_wf_live _ (saved_live _ (slot_wf_live _ Hv Hl))).
    change (var_key (saved v)) with (var_key v).
    by rewrite IH, fmap_insert.
  - by rewrite decide_False.
Qed.

(** ** The file *)
Section files.
Context {E : Type} `{Host E} (interrupts : nat) `{Allocator} `{Libxml2} `{Base64}.

(** A configured path. *)
Definition is_path (p : option bytes) (path : bytes) : Prop :=
  exists block, p = Some block /\ c_string block = Ok path.

(** The file can be opened and read, and holds [bs]. *)
Definition file_holds (h : E) (path bs : bytes) : Prop :=
  fopen_r path h = true /\ fstat path h = Some (zlen bs) /\ fread path (zlen bs) h = bs.

Lemma xapi_save_ok s (x : xapi_state E) path h1 h2 :
  grants LIST_MAX -> storage_inv s -> storage_iter_index s = 0 -> listed false s <> [] ->
  is_path (save_path x) path -> fopen_w path (host x) = Some h1 ->
  fwrite path (list_bytes (listed false s)) h1 = (zlen (list_bytes (listed false s)), h2) ->
  xapi_save (s, x) = Ok (0, (s, set_host h2 x)).
Proof.
  intros G Hs Hidx Hne (block & Hp & Hpath) Hopen Hwrite. unfold xapi_save.
  erewrite bind_runs by done. cbn [snd]. rewrite Hp.
  erewrite bind_runs by by apply mlift_runs. rewrite Hopen.
  erewrite bind_runs by done. cbn [snd fst].
  erewrite bind_runs; cycle 1.
  { unfold on_storage, mzoom. cbn [fst]. by rewrite variable_list_bytes_ok. }
  destruct (listed false s) as [|v l] eqn:El; [done|]. rewrite <-El in *.
  cbv beta iota zeta. cbn [snd]. erewrite bind_runs by (apply mlift_runs, read_bytes_full).
  erewrite bind_runs; cycle 1.
  { unfold on_xapi, mzoom, sys. cbn [snd set_host host]. by rewrite Hwrite. }
  unfold ret. by rewrite Z.eqb_refl.
Qed.

(** What the loop of [xapi_init] makes of the list in a fresh store. *)
Lemma restore_listed s :
  grants MAX_VARIABLE_DATA_SIZE -> storage_inv s ->
  Forall restorable (filter (fun v => live v = true) (reported s)) ->
  exists s', restore_variables (listed false s) storage_init = Ok (tt, s') /\ storage_inv s' /\
    abs (variables s') = forget <$> abs (reported s).
Proof.
  intros G Hs Hr. rewrite <-abs_copies by done. unfold listed, copies. rewrite drop_0.
  destruct (copies_ok (fun v => live v = true) 0 s Hs) as (_ & _ & Hn); [done|].
  unfold copies in Hn. rewrite drop_0 in Hn. unfold zlen in Hn. rewrite length_fmap in Hn.
  assert (Hw : forall v, v ∈ filter (fun v => live v = true) (reported s) ->
                 live_wf v /\ canonical v).
  { intros v [Hl Hin]%list_elem_of_filter. unfold reported in Hin.
    apply subseteq_take, list_elem_of_lookup in Hin as [i Hi].
    split; [|by eapply slot_canonical_live].
    by apply slot_wf_live; [eapply slot_wf_lookup; [apply Hs|]|]. }
  destruct (restore_variables_ok G (filter (fun v => live v = true) (reported s)) storage_init)
    as (s' & Hrun & Hs' & Habs); [| |done| | | |apply storage_init_inv|].
  - apply Forall_forall. intros v Hv. by apply Hw.
  - apply Forall_forall. intros v Hv. by apply Hw.
  - apply keys_NoDup; [|done]. intros i j v w Hi Hj. unfold reported in Hi, Hj.
    apply lookup_take_Some in Hi as [Hi _], Hj as [Hj _]. exact (si_unique _ Hs i j v w Hi Hj).
  - intros v _. unfold storage_init. cbn [variables]. by rewrite abs_zero_vars.
  - unfold storage_init. cbn [variables]. rewrite abs_zero_vars, map_size_empty. unfold zlen. clia.
  - exists s'. split_and!; [done|done|]. rewrite Habs. unfold storage_init. cbn [variables].
    by rewrite abs_zero_vars, (right_id_L ∅ (∪)).
Qed.

Lemma xapi_read_file_ok s (x : xapi_state E) path bs :
  grants LIST_MAX -> storage_inv s -> is_path (resume_path x) path ->
  file_holds (host x) path bs -> bs = list_bytes (listed false s) ->
  zlen bs <= MAX_RESUME_FILE_SIZE ->
  xapi_variables_read_file (replicate 128 zero_var) MAX_VAR_COUNT (resume_path x) x
  = Ok ((zlen (listed false s),
         listed false s ++ replicate (128 - length (listed false s)) zero_var), x).
Proof.
  intros G Hs (block & -> & Hpath) (Hopen & Hstat & Hread) Hbs Hsize.
  destruct (listed_ok false s Hs) as (Hl & Hc & Hn).
  pose proof (list_bytes_range _ Hl ltac:(lia)) as Hrange. rewrite <-Hbs in Hrange.
  unfold xapi_variables_read_file. erewrite bind_runs by by apply mlift_runs.
  erewrite bind_runs by done. rewrite Hopen, Hstat. cbn [negb]. zb.
  destruct (grants_block LIST_MAX (zlen bs)) as (mem & -> & Hmem); [done|lia|].
  rewrite Hread. erewrite bind_runs by by apply mlift_runs, write_bytes_full.
  rewrite Z.eqb_refl. cbn [negb]. erewrite bind_runs; cycle 1.
  { apply mlift_runs. rewrite Hbs. pattern (list_bytes (listed false s)) at 1.
    rewrite <-(app_nil_r (list_bytes (listed false s))).
    apply from_bytes_list; [|done|done|clia]. eapply grants_le; [exact G|]. unfold LIST_MAX. clia. }
  done.
Qed.

(** A file that is too large is not read, and that is no error. *)
Lemma xapi_read_file_large (x : xapi_state E) path bs vars n :
  is_path (resume_path x) path -> file_holds (host x) path bs ->
  MAX_RESUME_FILE_SIZE < zlen bs ->
  xapi_variables_read_file vars n (resume_path x) x = Ok ((0, vars), x).
Proof.
  intros (block & -> & Hpath) (Hopen & Hstat & _) Hsize.
  unfold xapi_variables_read_file. erewrite bind_runs by by apply mlift_runs.
  erewrite bind_runs by done. rewrite Hopen, Hstat. cbn [negb]. by zb.
Qed.

Lemma xapi_init_resume_ok s (x : xapi_state E) path :
  grants LIST_MAX -> storage_inv s ->
  Forall restorable (filter (fun v => live v = true) (reported s)) ->
  is_Some (vm_uuid x) -> is_path (resume_path x) path ->
  file_holds (host x) path (list_bytes (listed false s)) ->
  exists s', xapi_init interrupts true (storage_init, x) = Ok (0, (s', x)) /\ storage_inv s' /\
    abs (variables s')
    = if zlen (list_bytes (listed false s)) <=? MAX_RESUME_FILE_SIZE
      then forget <$> abs (reported s) else ∅.
Proof.
  intros G Hs Hr [uuid Hu] Hp Hf. unfold xapi_init.
  destruct (grants_block LIST_MAX (MAX_VAR_COUNT * sizeof_variable_t)) as (b & -> & _);
    [done|unfold LIST_MAX; clia|].
  erewrite bind_runs by done. cbn [snd]. rewrite Hu.
  change (Z.to_nat MAX_VAR_COUNT) with 128%nat.
  destruct (zlen (list_bytes (listed false s)) <=? MAX_RESUME_FILE_SIZE) eqn:Esize.
  - apply Z.leb_le in Esize. destruct (listed_ok false s Hs) as (_ & _ & Hn).
    destruct (restore_listed s) as (s' & Hrun & Hs' & Habs);
      [eapply grants_le; [exact G|unfold LIST_MAX; clia]|done|done|].
    exists s'. split_and!; [|done|done]. erewrite bind_runs; cycle 1.
    { unfold on_xapi, mzoom. cbn [snd]. by rewrite (xapi_read_file_ok s x path _ G Hs Hp Hf). }
    cbv beta iota. pose proof (zlen_nonneg (listed false s)). zb.
    replace (Z.to_nat (zlen (listed false s))) with (length (listed false s)) by (unfold zlen; lia).
    rewrite take_app_length. erewrite bind_runs; [done|].
    unfold on_storage, mzoom. cbn [fst]. by rewrite Hrun.
  - apply Z.leb_gt in Esize. exists storage_init.
    split_and!; [|apply storage_init_inv|apply abs_zero_vars].
    erewrite bind_runs; cycle 1.
    { unfold on_xapi, mzoom. cbn [snd]. by rewrite (xapi_read_file_large x path _ _ _ Hp Hf). }
    done.
Qed.

(** C29: Suspend and resume.  When a store whose variables can be set again is
    saved to a file, and a fresh process reads that file, the new store is well
    formed and holds what [storage_iter] reported of the old one (every
    variable but one in the last slot), with the attributes and the data but
    without the time stamps and without the signers' digests; and it holds
    nothing at all, without an error, when the file is larger than 32 KiB. *)
Theorem save_and_resume (s : storage) (x : xapi_state E) (path : bytes) (h1 : E) (h2 : bytes -> E) :
  grants LIST_MAX -> storage_inv s -> storage_iter_index s = 0 ->
  filter (fun v => live v = true) (reported s) <> [] ->
  Forall restorable (filter (fun v => live v = true) (reported s)) ->
  is_path (save_path x) path -> fopen_w path (host x) = Some h1 ->
  (forall b, fwrite path b h1 = (zlen b, h2 b)) -> (forall b, file_holds (h2 b) path b) ->
  exists bs,
    xapi_save (s, x) = Ok (0, (s, set_host (h2 bs) x)) /\
    zlen bs = list_size (listed false s) /\
    forall x', is_Some (vm_uuid x') -> is_path (resume_path x') path -> host x' = h2 bs ->
    exists s', xapi_init interrupts true (storage_init, x') = Ok (0, (s', x')) /\
      storage_inv s' /\
      abs (variables s')
      = if zlen bs <=? MAX_RESUME_FILE_SIZE then forget <$> abs (reported s) else ∅.
Proof.
  intros G Hs Hidx Hne Hr Hp Hopen Hwrite Hread. exists (list_bytes (listed false s)).
  destruct (listed_ok false s Hs) as (Hl & _ & Hn). split_and!.
  - eapply xapi_save_ok; [done..| |done|done|done].
    unfold listed, copies. rewrite drop_0. by destruct (filter _ _).
  - by rewrite list_size_ok by (done || clia).
  - intros x' Hu Hp' Hh. apply (xapi_init_resume_ok s x' path); try done. by rewrite Hh.
Qed.

End files.

Lemma save_and_resume_witness :
  exists bs,
    @xapi_save toy_env toy_host zero_allocator (store_2, sample_xapi empty_env)
    = Ok (0, (store_2, set_host (set_file (Some bs) empty_env) (sample_xapi empty_env))) /\
    zlen bs = list_size (listed false store_2) /\
    forall x', is_Some (vm_uuid x') -> is_path (resume_path x') toy_text ->
      host x' = set_file (Some bs) empty_env ->
    exists s',
      @xapi_init toy_env toy_host 0 zero_allocator toy_libxml2 toy_base64 true (storage_init, x')
      = Ok (0, (s', x')) /\
      storage_inv s' /\
      abs (variables s')
      = if zlen bs <=? MAX_RESUME_FILE_SIZE then forget <$> abs (reported store_2) else ∅.
Proof.
  apply (@save_and_resume toy_env toy_host 0 zero_allocator toy_libxml2 toy_base64 store_2
           (sample_xapi empty_env) toy_text (set_file (Some []) empty_env)
           (fun b => set_file (Some b) empty_env));
    [apply zero_allocator_grants|exact store_2_inv|reflexivity|discriminate
    |apply (bool_decide_unpack _); vm_compute; exact I|exists toy_path; split; reflexivity
    |reflexivity|reflexivity|].
  intros b. split_and!; [reflexivity|reflexivity|].
  apply take_ge. unfold zlen. rewrite Nat2Z.id. reflexivity.
Defined.
