(* ===== verification/XapiNet.v ===== *)
(** * Messages, the socket and the rate of sends

    The exact message that [xapi_set] builds and when it leaves its buffer;
    what [read_socket] makes of the bytes a peer sends; how many sends
    [throttle] lets through in a time. *)
From S2P Require Import Prelude EfiTypes Common UefiVariable Storage StorageInv StorageSpec.
From S2P Require Import Samples StorageTrace Serializer SerializerSpec CText Server Xapi.
From S2P Require Import XapiSamples Persistence.

(** Lengths of lists, as natural numbers. *)
Ltac nlen :=
  unfold zlen in *;
  repeat rewrite ?length_app, ?length_take, ?length_drop, ?length_replicate in *;
  cbn [length] in *; lia.

(** ** The parts of the message *)

(** The header for a body of [n] bytes, and the text around the list. *)
Definition header_text (n : Z) : bytes :=
  match HTTP_HEADER n with
  | [Lit a; _; Lit b] => a ++ decimal n ++ b
  | _ => []
  end.

Definition body_before : bytes :=
  match HTTP_BODY_SET_NVRAM_VARS None with Lit a :: _ => a | _ => [] end.
Definition body_after : bytes :=
  match HTTP_BODY_SET_NVRAM_VARS None with [_; _; Lit b] => b | _ => [] end.

Definition body_text (base64 : bytes) : bytes := body_before ++ base64 ++ body_after.

Lemma format_header n : format (HTTP_HEADER n) = Ok (header_text n).
Proof. unfold format, HTTP_HEADER, header_text. cbn [obind]. by rewrite app_nil_r. Qed.

Lemma format_body base64 :
  text_ok base64 ->
  format (HTTP_BODY_SET_NVRAM_VARS (Some (base64 ++ [NUL]))) = Ok (body_text base64).
Proof.
  intros Hb. unfold format, HTTP_BODY_SET_NVRAM_VARS. cbn [obind].
  rewrite c_string_text by done. cbn [obind]. by rewrite app_nil_r.
Qed.

Lemma body_text_ok base64 : text_ok base64 -> text_ok (body_text base64).
Proof.
  intros Hb. unfold body_text.
  apply text_app; [by apply text_check|apply text_app; [done|by apply text_check]].
Qed.

Lemma zlen_body base64 : zlen (body_text base64) = zlen base64 + 274.
Proof.
  unfold body_text. rewrite !zlen_app. change (zlen body_before) with 227.
  change (zlen body_after) with 47. lia.
Qed.

Lemma zlen_header_text n : 0 <= n -> 0 <= zlen (header_text n) <= 200.
Proof.
  intros Hn. split; [apply zlen_nonneg|]. unfold header_text, HTTP_HEADER.
  rewrite !zlen_app. pose proof (zlen_decimal n Hn).
  match goal with |- ?a + (_ + ?b) <= _ => let x := eval vm_compute in (a + b) in
    assert (a + b = x) by reflexivity end. lia.
Qed.

(** ** The message *)

(** Room for the largest list as text, with what surrounds it. *)
Definition MESSAGE_MAX : Z := 6000000.

(** What base64 promises: four characters for every three bytes begun, none of
    them zero. *)
Definition base64_text `{Base64} : Prop := forall b, exists text,
  BIO_base64_write b = Some text /\ text_ok text /\
  4 * zlen b <= 3 * zlen text <= 4 * zlen b + 8.

Section message.
Context `{Allocator} `{Base64} (G : grants MESSAGE_MAX) (Hb64 : base64_text).
#[local] Set Default Proof Using "Type*".

Lemma grants_list : grants LIST_MAX.
Proof. eapply grants_le; [exact G|]. unfold MESSAGE_MAX, LIST_MAX. lia. Qed.

Lemma variable_list_base64_ok s :
  storage_inv s -> storage_iter_index s = 0 -> listed true s <> [] ->
  exists text,
    BIO_base64_write (list_bytes (listed true s)) = Some text /\ text_ok text /\
    4 * zlen (list_bytes (listed true s)) <= 3 * zlen text /\ zlen text <= 5700000 /\
    variable_list_base64 s = Ok (Some (text ++ [NUL]), s).
Proof.
  intros Hs Hidx Hne. destruct (listed_ok true s Hs) as (Hl & _ & Hn).
  pose proof (list_bytes_range _ Hl ltac:(lia)) as Hr. unfold LIST_MAX in Hr.
  destruct (Hb64 (list_bytes (listed true s))) as (text & Hw & Hok & Hlen).
  exists text. split_and!; [done|done|lia|lia|]. unfold variable_list_base64.
  erewrite bind_runs by (by apply variable_list_bytes_ok; [apply grants_list|..]).
  destruct (listed true s) as [|v l] eqn:El; [done|]. rewrite <-El in *. cbv zeta iota beta.
  apply mlift_runs. unfold bytes_to_base64. zb. rewrite read_bytes_full. cbn [obind]. rewrite Hw.
  destruct (grants_block MESSAGE_MAX (zlen text + 1)) as (block & -> & Hblock);
    [done|unfold MESSAGE_MAX; pose proof (zlen_nonneg text); lia|].
  by rewrite write_bytes_full by zlia.
Qed.

(** The buffer: the header, then as much of the body as fits. *)
Definition filled (text : bytes) (n : Z) : bytes :=
  let head := header_text (zlen (body_text text)) in
  head ++ take (Z.to_nat (n - zlen head)) (body_text text) ++
  replicate (Z.to_nat (n - zlen head) - length (body_text text)) NUL.

Lemma write_terminator text n :
  zlen (header_text (zlen (body_text text))) + zlen (body_text text) < n ->
  write_bytes (filled text n)
    (zlen (body_text text) + zlen (header_text (zlen (body_text text)))) [NUL]
  = Ok (filled text n).
Proof.
  intros Hn. unfold filled. set (head := header_text _) in *.
  rewrite take_ge by nlen.
  destruct (Z.to_nat (n - zlen head) - length (body_text text))%nat as [|k] eqn:Ek; [nlen|].
  cbn [replicate]. change (NUL :: replicate k NUL) with ([NUL] ++ replicate k NUL).
  rewrite (app_assoc head). apply write_mid; [rewrite zlen_app; lia|done].
Qed.

(** The text is printed into its block, the header into the message. *)
Lemma body_printed text block :
  text_ok text -> zlen block = zlen (body_text text) + 2 -> zlen block <= MESSAGE_MAX ->
  snprintf block 0 (zlen (body_text text) + 2)
    (HTTP_BODY_SET_NVRAM_VARS (Some (text ++ [NUL])))
  = Ok (zlen (body_text text), body_text text ++ NUL :: drop (S (length (body_text text))) block).
Proof.
  intros Hok Hb Hmax. pose proof (zlen_nonneg (body_text text)). unfold MESSAGE_MAX in *.
  unfold snprintf. rewrite format_body by done. cbn [obind]. unfold INT_MAX. zb.
  rewrite take_ge by (unfold zlen in *; lia).
  rewrite write_bytes_prefix by zlia. cbn [obind].
  rewrite <-app_assoc, length_app, Nat.add_1_r. done.
Qed.

Lemma header_printed len n :
  0 <= len -> 1000 <= n <= MESSAGE_MAX ->
  create_header len (replicate (Z.to_nat n) NUL) 0 n
  = Ok (zlen (header_text len),
        (header_text len ++ [NUL]) ++ drop (length (header_text len ++ [NUL])) (replicate (Z.to_nat n) NUL)).
Proof.
  intros Hl Hn. pose proof (zlen_header_text len Hl). unfold MESSAGE_MAX in *.
  unfold create_header, snprintf. rewrite format_header. cbn [obind]. unfold INT_MAX. zb.
  rewrite take_ge by (unfold zlen in *; lia).
  rewrite write_bytes_prefix by zlia. cbn [obind]. done.
Qed.

Lemma build_message_ok s n :
  storage_inv s -> storage_iter_index s = 0 -> listed true s <> [] -> 1000 <= n <= MESSAGE_MAX ->
  exists text,
    BIO_base64_write (list_bytes (listed true s)) = Some text /\ text_ok text /\
    4 * zlen (list_bytes (listed true s)) <= 3 * zlen text /\
    build_set_efi_vars_message (replicate (Z.to_nat n) NUL) n s
    = let len := zlen (header_text (zlen (body_text text))) + zlen (body_text text) in
      if len <? n then Ok ((0, filled text n), s) else Fault OutOfBounds.
Proof.
  intros Hs Hidx Hne Hn.
  destruct (variable_list_base64_ok s) as (text & Hw & Hok & Hge & Hle & Hrun); [done..|].
  exists text. split_and!; [done..|]. unfold build_set_efi_vars_message.
  erewrite bind_runs by exact Hrun. cbv beta iota.
  erewrite bind_runs by by apply mlift_runs, strlen_text.
  pose proof (zlen_nonneg text) as Hpos. pose proof (zlen_body text) as Hbody.
  change (sizeof_format (HTTP_BODY_SET_NVRAM_VARS (Some (text ++ [NUL])))) with 277.
  replace (277 + zlen text - 1) with (zlen (body_text text) + 2) by lia.
  cbv zeta.
  destruct (grants_block MESSAGE_MAX (zlen (body_text text) + 2)) as (block & -> & Hblock);
    [done|unfold MESSAGE_MAX; lia|].
  pose proof (body_text_ok _ Hok) as Hbok.
  erewrite bind_runs; cycle 1.
  { apply mlift_runs, body_printed; [done..|unfold MESSAGE_MAX; lia]. }
  cbv beta iota. zb.
  erewrite bind_runs by by apply mlift_runs, strlen_text.
  pose proof (zlen_header_text (zlen (body_text text)) ltac:(lia)) as Hh.
  set (head := header_text (zlen (body_text text))) in *.
  erewrite bind_runs; cycle 1.
  { by apply mlift_runs, header_printed; [lia|]. }
  cbv beta iota. fold head. zb. rewrite u64_id by (unfold MESSAGE_MAX in *; lia).
  erewrite bind_runs; cycle 1.
  { apply mlift_runs. unfold strncpy. rewrite c_chars_text by done. cbn [obind].
    rewrite <-app_assoc.
    rewrite write_last by (done || nlen). done. }
  rewrite length_take.
  replace (Z.to_nat (n - zlen head) - _ `min` _)%nat
    with (Z.to_nat (n - zlen head) - length (body_text text))%nat by lia.
  change (head ++ _ ++ _) with (filled text n).
  assert (Hfill : zlen (filled text n) = n).
  { unfold filled. fold head. nlen. }
  destruct (zlen head + zlen (body_text text) <? n) eqn:E.
  - apply Z.ltb_lt in E. erewrite bind_runs; [done|]. apply mlift_runs.
    apply write_terminator; fold head; lia.
  - apply Z.ltb_ge in E. unfold bind, mlift, write_bytes. rewrite Hfill.
    change (zlen [NUL]) with 1.
    rewrite (proj2 (Z.leb_gt (zlen (body_text text) + zlen head + 1) n)) by lia.
    by rewrite andb_false_r.
Qed.

(** C30: The message that [xapi_set] sends.  Into its zeroed buffer of
    [MSG_SIZE] bytes, [build_set_efi_vars_message] puts exactly the HTTP header
    with the length of the body, and the XML body around the base64 text of the
    list of the non-volatile variables, when the two are shorter than the
    buffer; and otherwise it writes the terminator outside the buffer. *)
Theorem set_message_exact (s : storage) :
  storage_inv s -> storage_iter_index s = 0 -> listed true s <> [] ->
  exists text,
    BIO_base64_write (list_bytes (listed true s)) = Some text /\
    build_set_efi_vars_message (replicate (Z.to_nat MSG_SIZE) NUL) MSG_SIZE s
    = let body := body_text text in
      let message := header_text (zlen body) ++ body in
      if zlen message <? MSG_SIZE
      then Ok ((0, message ++ replicate (Z.to_nat (MSG_SIZE - zlen message)) NUL), s)
      else Fault OutOfBounds.
Proof.
  intros Hs Hidx Hne.
  destruct (build_message_ok s MSG_SIZE) as (text & Hw & _ & _ & ->);
    [done..|unfold MESSAGE_MAX; clia|].
  exists text. split; [done|]. cbv zeta. rewrite zlen_app.
  destruct (_ <? MSG_SIZE) eqn:E; [|done]. apply Z.ltb_lt in E. do 3 f_equal.
  unfold filled. set (head := header_text _) in *. rewrite take_ge by nlen.
  rewrite <-app_assoc. do 3 f_equal. nlen.
Qed.

End message.

(** ** The rate of sends *)
Section rate.
Context {E : Type} `{Host E}.

(** The credit after the refill of a call at time [t]. *)
Definition refilled (t : Z) (x : xapi_state E) : Z :=
  Z.min MAX_CREDIT (u32 (send_credit x + s64 (t - last_time x) * CREDIT_PER_SECOND)).

(** A call either spends a credit and returns at once, or has none, sleeps and
    starts to count from the time it wakes up. *)
Lemma throttle_cases (x : xapi_state E) t h :
  sys_time (host x) = (t, h) ->
  throttle x
  = Ok (tt, if 0 <? refilled t x
            then set_credit t (refilled t x - 1) (set_host h x)
            else let '(t', h') := sys_time (sys_sleep NS_PER_CREDIT h) in
                 set_credit t' 0 (set_host h' x)).
Proof.
  intros Ht. unfold throttle, bind, sys at 1. rewrite Ht. unfold mget, mmodify.
  cbn [set_host last_time send_credit set_credit].
  set (c := u32 _).
  assert (Hc : (if c >? MAX_CREDIT then MAX_CREDIT else c) = refilled t x).
  { unfold refilled. fold c. rewrite Z.gtb_ltb. destruct (Z.ltb_spec MAX_CREDIT c); lia. }
  rewrite Hc, Z.gtb_ltb. destruct (0 <? refilled t x) eqn:E0; [done|].
  apply Z.ltb_ge in E0. pose proof (u32_range (send_credit x + s64 (t - last_time x) * CREDIT_PER_SECOND)).
  assert (refilled t x = 0) as Hz by (unfold refilled in *; clia).
  unfold sys. cbn [set_credit host set_host].
  destruct (sys_time (sys_sleep NS_PER_CREDIT h)) as [t' h']. by rewrite Hz.
Qed.

Lemma throttle_ok (x : xapi_state E) : exists x', throttle x = Ok (tt, x').
Proof. destruct (sys_time (host x)) as [t h] eqn:Ht. eexists. by apply throttle_cases. Qed.

(** The time of the host in nanoseconds: [time] gives its seconds, reading does not
    turn it back, and a sleep, which no signal interrupts, lasts at least as
    long as it was asked to. *)
Record real_clock (now : E -> Z) : Prop := {
  rc_time : forall h, fst (sys_time h) = now h / 1000000000;
  rc_read : forall h, now h <= now (snd (sys_time h));
  rc_sleep : forall ns h, 0 <= ns -> now h + ns <= now (sys_sleep ns h)
}.

(** Histories with [k] calls of [throttle], which is called before each send;
    in between anything may happen that leaves its two variables alone and
    does not turn back the clock. *)
Inductive sends (now : E -> Z) : Z -> xapi_state E -> xapi_state E -> Prop :=
  | sends_done x : sends now 0 x x
  | sends_throttled k x x1 x2 :
      throttle x = Ok (tt, x1) -> sends now k x1 x2 -> sends now (1 + k) x x2
  | sends_other k x x1 x2 :
      now (host x) <= now (host x1) -> last_time x1 = last_time x ->
      send_credit x1 = send_credit x -> sends now k x1 x2 -> sends now k x x2.

Lemma sends_app now k1 k2 x x1 x2 :
  sends now k1 x x1 -> sends now k2 x1 x2 -> sends now (k1 + k2) x x2.
Proof.
  induction 1 as [x|k x y z Ht _ IH|k x y z Hn Hl Hc _ IH]; intros H2; [done| |].
  - rewrite <-Z.add_assoc. eapply sends_throttled; [done|by apply IH].
  - eapply sends_other; [done..|by apply IH].
Qed.

Definition seconds (now : E -> Z) (x : xapi_state E) : Z := now (host x) / 1000000000.

(** Sends that a moment stands for: three for each second, of which one after
    its first half. *)
Definition phase (t : Z) : Z := 3 * (t / 1000000000) + t mod 1000000000 / NS_PER_CREDIT.

Lemma phase_bounds t : 3 * (t / 1000000000) <= phase t <= 3 * (t / 1000000000) + 1.
Proof. unfold phase, NS_PER_CREDIT. Z.div_mod_to_equations. lia. Qed.
Lemma phase_later t u : t <= u -> phase t + 2 * (u / 1000000000 - t / 1000000000) <= phase u.
Proof. unfold phase, NS_PER_CREDIT. intros. Z.div_mod_to_equations. lia. Qed.
Lemma phase_pause t u : t + NS_PER_CREDIT <= u -> phase t + 1 <= phase u.
Proof. unfold phase, NS_PER_CREDIT. intros. Z.div_mod_to_equations. lia. Qed.

(** What a call could spend now. *)
Definition available (now : E -> Z) (x : xapi_state E) : Z :=
  Z.min MAX_CREDIT (send_credit x + (seconds now x - last_time x) * CREDIT_PER_SECOND).

Definition credit_ok (now : E -> Z) (x : xapi_state E) : Prop :=
  0 <= send_credit x <= MAX_CREDIT /\ 0 <= last_time x <= seconds now x.

Lemma available_range now x : credit_ok now x -> 0 <= available now x <= MAX_CREDIT.
Proof. unfold credit_ok, available. clia. Qed.

Lemma refilled_available now x :
  credit_ok now x -> seconds now x < 0x4000000000000000 ->
  0 <= refilled (seconds now x) x <= available now x.
Proof.
  intros [Hs Hl] Hmax. unfold refilled, available.
  rewrite s64_id by lia. set (c := send_credit x + _).
  assert (0 <= c) by (unfold c; clia).
  pose proof (u32_range c). assert (u32 c <= c) by (apply Z.mod_le; lia). clia.
Qed.

(** What is left of the credit and of the time. *)
Definition left (now : E -> Z) (x : xapi_state E) : Z := available now x - phase (now (host x)).

(** Time that passes does not give more than it takes. *)
Lemma left_later now x x1 :
  credit_ok now x -> now (host x) <= now (host x1) -> last_time x1 = last_time x ->
  send_credit x1 = send_credit x -> credit_ok now x1 /\ left now x1 <= left now x.
Proof.
  unfold credit_ok, left, available, seconds. intros [Hs Hl] Hn -> ->.
  pose proof (phase_later _ _ Hn).
  pose proof (Z.div_le_mono _ _ 1000000000 ltac:(lia) Hn). clia.
Qed.

(** A call costs one, a credit or half a second. *)
Lemma throttle_step now x x1 :
  real_clock now -> credit_ok now x -> seconds now x < 0x4000000000000000 ->
  throttle x = Ok (tt, x1) ->
  credit_ok now x1 /\ now (host x) <= now (host x1) /\ left now x1 + 1 <= left now x.
Proof.
  intros Hc Hx Hmax Hrun. pose proof (refilled_available _ _ Hx Hmax) as Hr.
  pose proof (rc_time _ Hc (host x)) as Ht. pose proof (rc_read _ Hc (host x)) as Hm.
  destruct (sys_time (host x)) as [t h] eqn:Eh. cbn [fst snd] in *. subst t.
  rewrite (throttle_cases _ _ _ Eh) in Hrun. injection Hrun as <-. fold (seconds now x).
  pose proof (phase_later _ _ Hm). pose proof (Z.div_le_mono _ _ 1000000000 ltac:(lia) Hm).
  assert (Hcap : refilled (seconds now x) x <= MAX_CREDIT) by (unfold refilled; lia).
  destruct Hx as [Hs Hl]. destruct (0 <? refilled (seconds now x) x) eqn:E0.
  - apply Z.ltb_lt in E0. unfold credit_ok, left, available, seconds in *.
    cbn [set_credit set_host send_credit last_time host] in *. clia.
  - apply Z.ltb_ge in E0. pose proof (rc_sleep _ Hc NS_PER_CREDIT h ltac:(clia)) as Hsl.
    pose proof (rc_time _ Hc (sys_sleep NS_PER_CREDIT h)) as Ht2.
    pose proof (rc_read _ Hc (sys_sleep NS_PER_CREDIT h)) as Hm2.
    destruct (sys_time (sys_sleep NS_PER_CREDIT h)) as [t' h']. cbn [fst snd] in *. subst t'.
    assert (Hp : now (host x) + NS_PER_CREDIT <= now (sys_sleep NS_PER_CREDIT h)) by lia.
    pose proof (phase_pause _ _ Hp). pose proof (phase_later _ _ Hm2).
    assert (Hle : now (host x) <= now (sys_sleep NS_PER_CREDIT h)) by (revert Hp; clia).
    pose proof (Z.div_le_mono _ _ 1000000000 ltac:(lia) Hle).
    pose proof (Z.div_le_mono _ _ 1000000000 ltac:(lia) Hm2).
    unfold credit_ok, left, available, seconds in *.
    cbn [set_credit set_host send_credit last_time host] in *. clia.
Qed.

Lemma sends_later now k x x' :
  real_clock now -> sends now k x x' -> now (host x) <= now (host x').
Proof.
  intros Hc. induction 1 as [x|k x x1 x2 Ht _ IH|k x x1 x2 Hn _ _ _ IH]; [done| |lia].
  pose proof (rc_read _ Hc (host x)) as Hm. pose proof (rc_sleep _ Hc NS_PER_CREDIT) as Hs.
  destruct (sys_time (host x)) as [t h] eqn:Eh. rewrite (throttle_cases _ _ _ Eh) in Ht.
  injection Ht as <-. cbn [snd] in Hm. destruct (0 <? refilled t x); [cbn in IH; lia|].
  pose proof (rc_read _ Hc (sys_sleep NS_PER_CREDIT h)). specialize (Hs h ltac:(clia)).
  destruct (sys_time (sys_sleep NS_PER_CREDIT h)) as [t' h']. cbn in *.
  revert Hs. clia.
Qed.

(** C33: The rate limit.  Where a sleep lasts as long as it was asked to and the
    clock does not go back, whatever happens in between, the number of sends
    (each behind a call of [throttle], with or without a pause) is at most 101 and
    three more for each second that begins. *)
Theorem sends_limited (now : E -> Z) (k : Z) (x x' : xapi_state E) :
  real_clock now -> credit_ok now x -> seconds now x' < 0x4000000000000000 ->
  sends now k x x' ->
  k <= MAX_CREDIT + 1 + (CREDIT_PER_SECOND + 1) * (seconds now x' - seconds now x).
Proof.
  intros Hc Hx Hmax Hrun.
  assert (Hk : credit_ok now x' /\ k <= left now x - left now x').
  { induction Hrun as [x|k x x1 x2 Ht Hrun IH|k x x1 x2 Hn Hl Hcr _ IH]; [split; [done|lia]| |].
    - pose proof (sends_later _ _ _ _ Hc (sends_throttled _ _ _ _ _ Ht Hrun)) as Hle.
      pose proof (Z.div_le_mono _ _ 1000000000 ltac:(lia) Hle).
      destruct (throttle_step _ _ _ Hc Hx ltac:(unfold seconds in *; lia) Ht) as (Hx1 & _ & ?).
      destruct (IH Hx1 Hmax). split; [done|lia].
    - destruct (left_later _ _ _ Hx Hn Hl Hcr) as [Hx1 ?].
      destruct (IH Hx1 Hmax). split; [done|lia]. }
  destruct Hk as [Hx' Hk]. pose proof (available_range _ _ Hx). pose proof (available_range _ _ Hx').
  pose proof (phase_bounds (now (host x))). pose proof (phase_bounds (now (host x'))).
  unfold left, seconds in *. clia.
Qed.

End rate.

(** The bound of three per second is reached, although two were meant: a send
    after a pause in the first half of a second is not held against the two
    that the next second brings. *)
Definition at_second (t : Z) : xapi_state toy_env :=
  set_credit t 0 (sample_xapi (mk_env None [] [] (t * 1000000000))).
Definition toy_now : toy_env -> Z := env_clock.

Lemma toy_clock_real : @real_clock toy_env toy_host toy_now.
Proof. constructor; intros; unfold toy_now; cbn; lia. Qed.

(** A pause at the start of second [t], and two sends at once in the next. *)
Lemma three_sends t : 0 <= t < 0x3fffffff ->
  @sends toy_env toy_host toy_now 3 (at_second t) (at_second (t + 1)).
Proof.
  intros Ht.
  set (e := mk_env None [] [] ((t + 1) * 1000000000)).
  assert (Hsec : forall u d, 0 <= d < 1000000000 -> (u * 1000000000 + d) / 1000000000 = u).
  { intros u d Hd. rewrite Z.div_add_l, (Z.div_small d) by lia. lia. }
  assert (Hw : env_clock e / 1000000000 = t + 1) by (by apply Z.div_mul).
  apply (@sends_throttled _ toy_host _ 2 _ (set_credit t 0 (sample_xapi
    (mk_env None [] [] (t * 1000000000 + NS_PER_CREDIT))))).
  { rewrite (throttle_cases _ t (mk_env None [] [] (t * 1000000000))) by
      (cbn; by rewrite Z.div_mul).
    unfold refilled at 1. cbn [at_second set_credit send_credit last_time].
    rewrite Z.sub_diag, s64_id, u32_id by lia.
    cbn -[Z.div Z.mul Z.add].
    by rewrite (Hsec t NS_PER_CREDIT) by done. }
  apply (@sends_other _ toy_host _ 2 _ (set_credit t 0 (sample_xapi e))).
  { unfold toy_now. cbn -[Z.mul Z.add]. clia. }
  { done. }
  { done. }
  apply (@sends_throttled _ toy_host _ 1 _ (set_credit (t + 1) 1 (sample_xapi e))).
  { rewrite (throttle_cases _ (t + 1) e) by (cbn [sys_time toy_host set_credit host sample_xapi]; by rewrite Hw).
    unfold refilled. cbn [set_credit send_credit last_time].
    replace (t + 1 - t) with 1 by lia. by rewrite s64_id, u32_id by clia. }
  apply (@sends_throttled _ toy_host _ 0 _ (at_second (t + 1))); [|apply sends_done].
  rewrite (throttle_cases _ (t + 1) e) by (cbn [sys_time toy_host set_credit host sample_xapi]; by rewrite Hw).
  unfold refilled. cbn [set_credit send_credit last_time].
  by rewrite Z.sub_diag, s64_id, u32_id by clia.
Qed.

(** Three sends for each of [n] seconds. *)
Theorem three_per_second (n : nat) (t : Z) : 0 <= t -> t + Z.of_nat n < 0x3fffffff ->
  @sends toy_env toy_host toy_now (3 * Z.of_nat n) (at_second t) (at_second (t + Z.of_nat n)).
Proof.
  intros Ht. induction n as [|n IH]; intros Hn.
  { rewrite Z.add_0_r. apply sends_done. }
  replace (3 * Z.of_nat (S n)) with (3 * Z.of_nat n + 3) by lia.
  replace (t + Z.of_nat (S n)) with (t + Z.of_nat n + 1) by lia.
  eapply sends_app; [apply IH; lia|apply three_sends; lia].
Qed.

(** Six sends within two seconds: two pauses and four sends at once. *)
Lemma sends_limited_witness :
  @sends toy_env toy_host toy_now 6 (at_second 1000) (at_second 1002) /\
  6 <= MAX_CREDIT + 1 + (CREDIT_PER_SECOND + 1)
       * (seconds toy_now (at_second 1002) - seconds toy_now (at_second 1000)).
Proof.
  assert (Hs : @sends toy_env toy_host toy_now 6 (at_second 1000) (at_second 1002)).
  { apply (three_per_second 2 1000); lia. }
  split; [exact Hs|].
  apply (@sends_limited toy_env toy_host toy_now 6 (at_second 1000) (at_second 1002)
           toy_clock_real); [vm_compute; repeat split; discriminate|reflexivity|exact Hs].
Defined.

(** ** Reading from the socket *)
Section reading.
Context {E : Type} `{Host E}.

(** What a peer sends into a buffer of [size] bytes, with so many interrupted
    reads: the buffer fills up, or the stream ends. *)
Inductive reads : nat -> Z -> E -> bytes -> E -> Prop :=
  | reads_full h : reads 0 0 h [] h
  | reads_end size h h' :
      0 < size -> sys_read (Z.min size BUFSIZ) h = (R_bytes [], h') -> reads 0 size h [] h'
  | reads_some n size h b h1 bs h2 :
      0 < zlen b <= size -> sys_read (Z.min size BUFSIZ) h = (R_bytes b, h1) ->
      reads n (size - zlen b) h1 bs h2 -> reads n size h (b ++ bs) h2
  | reads_again n size h h1 bs h2 :
      0 < size -> sys_read (Z.min size BUFSIZ) h = (R_interrupted, h1) ->
      reads n size h1 bs h2 -> reads (S n) size h bs h2.

Lemma reads_size n size h bs h' : reads n size h bs h' -> 0 <= zlen bs <= size.
Proof.
  induction 1 as [|size h h' Hs _|n size h b h1 bs h2 Hb _ _ IH|n size h h1 bs h2 Hs _ _ IH].
  - done.
  - change (0 <= 0 <= size). lia.
  - rewrite zlen_app. lia.
  - lia.
Qed.

Lemma chunk_min size : (if size >? BUFSIZ then BUFSIZ else size) = Z.min size BUFSIZ.
Proof. rewrite Z.gtb_ltb. destruct (Z.ltb_spec BUFSIZ size); lia. Qed.

Lemma read_socket_loop_ok n size h bs h' :
  reads n size h bs h' -> forall fuel pre old post (x : xapi_state E),
  host x = h -> zlen old = size -> (Z.to_nat size + n < fuel)%nat ->
  read_socket_loop fuel (pre ++ old ++ post) (zlen pre) size x
  = Ok ((Some (zlen pre + zlen bs), pre ++ bs ++ drop (length bs) old ++ post), set_host h' x).
Proof.
  induction 1 as [h|size h h' Hs Hr|n size h b h1 bs h2 Hb Hr Hrest IH|n size h h1 bs h2 Hs Hr _ IH];
    intros fuel pre old post x Hx Hold Hf; (destruct fuel as [|fuel]; [lia|]);
    cbn [read_socket_loop].
  - cbn [Z.eqb]. rewrite zlen_nil, Z.add_0_r. subst h. by destruct x.
  - rewrite (proj2 (Z.eqb_neq size 0)) by lia. rewrite chunk_min.
    unfold bind at 1, sys. rewrite Hx, Hr. rewrite zlen_nil, Z.add_0_r. done.
  - rewrite (proj2 (Z.eqb_neq size 0)) by lia. rewrite chunk_min.
    unfold bind at 1, sys. rewrite Hx, Hr. destruct b as [|c b']; [change (0 < 0 <= size) in Hb; lia|].
    set (b := c :: b') in *.
    erewrite bind_runs; cycle 1.
    { apply mlift_runs. rewrite write_next by (done || rewrite zlen_app; pose proof (zlen_nonneg post); lia).
      rewrite drop_app_le by nlen. rewrite <-app_assoc. done. }
    pose proof (reads_size _ _ _ _ _ Hrest).
    specialize (IH fuel (pre ++ b) (drop (length b) old) post (set_host h1 x)).
    rewrite <-!app_assoc in IH. rewrite zlen_app in IH.
    rewrite IH; [|done|nlen|lia]. rewrite zlen_app, drop_drop, length_app, <-!app_assoc.
    by rewrite Z.add_assoc.
  - rewrite (proj2 (Z.eqb_neq size 0)) by lia. rewrite chunk_min.
    unfold bind at 1, sys. rewrite Hx, Hr. by rewrite (IH fuel pre old post (set_host h1 x)) by (done || lia).
Qed.

(** C32: [read_socket] stores what the peer sends, in any pieces and with any
    interruptions, followed by a terminator; and when the peer sends as many
    bytes as the buffer holds, the terminator is written one byte past the
    buffer's end. *)
Theorem read_socket_exact (interrupts n : nat) (buf bs : bytes) (x : xapi_state E) (h' : E) :
  (n <= interrupts)%nat -> reads n (zlen buf) (host x) bs h' ->
  read_socket interrupts buf (zlen buf) x
  = if zlen bs <? zlen buf
    then Ok ((0, bs ++ NUL :: drop (S (length bs)) buf), set_host h' x)
    else Fault OutOfBounds.
Proof.
  intros Hn Hr. pose proof (reads_size _ _ _ _ _ Hr) as Hs. unfold read_socket.
  pose proof (read_socket_loop_ok _ _ _ _ _ Hr (S (Z.to_nat (zlen buf) + interrupts)) [] buf [] x
                eq_refl eq_refl ltac:(lia)) as Hloop.
  cbn [app] in Hloop. rewrite !app_nil_r, zlen_nil, Z.add_0_l in Hloop.
  erewrite bind_runs by exact Hloop. cbv beta iota.
  destruct (zlen bs <? zlen buf) eqn:E0.
  - apply Z.ltb_lt in E0. erewrite bind_runs; [done|].
    apply mlift_runs. rewrite write_next by (done || nlen). f_equal.
    rewrite <-app_assoc, drop_drop. cbn [app length]. do 3 f_equal. lia.
  - apply Z.ltb_ge in E0. unfold bind, mlift, write_bytes.
    change (zlen [NUL]) with 1. rewrite zlen_app, zlen_drop.
    rewrite (proj2 (Z.leb_gt (zlen bs + 1) _)) by (unfold zlen in *; lia). by rewrite andb_false_r.
Qed.

End reading.

(** ** A store that does not fit *)

(** C31: A guest can make the daemon write outside its message buffer.  When
    the non-volatile variables take 192 KiB or more as a list (which six
    variables of the largest size do), the next [xapi_set], that is, the next
    change to a non-volatile variable, writes past the buffer. *)
Theorem large_store_overflows {E : Type} `{Host E} `{Allocator} `{Base64} (interrupts : nat)
    (s : storage) (x : xapi_state E) :
  grants MESSAGE_MAX -> base64_text -> storage_inv s -> storage_iter_index s = 0 ->
  196608 <= list_size (listed true s) ->
  xapi_set interrupts (s, x) = Fault OutOfBounds.
Proof.
  intros G Hb Hs Hidx Hsize. destruct (listed_ok true s Hs) as (Hl & _ & Hn).
  rewrite list_size_ok in Hsize by (done || clia).
  destruct (throttle_ok x) as [x1 Hx1]. unfold xapi_set.
  erewrite bind_runs by (unfold on_xapi, mzoom; cbn [snd]; by rewrite Hx1).
  destruct (grants_block MESSAGE_MAX MSG_SIZE) as (b & -> & _); [done|unfold MESSAGE_MAX; clia|].
  destruct (build_message_ok G Hb s MSG_SIZE) as (text & _ & _ & Hge & Hbuild);
    [done|done| |unfold MESSAGE_MAX; clia|].
  { intros E0. rewrite E0 in Hsize. by vm_compute in Hsize. }
  unfold bind at 1, on_storage, mzoom. cbn [fst]. rewrite Hbuild.
  pose proof (zlen_body text). pose proof (zlen_nonneg (header_text (zlen (body_text text)))).
  cbv zeta. by rewrite (proj2 (Z.ltb_ge _ MSG_SIZE)) by clia.
Qed.

Lemma toy_base64_text : @base64_text toy_base64.
Proof.
  intros b. exists (b64_encode b). destruct (b64_encode_text b) as [Hl Hok].
  split_and!; [done|exact Hok|lia|lia].
Qed.

Lemma set_message_exact_witness :
  exists text,
    @BIO_base64_write toy_base64 (list_bytes (listed true store_2)) = Some text /\
    @build_set_efi_vars_message zero_allocator toy_base64
      (replicate (Z.to_nat MSG_SIZE) NUL) MSG_SIZE store_2
    = let body := body_text text in
      let message := header_text (zlen body) ++ body in
      if zlen message <? MSG_SIZE
      then Ok ((0, message ++ replicate (Z.to_nat (MSG_SIZE - zlen message)) NUL), store_2)
      else Fault OutOfBounds.
Proof.
  apply (@set_message_exact zero_allocator toy_base64 (zero_allocator_grants _) toy_base64_text
           store_2); [exact store_2_inv|reflexivity|discriminate].
Defined.

(** Six variables of the largest size. *)
Definition big_var (i : Z) : variable_t :=
  created name_A 2 (replicate (Z.to_nat 32768) x00) 32768 (replicate 16 (byte_of_Z i)) 7 None None.
Definition big_vars : list variable_t := big_var <$> [1; 2; 3; 4; 5; 6].

Lemma big_var_ok i : live_wf (big_var i) /\ canonical (big_var i).
Proof.
  pose proof name_A_ok as Hn. split; [|by apply created_canonical].
  apply created_live_wf; first [done|apply Hn|clia|rewrite zlen_replicate; clia|idtac].
Qed.

Lemma big_store_inv : storage_inv (store_of big_vars).
Proof.
  apply store_of_inv.
  - apply Forall_fmap, Forall_forall. intros i _. apply big_var_ok.
  - apply Forall_fmap, Forall_forall. intros i _. apply big_var_ok.
  - apply (bool_decide_unpack _). vm_compute. exact I.
  - by apply Nat.leb_le.
Qed.

Lemma big_list_size : 196608 <= list_size (listed true (store_of big_vars)).
Proof. vm_compute. discriminate. Qed.

Lemma large_store_overflows_witness :
  @xapi_set toy_env toy_host 0 zero_allocator toy_base64
    (store_of big_vars, sample_xapi empty_env) = Fault OutOfBounds.
Proof.
  apply (@large_store_overflows toy_env toy_host zero_allocator toy_base64 0
           (store_of big_vars) (sample_xapi empty_env));
    [apply zero_allocator_grants|exact toy_base64_text|exact big_store_inv|reflexivity
    |exact big_list_size].
Defined.

(** A reply of two pieces, the second after an interruption, into a buffer that
    they fill. *)
Definition reply_env : toy_env :=
  mk_env None [R_bytes [x41; x42]; R_interrupted; R_bytes [x43; x44]] [] 1000000000000.

Lemma reply_reads :
  @reads toy_env toy_host 1 4 (host (sample_xapi reply_env)) ([x41; x42] ++ [x43; x44] ++ [])
    empty_env.
Proof.
  eapply (reads_some 1 4 _ [x41; x42]); [done|reflexivity|].
  eapply reads_again; [done|reflexivity|].
  eapply (reads_some 0 2 _ [x43; x44]); [done|reflexivity|]. apply reads_full.
Qed.

Lemma read_socket_exact_witness :
  @read_socket toy_env toy_host 1 (replicate 4 NUL) (zlen (replicate 4 NUL)) (sample_xapi reply_env)
  = if zlen ([x41; x42] ++ [x43; x44] ++ []) <? zlen (replicate 4 NUL)
    then Ok ((0, ([x41; x42] ++ [x43; x44] ++ []) ++
                 NUL :: drop (S (length ([x41; x42] ++ [x43; x44] ++ []))) (replicate 4 NUL)),
             set_host empty_env (sample_xapi reply_env))
    else Fault OutOfBounds.
Proof.
  apply (@read_socket_exact toy_env toy_host 1 1 (replicate 4 NUL)
           ([x41; x42] ++ [x43; x44] ++ []) (sample_xapi reply_env) empty_env);
    [lia|exact reply_reads].
Defined.
