(* ===== verification/Requests.v ===== *)
(** * Requests

    The requests of the RPC protocol: that parsing one never leaves the page,
    whatever the page holds; the format a well-formed request has; and which
    (name, GUID) pairs the server protects. *)
From S2P Require Import Prelude EfiTypes Common UefiVariable Storage Serializer SerializerSpec.
From S2P Require Import Crypto SigList Auth Server.

(** ** Readers on arbitrary bytes

    [consumes m n P]: with at least [n] bytes left, the reader [m] gives a
    value that satisfies [P] and moves the cursor by at most [n]. *)
Definition consumes {A} (m : M bytes A) (n : Z) (P : A -> Prop) : Prop :=
  forall s, n <= zlen s -> exists a s', m s = Ok (a, s') /\ P a /\ zlen s - n <= zlen s'.

Lemma consumes_ret {A} (a : A) n (P : A -> Prop) : 0 <= n -> P a -> consumes (ret a) n P.
Proof. intros Hn Ha s Hs. exists a, s. split_and!; [done|done|lia]. Qed.

Lemma consumes_bind {A B} (m : M bytes A) (k : A -> M bytes B) n1 n2 n P Q :
  consumes m n1 P -> (forall a, P a -> consumes (k a) n2 Q) -> 0 <= n2 -> n1 + n2 <= n ->
  consumes (bind m k) n Q.
Proof.
  intros Hm Hk Hn2 Hn s Hs.
  destruct (Hm s) as (a & s1 & H1 & Ha & L1); [lia|].
  destruct (Hk a Ha s1) as (b & s2 & H2 & Hb & L2); [lia|].
  exists b, s2. rewrite (bind_runs _ _ _ _ _ H1). split_and!; [done|done|lia].
Qed.

Lemma consumes_weaken {A} (m : M bytes A) n n' (P Q : A -> Prop) :
  consumes m n P -> n <= n' -> (forall a, P a -> Q a) -> consumes m n' Q.
Proof.
  intros Hm Hn HPQ s Hs. destruct (Hm s) as (a & s' & H1 & Ha & L); [lia|].
  exists a, s'. split_and!; [done|auto|lia].
Qed.

Lemma consumes_rd n : 0 <= n -> consumes (rd n) n (fun b => zlen b = n).
Proof.
  intros Hn s Hs. unfold rd. rewrite read_bytes_prefix by lia. cbn [obind].
  eexists _, _. split_and!; [done|cbn beta; zlia|zlia].
Qed.

Lemma consumes_le n w :
  w = 256 ^ Z.of_nat n ->
  consumes (b <- rd (Z.of_nat n) ;; ret (le_decode b)) (Z.of_nat n) (fun x => 0 <= x < w).
Proof.
  intros ->. eapply (consumes_bind _ _ _ 0); [apply consumes_rd; lia| |lia|lia].
  intros b Hb. apply consumes_ret; [done|]. pose proof (le_decode_range b) as R.
  replace (length b) with n in R; [done|]. unfold zlen in Hb. lia.
Qed.

Lemma consumes_uint32 : consumes unserialize_uint32 4 (fun x => 0 <= x < 0x100000000).
Proof. by apply (consumes_le 4). Qed.
Lemma consumes_uint64 : consumes unserialize_uint64 8 (fun x => 0 <= x < 0x10000000000000000).
Proof. by apply (consumes_le 8). Qed.
Lemma consumes_boolean : consumes unserialize_boolean 1 (fun _ => True).
Proof.
  eapply (consumes_bind _ _ 1 0); [by apply consumes_rd| |done|done].
  intros b _. by apply consumes_ret.
Qed.
Lemma consumes_guid : consumes unserialize_guid 16 (fun g => zlen g = 16).
Proof. by apply consumes_rd. Qed.

(** A length-prefixed field read into a buffer of [buflen] bytes. *)
Lemma consumes_data buf buflen :
  0 <= buflen <= zlen buf -> zlen buf < 0x80000000 ->
  consumes (unserialize_data buf buflen) (8 + buflen)
    (fun '(n, b) => (n = -1 \/ 0 <= n <= buflen) /\ zlen b = zlen buf).
Proof.
  intros Hb Hmax s Hs.
  destruct (unserialize_data_any buf buflen s) as (size & Hr & E); [done|lia|done|].
  apply obind_inv in Hr as (b8 & _ & Hr). injection Hr as Hsz.
  assert (0 <= size) by (subst size; pose proof (le_decode_range b8); lia).
  rewrite E. destruct (Z.gtb_spec size buflen) as [Hgt|Hle].
  - eexists _, s. split_and!; [done|split; [by left|done]|lia].
  - eexists _, _. split_and!; [done|split; [by right|]|]; zlia.
Qed.
#[export] Hint Resolve consumes_uint32 consumes_uint64 consumes_boolean consumes_guid : uefi.

(** One reader of at most [n1] bytes. *)
Ltac consume_step n1 :=
  lazymatch goal with
  | |- consumes (bind ?m ?k) ?n ?Q =>
      let n2 := eval vm_compute in (n - n1) in
      eapply (consumes_bind m k n1 n2); [solve [eauto with uefi]| |lia|lia]
  end.

(** ** Parsing a request never leaves the page *)

Lemma zlen_zero_req_name : zlen zero_req_name = 256.
Proof. by apply zlen_replicate. Qed.
Lemma zlen_zero_buffer : zlen zero_buffer = MAX_VARIABLE_DATA_SIZE.
Proof. unfold zero_buffer. rewrite zlen_replicate. clia. Qed.

Lemma consumes_req_name :
  consumes (unserialize_data zero_req_name MAX_VARIABLE_NAME_SIZE) 264
    (fun '(n, b) => (n = -1 \/ 0 <= n <= 256) /\ zlen b = 256).
Proof.
  pose proof zlen_zero_req_name as Hz.
  eapply consumes_weaken; [by apply consumes_data; clia|done|].
  intros [n b]. by rewrite Hz.
Qed.
Lemma consumes_req_buffer :
  consumes (unserialize_data zero_buffer MAX_VARIABLE_DATA_SIZE) 32776
    (fun '(n, b) => (n = -1 \/ 0 <= n <= MAX_VARIABLE_DATA_SIZE) /\
                    zlen b = MAX_VARIABLE_DATA_SIZE).
Proof.
  pose proof zlen_zero_buffer as Hz.
  eapply consumes_weaken; [by apply consumes_data; clia|done|].
  intros [n b]. by rewrite Hz.
Qed.
#[export] Hint Resolve consumes_req_name consumes_req_buffer : uefi.

(** What the parsers guarantee of a request. *)
Record req_ok (req : request) : Prop := {
  rq_namesz : 0 <= req_namesz req <= 256;
  rq_name : zlen (req_name req) = 256;
  rq_guid : zlen (req_guid req) = 16
}.

Definition parsed_ok {A} (r : A * option (request * bool)) : Prop :=
  match snd r with Some (req, _) => req_ok req | None => True end.

Lemma get_request_consumes : consumes unserialize_get_request 297 parsed_ok.
Proof.
  unfold unserialize_get_request.
  consume_step 4. intros v _.
  destruct (negb _); [by apply consumes_ret|].
  consume_step 4. intros c _.
  consume_step 264. intros [n b] [Hn Hb].
  destruct (s32 n <? 0) eqn:En; [by apply consumes_ret|].
  assert (0 <= n <= 256) by (destruct Hn as [->|]; [by vm_compute in En|done]).
  consume_step 16. intros g Hg.
  consume_step 8. intros size _.
  consume_step 1. intros rt _.
  apply consumes_ret; [done|]. constructor; cbn; [rewrite s32_id; lia|done|done].
Qed.

(** The version and the command of a [GetNextVariableName] request are asserted
    by its parser and its handler. *)
Lemma get_next_request_runs s c s1 s2 :
  unserialize_uint32 s = Ok (1, s1) -> unserialize_uint32 s1 = Ok (c, s2) -> 289 <= zlen s2 ->
  exists r parsed s', unserialize_get_next_request s = Ok ((r, parsed), s') /\
    match parsed with
    | Some (req, _) => req_ok req /\ req_version req = 1 /\ req_command req = c
    | None => True
    end.
Proof.
  intros H1 H2 Hl. unfold unserialize_get_next_request.
  rewrite (bind_runs _ _ _ _ _ H1). unfold bind at 1, mlift. rewrite Z.eqb_refl.
  cbn [oassert]. rewrite (bind_runs _ _ _ _ _ H2).
  match goal with |- exists r p s', ?m s2 = _ /\ _ =>
    cut (consumes m 289 (fun a => match snd a with
      | Some (req, _) => req_ok req /\ req_version req = 1 /\ req_command req = c
      | None => True end)) end.
  { intros Hc. destruct (Hc s2 Hl) as ([r p] & s' & Hr & Hp & _). by exists r, p, s'. }
  consume_step 8. intros size _.
  consume_step 264. intros [n b] [Hn Hb].
  destruct (s32 n <? 0) eqn:En; [by apply consumes_ret|].
  assert (0 <= n <= 256) by (destruct Hn as [->|]; [by vm_compute in En|done]).
  consume_step 16. intros g Hg. consume_step 1. intros rt _.
  apply consumes_ret; [done|]. split; [|done].
  constructor; cbn; [rewrite s32_id; lia|done|done].
Qed.

(** ** Names of requests

    The name of a request lies at the start of a zeroed object of 256 bytes. *)
Definition padded (name : bytes) : bytes := name ++ drop (length name) zero_req_name.

Lemma zlen_padded name : zlen name <= 256 -> zlen (padded name) = 256.
Proof.
  intros Hn. pose proof zlen_zero_req_name. pose proof (zlen_nonneg name).
  unfold padded. zlia.
Qed.
Lemma take_padded name n : n = zlen name -> take (Z.to_nat n) (padded name) = name.
Proof. intros ->. unfold padded, zlen. by rewrite Nat2Z.id, take_app_length. Qed.
Lemma arg_key_padded name n g : n = zlen name -> arg_key (padded name) n g = (name, g).
Proof. intros H. unfold arg_key. by rewrite take_padded. Qed.

Lemma padded_terminated name :
  zlen name <= 254 -> exists rest, padded name = name ++ le_encode 2 0 ++ rest.
Proof.
  intros Hn. unfold padded, zero_req_name. rewrite drop_replicate.
  exists (replicate (254 - length name) x00).
  replace (256 - length name)%nat with (2 + (254 - length name))%nat by (unfold zlen in Hn; lia).
  by rewrite replicate_add.
Qed.

Lemma strlen16_terminated k name rest :
  length name = (2 * k)%nat -> exists n, strlen16 (Some (name ++ le_encode 2 0 ++ rest)) = Ok n.
Proof.
  cbn [strlen16]. revert name. induction k as [|k IH]; intros name Hl.
  { destruct name; [|done]. by exists 0. }
  destruct name as [|b0 [|b1 name]]; [done|cbn in Hl; lia|].
  destruct (IH name) as [n Hn]; [cbn in Hl; lia|].
  cbn [app strlen16_loop]. rewrite Hn. cbn [obind]. destruct (_ =? 0); by eexists.
Qed.

(** The names the server compares with: their characters. *)
Definition literal (cs : list Z) : Prop := Forall char16_ok cs /\ 2 * zlen cs <= 254.

Lemma zlen_L cs : zlen (L cs) = 2 * zlen cs + 2.
Proof. unfold L. zlia. Qed.
#[export] Hint Rewrite zlen_L : zlen.

Lemma sizeof_wchar_L cs : sizeof_wchar (L cs) = 2 * zlen cs.
Proof. unfold sizeof_wchar. rewrite zlen_L. lia. Qed.

(** [strcmp16_len] and [memcmp] decide whether a request names a literal. *)
Lemma strcmp16_len_padded name sz cs :
  sz = zlen name -> sz <= 256 -> literal cs ->
  strcmp16_len (padded name) sz (L cs) = Ok (bool_decide (name = wchars cs)).
Proof.
  intros -> Hsz [Hcs Hlen]. unfold strcmp16_len. rewrite sizeof_wchar_L.
  destruct (Z.eqb_spec (zlen name) (2 * zlen cs)) as [E|E]; cycle 1.
  { rewrite bool_decide_false; [done|]. intros ->. by rewrite zlen_wchars in E. }
  destruct (padded_terminated name) as [rest Hp]; [lia|]. rewrite Hp.
  destruct (strlen16_terminated (length cs) name rest) as [n Hn]; [unfold zlen in E; lia|].
  apply strlen16_inv in Hn as (ds & Hds & _).
  destruct (strcmp16_cstr _ _ _ _ Hds (cstr16_L cs Hcs)) as (r & -> & Hr).
  { rewrite <-Hp, zlen_padded; lia. }
  { rewrite zlen_L. lia. }
  cbn [obind]. f_equal. apply eq_true_iff_eq. rewrite Z.eqb_eq, bool_decide_eq_true, Hr.
  split.
  - intros ->. destruct Hds as [_ [r' E2]]. apply app_inj_1 in E2 as [E2 _]; [done|].
    pose proof (zlen_wchars cs). unfold zlen in *. lia.
  - intros ->. eapply cstr16_fun; [exact Hds|]. split; [done|by eexists].
Qed.

Lemma name_is_padded name sz cs :
  sz = zlen name -> sz <= 256 -> literal cs ->
  name_is (padded name) sz (L cs) = Ok (bool_decide (name = wchars cs)).
Proof.
  intros -> Hsz [Hcs Hlen]. unfold name_is. rewrite sizeof_wchar_L.
  destruct (Z.eqb_spec (zlen name) (2 * zlen cs)) as [E|E]; cycle 1.
  { rewrite bool_decide_false; [done|]. intros ->. by rewrite zlen_wchars in E. }
  pose proof (zlen_nonneg name).
  rewrite memcmp_eq_ok by (rewrite ?zlen_padded, ?zlen_L by lia; lia).
  rewrite !drop_0, take_padded by done. do 2 f_equal.
  replace (take (Z.to_nat (zlen name)) (L cs)) with (wchars cs); [done|].
  unfold L. rewrite take_app_length'; [done|]. pose proof (zlen_wchars cs). unfold zlen in *. lia.
Qed.

(** ** Protected variables *)

(** The read-only variables, all under the global GUID. *)
Definition read_only_names : list bytes :=
  [EFI_SECURE_BOOT_MODE_NAME; EFI_SETUP_MODE_NAME; AUDIT_MODE_NAME; DEPLOYED_MODE_NAME;
   EFI_SIGNATURE_SUPPORT_NAME].
(** The name of a literal without its terminator. *)
Definition chars_of (str : bytes) : bytes := take (Z.to_nat (sizeof_wchar str)) str.

Definition read_only_key (k : key) : bool :=
  bool_decide (k.2 = gEfiGlobalVariableGuid) &&
  bool_decide (k.1 ∈ chars_of <$> read_only_names).

(** The variables of secure boot. *)
Definition secure_boot_key (k : key) : bool :=
  (bool_decide (k.2 = gEfiGlobalVariableGuid) &&
   bool_decide (k.1 ∈ chars_of <$> [EFI_PLATFORM_KEY_NAME; EFI_KEY_EXCHANGE_KEY_NAME])) ||
  (bool_decide (k.2 = gEfiImageSecurityDatabaseGuid) &&
   bool_decide (k.1 ∈ chars_of <$> [EFI_IMAGE_SECURITY_DATABASE; EFI_IMAGE_SECURITY_DATABASE1;
                                    EFI_IMAGE_SECURITY_DATABASE2])).

Lemma chars_of_L cs : chars_of (L cs) = wchars cs.
Proof.
  unfold chars_of. rewrite sizeof_wchar_L. unfold L.
  rewrite take_app_length'; [done|]. pose proof (zlen_wchars cs). unfold zlen in *. lia.
Qed.

Lemma or_else_ok a b : or_else (Ok a) (Ok b) = Ok (a || b).
Proof. by destruct a. Qed.

(** [is_ro] and [is_secure_boot_variable] decide these sets on the name and GUID
    of a request. *)
Lemma is_ro_key name sz g :
  sz = zlen name -> sz <= 256 ->
  is_ro (Some (padded name)) sz (Some g) = Ok (read_only_key (name, g)).
Proof.
  intros Hsz Hn. unfold is_ro, read_only_key, compare_guid. cbn [fst snd].
  destruct (bool_decide (g = _)); cbn [negb andb]; [|done].
  unfold EFI_SECURE_BOOT_MODE_NAME, EFI_SETUP_MODE_NAME, AUDIT_MODE_NAME, DEPLOYED_MODE_NAME,
    EFI_SIGNATURE_SUPPORT_NAME.
  rewrite !strcmp16_len_padded by (done || (split; [by repeat constructor|done])).
  rewrite !or_else_ok. f_equal. apply eq_true_iff_eq.
  unfold read_only_names, EFI_SECURE_BOOT_MODE_NAME, EFI_SETUP_MODE_NAME, AUDIT_MODE_NAME,
    DEPLOYED_MODE_NAME, EFI_SIGNATURE_SUPPORT_NAME.
  cbn [fmap list_fmap]. rewrite !chars_of_L, !orb_true_iff, !bool_decide_eq_true.
  rewrite !elem_of_cons, elem_of_nil. tauto.
Qed.

Lemma is_secure_boot_variable_key name sz g :
  sz = zlen name -> sz <= 256 ->
  is_secure_boot_variable (Some (padded name)) sz (Some g) = Ok (secure_boot_key (name, g)).
Proof.
  intros Hsz Hn. unfold is_secure_boot_variable, secure_boot_key, compare_guid. cbn [fst snd].
  unfold EFI_PLATFORM_KEY_NAME, EFI_KEY_EXCHANGE_KEY_NAME, EFI_IMAGE_SECURITY_DATABASE,
    EFI_IMAGE_SECURITY_DATABASE1, EFI_IMAGE_SECURITY_DATABASE2.
  rewrite !name_is_padded by (done || (split; [by repeat constructor|done])).
  rewrite !or_else_ok. cbn [fmap list_fmap]. rewrite !chars_of_L.
  assert (Hne : gEfiImageSecurityDatabaseGuid <> gEfiGlobalVariableGuid) by by vm_compute.
  destruct (bool_decide (g = gEfiGlobalVariableGuid)) eqn:Eg; cbn [andb].
  - apply bool_decide_eq_true in Eg as ->. rewrite (bool_decide_false (gEfiGlobalVariableGuid = gEfiImageSecurityDatabaseGuid))
      by congruence.
    cbn [andb]. rewrite orb_false_r. f_equal. apply eq_true_iff_eq.
    rewrite !orb_true_iff, !bool_decide_eq_true, !elem_of_cons, elem_of_nil. tauto.
  - cbn [orb]. destruct (bool_decide (g = gEfiImageSecurityDatabaseGuid)); cbn [andb]; [|done].
    f_equal.
    apply eq_true_iff_eq.
    rewrite !orb_true_iff, !bool_decide_eq_true, !elem_of_cons, elem_of_nil. tauto.
Qed.

(** ** Well-formed requests

    The bytes a client writes for each command. *)
Definition get_request (name : bytes) (g : EFI_GUID) (size : Z) (rt : bool) : bytes :=
  le_encode 4 1 ++ le_encode 4 COMMAND_GET_VARIABLE ++ data_field name ++ g ++
  le_encode 8 size ++ le_encode 1 (Z.b2z rt).
Definition set_request (name : bytes) (g : EFI_GUID) (data : bytes) (attrs : Z) (rt : bool) :
    bytes :=
  le_encode 4 1 ++ le_encode 4 COMMAND_SET_VARIABLE ++ data_field name ++ g ++
  data_field data ++ le_encode 4 attrs ++ le_encode 1 (Z.b2z rt).
Definition get_next_request (size : Z) (name : bytes) (g : EFI_GUID) (rt : bool) : bytes :=
  le_encode 4 1 ++ le_encode 4 COMMAND_GET_NEXT_VARIABLE ++ le_encode 8 size ++
  data_field name ++ g ++ le_encode 1 (Z.b2z rt).

Lemma parses_req_name name :
  zlen name <= 256 ->
  parses (unserialize_data zero_req_name MAX_VARIABLE_NAME_SIZE) (data_field name)
    (zlen name, padded name).
Proof.
  intros Hn rest. pose proof zlen_zero_req_name.
  by rewrite unserialize_data_field by clia.
Qed.

(** The data of a request, at the start of a zeroed object of 32 KiB. *)
Definition padded_data (data : bytes) : bytes := data ++ drop (length data) zero_buffer.

Lemma zlen_padded_data data :
  zlen data <= MAX_VARIABLE_DATA_SIZE -> zlen (padded_data data) = MAX_VARIABLE_DATA_SIZE.
Proof.
  intros Hn. pose proof zlen_zero_buffer. pose proof (zlen_nonneg data).
  unfold padded_data. zlia.
Qed.
Lemma take_padded_data data n : n = zlen data -> take (Z.to_nat n) (padded_data data) = data.
Proof. intros ->. unfold padded_data, zlen. by rewrite Nat2Z.id, take_app_length. Qed.

Lemma parses_req_buffer data :
  zlen data <= MAX_VARIABLE_DATA_SIZE ->
  parses (unserialize_data zero_buffer MAX_VARIABLE_DATA_SIZE) (data_field data)
    (zlen data, padded_data data).
Proof.
  intros Hn rest. pose proof zlen_zero_buffer.
  by rewrite unserialize_data_field by clia.
Qed.
#[export] Hint Resolve parses_req_name parses_req_buffer : uefi.

(** One field of a request. *)
Ltac request_field :=
  eapply parses_bind;
    [solve [apply parses_uint32; unfold COMMAND_GET_VARIABLE, COMMAND_SET_VARIABLE,
              COMMAND_GET_NEXT_VARIABLE; lia
           | eauto with uefi]|].

Lemma parses_get_request name g size rt :
  zlen name <= 256 -> zlen g = 16 -> 0 <= size < 0x10000000000000000 ->
  parses unserialize_get_request (get_request name g size rt)
    (EFI_SUCCESS, Some (mk_request 1 COMMAND_GET_VARIABLE (zlen name) (padded name) (s64 size)
                          zero_buffer g 0, rt)).
Proof.
  intros Hn Hg Hs. pose proof (zlen_nonneg name).
  unfold unserialize_get_request, get_request. rewrite <-(app_nil_r (le_encode 1 _)).
  request_field. change (negb (1 =? UEFISTORED_VERSION)) with false. cbn match.
  request_field. request_field. cbn match. rewrite s32_id by lia.
  rewrite (proj2 (Z.ltb_ge (zlen name) 0)) by lia.
  do 3 request_field. apply parses_ret.
Qed.

Lemma parses_set_request name g data attrs rt :
  zlen name <= 256 -> zlen g = 16 -> zlen data <= MAX_VARIABLE_DATA_SIZE ->
  0 <= attrs < 0x100000000 ->
  parses unserialize_set_request (set_request name g data attrs rt)
    (EFI_SUCCESS, Some (mk_request 1 COMMAND_SET_VARIABLE (zlen name) (padded name) (zlen data)
                          (padded_data data) g attrs, rt)).
Proof.
  intros Hn Hg Hd Ha. pose proof (zlen_nonneg name). pose proof (zlen_nonneg data).
  unfold unserialize_set_request, set_request. rewrite <-(app_nil_r (le_encode 1 _)).
  request_field. rewrite <-(app_nil_l (_ ++ _)). eapply parses_bind; [done|].
  request_field. request_field. cbn match. rewrite s32_id by lia.
  rewrite (proj2 (Z.ltb_ge (zlen name) 0)) by lia.
  do 2 request_field. cbn match. rewrite (proj2 (Z.ltb_ge (zlen data) 0)) by lia.
  do 2 request_field. apply parses_ret.
Qed.

Lemma parses_get_next_request size name g rt :
  zlen name <= 256 -> zlen g = 16 -> 0 <= size < 0x10000000000000000 ->
  parses unserialize_get_next_request (get_next_request size name g rt)
    (0, Some (mk_request 1 COMMAND_GET_NEXT_VARIABLE (zlen name) (padded name) (s64 size)
                zero_buffer g 0, rt)).
Proof.
  intros Hn Hg Hs. pose proof (zlen_nonneg name).
  unfold unserialize_get_next_request, get_next_request. rewrite <-(app_nil_r (le_encode 1 _)).
  request_field. rewrite <-(app_nil_l (_ ++ _)). eapply parses_bind; [done|].
  do 3 request_field. cbn match. rewrite s32_id by lia.
  rewrite (proj2 (Z.ltb_ge (zlen name) 0)) by lia.
  do 2 request_field. apply parses_ret.
Qed.
