(* ===== verification/AuthSamples.v ===== *)
(** * Sample data for the authentication services

    A toy OpenSSL (a certificate is its bytes, a PKCS#7 structure names its
    signer after the ContentInfo header), a store with an enrolled PK, and
    signed updates: the inputs at which the theorems are instantiated. *)
From S2P Require Import Prelude EfiTypes Common UefiVariable Storage StorageInv Samples Crypto.
From S2P Require Import SigList Auth.

Definition toy_SHA256 (b : bytes) : option bytes := Some (take 32 (b ++ replicate 32 x00)).
Lemma toy_SHA256_size b d : toy_SHA256 b = Some d -> zlen d = 32.
Proof.
  intros [= <-]. rewrite zlen_take. autorewrite with zlen. pose proof (zlen_nonneg b). lia.
Qed.

Definition toy_with (verify : bytes -> bytes -> bytes -> bool) : OpenSSL := {|
  X509 := bytes;
  PKCS7 := bytes;
  d2i_X509 b := match b with [] => None | _ => Some b end;
  i2d_X509 c := c;
  X509_has_rsa_pubkey _ := true;
  X509_has_subject_name _ := true;
  X509_common_name c n := Some c;
  ASN1_get_object b n := (0, n, 16);
  d2i_PKCS7 b := Some b;
  PKCS7_type_is_signed _ := true;
  PKCS7_get0_signers p := Some [drop 19 p];
  PKCS7_verify := verify;
  EVP_add_digest := true;
  X509_STORE_new := true;
  X509_STORE_add_cert _ := true;
  BIO_new := true;
  BIO_write b := zlen b;
  SHA256 := toy_SHA256;
  SHA256_size := toy_SHA256_size
|}.
Definition toy_openssl : OpenSSL := toy_with (fun p c _ => bool_decide (c = drop 19 p)).

(** The same, for an adversary who does not hold the key of the certificate AA. *)
Definition adversary_openssl : OpenSSL :=
  toy_with (fun p c _ => bool_decide (c = drop 19 p) && negb (bool_decide (head c = Some xaa))).

(** An X.509 list with one certificate, the byte AA. *)
Definition list_AA : bytes :=
  gEfiCertX509Guid ++ le_encode 4 45 ++ le_encode 4 0 ++ le_encode 4 17 ++
  replicate 16 x00 ++ [xaa].

Definition time_1 : EFI_TIME := mk_time 2021 3 4 5 6 7 0 0 0 0 0.
Definition time_2 : EFI_TIME := mk_time 2022 3 4 5 6 7 0 0 0 0 0.

(** An update at time [t], signed by the certificate AA. *)
Definition signed_AA (t : EFI_TIME) (payload : bytes) : bytes :=
  time_bytes t ++ le_encode 4 25 ++ le_encode 2 0x200 ++ le_encode 2 WIN_CERT_TYPE_EFI_GUID ++
  gEfiCertPkcs7Guid ++ [xaa] ++ payload.

Definition key_attrs : Z := 0x27.   (** non-volatile, boot, runtime, time-based *)

Definition var_PK : variable_t :=
  created EFI_PLATFORM_KEY_NAME 4 list_AA 45 gEfiGlobalVariableGuid key_attrs
    (Some time_1) (Some (take 32 ([xaa; xaa] ++ replicate 32 x00))).
Definition store_PK : storage := mk_storage (var_PK :: replicate 127 zero_var) 1 33024 0.

Lemma PK_name_ok : canonical_name EFI_PLATFORM_KEY_NAME 4.
Proof. by repeat constructor. Qed.

Lemma var_PK_ok : live_wf var_PK /\ canonical var_PK.
Proof.
  pose proof PK_name_ok as Hn. split; [|by apply created_canonical].
  apply created_live_wf; try done; try apply Hn; try clia.
  - intros t [= <-]. unfold time_ok; cbn; lia.
  - by intros c [= <-].
Qed.

Lemma store_PK_inv : storage_inv store_PK.
Proof.
  destruct var_PK_ok as [L C].
  constructor; [constructor|..]; cbn [variables total used storage_iter_index store_PK].
  - done.
  - apply Forall_cons; split; [by apply live_slot_wf|]. apply Forall_replicate, zero_slot_wf.
  - done.
  - done.
  - clia.
  - apply Forall_cons; split; [unfold slot_canonical; by rewrite live_wf_live|].
    by apply Forall_replicate.
  - intros i j v w Hi Hj Hv Hw _.
    assert (Hdead : forall k x, replicate 127 zero_var !! k = Some x -> live x = true -> False).
    { intros k x Hx Hl. by apply lookup_replicate in Hx as [-> _]. }
    destruct i as [|i], j as [|j]; [done|exfalso; by eapply (Hdead j)
                                       |exfalso; by eapply (Hdead i)|exfalso; by eapply (Hdead i)].
Qed.

(** The platform in user mode with this PK, about to process an update of KEK. *)
Definition user_state (data : bytes) : auth_state := mk_auth store_PK USER_MODE true true data.

(** Did a computation succeed with [EFI_SUCCESS]? *)
Definition succeeds {S} (m : M S EFI_STATUS) (s : S) : bool :=
  match m s with Ok (st, _) => st =? EFI_SUCCESS | Fault _ => false end.

Lemma succeeds_run {S} (m : M S EFI_STATUS) s :
  succeeds m s = true -> exists s', m s = Ok (EFI_SUCCESS, s').
Proof.
  unfold succeeds. destruct (m s) as [[st s']|]; [|done]. intros ->%Z.eqb_eq. by exists s'.
Qed.

Lemma kek_update_succeeds :
  succeeds (@auth_lib_process_variable zero_allocator toy_openssl EFI_KEY_EXCHANGE_KEY_NAME 6
              gEfiGlobalVariableGuid 86 key_attrs) (user_state (signed_AA time_2 list_AA)) = true.
Proof. vm_compute. reflexivity. Qed.

(** The PK replaced by itself, and deleted. *)
Definition status_of {A} (m : M auth_state (EFI_STATUS * A)) : M auth_state EFI_STATUS :=
  '(st, _) <- m ;; ret st.

Lemma status_of_run {A} (m : M auth_state (EFI_STATUS * A)) s :
  succeeds (status_of m) s = true -> exists a s', m s = Ok ((EFI_SUCCESS, a), s').
Proof.
  intros (s' & ([st a] & s1 & Hr & [= <- <-])%bind_inv)%succeeds_run. by exists a, s1.
Qed.

Lemma pk_update_succeeds :
  succeeds (status_of (@verify_time_based_payload_and_update zero_allocator toy_openssl
    EFI_PLATFORM_KEY_NAME 4 gEfiGlobalVariableGuid 86 key_attrs AUTH_VAR_TYPE_PK))
    (user_state (signed_AA time_2 list_AA)) = true.
Proof. vm_compute. reflexivity. Qed.

Lemma pk_delete_succeeds :
  succeeds (@process_var_with_pk zero_allocator toy_openssl EFI_PLATFORM_KEY_NAME 4
    gEfiGlobalVariableGuid 41 key_attrs true) (user_state (signed_AA time_2 [])) = true.
Proof. vm_compute. reflexivity. Qed.
