(* ===== verification/ServerSamples.v ===== *)
(** * Sample data for the variable server

    A server without a backend, over the sample stores, with a request at the
    start of the shared page. *)
From S2P Require Import Prelude LogLevel EfiTypes Common UefiVariable Storage StorageInv StorageSpec.
From S2P Require Import Samples Serializer SerializerSpec Crypto SigList Auth Server Requests.
From S2P Require Import AuthSamples.

(** A page that starts with [bs]. *)
Definition page_rest (bs : bytes) : bytes := replicate (Z.to_nat (SHMEM_SIZE - zlen bs)) x00.
Definition page_of (bs : bytes) : bytes := bs ++ page_rest bs.

Lemma zlen_page_of bs : zlen bs <= 65536 -> zlen (page_of bs) = SHMEM_SIZE.
Proof.
  intros Hl. unfold page_of, page_rest. change SHMEM_SIZE with 65536.
  rewrite zlen_app, zlen_replicate. lia.
Qed.

Definition sample_server (st : storage) (mode : Z) (request : bytes) : server unit :=
  mk_server (mk_auth st mode true true []) false (page_of request) LOGLEVEL_INFO tt.

Abbreviation handle := (@xen_variable_server_handle_request zero_allocator toy_openssl unit None
                          true).

(** A request for the first sample variable, and for the variable after it. *)
Definition get_A : bytes := get_request [x41; x00] guid_1 10 false.
Definition next_A : bytes := get_next_request 100 [x41; x00] guid_1 false.
(** Updates of a variable B, of SetupMode, of PK with its terminator, and of a
    name of one byte. *)
Definition name_B : bytes := [x42; x00].
Definition set_B : bytes := set_request name_B guid_1 [x01; x02] 7 false.
Definition set_SetupMode : bytes :=
  set_request (chars_of EFI_SETUP_MODE_NAME) gEfiGlobalVariableGuid [x01] 7 false.
Definition PK_name : bytes := chars_of EFI_PLATFORM_KEY_NAME.
Definition list_BB : bytes :=
  gEfiCertX509Guid ++ le_encode 4 45 ++ le_encode 4 0 ++ le_encode 4 17 ++
  replicate 16 x00 ++ [xbb].
Definition set_PK_terminated : bytes :=
  set_request (PK_name ++ [x00; x00]) gEfiGlobalVariableGuid list_BB 7 false.
Definition set_one_byte : bytes := set_request [x42] guid_1 [x01; x02] 7 false.

Lemma name_B_ok : canonical_name name_B (zlen name_B).
Proof. by repeat constructor. Qed.
