(* ===== verification/ServerSpec.v ===== *)
(** * The variable server: replies

    What the server answers to each request, over the abstract store; that the
    requests that only read are safe on any page; and where the server's checks
    on names leave a gap. *)
From S2P Require Import Prelude LogLevel EfiTypes Common UefiVariable Storage StorageInv StorageSpec.
From S2P Require Import StorageTrace Samples Serializer SerializerSpec Crypto SigList Auth Server.
From S2P Require Import Requests AuthSamples ServerSamples.

Lemma u64_s64 x : 0 <= x < 0x10000000000000000 -> u64 (s64 x) = x.
Proof.
  intros Hx. unfold s64. rewrite (u64_id x) by done. cbv zeta.
  destruct (x <? 0x8000000000000000); [by apply u64_id|].
  unfold u64. rewrite <-(Z_mod_plus_full _ 1). rewrite Z.mod_small; lia.
Qed.

Section server.
Context `{Allocator} `{OpenSSL} {E : Type} (backend : option (backend_t E)).

Abbreviation state := (server E).

(** ** Parsing and replying *)
Lemma parse_ok {A} (m : M bytes A) bs rest a (s : state) :
  parses m bs a -> comm_buf s = bs ++ rest -> parse m s = Ok (a, s).
Proof. intros Hp Hb. unfold parse, bind, mget, mlift. by rewrite Hb, Hp. Qed.

Lemma parse_consumes {A} (m : M bytes A) n P (s : state) :
  consumes m n P -> n <= zlen (comm_buf s) -> exists a, parse m s = Ok (a, s) /\ P a.
Proof.
  intros Hc Hn. destruct (Hc _ Hn) as (a & s' & Hr & Ha & _).
  exists a. split; [|done]. unfold parse, bind, mget, mlift. by rewrite Hr.
Qed.

Lemma reply_ok m bs (s : state) :
  emits m tt bs -> zlen bs <= zlen (comm_buf s) ->
  reply m s = Ok (tt, set_comm_buf (overwrite bs (comm_buf s)) s).
Proof.
  intros Hm Hl. unfold reply, bind, mget, mlift, mmodify.
  specialize (Hm [] (take (length bs) (comm_buf s)) (drop (length bs) (comm_buf s))).
  rewrite app_nil_l, take_drop in Hm. change (zlen []) with 0 in Hm.
  rewrite Hm; [done|]. unfold zlen in *. rewrite length_take. lia.
Qed.

Lemma reply_status_ok st (s : state) :
  8 <= zlen (comm_buf s) ->
  reply_status st s = Ok (tt, set_comm_buf (overwrite (le_encode 8 st) (comm_buf s)) s).
Proof. intros Hl. by apply reply_ok; [apply emits_put|rewrite zlen_le_encode]. Qed.

(** The handler of a command. *)
Definition handler (command : Z) : M state unit :=
  if command =? COMMAND_GET_VARIABLE then handle_get_variable
  else if command =? COMMAND_SET_VARIABLE then handle_set_variable backend
  else if command =? COMMAND_GET_NEXT_VARIABLE then handle_get_next_variable
  else if command =? COMMAND_QUERY_VARIABLE_INFO then handle_query_variable_info
  else if command =? COMMAND_NOTIFY_SB_FAILURE then
    r <- backend_notify backend ;;
    if r <? 0 then reply_status EFI_DEVICE_ERROR else reply_status EFI_SUCCESS
  else ret tt.

Lemma dispatch c rest (s : state) :
  0 <= c < 0x100000000 -> comm_buf s = le_encode 4 1 ++ le_encode 4 c ++ rest ->
  xen_variable_server_handle_request backend true s = handler c s.
Proof.
  intros Hc Hb. unfold xen_variable_server_handle_request. cbn [negb].
  rewrite (bind_runs _ _ _ 1 s); cycle 1.
  { eapply parse_ok; [by apply parses_uint32|exact Hb]. }
  change (negb (1 =? 1)) with false. cbn match.
  rewrite (bind_runs _ _ _ c s); [done|].
  eapply (parse_ok _ (le_encode 4 1 ++ le_encode 4 c)); [|by rewrite <-app_assoc].
  eapply parses_bind; by apply parses_uint32.
Qed.

(** ** GetVariable *)
Definition get_reply (size : Z) (found : option value) : bytes :=
  match found with
  | None => le_encode 8 EFI_NOT_FOUND
  | Some x =>
      if size <? zlen (val_data x)
      then le_encode 8 EFI_BUFFER_TOO_SMALL ++ le_encode 8 (zlen (val_data x))
      else le_encode 8 EFI_SUCCESS ++ le_encode 4 (val_attrs x) ++ data_field (val_data x)
  end.

(** A read of the store. *)
Lemma sv_on_store_read {A} (m : M storage A) a (s : state) :
  m (sv_store s) = Ok (a, sv_store s) -> sv_on_store m s = Ok (a, s).
Proof.
  intros Hm. unfold sv_on_store, mzoom. rewrite Hm. by destruct s as [[] ? ? ?].
Qed.

(** Below the level DEBUG the end of the GetVariable handler does nothing. *)
Definition quiet (s : state) : Prop :=
  level_num (sv_loglevel s) < level_num LOGLEVEL_DEBUG.

Lemma quiet_secure_boot v (s : state) : quiet s -> debug_secure_boot v s = Ok (tt, s).
Proof.
  unfold quiet, debug_secure_boot. intros Hq. unfold bind at 1, mget.
  by rewrite (proj2 (Z.leb_gt _ _)).
Qed.

(** What runs after the reply: nothing, or the comparison of the name sent. *)
Definition after_get (size : Z) (k : key) (found : option value) (m : M state unit) : Prop :=
  match found with
  | None => m = ret tt
  | Some x =>
      if size <? zlen (val_data x) then m = ret tt
      else exists v, live_wf v /\ var_key v = k /\ m = debug_secure_boot v
  end.

(** The handler after parsing. *)
Lemma get_variable_runs req rt st (s : state) :
  storage_wf (sv_store s) -> req_ok req -> 1 <= req_namesz req -> 33024 <= zlen (comm_buf s) ->
  parse unserialize_get_request s = Ok ((st, Some (req, rt)), s) ->
  req_command req = COMMAND_GET_VARIABLE ->
  let k := arg_key (req_name req) (req_namesz req) (req_guid req) in
  let found := spec_get rt k (abs (variables (sv_store s))) in
  exists m, after_get (u64 (req_buffer_size req)) k found m /\
    handle_get_variable s
    = m (set_comm_buf (overwrite (get_reply (u64 (req_buffer_size req)) found) (comm_buf s))
           (set_runtime rt s)).
Proof.
  intros Hs [Hn Hname Hg] Hsz Hl Hp Hc. cbv zeta. unfold handle_get_variable, get_variable_body.
  rewrite (bind_runs _ _ _ _ _ Hp). cbn match.
  unfold bind at 1, mmodify. rewrite Hc. cbn [Z.eqb negb COMMAND_GET_VARIABLE].
  rewrite (proj2 (Z.leb_gt (req_namesz req) 0)) by lia.
  set (s1 := set_runtime rt s). change (comm_buf s) with (comm_buf s1) in *.
  change (sv_store s) with (sv_store s1) in *. change rt with (efi_at_runtime s1).
  destruct (storage_find_abs (sv_store s1) (req_name req) (req_namesz req) (req_guid req))
    as (r & Hfind & Hr); [done|lia|lia|done|].
  rewrite (bind_runs _ _ _ r s1) by by apply sv_on_store_read.
  unfold spec_get, after_get. destruct r as [i|]; cbn [slot_var].
  - destruct Hr as (v & Hi & Hlive & Hk & ->). destruct (lw_data _ Hlive) as (d & Hd & Hdsz).
    pose proof (lw_datasz _ Hlive) as Hrange.
    rewrite (bind_runs _ _ _ (Some v) s1); cycle 1.
    { unfold bind, mget, mlift, ret. by rewrite (slot_at_ok _ _ _ Hi). }
    unfold serialize_get_error. cbn [val_attrs value_of].
    rewrite bind_assoc. unfold bind at 1, mget. cbn match. unfold rt_deny_access.
    destruct (efi_at_runtime s1 && _); cbn [get_reply]; [exists (ret tt); split; [done|]|].
    { rewrite bind_assoc. rewrite (bind_runs _ _ _ _ _ (reply_status_ok _ s1 ltac:(lia))). done. }
    unfold get_reply. rewrite (val_data_of _ _ Hd), <-Hdsz. cbn [val_attrs value_of].
    destruct (u64 (req_buffer_size req) <? zlen d); eexists; (split; [first [done|by exists v]|]).
    + rewrite bind_assoc. erewrite bind_runs; [done|]. apply reply_ok; [|zlia].
      eapply emits_bind; apply emits_put.
    + unfold bind at 1, ret. cbn match. rewrite Hd. unfold bind at 1, mlift. cbn [block_of].
      change (0 <? 0) with false. cbv match beta. erewrite bind_runs; [done|]. apply reply_ok.
      * eapply emits_bind; [apply emits_put|]. eapply emits_bind; [apply emits_put|].
        apply emits_data_full.
      * autorewrite with zlen. clia.
  - exists (ret tt). rewrite Hr. split; [done|].
    unfold bind at 1, ret at 1. unfold serialize_get_error.
    rewrite bind_assoc. unfold bind at 1, mget. rewrite bind_assoc.
    rewrite (bind_runs _ _ _ _ _ (reply_status_ok _ s1 ltac:(lia))). done.
Qed.

Lemma get_variable_ok req rt st (s : state) :
  storage_wf (sv_store s) -> req_ok req -> 1 <= req_namesz req -> 33024 <= zlen (comm_buf s) ->
  parse unserialize_get_request s = Ok ((st, Some (req, rt)), s) ->
  req_command req = COMMAND_GET_VARIABLE -> quiet s ->
  handle_get_variable s
  = Ok (tt, set_comm_buf
              (overwrite (get_reply (u64 (req_buffer_size req))
                            (spec_get rt (arg_key (req_name req) (req_namesz req) (req_guid req))
                               (abs (variables (sv_store s)))))
                 (comm_buf s)) (set_runtime rt s)).
Proof.
  intros Hs Hreq Hsz Hl Hp Hc Hq.
  destruct (get_variable_runs req rt st s) as (m & Hm & ->); [done..|]. unfold after_get in Hm.
  destruct (spec_get _ _ _) as [x|]; [|by subst m].
  destruct (_ <? _); [by subst m|]. destruct Hm as (v & _ & _ & ->). by apply quiet_secure_boot.
Qed.

(** [GetVariable] answers from the abstract store.  For a well-formed
    request, on a page of the protocol's size, the server replies with
    NOT_FOUND when the store has no variable under the name and GUID or when
    the request comes at run time and the variable is a boot-time one; with
    BUFFER_TOO_SMALL and the size when the buffer is smaller than the data; and
    otherwise with the attributes and the data.  Only the reply's bytes of the
    page and the runtime flag change.  (Below the level DEBUG.) *)
Theorem get_variable_replies (s : state) (name : bytes) (g : EFI_GUID) (size : Z) (rt : bool)
    (rest : bytes) :
  storage_inv (sv_store s) -> 1 <= zlen name <= 256 -> zlen g = 16 ->
  0 <= size < 0x10000000000000000 ->
  comm_buf s = get_request name g size rt ++ rest -> zlen (comm_buf s) = SHMEM_SIZE ->
  quiet s ->
  xen_variable_server_handle_request backend true s
  = Ok (tt, set_comm_buf
              (overwrite
                 match abs (variables (sv_store s)) !! (name, g) with
                 | None => le_encode 8 EFI_NOT_FOUND
                 | Some x =>
                     if rt && negb (has (val_attrs x) EFI_VARIABLE_RUNTIME_ACCESS)
                     then le_encode 8 EFI_NOT_FOUND
                     else if size <? zlen (val_data x)
                     then le_encode 8 EFI_BUFFER_TOO_SMALL ++ le_encode 8 (zlen (val_data x))
                     else le_encode 8 EFI_SUCCESS ++ le_encode 4 (val_attrs x) ++
                          data_field (val_data x)
                 end (comm_buf s)) (set_runtime rt s)).
Proof.
  intros Hs Hn Hg Hsize Hb Hl Hq.
  rewrite (dispatch COMMAND_GET_VARIABLE (data_field name ++ g ++ le_encode 8 size ++
             le_encode 1 (Z.b2z rt) ++ rest)) by (done || (rewrite Hb; unfold get_request; by rewrite <-!app_assoc)).
  change (handler COMMAND_GET_VARIABLE) with (@handle_get_variable E).
  erewrite get_variable_ok; [| | | | |eapply parse_ok; [apply (parses_get_request name g size rt); lia|exact Hb]
                            |done|done]; cbn [req_buffer_size req_name req_namesz req_guid].
  - rewrite u64_s64, arg_key_padded by done. unfold spec_get.
    destruct (_ !! _) as [x|]; [|done]. by destruct (rt_deny_access _ _) eqn:Ed;
      unfold rt_deny_access in Ed; rewrite Ed.
  - apply Hs.
  - constructor; cbn; [lia|apply zlen_padded; lia|done].
  - cbn. lia.
  - rewrite Hl. by vm_compute.
Qed.

(** At the level DEBUG, the reply with the value of a variable whose name is
    longer than the literal [L"SecureBoot"] is followed by a read past the end
    of the literal. *)
Lemma debug_reads_past_literal (s : state) name g size rt rest x :
  storage_inv (sv_store s) -> 22 < zlen name <= 256 -> zlen g = 16 ->
  0 <= size < 0x10000000000000000 ->
  comm_buf s = get_request name g size rt ++ rest -> zlen (comm_buf s) = SHMEM_SIZE ->
  sv_loglevel s = LOGLEVEL_DEBUG ->
  spec_get rt (name, g) (abs (variables (sv_store s))) = Some x -> zlen (val_data x) <= size ->
  xen_variable_server_handle_request backend true s = Fault OutOfBounds.
Proof.
  intros Hs Hn Hg Hsize Hb Hl Hlev Hx Hfit.
  rewrite (dispatch COMMAND_GET_VARIABLE (data_field name ++ g ++ le_encode 8 size ++
             le_encode 1 (Z.b2z rt) ++ rest)) by (done || (rewrite Hb; unfold get_request; by rewrite <-!app_assoc)).
  change (handler COMMAND_GET_VARIABLE) with (@handle_get_variable E).
  pose proof (parse_ok _ _ _ _ s (parses_get_request name g size rt ltac:(lia) Hg Hsize) Hb) as Hp.
  edestruct get_variable_runs as (m & Hm & ->); [apply Hs| | | |exact Hp|done|].
  { constructor; cbn; [lia|apply zlen_padded; lia|done]. }
  { cbn. lia. }
  { rewrite Hl. by vm_compute. }
  cbn [req_buffer_size req_name req_namesz req_guid] in *.
  rewrite u64_s64, arg_key_padded, Hx in Hm by done. cbn [after_get] in Hm.
  rewrite (proj2 (Z.ltb_ge _ _)) in Hm by done. destruct Hm as (v & Hv & [= Hk _] & ->).
  unfold debug_secure_boot, bind at 1, mget. cbn [sv_loglevel set_comm_buf set_runtime].
  rewrite Hlev. cbn match. unfold bind at 1, mlift, memcmp_eq.
  apply (f_equal zlen) in Hk. pose proof (lw_name _ Hv). pose proof (lw_namesz _ Hv).
  rewrite zlen_take in Hk. unfold read_bytes at 1.
  change (zlen EFI_SECURE_BOOT_MODE_NAME) with 22.
  by rewrite (proj2 (Z.leb_gt (0 + var_namesz v) 22)), andb_false_r by lia.
Qed.

(** ** GetNextVariableName *)

(** The first variable accessible, or the first one after the variable named. *)
Definition next_found (rt : bool) (n : bytes) (sz : Z) (g : EFI_GUID) (vars : list variable_t) :
    option variable_t :=
  if (char_at n 0 =? 0) || (sz =? 0) then snd <$> list_find (accessible rt) vars
  else match slot_of (arg_key n sz g) vars with
       | None => None
       | Some (i, _) => snd <$> list_find (accessible rt) (drop (S i) vars)
       end.

Definition get_next_reply (size : Z) (found : option variable_t) : bytes :=
  match found with
  | None => le_encode 8 EFI_NOT_FOUND
  | Some v =>
      if size <? var_namesz v + 2
      then le_encode 8 EFI_BUFFER_TOO_SMALL ++ le_encode 8 (var_namesz v + 2)
      else le_encode 8 EFI_SUCCESS ++ data_field (var_key v).1 ++ var_guid v
  end.

Lemma storage_next_ok rt n sz g st :
  storage_wf st -> 0 <= sz <= 256 -> zlen n = 256 -> zlen g = 16 ->
  exists slot, storage_next_variable rt n sz g st = Ok (slot, st) /\
    match slot with
    | Some i => exists v, variables st !! i = Some v /\ live_wf v /\
                  next_found rt n sz g (variables st) = Some v
    | None => next_found rt n sz g (variables st) = None
    end.
Proof.
  intros Hs Hsz Hn Hg. unfold storage_next_variable, next_found, bind at 1, mlift.
  rewrite read_le2_first by lia.
  assert (Hfound : forall k j v, list_find (accessible rt) (drop k (variables st)) = Some (j, v) ->
    variables st !! (k + j)%nat = Some v /\ live_wf v).
  { intros k j v (Hj & [Hlv _] & _)%list_find_Some. rewrite lookup_drop in Hj.
    split; [done|]. by apply (slot_wf_live _ (slot_wf_lookup _ _ _ Hs Hj)). }
  destruct (_ || _) eqn:Efirst.
  - unfold storage_get_first, bind, mget, mlift, ret.
    rewrite find_accessible_ok by apply Hs. specialize (Hfound 0%nat). rewrite drop_0 in Hfound.
    destruct (list_find _ _) as [[j v]|] eqn:Ef; cycle 1.
    { exists None. by destruct (total st =? 0). }
    destruct (Hfound j v eq_refl) as [Hj Hv].
    pose proof (nlive_live_slot _ _ _ Hj (live_wf_live _ Hv)) as Hpos.
    rewrite <-(sw_total _ Hs) in Hpos. zb. exists (Some j). split; [done|]. by exists v.
  - apply orb_false_iff in Efirst as [_ Esz%Z.eqb_neq]. unfold bind, mget, mlift.
    pose proof (find_variable_pos n sz g (variables st)) as Hfv. unfold find_variable in Hfv.
    rewrite Hfv by (apply Hs || done || lia).
    destruct (slot_of _ _) as [[i w]|]; cbn [fmap option_fmap option_map fst]; [|by exists None].
    rewrite find_accessible_ok by apply Forall_drop, Hs. specialize (Hfound (S i)).
    destruct (list_find _ _) as [[j v]|] eqn:Ef; [|by exists None].
    destruct (Hfound j v eq_refl) as [Hj Hv].
    exists (Some (S i + j)%nat). split; [done|]. by exists v.
Qed.

Lemma mlift_assert (s : state) b : b = true -> mlift (oassert b) s = Ok (tt, s).
Proof. by intros ->. Qed.

Lemma get_next_ok req rt r (s : state) :
  storage_wf (sv_store s) -> req_ok req -> 33024 <= zlen (comm_buf s) ->
  parse unserialize_get_next_request s = Ok ((r, Some (req, rt)), s) ->
  req_version req = 1 -> req_command req = COMMAND_GET_NEXT_VARIABLE ->
  handle_get_next_variable s
  = Ok (tt, set_comm_buf
              (overwrite (get_next_reply (u64 (req_buffer_size req))
                            (next_found rt (req_name req) (req_namesz req) (req_guid req)
                               (variables (sv_store s))))
                 (comm_buf s)) (set_runtime rt s)).
Proof.
  intros Hs [Hn Hname Hg] Hl Hp Hv Hc. unfold handle_get_next_variable, get_next_variable_body.
  rewrite (bind_runs _ _ _ _ _ Hp). cbn match. unfold bind at 1, mmodify.
  set (s1 := set_runtime rt s). change (comm_buf s) with (comm_buf s1) in *.
  change (sv_store s) with (sv_store s1) in *.
  rewrite Hv, Hc, !(bind_runs _ _ _ _ _ (mlift_assert s1 _ eq_refl)).
  destruct (storage_next_ok rt (req_name req) (req_namesz req) (req_guid req) (sv_store s1))
    as (slot & Hnext & Hslot); [done..|].
  rewrite (bind_runs _ _ _ slot s1) by by apply sv_on_store_read.
  destruct slot as [i|]; cbn [slot_var]; cycle 1.
  { rewrite Hslot. unfold bind at 1, ret. apply reply_status_ok. lia. }
  destruct Hslot as (v & Hi & Hlive & ->).
  rewrite (bind_runs _ _ _ (Some v) s1); cycle 1.
  { unfold bind, mget, mlift, ret. by rewrite (slot_at_ok _ _ _ Hi). }
  pose proof (lw_namesz _ Hlive). pose proof (lw_name _ Hlive). pose proof (lw_guid _ Hlive).
  cbv zeta. rewrite (u64_id (var_namesz v + 2)) by lia. cbn [get_next_reply].
  destruct (_ <? _).
  - apply reply_ok; [|zlia]. eapply emits_bind; apply emits_put.
  - apply reply_ok.
    + eapply emits_bind; [apply emits_put|].
      eapply emits_bind; [apply emits_name; lia|by apply emits_guid].
    + cbn [var_key fst]. zlia.
Qed.

(** [GetNextVariableName] answers from the slot array.  For a well-formed
    request, the server replies with the name and GUID of the first accessible
    variable when the name is empty, of the first accessible one after the
    variable named otherwise; with NOT_FOUND when there is none or the variable
    named does not exist; and with BUFFER_TOO_SMALL and the size of the name
    with its terminator when that does not fit.  The store does not change. *)
Theorem get_next_replies (s : state) (size : Z) (name : bytes) (g : EFI_GUID) (rt : bool)
    (rest : bytes) :
  storage_inv (sv_store s) -> zlen name <= 256 -> zlen g = 16 ->
  0 <= size < 0x10000000000000000 ->
  comm_buf s = get_next_request size name g rt ++ rest -> zlen (comm_buf s) = SHMEM_SIZE ->
  xen_variable_server_handle_request backend true s
  = Ok (tt, set_comm_buf
              (overwrite
                 match next_found rt (padded name) (zlen name) g (variables (sv_store s)) with
                 | None => le_encode 8 EFI_NOT_FOUND
                 | Some v =>
                     if size <? var_namesz v + 2
                     then le_encode 8 EFI_BUFFER_TOO_SMALL ++ le_encode 8 (var_namesz v + 2)
                     else le_encode 8 EFI_SUCCESS ++
                          data_field (take (Z.to_nat (var_namesz v)) (var_name v)) ++ var_guid v
                 end (comm_buf s)) (set_runtime rt s)).
Proof.
  intros Hs Hn Hg Hsize Hb Hl.
  rewrite (dispatch COMMAND_GET_NEXT_VARIABLE (le_encode 8 size ++ data_field name ++ g ++
             le_encode 1 (Z.b2z rt) ++ rest))
    by (done || (rewrite Hb; unfold get_next_request; by rewrite <-!app_assoc)).
  change (handler COMMAND_GET_NEXT_VARIABLE) with (@handle_get_next_variable E).
  erewrite get_next_ok;
    [| | | |eapply parse_ok; [apply (parses_get_next_request size name g rt); lia|exact Hb]
     |done|done]; cbn [req_buffer_size req_name req_namesz req_guid].
  - by rewrite u64_s64.
  - apply Hs.
  - pose proof (zlen_nonneg name). constructor; cbn; [lia|by apply zlen_padded|done].
  - rewrite Hl. by vm_compute.
Qed.

(** ** Requests that only read are safe *)

(** A reply was written, and nothing else changed but the runtime flag. *)
Definition answered (s s' : state) : Prop :=
  exists rt page, s' = set_comm_buf page (set_runtime rt s) /\ zlen page = zlen (comm_buf s).

Lemma answered_reply m bs rt (s : state) :
  emits m tt bs -> zlen bs <= zlen (comm_buf s) ->
  exists s', reply m (set_runtime rt s) = Ok (tt, s') /\ answered s s'.
Proof.
  intros Hm Hl. eexists. split; [by apply reply_ok|]. exists rt. eexists. split; [done|].
  by apply zlen_overwrite.
Qed.
Lemma set_runtime_id (s : state) : set_runtime (efi_at_runtime s) s = s.
Proof. by destruct s. Qed.
Lemma answered_status st (s : state) :
  8 <= zlen (comm_buf s) -> exists s', reply_status st s = Ok (tt, s') /\ answered s s'.
Proof.
  intros Hl. pose proof (answered_reply _ _ (efi_at_runtime s) s (emits_put (le_encode 8 st))) as R.
  rewrite set_runtime_id, zlen_le_encode in R. by apply R.
Qed.
Lemma answered_overwrite bs rt (s : state) :
  zlen bs <= zlen (comm_buf s) ->
  answered s (set_comm_buf (overwrite bs (comm_buf s)) (set_runtime rt s)).
Proof. intros Hl. exists rt. eexists. split; [done|]. by apply zlen_overwrite. Qed.


Lemma zlen_get_reply size rt k st :
  storage_wf st -> zlen (get_reply size (spec_get rt k (abs (variables st)))) <= 33024.
Proof.
  intros Hs. unfold spec_get. rewrite abs_lookup.
  destruct (slot_of _ _) as [[i v]|] eqn:Ek; cbn [fmap option_fmap option_map snd compose];
    [|by vm_compute].
  apply slot_of_Some in Ek as [Hi [Hlv _]].
  pose proof (slot_wf_live _ (slot_wf_lookup _ _ _ Hs Hi) Hlv) as Hw.
  destruct (lw_data _ Hw) as (d & Hd & Hdsz). pose proof (lw_datasz _ Hw).
  destruct (rt_deny_access _ _); [by vm_compute|]. cbn [get_reply].
  rewrite (val_data_of _ _ Hd). destruct (_ <? _); autorewrite with zlen; clia.
Qed.

Lemma get_variable_safe (s : state) :
  storage_wf (sv_store s) -> 33024 <= zlen (comm_buf s) -> quiet s ->
  exists s', handle_get_variable s = Ok (tt, s') /\ answered s s'.
Proof.
  intros Hs Hl Hq.
  destruct (parse_consumes _ _ _ s get_request_consumes) as ([st parsed] & Hp & Hok); [lia|].
  destruct parsed as [[req rt]|]; cycle 1.
  { unfold handle_get_variable, get_variable_body. rewrite (bind_runs _ _ _ _ _ Hp). apply answered_status. lia. }
  cbn in Hok.
  destruct (req_command req =? COMMAND_GET_VARIABLE) eqn:Ec; cycle 1.
  { unfold handle_get_variable, get_variable_body. rewrite (bind_runs _ _ _ _ _ Hp). cbn match.
    unfold bind at 1, mmodify. rewrite Ec. cbn [negb].
    eapply answered_reply; [apply emits_put|]. rewrite zlen_le_encode. lia. }
  destruct (req_namesz req <=? 0) eqn:En; cycle 1.
  { apply Z.eqb_eq in Ec. apply Z.leb_gt in En. eexists. split.
    - apply (get_variable_ok req rt st); done || lia.
    - apply answered_overwrite.
      pose proof (zlen_get_reply (u64 (req_buffer_size req)) rt
        (arg_key (req_name req) (req_namesz req) (req_guid req)) (sv_store s) Hs). lia. }
  unfold handle_get_variable, get_variable_body. rewrite (bind_runs _ _ _ _ _ Hp). cbn match.
  unfold bind at 1, mmodify. rewrite Ec, En. cbn [negb].
  eapply answered_reply; [apply emits_put|]. rewrite zlen_le_encode. lia.
Qed.

Lemma next_found_live rt n sz g vars v :
  Forall slot_wf vars -> next_found rt n sz g vars = Some v -> live_wf v.
Proof.
  intros Hw. unfold next_found.
  assert (Hfound : forall l, Forall slot_wf l -> snd <$> list_find (accessible rt) l = Some v ->
    live_wf v).
  { intros l Hl. destruct (list_find _ l) as [[j w]|] eqn:Ef; [|done]. intros [= ->].
    apply list_find_Some in Ef as (Hj & [Hlv _] & _).
    apply slot_wf_live; [|done]. by eapply Forall_lookup_1. }
  destruct (_ || _); [by apply Hfound|].
  destruct (slot_of _ _) as [[i w]|]; [|done]. by apply Hfound, Forall_drop.
Qed.

Lemma get_next_safe s1 s2 (s : state) :
  storage_wf (sv_store s) -> 33024 <= zlen (comm_buf s) ->
  unserialize_uint32 (comm_buf s) = Ok (1, s1) ->
  unserialize_uint32 s1 = Ok (COMMAND_GET_NEXT_VARIABLE, s2) -> zlen (comm_buf s) - 8 <= zlen s2 ->
  exists s', handle_get_next_variable s = Ok (tt, s') /\ answered s s'.
Proof.
  intros Hs Hl H1 H2 Hl2.
  destruct (get_next_request_runs _ _ _ _ H1 H2) as (r & parsed & s3 & Hrun & Hok); [lia|].
  assert (Hp : parse unserialize_get_next_request s = Ok ((r, parsed), s))
    by (unfold parse, bind, mget, mlift; by rewrite Hrun).
  destruct parsed as [[req rt]|]; cycle 1.
  { unfold handle_get_next_variable, get_next_variable_body. rewrite (bind_runs _ _ _ _ _ Hp).
    apply answered_status. lia. }
  destruct Hok as (Hok & Hv & Hc). eexists. split; [by apply (get_next_ok req rt r)|].
  apply answered_overwrite.
  destruct (next_found _ _ _ _ _) as [v|] eqn:En; cbn [get_next_reply].
  - apply next_found_live in En; [|apply Hs].
    pose proof (lw_namesz _ En). pose proof (lw_name _ En). pose proof (lw_guid _ En).
    destruct (_ <? _); cbn [var_key fst]; zlia.
  - rewrite zlen_le_encode. lia.
Qed.

(** ** QueryVariableInfo *)
Definition query_text (attrs taken : Z) : bytes :=
  if (attrs =? 0) || rt_without_bs attrs then le_encode 8 EFI_INVALID_PARAMETER
  else le_encode 8 EFI_SUCCESS ++ le_encode 8 MAX_STORAGE_SIZE ++
       le_encode 8 (MAX_STORAGE_SIZE - taken) ++ le_encode 8 MAX_VARIABLE_SIZE.
Definition query_reply (attrs : Z) (m : var_map) : bytes :=
  query_text attrs (slot_cost * Z.of_nat (size m)).

Lemma unserialize_uint32_at s :
  4 <= zlen s -> unserialize_uint32 s = Ok (le_decode (take 4 s), drop 4 s).
Proof.
  intros Hl. unfold unserialize_uint32, bind, rd. by rewrite read_bytes_prefix by lia.
Qed.

Lemma query_ok (s : state) :
  storage_wf (sv_store s) -> 33024 <= zlen (comm_buf s) ->
  le_decode (take 4 (comm_buf s)) = 1 ->
  le_decode (take 4 (drop 4 (comm_buf s))) = COMMAND_QUERY_VARIABLE_INFO ->
  handle_query_variable_info s
  = Ok (tt, set_comm_buf
              (overwrite (query_text (le_decode (take 4 (drop 8 (comm_buf s))))
                            (used (sv_store s))) (comm_buf s)) s).
Proof.
  intros Hs Hl Hv Hc. unfold handle_query_variable_info, query_variable_info_body.
  assert (P1 : parse unserialize_uint32 s = Ok (1, s)).
  { unfold parse, bind, mget, mlift. by rewrite unserialize_uint32_at, Hv by lia. }
  rewrite (bind_runs _ _ _ _ _ P1). change (negb (1 =? UEFISTORED_VERSION)) with false. cbn match.
  assert (P2 : parse (unserialize_uint32 ;; unserialize_uint32) s
               = Ok (COMMAND_QUERY_VARIABLE_INFO, s)).
  { unfold parse, bind, mget, mlift.
    by rewrite !unserialize_uint32_at, Hc by (autorewrite with zlen; lia). }
  rewrite (bind_runs _ _ _ _ _ P2), Z.eqb_refl. cbn [negb].
  assert (P3 : parse (unserialize_uint32 ;; unserialize_uint32 ;; unserialize_uint32) s
               = Ok (le_decode (take 4 (drop 8 (comm_buf s))), s)).
  { unfold parse, bind, mget, mlift.
    by rewrite !unserialize_uint32_at, drop_drop by (autorewrite with zlen; lia). }
  rewrite (bind_runs _ _ _ _ _ P3). unfold query_text.
  destruct (_ || _); [apply reply_status_ok; lia|].
  rewrite (bind_runs _ _ _ (used (sv_store s)) s) by by apply sv_on_store_read.
  pose proof (storage_wf_counts _ Hs) as [Ht Hu2]. rewrite u64_id by clia.
  apply reply_ok; [|autorewrite with zlen; lia].
  do 3 (eapply emits_bind; [apply emits_put|]). apply emits_put.
Qed.

Lemma query_safe (s : state) :
  storage_wf (sv_store s) -> 33024 <= zlen (comm_buf s) ->
  le_decode (take 4 (comm_buf s)) = 1 ->
  le_decode (take 4 (drop 4 (comm_buf s))) = COMMAND_QUERY_VARIABLE_INFO ->
  exists s', handle_query_variable_info s = Ok (tt, s') /\ answered s s'.
Proof.
  intros Hs Hl Hv Hc. eexists. split; [by apply query_ok|].
  rewrite <-(set_runtime_id s) at 3. apply answered_overwrite.
  unfold query_text. destruct (_ || _); autorewrite with zlen; lia.
Qed.

(** The size in use is that of the stored variables. *)
Lemma used_count st : storage_inv st -> used st = slot_cost * Z.of_nat (size (abs (variables st))).
Proof. intros Hs. rewrite abs_size by apply Hs. apply Hs. Qed.

(** [QueryVariableInfo] reports the capacity of the store: with attributes
    that are not zero and do not ask for run-time access without boot-time
    access, the reply holds the storage size, that size less 33024 bytes for
    each stored variable, and the largest variable size; otherwise
    INVALID_PARAMETER. *)
Theorem query_variable_info_replies (s : state) (attrs : Z) (rest : bytes) :
  storage_inv (sv_store s) -> 0 <= attrs < 0x100000000 ->
  comm_buf s = le_encode 4 1 ++ le_encode 4 COMMAND_QUERY_VARIABLE_INFO ++ le_encode 4 attrs ++
               rest ->
  zlen (comm_buf s) = SHMEM_SIZE ->
  xen_variable_server_handle_request backend true s
  = Ok (tt, set_comm_buf
              (overwrite
                 (if (attrs =? 0) || (has attrs EFI_VARIABLE_RUNTIME_ACCESS
                                      && negb (has attrs EFI_VARIABLE_BOOTSERVICE_ACCESS))
                  then le_encode 8 EFI_INVALID_PARAMETER
                  else le_encode 8 EFI_SUCCESS ++ le_encode 8 0x40000000 ++
                       le_encode 8 (0x40000000 - 33024 *
                                    Z.of_nat (size (abs (variables (sv_store s))))) ++
                       le_encode 8 33024)
                 (comm_buf s)) s).
Proof.
  intros Hs Ha Hb Hl.
  rewrite (dispatch COMMAND_QUERY_VARIABLE_INFO (le_encode 4 attrs ++ rest)) by done.
  change (handler COMMAND_QUERY_VARIABLE_INFO) with (@handle_query_variable_info E).
  rewrite query_ok; [|apply Hs|by rewrite Hl|by rewrite Hb|by rewrite Hb].
  rewrite used_count by done.
  assert (Eattrs : le_decode (take 4 (drop 8 (comm_buf s))) = attrs).
  { rewrite Hb. change 8%nat with (4 + 4)%nat. rewrite <-drop_drop.
    rewrite !drop_app_length' by by rewrite length_le_encode.
    rewrite take_app_length' by by rewrite length_le_encode. by apply le_decode_encode. }
  by rewrite Eattrs.
Qed.

(** A request that only reads, whatever the page holds. *)
Lemma read_only_answered (s : state) (command : Z) :
  storage_wf (sv_store s) -> quiet s -> zlen (comm_buf s) = SHMEM_SIZE ->
  read_le 4 (comm_buf s) 4 = Ok command ->
  command <> COMMAND_SET_VARIABLE -> command <> COMMAND_NOTIFY_SB_FAILURE ->
  exists s', xen_variable_server_handle_request backend true s = Ok (tt, s') /\ answered s s'.
Proof.
  intros Hs Hq Hl Hc Hset Hnot.
  assert (Hsize : SHMEM_SIZE = 65536) by done. rewrite Hsize in Hl.
  unfold read_le in Hc. rewrite read_bytes_ok in Hc by lia. injection Hc as Hc.
  change (Z.to_nat 4) with 4%nat in Hc. change (Z.to_nat (Z.of_nat 4)) with 4%nat in Hc.
  unfold xen_variable_server_handle_request. cbn [negb].
  assert (R1 : unserialize_uint32 (comm_buf s)
               = Ok (le_decode (take 4 (comm_buf s)), drop 4 (comm_buf s)))
    by (apply unserialize_uint32_at; lia).
  assert (R2 : unserialize_uint32 (drop 4 (comm_buf s)) = Ok (command, drop 8 (comm_buf s))).
  { rewrite unserialize_uint32_at, drop_drop, Hc by zlia. done. }
  rewrite (bind_runs _ _ _ (le_decode (take 4 (comm_buf s))) s)
    by (unfold parse, bind, mget, mlift; by rewrite R1).
  destruct (Z.eqb_spec (le_decode (take 4 (comm_buf s))) 1) as [Hv|]; cbn [negb];
    [|apply answered_status; lia].
  rewrite Hv in R1.
  rewrite (bind_runs _ _ _ command s)
    by (unfold parse, bind, mget, mlift; by rewrite R1, R2).
  destruct (Z.eqb_spec command COMMAND_GET_VARIABLE) as [->|];
    [apply get_variable_safe; [apply Hs|lia|done]|].
  destruct (Z.eqb_spec command COMMAND_SET_VARIABLE); [done|].
  destruct (Z.eqb_spec command COMMAND_GET_NEXT_VARIABLE) as [->|].
  { eapply get_next_safe; [apply Hs|lia|exact R1|exact R2|zlia]. }
  destruct (Z.eqb_spec command COMMAND_QUERY_VARIABLE_INFO) as [->|];
    [by apply query_safe; [|lia|..]|].
  destruct (Z.eqb_spec command COMMAND_NOTIFY_SB_FAILURE); [done|].
  exists s. split; [done|]. exists (efi_at_runtime s), (comm_buf s). split; [|done].
  by destruct s.
Qed.

(** C21: Below the log level DEBUG the requests that only read are safe whatever
    the page holds.  On any page of the protocol's size, with any bytes, a
    request whose command is not SetVariable or NotifySecureBootFailure never
    leaves the page or any object, fails no assertion, and leaves the store and
    the backend's state as they are; a page of the same size is handed back.
    (At the level DEBUG it is not so: [debug_reads_past_literal].) *)
Theorem read_only_requests_safe (s : state) (command : Z) :
  storage_wf (sv_store s) -> quiet s -> zlen (comm_buf s) = SHMEM_SIZE ->
  read_le 4 (comm_buf s) 4 = Ok command ->
  command <> COMMAND_SET_VARIABLE -> command <> COMMAND_NOTIFY_SB_FAILURE ->
  exists s', xen_variable_server_handle_request backend true s = Ok (tt, s') /\
    sv_auth s' = sv_auth s /\ sv_ext s' = sv_ext s /\ zlen (comm_buf s') = SHMEM_SIZE.
Proof.
  intros Hs Hq Hl Hc Hset Hnot.
  destruct (read_only_answered s command) as (s' & Hr & rt & page & -> & Hz); [done..|].
  eexists. split; [exact Hr|]. cbn. by rewrite Hz, Hl.
Qed.

End server.

(** ** The theorems at concrete inputs *)
Lemma get_variable_replies_witness :
  let s := sample_server store_2 SETUP_MODE get_A in
  handle s
  = Ok (tt, set_comm_buf
              (overwrite
                 match abs (variables (sv_store s)) !! ([x41; x00], guid_1) with
                 | None => le_encode 8 EFI_NOT_FOUND
                 | Some x =>
                     if false && negb (has (val_attrs x) EFI_VARIABLE_RUNTIME_ACCESS)
                     then le_encode 8 EFI_NOT_FOUND
                     else if 10 <? zlen (val_data x)
                     then le_encode 8 EFI_BUFFER_TOO_SMALL ++ le_encode 8 (zlen (val_data x))
                     else le_encode 8 EFI_SUCCESS ++ le_encode 4 (val_attrs x) ++
                          data_field (val_data x)
                 end (comm_buf s)) (set_runtime false s)).
Proof.
  apply (@get_variable_replies zero_allocator toy_openssl unit None
           (sample_server store_2 SETUP_MODE get_A) [x41; x00] guid_1 10 false (page_rest get_A));
    [exact store_2_inv|vm_compute; split; discriminate|reflexivity|lia|reflexivity| |reflexivity].
  apply zlen_page_of. vm_compute. discriminate.
Defined.

Lemma get_next_replies_witness :
  let s := sample_server store_2 SETUP_MODE next_A in
  handle s
  = Ok (tt, set_comm_buf
              (overwrite
                 match next_found false (padded [x41; x00]) (zlen [x41; x00]) guid_1
                         (variables (sv_store s)) with
                 | None => le_encode 8 EFI_NOT_FOUND
                 | Some v =>
                     if 100 <? var_namesz v + 2
                     then le_encode 8 EFI_BUFFER_TOO_SMALL ++ le_encode 8 (var_namesz v + 2)
                     else le_encode 8 EFI_SUCCESS ++
                          data_field (take (Z.to_nat (var_namesz v)) (var_name v)) ++ var_guid v
                 end (comm_buf s)) (set_runtime false s)).
Proof.
  apply (@get_next_replies zero_allocator toy_openssl unit None
           (sample_server store_2 SETUP_MODE next_A) 100 [x41; x00] guid_1 false
           (page_rest next_A));
    [exact store_2_inv|vm_compute; discriminate|reflexivity|lia|reflexivity|].
  apply zlen_page_of. vm_compute. discriminate.
Defined.

Definition query_7 : bytes :=
  le_encode 4 1 ++ le_encode 4 COMMAND_QUERY_VARIABLE_INFO ++ le_encode 4 7.

Lemma query_variable_info_replies_witness :
  let s := sample_server store_2 SETUP_MODE query_7 in
  handle s
  = Ok (tt, set_comm_buf
              (overwrite
                 (if (7 =? 0) || (has 7 EFI_VARIABLE_RUNTIME_ACCESS
                                  && negb (has 7 EFI_VARIABLE_BOOTSERVICE_ACCESS))
                  then le_encode 8 EFI_INVALID_PARAMETER
                  else le_encode 8 EFI_SUCCESS ++ le_encode 8 0x40000000 ++
                       le_encode 8 (0x40000000 - 33024 *
                                    Z.of_nat (size (abs (variables (sv_store s))))) ++
                       le_encode 8 33024)
                 (comm_buf s)) s).
Proof.
  apply (@query_variable_info_replies zero_allocator toy_openssl unit None
           (sample_server store_2 SETUP_MODE query_7) 7 (page_rest query_7));
    [exact store_2_inv|lia|reflexivity|].
  apply zlen_page_of. vm_compute. discriminate.
Defined.

(** A page whose request is cut short by bytes that make no sense. *)
Definition garbage : bytes := le_encode 4 1 ++ le_encode 4 0 ++ replicate 64 xff.

Lemma read_only_requests_safe_witness :
  exists s', handle (sample_server store_2 SETUP_MODE garbage) = Ok (tt, s') /\
    sv_auth s' = sv_auth (sample_server store_2 SETUP_MODE garbage) /\
    sv_ext s' = sv_ext (sample_server store_2 SETUP_MODE garbage) /\
    zlen (comm_buf s') = SHMEM_SIZE.
Proof.
  apply (@read_only_requests_safe zero_allocator toy_openssl unit None
           (sample_server store_2 SETUP_MODE garbage) COMMAND_GET_VARIABLE);
    [exact (si_wf _ store_2_inv)|reflexivity| |vm_compute; reflexivity|discriminate|discriminate].
  apply zlen_page_of. vm_compute. discriminate.
Defined.
