(* ===== verification/SetVariable.v ===== *)
(** * The variable server: SetVariable

    What the server does with a [SetVariable] request: the checks before the
    update, the update of a variable without authentication as an operation of
    the abstract store, the hand-over to the authentication services; and the
    two gaps left by the way names are compared. *)
From S2P Require Import Prelude EfiTypes Common UefiVariable Storage StorageInv StorageSpec.
From S2P Require Import Samples Serializer SerializerSpec Crypto SigList Auth Server Requests.
From S2P Require Import AuthSamples ServerSamples ServerSpec.

(** ** The checks before an update *)

(** The status with which a request is refused; [EFI_SUCCESS] lets it pass. *)
Definition set_guard (name : bytes) (g : EFI_GUID) (attrs : Z) : EFI_STATUS :=
  if (Z_of_byte (default x00 (head name)) =? 0)
     || (has attrs EFI_VARIABLE_RUNTIME_ACCESS
         && negb (has attrs EFI_VARIABLE_BOOTSERVICE_ACCESS)) then EFI_INVALID_PARAMETER
  else if read_only_key (name, g) then EFI_WRITE_PROTECTED
  else if has attrs EFI_VARIABLE_HARDWARE_ERROR_RECORD then EFI_UNSUPPORTED
  else if has attrs EFI_VARIABLE_AUTHENTICATED_WRITE_ACCESS then
    if has attrs EFI_VARIABLE_TIME_BASED_AUTHENTICATED_WRITE_ACCESS
    then EFI_SECURITY_VIOLATION else EFI_UNSUPPORTED
  else EFI_SUCCESS.

Lemma rt_without_bs_land attrs :
  rt_without_bs attrs = false ->
  (Z.land attrs RT_BS_ATTRS =? EFI_VARIABLE_RUNTIME_ACCESS) = false.
Proof.
  intros Hrt. apply Z.eqb_neq. intros Hland.
  assert (E4 : Z.land attrs EFI_VARIABLE_RUNTIME_ACCESS = 4).
  { change EFI_VARIABLE_RUNTIME_ACCESS with (Z.land RT_BS_ATTRS 4).
    by rewrite Z.land_assoc, Hland. }
  assert (E2 : Z.land attrs EFI_VARIABLE_BOOTSERVICE_ACCESS = 0).
  { change EFI_VARIABLE_BOOTSERVICE_ACCESS with (Z.land RT_BS_ATTRS 2).
    by rewrite Z.land_assoc, Hland. }
  unfold rt_without_bs, has in Hrt. by rewrite E4, E2 in Hrt.
Qed.

Lemma evaluate_attrs_ok attrs :
  rt_without_bs attrs = false ->
  evaluate_attrs attrs
  = (if has attrs EFI_VARIABLE_HARDWARE_ERROR_RECORD then EFI_UNSUPPORTED
     else if has attrs EFI_VARIABLE_AUTHENTICATED_WRITE_ACCESS then
       if has attrs EFI_VARIABLE_TIME_BASED_AUTHENTICATED_WRITE_ACCESS
       then EFI_SECURITY_VIOLATION else EFI_UNSUPPORTED
     else EFI_SUCCESS).
Proof.
  intros Hrt. unfold evaluate_attrs. rewrite rt_without_bs_land by done.
  by repeat destruct (has attrs _).
Qed.

Lemma padded_first name :
  zlen name <= 256 ->
  read_le 1 (padded name) 0 = Ok (Z_of_byte (default x00 (head name))).
Proof.
  intros Hn. unfold read_le. rewrite read_bytes_ok by (rewrite ?zlen_padded by done; lia).
  cbn [obind]. change (Z.to_nat (Z.of_nat 1)) with 1%nat. change (Z.to_nat 0) with 0%nat.
  rewrite drop_0. unfold padded. destruct name as [|b name]; [done|].
  cbn [app take le_decode head default from_option id]. rewrite take_0. cbn [le_decode].
  f_equal. lia.
Qed.

Section server.
Context `{Allocator} `{OpenSSL} {E : Type} (backend : option (backend_t E)).

Abbreviation state := (server E).

(** The update proper. *)
Definition set_update (name : bytes) (g : EFI_GUID) (data : bytes) (attrs : Z) :
    M state EFI_STATUS :=
  if has attrs EFI_VARIABLE_TIME_BASED_AUTHENTICATED_WRITE_ACCESS || secure_boot_key (name, g)
  then run_auth (padded_data data)
         (auth_lib_process_variable (padded name) (zlen name) g (zlen data) attrs)
  else sv_on_store (storage_set (Some (padded name)) (zlen name) (Some g)
                      (Some (padded_data data)) (zlen data) attrs).

(** The end of the handler: the backend is told of a change to a non-volatile
    variable, and the status is sent. *)
Definition set_finish (attrs : Z) (status : EFI_STATUS) : M state unit :=
  (if (status =? EFI_SUCCESS) && has attrs EFI_VARIABLE_NON_VOLATILE
   then backend_set backend else ret tt) ;;
  reply_status status.

(** The shape of a request for the dispatcher. *)
Record set_page (s : state) (name : bytes) (g : EFI_GUID) (data : bytes) (attrs : Z)
    (rt : bool) : Prop := {
  sp_name : zlen name <= 256;
  sp_guid : zlen g = 16;
  sp_data : zlen data <= MAX_VARIABLE_DATA_SIZE;
  sp_attrs : 0 <= attrs < 0x100000000;
  sp_page : exists rest, comm_buf s = set_request name g data attrs rt ++ rest;
  sp_size : zlen (comm_buf s) = SHMEM_SIZE
}.

Lemma set_variable_runs (s : state) name g data attrs rt :
  set_page s name g data attrs rt ->
  xen_variable_server_handle_request backend true s
  = (if set_guard name g attrs =? EFI_SUCCESS
     then bind (set_update name g data attrs) (set_finish attrs)
     else reply_status (set_guard name g attrs)) (set_runtime rt s).
Proof.
  intros [Hn Hg Hd Ha [rest Hb] Hl].
  rewrite (dispatch backend COMMAND_SET_VARIABLE (data_field name ++ g ++ data_field data ++
             le_encode 4 attrs ++ le_encode 1 (Z.b2z rt) ++ rest))
    by (done || (rewrite Hb; unfold set_request; by rewrite <-!app_assoc)).
  change (handler backend COMMAND_SET_VARIABLE) with (handle_set_variable backend).
  unfold handle_set_variable, set_variable_body.
  erewrite bind_runs by (eapply parse_ok; [by apply (parses_set_request name g data attrs rt)
                                          |exact Hb]).
  cbn match. unfold bind at 1, mmodify.
  cbn [req_command req_name req_namesz req_guid req_attrs req_buffer req_buffer_size].
  cbn [Z.eqb negb COMMAND_SET_VARIABLE Pos.eqb].
  erewrite bind_runs by (apply mlift_runs, padded_first, Hn).
  unfold set_guard. fold (rt_without_bs attrs).
  destruct (_ || rt_without_bs attrs) eqn:Efirst; [done|].
  apply orb_false_iff in Efirst as [_ Hrt].
  erewrite bind_runs by (by apply mlift_runs, is_ro_key).
  destruct (read_only_key (name, g)); [done|]. cbv zeta.
  rewrite evaluate_attrs_ok by done.
  destruct (has attrs EFI_VARIABLE_HARDWARE_ERROR_RECORD); [done|].
  destruct (has attrs EFI_VARIABLE_AUTHENTICATED_WRITE_ACCESS).
  { by destruct (has attrs EFI_VARIABLE_TIME_BASED_AUTHENTICATED_WRITE_ACCESS). }
  change (negb (EFI_SUCCESS =? EFI_SUCCESS)) with false.
  change (EFI_SUCCESS =? EFI_SUCCESS) with true. cbn match.
  unfold set_update. destruct (has attrs EFI_VARIABLE_TIME_BASED_AUTHENTICATED_WRITE_ACCESS).
  - done.
  - cbn [orb].
    erewrite bind_runs by (by apply mlift_runs, is_secure_boot_variable_key).
    by destruct (secure_boot_key (name, g)).
Qed.

(** C22: Refused updates.  A [SetVariable] request is answered with
    INVALID_PARAMETER when its name is empty or it asks for run-time access
    without boot-time access, WRITE_PROTECTED when it names SecureBoot,
    SetupMode, AuditMode, DeployedMode or SignatureSupport under the global
    GUID, UNSUPPORTED or SECURITY_VIOLATION for the attributes the server does
    not support, in this order; and the store does not change. *)
Theorem set_variable_refused (s : state) (name : bytes) (g : EFI_GUID) (data : bytes)
    (attrs : Z) (rt : bool) :
  set_page s name g data attrs rt -> set_guard name g attrs <> EFI_SUCCESS ->
  xen_variable_server_handle_request backend true s
  = Ok (tt, set_comm_buf (overwrite (le_encode 8 (set_guard name g attrs)) (comm_buf s))
              (set_runtime rt s)).
Proof.
  intros Hp Hne. rewrite (set_variable_runs s name g data attrs rt Hp).
  rewrite (proj2 (Z.eqb_neq _ _) Hne). rewrite reply_status_ok; [done|].
  cbn. rewrite (sp_size _ _ _ _ _ _ Hp). by vm_compute.
Qed.

(** ** Updates without authentication *)
Lemma padded_prefix name :
  take (Z.to_nat (zlen name)) (padded name) = take (Z.to_nat (zlen name)) name.
Proof. rewrite take_padded by done. unfold zlen. by rewrite Nat2Z.id, firstn_all. Qed.

Lemma name_arg_padded name : name_arg name (zlen name) -> name_arg (padded name) (zlen name).
Proof.
  intros [Hs _ Hf]. constructor; [done|by rewrite zlen_padded; lia|].
  by rewrite (char_at_prefix _ name (zlen name)) by (apply padded_prefix || lia).
Qed.

Lemma canonical_padded name :
  canonical_name name (zlen name) -> canonical_name (padded name) (zlen name).
Proof.
  intros [Ha Hl]. constructor; [by apply name_arg_padded|]. destruct Ha as [Hs _ _].
  pose proof (Z.div_mod (zlen name) 2). pose proof (Z.mod_pos_bound (zlen name) 2).
  rewrite (char_at_prefix _ name (zlen name)); [done|apply padded_prefix|lia|lia].
Qed.

(** [SetVariable] without authentication updates the abstract store.  A
    request that passes the checks, whose attributes do not ask for time-based
    authentication and which does not name a secure boot variable, performs
    exactly the [SetVariable] of the abstract store (replace, append, delete,
    create, and their errors), tells the backend of a successful change to a
    non-volatile variable, and replies with the status. *)
Theorem set_variable_plain (s : state) (name : bytes) (g : EFI_GUID) (data : bytes)
    (attrs : Z) (rt : bool) :
  grants MAX_VARIABLE_DATA_SIZE -> storage_inv (sv_store s) ->
  canonical_name name (zlen name) -> set_page s name g data attrs rt ->
  set_guard name g attrs = EFI_SUCCESS ->
  has attrs EFI_VARIABLE_TIME_BASED_AUTHENTICATED_WRITE_ACCESS = false ->
  secure_boot_key (name, g) = false ->
  exists st store',
    xen_variable_server_handle_request backend true s
      = set_finish attrs st (set_sv_store store' (set_runtime rt s)) /\
    storage_inv store' /\
    (st, abs (variables store'))
      = spec_set (name, g) data attrs (abs (variables (sv_store s))).
Proof.
  intros G Hs Hc Hp Hguard Ht Hsb. rewrite (set_variable_runs s name g data attrs rt Hp).
  rewrite Hguard, Z.eqb_refl. unfold set_update. rewrite Ht, Hsb. cbn [orb].
  destruct Hp as [Hn Hg Hd Ha _ _].
  destruct (storage_set_refines (sv_store s) (padded name) (zlen name) g (padded_data data)
              (zlen data) attrs) as (st & store' & Hrun & Hinv & Hspec & _);
    [done..|by apply canonical_padded|done| |by rewrite zlen_padded_data|done|].
  { pose proof (zlen_nonneg data). lia. }
  exists st, store'. split_and!; [|done|].
  - erewrite bind_runs; [done|]. unfold sv_on_store, mzoom.
    change (sv_store (set_runtime rt s)) with (sv_store s). by rewrite Hrun.
  - by rewrite Hspec, arg_key_padded, take_padded_data.
Qed.

(** ** Names that end in a zero character *)
Lemma padded_terminated_prefix name :
  take (Z.to_nat (zlen name)) (padded (name ++ [x00; x00])) = name.
Proof.
  unfold padded. rewrite <-app_assoc. unfold zlen. by rewrite Nat2Z.id, take_app_length.
Qed.

Lemma char_at_terminator name :
  Z.even (zlen name) = true ->
  char_at (name ++ [x00; x00]) ((zlen name + 2) / 2 - 1) = 0.
Proof.
  intros [k Hk]%Z.even_spec. replace ((zlen name + 2) / 2 - 1) with k; cycle 1.
  { rewrite Hk. replace (2 * k + 2) with ((k + 1) * 2) by lia. rewrite Z.div_mul by lia. lia. }
  unfold char_at. rewrite <-Hk. unfold zlen. by rewrite Nat2Z.id, drop_app_length.
Qed.

Lemma terminated_key_new st name g :
  storage_inv st -> 2 <= zlen name <= 254 -> Z.even (zlen name) = true ->
  slot_of (name ++ [x00; x00], g) (variables st) = None.
Proof.
  intros Hs Hn He. destruct (slot_of _ _) as [[i v]|] eqn:Ek; [|done]. exfalso.
  apply slot_of_Some in Ek as [Hi [Hl Hk]].
  pose proof (slot_wf_live _ (slot_wf_lookup _ _ _ Hs Hi) Hl) as Hw.
  pose proof (slot_canonical_live _ _ _ Hs Hi Hl) as [Hlast _].
  injection Hk as Hkn _. pose proof (f_equal zlen Hkn) as Hlen.
  pose proof (lw_namesz _ Hw). pose proof (lw_name _ Hw).
  rewrite zlen_take, zlen_app in Hlen. change (zlen [x00; x00]) with 2 in Hlen.
  assert (Hsz : var_namesz v = zlen name + 2) by lia.
  apply Hlast. rewrite Hsz.
  pose proof (Z.div_mod (zlen name + 2) 2). pose proof (Z.mod_pos_bound (zlen name + 2) 2).
  rewrite (char_at_prefix _ (name ++ [x00; x00]) (zlen name + 2));
    [by apply char_at_terminator| |lia|lia].
  rewrite <-Hsz, Hkn, take_ge; [done|]. unfold zlen in *. rewrite length_app. cbn. lia.
Qed.

Lemma secure_boot_name name g :
  secure_boot_key (name, g) = true ->
  canonical_name name (zlen name) /\ zlen name <= 6 /\ Z.even (zlen name) = true.
Proof.
  intros [[_ Hn]%andb_true_iff|[_ Hn]%andb_true_iff]%orb_true_iff;
    apply bool_decide_eq_true in Hn; cbn [fst fmap list_fmap] in Hn;
    rewrite !elem_of_cons, elem_of_nil in Hn;
    repeat destruct Hn as [->|Hn]; try done;
    (split; [by repeat constructor|split; [by vm_compute|by vm_compute]]).
Qed.

Lemma terminated_not_secure name g :
  secure_boot_key (name, g) = true -> secure_boot_key (name ++ [x00; x00], g) = false.
Proof.
  intros [[_ Hn]%andb_true_iff|[_ Hn]%andb_true_iff]%orb_true_iff;
    apply bool_decide_eq_true in Hn; cbn [fst fmap list_fmap] in Hn;
    rewrite !elem_of_cons, elem_of_nil in Hn;
    repeat destruct Hn as [->|Hn]; try done; apply orb_false_iff; cbn [fst snd];
    split; apply andb_false_iff; right; by vm_compute.
Qed.

(** The variable made of a name with its terminator. *)
Lemma created_terminated name data g attrs :
  canonical_name name (zlen name) -> zlen name <= 254 -> Z.even (zlen name) = true ->
  var_key (created (padded (name ++ [x00; x00])) (zlen name + 2) (padded_data data) (zlen data)
             g attrs None None) = (name, g).
Proof.
  intros [[Hs _ Hf] _] Hn He. unfold var_key. cbn [created var_namesz var_name var_guid].
  set (n' := padded (name ++ [x00; x00])).
  assert (Hlen : zlen n' = 256) by (apply zlen_padded; zlia).
  pose proof (Z.div_mod (zlen name + 2) 2). pose proof (Z.mod_pos_bound (zlen name + 2) 2).
  unfold sanitized. rewrite (char_at_prefix n' (name ++ [x00; x00]) (zlen name + 2));
    [|replace (zlen name + 2) with (zlen (name ++ [x00; x00])) by zlia; apply padded_prefix
     |lia|lia].
  rewrite char_at_terminator by done. cbn [Z.eqb].
  replace (zlen name + 2 - 2) with (zlen name) by lia. f_equal.
  unfold stored_name. rewrite take_app_le by (rewrite length_take; unfold zlen in *; lia).
  rewrite take_take, Nat.min_l by lia. apply padded_terminated_prefix.
Qed.

(** A variable put into a free slot before the one that holds its key hides it:
    the lookups stop at the first slot that holds a key. *)
Lemma abs_insert_first vars i v v' :
  vars !! i = Some v -> live v = false -> live v' = true ->
  (forall j w, slot_of (var_key v') vars = Some (j, w) -> (i < j)%nat) ->
  abs (<[i:=v']> vars) = <[var_key v' := value_of v']> (abs vars).
Proof.
  intros Hi Hl Hl' Hfirst. apply map_eq. intros k. rewrite abs_lookup.
  destruct (decide (k = var_key v')) as [->|Hne].
  - rewrite lookup_insert_eq. unfold slot_of.
    rewrite (proj2 (list_find_Some _ _ i v')); [done|]. split_and!.
    + apply list_lookup_insert_eq. by eapply lookup_lt_Some.
    + by split.
    + intros j w Hj Hji Hw. rewrite list_lookup_insert_ne in Hj by lia.
      destruct (slot_of (var_key v') vars) as [[m u]|] eqn:Es.
      * specialize (Hfirst m u eq_refl). apply list_find_Some in Es as (_ & _ & Hmin).
        apply (Hmin j w Hj); [lia|done].
      * apply list_find_None in Es. eapply Forall_lookup_1 in Es; [|exact Hj]. by apply Es.
  - rewrite lookup_insert_ne, abs_lookup by done. f_equal.
    eapply slot_of_insert_ne; [done|by intros [? _]; congruence|].
    intros [_ E0]. by apply Hne.
Qed.

(** C24: A zero character at the end of a name escapes the authentication.  A
    request that carries the name of PK, KEK, db, dbx or dbt with the
    terminating zero and asks for no authentication is not recognised as one
    for a secure boot variable, in setup and in user mode alike: unsigned data
    is stored under the name without the terminator.  When the variable did not
    exist it now does; and when it did, but a slot before it was free, the
    unsigned data hides it from every lookup, so that it replaces the enrolled
    key. *)
Theorem terminated_name_unauthenticated (s : state) (name : bytes) (g : EFI_GUID)
    (data : bytes) (attrs : Z) (rt : bool) :
  grants MAX_VARIABLE_DATA_SIZE -> storage_inv (sv_store s) ->
  secure_boot_key (name, g) = true ->
  set_page s (name ++ [x00; x00]) g data attrs rt ->
  set_guard (name ++ [x00; x00]) g attrs = EFI_SUCCESS ->
  attrs <> 0 -> has attrs EFI_VARIABLE_TIME_BASED_AUTHENTICATED_WRITE_ACCESS = false ->
  has attrs EFI_VARIABLE_APPEND_WRITE = false -> data <> [] ->
  (forall i v, slot_of (name, g) (variables (sv_store s)) = Some (i, v) ->
     exists j w, variables (sv_store s) !! j = Some w /\ live w = false /\ (j < i)%nat) ->
  Z.of_nat (size (abs (variables (sv_store s)))) < MAX_VAR_COUNT ->
  exists store',
    xen_variable_server_handle_request backend true s
      = set_finish attrs EFI_SUCCESS (set_sv_store store' (set_runtime rt s)) /\
    abs (variables store')
      = <[(name, g) := mk_value attrs data zero_time zero_cert]>
          (abs (variables (sv_store s))).
Proof.
  intros G Hs Hsb Hp Hguard Ha0 Ht Happ Hdata Hfree Hroom.
  rewrite (set_variable_runs s _ g data attrs rt Hp), Hguard, Z.eqb_refl.
  unfold set_update. rewrite Ht, terminated_not_secure by done. cbn [orb].
  destruct (secure_boot_name _ _ Hsb) as (Hc & Hlen & He).
  destruct Hp as [Hn Hg Hd Ha _ _]. set (n := name ++ [x00; x00]) in *.
  assert (Hz : zlen n = zlen name + 2) by (unfold n; rewrite zlen_app; done).
  assert (Hd0 : 1 <= zlen data).
  { destruct data; [done|]. rewrite zlen_cons. pose proof (zlen_nonneg data). lia. }
  assert (Hna : name_arg (padded n) (zlen n)).
  { destruct Hc as [[Hs0 _ Hf] _]. constructor; [lia|rewrite zlen_padded; lia|].
    rewrite (char_at_prefix _ name (zlen name)); [done| |lia|lia].
    unfold n. rewrite padded_terminated_prefix. unfold zlen. by rewrite Nat2Z.id, firstn_all. }
  pose proof (zlen_padded_data data Hd) as Hpd.
  pose proof (na_size _ _ (cn_arg _ _ Hc)) as Hrange.
  destruct (list_find (fun v => live v = false) (variables (sv_store s))) as [[i w]|] eqn:Ei;
    cycle 1.
  { apply no_empty_slot in Ei. rewrite abs_size in Hroom by apply Hs.
    rewrite Ei, (sw_len _ Hs) in Hroom. lia. }
  erewrite bind_runs; cycle 1.
  { unfold sv_on_store, mzoom. change (sv_store (set_runtime rt s)) with (sv_store s).
    rewrite storage_set_body by (apply Hs || done || lia). rewrite Happ.
    rewrite (proj2 (Z.eqb_neq (zlen data) 0)), (proj2 (Z.eqb_neq attrs 0)) by lia. cbn [andb orb].
    rewrite arg_key_padded by done. unfold n at 1. rewrite terminated_key_new by (done || lia).
    rewrite storage_set_new_ok by (apply Hs || done || lia).
    rewrite (proj2 (Z.eqb_neq (zlen data) 0)) by lia. rewrite Ei. reflexivity. }
  eexists. split; [reflexivity|]. cbn [variables].
  apply list_find_Some in Ei as (Hi & Hl & Hmin).
  set (v' := created _ _ _ _ _ _ _ _).
  assert (Hk : var_key v' = (name, g)).
  { unfold v'. rewrite Hz. by apply created_terminated; [|lia|]. }
  pose proof (masked_attrs_range _ Ha).
  rewrite (abs_insert_first _ _ w); [|done|done| |].
  - rewrite Hk. f_equal. unfold v', value_of. cbn [created var_attrs var_data var_timestamp var_cert
      default from_option id]. by rewrite ldiff_unset, take_padded_data by done.
  - apply live_wf_live, created_live_wf; done || lia.
  - rewrite Hk. intros j u Hj. destruct (Hfree j u Hj) as (m & x & Hm & Hx & Hlt).
    destruct (decide (m < i)%nat); [|lia]. by destruct (Hmin m x Hm).
Qed.

(** ** Names of one byte *)
Lemma variable_set_name_one v n :
  zlen (var_name v) = 256 -> 1 <= zlen n -> variable_set_name v (Some n) 1 = Fault OutOfBounds.
Proof.
  intros Hv Hn. unfold variable_set_name. change (1 >? MAX_VARIABLE_NAME_SIZE) with false.
  cbn [Z.eqb]. unfold memcpy. rewrite read_bytes_prefix by lia. cbn [obind].
  rewrite write_bytes_prefix by (rewrite zlen_take; lia). done.
Qed.

Lemma storage_set_one st n g src dsz attrs :
  storage_wf st -> 1 <= zlen n -> zlen g = 16 -> 1 <= dsz <= MAX_VARIABLE_DATA_SIZE ->
  attrs <> 0 -> nlive (variables st) < MAX_VAR_COUNT ->
  storage_set (Some n) 1 (Some g) (Some src) dsz attrs st = Fault OutOfBounds.
Proof.
  intros Hs Hn Hg Hd Ha Hroom. unfold storage_set, bind, storage_used, mgets, mget, mlift.
  rewrite storage_size_check by (done || clia).
  change (1 >? MAX_VARIABLE_NAME_SIZE) with false.
  rewrite (Z.gtb_ltb dsz), (proj2 (Z.ltb_ge _ dsz)) by clia.
  rewrite (proj2 (Z.eqb_neq dsz 0)), (proj2 (Z.eqb_neq attrs 0)) by lia. cbn [andb orb].
  pose proof (find_variable_pos n 1 g (variables st)) as Hf. unfold find_variable in Hf.
  rewrite Hf by (apply Hs || done || lia).
  destruct (slot_of _ _) as [[i v]|] eqn:Ek.
  { exfalso. apply slot_of_Some in Ek as [Hi Hk]. pose proof (slot_wf_lookup _ _ _ Hs Hi) as Hw.
    pose proof (has_key_namesz v n 1 g Hw ltac:(lia) Hn Hk).
    destruct Hk as [Hl _]. pose proof (lw_namesz _ (slot_wf_live _ Hw Hl)). lia. }
  cbn [fmap option_fmap option_map]. unfold storage_set_new, bind, mget, mlift.
  rewrite find_empty_slot_ok by apply Hs.
  destruct (list_find _ _) as [[i v]|] eqn:Ei; cycle 1.
  { apply no_empty_slot in Ei. rewrite Ei, (sw_len _ Hs) in Hroom. lia. }
  cbn [fmap option_fmap option_map fst]. apply list_find_Some in Ei as (Hi & Hl & _).
  rewrite (slot_at_ok _ _ _ Hi).
  pose proof (slot_wf_free _ (slot_wf_lookup _ _ _ Hs Hi) Hl) as ->.
  unfold variable_create_noalloc. rewrite (proj2 (Z.eqb_neq dsz 0)) by lia.
  by rewrite variable_set_name_one.
Qed.

(** A name of one byte makes the server read outside the name array.  The
    index of the last character of the name, computed as [namesz / 2 - 1] in
    an unsigned type, wraps around; any [SetVariable] request that creates a
    variable without authentication under such a name reaches it. *)
Theorem one_byte_name_out_of_bounds (s : state) (b : byte) (g : EFI_GUID) (data : bytes)
    (attrs : Z) (rt : bool) :
  storage_inv (sv_store s) -> set_page s [b] g data attrs rt ->
  set_guard [b] g attrs = EFI_SUCCESS -> attrs <> 0 ->
  has attrs EFI_VARIABLE_TIME_BASED_AUTHENTICATED_WRITE_ACCESS = false -> data <> [] ->
  Z.of_nat (size (abs (variables (sv_store s)))) < MAX_VAR_COUNT ->
  xen_variable_server_handle_request backend true s = Fault OutOfBounds.
Proof.
  intros Hs Hp Hguard Ha0 Ht Hdata Hroom. rewrite abs_size in Hroom by apply Hs.
  rewrite (set_variable_runs s _ g data attrs rt Hp), Hguard, Z.eqb_refl.
  assert (Hsb : secure_boot_key ([b], g) = false).
  { destruct (secure_boot_key ([b], g)) eqn:Ek; [|done].
    apply secure_boot_name in Ek as (_ & _ & He). done. }
  destruct Hp as [Hn Hg Hd Ha _ _].
  unfold set_update, bind, sv_on_store, mzoom. rewrite Ht, Hsb. cbn [orb].
  change (sv_store (set_runtime rt s)) with (sv_store s). change (zlen [b]) with 1.
  rewrite storage_set_one; [done|apply Hs|by rewrite zlen_padded|done| |done|done].
  destruct data; [done|]. rewrite zlen_cons in *. pose proof (zlen_nonneg data). lia.
Qed.

End server.

(** ** The theorems at concrete inputs *)
Ltac set_page_of :=
  constructor; [vm_compute; discriminate|reflexivity|vm_compute; discriminate|lia
               |eexists; reflexivity|apply zlen_page_of; vm_compute; discriminate].

Lemma set_variable_refused_witness :
  handle (sample_server store_2 SETUP_MODE set_SetupMode)
  = Ok (tt, set_comm_buf
              (overwrite
                 (le_encode 8 (set_guard (chars_of EFI_SETUP_MODE_NAME) gEfiGlobalVariableGuid 7))
                 (comm_buf (sample_server store_2 SETUP_MODE set_SetupMode)))
              (set_runtime false (sample_server store_2 SETUP_MODE set_SetupMode))).
Proof.
  apply (@set_variable_refused zero_allocator toy_openssl unit None
           (sample_server store_2 SETUP_MODE set_SetupMode) (chars_of EFI_SETUP_MODE_NAME)
           gEfiGlobalVariableGuid [x01] 7 false);
    [set_page_of|vm_compute; discriminate].
Defined.

Lemma set_variable_plain_witness :
  let s := sample_server store_2 SETUP_MODE set_B in
  exists st store',
    handle s = @set_finish unit None 7 st (set_sv_store store' (set_runtime false s)) /\
    storage_inv store' /\
    (st, abs (variables store'))
      = spec_set (name_B, guid_1) [x01; x02] 7 (abs (variables (sv_store s))).
Proof.
  apply (@set_variable_plain zero_allocator toy_openssl unit None
           (sample_server store_2 SETUP_MODE set_B) name_B guid_1 [x01; x02] 7 false);
    [apply zero_allocator_grants|exact store_2_inv|exact name_B_ok|set_page_of
    |vm_compute; reflexivity..].
Defined.

(** The platform key AA, stored after a variable that has been deleted. *)
Lemma two_variables_inv : storage_inv (store_of [var_1; var_PK]).
Proof.
  destruct var_1_ok as [L1 C1], var_PK_ok as [L2 C2].
  apply store_of_inv.
  - apply Forall_cons; split; [exact L1|]. apply Forall_cons; split; [exact L2|apply Forall_nil_2].
  - apply Forall_cons; split; [exact C1|]. apply Forall_cons; split; [exact C2|apply Forall_nil_2].
  - apply (bool_decide_unpack _). vm_compute. exact I.
  - cbn [length]. lia.
Qed.
Definition store_gap : storage :=
  mk_storage (<[0%nat := zero_var]> (variables (store_of [var_1; var_PK]))) (2 - 1)
    (66048 - slot_cost) 0.
Lemma store_gap_inv : storage_inv store_gap.
Proof.
  exact (remove_slot_inv (store_of [var_1; var_PK]) 0 var_1 two_variables_inv eq_refl eq_refl).
Qed.

Lemma terminated_name_unauthenticated_witness :
  let s := sample_server store_gap USER_MODE set_PK_terminated in
  exists store',
    handle s = @set_finish unit None 7 EFI_SUCCESS (set_sv_store store' (set_runtime false s)) /\
    abs (variables store')
      = <[(PK_name, gEfiGlobalVariableGuid) := mk_value 7 list_BB zero_time zero_cert]>
          (abs (variables (sv_store s))).
Proof.
  apply (@terminated_name_unauthenticated zero_allocator toy_openssl unit None
           (sample_server store_gap USER_MODE set_PK_terminated) PK_name
           gEfiGlobalVariableGuid list_BB 7 false);
    [apply zero_allocator_grants|exact store_gap_inv|vm_compute; reflexivity|set_page_of
    |vm_compute; reflexivity|discriminate|reflexivity|reflexivity|discriminate
    | |vm_compute; reflexivity].
  intros i v Hi. vm_compute in Hi. injection Hi as <- <-.
  exists 0%nat, zero_var. split; [reflexivity|]. split; [reflexivity|lia].
Defined.

Lemma one_byte_name_out_of_bounds_witness :
  handle (sample_server store_2 SETUP_MODE set_one_byte) = Fault OutOfBounds.
Proof.
  apply (@one_byte_name_out_of_bounds zero_allocator toy_openssl unit None
           (sample_server store_2 SETUP_MODE set_one_byte) x42 guid_1 [x01; x02] 7 false);
    [exact store_2_inv|set_page_of|vm_compute; reflexivity|discriminate|reflexivity|discriminate
    |vm_compute; reflexivity].
Defined.
