(* ===== verification/AuthSpec.v ===== *)
(** * Authenticated variables: what a successful update proves

    The time stamp order, the content of the signature, and the certificates
    an update was verified against in each mode. *)
From S2P Require Import Prelude EfiTypes Common UefiVariable Storage StorageInv StorageSpec.
From S2P Require Import Crypto SigList Auth.

(** ** Computations that keep the state *)
Lemma keeps_on_store {A} (m : M storage A) : keeps m -> keeps (on_store m).
Proof. intros H. apply keeps_mzoom; [done|]. by intros []. Qed.

Lemma keeps_storage_get_var_ptr name namesz guid :
  keeps (storage_get_var_ptr name namesz guid).
Proof. unfold storage_get_var_ptr, storage_find_variable. keeps. Qed.
#[export] Hint Resolve keeps_on_store keeps_storage_get_var_ptr : uefi.

Section keeps.
Context `{Allocator} `{OpenSSL}.

Lemma keeps_with_data_object {A} (f : bytes -> outcome A) : keeps (with_data_object f).
Proof. unfold with_data_object. keeps. Qed.
Lemma keeps_find_variable name namesz guid :
  keeps (auth_internal_find_variable name namesz guid).
Proof. unfold auth_internal_find_variable. keeps. Qed.
#[local] Hint Resolve keeps_with_data_object keeps_find_variable : uefi.
Lemma keeps_verify_payload off d n : keeps (verify_payload off d n).
Proof. unfold verify_payload. keeps. Qed.
Lemma keeps_verify_priv name namesz guid d n : keeps (verify_priv name namesz guid d n).
Proof. unfold verify_priv. keeps. Qed.
Lemma keeps_verify_pk d n : keeps (verify_pk d n).
Proof. unfold verify_pk. keeps. Qed.
Lemma keeps_verify_kek d n : keeps (verify_kek d n).
Proof. unfold verify_kek. keeps. Qed.
#[local] Hint Resolve keeps_verify_payload keeps_verify_priv keeps_verify_pk keeps_verify_kek
  : uefi.
Lemma keeps_verify name namesz guid n a ty ts :
  keeps (verify_time_based_payload name namesz guid n a ty ts).
Proof. unfold verify_time_based_payload. keeps. Qed.
End keeps.
#[export] Hint Resolve keeps_with_data_object keeps_find_variable keeps_verify_payload
  keeps_verify_priv keeps_verify_pk keeps_verify_kek keeps_verify : uefi.

(** ** The stored value of a name *)
Definition stored (s : auth_state) (n : bytes) (sz : Z) (g : EFI_GUID) : option value :=
  abs (variables (au_store s)) !! arg_key n sz g.

Definition stored_PK (s : auth_state) : option value :=
  stored s EFI_PLATFORM_KEY_NAME 4 gEfiGlobalVariableGuid.
Definition stored_KEK (s : auth_state) : option value :=
  stored s EFI_KEY_EXCHANGE_KEY_NAME 6 gEfiGlobalVariableGuid.

(** The lookup the authentication functions start with. *)
Lemma get_var_ptr_stored s n sz g :
  storage_wf (au_store s) -> 1 <= sz -> sz <= zlen n -> zlen g = 16 ->
  exists r, on_store (storage_get_var_ptr (Some n) sz (Some g)) s = Ok (r, s) /\
    match stored s n sz g with
    | Some x => exists i v, r = (EFI_SUCCESS, Some i) /\ variables (au_store s) !! i = Some v /\
                  live_wf v /\ var_key v = arg_key n sz g /\ x = value_of v
    | None => r = (EFI_NOT_FOUND, None)
    end.
Proof.
  intros Hs Hsz Hn Hg. unfold on_store, mzoom, stored.
  rewrite storage_get_var_ptr_ok, abs_lookup by done.
  replace (set_store (au_store s) s) with s by (by destruct s).
  eexists. split; [done|].
  destruct (slot_of _ _) as [[i v]|] eqn:E; cbn [fmap option_fmap option_map snd compose]; [|done].
  apply slot_of_Some in E as [Hi [Hl Hk]]. exists i, v.
  pose proof (slot_wf_live _ (slot_wf_lookup _ _ _ Hs Hi) Hl). done.
Qed.

Section trust.
Context `{Allocator} `{OpenSSL}.

Lemma find_variable_stored s n sz g :
  storage_wf (au_store s) -> 1 <= sz -> sz <= zlen n -> zlen g = 16 ->
  auth_internal_find_variable n sz g s
  = Ok (match stored s n sz g with
        | Some x => (EFI_SUCCESS, Some (Some (val_data x), zlen (val_data x)))
        | None => (EFI_NOT_FOUND, None)
        end, s).
Proof.
  intros Hs Hsz Hn Hg. unfold auth_internal_find_variable, bind.
  destruct (get_var_ptr_stored s n sz g) as (r & -> & Hr); [done..|].
  destruct (stored s n sz g) as [x|]; [|by rewrite Hr].
  destruct Hr as (i & v & -> & Hi & Hl & _ & ->).
  unfold mget, mlift, ret. rewrite (slot_at_ok _ _ _ Hi).
  destruct (lw_data _ Hl) as (d & Hd & Hsz'). by rewrite (val_data_of _ _ Hd), Hd, Hsz'.
Qed.

(** ** Which certificates an update may be verified against *)

(** PK: the signer itself, equal to the certificate enrolled as PK. *)
Definition pk_trusts (s : auth_state) (p : PKCS7) (cert : X509) : Prop :=
  exists x certs,
    stored_PK s = Some x /\
    PKCS7_get0_signers p = Some certs /\ last certs = Some cert /\
    cert_equals_esl (i2d_X509 cert) (u32 (zlen (i2d_X509 cert))) (val_data x) = Ok true.

(** The lists of a signature database: the offset of a list and the bytes from
    there to the end. *)
Inductive list_in (d : bytes) (n : Z) : Z -> Z -> Prop :=
  | list_in_first : list_in d n 0 n
  | list_in_next off rem size :
      list_in d n off rem -> 0 < rem -> sl_SignatureListSize d off = Ok size -> size <= rem ->
      list_in d n (off + size) (rem - size).

(** KEK: a certificate of one of the X.509 lists of the stored KEK. *)
Definition kek_trusts (s : auth_state) (cert : X509) : Prop :=
  exists x off rem size header_size signature_size j,
    stored_KEK s = Some x /\
    list_in (val_data x) (zlen (val_data x)) off rem /\ 0 < rem /\
    sl_SignatureType (val_data x) off = Ok gEfiCertX509Guid /\
    sl_SignatureListSize (val_data x) off = Ok size /\ size <= rem /\
    sl_SignatureHeaderSize (val_data x) off = Ok header_size /\
    sl_SignatureSize (val_data x) off = Ok signature_size /\
    0 <= j < sigs_size size header_size / signature_size /\
    X509_from_buf (val_data x)
      (off + sizeof_EFI_SIGNATURE_LIST + header_size + j * signature_size + 16)
      (u64 (signature_size - 16)) = Ok (Some cert).

(** A private variable: the signer itself; when the variable exists (and
    enforcement is on) the digest of the signer is the stored one. *)
Definition priv_trusts (s : auth_state) (n : bytes) (sz : Z) (g : EFI_GUID) (p : PKCS7)
    (cert : X509) : Prop :=
  exists certs digest,
    PKCS7_get0_signers p = Some certs /\ last certs = Some cert /\
    sha256_priv_sig certs (Some cert) = Ok (EFI_SUCCESS, Some digest) /\
    (forall x, stored s n sz g = Some x -> auth_enforce s = true -> val_cert x = digest).

(** The payload itself: its first certificate. *)
Definition payload_trusts (s : auth_state) (off : Z) (cert : X509) : Prop :=
  exists header_size signature_size,
    sl_SignatureHeaderSize (au_data s) off = Ok header_size /\
    sl_SignatureSize (au_data s) off = Ok signature_size /\
    X509_from_buf (au_data s) (off + sizeof_EFI_SIGNATURE_LIST + header_size + 16)
      (u64 (signature_size - 16)) = Ok (Some cert).

(** [content] carries a signature of the descriptor's PKCS#7 structure that
    OpenSSL verified against [cert]. *)
Definition verified_by (p : PKCS7) (cert : X509) (content : bytes) (size : Z) : Prop :=
  exists c, read_bytes content 0 size = Ok c /\ PKCS7_type_is_signed p = true /\
            PKCS7_verify p cert c = true.

Lemma pkcs7_verify_true p cert d n :
  pkcs7_verify p cert (Some d) n = Ok true ->
  exists p' cert', p = Some p' /\ cert = Some cert' /\ verified_by p' cert' d n.
Proof.
  unfold pkcs7_verify, verified_by.
  destruct (n >? INT_MAX); [done|]. destruct p as [p|], cert as [cert|]; try done.
  destruct (negb EVP_add_digest); [done|].
  destruct (PKCS7_type_is_signed p) eqn:Es; [|done]. cbn [negb].
  destruct (negb X509_STORE_new); [done|]. destruct (negb (X509_STORE_add_cert cert)); [done|].
  destruct (negb BIO_new); [done|].
  intros (? & _ & Hr)%obind_inv. apply obind_inv in Hr as (c & Hc & Hr).
  destruct (negb _); [done|]. injection Hr as Hr. eexists _, _. split_and!; eauto.
Qed.

Lemma pkcs7_from_auth_signed a p :
  pkcs7_from_auth (Some a) = Ok (Some p) -> PKCS7_type_is_signed p = true.
Proof.
  unfold pkcs7_from_auth. intros (n & _ & Hr)%obind_inv. destruct (n =? 0); [done|].
  apply obind_inv in Hr as ([b m] & _ & Hr). destruct b as [b|]; [|done].
  apply obind_inv in Hr as (der & _ & Hr). destruct (d2i_PKCS7 der) as [q|]; [|done].
  destruct (PKCS7_type_is_signed q) eqn:E; [|done]. by injection Hr as <-.
Qed.

Lemma verify_pk_true s d n s' :
  storage_wf (au_store s) -> verify_pk d n s = Ok (true, s') ->
  exists p cert, pkcs7_from_auth (Some (au_data s)) = Ok (Some p) /\
    pk_trusts s p cert /\ verified_by p cert d n.
Proof.
  intros Hs. unfold verify_pk.
  intros (p & s1 & Hp & Hr)%bind_inv.
  pose proof (keeps_with_data_object _ _ _ _ Hp) as ->.
  unfold with_data_object, bind, mget in Hp. apply mlift_inv in Hp as [Hp _].
  destruct p as [p|]; [|done]. cbn [pkcs7_get_top_cert_der pkcs7_get_top_cert] in Hr.
  destruct (PKCS7_get0_signers p) as [certs|] eqn:Ec; [|done].
  destruct (last_cert certs) as [cert|] eqn:El; [|done]. cbn [X509_to_buf] in Hr.
  destruct (malloc _) as [b|]; [|done].
  unfold bind at 1 in Hr. rewrite find_variable_stored in Hr by (done || cbn; lia).
  change (stored s _ _ _) with (stored_PK s) in Hr.
  destruct (stored_PK s) as [x|] eqn:Ex; [|done].
  apply bind_inv in Hr as (same & s2 & Hsame & Hr). apply mlift_inv in Hsame as [Hsame ->].
  destruct same; [|done]. cbn [negb] in Hr. apply mlift_inv in Hr as [Hr ->].
  apply pkcs7_verify_true in Hr as (p' & cert' & [= <-] & [= <-] & Hv).
  exists p, cert. split_and!; [done| |done]. by exists x, certs.
Qed.

Lemma sha256_priv_sig_some certs cert st digest :
  sha256_priv_sig certs cert = Ok (st, Some digest) -> st = EFI_SUCCESS /\ zlen digest = 32.
Proof.
  unfold sha256_priv_sig. destruct certs as [|signer certs]; [done|].
  destruct (negb _); [done|]. destruct (X509_common_name _ _) as [text|]; [|done].
  intros ([st' tbs] & _ & Hr)%obind_inv. destruct tbs as [tbs|]; [|done].
  apply obind_inv in Hr as (n & _ & Hr). destruct (SHA256 _) as [d|] eqn:E; [|done].
  injection Hr as <- <-. split; [done|]. by eapply SHA256_size.
Qed.

Lemma signers_digest_some p cert digest :
  signers_digest p = Ok (Some (cert, digest)) ->
  exists certs, PKCS7_get0_signers p = Some certs /\ last certs = Some cert /\
    sha256_priv_sig certs (Some cert) = Ok (EFI_SUCCESS, Some digest) /\ zlen digest = 32.
Proof.
  unfold signers_digest, pkcs7_get_signers, last_cert.
  destruct (negb (PKCS7_type_is_signed p)); [done|].
  destruct (PKCS7_get0_signers p) as [certs|]; [|done].
  destruct (last certs) as [c|] eqn:El; [|done].
  intros ([st d] & Hd & Hr)%obind_inv. destruct d as [d|]; [|done]. injection Hr as <- <-.
  exists certs. destruct (sha256_priv_sig_some _ _ _ _ Hd) as [-> ?]. done.
Qed.

(** A successful computation on the data object. *)
Lemma with_data_object_inv {A} (f : bytes -> outcome A) (s : auth_state) (a : A) s' :
  with_data_object f s = Ok (a, s') -> f (au_data s) = Ok a /\ s' = s.
Proof.
  unfold with_data_object, bind, mget. intros [Hf ->]%mlift_inv. done.
Qed.

Lemma verify_payload_true s off d n s' :
  verify_payload off d n s = Ok (true, s') ->
  exists p cert, pkcs7_from_auth (Some (au_data s)) = Ok (Some p) /\
    payload_trusts s off cert /\ verified_by p cert d n.
Proof.
  intros [Hr _]%with_data_object_inv.
  apply obind_inv in Hr as (hs & Hh & Hr). apply obind_inv in Hr as (ss & Hs & Hr).
  apply obind_inv in Hr as (cert & Hc & Hr). destruct cert as [cert|]; [|done].
  apply obind_inv in Hr as (p & Hp & Hr). destruct p as [p|]; [|done].
  apply pkcs7_verify_true in Hr as (p' & cert' & [= <-] & [= <-] & Hv).
  exists p, cert. split_and!; [done| |done]. by exists hs, ss.
Qed.

Lemma memcmp_eq_same a b n :
  zlen a = n -> zlen b = n -> memcmp_eq a 0 b 0 n = Ok (bool_decide (a = b)).
Proof.
  intros Ha Hb. pose proof (zlen_nonneg a). rewrite memcmp_eq_ok by lia.
  change (Z.to_nat 0) with 0%nat. rewrite !drop_0, !take_ge by (unfold zlen in *; lia). done.
Qed.

Lemma verify_priv_true s n sz g d (m : Z) s' :
  storage_wf (au_store s) -> 2 <= sz -> sz <= zlen n -> zlen g = 16 ->
  verify_priv n sz g d m s = Ok (true, s') ->
  exists p cert, pkcs7_from_auth (Some (au_data s)) = Ok (Some p) /\
    priv_trusts s n sz g p cert /\ verified_by p cert d m.
Proof.
  intros Hs Hsz Hn Hg. unfold verify_priv.
  intros (p & s1 & [Hp ->]%with_data_object_inv & Hr)%bind_inv.
  destruct p as [p|]; [|done].
  apply bind_inv in Hr as (r & s1 & [Hd ->]%mlift_inv & Hr).
  destruct r as [[cert digest]|]; [|done].
  apply signers_digest_some in Hd as (certs & Hc & Hl & Hd & Hdl).
  destruct (get_var_ptr_stored s n sz g) as (r & Hrun & Hx); [done || lia..|].
  unfold bind at 1 in Hr. rewrite Hrun in Hr.
  assert (Hdone : (forall x, stored s n sz g = Some x -> auth_enforce s = true ->
                    val_cert x = digest) ->
    mlift (pkcs7_verify (Some p) (Some cert) (Some d) m) s = Ok (true, s') ->
    exists p0 c, pkcs7_from_auth (Some (au_data s)) = Ok (Some p0) /\
      priv_trusts s n sz g p0 c /\ verified_by p0 c d m).
  { intros Hpr [Hv _]%mlift_inv.
    apply pkcs7_verify_true in Hv as (p' & cert' & [= <-] & [= <-] & Hv).
    exists p, cert. split_and!; [done| |done]. by exists certs, digest. }
  destruct (stored s n sz g) as [x|].
  - destruct Hx as (i & v & -> & Hi & Hw & _ & ->).
    unfold bind at 1, mget in Hr. unfold bind at 1 in Hr.
    destruct (auth_enforce s).
    + unfold bind, mlift in Hr. rewrite (slot_at_ok _ _ _ Hi) in Hr.
      rewrite memcmp_eq_same in Hr by (done || apply Hw).
      destruct (bool_decide _) eqn:E; [|done]. apply bool_decide_eq_true in E.
      apply Hdone; [|done]. by intros y [= <-].
    + apply Hdone; [done|exact Hr].
  - rewrite Hx in Hr. apply Hdone; [done|exact Hr].
Qed.

(** The number of certificates is fuel enough: more does not change the result. *)
Lemma verify_kek_certs_fuel f f' p kek ss d n cert i count :
  count - i <= Z.of_nat f -> count - i <= Z.of_nat f' ->
  verify_kek_certs f p kek ss d n cert i count = verify_kek_certs f' p kek ss d n cert i count.
Proof.
  revert f' cert i. induction f as [|f IH]; intros [|f'] cert i Hf Hf';
    cbn [verify_kek_certs]; destruct (Z.ltb_spec i count); try done; try lia.
  destruct (X509_from_sig_data kek cert ss) as [[c|]|]; cbn [obind]; [|apply IH; lia|done].
  destruct (pkcs7_verify _ _ _ _) as [[]|]; cbn [obind]; [done|apply IH; lia|done].
Qed.

Lemma verify_kek_certs_true fuel p kek ss d n cert0 cert i count :
  cert = cert0 -> 0 <= i ->
  verify_kek_certs fuel p kek ss d n cert i count = Ok true ->
  exists j c, 0 <= j < count - i /\
    X509_from_buf kek (cert0 + j * ss + 16) (u64 (ss - 16)) = Ok (Some c) /\
    verified_by p c d n.
Proof.
  revert cert0 cert i. induction fuel as [|fuel IH]; intros cert0 cert i -> Hi;
    cbn [verify_kek_certs]; unfold X509_from_sig_data; destruct (i <? count) eqn:E; try done.
  apply Z.ltb_lt in E. intros (tc & Htc & Hr)%obind_inv.
  change (sizeof_EFI_SIGNATURE_DATA - 1) with 16 in Htc.
  destruct tc as [tc|]; cycle 1.
  { destruct (IH cert0 cert0 (i + 1) eq_refl ltac:(lia) Hr) as (j & c & Hj & Hc & Hv).
    exists j, c. split_and!; [lia|lia|done|done]. }
  apply obind_inv in Hr as (b & Hb & Hr). destruct b.
  - apply pkcs7_verify_true in Hb as (p' & c' & [= <-] & [= <-] & Hv).
    exists 0, tc. rewrite Z.mul_0_l, Z.add_0_r. split_and!; [lia|lia|done|done].
  - destruct (IH (cert0 + ss) (cert0 + ss) (i + 1) eq_refl ltac:(lia) Hr)
      as (j & c & Hj & Hc & Hv).
    exists (j + 1), c. split_and!; [lia|lia| |done].
    by replace (cert0 + (j + 1) * ss) with (cert0 + ss + j * ss) by lia.
Qed.

Lemma verify_kek_lists_true fuel s x p off rem d n :
  stored_KEK s = Some x -> list_in (val_data x) (zlen (val_data x)) off rem ->
  verify_kek_lists fuel p (val_data x) off rem d n = Ok true ->
  exists cert, kek_trusts s cert /\ verified_by p cert d n.
Proof.
  intros Hx. revert off rem. induction fuel as [|fuel IH]; intros off rem Hl;
    cbn [verify_kek_lists]; destruct (rem >? 0) eqn:E; try done;
    rewrite Z.gtb_ltb in E; apply Z.ltb_lt in E; intros (size & Hsz & Hr)%obind_inv;
    destruct (rem >=? size) eqn:Es; try done; rewrite Z.geb_leb in Es; apply Z.leb_le in Es.
  apply obind_inv in Hr as (ty & Hty & Hr). apply obind_inv in Hr as (b & Hb & Hr).
  destruct b; cycle 1.
  { apply (IH (off + size) (rem - size)); [|done]. by eapply list_in_next. }
  destruct (compare_guid ty gEfiCertX509Guid) eqn:Eg; [|done].
  apply compare_guid_spec in Eg as ->.
  apply obind_inv in Hb as (hs & Hhs & Hb). apply obind_inv in Hb as (ss & Hss & Hb).
  apply obind_inv in Hb as (count & Hc & Hb).
  eapply verify_kek_certs_true in Hb as (j & c & Hj & Hfrom & Hv); [|done|lia].
  assert (Hcount : count = sigs_size size hs / ss).
  { unfold udiv in Hc. destruct (ss =? 0); [done|]. by injection Hc as <-. }
  rewrite Hcount, Z.sub_0_r in Hj.
  exists c. split; [|done]. exists x, off, rem, size, hs, ss, j. done.
Qed.

Lemma verify_kek_true s d n s' :
  storage_wf (au_store s) -> verify_kek d n s = Ok (true, s') ->
  exists p cert, pkcs7_from_auth (Some (au_data s)) = Ok (Some p) /\
    kek_trusts s cert /\ verified_by p cert d n.
Proof.
  intros Hs. unfold verify_kek. unfold bind at 1.
  rewrite find_variable_stored by (done || cbn; lia).
  change (stored s _ _ _) with (stored_KEK s).
  destruct (stored_KEK s) as [x|] eqn:Ex; [|done].
  intros (p & s1 & [Hp ->]%with_data_object_inv & Hr)%bind_inv.
  destruct p as [p|]; [|done]. destruct (_ >? 0); [|done]. cbn [block_of] in Hr.
  apply bind_inv in Hr as (b & s1 & [[= <-] ->]%mlift_inv & [Hr _]%mlift_inv).
  eapply verify_kek_lists_true in Hr as (cert & Ht & Hv); [|done|constructor].
  by exists p, cert.
Qed.

(** ** Verified updates *)

(** The certificates that [verify_time_based_payload] accepts for a kind of
    variable; [off] is where the payload starts. *)
Definition trusts (ty : auth_var_t) (s : auth_state) (n : bytes) (sz : Z) (g : EFI_GUID)
    (off : Z) (p : PKCS7) (cert : X509) : Prop :=
  match ty with
  | AUTH_VAR_TYPE_PK => pk_trusts s p cert
  | AUTH_VAR_TYPE_KEK => kek_trusts s cert
  | AUTH_VAR_TYPE_PRIV => priv_trusts s n sz g p cert
  | AUTH_VAR_TYPE_PAYLOAD => payload_trusts s off cert
  end.

(** The data object of [s] is an update of the variable, at a time later than
    [org] (unless it appends), signed by a certificate accepted for its kind:
    the signature is on the name, GUID, attributes, time stamp and payload. *)
Record verified_update (ty : auth_var_t) (s : auth_state) (n : bytes) (sz : Z) (g : EFI_GUID)
    (data_size attrs : Z) (org : option EFI_TIME) (off size : Z) : Prop := {
  vu_time : exists t, auth_TimeStamp (au_data s) = Ok t /\ timestamp_invalid t = false /\
    (forall o, org = Some o -> has attrs EFI_VARIABLE_APPEND_WRITE = false ->
      auth_internal_compare_timestamp t o = false);
  vu_type : auth_wCertificateType (au_data s) = Ok WIN_CERT_TYPE_EFI_GUID /\
            auth_CertType (au_data s) = Ok gEfiCertPkcs7Guid;
  vu_payload : exists sig_size, auth_sig_data_size (au_data s) = Ok sig_size /\
    off = 40 + sig_size /\ size = u64 (data_size - 40 - sig_size);
  vu_signed : exists content content_size p cert,
    build_new_data (au_data s) n g attrs off size = Ok (Some (content, content_size)) /\
    pkcs7_from_auth (Some (au_data s)) = Ok (Some p) /\
    trusts ty s n sz g off p cert /\ verified_by p cert content content_size;
  vu_format : check_signature_list_format n g (au_data s) off size = Ok EFI_SUCCESS
}.


Lemma or_else_false a b : or_else a b = Ok false -> a = Ok false /\ b = Ok false.
Proof. intros ([] & Ha & Hb)%obind_inv; [done|]. by rewrite Ha. Qed.

Lemma not_equal_false {A} (o : outcome A) (f : A -> bool) :
  (let* x := o in Ok (negb (f x))) = Ok false -> exists x, o = Ok x /\ f x = true.
Proof. intros (x & Hx & [= Hf])%obind_inv. exists x. by apply negb_false_iff in Hf. Qed.

Lemma keeps_verify_type (ty : auth_var_t) off n sz g d m :
  keeps (match ty with
         | AUTH_VAR_TYPE_PK => verify_pk d m
         | AUTH_VAR_TYPE_PAYLOAD => verify_payload off d m
         | AUTH_VAR_TYPE_KEK => verify_kek d m
         | AUTH_VAR_TYPE_PRIV => verify_priv n sz g d m
         end).
Proof. destruct ty; eauto with uefi. Qed.

Lemma verify_type_true ty s off n sz g d (m : Z) s' :
  storage_wf (au_store s) -> 2 <= sz -> sz <= zlen n -> zlen g = 16 ->
  match ty with
  | AUTH_VAR_TYPE_PK => verify_pk d m
  | AUTH_VAR_TYPE_PAYLOAD => verify_payload off d m
  | AUTH_VAR_TYPE_KEK => verify_kek d m
  | AUTH_VAR_TYPE_PRIV => verify_priv n sz g d m
  end s = Ok (true, s') ->
  exists p cert, pkcs7_from_auth (Some (au_data s)) = Ok (Some p) /\
    trusts ty s n sz g off p cert /\ verified_by p cert d m.
Proof.
  intros Hs Hsz Hn Hg. destruct ty; cbn [trusts].
  - by apply verify_pk_true.
  - by apply verify_kek_true.
  - by apply verify_priv_true.
  - apply verify_payload_true.
Qed.

(** [verify_time_based_payload] gives a payload only for a verified update. *)
Lemma verify_ok s n sz g data_size attrs ty org st off size s' :
  storage_wf (au_store s) -> 2 <= sz -> sz <= zlen n -> zlen g = 16 ->
  verify_time_based_payload n sz g data_size attrs ty org s = Ok ((st, Some (off, size)), s') ->
  st = EFI_SUCCESS /\ verified_update ty s n sz g data_size attrs org off size.
Proof.
  intros Hs Hsz Hn Hg. unfold verify_time_based_payload. unfold bind at 1, mget.
  intros (t & s1 & [Ht ->]%mlift_inv & Hr)%bind_inv.
  destruct (timestamp_invalid t) eqn:Hti; [done|].
  match type of Hr with context [if ?c then _ else _] => destruct c eqn:Horg; [done|] end.
  apply bind_inv in Hr as (c & s1 & [Hc ->]%mlift_inv & Hr). destruct c; [done|].
  apply or_else_false in Hc as [Hct Hcg].
  apply not_equal_false in Hct as (ct & Hct & ->%Z.eqb_eq).
  apply not_equal_false in Hcg as (cg & Hcg & ->%compare_guid_spec).
  apply bind_inv in Hr as (sig_size & s1 & [Hsig ->]%mlift_inv & Hr).
  apply bind_inv in Hr as ([w wn] & s1 & [_ ->]%mlift_inv & Hr).
  destruct w as [w|]; [|done].
  apply bind_inv in Hr as (wrong & s1 & Hw & Hr).
  assert (s1 = s) as -> by (destruct (has attrs EFI_VARIABLE_TIME_BASED_AUTHENTICATED_WRITE_ACCESS);
    [by apply mlift_inv in Hw as [_ ->]|unfold ret in Hw; congruence]).
  destruct wrong; [done|].
  apply bind_inv in Hr as (built & s1 & [Hb ->]%mlift_inv & Hr).
  destruct built as [[content content_size]|]; [|done].
  apply bind_inv in Hr as (ok & s1 & Hv & Hr).
  pose proof (keeps_verify_type _ _ _ _ _ _ _ _ _ _ Hv) as ->.
  destruct ok; cbn [negb] in Hr; cycle 1.
  { by apply bind_inv in Hr as (q & s1 & _ & [= ]). }
  apply verify_type_true in Hv as (p & cert & Hp & Htr & Hver); [|done..].
  apply bind_inv in Hr as (st' & s1 & [Hf ->]%mlift_inv & Hr).
  destruct (st' =? EFI_SUCCESS) eqn:Est; cbn [negb] in Hr; [|done].
  apply Z.eqb_eq in Est as ->. injection Hr as <- <- <- <-.
  split; [done|]. constructor.
  - exists t. split_and!; [done..|]. intros o -> Ha. by rewrite Ha in Horg.
  - done.
  - by exists sig_size.
  - exists content, content_size, p, cert. done.
  - done.
Qed.

(** Without a payload the status is an error. *)
Definition refuses {T} (m : M auth_state (EFI_STATUS * option T)) : Prop :=
  forall s st s', m s = Ok ((st, None), s') -> st <> EFI_SUCCESS.

Lemma refuses_bind {T A} (m : M auth_state A) (k : A -> M auth_state (EFI_STATUS * option T)) :
  (forall a, refuses (k a)) -> refuses (bind m k).
Proof. intros Hk s st s' (a & s1 & _ & Hr)%bind_inv. by eapply Hk. Qed.
Lemma refuses_ret_some {T} st (x : T) : refuses (ret (st, Some x)).
Proof. by intros s st' s' [=]. Qed.
Lemma refuses_ret_none {T} st : st <> EFI_SUCCESS -> refuses (T := T) (ret (st, None)).
Proof. by intros Hst s st' s' [= <- _]. Qed.

Lemma verify_refuses n sz g data_size attrs ty org :
  refuses (verify_time_based_payload n sz g data_size attrs ty org).
Proof.
  unfold verify_time_based_payload.
  repeat (first [apply refuses_bind; intros ? | apply refuses_ret_some
                | apply refuses_ret_none; first [done|by apply Z.eqb_neq, negb_true_iff]
                | progress cbv zeta | case_match]).
Qed.

End trust.
