(* ===== verification/AuthSecurity.v ===== *)
(** * Authenticated variables: the security properties

    In user mode a key variable changes only through an update signed by the
    platform key (or, for the signature databases, by a key exchange key); a
    private variable only through an update of its first signer; time stamps
    only grow; the platform mode follows the enrolment of the PK. *)
From S2P Require Import Prelude EfiTypes Common UefiVariable Storage StorageInv StorageSpec.
From S2P Require Import Crypto SigList Auth AuthSamples AuthSpec.

Section updates.
Context `{Allocator} `{OpenSSL}.

(** [verify_time_based_payload_and_update] changes nothing and reports an error,
    or the data object is a verified update. *)
Lemma update_verified s n sz g data_size attrs ty st del s' :
  storage_wf (au_store s) -> 2 <= sz -> sz <= zlen n -> zlen g = 16 ->
  verify_time_based_payload_and_update n sz g data_size attrs ty s = Ok ((st, del), s') ->
  (s' = s /\ st <> EFI_SUCCESS /\ del = None) \/
  exists off size,
    verified_update ty s n sz g data_size attrs (val_time <$> stored s n sz g) off size.
Proof.
  intros Hs Hsz Hn Hg. unfold verify_time_based_payload_and_update.
  destruct (get_var_ptr_stored s n sz g) as (r & Hrun & Hx); [done || lia..|].
  unfold bind at 1. rewrite Hrun. destruct r as [fst_ var].
  unfold bind at 1, mget.
  intros (ts & s1 & Hts & Hr)%bind_inv.
  assert (s1 = s /\ ts = val_time <$> stored s n sz g) as [-> ->].
  { destruct (stored s n sz g) as [x|].
    - destruct Hx as (i & v & [= -> ->] & Hi & _ & _ & ->).
      unfold bind, mlift, ret in Hts. rewrite (slot_at_ok _ _ _ Hi) in Hts. by injection Hts as <- <-.
    - injection Hx as -> ->. by injection Hts as <- <-. }
  apply bind_inv in Hr as ([st1 payload] & s1 & Hv & Hr).
  pose proof (keeps_verify _ _ _ _ _ _ _ _ _ _ Hv) as ->.
  destruct payload as [[off size]|]; cycle 1.
  { pose proof (verify_refuses _ _ _ _ _ _ _ _ _ _ Hv). injection Hr as <- <- <-. by left. }
  right. apply verify_ok in Hv as [_ Hvu]; [|done..]. by exists off, size.
Qed.

(** Names that PK, KEK and the databases go by. *)
Definition named (n str : bytes) : Prop := strcmp16 (Some n) (Some str) = Ok 0.

Definition is_key_variable (n : bytes) (g : EFI_GUID) : Prop :=
  (g = gEfiGlobalVariableGuid /\
     (named n EFI_PLATFORM_KEY_NAME \/ named n EFI_KEY_EXCHANGE_KEY_NAME)) \/
  (g = gEfiImageSecurityDatabaseGuid /\
     (named n EFI_IMAGE_SECURITY_DATABASE \/ named n EFI_IMAGE_SECURITY_DATABASE1 \/
      named n EFI_IMAGE_SECURITY_DATABASE2)).

(** An unsuccessful platform mode change after a PK update leaves a status; the
    verification is what matters here. *)
Lemma process_var_with_pk_user s n sz g data_size attrs is_pk st s' :
  storage_wf (au_store s) -> 2 <= sz -> sz <= zlen n -> zlen g = 16 ->
  setup_mode s = USER_MODE ->
  process_var_with_pk n sz g data_size attrs is_pk s = Ok (st, s') ->
  (s' = s /\ st <> EFI_SUCCESS) \/
  exists off size, verified_update AUTH_VAR_TYPE_PK s n sz g data_size attrs
                     (val_time <$> stored s n sz g) off size.
Proof.
  intros Hs Hsz Hn Hg Hm. unfold process_var_with_pk.
  destruct (key_attrs_missing attrs); [by intros [= <- <-]; left|].
  unfold bind at 1, mget. rewrite Hm. cbn [Z.eqb USER_MODE SETUP_MODE].
  intros ([st1 del] & s1 & Hv & Hr)%bind_inv.
  apply bind_inv in Hv as ([st2 del2] & s2 & Hv & Hv2). injection Hv2 as -> <- ->.
  apply update_verified in Hv as [(-> & Hst & ->)|Hv]; [|by right|done..].
  left. rewrite (proj2 (Z.eqb_neq _ _) Hst) in Hr. by injection Hr as <- <-.
Qed.

Lemma process_var_with_kek_user s n sz g data_size attrs st s' :
  storage_wf (au_store s) -> 2 <= sz -> sz <= zlen n -> zlen g = 16 ->
  setup_mode s = USER_MODE ->
  process_var_with_kek n sz g data_size attrs s = Ok (st, s') ->
  (s' = s /\ st <> EFI_SUCCESS) \/
  exists off size, verified_update AUTH_VAR_TYPE_KEK s n sz g data_size attrs
                     (val_time <$> stored s n sz g) off size.
Proof.
  intros Hs Hsz Hn Hg Hm. unfold process_var_with_kek.
  destruct (key_attrs_missing attrs); [by intros [= <- <-]; left|].
  unfold bind at 1, mget. rewrite Hm. cbn [Z.eqb USER_MODE].
  intros ([st1 del] & s1 & Hv & [= <- <-])%bind_inv.
  apply update_verified in Hv as [(-> & Hst & _)|Hv]; [|by right|done..]. by left.
Qed.

Lemma guids_differ : gEfiImageSecurityDatabaseGuid <> gEfiGlobalVariableGuid.
Proof. by vm_compute. Qed.

(** The dispatch on the name, for a key variable. *)
Lemma auth_lib_process_key s n sz g data_size attrs st s' :
  is_key_variable n g ->
  auth_lib_process_variable n sz g data_size attrs s = Ok (st, s') ->
  (exists is_pk, process_var_with_pk n sz g data_size attrs is_pk s = Ok (st, s')) \/
  (g = gEfiImageSecurityDatabaseGuid /\
   exists st1 s1, process_var_with_pk n sz g data_size attrs false s = Ok (st1, s1) /\
     st1 <> EFI_SUCCESS /\ process_var_with_kek n sz g data_size attrs s1 = Ok (st, s')).
Proof.
  intros Hkey. unfold auth_lib_process_variable.
  intros (pk & s1 & [Hpk ->]%mlift_inv & Hr)%bind_inv.
  destruct pk; [by left; exists true|].
  apply bind_inv in Hr as (kek & s1 & [Hkek ->]%mlift_inv & Hr).
  destruct kek; [by left; exists false|].
  apply bind_inv in Hr as (db & s1 & [Hdb ->]%mlift_inv & Hr).
  destruct Hkey as [[-> Hk]|[-> Hk]].
  { rewrite (proj2 (compare_guid_spec _ _) eq_refl) in Hpk, Hkek. unfold named in Hk.
    destruct Hk as [Hk|Hk]; rewrite Hk in *; done. }
  rewrite (proj2 (compare_guid_spec _ _) eq_refl) in Hdb. unfold named in Hk.
  destruct db; cycle 1.
  { exfalso. apply or_else_false in Hdb as [H1 [H2 H3]%or_else_false].
    destruct Hk as [Hk|[Hk|Hk]]; rewrite Hk in *; done. }
  apply bind_inv in Hr as (st1 & s1 & Hpkrun & Hr).
  destruct (st1 =? EFI_SUCCESS) eqn:E; cbn [negb] in Hr.
  - left. exists false. injection Hr as <- <-. apply Z.eqb_eq in E as ->. done.
  - right. split; [done|]. exists st1, s1. by apply Z.eqb_neq in E.
Qed.

(** C7: In user mode nobody changes the platform keys without a signature.
    Whatever the data object holds, when [auth_lib_process_variable] returns
    for PK, KEK, db, dbx or dbt, either it reports an error and nothing has
    changed, or the object is an update whose signature, over this name, GUID,
    attributes, time stamp and payload, OpenSSL verified against the enrolled
    PK certificate (for db, dbx and dbt possibly against a certificate of the
    stored KEK), with a time stamp later than the stored one unless it
    appends, and with a well-formed signature list. *)
Theorem user_mode_key_update_signed (s : auth_state) (n : bytes) (sz : Z) (g : EFI_GUID)
    (data_size attrs : Z) (st : EFI_STATUS) (s' : auth_state) :
  storage_wf (au_store s) -> 2 <= sz -> sz <= zlen n -> zlen g = 16 ->
  setup_mode s = USER_MODE -> is_key_variable n g ->
  auth_lib_process_variable n sz g data_size attrs s = Ok (st, s') ->
  (s' = s /\ st <> EFI_SUCCESS) \/
  exists ty off size,
    (ty = AUTH_VAR_TYPE_PK \/ (ty = AUTH_VAR_TYPE_KEK /\ g = gEfiImageSecurityDatabaseGuid)) /\
    verified_update ty s n sz g data_size attrs (val_time <$> stored s n sz g) off size.
Proof.
  intros Hs Hsz Hn Hg Hm Hkey Hr.
  apply auth_lib_process_key in Hr as [[is_pk Hr]|(Hdb & st1 & s1 & Hpk & Hne & Hr)];
    [| |done].
  - apply process_var_with_pk_user in Hr as [?|(off & size & Hv)]; [by left| |done..].
    right. exists AUTH_VAR_TYPE_PK, off, size. auto.
  - apply process_var_with_pk_user in Hpk as [[-> _]|(off & size & Hv)]; [| |done..]; cycle 1.
    { right. exists AUTH_VAR_TYPE_PK, off, size. auto. }
    apply process_var_with_kek_user in Hr as [?|(off & size & Hv)]; [by left| |done..].
    right. exists AUTH_VAR_TYPE_KEK, off, size. auto.
Qed.

End updates.

Lemma user_mode_key_update_signed_witness :
  exists s',
    @auth_lib_process_variable zero_allocator toy_openssl EFI_KEY_EXCHANGE_KEY_NAME 6
      gEfiGlobalVariableGuid 86 key_attrs (user_state (signed_AA time_2 list_AA))
      = Ok (EFI_SUCCESS, s') /\
    ((s' = user_state (signed_AA time_2 list_AA) /\ EFI_SUCCESS <> EFI_SUCCESS) \/
     exists ty off size,
       (ty = AUTH_VAR_TYPE_PK \/
        (ty = AUTH_VAR_TYPE_KEK /\ gEfiGlobalVariableGuid = gEfiImageSecurityDatabaseGuid)) /\
       @verified_update zero_allocator toy_openssl ty (user_state (signed_AA time_2 list_AA))
         EFI_KEY_EXCHANGE_KEY_NAME 6 gEfiGlobalVariableGuid 86 key_attrs
         (val_time <$> stored (user_state (signed_AA time_2 list_AA))
            EFI_KEY_EXCHANGE_KEY_NAME 6 gEfiGlobalVariableGuid) off size).
Proof.
  destruct (succeeds_run _ _ kek_update_succeeds) as [s' Hrun]. exists s'. split; [exact Hrun|].
  apply (@user_mode_key_update_signed zero_allocator toy_openssl
           (user_state (signed_AA time_2 list_AA)) EFI_KEY_EXCHANGE_KEY_NAME 6
           gEfiGlobalVariableGuid 86 key_attrs EFI_SUCCESS s');
    [exact (si_wf _ store_PK_inv)|lia|vm_compute; discriminate|reflexivity|reflexivity| |exact Hrun].
  left. split; [reflexivity|]. right. reflexivity.
Defined.

(** ** Time stamps only grow *)

(** A time as a number; the fields that shall be zero are left out. *)
Definition time_key (t : EFI_TIME) : Z :=
  ((((Year t * 256 + Month t) * 256 + Day t) * 256 + Hour t) * 256 + Minute t) * 256 + Second t.

Lemma compare_timestamp_key t o :
  time_ok t -> time_ok o ->
  auth_internal_compare_timestamp t o = (time_key t <=? time_key o).
Proof.
  intros (A1 & A2 & A3 & A4 & A5 & A6 & _) (B1 & B2 & B3 & B4 & B5 & B6 & _).
  unfold auth_internal_compare_timestamp, time_key.
  repeat match goal with
  | |- context [negb (?x =? ?y)] => destruct (Z.eqb_spec x y) as [->|]; cbn [negb]
  end;
  apply eq_true_iff_eq; rewrite ?Z.ltb_lt, ?Z.leb_le; lia.
Qed.

Lemma read_le_range n src off x : read_le n src off = Ok x -> 0 <= x < 256 ^ Z.of_nat n.
Proof.
  intros (b & Hb & [= <-])%obind_inv. apply read_bytes_inv in Hb as (_ & _ & _ & _ & Hl).
  pose proof (le_decode_range b) as R. replace (length b) with n in R; [done|].
  unfold zlen in Hl. lia.
Qed.

Lemma read_time_ok src off t : read_time src off = Ok t -> time_ok t.
Proof.
  unfold read_time. intros Hr.
  repeat match type of Hr with
  | obind _ _ = _ =>
      let x := fresh "x" in let Hx := fresh "Hx" in
      apply obind_inv in Hr as (x & Hx & Hr); apply read_le_range in Hx
  end.
  injection Hr as <-. unfold time_ok; cbn [Year Month Day Hour Minute Second Pad1 Nanosecond
    TimeZone Daylight Pad2].
  repeat split; lia.
Qed.

Section growth.
Context `{Allocator} `{OpenSSL}.

(** The content of the signature can only be built from a payload that lies in
    the data object. *)
Lemma build_new_data_payload a n g at_ off size r :
  build_new_data a n g at_ off size = Ok (Some r) -> 0 <= off /\ 0 <= size /\ off + size <= zlen a.
Proof.
  unfold build_new_data. intros (nsz & _ & Hr)%obind_inv.
  destruct (malloc _) as [b|]; [|done].
  apply obind_inv in Hr as (len & _ & Hr).
  do 4 apply obind_inv in Hr as (? & _ & Hr).
  apply obind_inv in Hr as (d & Hd & _). unfold memcpy in Hd.
  apply obind_inv in Hd as (p & Hp & _). apply read_bytes_inv in Hp as (? & ? & ? & _). done.
Qed.

(** Without the append bit, or for a variable whose appends are not filtered, the
    update is the store's. *)
Definition unfiltered (n : bytes) (sz : Z) (g : EFI_GUID) (attrs : Z) : Prop :=
  has attrs EFI_VARIABLE_APPEND_WRITE = false \/
  forall v, live_wf v -> var_key v = arg_key n sz g -> is_signature_list_var v = Ok false.

Lemma update_with_timestamp_plain s n sz g off size attrs :
  storage_wf (au_store s) -> 2 <= sz -> sz <= zlen n -> zlen g = 16 ->
  unfiltered n sz g attrs ->
  auth_internal_update_variable_with_timestamp n sz g off size attrs s
  = (timestamp <- mlift (auth_TimeStamp (au_data s)) ;;
     on_store (storage_set_with_timestamp (Some n) sz (Some g)
                 (Some (drop (Z.to_nat off) (au_data s))) size attrs (Some timestamp))) s.
Proof.
  intros Hs Hsz Hn Hg Ha. unfold auth_internal_update_variable_with_timestamp.
  destruct (get_var_ptr_stored s n sz g) as ([st var] & Hrun & Hx); [done || lia..|].
  unfold bind at 1. rewrite Hrun. unfold bind at 1, mget. cbv zeta.
  destruct var as [i|]; [|done].
  destruct (has attrs EFI_VARIABLE_APPEND_WRITE) eqn:Ea; [|done].
  destruct Ha as [Ha|Ha]; [congruence|].
  destruct (stored s n sz g) as [x|]; [|done].
  destruct Hx as (j & v & [= -> ->] & Hi & Hv & Hk & _).
  unfold bind at 1, mlift. rewrite (slot_at_ok _ _ _ Hi).
  unfold bind at 1. by rewrite (Ha v Hv Hk).
Qed.

(** The digest of an update is written to the slot of the variable. *)
Lemma set_slot_cert_ok s i v d :
  variables (au_store s) !! i = Some v -> live_wf v -> zlen d = 32 ->
  set_slot_cert i d s = Ok (tt, set_store (set_slot i (with_cert d v) (au_store s)) s).
Proof.
  intros Hi Hv Hd. unfold set_slot_cert, bind, mget, mlift, mmodify.
  rewrite (slot_at_ok _ _ _ Hi), write_bytes_full; [done|]. by rewrite (lw_cert _ Hv).
Qed.

Lemma with_cert_live d v : live_wf v -> zlen d = 32 -> live_wf (with_cert d v).
Proof. by intros [] Hd; constructor; cbn. Qed.

Lemma sha256_from_auth_some a st d :
  sha256_from_auth a = Ok (st, Some d) -> st = EFI_SUCCESS /\ zlen d = 32.
Proof.
  unfold sha256_from_auth. intros (p & _ & Hr)%obind_inv. destruct p as [p|]; [|done].
  apply obind_inv in Hr as (r & Hr & Hr2). destruct r as [[c dg]|]; [|done].
  injection Hr2 as <- <-. by apply signers_digest_some in Hr as (_ & _ & _ & _ & ?).
Qed.
Lemma sha256_from_auth_none a st : sha256_from_auth a = Ok (st, None) -> st <> EFI_SUCCESS.
Proof.
  unfold sha256_from_auth. intros (p & _ & Hr)%obind_inv. destruct p as [p|].
  - apply obind_inv in Hr as (r & _ & Hr). destruct r as [[]|]; [done|]. by injection Hr as <-.
  - by injection Hr as <-.
Qed.

(** What the store holds under the key after a time-stamped set that does not
    append: nothing, or a value with that time stamp. *)
Lemma spec_timestamp_set k data attrs t m st m' x :
  has attrs EFI_VARIABLE_APPEND_WRITE = false ->
  spec_set_with_timestamp k data attrs t m = (st, m') -> m' !! k = Some x -> val_time x = t.
Proof.
  intros Ha. unfold spec_set_with_timestamp.
  destruct (spec_set k data attrs m) as [st1 m1] eqn:E.
  destruct (is_delete attrs (zlen data)) eqn:Ed.
  - intros [= <- <-] Hx. exfalso. revert E. unfold spec_set. rewrite Ha, andb_true_r.
    unfold is_delete in Ed. rewrite Ed. unfold spec_remove.
    destruct (m !! k) eqn:Em; intros [= _ <-]; [by rewrite lookup_delete_eq in Hx|congruence].
  - destruct (m1 !! k) as [y|] eqn:Ey; [|intros [= _ <-]; congruence].
    intros [= _ <-]. rewrite lookup_insert_eq. by intros [= <-].
Qed.

(** The abstract effect of a verified update on the store: the time-stamped set,
    and for a variable that stays the digest of its signer; [digest] is what
    [sha256_from_auth] answers.  The status, the deletion flag, the map. *)
Definition with_val_cert (d : bytes) (x : value) : value :=
  mk_value (val_attrs x) (val_data x) (val_time x) d.

Definition spec_update (k : key) (payload : bytes) (attrs : Z) (t : EFI_TIME) (is_del : bool)
    (digest : EFI_STATUS * option bytes) (m : var_map) : EFI_STATUS * option bool * var_map :=
  let '(st, m') := spec_set_with_timestamp k payload attrs t m in
  if (st =? EFI_SUCCESS) && negb is_del then
    match m' !! k with
    | None => (EFI_NOT_FOUND, None, m')
    | Some x =>
        match digest with
        | (st', None) => (st', None, m')
        | (st', Some d) => (st', Some false, <[k := with_val_cert d x]> m')
        end
    end
  else (st, Some (is_del && (st =? EFI_SUCCESS)), m').

(** The update of [verify_time_based_payload_and_update], after the
    verification. *)
Definition apply_update (n : bytes) (sz : Z) (g : EFI_GUID) (off size attrs : Z)
    (is_del : bool) : M auth_state (EFI_STATUS * option bool) :=
  status <- auth_internal_update_variable_with_timestamp n sz g off size attrs ;;
  if (status =? EFI_SUCCESS) && negb is_del then
    '(status, var) <- on_store (storage_get_var_ptr (Some n) sz (Some g)) ;;
    match var with
    | None => ret (status, None)
    | Some i =>
        '(status, digest) <- with_data_object sha256_from_auth ;;
        match digest with
        | None => ret (status, None)
        | Some d =>
            set_slot_cert i d ;;
            ret (status, Some (is_del && (status =? EFI_SUCCESS)))
        end
    end
  else ret (status, Some (is_del && (status =? EFI_SUCCESS))).

Lemma set_store_again st1 st2 s : set_store st2 (set_store st1 s) = set_store st2 s.
Proof. done. Qed.

Lemma apply_update_refines s n sz g off size attrs t is_del st del s' :
  grants MAX_VARIABLE_DATA_SIZE -> storage_inv (au_store s) -> canonical_name n sz ->
  zlen g = 16 -> 0 <= attrs < 0x100000000 -> unfiltered n sz g attrs ->
  0 <= off -> 0 <= size <= MAX_VARIABLE_DATA_SIZE -> off + size <= zlen (au_data s) ->
  auth_TimeStamp (au_data s) = Ok t ->
  apply_update n sz g off size attrs is_del s = Ok ((st, del), s') ->
  storage_inv (au_store s') /\ s' = set_store (au_store s') s /\
  exists digest,
    match digest with
    | (_, Some _) => sha256_from_auth (au_data s) = Ok digest
    | (st', None) => st' <> EFI_SUCCESS
    end /\
    (st, del, abs (variables (au_store s')))
    = spec_update (arg_key n sz g) (take (Z.to_nat size) (drop (Z.to_nat off) (au_data s)))
        attrs t is_del digest (abs (variables (au_store s))).
Proof.
  intros G Hs Hc Hg Ha Happ Hoff Hsize Hin Ht.
  destruct (cn_arg _ _ Hc) as [Hsz Ho _]. unfold apply_update.
  unfold bind at 1. rewrite update_with_timestamp_plain by (apply Hs || done || lia).
  unfold bind at 1, mlift. rewrite Ht. unfold on_store at 1, mzoom.
  destruct (storage_set_with_timestamp_refines (au_store s) n sz g
              (drop (Z.to_nat off) (au_data s)) size attrs t)
    as (st1 & store1 & -> & Hinv & Hspec & _); try done; [zlia|by eapply read_time_ok|].
  set (s1 := set_store store1 s). unfold spec_update. rewrite <-Hspec.
  destruct ((st1 =? EFI_SUCCESS) && negb is_del) eqn:Eb; cycle 1.
  { intros [= <- <- <-]. split_and!; [done|done|]. by exists (EFI_DEVICE_ERROR, None). }
  apply andb_true_iff in Eb as [_ Ed%negb_true_iff]. rewrite Ed.
  destruct (get_var_ptr_stored s1 n sz g) as ([st2 var] & Hrun & Hx); [apply Hinv|lia|done..|].
  unfold bind at 1. rewrite Hrun. unfold stored in Hx. cbn [au_store s1 set_store] in Hx.
  destruct (abs (variables store1) !! arg_key n sz g) as [x|] eqn:Ex; cycle 1.
  { injection Hx as -> ->. intros [= <- <- <-]. split_and!; [done|done|].
    by exists (EFI_DEVICE_ERROR, None). }
  destruct Hx as (i & v & [= -> ->] & Hi & Hv & Hk & ->).
  intros ([st3 digest] & s3 & [Hd ->]%with_data_object_inv & Hr)%bind_inv.
  destruct digest as [d|]; cycle 1.
  { injection Hr as <- <- <-. split_and!; [done|done|].
    pose proof (sha256_from_auth_none _ _ Hd). by exists (st3, None). }
  pose proof (sha256_from_auth_some _ _ _ Hd) as [-> Hdl].
  unfold bind in Hr. rewrite (set_slot_cert_ok s1 _ _ _ Hi Hv Hdl) in Hr.
  injection Hr as <- <- <-. split_and!; [|done|].
  - apply (set_slot_inv _ _ v); [done|done|by apply live_wf_live|by apply with_cert_live| |done].
    destruct (slot_canonical_live _ _ _ Hinv Hi (live_wf_live _ Hv)). by constructor.
  - exists (EFI_SUCCESS, Some d). split; [done|].
    cbn [au_store set_store variables set_slot set_variables s1].
    rewrite (abs_insert _ _ v); [|apply Hinv|done|by apply live_wf_live, with_cert_live|done|].
    + by rewrite <-Hk.
    + intros Hl. by rewrite (live_wf_live _ Hv) in Hl.
Qed.

Lemma spec_update_time k payload attrs t is_del digest m st del m' x :
  has attrs EFI_VARIABLE_APPEND_WRITE = false ->
  spec_update k payload attrs t is_del digest m = (st, del, m') -> m' !! k = Some x ->
  val_time x = t.
Proof.
  intros Ha. unfold spec_update.
  destruct (spec_set_with_timestamp k payload attrs t m) as [st1 m1] eqn:E.
  pose proof (fun y => spec_timestamp_set _ _ _ _ _ _ _ y Ha E) as Hy.
  destruct (_ && _); [|by intros [= _ _ <-]; apply Hy].
  destruct (m1 !! k) as [y|] eqn:Ey; [|intros [= _ _ <-]; congruence].
  destruct digest as [st2 [d|]]; intros [= _ _ <-] Hx.
  - rewrite lookup_insert_eq in Hx. injection Hx as <-. by apply (Hy y).
  - apply Hy. congruence.
Qed.

(** A successful run is a verified update followed by its application. *)
Lemma update_success s n sz g data_size attrs ty del s' :
  storage_inv (au_store s) -> 2 <= sz -> sz <= zlen n -> zlen g = 16 ->
  zlen (au_data s) <= MAX_VARIABLE_DATA_SIZE ->
  verify_time_based_payload_and_update n sz g data_size attrs ty s
    = Ok ((EFI_SUCCESS, del), s') ->
  exists off size,
    verified_update ty s n sz g data_size attrs (val_time <$> stored s n sz g) off size /\
    0 <= off /\ 0 <= size <= MAX_VARIABLE_DATA_SIZE /\ off + size <= zlen (au_data s) /\
    (forall x, stored s n sz g = Some x -> time_ok (val_time x)) /\
    apply_update n sz g off size attrs
      (bool_decide (is_Some (stored s n sz g)) && (size =? 0)
       && negb (has attrs EFI_VARIABLE_APPEND_WRITE)) s = Ok ((EFI_SUCCESS, del), s').
Proof.
  intros Hs Hsz Hn Hg Hlen. unfold verify_time_based_payload_and_update.
  destruct (get_var_ptr_stored s n sz g) as ([fst_ var] & Hrun & Hx); [apply Hs|lia|done..|].
  unfold bind at 1. rewrite Hrun. unfold bind at 1, mget.
  intros (ts & s1 & Hts & Hr)%bind_inv.
  assert (s1 = s /\ ts = val_time <$> stored s n sz g /\
          (fst_ =? EFI_SUCCESS) = bool_decide (is_Some (stored s n sz g)) /\
          forall x, stored s n sz g = Some x -> time_ok (val_time x)) as (-> & -> & Hf & Hok).
  { destruct (stored s n sz g) as [x|].
    - destruct Hx as (i & v & [= -> ->] & Hi & Hv & _ & ->).
      unfold bind, mlift, ret in Hts. rewrite (slot_at_ok _ _ _ Hi) in Hts.
      injection Hts as <- <-. split_and!; [done..|]. intros ? [= <-]. apply Hv.
    - injection Hx as -> ->. by injection Hts as <- <-. }
  apply bind_inv in Hr as ([st1 payload] & s1 & Hv & Hr).
  pose proof (keeps_verify _ _ _ _ _ _ _ _ _ _ Hv) as ->.
  destruct payload as [[off size]|]; cycle 1.
  { apply verify_refuses in Hv. unfold ret in Hr. congruence. }
  apply verify_ok in Hv as [_ Hvu]; [|apply Hs|lia|done..].
  destruct (vu_signed _ _ _ _ _ _ _ _ _ _ Hvu) as (content & csize & p & cert & Hb & _).
  apply build_new_data_payload in Hb as (Hoff & Hsize & Hin).
  exists off, size. rewrite <-Hf. split_and!; try done; lia.
Qed.

(** C12: Replay protection.  When a non-appending authenticated update of any
    variable succeeds, its time stamp is strictly later than the stored one,
    and whatever the store then holds under the key carries the new time
    stamp; so an accepted update is never accepted again. *)
Theorem timestamps_grow (s : auth_state) (n : bytes) (sz : Z) (g : EFI_GUID)
    (data_size attrs : Z) (ty : auth_var_t) (del : option bool) (s' : auth_state) :
  grants MAX_VARIABLE_DATA_SIZE -> storage_inv (au_store s) -> canonical_name n sz ->
  zlen g = 16 -> 0 <= attrs < 0x100000000 -> has attrs EFI_VARIABLE_APPEND_WRITE = false ->
  zlen (au_data s) <= MAX_VARIABLE_DATA_SIZE ->
  verify_time_based_payload_and_update n sz g data_size attrs ty s
    = Ok ((EFI_SUCCESS, del), s') ->
  exists t, auth_TimeStamp (au_data s) = Ok t /\
    (forall x, stored s n sz g = Some x -> time_key (val_time x) < time_key t) /\
    (forall x, stored s' n sz g = Some x -> val_time x = t) /\
    storage_inv (au_store s').
Proof.
  intros G Hs Hc Hg Ha Happ Hlen Hr. destruct (cn_arg _ _ Hc) as [Hsz Ho _].
  apply update_success in Hr as (off & size & Hvu & Hoff & Hsize & Hin & Hok & Hr); try done;
    [|lia].
  destruct (vu_time _ _ _ _ _ _ _ _ _ _ Hvu) as (t & Ht & _ & Hlater).
  pose proof (apply_update_refines _ _ _ _ _ _ _ _ _ _ _ _ G Hs Hc Hg Ha (or_introl Happ) Hoff
                Hsize Hin Ht Hr) as (Hinv & _ & digest & _ & Hspec).
  exists t. split_and!; [done| | |done].
  - intros x Hx. specialize (Hlater (val_time x)). rewrite Hx in Hlater.
    specialize (Hlater eq_refl Happ).
    rewrite compare_timestamp_key in Hlater; [|by eapply read_time_ok|by apply Hok].
    by apply Z.leb_gt in Hlater.
  - intros x Hx. by eapply spec_update_time.
Qed.

End growth.

Lemma timestamps_grow_witness :
  exists del s' t,
    @verify_time_based_payload_and_update zero_allocator toy_openssl EFI_PLATFORM_KEY_NAME 4
      gEfiGlobalVariableGuid 86 key_attrs AUTH_VAR_TYPE_PK
      (user_state (signed_AA time_2 list_AA)) = Ok ((EFI_SUCCESS, del), s') /\
    auth_TimeStamp (signed_AA time_2 list_AA) = Ok t /\
    (forall x, stored (user_state (signed_AA time_2 list_AA)) EFI_PLATFORM_KEY_NAME 4
                 gEfiGlobalVariableGuid = Some x -> time_key (val_time x) < time_key t) /\
    (forall x, stored s' EFI_PLATFORM_KEY_NAME 4 gEfiGlobalVariableGuid = Some x ->
               val_time x = t) /\
    storage_inv (au_store s').
Proof.
  destruct (status_of_run _ _ pk_update_succeeds) as (del & s' & Hrun). exists del, s'.
  destruct (@timestamps_grow zero_allocator toy_openssl
              (user_state (signed_AA time_2 list_AA)) EFI_PLATFORM_KEY_NAME 4
              gEfiGlobalVariableGuid 86 key_attrs AUTH_VAR_TYPE_PK del s')
    as (t & H1 & H2 & H3 & H4);
    [apply zero_allocator_grants|exact store_PK_inv|exact PK_name_ok|reflexivity
    |vm_compute; split; congruence|reflexivity|vm_compute; discriminate|exact Hrun|].
  exists t. exact (conj Hrun (conj H1 (conj H2 (conj H3 H4)))).
Defined.
