(* ===== verification/PlatformMode.v ===== *)
(** * Platform mode

    [update_platform_mode] publishes the mode in the variables SecureBoot,
    SetupMode and DeployedMode; enrolling the PK enters user mode and deleting
    it enters setup mode. *)
From S2P Require Import Prelude EfiTypes Common UefiVariable Storage StorageInv StorageSpec.
From S2P Require Import Crypto SigList Auth AuthSpec AuthSamples AuthSecurity.

(** A global variable's key. *)
Definition global_key (name : bytes) : key :=
  arg_key name (sizeof_wchar name) gEfiGlobalVariableGuid.

(** ** The abstract operation *)
Definition spec_mode (mode : Z) (sbe : bool) (m : var_map) : EFI_STATUS * var_map :=
  let set name value m := spec_set (global_key name) [byte_of_Z value] RT_BS_ATTRS m in
  let '(st, m) := set EFI_SECURE_BOOT_MODE_NAME
                    (if mode =? USER_MODE then Z.b2z sbe else 0) m in
  if negb (st =? EFI_SUCCESS) then (st, m)
  else
  let '(st, m) := set EFI_SETUP_MODE_NAME mode m in
  if negb (st =? EFI_SUCCESS) then (st, m)
  else set DEPLOYED_MODE_NAME (if mode =? SETUP_MODE then 1 else 0) m.

Lemma spec_set_success k data attrs m m' :
  has attrs EFI_VARIABLE_APPEND_WRITE = false -> attrs <> 0 -> data <> [] ->
  spec_set k data attrs m = (EFI_SUCCESS, m') ->
  exists x, m' = <[k := x]> m /\ val_data x = data /\
            val_attrs x = Z.ldiff attrs EFI_VARIABLE_APPEND_WRITE.
Proof.
  intros Ha Hz Hd. unfold spec_set. rewrite Ha, andb_true_r.
  rewrite (proj2 (Z.eqb_neq attrs 0)) by done.
  rewrite (proj2 (Z.eqb_neq (zlen data) 0)) by (intros ?%zlen_nil_inv; done). cbn [orb].
  destruct (m !! k) as [x|].
  - destruct (val_attrs x =? _) eqn:E; [|done]. apply Z.eqb_eq in E. cbn [negb updated_data].
    intros [= <-]. by eexists.
  - destruct (_ || _); [done|]. intros [= <-]. by eexists.
Qed.

Section mode.
Context `{Allocator} `{OpenSSL}.

(** One of the mode variables. *)
Lemma set_mode_variable s name b :
  grants MAX_VARIABLE_DATA_SIZE -> storage_inv (au_store s) ->
  canonical_name name (sizeof_wchar name) ->
  exists st s',
    on_store (storage_set (Some name) (sizeof_wchar name) (Some gEfiGlobalVariableGuid)
                (Some [b]) 1 RT_BS_ATTRS) s = Ok (st, s') /\
    storage_inv (au_store s') /\ s' = set_store (au_store s') s /\
    (st, abs (variables (au_store s')))
      = spec_set (global_key name) [b] RT_BS_ATTRS (abs (variables (au_store s))).
Proof.
  intros G Hs Hn. unfold on_store, mzoom.
  destruct (storage_set_refines (au_store s) name (sizeof_wchar name) gEfiGlobalVariableGuid
              [b] 1 RT_BS_ATTRS) as (st & st' & -> & Hinv & Hspec & _);
    [done|done|done|done|clia|done|by vm_compute|].
  eexists st, _. done.
Qed.

Lemma mode_names_ok :
  canonical_name EFI_SECURE_BOOT_MODE_NAME (sizeof_wchar EFI_SECURE_BOOT_MODE_NAME) /\
  canonical_name EFI_SETUP_MODE_NAME (sizeof_wchar EFI_SETUP_MODE_NAME) /\
  canonical_name DEPLOYED_MODE_NAME (sizeof_wchar DEPLOYED_MODE_NAME).
Proof. split_and!; by repeat constructor. Qed.

Lemma set_setup_mode_store m s : au_store (set_setup_mode m s) = au_store s.
Proof. done. Qed.

Lemma update_platform_mode_refines s mode :
  grants MAX_VARIABLE_DATA_SIZE -> storage_inv (au_store s) ->
  mode = USER_MODE \/ mode = SETUP_MODE ->
  exists st s',
    update_platform_mode mode s = Ok (st, s') /\ storage_inv (au_store s') /\
    s' = set_store (au_store s') (set_setup_mode mode s) /\
    (st, abs (variables (au_store s')))
      = spec_mode mode (secure_boot_enabled s) (abs (variables (au_store s))).
Proof.
  intros G Hs Hm. destruct mode_names_ok as (N1 & N2 & N3).
  unfold update_platform_mode.
  assert (Hu : oassert ((mode =? USER_MODE) || (mode =? SETUP_MODE)) = Ok tt /\ u8 mode = mode)
    by (by destruct Hm as [-> | ->]).
  destruct Hu as [Ha Hu]. unfold bind at 1, mlift. rewrite Ha, Hu.
  unfold bind at 1, mmodify. unfold bind at 1, mget. cbv zeta.
  cbn [secure_boot_enabled setup_mode set_setup_mode].
  set (s0 := set_setup_mode mode s). unfold spec_mode.
  destruct (set_mode_variable s0 EFI_SECURE_BOOT_MODE_NAME
              (byte_of_Z (if mode =? USER_MODE then Z.b2z (secure_boot_enabled s) else 0)))
    as (st1 & s1 & R1 & I1 & E1 & S1); [done..|].
  unfold bind at 1. rewrite R1. change (au_store s0) with (au_store s) in S1. rewrite <-S1.
  destruct (negb (st1 =? EFI_SUCCESS)); [by exists st1, s1|].
  destruct (set_mode_variable s1 EFI_SETUP_MODE_NAME (byte_of_Z mode))
    as (st2 & s2 & R2 & I2 & E2 & S2); [done..|].
  unfold bind at 1. rewrite R2, <-S2. rewrite E1 in E2.
  destruct (negb (st2 =? EFI_SUCCESS)); [by exists st2, s2|].
  destruct (set_mode_variable s2 DEPLOYED_MODE_NAME
              (byte_of_Z (if mode =? SETUP_MODE then 1 else 0)))
    as (st3 & s3 & R3 & I3 & E3 & S3); [done..|].
  rewrite R3, <-S3. rewrite E2 in E3. by exists st3, s3.
Qed.

Lemma mode_keys_distinct :
  global_key EFI_SECURE_BOOT_MODE_NAME <> global_key EFI_SETUP_MODE_NAME /\
  global_key EFI_SECURE_BOOT_MODE_NAME <> global_key DEPLOYED_MODE_NAME /\
  global_key EFI_SETUP_MODE_NAME <> global_key DEPLOYED_MODE_NAME.
Proof. by vm_compute. Qed.

Definition is_mode_key (k : key) : Prop :=
  k = global_key EFI_SECURE_BOOT_MODE_NAME \/ k = global_key EFI_SETUP_MODE_NAME \/
  k = global_key DEPLOYED_MODE_NAME.

(** The variable [k] holds the byte [b], readable in boot and runtime phase. *)
Definition holds_byte (m : var_map) (k : key) (b : byte) : Prop :=
  exists x, m !! k = Some x /\ val_data x = [b] /\ val_attrs x = RT_BS_ATTRS.

Lemma spec_mode_success mode sbe m m' :
  spec_mode mode sbe m = (EFI_SUCCESS, m') ->
  holds_byte m' (global_key EFI_SECURE_BOOT_MODE_NAME)
    (byte_of_Z (if mode =? USER_MODE then Z.b2z sbe else 0)) /\
  holds_byte m' (global_key EFI_SETUP_MODE_NAME) (byte_of_Z mode) /\
  holds_byte m' (global_key DEPLOYED_MODE_NAME) (byte_of_Z (if mode =? SETUP_MODE then 1 else 0)) /\
  (forall k, ~ is_mode_key k -> m' !! k = m !! k).
Proof.
  unfold spec_mode. destruct mode_keys_distinct as (D1 & D2 & D3).
  set (k1 := global_key EFI_SECURE_BOOT_MODE_NAME) in *.
  set (k2 := global_key EFI_SETUP_MODE_NAME) in *.
  set (k3 := global_key DEPLOYED_MODE_NAME) in *.
  destruct (spec_set k1 _ _ m) as [st1 m1] eqn:E1.
  destruct (st1 =? EFI_SUCCESS) eqn:F1; cbn [negb]; [|intros [= ->]; by apply Z.eqb_neq in F1].
  destruct (spec_set k2 _ _ m1) as [st2 m2] eqn:E2.
  destruct (st2 =? EFI_SUCCESS) eqn:F2; cbn [negb]; [|intros [= ->]; by apply Z.eqb_neq in F2].
  apply Z.eqb_eq in F1 as ->, F2 as ->. intros E3.
  apply spec_set_success in E1 as (x1 & -> & V1 & A1); [|done..].
  apply spec_set_success in E2 as (x2 & -> & V2 & A2); [|done..].
  apply spec_set_success in E3 as (x3 & -> & V3 & A3); [|done..].
  unfold holds_byte, is_mode_key. fold k1 k2 k3. split_and!.
  - exists x1. by rewrite !lookup_insert_ne, lookup_insert_eq by done.
  - exists x2. by rewrite lookup_insert_ne, lookup_insert_eq by done.
  - exists x3. by rewrite lookup_insert_eq.
  - intros k Hk. rewrite !lookup_insert_ne; [done|naive_solver..].
Qed.

(** C13: The platform mode is published consistently.  [update_platform_mode]
    always returns and keeps the store well formed; when it succeeds, the
    global, SetupMode and DeployedMode hold the new mode, SecureBoot is on
    exactly in user mode with secure boot enabled, and every other variable is
    as it was. *)
Theorem platform_mode_published (s : auth_state) (mode : Z) :
  grants MAX_VARIABLE_DATA_SIZE -> storage_inv (au_store s) ->
  mode = USER_MODE \/ mode = SETUP_MODE ->
  exists st s',
    update_platform_mode mode s = Ok (st, s') /\ storage_inv (au_store s') /\
    setup_mode s' = mode /\
    (st = EFI_SUCCESS ->
      holds_byte (abs (variables (au_store s'))) (global_key EFI_SECURE_BOOT_MODE_NAME)
        (if (mode =? USER_MODE) && secure_boot_enabled s then x01 else x00) /\
      holds_byte (abs (variables (au_store s'))) (global_key EFI_SETUP_MODE_NAME)
        (if mode =? SETUP_MODE then x01 else x00) /\
      holds_byte (abs (variables (au_store s'))) (global_key DEPLOYED_MODE_NAME)
        (if mode =? SETUP_MODE then x01 else x00) /\
      forall k, ~ is_mode_key k ->
        abs (variables (au_store s')) !! k = abs (variables (au_store s)) !! k).
Proof.
  intros G Hs Hm.
  destruct (update_platform_mode_refines s mode G Hs Hm) as (st & s' & Hr & Hi & He & Hspec).
  exists st, s'. split_and!; [done|done|by rewrite He|]. intros ->.
  symmetry in Hspec. apply spec_mode_success in Hspec as (H1 & H2 & H3 & H4).
  destruct Hm as [-> | ->]; cbn [Z.eqb USER_MODE SETUP_MODE andb] in *; split_and!; try done.
  by destruct (secure_boot_enabled s).
Qed.

(** ** Enrolment of the PK *)

(** The PK is not among the variables whose appends are filtered. *)
Lemma PK_unfiltered attrs : unfiltered EFI_PLATFORM_KEY_NAME 4 gEfiGlobalVariableGuid attrs.
Proof.
  right. intros v Hv Hk.
  assert (Hn : var_namesz v = 4).
  { apply (has_key_namesz v EFI_PLATFORM_KEY_NAME 4 gEfiGlobalVariableGuid);
      [by apply live_slot_wf|lia|by vm_compute|split; [by apply live_wf_live|done]]. }
  injection Hk as _ Hg. unfold is_signature_list_var, is_var. rewrite Hg, Hn. done.
Qed.

Lemma spec_update_success k payload attrs t is_del digest m del m' :
  match digest with (st, None) => st <> EFI_SUCCESS | _ => True end ->
  spec_update k payload attrs t is_del digest m = (EFI_SUCCESS, del, m') ->
  del = Some is_del /\ (is_del = false -> is_Some (m' !! k)) /\
  (is_del = true -> payload = [] -> has attrs EFI_VARIABLE_APPEND_WRITE = false ->
   m' !! k = None).
Proof.
  intros Hd. unfold spec_update.
  destruct (spec_set_with_timestamp k payload attrs t m) as [st m1] eqn:E.
  destruct is_del; cycle 1.
  - rewrite andb_true_r. destruct (st =? EFI_SUCCESS) eqn:F; [|intros [= -> _ _]; done].
    destruct (m1 !! k) as [x|]; [|done].
    destruct digest as [st' [d|]]; [|congruence].
    intros [= -> <- <-]. split_and!; [done| |done]. intros _. rewrite lookup_insert_eq. by eexists.
  - rewrite andb_false_r. intros [= -> <- <-]. split_and!; [done..|].
    intros _ -> Ha. revert E. unfold spec_set_with_timestamp, spec_set. rewrite Ha.
    cbn [zlen length Z.of_nat Z.eqb andb orb negb is_delete]. unfold spec_remove.
    destruct (m !! k) eqn:Em; intros [= <-]. by rewrite lookup_delete_eq.
Qed.

(** User mode exactly when a PK is enrolled. *)
Definition mode_matches_PK (s : auth_state) : Prop :=
  (setup_mode s = USER_MODE /\ is_Some (stored_PK s)) \/
  (setup_mode s = SETUP_MODE /\ stored_PK s = None).

Lemma PK_not_mode_key : ~ is_mode_key (arg_key EFI_PLATFORM_KEY_NAME 4 gEfiGlobalVariableGuid).
Proof. by intros [E|[E|E]]; vm_compute in E. Qed.

(** A mode change at the end of a PK update. *)
Lemma platform_mode_keeps_PK s mode s' :
  grants MAX_VARIABLE_DATA_SIZE -> storage_inv (au_store s) ->
  mode = USER_MODE \/ mode = SETUP_MODE ->
  update_platform_mode mode s = Ok (EFI_SUCCESS, s') ->
  storage_inv (au_store s') /\ setup_mode s' = mode /\ stored_PK s' = stored_PK s.
Proof.
  intros G Hs Hm Hr.
  destruct (update_platform_mode_refines s mode G Hs Hm) as (st & s1 & Hr1 & Hi & He & Hspec).
  rewrite Hr1 in Hr. injection Hr as -> ->. symmetry in Hspec.
  apply spec_mode_success in Hspec as (_ & _ & _ & H4).
  split_and!; [done|by rewrite He|]. unfold stored_PK, stored. apply H4, PK_not_mode_key.
Qed.

(** A name of the PK: the object may go on after its four bytes. *)
Record names_PK (n : bytes) : Prop := {
  np_name : canonical_name n 4;
  np_key : arg_key n 4 gEfiGlobalVariableGuid = arg_key EFI_PLATFORM_KEY_NAME 4 gEfiGlobalVariableGuid
}.

(** A verified update of the PK that succeeds: what it says about deletion is
    what happened to the PK. *)
Lemma pk_update_stored s n data_size attrs ty del s1 :
  grants MAX_VARIABLE_DATA_SIZE -> storage_inv (au_store s) -> names_PK n ->
  0 <= attrs < 0x100000000 -> zlen (au_data s) <= MAX_VARIABLE_DATA_SIZE ->
  verify_time_based_payload_and_update n 4 gEfiGlobalVariableGuid data_size attrs ty s
    = Ok ((EFI_SUCCESS, del), s1) ->
  storage_inv (au_store s1) /\ setup_mode s1 = setup_mode s /\
  exists d, del = Some d /\
    if d then is_Some (stored_PK s) /\ stored_PK s1 = None else is_Some (stored_PK s1).
Proof.
  intros G Hs [Hn Hk] Ha Hlen Hv.
  apply update_success in Hv as (off & size & Hvu & Hoff & Hsize & Hin & _ & Hv);
    [|done|lia|apply Hn|done|done].
  destruct (vu_time _ _ _ _ _ _ _ _ _ _ Hvu) as (t & Ht & _).
  assert (Huf : unfiltered n 4 gEfiGlobalVariableGuid attrs).
  { destruct (PK_unfiltered attrs) as [Hu|Hu]; [by left|right]. rewrite Hk. exact Hu. }
  destruct (apply_update_refines _ _ _ _ _ _ _ _ _ _ _ _ G Hs Hn
              (eq_refl : zlen gEfiGlobalVariableGuid = 16) Ha
              Huf Hoff Hsize Hin Ht Hv) as (Hinv & He & digest & Hdig & Hspec).
  symmetry in Hspec. apply spec_update_success in Hspec as (-> & Hkeep & Hdel);
    [|by destruct digest as [? []]].
  rewrite Hk in Hkeep, Hdel. unfold stored in Hkeep, Hdel |- *. rewrite Hk in Hkeep, Hdel |- *.
  change (abs (variables (au_store s)) !! _) with (stored_PK s) in *.
  change (abs (variables (au_store s1)) !! _) with (stored_PK s1) in *.
  split_and!; [done|by rewrite He|]. eexists. split; [done|].
  match goal with |- if ?b then _ else _ => destruct b eqn:D end; [|by apply Hkeep].
  apply andb_true_iff in D as [[Dp%bool_decide_eq_true Dz%Z.eqb_eq]%andb_true_iff
                               Dn%negb_true_iff].
  split; [done|]. apply Hdel; [done|by rewrite Dz|done].
Qed.

(** The end of a PK update: the mode is switched when the PK came or went. *)
Lemma pk_update_mode s n data_size attrs s' :
  grants MAX_VARIABLE_DATA_SIZE -> storage_inv (au_store s) -> mode_matches_PK s -> names_PK n ->
  0 <= attrs < 0x100000000 -> zlen (au_data s) <= MAX_VARIABLE_DATA_SIZE ->
  process_var_with_pk n 4 gEfiGlobalVariableGuid data_size attrs true s = Ok (EFI_SUCCESS, s') ->
  mode_matches_PK s' /\ storage_inv (au_store s').
Proof.
  intros G Hs Hm Hn Ha Hlen. unfold process_var_with_pk.
  destruct (key_attrs_missing attrs); [done|]. unfold bind at 1, mget. cbv zeta.
  intros ([st del] & s1 & Hrun & Hr)%bind_inv.
  assert (Hty : exists ty del0,
    verify_time_based_payload_and_update n 4 gEfiGlobalVariableGuid data_size attrs ty s
      = Ok ((st, del0), s1) /\ del = match del0 with Some d => d | None => false end).
  { destruct (setup_mode s =? SETUP_MODE);
      apply bind_inv in Hrun as ([st2 del2] & s2 & Hv & Hv2); injection Hv2 as -> <- ->;
      by eexists _, _. }
  destruct Hty as (ty & del0 & Hv & ->).
  rewrite andb_true_r in Hr. destruct (st =? EFI_SUCCESS) eqn:F; [apply Z.eqb_eq in F as ->|
    injection Hr as -> _; done].
  apply pk_update_stored in Hv as (Hinv & Hmode & d & -> & Hd); [|done..].
  unfold bind at 1, mget in Hr. cbv zeta in Hr. rewrite Hmode in Hr.
  destruct d; [destruct Hd as [Hd Hnone], Hm as [[Hu _]|[_ Hm]]; [|by rewrite Hm in Hd; destruct Hd]
              |destruct Hm as [[Hu _]|[Hu _]]];
    rewrite Hu in Hr; cbn [Z.eqb USER_MODE SETUP_MODE andb negb] in Hr.
  - apply platform_mode_keeps_PK in Hr as (Hi & Hm' & Hp); [|done|done|by right].
    split; [|done]. right. by rewrite Hp.
  - injection Hr as <-. split; [|done]. left. by rewrite Hmode.
  - apply platform_mode_keeps_PK in Hr as (Hi & Hm' & Hp); [|done|done|by left].
    split; [|done]. left. by rewrite Hp.
Qed.

(** C14: The mode follows the PK.  Starting with user mode exactly when a PK is
    enrolled, every successful PK update, whether it enrols, replaces, appends
    to or deletes the PK, ends with user mode exactly when a PK is enrolled. *)
Theorem mode_follows_PK (s : auth_state) (data_size attrs : Z) (s' : auth_state) :
  grants MAX_VARIABLE_DATA_SIZE -> storage_inv (au_store s) -> mode_matches_PK s ->
  0 <= attrs < 0x100000000 -> zlen (au_data s) <= MAX_VARIABLE_DATA_SIZE ->
  process_var_with_pk EFI_PLATFORM_KEY_NAME 4 gEfiGlobalVariableGuid data_size attrs true s
    = Ok (EFI_SUCCESS, s') ->
  mode_matches_PK s' /\ storage_inv (au_store s').
Proof.
  intros G Hs Hm. apply (pk_update_mode s EFI_PLATFORM_KEY_NAME); [done..|].
  split; [exact PK_name_ok|done].
Qed.

End mode.

Lemma platform_mode_published_witness :
  exists st s',
    @update_platform_mode zero_allocator SETUP_MODE (user_state []) = Ok (st, s') /\
    storage_inv (au_store s') /\ setup_mode s' = SETUP_MODE /\
    (st = EFI_SUCCESS ->
      holds_byte (abs (variables (au_store s'))) (global_key EFI_SECURE_BOOT_MODE_NAME) x00 /\
      holds_byte (abs (variables (au_store s'))) (global_key EFI_SETUP_MODE_NAME) x01 /\
      holds_byte (abs (variables (au_store s'))) (global_key DEPLOYED_MODE_NAME) x01 /\
      forall k, ~ is_mode_key k ->
        abs (variables (au_store s')) !! k = abs (variables store_PK) !! k).
Proof.
  apply (@platform_mode_published zero_allocator (user_state []) SETUP_MODE);
    [apply zero_allocator_grants|exact store_PK_inv|right; reflexivity].
Defined.

Lemma mode_follows_PK_witness :
  exists s',
    @process_var_with_pk zero_allocator toy_openssl EFI_PLATFORM_KEY_NAME 4
      gEfiGlobalVariableGuid 41 key_attrs true (user_state (signed_AA time_2 []))
      = Ok (EFI_SUCCESS, s') /\
    mode_matches_PK s' /\ storage_inv (au_store s').
Proof.
  destruct (succeeds_run _ _ pk_delete_succeeds) as [s' Hrun]. exists s'. split; [exact Hrun|].
  apply (@mode_follows_PK zero_allocator toy_openssl (user_state (signed_AA time_2 [])) 41
           key_attrs s');
    [apply zero_allocator_grants|exact store_PK_inv| |vm_compute; split; congruence
    |vm_compute; discriminate|exact Hrun].
  left. split; [reflexivity|]. unfold stored_PK, stored. eexists. vm_compute. reflexivity.
Defined.
