(* ===== verification/PrivateVars.v ===== *)
(** * Private variables

    A time-based authenticated variable that is not one of the platform's keys
    belongs to the signer of its first update: the digest of that signer is
    stored with it, and while enforcement is on, updates by anybody else are
    refused, those that append included.  It can be deleted by anybody. *)
From S2P Require Import Prelude EfiTypes Common UefiVariable Storage StorageInv StorageSpec.
From S2P Require Import Samples Crypto SigList Auth AuthSamples AuthSpec AuthSecurity.
From S2P Require Import PlatformMode.

(** ** The signature databases

    The variables an append filters the new signatures for. *)
Definition database_keys : list key :=
  [arg_key EFI_KEY_EXCHANGE_KEY_NAME 6 gEfiGlobalVariableGuid;
   arg_key EFI_IMAGE_SECURITY_DATABASE 4 gEfiImageSecurityDatabaseGuid;
   arg_key EFI_IMAGE_SECURITY_DATABASE1 6 gEfiImageSecurityDatabaseGuid;
   arg_key EFI_IMAGE_SECURITY_DATABASE2 6 gEfiImageSecurityDatabaseGuid].

(** [is_var] compares the whole name. *)
Lemma is_var_key v str sz g :
  live_wf v -> sizeof_wchar str = sz -> 0 <= sz <= zlen str -> var_guid v = g ->
  var_key v <> arg_key str sz g -> is_var v str = Ok false.
Proof.
  intros Hv Hsz Hlen Hg Hk. unfold is_var. rewrite Hsz.
  destruct (Z.eqb_spec (var_namesz v) sz) as [E|]; [|done].
  pose proof (lw_name _ Hv). pose proof (lw_namesz _ Hv).
  rewrite memcmp_eq_ok, bool_decide_false by (lia || (change (Z.to_nat 0) with 0%nat;
    rewrite !drop_0; intros Heq; apply Hk; unfold var_key, arg_key; by rewrite Heq, Hg, E)).
  done.
Qed.

(** Appends to any other variable are the store's. *)
Lemma private_unfiltered n sz g attrs :
  arg_key n sz g ∉ database_keys -> unfiltered n sz g attrs.
Proof.
  intros Hk. right. intros v Hv Hkey. rewrite <-Hkey in Hk. unfold is_signature_list_var.
  unfold database_keys in Hk. rewrite !not_elem_of_cons in Hk.
  destruct Hk as (H1 & H2 & H3 & H4 & _).
  assert (Hno : forall str sz' g', sizeof_wchar str = sz' -> 0 <= sz' <= zlen str ->
    var_key v <> arg_key str sz' g' -> compare_guid (var_guid v) g' = true ->
    is_var v str = Ok false).
  { intros str sz' g' Hsz Hlen Hne Hg%compare_guid_spec. by eapply is_var_key. }
  destruct (compare_guid (var_guid v) gEfiImageSecurityDatabaseGuid) eqn:Ei.
  - rewrite (Hno EFI_IMAGE_SECURITY_DATABASE 4 _ eq_refl ltac:(by vm_compute) H2 Ei),
      (Hno EFI_IMAGE_SECURITY_DATABASE1 6 _ eq_refl ltac:(by vm_compute) H3 Ei),
      (Hno EFI_IMAGE_SECURITY_DATABASE2 6 _ eq_refl ltac:(by vm_compute) H4 Ei).
    apply compare_guid_spec in Ei as ->. done.
  - destruct (compare_guid (var_guid v) gEfiGlobalVariableGuid) eqn:Eg; [|done].
    by rewrite (Hno EFI_KEY_EXCHANGE_KEY_NAME 6 _ eq_refl ltac:(by vm_compute) H1 Eg).
Qed.

(** ** The owner *)
Section owner.
Context `{Allocator} `{OpenSSL}.

(** The digest of the signer named by the descriptor of the data object. *)
Definition signer_of (data digest : bytes) : Prop :=
  sha256_from_auth data = Ok (EFI_SUCCESS, Some digest).

Lemma priv_trusts_signer s n sz g p cert :
  pkcs7_from_auth (Some (au_data s)) = Ok (Some p) -> priv_trusts s n sz g p cert ->
  exists digest, signer_of (au_data s) digest /\
    (forall x, stored s n sz g = Some x -> auth_enforce s = true -> val_cert x = digest).
Proof.
  intros Hp (certs & digest & Hc & Hl & Hd & Hx). exists digest. split; [|done].
  unfold signer_of, sha256_from_auth. rewrite Hp. cbn [obind].
  unfold signers_digest, pkcs7_get_signers, last_cert.
  rewrite (pkcs7_from_auth_signed _ _ Hp), Hc. cbn [negb]. by rewrite Hl, Hd.
Qed.

Lemma AUTHINFO2_SIZE_range data n :
  AUTHINFO2_SIZE data = Ok n -> 0 <= n < 0x10000000000000000.
Proof. intros (l & _ & [= <-])%obind_inv. apply u64_range. Qed.

(** The deletion of a variable. *)
Lemma delete_unstores s n sz g s' :
  storage_inv (au_store s) -> name_arg n sz -> zlen g = 16 ->
  on_store (storage_set (Some n) sz (Some g) None 0 0) s = Ok (EFI_SUCCESS, s') ->
  stored s' n sz g = None.
Proof.
  intros Hs Hn Hg. unfold on_store, mzoom. rewrite storage_set_delete by (apply Hs || done).
  destruct (storage_remove_refines (au_store s) n sz g) as (st & st' & -> & _ & Hspec & _);
    try done.
  intros [= -> <-]. unfold stored. cbn [au_store set_store]. unfold spec_remove in Hspec.
  destruct (abs _ !! _); [|done]. injection Hspec as ->. apply lookup_delete_eq.
Qed.

(** The digest stored by an update that keeps the variable. *)
Lemma spec_update_cert k payload attrs t d digest m del m' y :
  match digest with
  | (_, Some _) => Ok digest = Ok (EFI_SUCCESS, Some d)
  | (st, None) => st <> EFI_SUCCESS
  end ->
  spec_update k payload attrs t false digest m = (EFI_SUCCESS, del, m') ->
  m' !! k = Some y -> val_cert y = d.
Proof.
  intros Hd. unfold spec_update.
  destruct (spec_set_with_timestamp k payload attrs t m) as [st m1]. rewrite andb_true_r.
  destruct (st =? EFI_SUCCESS) eqn:Est; [|intros [= -> _ _]; done].
  destruct (m1 !! k) as [x|]; [|done].
  destruct digest as [st' [d'|]]; [|congruence]. injection Hd as -> ->.
  intros [= _ <-]. rewrite lookup_insert_eq. by intros [= <-].
Qed.

(** A time-based update of a private variable. *)
Lemma private_update s n sz g data_size attrs del s' :
  grants MAX_VARIABLE_DATA_SIZE -> storage_inv (au_store s) -> canonical_name n sz ->
  zlen g = 16 -> 0 <= attrs < 0x100000000 -> arg_key n sz g ∉ database_keys ->
  zlen (au_data s) <= MAX_VARIABLE_DATA_SIZE ->
  verify_time_based_payload_and_update n sz g data_size attrs AUTH_VAR_TYPE_PRIV s
    = Ok ((EFI_SUCCESS, del), s') ->
  exists off size digest,
    verified_update AUTH_VAR_TYPE_PRIV s n sz g data_size attrs (val_time <$> stored s n sz g)
      off size /\
    signer_of (au_data s) digest /\
    (forall x, stored s n sz g = Some x -> auth_enforce s = true -> val_cert x = digest) /\
    (forall y, stored s' n sz g = Some y -> val_cert y = digest).
Proof.
  intros G Hs Hc Hg Ha Hpriv Hlen Hr. destruct (cn_arg _ _ Hc) as [Hsz Ho _].
  apply update_success in Hr as (off & size & Hvu & Hoff & Hsize & Hin & _ & Hr); try done; [|lia].
  destruct (vu_signed _ _ _ _ _ _ _ _ _ _ Hvu) as (content & csize & p & cert & _ & Hp & Htr & _).
  destruct (priv_trusts_signer _ _ _ _ _ _ Hp Htr) as (d & Hd & Hx).
  exists off, size, d. split_and!; [done..|]. intros y Hy.
  destruct (vu_time _ _ _ _ _ _ _ _ _ _ Hvu) as (t & Ht & _).
  apply (apply_update_refines _ _ _ _ _ _ _ t) in Hr as (_ & _ & digest & Hdig & Hspec);
    [|done|done|done|done|done|by apply private_unfiltered|done|done|done|done].
  assert (Hdig' : match digest with
    | (_, Some _) => Ok digest = Ok (EFI_SUCCESS, Some d)
    | (st, None) => st <> EFI_SUCCESS end).
  { destruct digest as [st [d'|]]; [|done]. unfold signer_of in Hd. congruence. }
  symmetry in Hspec. unfold stored in Hy.
  destruct (bool_decide (is_Some (stored s n sz g)) && (size =? 0)
            && negb (has attrs EFI_VARIABLE_APPEND_WRITE)) eqn:Edel.
  - apply spec_update_success in Hspec as (_ & _ & Hnone); [|by destruct digest as [? []]].
    apply andb_true_iff in Edel as [[_ Esize%Z.eqb_eq]%andb_true_iff Happ%negb_true_iff].
    subst size. by rewrite Hnone in Hy.
  - by eapply spec_update_cert.
Qed.

(** C28: A private variable belongs to its first signer.  When
    [process_variable] succeeds on a time-based update of a variable that is
    not KEK, db, dbx or dbt, appending or not, either the variable exists, the
    request has its attributes and no payload, and the variable is gone; or the
    data object is a verified update whose signer's digest is, with enforcement
    on (as [auth_enforce] is from the start), the one stored with the variable
    if it exists, and in any case the one stored with it afterwards if it still
    does. *)
Theorem private_variable_owner (s : auth_state) (n : bytes) (sz : Z) (g : EFI_GUID)
    (data_size attrs : Z) (s' : auth_state) :
  grants MAX_VARIABLE_DATA_SIZE -> storage_inv (au_store s) -> canonical_name n sz ->
  zlen g = 16 -> 0 <= attrs < 0x100000000 ->
  has attrs EFI_VARIABLE_TIME_BASED_AUTHENTICATED_WRITE_ACCESS = true ->
  arg_key n sz g ∉ database_keys ->
  zlen (au_data s) <= MAX_VARIABLE_DATA_SIZE ->
  process_variable n sz g data_size attrs s = Ok (EFI_SUCCESS, s') ->
  (exists x, stored s n sz g = Some x /\ val_attrs x = attrs /\
     AUTHINFO2_SIZE (au_data s) = Ok (u64 data_size) /\ stored s' n sz g = None) \/
  (exists off size digest,
     verified_update AUTH_VAR_TYPE_PRIV s n sz g data_size attrs
       (val_time <$> stored s n sz g) off size /\
     signer_of (au_data s) digest /\
     (forall x, stored s n sz g = Some x -> auth_enforce s = true -> val_cert x = digest) /\
     (forall y, stored s' n sz g = Some y -> val_cert y = digest)).
Proof.
  intros G Hs Hc Hg Ha Ht Hpriv Hlen. destruct (cn_arg _ _ Hc) as [Hsz Ho Hfirst].
  unfold process_variable.
  destruct (get_var_ptr_stored s n sz g) as ([fst_ var] & Hrun & Hx); [apply Hs|lia|done..|].
  unfold bind at 1. rewrite Hrun. unfold bind at 1, mget.
  intros (delete_ & s1 & Hdel & Hr)%bind_inv.
  assert (Hupdate : forall s1, s1 = s -> delete_ = false ->
    (if delete_ then on_store (storage_set (Some n) sz (Some g) None 0 0)
     else if has attrs EFI_VARIABLE_AUTHENTICATED_WRITE_ACCESS then ret EFI_UNSUPPORTED
     else if has attrs EFI_VARIABLE_TIME_BASED_AUTHENTICATED_WRITE_ACCESS then
       '(status, _) <- verify_time_based_payload_and_update n sz g data_size attrs
                         AUTH_VAR_TYPE_PRIV ;; ret status
     else on_store (storage_set (Some n) sz (Some g) (Some (au_data s)) data_size attrs)) s1
    = Ok (EFI_SUCCESS, s') ->
    exists off size digest,
     verified_update AUTH_VAR_TYPE_PRIV s n sz g data_size attrs
       (val_time <$> stored s n sz g) off size /\
     signer_of (au_data s) digest /\
     (forall x, stored s n sz g = Some x -> auth_enforce s = true -> val_cert x = digest) /\
     (forall y, stored s' n sz g = Some y -> val_cert y = digest)).
  { intros ? -> ->. rewrite Ht. destruct (has attrs EFI_VARIABLE_AUTHENTICATED_WRITE_ACCESS); [done|].
    intros ([st del] & s2 & Hv & [= -> ->])%bind_inv.
    apply private_update in Hv as (off & size & d & H1 & H2 & H3 & H4); [|done..].
    by exists off, size, d. }
  destruct (stored s n sz g) as [x|] eqn:Estored; cycle 1.
  { injection Hx as -> ->. apply ret_inv in Hdel as [<- <-]. right. by eapply Hupdate. }
  destruct Hx as (i & v & [= -> ->] & Hi & Hv & Hk & ->).
  apply bind_inv in Hdel as (v' & s2 & [Hslot ->]%mlift_inv & [Hdel ->]%mlift_inv).
  rewrite (slot_at_ok _ _ _ Hi) in Hslot. injection Hslot as <-.
  destruct delete_; [|right; by eapply Hupdate].
  left. exists (value_of v). split; [done|].
  unfold is_delete_auth_variable in Hdel.
  destruct ((attrs =? var_attrs v) && _) eqn:Eattrs; [|done].
  apply andb_true_iff in Eattrs as [->%Z.eqb_eq _]. rewrite Ht in Hdel.
  apply obind_inv in Hdel as (asz & Hasz & [= Hrem]). apply Z.eqb_eq in Hrem.
  split_and!; [done| |].
  - rewrite Hasz. f_equal. by apply u64_diff_0; [apply (AUTHINFO2_SIZE_range _ _ Hasz)|].
  - by eapply delete_unstores.
Qed.

End owner.

(** The creation of a variable A with one byte of payload, signed by AA. *)
Lemma private_create_succeeds :
  succeeds (@process_variable zero_allocator toy_openssl name_A 2 guid_1 42 key_attrs)
    (user_state (signed_AA time_2 [x05])) = true.
Proof. vm_compute. reflexivity. Qed.

Lemma private_variable_owner_witness :
  exists s',
    @process_variable zero_allocator toy_openssl name_A 2 guid_1 42 key_attrs
      (user_state (signed_AA time_2 [x05])) = Ok (EFI_SUCCESS, s') /\
    ((exists x, stored (user_state (signed_AA time_2 [x05])) name_A 2 guid_1 = Some x /\
        val_attrs x = key_attrs /\
        AUTHINFO2_SIZE (au_data (user_state (signed_AA time_2 [x05]))) = Ok (u64 42) /\
        stored s' name_A 2 guid_1 = None) \/
     (exists off size digest,
        @verified_update zero_allocator toy_openssl AUTH_VAR_TYPE_PRIV
          (user_state (signed_AA time_2 [x05])) name_A 2 guid_1 42 key_attrs
          (val_time <$> stored (user_state (signed_AA time_2 [x05])) name_A 2 guid_1) off size /\
        @signer_of zero_allocator toy_openssl (signed_AA time_2 [x05]) digest /\
        (forall x, stored (user_state (signed_AA time_2 [x05])) name_A 2 guid_1 = Some x ->
           auth_enforce (user_state (signed_AA time_2 [x05])) = true -> val_cert x = digest) /\
        (forall y, stored s' name_A 2 guid_1 = Some y -> val_cert y = digest))).
Proof.
  destruct (succeeds_run _ _ private_create_succeeds) as [s' Hrun]. exists s'.
  split; [exact Hrun|].
  apply (@private_variable_owner zero_allocator toy_openssl (user_state (signed_AA time_2 [x05]))
           name_A 2 guid_1 42 key_attrs s');
    [apply zero_allocator_grants|exact store_PK_inv|exact name_A_ok|reflexivity
    |vm_compute; split; congruence|reflexivity
    |by apply (bool_decide_unpack _); vm_compute|vm_compute; discriminate|exact Hrun].
Defined.
