(* ===== verification/SignedData.v ===== *)
(** * The signed content and the ContentInfo wrapper

    What exactly is verified: the content built by [verify_time_based_payload]
    and the DER header that [wrap_with_content_info] puts before a bare
    SignedData; and what happens when the descriptor's length field is too
    small. *)
From S2P Require Import Prelude EfiTypes Common UefiVariable Storage StorageInv Samples Crypto.
From S2P Require Import SigList Auth AuthSamples.

(** ** The signed content *)
Section content.
Context `{Allocator}.

Definition signed_content (a g : bytes) (cs : list Z) (attrs off size : Z) : bytes :=
  wchars cs ++ g ++ le_encode 4 attrs ++ take 16 a
  ++ take (Z.to_nat size) (drop (Z.to_nat off) a).

Lemma zlen_signed_content a g cs attrs off size :
  zlen g = 16 -> 16 <= zlen a -> 0 <= off -> 0 <= size -> off + size <= zlen a ->
  zlen (signed_content a g cs attrs off size) = 2 * zlen cs + 36 + size.
Proof. intros. unfold signed_content. autorewrite with zlen. lia. Qed.

Lemma build_new_data_ok a n g cs attrs off size :
  grants (2 * zlen cs + 36 + size) -> cstr16 n cs -> zlen n < 0x10000000 -> zlen g = 16 ->
  16 <= zlen a -> zlen a < 0x10000000 -> 0 <= off -> 0 <= size -> off + size <= zlen a ->
  build_new_data a n g attrs off size
  = Ok (Some (signed_content a g cs attrs off size, 2 * zlen cs + 36 + size)).
Proof.
  intros G Hcs Hn Hg Ha Ha' Hoff Hsize Hin. pose proof (zlen_nonneg cs) as Hpos.
  assert (Hfit : 2 * zlen cs <= zlen n).
  { destruct Hcs as [_ [r ->]]. autorewrite with zlen. pose proof (zlen_nonneg r). lia. }
  unfold build_new_data. rewrite (strsize16_cstr _ _ Hcs) by lia. cbn [obind].
  unfold sizeof_EFI_TIME, sizeof_EFI_GUID. rewrite u64_id by lia.
  replace (size + 16 + 4 + 16 + 2 * zlen cs) with (2 * zlen cs + 36 + size) by lia.
  destruct (G (2 * zlen cs + 36 + size)) as [block Hb]; [lia|]. rewrite Hb.
  apply malloc_size in Hb; [|lia].
  rewrite (strlen16_cstr _ _ Hcs). cbn [obind]. rewrite u64_id by lia.
  set (len := 2 * zlen cs) in *. replace (zlen cs * 2) with len by lia.
  rewrite memcpy_first by lia. cbn [obind].
  assert (E1 : take (Z.to_nat len) n = wchars cs).
  { destruct Hcs as [_ [r ->]].
    replace (Z.to_nat len) with (length (wchars cs)); [by rewrite take_app_length|].
    pose proof (zlen_wchars cs). unfold zlen, len in *. unfold zlen in *. lia. }
  rewrite E1.
  rewrite (memcpy_next (wchars cs) _ len g 0 16) by (zlia). cbn [obind].
  change (Z.to_nat 0) with 0%nat. rewrite drop_0, (take_ge g) by (unfold zlen in Hg; lia).
  rewrite write_next by (autorewrite with zlen; lia). cbn [obind].
  rewrite memcpy_next by (autorewrite with zlen; rewrite ?length_le_encode; lia).
  cbn [obind]. change (Z.to_nat 0) with 0%nat. rewrite drop_0. change (Z.to_nat 16) with 16%nat.
  unfold memcpy. rewrite read_bytes_ok by lia. cbn [obind].
  rewrite write_last.
  - cbn [obind]. unfold signed_content. by rewrite <-!app_assoc.
  - autorewrite with zlen. lia.
  - autorewrite with zlen. rewrite ?length_le_encode. lia.
Qed.

(** C15: What is signed.  For a terminated name and a payload inside the data
    object, the content handed to the PKCS#7 verification is exactly the
    characters of the name, the GUID, the attributes, the sixteen bytes of the
    time stamp and the payload, in this order and with nothing else. *)
Theorem signed_content_exact (a n g : bytes) (cs : list Z) (attrs off size : Z) :
  grants (2 * zlen cs + 36 + size) -> cstr16 n cs -> zlen n < 0x10000000 -> zlen g = 16 ->
  16 <= zlen a -> zlen a < 0x10000000 -> 0 <= off -> 0 <= size -> off + size <= zlen a ->
  exists content content_size,
    build_new_data a n g attrs off size = Ok (Some (content, content_size)) /\
    read_bytes content 0 content_size
      = Ok (wchars cs ++ g ++ le_encode 4 attrs ++ take 16 a
            ++ take (Z.to_nat size) (drop (Z.to_nat off) a)).
Proof.
  intros. eexists _, _. split; [by apply build_new_data_ok|].
  rewrite <-(zlen_signed_content a g cs attrs off size) by done.
  apply read_bytes_full.
Qed.

(** ** The ContentInfo wrapper *)

(** The header of [size] bytes of SignedData. *)
Definition content_info_header (size : Z) : bytes :=
  [x30; x82] ++ be16 (size + 15) ++ [x06; x09] ++ mOidValue ++ [xa0; x82] ++ be16 size.

Lemma zlen_be16 x : zlen (be16 x) = 2.
Proof. done. Qed.
Lemma zlen_mOidValue : zlen mOidValue = 9.
Proof. done. Qed.
#[local] Hint Rewrite zlen_be16 zlen_mOidValue : zlen.

Lemma zlen_content_info_header size : zlen (content_info_header size) = 19.
Proof. done. Qed.

(** A 16-bit length is written most significant byte first. *)
Lemma be16_digits x :
  0 <= x < 0x10000 -> be16 x = [byte_of_Z (x / 256); byte_of_Z (x mod 256)].
Proof.
  intros Hx. unfold be16. rewrite u16_id by lia. rewrite Z.shiftr_div_pow2 by lia.
  change 0xff with (Z.ones 8). by rewrite Z.land_ones by lia.
Qed.

(** The header is recognised whatever follows it. *)
Lemma is_content_info_header size data n :
  19 <= n -> is_content_info (content_info_header size ++ data) 0 n = Ok true.
Proof.
  intros Hn. unfold is_content_info, byte_differs, or_else, read_le, memcmp_eq.
  rewrite (proj2 (Z.ltb_ge n 16)) by lia. cbn [obind].
  pose proof (zlen_nonneg data).
  rewrite !(read_bytes_ok (content_info_header size ++ data))
    by (rewrite ?zlen_app, ?zlen_content_info_header; lia).
  done.
Qed.

Lemma wrap_plain_ok d off size w :
  grants (size + 19) -> 0 < size -> size + 19 < 0x100000000 ->
  0 <= off -> off + size <= zlen d -> is_content_info d off size = Ok false ->
  wrap_with_content_info (Some d) off size w
  = Ok (Some (content_info_header size ++ take (Z.to_nat size) (drop (Z.to_nat off) d)),
        size + 19).
Proof.
  intros G Hs Hmax Hoff Hin Hci. unfold wrap_with_content_info. rewrite Hci. cbn [obind].
  rewrite u32_id by lia. destruct (G (size + 19)) as [block Hb]; [lia|]. rewrite Hb.
  apply malloc_size in Hb; [|lia]. rewrite u32_id by lia.
  replace (size + 19 - 4) with (size + 15) by lia.
  rewrite write_first by zlia. cbn [obind].
  do 4 (rewrite write_next by (autorewrite with zlen; cbn [length be16]; lia); cbn [obind]).
  rewrite memcpy_next by (done || (autorewrite with zlen; cbn [length be16]; lia)).
  cbn [obind].
  do 3 (rewrite write_next by (autorewrite with zlen; cbn [length be16]; lia); cbn [obind]).
  unfold memcpy. rewrite read_bytes_ok by lia. cbn [obind].
  rewrite write_last.
  - cbn [obind]. do 3 f_equal.
  - done.
  - autorewrite with zlen. cbn [length be16]. lia.
Qed.

(** Reading through a copy of part of an object. *)
Lemma read_bytes_sub d off size i k :
  0 <= off -> off + size <= zlen d -> 0 <= i -> 0 <= k -> i + k <= size ->
  read_bytes (take (Z.to_nat size) (drop (Z.to_nat off) d)) i k = read_bytes d (off + i) k.
Proof.
  intros Ho Hl Hi Hk Hs. rewrite !read_bytes_ok by zlia. f_equal.
  rewrite skipn_firstn_comm, take_take, drop_drop. f_equal; [lia|].
  f_equal. lia.
Qed.

Lemma is_content_info_sub d off size :
  0 <= off -> off + size <= zlen d -> 17 <= size ->
  is_content_info (take (Z.to_nat size) (drop (Z.to_nat off) d)) 0 size
  = is_content_info d off size.
Proof.
  intros Ho Hl Hs. unfold is_content_info, byte_differs, read_le, memcmp_eq.
  by rewrite !read_bytes_sub by (done || lia).
Qed.

Lemma wrap_info_ok d off size w :
  grants size -> 0 <= size -> 0 <= off -> off + size <= zlen d ->
  is_content_info d off size = Ok true ->
  wrap_with_content_info (Some d) off size w
  = Ok (Some (take (Z.to_nat size) (drop (Z.to_nat off) d)), size).
Proof.
  intros G Hs Hoff Hin Hci. unfold wrap_with_content_info. rewrite Hci. cbn [obind].
  destruct (G size) as [block Hb]; [lia|]. rewrite Hb. apply malloc_size in Hb; [|lia].
  unfold memcpy. rewrite read_bytes_ok by lia. cbn [obind].
  by rewrite write_bytes_full by zlia.
Qed.

(** C16: Wrapping gives a ContentInfo.  For at least 17 readable bytes of
    SignedData, [wrap_with_content_info] returns a block that
    [is_content_info] recognises: the data itself when it already is one, and
    otherwise the 19-byte DER header, with both lengths in big endian, followed
    by the data.  Wrapping the result again only copies it. *)
Theorem wrapping_gives_content_info (d : bytes) (off size w : Z) :
  grants (size + 19) -> 17 <= size -> size + 15 < 0x10000 -> 0 <= off -> off + size <= zlen d ->
  exists info b,
    is_content_info d off size = Ok info /\
    wrap_with_content_info (Some d) off size w = Ok (Some b, zlen b) /\
    b = (if info then [] else
           [x30; x82; byte_of_Z ((size + 15) / 256); byte_of_Z ((size + 15) mod 256); x06; x09]
           ++ mOidValue ++ [xa0; x82; byte_of_Z (size / 256); byte_of_Z (size mod 256)])
        ++ take (Z.to_nat size) (drop (Z.to_nat off) d) /\
    is_content_info b 0 (zlen b) = Ok true /\
    wrap_with_content_info (Some b) 0 (zlen b) w = Ok (Some b, zlen b).
Proof.
  intros G Hs Hmax Hoff Hin.
  set (data := take (Z.to_nat size) (drop (Z.to_nat off) d)).
  assert (Hdata : zlen data = size) by (unfold data; zlia).
  assert (Hagain : forall b, zlen b <= size + 19 -> is_content_info b 0 (zlen b) = Ok true ->
    wrap_with_content_info (Some b) 0 (zlen b) w = Ok (Some b, zlen b)).
  { intros b Hb Hci. pose proof (zlen_nonneg b).
    rewrite (wrap_info_ok b 0 (zlen b)); [|intros k Hk; apply G; lia|lia..|done].
    change (Z.to_nat 0) with 0%nat. by rewrite drop_0, take_ge by (unfold zlen; lia). }
  assert (Hinfo : exists info, is_content_info d off size = Ok info).
  { unfold is_content_info, byte_differs, or_else, read_le, memcmp_eq.
    rewrite (proj2 (Z.ltb_ge size 16)) by lia. cbn [obind].
    rewrite !(read_bytes_ok d) by lia. cbn [obind]. change (read_bytes mOidValue 0 9) with (Ok mOidValue).
    cbn [obind]. repeat case_match; by eexists. }
  destruct Hinfo as [info Hci]. exists info. destruct info.
  - exists data. rewrite Hdata. split_and!; [done| |done| |].
    + apply wrap_info_ok; [intros k Hk; apply G; lia|lia..|done].
    + unfold data. by rewrite is_content_info_sub.
    + rewrite <-Hdata at 1 2. apply Hagain; [lia|]. rewrite Hdata. unfold data.
      by rewrite is_content_info_sub.
  - exists (content_info_header size ++ data).
    assert (Hz : zlen (content_info_header size ++ data) = size + 19)
      by (rewrite zlen_app, zlen_content_info_header; lia).
    assert (Hc2 : is_content_info (content_info_header size ++ data) 0 (size + 19) = Ok true)
      by (apply is_content_info_header; lia).
    rewrite Hz. split_and!; [done| | |done|].
    + by apply wrap_plain_ok; try done; lia.
    + unfold content_info_header. rewrite !be16_digits by lia. by rewrite <-!app_assoc.
    + rewrite <-Hz at 1 2. apply Hagain; [lia|]. by rewrite Hz.
Qed.

(** ** A length field below the header's size *)

(** A block operation that gives a block of [k] bytes or leaves the block. *)
Definition fits (k : Z) (o : outcome bytes) : Prop :=
  match o with Ok b => zlen b = k | Fault f => f = OutOfBounds end.

Lemma write_fits k b off bs : zlen b = k -> fits k (write_bytes b off bs).
Proof.
  intros Hb. destruct (write_bytes b off bs) as [b'|f] eqn:E; cbn.
  - apply write_bytes_length in E. lia.
  - unfold write_bytes in E. destruct (_ && _); congruence.
Qed.
Lemma memcpy_fits k b off src soff n : zlen b = k -> fits k (memcpy b off src soff n).
Proof.
  intros Hb. unfold memcpy. destruct (read_bytes src soff n) as [x|f] eqn:E; cbn [obind].
  - by apply write_fits.
  - cbn. unfold read_bytes in E. destruct (_ && _); congruence.
Qed.
Lemma fits_oob {A} k o (K : bytes -> outcome A) :
  fits k o -> (forall b, zlen b = k -> K b = Fault OutOfBounds) -> obind o K = Fault OutOfBounds.
Proof. destruct o; cbn; [auto|]. by intros -> _. Qed.

Lemma wrap_short_oob d off size w :
  grants 18 -> 0xffffffed <= size < 0x100000000 ->
  is_content_info d off size = Ok false ->
  wrap_with_content_info (Some d) off size w = Fault OutOfBounds.
Proof.
  intros G Hs Hci. unfold wrap_with_content_info. rewrite Hci. cbn [obind].
  assert (Hk : 0 <= u32 (size + 19) <= 18).
  { replace (size + 19) with (size + 19 - 0x100000000 + 1 * 0x100000000) by lia.
    unfold u32. rewrite Z_mod_plus_full, Z.mod_small by lia. lia. }
  destruct (G _ Hk) as [block Hb]. rewrite Hb. apply malloc_size in Hb; [|lia].
  set (k := u32 (size + 19)) in *. clearbody k.
  do 8 (apply (fits_oob k); [by first [apply write_fits|apply memcpy_fits]|]; clear dependent block;
        intros block Hb).
  unfold write_bytes at 1. rewrite zlen_be16, (proj2 (Z.leb_gt _ (zlen block))) by lia. done.
Qed.

End content.

Section short.
Context `{Allocator} `{OpenSSL}.

(** C17: The length field of the descriptor is trusted.  A descriptor whose
    [dwLength] lies between 5 and 23, below the size of its own header, makes
    [verify_time_based_payload] write past the end of a heap block of at most
    18 bytes, before any signature is checked. *)
Theorem short_dwLength_overflows (s : auth_state) (n : bytes) (sz : Z) (g : EFI_GUID)
    (data_size attrs : Z) (ty : auth_var_t) (t : EFI_TIME) (dwLength : Z) :
  grants 18 ->
  auth_TimeStamp (au_data s) = Ok t -> timestamp_invalid t = false ->
  auth_wCertificateType (au_data s) = Ok WIN_CERT_TYPE_EFI_GUID ->
  auth_CertType (au_data s) = Ok gEfiCertPkcs7Guid ->
  auth_dwLength (au_data s) = Ok dwLength -> 5 <= dwLength < 24 ->
  is_content_info (au_data s) 40 (u32 (dwLength - 24)) = Ok false ->
  verify_time_based_payload n sz g data_size attrs ty None s = Fault OutOfBounds.
Proof.
  intros G Ht Hti Hct Hcg Hd Hr Hci.
  unfold verify_time_based_payload, bind, mget, mlift. rewrite Ht, Hti.
  rewrite Hct, Hcg. cbn [obind or_else]. rewrite Z.eqb_refl, (proj2 (compare_guid_spec _ _) eq_refl).
  unfold auth_sig_data_size, OFFSET_OF_CERTDATA. rewrite Hd. cbn [obind negb].
  rewrite wrap_short_oob; [done|done| |done].
  replace (dwLength - 24) with (dwLength - 24 + 0x100000000 + (-1) * 0x100000000) by lia.
  unfold u32. rewrite Z_mod_plus_full, Z.mod_small by lia. lia.
Qed.

End short.

(** ** The theorems at concrete inputs *)

(** Seventeen bytes that are not a ContentInfo: the SignedData of a PKCS#7
    without its wrapper. *)
Definition bare_SignedData : bytes := replicate 17 xaa.
(** An update of [db] whose descriptor claims a length of 6 bytes. *)
Definition short_descriptor : bytes :=
  time_bytes time_1 ++ le_encode 4 6 ++ le_encode 2 0x200 ++
  le_encode 2 WIN_CERT_TYPE_EFI_GUID ++ gEfiCertPkcs7Guid ++ replicate 20 xaa.

Lemma signed_content_exact_witness :
  exists content content_size,
    @build_new_data zero_allocator (time_bytes time_1 ++ [x07; x08]) name_A guid_1 key_attrs 16 2
    = Ok (Some (content, content_size)) /\
    read_bytes content 0 content_size
    = Ok (wchars [0x41] ++ guid_1 ++ le_encode 4 key_attrs
          ++ take 16 (time_bytes time_1 ++ [x07; x08])
          ++ take (Z.to_nat 2) (drop (Z.to_nat 16) (time_bytes time_1 ++ [x07; x08]))).
Proof.
  apply (@signed_content_exact zero_allocator (time_bytes time_1 ++ [x07; x08]) name_A guid_1
           [0x41] key_attrs 16 2);
    [apply zero_allocator_grants|split; [by repeat constructor|by exists []]|done..].
Defined.

Lemma wrapping_gives_content_info_witness :
  exists info b,
    is_content_info bare_SignedData 0 17 = Ok info /\
    @wrap_with_content_info zero_allocator (Some bare_SignedData) 0 17 0 = Ok (Some b, zlen b) /\
    b = (if info then [] else
           [x30; x82; byte_of_Z ((17 + 15) / 256); byte_of_Z ((17 + 15) mod 256); x06; x09]
           ++ mOidValue ++ [xa0; x82; byte_of_Z (17 / 256); byte_of_Z (17 mod 256)])
        ++ take (Z.to_nat 17) (drop (Z.to_nat 0) bare_SignedData) /\
    is_content_info b 0 (zlen b) = Ok true /\
    @wrap_with_content_info zero_allocator (Some b) 0 (zlen b) 0 = Ok (Some b, zlen b).
Proof.
  apply (@wrapping_gives_content_info zero_allocator bare_SignedData 0 17 0);
    [apply zero_allocator_grants|done..].
Defined.

Lemma short_dwLength_overflows_witness :
  @verify_time_based_payload zero_allocator toy_openssl EFI_IMAGE_SECURITY_DATABASE 6
    gEfiImageSecurityDatabaseGuid 60 key_attrs AUTH_VAR_TYPE_PAYLOAD None
    (user_state short_descriptor) = Fault OutOfBounds.
Proof.
  apply (@short_dwLength_overflows zero_allocator toy_openssl (user_state short_descriptor)
           EFI_IMAGE_SECURITY_DATABASE 6 gEfiImageSecurityDatabaseGuid 60 key_attrs
           AUTH_VAR_TYPE_PAYLOAD time_1 6);
    [apply zero_allocator_grants|by vm_compute..].
Defined.
