(* ===== verification/SigListSpec.v ===== *)
(** * Signature lists: what the routines compute

    A signature list as a structure with its encoding; on encoded lists, the
    format check and the filter of [src/uefi/auth.c] compute the functions on
    structures given here, never leave their objects and terminate. *)
From S2P Require Import Prelude EfiTypes Common UefiVariable Crypto SigList Samples AuthSamples.
From S2P Require Import Requests.

(** ** Structure and encoding *)
Record siglist : Type := mk_siglist {
  l_type : EFI_GUID;
  l_header : bytes;
  l_size : Z;              (** the size of each signature *)
  l_sigs : list bytes
}.

Definition list_total (l : siglist) : Z :=
  28 + zlen (l_header l) + l_size l * zlen (l_sigs l).

Definition list_head (l : siglist) (total : Z) : bytes :=
  l_type l ++ le_encode 4 total ++ le_encode 4 (zlen (l_header l)) ++ le_encode 4 (l_size l) ++
  l_header l.

Definition encode_list (l : siglist) : bytes := list_head l (list_total l) ++ concat (l_sigs l).
Definition encode_lists (ls : list siglist) : bytes := concat (encode_list <$> ls).

(** A list the encoding represents. *)
Record list_ok (l : siglist) : Prop := {
  lo_type : zlen (l_type l) = 16;
  lo_size : 1 <= l_size l < 0x80000000;
  lo_sigs : Forall (fun s => zlen s = l_size l) (l_sigs l);
  lo_total : list_total l < 0x80000000
}.

Lemma zlen_concat_sigs size (sigs : list bytes) :
  Forall (fun s => zlen s = size) sigs -> zlen (concat sigs) = size * zlen sigs.
Proof.
  induction 1 as [|s sigs Hs Hsigs IH]; [by rewrite Z.mul_comm|].
  cbn [concat]. rewrite zlen_app, zlen_cons, IH. lia.
Qed.

Lemma zlen_list_head l total : zlen (l_type l) = 16 -> zlen (list_head l total) = 28 + zlen (l_header l).
Proof. intros Ht. unfold list_head. zlia. Qed.

Lemma zlen_encode_list l : list_ok l -> zlen (encode_list l) = list_total l.
Proof.
  intros [Ht Hs Hsigs _]. unfold encode_list, list_total.
  rewrite zlen_app, zlen_list_head by done. rewrite (zlen_concat_sigs (l_size l)) by done. lia.
Qed.

Lemma list_total_bounds l :
  list_ok l -> 28 <= list_total l /\ 0 <= zlen (l_header l) /\ 0 <= zlen (l_sigs l) /\
    zlen (l_sigs l) <= list_total l /\ zlen (l_header l) <= list_total l /\
    0 <= l_size l * zlen (l_sigs l) <= list_total l - 28.
Proof.
  intros [_ Hs _ _]. unfold list_total. pose proof (zlen_nonneg (l_header l)).
  pose proof (zlen_nonneg (l_sigs l)). nia.
Qed.

(** ** Reading the fields of an encoded list *)
Section fields.
#[local] Set Default Proof Using "Type*".
Variables (d : bytes) (off : Z) (l : siglist).
Hypothesis (Hl : list_ok l) (Hh : holds d off (encode_list l)).

Lemma list_parts :
  holds d off (l_type l) /\ holds d (off + 16) (le_encode 4 (list_total l)) /\
  holds d (off + 20) (le_encode 4 (zlen (l_header l))) /\
  holds d (off + 24) (le_encode 4 (l_size l)) /\
  holds d (off + 28 + zlen (l_header l)) (concat (l_sigs l)).
Proof.
  pose proof Hh as P. unfold encode_list in P. apply holds_app in P as [Phead Psigs].
  rewrite zlen_list_head in Psigs by apply Hl. unfold list_head in Phead.
  apply holds_app in Phead as [P1 Phead]. rewrite (lo_type _ Hl) in Phead.
  apply holds_app in Phead as [P2 Phead]. rewrite zlen_le_encode in Phead.
  apply holds_app in Phead as [P3 Phead]. rewrite zlen_le_encode in Phead.
  apply holds_app in Phead as [P4 _].
  replace (off + 16 + Z.of_nat 4) with (off + 20) in * by lia.
  replace (off + 20 + Z.of_nat 4) with (off + 24) in * by lia.
  replace (off + (28 + zlen (l_header l))) with (off + 28 + zlen (l_header l)) in Psigs by lia.
  done.
Qed.

Lemma read_type : sl_SignatureType d off = Ok (l_type l).
Proof. destruct list_parts as (P & _). by apply (holds_read _ _ _ _ P); rewrite (lo_type _ Hl). Qed.
Lemma read_list_size : sl_SignatureListSize d off = Ok (list_total l).
Proof.
  destruct list_parts as (_ & P & _). apply (holds_read_le _ _ _ _ P).
  pose proof (list_total_bounds _ Hl). pose proof (lo_total _ Hl). lia.
Qed.
Lemma read_header_size : sl_SignatureHeaderSize d off = Ok (zlen (l_header l)).
Proof.
  destruct list_parts as (_ & _ & P & _). apply (holds_read_le _ _ _ _ P).
  pose proof (list_total_bounds _ Hl). pose proof (lo_total _ Hl). lia.
Qed.
Lemma read_signature_size : sl_SignatureSize d off = Ok (l_size l).
Proof.
  destruct list_parts as (_ & _ & _ & P & _). apply (holds_read_le _ _ _ _ P).
  pose proof (lo_size _ Hl). lia.
Qed.
Lemma sigs_size_ok : sigs_size (list_total l) (zlen (l_header l)) = l_size l * zlen (l_sigs l).
Proof.
  unfold sigs_size, sizeof_EFI_SIGNATURE_LIST. pose proof (list_total_bounds _ Hl).
  pose proof (lo_total _ Hl). unfold list_total in *. rewrite u64_id by lia. lia.
Qed.
Lemma sig_count_ok :
  udiv (sigs_size (list_total l) (zlen (l_header l))) (l_size l) = Ok (zlen (l_sigs l)).
Proof.
  rewrite sigs_size_ok. unfold udiv. pose proof (lo_size _ Hl).
  rewrite (proj2 (Z.eqb_neq (l_size l) 0)) by lia. rewrite Z.mul_comm, Z.div_mul by lia. done.
Qed.
Lemma sig_rest_ok :
  umod (sigs_size (list_total l) (zlen (l_header l))) (l_size l) = Ok 0.
Proof.
  rewrite sigs_size_ok. unfold umod. pose proof (lo_size _ Hl).
  rewrite (proj2 (Z.eqb_neq (l_size l) 0)) by lia. by rewrite Z.mul_comm, Z.mod_mul by lia.
Qed.
Lemma sigs_at : holds d (off + sizeof_EFI_SIGNATURE_LIST + zlen (l_header l)) (concat (l_sigs l)).
Proof. by destruct list_parts as (_ & _ & _ & _ & P). Qed.

End fields.

(** ** The filter *)

(** Is the signature in a list of this type and signature size? *)
Definition known (olds : list siglist) (type : EFI_GUID) (size : Z) (sig : bytes) : bool :=
  existsb (fun l => compare_guid (l_type l) type && (l_size l =? size)
                    && bool_decide (sig ∈ l_sigs l)) olds.

(** The signatures of a list that are new; a list without any is dropped. *)
Definition is_new (olds : list siglist) (l : siglist) (s : bytes) : Prop :=
  known olds (l_type l) (l_size l) s = false.
#[export] Instance is_new_dec olds l s : Decision (is_new olds l s).
Proof. unfold is_new. apply _. Defined.

Definition new_sigs (olds : list siglist) (l : siglist) : list bytes :=
  filter (is_new olds l) (l_sigs l).
Definition filter_list (olds : list siglist) (l : siglist) : list siglist :=
  match new_sigs olds l with
  | [] => []
  | sigs => [mk_siglist (l_type l) (l_header l) (l_size l) sigs]
  end.
Definition filter_lists (olds news : list siglist) : list siglist :=
  concat (filter_list olds <$> news).

(** The next signature of a run of them. *)
Lemma holds_sig d off s sigs : holds d off (concat (s :: sigs)) ->
  holds d off s /\ holds d (off + zlen s) (concat sigs).
Proof. apply holds_app. Qed.

Lemma memcmp_eq_holds a aoff b boff x y n :
  holds a aoff x -> holds b boff y -> zlen x = n -> zlen y = n ->
  memcmp_eq a aoff b boff n = Ok (bool_decide (x = y)).
Proof.
  intros Hx Hy Lx Ly. unfold memcmp_eq.
  by rewrite (holds_read _ _ _ _ Hx), (holds_read _ _ _ _ Hy) by done.
Qed.

Lemma match_cert_ok fuel data cert new_data new_cert size sigs sig j :
  1 <= size -> Forall (fun s => zlen s = size) sigs -> zlen sig = size ->
  holds data cert (concat sigs) -> holds new_data new_cert sig -> (length sigs <= fuel)%nat ->
  match_cert_loop fuel data cert new_data new_cert size j (j + zlen sigs)
  = Ok (bool_decide (sig ∈ sigs)).
Proof.
  intros Hsize Hsigs Hsig. revert fuel cert j.
  induction Hsigs as [|s sigs Hs Hsigs IH]; intros fuel cert j Hd Hn Hf.
  { rewrite zlen_nil, Z.add_0_r. destruct fuel; cbn [match_cert_loop]; rewrite Z.ltb_irrefl;
      by rewrite bool_decide_false by apply not_elem_of_nil. }
  destruct fuel as [|fuel]; [cbn in Hf; lia|].
  apply holds_sig in Hd as [Hd1 Hd2]. rewrite Hs in Hd2.
  cbn [match_cert_loop]. pose proof (zlen_nonneg sigs).
  rewrite (proj2 (Z.ltb_lt j (j + zlen (s :: sigs)))) by (rewrite zlen_cons; lia).
  rewrite (memcmp_eq_holds _ _ _ _ sig s) by done. cbn [obind].
  destruct (bool_decide_reflect (sig = s)) as [->|Hne].
  - by rewrite bool_decide_true by by left.
  - rewrite zlen_cons, Z.add_assoc. rewrite IH by (done || (cbn in Hf; lia)).
    f_equal. apply bool_decide_ext. rewrite elem_of_cons. tauto.
Qed.

Lemma encode_lists_cons l ls : encode_lists (l :: ls) = encode_list l ++ encode_lists ls.
Proof. done. Qed.

Lemma known_cert_ok fuel data off new_data new_off l cert sig olds :
  list_ok l -> holds new_data new_off (encode_list l) -> holds new_data cert sig ->
  zlen sig = l_size l -> Forall list_ok olds -> holds data off (encode_lists olds) ->
  (length olds <= fuel)%nat ->
  known_cert_loop fuel data off (zlen (encode_lists olds)) new_data new_off cert
  = Ok (known olds (l_type l) (l_size l) sig).
Proof.
  intros Hl Hnew Hcert Hsig Holds. revert fuel off.
  induction Holds as [|o olds Ho Holds IH]; intros fuel off Hd Hf.
  { by destruct fuel. }
  destruct fuel as [|fuel]; [cbn in Hf; lia|].
  rewrite encode_lists_cons in Hd. apply holds_app in Hd as [Hd1 Hd2].
  pose proof (list_total_bounds _ Ho) as B. pose proof (zlen_nonneg (encode_lists olds)).
  rewrite encode_lists_cons, zlen_app, zlen_encode_list in * by done.
  cbn [known_cert_loop]. rewrite !Z.gtb_ltb, (proj2 (Z.ltb_lt 0 (list_total o + zlen (encode_lists olds)))) by lia.
  rewrite (read_list_size _ _ _ Ho Hd1). cbn [obind].
  rewrite Z.geb_leb, (proj2 (Z.leb_le (list_total o) _)) by lia.
  rewrite (read_type _ _ _ Ho Hd1), (read_type _ _ _ Hl Hnew),
    (read_signature_size _ _ _ Ho Hd1), (read_signature_size _ _ _ Hl Hnew). cbn [obind].
  unfold known. cbn [existsb]. fold (known olds (l_type l) (l_size l) sig).
  replace (list_total o + zlen (encode_lists olds) - list_total o)
    with (zlen (encode_lists olds)) by lia.
  destruct (compare_guid _ _ && _) eqn:Esame; cbn [andb orb obind]; [|apply IH; [done|cbn in Hf; lia]].
  apply andb_true_iff in Esame as [_ Esize%Z.eqb_eq].
  rewrite (read_header_size _ _ _ Ho Hd1). cbn [obind].
  rewrite (sig_count_ok _ _ _ Ho Hd1). cbn [obind].
  pose proof (sigs_at _ _ _ Ho Hd1) as Hsigs.
  rewrite <-(Z.add_0_l (zlen (l_sigs o))).
  rewrite (match_cert_ok _ _ _ _ _ _ _ sig);
    [|apply Ho|apply Ho|congruence|done|done|].
  - cbn [obind]. destruct (bool_decide _); [done|]. apply IH; [done|cbn in Hf; lia].
  - pose proof (holds_range _ _ _ Hsigs) as [R1 R2].
    rewrite (zlen_concat_sigs (l_size o)) in R2 by apply Ho.
    pose proof (lo_size _ Ho). unfold zlen in R2 at 1. unfold sizeof_EFI_SIGNATURE_LIST in *.
    assert (zlen (l_sigs o) <= zlen data) by (unfold zlen in *; nia). unfold zlen in *. lia.
Qed.

Lemma memcpy_holds w rest off src soff bs n :
  zlen w = off -> holds src soff bs -> n = zlen bs -> zlen bs <= zlen rest ->
  memcpy (w ++ rest) off src soff n = Ok ((w ++ bs) ++ drop (length bs) rest).
Proof.
  intros Hw Hs Hn Hr. unfold memcpy. rewrite (holds_read _ _ _ _ Hs Hn). cbn [obind].
  by apply write_next.
Qed.

Lemma length_encode_lists olds :
  Forall list_ok olds -> (length olds <= Z.to_nat (zlen (encode_lists olds)))%nat.
Proof.
  induction 1 as [|o olds Ho _ IH]; [cbn; lia|].
  rewrite encode_lists_cons, zlen_app, zlen_encode_list by done.
  pose proof (list_total_bounds _ Ho). pose proof (zlen_nonneg (encode_lists olds)).
  cbn [length]. lia.
Qed.

Section filter.
Variables (olds : list siglist) (data new_data : bytes) (l : siglist) (new_off : Z).
Hypothesis (Holds : Forall list_ok olds) (Hdata : holds data 0 (encode_lists olds)).
Hypothesis (Hl : list_ok l) (Hnew : holds new_data new_off (encode_list l)).
#[local] Set Default Proof Using "Type*".

(** The header is copied before the first signature kept. *)
Definition head_once (copied : Z) (kept : list bytes) : bytes :=
  if (copied =? 0) && negb (bool_decide (kept = [])) then list_head l (list_total l) else [].

(** The head of the list is written before its first signature. *)
Lemma copy_head_ok copied w rest :
  let h := if copied =? 0 then list_head l (list_total l) else [] in
  zlen h <= zlen rest ->
  (if copied =? 0 then
     let* t := memcpy (w ++ rest) (zlen w) new_data new_off
                 (u64 (sizeof_EFI_SIGNATURE_LIST + zlen (l_header l))) in
     Ok (zlen w + u64 (sizeof_EFI_SIGNATURE_LIST + zlen (l_header l)), t)
   else Ok (zlen w, w ++ rest)) = Ok (zlen (w ++ h), (w ++ h) ++ drop (length h) rest).
Proof.
  cbv zeta. destruct (copied =? 0); [|by rewrite app_nil_r]. intros Hroom.
  pose proof (list_total_bounds _ Hl). pose proof (lo_total _ Hl).
  unfold sizeof_EFI_SIGNATURE_LIST. rewrite u64_id by lia.
  pose proof Hnew as Hn. unfold encode_list in Hn. apply holds_app in Hn as [Hn _].
  rewrite (memcpy_holds _ _ _ _ _ (list_head l (list_total l)));
    [|done|done|by rewrite zlen_list_head by apply Hl|lia].
  cbn [obind]. by rewrite zlen_app, zlen_list_head by apply Hl.
Qed.

Lemma copy_certs_ok fuel cert sigs i copied w rest :
  Forall (fun s => zlen s = l_size l) sigs -> holds new_data cert (concat sigs) ->
  (length sigs <= fuel)%nat -> 0 <= copied -> copied + zlen sigs < 0x100000000 ->
  let out := head_once copied (filter (is_new olds l) sigs) ++ concat (filter (is_new olds l) sigs) in
  zlen out <= zlen rest ->
  copy_certs_loop fuel data (zlen (encode_lists olds)) new_data new_off cert
    (zlen (l_header l)) (l_size l) i (i + zlen sigs) copied (zlen w) (w ++ rest)
  = Ok (copied + zlen (filter (is_new olds l) sigs), zlen (w ++ out), (w ++ out) ++ drop (length out) rest).
Proof.
  intros Hsigs. revert fuel cert i copied w rest.
  induction Hsigs as [|s sigs Hs Hsigs IH]; intros fuel cert i copied w rest Hh Hf Hc Hmax.
  { cbv zeta. intros _. unfold head_once. rewrite filter_nil.
    rewrite bool_decide_true by done. cbn [negb]. rewrite andb_false_r. cbn [app concat length].
    rewrite drop_0, app_nil_r, zlen_nil, !Z.add_0_r.
    destruct fuel; cbn [copy_certs_loop]; by rewrite Z.ltb_irrefl. }
  destruct fuel as [|fuel]; [cbn in Hf; lia|].
  apply holds_sig in Hh as [Hh1 Hh2]. rewrite Hs in Hh2. pose proof (zlen_nonneg sigs).
  rewrite zlen_cons in *. cbv zeta. intros Hroom. cbn [copy_certs_loop].
  rewrite (proj2 (Z.ltb_lt i (i + (1 + zlen sigs)))) by lia.
  rewrite (known_cert_ok _ _ _ _ _ l _ s olds) by
    (done || (pose proof (length_encode_lists _ Holds); lia)).
  cbn [obind]. cbv zeta. replace (i + (1 + zlen sigs)) with (i + 1 + zlen sigs) by lia.
  rewrite filter_cons in *.
  destruct (decide (is_new olds l s)) as [Hk|Hk%not_false_is_true].
  - unfold is_new in Hk. rewrite Hk. cbn [concat].
    assert (Hhead : head_once copied (s :: filter (is_new olds l) sigs)
                    = if copied =? 0 then list_head l (list_total l) else []).
    { unfold head_once. rewrite bool_decide_false by done. by destruct (copied =? 0). }
    cbn [concat] in Hroom. rewrite Hhead in *.
    set (h := if copied =? 0 then list_head l (list_total l) else []) in *.
    rewrite !zlen_app in Hroom.
    pose proof (zlen_nonneg h). pose proof (zlen_nonneg (concat (filter (is_new olds l) sigs))).
    pose proof (zlen_nonneg s). pose proof (copy_head_ok copied w rest) as Hcopy. cbv zeta in Hcopy.
    fold h in Hcopy. rewrite Hcopy by lia. cbn [obind].
    rewrite (memcpy_holds _ _ _ _ _ s) by (done || zlia). cbn [obind].
    rewrite u64_id by lia.
    replace (zlen (w ++ h) + l_size l) with (zlen ((w ++ h) ++ s)) by (rewrite (zlen_app (w ++ h)), Hs; done).
    rewrite drop_drop.
    rewrite IH by (done || lia || (cbn in Hf; lia) ||
      (unfold head_once; rewrite (proj2 (Z.eqb_neq (copied + 1) 0)) by lia; cbn [andb app];
       zlia)).
    unfold head_once. rewrite (proj2 (Z.eqb_neq (copied + 1) 0)) by lia. cbn [andb app].
    rewrite !zlen_cons, <-!app_assoc, drop_drop, !length_app, Nat.add_assoc.
    by rewrite Z.add_assoc.
  - rewrite Hk. rewrite IH by (done || lia || (cbn in Hf; lia)). done.
Qed.

End filter.

(** What is kept of one list. *)
Lemma filter_list_nil olds l : new_sigs olds l = [] -> encode_lists (filter_list olds l) = [].
Proof. unfold filter_list. by intros ->. Qed.

Lemma filter_list_encode olds l :
  new_sigs olds l <> [] ->
  encode_lists (filter_list olds l)
  = list_head l (28 + zlen (l_header l) + zlen (new_sigs olds l) * l_size l)
    ++ concat (new_sigs olds l).
Proof.
  unfold filter_list. destruct (new_sigs olds l) as [|s sigs]; [done|]. intros _.
  unfold encode_lists. cbn [fmap list_fmap concat]. rewrite app_nil_r.
  unfold encode_list, list_total, list_head. cbn [l_type l_header l_size l_sigs].
  by rewrite (Z.mul_comm (l_size l)).
Qed.

Lemma new_sigs_ok olds l : list_ok l -> Forall (fun s => zlen s = l_size l) (new_sigs olds l).
Proof.
  intros Hl. apply Forall_forall. intros s [_ Hs]%list_elem_of_filter.
  exact (proj1 (Forall_forall _ _) (lo_sigs _ Hl) s Hs).
Qed.

Lemma zlen_new_sigs olds l : 0 <= zlen (new_sigs olds l) <= zlen (l_sigs l).
Proof.
  split; [apply zlen_nonneg|]. unfold new_sigs, zlen.
  pose proof (length_filter (is_new olds l) (l_sigs l)). lia.
Qed.

Lemma zlen_filter_list olds l :
  list_ok l -> zlen (encode_lists (filter_list olds l)) <= list_total l.
Proof.
  intros Hl. pose proof (list_total_bounds _ Hl) as B. pose proof (lo_size _ Hl).
  pose proof (zlen_new_sigs olds l).
  destruct (decide (new_sigs olds l = [])) as [He|He];
    [rewrite filter_list_nil, zlen_nil by done; lia|].
  rewrite filter_list_encode, zlen_app, zlen_list_head by (done || apply Hl).
  rewrite (zlen_concat_sigs (l_size l)) by by apply new_sigs_ok. unfold list_total in *. nia.
Qed.

Lemma encode_lists_app a b : encode_lists (a ++ b) = encode_lists a ++ encode_lists b.
Proof. unfold encode_lists. by rewrite fmap_app, concat_app. Qed.

Lemma zlen_filter_lists olds news :
  Forall list_ok news -> zlen (encode_lists (filter_lists olds news)) <= zlen (encode_lists news).
Proof.
  induction 1 as [|l news Hl _ IH]; [done|]. unfold filter_lists in *. cbn [fmap list_fmap concat].
  rewrite encode_lists_app, encode_lists_cons, !zlen_app, zlen_encode_list by done.
  pose proof (zlen_filter_list olds l Hl). lia.
Qed.

(** One round of the loop over the lists, and the loop. *)
Section filter_lists.
Variables (olds : list siglist) (data new_data : bytes).
Hypothesis (Holds : Forall list_ok olds) (Hdata : holds data 0 (encode_lists olds)).
#[local] Set Default Proof Using "Type*".

Lemma filter_one_ok l off w rest :
  list_ok l -> holds new_data off (encode_list l) ->
  zlen (encode_lists (filter_list olds l)) <= zlen rest ->
  (let* (copied_tail, Tempdata) :=
     copy_certs_loop (S (length new_data)) data (zlen (encode_lists olds)) new_data off
       (off + sizeof_EFI_SIGNATURE_LIST + zlen (l_header l)) (zlen (l_header l)) (l_size l) 0
       (zlen (l_sigs l)) 0 (zlen w) (w ++ rest) in
   let '(copied, Tail) := copied_tail in
   let* Tempdata :=
     if negb (copied =? 0) then
       let SignatureListSize :=
         u64 (sizeof_EFI_SIGNATURE_LIST + zlen (l_header l) + copied * l_size l) in
       write_bytes Tempdata (Tail - SignatureListSize + 16) (le_encode 4 SignatureListSize)
     else Ok Tempdata in
   Ok (Tail, Tempdata))
  = Ok (zlen (w ++ encode_lists (filter_list olds l)),
        (w ++ encode_lists (filter_list olds l))
        ++ drop (length (encode_lists (filter_list olds l))) rest).
Proof.
  intros Hl Hh Hroom. pose proof (sigs_at _ _ _ Hl Hh) as Hs.
  pose proof (list_total_bounds _ Hl) as B. pose proof (lo_total _ Hl). pose proof (lo_size _ Hl).
  pose proof (zlen_new_sigs olds l) as Hk.
  assert (Hcopy := copy_certs_ok olds data new_data l off Holds Hdata Hl Hh
    (S (length new_data)) _ (l_sigs l) 0 0 w rest (lo_sigs _ Hl) Hs). cbv zeta in Hcopy.
  rewrite Z.add_0_l in Hcopy. fold (new_sigs olds l) in Hcopy.
  assert (Hfuel : (length (l_sigs l) <= S (length new_data))%nat).
  { pose proof (holds_range _ _ _ Hs) as [R1 R2].
    rewrite (zlen_concat_sigs (l_size l)) in R2 by apply Hl.
    unfold sizeof_EFI_SIGNATURE_LIST in *.
    assert (zlen (l_sigs l) <= zlen new_data) by nia. unfold zlen in *. lia. }
  destruct (decide (new_sigs olds l = [])) as [He|He].
  - rewrite He in *. unfold head_once in Hcopy. rewrite bool_decide_true in Hcopy by done.
    cbn [negb Z.eqb andb app concat length] in Hcopy.
    rewrite Hcopy by (done || lia || (rewrite zlen_nil; apply zlen_nonneg)).
    rewrite filter_list_nil by done. done.
  - rewrite filter_list_encode in * by done. unfold head_once in Hcopy.
    rewrite bool_decide_false in Hcopy by done. cbn [negb Z.eqb andb] in Hcopy.
    set (kept := new_sigs olds l) in *.
    assert (Hpos : 1 <= zlen kept).
    { destruct kept; [done|]. rewrite zlen_cons. pose proof (zlen_nonneg kept). lia. }
    assert (Hconcat : zlen (concat kept) = l_size l * zlen kept)
      by (apply zlen_concat_sigs, new_sigs_ok, Hl).
    rewrite !zlen_app, !zlen_list_head in * by apply Hl.
    rewrite Hcopy by (done || lia). cbn [obind]. rewrite Z.add_0_l.
    rewrite (proj2 (Z.eqb_neq (zlen kept) 0)) by lia. cbn [negb].
    unfold sizeof_EFI_SIGNATURE_LIST. cbv zeta.
    assert (zlen kept * l_size l <= l_size l * zlen (l_sigs l)) by nia.
    rewrite u64_id by nia.
    replace (zlen w + (28 + zlen (l_header l) + zlen (concat kept)) -
             (28 + zlen (l_header l) + zlen kept * l_size l) + 16) with (zlen w + 16) by lia.
    assert (Hlen : forall total, length (list_head l total ++ concat kept)
                   = Z.to_nat (28 + zlen (l_header l) + zlen (concat kept))).
    { intros total. pose proof (zlen_app (list_head l total) (concat kept)) as L.
      rewrite zlen_list_head in L by apply Hl. unfold zlen in *. lia. }
    rewrite !Hlen. unfold list_head. rewrite <-!app_assoc, !(app_assoc w (l_type l)).
    rewrite (write_mid (w ++ l_type l));
      [done|by rewrite zlen_app, (lo_type _ Hl)|by rewrite !zlen_le_encode].
Qed.

Lemma filter_lists_ok fuel off news w rest :
  Forall list_ok news -> holds new_data off (encode_lists news) -> (length news <= fuel)%nat ->
  let out := encode_lists (filter_lists olds news) in
  zlen out <= zlen rest ->
  filter_lists_loop fuel data (zlen (encode_lists olds)) new_data off
    (zlen (encode_lists news)) (zlen w) (w ++ rest)
  = Ok (zlen (w ++ out), (w ++ out) ++ drop (length out) rest).
Proof.
  intros Hnews. revert fuel off w rest.
  induction Hnews as [|l news Hl Hnews IH]; intros fuel off w rest Hh Hf; cbv zeta; intros Hroom.
  { destruct fuel; cbn [filter_lists_loop filter_lists encode_lists fmap list_fmap concat length];
      by rewrite drop_0, app_nil_r. }
  destruct fuel as [|fuel]; [cbn in Hf; lia|].
  rewrite encode_lists_cons in Hh. apply holds_app in Hh as [Hh1 Hh2].
  rewrite zlen_encode_list in Hh2 by done.
  pose proof (list_total_bounds _ Hl) as B. pose proof (zlen_nonneg (encode_lists news)).
  assert (Hout : encode_lists (filter_lists olds (l :: news))
                 = encode_lists (filter_list olds l) ++ encode_lists (filter_lists olds news))
    by apply encode_lists_app.
  rewrite Hout, zlen_app in Hroom. rewrite Hout.
  pose proof (zlen_nonneg (encode_lists (filter_list olds l))).
  pose proof (zlen_nonneg (encode_lists (filter_lists olds news))).
  rewrite encode_lists_cons, (zlen_app (encode_list l)), zlen_encode_list by done.
  cbn [filter_lists_loop].
  rewrite Z.gtb_ltb, (proj2 (Z.ltb_lt 0 (list_total l + zlen (encode_lists news)))) by lia.
  rewrite (read_list_size _ _ _ Hl Hh1). cbn [obind].
  rewrite Z.geb_leb, (proj2 (Z.leb_le (list_total l) _)) by lia.
  rewrite (read_header_size _ _ _ Hl Hh1), (read_signature_size _ _ _ Hl Hh1). cbn [obind].
  rewrite (sig_count_ok _ _ _ Hl Hh1). cbn [obind].
  pose proof (filter_one_ok l off w rest Hl Hh1) as Hone.
  destruct (copy_certs_loop _ _ _ _ _ _ _ _ _ _ _ _ _) as [[[copied Tail] T]|f];
    [|specialize (Hone ltac:(lia)); done].
  cbn [obind] in Hone |- *. cbv zeta in Hone |- *.
  destruct (if negb (copied =? 0) then _ else _) as [T'|f];
    [|specialize (Hone ltac:(lia)); done].
  cbn [obind] in Hone |- *. specialize (Hone ltac:(lia)). injection Hone as -> ->.
  replace (list_total l + zlen (encode_lists news) - list_total l)
    with (zlen (encode_lists news)) by lia.
  rewrite IH; [|done|cbn in Hf; lia|rewrite zlen_drop; unfold zlen in *; lia].
  by rewrite <-!app_assoc, drop_drop, length_app.
Qed.

End filter_lists.

(** The filter on encoded lists. *)
Lemma filter_signature_list_ok `{Allocator} (olds news : list siglist)
    (data pre post : bytes) :
  Forall list_ok olds -> Forall list_ok news -> holds data 0 (encode_lists olds) ->
  grants (zlen (encode_lists news)) ->
  FilterSignatureList data (zlen (encode_lists olds)) (pre ++ encode_lists news ++ post)
    (zlen pre) (zlen (encode_lists news))
  = Ok (EFI_SUCCESS,
        pre ++ overwrite (encode_lists (filter_lists olds news)) (encode_lists news) ++ post,
        zlen (encode_lists (filter_lists olds news))).
Proof.
  intros Holds Hnews Hdata G. set (out := encode_lists (filter_lists olds news)).
  pose proof (zlen_filter_lists olds news Hnews) as Hle. fold out in Hle.
  pose proof (zlen_nonneg (encode_lists news)). pose proof (zlen_nonneg out).
  unfold FilterSignatureList, overwrite.
  destruct (Z.eqb_spec (zlen (encode_lists news)) 0) as [E0|E0].
  { assert (Ho : out = []) by (apply zlen_nil_inv; lia). rewrite Ho, E0. done. }
  destruct (G (zlen (encode_lists news))) as [block Hb]; [lia|]. rewrite Hb.
  apply malloc_size in Hb; [|lia].
  pose proof (filter_lists_ok olds data (pre ++ encode_lists news ++ post) Holds Hdata
    (S (Z.to_nat (zlen (encode_lists news)))) (zlen pre) news [] block Hnews) as Hrun.
  cbv zeta in Hrun. rewrite !app_nil_l in Hrun. change (zlen []) with 0 in Hrun. fold out in Hrun.
  rewrite Hrun; [|by exists pre, post|pose proof (length_encode_lists _ Hnews); lia|lia].
  cbn [obind]. rewrite (memcpy_holds pre _ _ _ _ out);
    [|done|by exists [], (drop (length out) block)|done|rewrite zlen_app; pose proof (zlen_nonneg post); lia].
  cbn [obind]. rewrite <-!app_assoc. do 4 f_equal.
  rewrite drop_app_le; [done|unfold zlen in *; lia].
Qed.

(** C25: Appending to a signature database adds exactly the new signatures.  On
    encoded lists, [FilterSignatureList] terminates without leaving either
    object and replaces the new data by the encoding of the lists whose
    signatures are those that occur in no list of the old data of the same type
    and signature size, in their order, with the lists left empty removed; the
    rest of the block is untouched. *)
Theorem filter_keeps_new_signatures `{Allocator} (olds news : list siglist)
    (data pre post : bytes) :
  Forall list_ok olds -> Forall list_ok news -> holds data 0 (encode_lists olds) ->
  grants (zlen (encode_lists news)) ->
  FilterSignatureList data (zlen (encode_lists olds)) (pre ++ encode_lists news ++ post)
    (zlen pre) (zlen (encode_lists news))
  = Ok (EFI_SUCCESS,
        pre ++ overwrite (encode_lists (filter_lists olds news)) (encode_lists news) ++ post,
        zlen (encode_lists (filter_lists olds news))).
Proof. exact (filter_signature_list_ok olds news data pre post). Qed.

(** ** The format check *)
Section check.
Context `{OpenSSL}.

(** Does the first certificate of an X.509 list parse and hold an RSA key? *)
Definition first_cert_ok (l : siglist) : bool :=
  match l_sigs l with
  | [] => false
  | sig :: _ =>
      (16 <=? l_size l) &&
      match d2i_X509 (drop 16 sig) with Some c => X509_has_rsa_pubkey c | None => false end
  end.

(** A list of a supported type, with that type's header and data sizes. *)
Definition list_accepted (l : siglist) : bool :=
  match list_find (fun e => e.1.1 = l_type l) supported_sigs with
  | None => false
  | Some (_, (_, h, d)) =>
      ((d =? ANY_SIZE) || (l_size l =? 16 + d)) && ((h =? ANY_SIZE) || (zlen (l_header l) =? h))
  end && (if compare_guid (l_type l) gEfiCertX509Guid then first_cert_ok l else true).

(** Which names are checked: [Some true] for PK, [Some false] for the others. *)
Definition checked_name (g : EFI_GUID) (cs : list Z) : option bool :=
  if compare_guid g gEfiGlobalVariableGuid then
    if bool_decide (cs = [0x50; 0x4b]) then Some true
    else if bool_decide (cs = [0x4b; 0x45; 0x4b]) then Some false else None
  else if compare_guid g gEfiImageSecurityDatabaseGuid then
    if bool_decide (cs ∈ [[0x64; 0x62]; [0x64; 0x62; 0x78]; [0x64; 0x62; 0x74]])
    then Some false else None
  else None.

Definition sig_count (ls : list siglist) : Z := zlen (concat (l_sigs <$> ls)).

Lemma check_sig_item_ok items l :
  list_ok l -> Forall (fun e => 0 <= e.2 < 0x100000000) items ->
  (check_sig_item items (l_type l) (zlen (l_header l)) (l_size l) =? EFI_SUCCESS)
  = match list_find (fun e => e.1.1 = l_type l) items with
    | None => false
    | Some (_, (_, h, d)) =>
        ((d =? ANY_SIZE) || (l_size l =? 16 + d)) && ((h =? ANY_SIZE) || (zlen (l_header l) =? h))
    end.
Proof.
  intros Hl. pose proof (lo_size _ Hl) as Hs.
  induction 1 as [|[[t h] d] items Hd _ IH]; [done|].
  cbn [check_sig_item list_find fst snd] in *. unfold compare_guid.
  destruct (decide (t = l_type l)) as [->|Hne].
  - rewrite bool_decide_true by done.
    assert (Hu : (u64 (l_size l - sizeof_EFI_GUID) =? d) = (l_size l =? 16 + d)).
    { unfold sizeof_EFI_GUID. destruct (Z.leb_spec 16 (l_size l)).
      - rewrite u64_id by lia. apply eq_true_iff_eq. rewrite !Z.eqb_eq. lia.
      - rewrite (proj2 (Z.eqb_neq (l_size l) _)) by lia. apply Z.eqb_neq.
        unfold u64. rewrite <-(Z_mod_plus_full _ 1), Z.mod_small by lia. lia. }
    rewrite Hu. by destruct (d =? ANY_SIZE), (l_size l =? 16 + d), (h =? ANY_SIZE),
      (zlen (l_header l) =? h).
  - rewrite bool_decide_false by congruence. rewrite IH. by destruct (list_find _ items) as [[]|].
Qed.

Lemma supported_sizes : Forall (fun e => 0 <= e.2 < 0x100000000) supported_sigs.
Proof. repeat constructor; vm_compute; congruence. Qed.

Lemma first_cert_read d off l :
  list_ok l -> holds d off (encode_list l) -> l_sigs l <> [] ->
  rsa_get_pub_key_from_x509 (Some d) (off + sizeof_EFI_SIGNATURE_LIST + zlen (l_header l) + 16)
    (u64 (l_size l - sizeof_EFI_GUID)) = Ok (first_cert_ok l).
Proof.
  intros Hl Hh Hne. pose proof (sigs_at _ _ _ Hl Hh) as Hs. pose proof (lo_size _ Hl).
  pose proof (lo_sigs _ Hl) as Hf. unfold first_cert_ok, sizeof_EFI_GUID.
  destruct (l_sigs l) as [|sig sigs]; [done|]. apply Forall_cons in Hf as [Hsig _].
  apply holds_sig in Hs as [Hs _]. unfold rsa_get_pub_key_from_x509, x509_construct_certificate.
  destruct (Z.leb_spec 16 (l_size l)) as [H16|H16]; cbn [andb].
  - rewrite u64_id by lia. unfold INT_MAX. rewrite Z.gtb_ltb, (proj2 (Z.ltb_ge _ (l_size l - 16))) by lia.
    rewrite <-(take_drop 16 sig) in Hs. apply holds_app in Hs as [_ Hs].
    replace (zlen (take 16 sig)) with 16 in Hs by (rewrite zlen_take; lia).
    rewrite (holds_read _ _ _ _ Hs) by (rewrite zlen_drop; lia). cbn [obind].
    by destruct (d2i_X509 _).
  - assert (Hu : u64 (l_size l - 16) = l_size l - 16 + 0x10000000000000000).
    { unfold u64. rewrite <-(Z_mod_plus_full _ 1), Z.mod_small by lia. lia. }
    rewrite Hu. unfold INT_MAX. rewrite Z.gtb_ltb, (proj2 (Z.ltb_lt _ (l_size l - 16 + _))) by lia.
    done.
Qed.

Lemma check_lists_ok fuel d off ls count :
  Forall list_ok ls -> Forall (fun l => l_type l = gEfiCertX509Guid -> l_sigs l <> []) ls ->
  holds d off (encode_lists ls) -> (length ls <= fuel)%nat -> 0 <= count ->
  count + sig_count ls < 0x100000000 ->
  check_lists_loop fuel d off (zlen (encode_lists ls)) count
  = Ok (if forallb list_accepted ls then inr (off + zlen (encode_lists ls), count + sig_count ls)
        else inl EFI_INVALID_PARAMETER).
Proof.
  intros Hls. revert fuel off count.
  induction Hls as [|l ls Hl Hls IH]; intros fuel off count Hx Hh Hf Hc Hmax.
  { destruct fuel; cbn [check_lists_loop]; unfold sig_count, encode_lists;
      cbn [fmap list_fmap concat]; rewrite zlen_nil, !Z.add_0_r; done. }
  destruct fuel as [|fuel]; [cbn in Hf; lia|].
  apply Forall_cons in Hx as [Hx1 Hx].
  rewrite encode_lists_cons in *. apply holds_app in Hh as [Hh1 Hh2].
  rewrite zlen_encode_list in Hh2 by done.
  pose proof (list_total_bounds _ Hl) as B. pose proof (zlen_nonneg (encode_lists ls)).
  assert (Hcount : sig_count (l :: ls) = zlen (l_sigs l) + sig_count ls)
    by (unfold sig_count; cbn [fmap list_fmap concat]; by rewrite zlen_app).
  assert (0 <= sig_count ls) by apply zlen_nonneg.
  rewrite zlen_app, zlen_encode_list by done.
  cbn [check_lists_loop forallb].
  rewrite Z.gtb_ltb, (proj2 (Z.ltb_lt 0 (list_total l + zlen (encode_lists ls)))) by lia.
  rewrite (read_list_size _ _ _ Hl Hh1). cbn [obind].
  rewrite Z.geb_leb, (proj2 (Z.leb_le (list_total l) _)) by lia.
  rewrite (read_type _ _ _ Hl Hh1), (read_header_size _ _ _ Hl Hh1),
    (read_signature_size _ _ _ Hl Hh1). cbn [obind].
  rewrite check_sig_item_ok by (done || apply supported_sizes). unfold list_accepted at 1.
  destruct (match list_find _ _ with Some _ => _ | None => _ end); cbn [negb andb]; [|done].
  assert (Hcert : (if compare_guid (l_type l) gEfiCertX509Guid
    then rsa_get_pub_key_from_x509 (Some d)
           (off + sizeof_EFI_SIGNATURE_LIST + zlen (l_header l) + 16)
           (u64 (l_size l - sizeof_EFI_GUID)) else Ok true)
    = Ok (if compare_guid (l_type l) gEfiCertX509Guid then first_cert_ok l else true)).
  { destruct (compare_guid _ _) eqn:E; [|done]. apply compare_guid_spec in E.
    apply first_cert_read; auto. }
  rewrite Hcert. cbn [obind].
  destruct (if compare_guid (l_type l) gEfiCertX509Guid then first_cert_ok l else true);
    cbn [negb andb]; [|done].
  rewrite (sig_rest_ok _ _ _ Hl Hh1), (sig_count_ok _ _ _ Hl Hh1). cbn [obind negb Z.eqb].
  replace (list_total l + zlen (encode_lists ls) - list_total l)
    with (zlen (encode_lists ls)) by lia.
  rewrite u32_id by lia. rewrite IH by (done || lia || (cbn in Hf; lia)).
  by rewrite Hcount, !Z.add_assoc.
Qed.

(** The comparisons of a name with the literals, for a terminated name. *)
Lemma named_ok n cs ds :
  cstr16 n cs -> zlen n < 0x10000000 -> Forall char16_ok ds -> zlen ds < 1000 ->
  (let* c := strcmp16 (Some n) (Some (L ds)) in Ok (c =? 0)) = Ok (bool_decide (cs = ds)).
Proof.
  intros Hn Hz Hds Hlen.
  destruct (strcmp16_cstr _ _ _ _ Hn (cstr16_L ds Hds)) as (r & -> & Hr); [lia|rewrite zlen_L; lia|].
  cbn [obind]. f_equal. apply eq_true_iff_eq. by rewrite Z.eqb_eq, bool_decide_eq_true.
Qed.

Lemma sig_count_le ls : Forall list_ok ls -> 0 <= sig_count ls <= zlen (encode_lists ls).
Proof.
  induction 1 as [|l ls Hl _ IH]; [done|]. pose proof (list_total_bounds _ Hl).
  unfold sig_count in *. cbn [fmap list_fmap concat].
  rewrite encode_lists_cons, !zlen_app, zlen_encode_list by done. lia.
Qed.

Lemma encode_lists_pos ls : Forall list_ok ls -> ls <> [] -> 28 <= zlen (encode_lists ls).
Proof.
  intros Hls Hne. destruct Hls as [|l ls Hl Hls]; [done|]. pose proof (list_total_bounds _ Hl).
  rewrite encode_lists_cons, zlen_app, zlen_encode_list by done.
  pose proof (zlen_nonneg (encode_lists ls)). lia.
Qed.

(** What the check answers about the lists, for PK and for the other keys. *)
Definition verdict (ls : list siglist) (is_pk : bool) : EFI_STATUS :=
  if forallb list_accepted ls && negb (is_pk && (1 <? sig_count ls)) then EFI_SUCCESS
  else EFI_INVALID_PARAMETER.

(** The end of the check, after its loop over the lists. *)
Lemma end_of_check ls pos (is_pk : bool) :
  zlen (encode_lists ls) < 0x80000000 ->
  (let* out := Ok (if forallb list_accepted ls
                   then inr (pos + zlen (encode_lists ls), sig_count ls)
                   else inl EFI_INVALID_PARAMETER) in
   match out with
   | inl status => Ok status
   | inr (SigList, SigCount) =>
       if negb (u64 (SigList - pos) =? zlen (encode_lists ls))
       then Ok EFI_INVALID_PARAMETER
       else if is_pk && (SigCount >? 1) then Ok EFI_INVALID_PARAMETER else Ok EFI_SUCCESS
   end) = Ok (verdict ls is_pk).
Proof.
  intros Hlen. pose proof (zlen_nonneg (encode_lists ls)).
  unfold verdict. destruct (forallb _ _); cbn [obind andb]; [|done].
  replace (pos + zlen (encode_lists ls) - pos) with (zlen (encode_lists ls)) by lia.
  rewrite u64_id, Z.eqb_refl by lia. cbn [negb]. rewrite Z.gtb_ltb.
  by destruct (is_pk && (1 <? sig_count ls)).
Qed.

(** The check on encoded lists. *)
Lemma format_check_ok (n : bytes) (cs : list Z) (g : EFI_GUID) (ls : list siglist)
    (pre post : bytes) :
  cstr16 n cs -> zlen n < 0x10000000 -> Forall list_ok ls ->
  Forall (fun l => l_type l = gEfiCertX509Guid -> l_sigs l <> []) ls ->
  zlen (encode_lists ls) < 0x80000000 -> ls <> [] ->
  check_signature_list_format n g (pre ++ encode_lists ls ++ post) (zlen pre)
    (zlen (encode_lists ls))
  = Ok match checked_name g cs with
       | None => EFI_SUCCESS
       | Some is_pk =>
           verdict ls is_pk
       end.
Proof.
  intros Hn Hz Hls Hx Hlen Hne. unfold check_signature_list_format.
  pose proof (encode_lists_pos ls Hls Hne).
  rewrite (proj2 (Z.eqb_neq (zlen (encode_lists ls)) 0)) by lia. cbv zeta.
  unfold EFI_PLATFORM_KEY_NAME, EFI_KEY_EXCHANGE_KEY_NAME, EFI_IMAGE_SECURITY_DATABASE,
    EFI_IMAGE_SECURITY_DATABASE1, EFI_IMAGE_SECURITY_DATABASE2.
  rewrite !(named_ok n cs) by (done || (by repeat constructor) || (by vm_compute)).
  pose proof (sig_count_le ls Hls) as Hcount.
  rewrite check_lists_ok; [|done|done|by exists pre, post
    |pose proof (length_encode_lists _ Hls); lia|done|lia].
  rewrite Z.add_0_l. unfold checked_name.
  pose proof (fun is_pk => end_of_check ls (zlen pre) is_pk Hlen) as Hverdict.
  destruct (compare_guid g gEfiGlobalVariableGuid) eqn:Eg; cbn [obind].
  - apply compare_guid_spec in Eg as ->.
    change (compare_guid gEfiGlobalVariableGuid gEfiImageSecurityDatabaseGuid) with false.
    cbn match. destruct (bool_decide (cs = [80; 75])); cbn [obind negb]; [apply Hverdict|].
    rewrite or_else_ok, orb_false_r. cbn [obind].
    destruct (bool_decide (cs = _)); cbn [negb]; [apply Hverdict|done].
  - destruct (compare_guid g gEfiImageSecurityDatabaseGuid); rewrite !or_else_ok; cbn [orb obind];
      [|done].
    destruct (bool_decide_reflect (cs = [100; 98])) as [->|H1]; cbn [orb negb];
      [rewrite bool_decide_true by (rewrite !elem_of_cons; auto); apply Hverdict|].
    destruct (bool_decide_reflect (cs = [100; 98; 120])) as [->|H2]; cbn [orb negb];
      [rewrite bool_decide_true by (rewrite !elem_of_cons; auto); apply Hverdict|].
    destruct (bool_decide_reflect (cs = [100; 98; 116])) as [->|H3]; cbn [orb negb];
      [rewrite bool_decide_true by (rewrite !elem_of_cons; auto); apply Hverdict|].
    rewrite bool_decide_false by (rewrite !elem_of_cons, elem_of_nil; tauto). done.
Qed.

(** C26: The format check accepts exactly the well-formed signature lists.  For
    PK, KEK, db, dbx and dbt, on encoded lists (with a certificate in every
    X.509 list), [check_signature_list_format] terminates inside the data and
    succeeds just when every list has a type of the table with its header and
    signature sizes, the first certificate of every X.509 list parses and has
    an RSA key, and PK holds at most one signature; every other name passes. *)
Theorem format_check_exact (n : bytes) (cs : list Z) (g : EFI_GUID) (ls : list siglist)
    (pre post : bytes) :
  cstr16 n cs -> zlen n < 0x10000000 -> Forall list_ok ls ->
  Forall (fun l => l_type l = gEfiCertX509Guid -> l_sigs l <> []) ls ->
  zlen (encode_lists ls) < 0x80000000 -> ls <> [] ->
  check_signature_list_format n g (pre ++ encode_lists ls ++ post) (zlen pre)
    (zlen (encode_lists ls))
  = Ok match checked_name g cs with
       | None => EFI_SUCCESS
       | Some is_pk =>
           if forallb list_accepted ls && negb (is_pk && (1 <? sig_count ls)) then EFI_SUCCESS
           else EFI_INVALID_PARAMETER
       end.
Proof. exact (format_check_ok n cs g ls pre post). Qed.

End check.

(** ** A list of size zero *)
Section zero.
Context `{OpenSSL}.

(** C27: A list of declared size zero is never left.  At an X.509 list whose
    [SignatureListSize] is 0, with no header and a signature size of 3491 (a
    divisor of 2^64 - 28, so that the wrapped-around remainder test passes) and
    a certificate that parses, the loop of [check_signature_list_format] goes
    on forever: no number of iterations is enough. *)
Theorem zero_size_list_never_ends (d : bytes) (off data_size count : Z) (fuel : nat) :
  0 < data_size -> sl_SignatureListSize d off = Ok 0 ->
  sl_SignatureType d off = Ok gEfiCertX509Guid -> sl_SignatureHeaderSize d off = Ok 0 ->
  sl_SignatureSize d off = Ok 3491 ->
  rsa_get_pub_key_from_x509 (Some d) (off + sizeof_EFI_SIGNATURE_LIST + 16) 3475 = Ok true ->
  check_lists_loop fuel d off data_size count = Fault OutOfFuel.
Proof.
  intros Hpos Hsize Htype Hheader Hsig Hcert. revert count.
  induction fuel as [|fuel IH]; intros count; cbn [check_lists_loop];
    rewrite Z.gtb_ltb, (proj2 (Z.ltb_lt 0 data_size)), Hsize by lia; cbn [obind];
    rewrite Z.geb_leb, (proj2 (Z.leb_le 0 data_size)) by lia; [done|].
  rewrite Htype, Hheader, Hsig. cbn [obind].
  change (check_sig_item supported_sigs gEfiCertX509Guid 0 3491 =? EFI_SUCCESS) with true.
  change (compare_guid gEfiCertX509Guid gEfiCertX509Guid) with true. cbn [negb].
  rewrite Z.add_0_r. change (u64 (3491 - sizeof_EFI_GUID)) with 3475. rewrite Hcert.
  cbn [obind negb]. change (umod (sigs_size 0 0) 3491) with (Ok 0). cbn [obind negb Z.eqb].
  change (udiv (sigs_size 0 0) 3491) with (Ok ((2 ^ 64 - 28) / 3491)). cbn [obind].
  rewrite Z.add_0_r, Z.sub_0_r. apply IH.
Qed.

End zero.

(** ** The theorems at concrete inputs *)
Definition sig_AA : bytes := replicate 16 x00 ++ [xaa].
Definition sig_BB : bytes := replicate 16 x00 ++ [xbb].
Definition old_lists : list siglist := [mk_siglist gEfiCertX509Guid [] 17 [sig_AA]].
Definition new_lists : list siglist := [mk_siglist gEfiCertX509Guid [] 17 [sig_AA; sig_BB]].

Lemma sample_lists_ok : Forall list_ok old_lists /\ Forall list_ok new_lists.
Proof. split; repeat constructor; vm_compute; congruence. Qed.

Lemma filter_keeps_new_signatures_witness :
  @FilterSignatureList zero_allocator (encode_lists old_lists) (zlen (encode_lists old_lists))
    ([x01] ++ encode_lists new_lists ++ [x02]) (zlen [x01]) (zlen (encode_lists new_lists))
  = Ok (EFI_SUCCESS,
        [x01] ++ overwrite (encode_lists (filter_lists old_lists new_lists))
                   (encode_lists new_lists) ++ [x02],
        zlen (encode_lists (filter_lists old_lists new_lists))).
Proof.
  apply (@filter_keeps_new_signatures zero_allocator old_lists new_lists
           (encode_lists old_lists) [x01] [x02]);
    [exact (proj1 sample_lists_ok)|exact (proj2 sample_lists_ok)
    |exists [], []; split; reflexivity|apply zero_allocator_grants].
Defined.

Lemma format_check_exact_witness :
  @check_signature_list_format toy_openssl EFI_PLATFORM_KEY_NAME gEfiGlobalVariableGuid
    ([x01] ++ encode_lists new_lists ++ []) (zlen [x01]) (zlen (encode_lists new_lists))
  = Ok match checked_name gEfiGlobalVariableGuid [0x50; 0x4b] with
       | None => EFI_SUCCESS
       | Some is_pk =>
           if forallb (@list_accepted toy_openssl) new_lists
              && negb (is_pk && (1 <? sig_count new_lists))
           then EFI_SUCCESS else EFI_INVALID_PARAMETER
       end.
Proof.
  apply (@format_check_exact toy_openssl EFI_PLATFORM_KEY_NAME [0x50; 0x4b]
           gEfiGlobalVariableGuid new_lists [x01] []);
    [apply cstr16_L; by repeat constructor|by vm_compute|exact (proj2 sample_lists_ok)
    |repeat constructor; discriminate|by vm_compute|discriminate].
Defined.

(** A list of declared size zero with a certificate of 3475 bytes. *)
Definition zero_size_list : bytes :=
  gEfiCertX509Guid ++ le_encode 4 0 ++ le_encode 4 0 ++ le_encode 4 3491 ++
  replicate 3491 xaa.

Lemma zero_size_list_never_ends_witness :
  @check_lists_loop toy_openssl 1000 zero_size_list 0 3519 0 = Fault OutOfFuel.
Proof.
  apply (@zero_size_list_never_ends toy_openssl zero_size_list 0 3519 0 1000);
    [lia|vm_compute; reflexivity..].
Defined.
