(* ===== verification/Triples.v ===== *)
(** * Partial-correctness triples

    [triple P m Q]: when the computation [m] is started in a state that
    satisfies [P] and returns, its result and the final state satisfy [Q].  A
    fault satisfies every triple; the theorems that the code does not fault are
    stated on runs.  [preserves I m] is the triple of an invariant; its rules
    follow the structure of the code, and the tactic [preserve] applies them. *)
From S2P Require Import Prelude.

Definition triple {S A} (P : S -> Prop) (m : M S A) (Q : A -> S -> Prop) : Prop :=
  forall s a s', P s -> m s = Ok (a, s') -> Q a s'.

Definition preserves {S A} (I : S -> Prop) (m : M S A) : Prop := triple I m (fun _ => I).

Lemma triple_bind {S A B} P (m : M S A) R (k : A -> M S B) Q :
  triple P m R -> (forall a, triple (R a) (k a) Q) -> triple P (bind m k) Q.
Proof. intros Hm Hk s b s' Hs (a & s1 & H1 & H2)%bind_inv. eapply Hk; [eapply Hm|]; done. Qed.

Lemma triple_post {S A} P (m : M S A) (Q R : A -> S -> Prop) :
  triple P m R -> (forall a s, R a s -> Q a s) -> triple P m Q.
Proof. intros Hm HQ s a s' Hs Hr. by eapply HQ, Hm. Qed.

Section rules.
Context {S : Type} (I : S -> Prop).

Lemma preserves_ret {A} (a : A) : preserves I (ret a).
Proof. by intros s b s' Hs [= _ <-]. Qed.

Lemma preserves_keeps {A} (m : M S A) : keeps m -> preserves I m.
Proof. intros Hm s a s' Hs ->%Hm. done. Qed.

Lemma preserves_mlift {A} (o : outcome A) : preserves I (mlift o).
Proof. apply preserves_keeps, keeps_mlift. Qed.

Lemma preserves_mmodify f : (forall s, I s -> I (f s)) -> preserves I (mmodify f).
Proof. intros Hf s a s' Hs [= _ <-]. by apply Hf. Qed.

Lemma preserves_bind {A B} (m : M S A) (k : A -> M S B) :
  preserves I m -> (forall a, preserves I (k a)) -> preserves I (bind m k).
Proof. apply triple_bind. Qed.

(** The fact a result carries is available to what follows. *)
Lemma preserves_bind_pure {A B} (m : M S A) (R : A -> Prop) (k : A -> M S B) :
  triple I m (fun a s => R a /\ I s) -> (forall a, R a -> preserves I (k a)) ->
  preserves I (bind m k).
Proof.
  intros Hm Hk. eapply triple_bind; [exact Hm|]. intros a s b s' [Ha Hs]. by apply (Hk a Ha).
Qed.

Lemma preserves_lift_bind {A B} (o : outcome A) (k : A -> M S B) :
  (forall a, o = Ok a -> preserves I (k a)) -> preserves I (bind (mlift o) k).
Proof.
  intros Hk s b s' Hs (a & s1 & [Ho ->]%mlift_inv & H2)%bind_inv. by eapply (Hk a Ho).
Qed.

Lemma preserves_get_bind {B} (k : S -> M S B) :
  (forall s, I s -> preserves I (k s)) -> preserves I (bind mget k).
Proof. intros Hk s b s' Hs Hrun. by eapply (Hk s). Qed.

Lemma preserves_mzoom {T A} (J : T -> Prop) (get : S -> T) (put : T -> S -> S) (m : M T A) :
  (forall s, I s -> J (get s)) -> (forall s t, I s -> J t -> I (put t s)) ->
  preserves J m -> preserves I (mzoom get put m).
Proof.
  intros Hg Hp Hm s a s' Hs. unfold mzoom. destruct (m (get s)) as [[b t]|] eqn:E; [|done].
  intros [= _ <-]. apply Hp; [done|]. eapply Hm; [|exact E]. by apply Hg.
Qed.

End rules.

(** What the result of a computation satisfies, whatever the state. *)
Definition yields {S A} (m : M S A) (P : A -> Prop) : Prop :=
  triple (fun _ => True) m (fun a _ => P a).

Lemma yields_ret {S A} (a : A) (P : A -> Prop) : P a -> yields (@ret S A a) P.
Proof. by intros Ha s b s' _ [= <- _]. Qed.
Lemma yields_mlift {S A} (o : outcome A) (P : A -> Prop) :
  (forall a, o = Ok a -> P a) -> yields (@mlift S A o) P.
Proof. intros Ho s a s' _ [H _]%mlift_inv. by apply Ho. Qed.
Lemma yields_bind {S A B} (m : M S A) P (k : A -> M S B) Q :
  yields m P -> (forall a, P a -> yields (k a) Q) -> yields (bind m k) Q.
Proof.
  intros Hm Hk s b s' _ (a & s1 & H1 & H2)%bind_inv. eapply (Hk a); [by eapply Hm|done|done].
Qed.
Lemma yields_any {S A} (m : M S A) : yields m (fun _ => True).
Proof. done. Qed.

(** A computation that keeps the state, its result used by what follows. *)
Lemma preserves_keeps_bind {S A B} (I : S -> Prop) (m : M S A) P (k : A -> M S B) :
  keeps m -> yields m P -> (forall a, P a -> preserves I (k a)) -> preserves I (bind m k).
Proof.
  intros Hm HP Hk. eapply preserves_bind_pure; [|exact Hk].
  intros s a s' Hs Hr. pose proof Hr as ->%Hm. split; [by eapply HP|done].
Qed.

Create HintDb preserves discriminated.
#[export] Hint Constants Opaque : preserves.
#[export] Hint Resolve preserves_ret preserves_mlift : preserves.

(** Follow the structure of a computation; the calls are settled by the hints
    and the hypotheses. *)
Ltac preserve :=
  repeat match goal with
  | |- preserves _ (ret _) => apply preserves_ret
  | |- preserves _ (mlift _) => apply preserves_mlift
  | |- preserves _ (bind mget _) => apply preserves_get_bind; intros ? ?
  | |- preserves _ (bind (mlift _) _) => apply preserves_lift_bind; intros ? ?
  | |- preserves _ _ => solve [eauto 2 with preserves nocore]
  | |- preserves _ (bind _ _) => apply preserves_bind; [|intros ?]
  | |- preserves _ (let _ := _ in _) => cbv zeta
  | |- preserves _ _ => case_match
  end.
