(* ===== verification/WellFormed.v ===== *)
(** * Every request keeps the state well formed

    Whatever the guest writes into the page, a request that is answered leaves
    the store well formed ([storage_wf]) and the page as large as it was.  The
    preservation lemmas follow the code from [src/storage.c] to the dispatcher. *)
From S2P Require Import Prelude LogLevel EfiTypes Common UefiVariable Storage StorageInv StorageSpec.
From S2P Require Import Serializer Crypto SigList Auth AuthSpec AuthSecurity Server Requests.
From S2P Require Import Samples AuthSamples ServerSamples ServerSpec SetVariable Triples.

(** ** Variables *)
Section variables.
Context `{Allocator}.

Lemma memcpy_inv dst doff src soff n d :
  memcpy dst doff src soff n = Ok d ->
  0 <= n /\ 0 <= doff /\ doff + n <= zlen dst /\ soff + n <= zlen src /\ zlen d = zlen dst.
Proof.
  unfold memcpy. intros (b & Hr & Hw)%obind_inv.
  apply read_bytes_inv in Hr as (_ & Hn & Hs & _ & Hb).
  pose proof (write_bytes_length _ _ _ _ Hw). apply write_bytes_inv in Hw as (? & ? & _). lia.
Qed.

Lemma store_data_inv v block off sz src n v' :
  store_data (with_data block sz v) off src n = Ok v' ->
  exists b d, block = Some b /\ v' = with_data (Some d) sz v /\ zlen d = zlen b /\
    0 <= n /\ 0 <= off /\ off + n <= zlen b.
Proof.
  unfold store_data. cbn [var_data with_data]. destruct block as [b|]; [|done].
  intros (d & Hm & [= <-])%obind_inv. apply memcpy_inv in Hm as (? & ? & ? & _ & ?).
  by exists b, d.
Qed.

Lemma variable_set_data_inv v src n append r v' :
  data_ok v -> 0 <= var_datasz v <= MAX_VARIABLE_DATA_SIZE ->
  variable_set_data v (Some src) n append = Ok (r, v') ->
  (r < 0 /\ v' = v /\ (n = 0 \/ MAX_VARIABLE_DATA_SIZE < n \/ append = true)) \/
  (r = 0 /\ exists d, v' = with_data (Some d) (zlen d) v /\
     1 <= zlen d <= MAX_VARIABLE_DATA_SIZE).
Proof.
  intros Hd Hsz. unfold variable_set_data.
  destruct (n =? 0) eqn:E0; [intros [= <- <-]; apply Z.eqb_eq in E0; left; split_and!; [lia|done|by auto]|]. apply Z.eqb_neq in E0.
  destruct (n >? _) eqn:E1; rewrite Z.gtb_ltb in E1.
  { intros [= <- <-]. apply Z.ltb_lt in E1. left. split_and!; [lia|done|by auto]. }
  apply Z.ltb_ge in E1. destruct append; cbn [negb].
  - destruct (u64 _ >? _) eqn:E2; [intros [= <- <-]; left; split_and!; [lia|done|by auto]|]. rewrite Z.gtb_ltb in E2.
    apply Z.ltb_ge in E2. intros (v1 & Hs & [= <- <-])%obind_inv.
    apply store_data_inv in Hs as (b & d & Hb & -> & Hl & Hn & Ho & Hle).
    apply realloc_size in Hb; [|apply u64_range]. right. split; [done|]. exists d.
    cbn [var_data with_data]. rewrite Hl, Hb. split; [by destruct v|clia].
  - intros (v1 & Hs & [= <- <-])%obind_inv.
    apply store_data_inv in Hs as (b & d & Hb & -> & Hl & Hn & Ho & Hle).
    assert (Hbl : zlen b = n).
    { destruct (var_datasz v =? n) eqn:E; cbn [negb] in Hb.
      - apply Z.eqb_eq in E as <-. unfold data_ok in Hd. by rewrite Hb in Hd.
      - by apply malloc_size in Hb. }
    right. split; [done|]. exists d. rewrite Hl, Hbl. split; [done|clia].
Qed.

Lemma with_data_live d v :
  live_wf v -> 1 <= zlen d <= MAX_VARIABLE_DATA_SIZE -> live_wf (with_data (Some d) (zlen d) v).
Proof. intros [] Hd. constructor; cbn; try done. by exists d. Qed.

(** A name of at least one byte, not starting with the zero character. *)
Record name_given (n : bytes) (sz : Z) : Prop := {
  ng_size : 1 <= sz;
  ng_object : sz <= zlen n;
  ng_first : char_at n 0 <> 0
}.

Lemma one_byte_name v n r v' : variable_set_name v (Some n) 1 <> Ok (r, v').
Proof.
  unfold variable_set_name. cbn [Z.gtb Z.eqb Z.compare]. unfold memcpy, obind.
  destruct (read_bytes n 0 1); [|done]. by destruct (write_bytes _ _ _).
Qed.

(** Storing a name again can only strip its last character. *)
Lemma variable_set_name_again v n sz g r v' :
  live_wf v -> name_given n sz -> var_key v = arg_key n sz g ->
  variable_set_name v (Some n) sz = Ok (r, v') -> r = 0 /\ live_wf v' /\ data_ok v'.
Proof.
  intros Hv Hn Hk. destruct Hn as [Hs Ho Hf].
  assert (Hsz : var_namesz v = sz).
  { eapply (has_key_namesz v n sz g); [by apply live_slot_wf|lia|done|].
    split; [by apply live_wf_live|done]. }
  pose proof (lw_namesz _ Hv). rewrite variable_set_name_ok by (lia || apply Hv).
  intros [= <- <-]. pose proof (live_wf_data_ok _ Hv) as Hd.
  assert (Hname : take (Z.to_nat sz) n ++ drop (Z.to_nat sz) (var_name v) = var_name v).
  { apply (f_equal fst) in Hk. cbn in Hk. rewrite Hsz in Hk. by rewrite <-Hk, take_drop. }
  rewrite Hname. split; [done|]. split; [|done].
  pose proof (sanitized_range n sz ltac:(constructor; lia || done)).
  destruct Hv. constructor; cbn; try done. lia.
Qed.

(** A creation in a free slot makes a well-formed variable, or fails and leaves
    the slot free. *)
Lemma variable_create_noalloc_inv n sz src dsz g attrs r v :
  name_given n sz -> sz <= 256 -> dsz <= MAX_VARIABLE_DATA_SIZE -> zlen g = 16 ->
  0 <= attrs < 0x100000000 ->
  variable_create_noalloc zero_var (Some n) sz (Some src) dsz (Some g) attrs None None
    = Ok (r, v) ->
  (r < 0 /\ v = zero_var) \/
  (r = 0 /\ live_wf v /\ var_key v = arg_key n (sanitized n sz) g).
Proof.
  intros Hn Hs Hd Hg Ha. unfold variable_create_noalloc.
  destruct (dsz =? 0) eqn:E0; [intros [= <- <-]; by left|].
  intros ([r1 v1] & H1 & H2)%obind_inv.
  destruct (decide (sz = 1)) as [->|Hne]; [by apply one_byte_name in H1|].
  destruct Hn as [Hs1 Ho Hf].
  rewrite variable_set_name_ok in H1 by (done || lia). injection H1 as <- <-.
  cbn [Z.ltb Z.compare] in H2. apply obind_inv in H2 as ([r2 v2] & H2 & H3).
  apply variable_set_data_inv in H2 as [(_ & _ & Hno)|[-> (d & -> & Hd2)]];
    [apply Z.eqb_neq in E0; destruct Hno as [|[|]]; by try lia| |done|cbn; clia].
  cbn [Z.ltb Z.compare] in H3. rewrite variable_set_guid_ok in H3 by done.
  cbn [obind Z.ltb Z.compare variable_set_attrs] in H3. injection H3 as <- <-.
  right. split; [done|]. pose proof (sanitized_range n sz ltac:(constructor; lia || done)).
  split; cycle 1.
  { unfold var_key, arg_key. cbn [var_name var_namesz var_guid with_name with_data with_guid
      with_attrs]. f_equal.
    rewrite take_app_le by (rewrite length_take; unfold zlen in *; lia).
    by rewrite take_take, Nat.min_l by lia. }
  constructor; cbn [var_name var_namesz var_data var_datasz var_guid var_attrs var_timestamp
    var_cert with_name with_data with_guid with_attrs zero_var]; try done.
  - unfold zero_name. zlia.
  - lia.
  - rewrite (char_at_prefix _ n sz); [done| |lia|lia]. apply take_take_app_drop. unfold zlen in *. lia.
  - by exists d.
Qed.

End variables.

(** ** The store *)
Section store.
Context `{Allocator}.

Lemma storage_remove_wf n sz g :
  1 <= sz -> sz <= zlen n -> zlen g = 16 ->
  preserves storage_wf (storage_remove (Some n) sz (Some g)).
Proof.
  intros Hsz Hn Hg s st s' Hs. rewrite storage_remove_ok by done.
  destruct (slot_of _ _) as [[i v]|] eqn:E; intros [= _ <-]; [|done].
  apply slot_of_Some in E as [Hi [Hl _]]. by eapply remove_slot_wf.
Qed.

Lemma set_live_slot_wf s i v v' :
  storage_wf s -> variables s !! i = Some v -> live v = true -> live_wf v' ->
  storage_wf (set_slot i v' s).
Proof.
  intros Hs Hi Hl Hv. eapply set_slot_wf; [done|done|by apply live_slot_wf|].
  by rewrite Hl, live_wf_live.
Qed.

Lemma set_slot_lookup s i v v' :
  variables s !! i = Some v -> variables (set_slot i v' s) !! i = Some v'.
Proof. intros Hi. cbn. by rewrite list_lookup_insert_eq by by eapply lookup_lt_Some. Qed.

Lemma storage_set_existing_wf i v n sz g src dsz attrs append s st s' :
  storage_wf s -> variables s !! i = Some v -> live v = true -> var_key v = arg_key n sz g ->
  name_given n sz -> 0 <= attrs < 0x100000000 ->
  storage_set_existing i (Some n) sz (Some src) dsz attrs append s = Ok (st, s') ->
  storage_wf s'.
Proof.
  intros Hs Hi Hl Hk Hn Ha. unfold storage_set_existing.
  rewrite (bind_runs _ _ _ s s), (bind_runs _ _ _ v s) by
    (done || by rewrite (mlift_runs _ _ _ (slot_at_ok _ _ _ Hi))).
  destruct (negb _); [by intros [= _ <-]|].
  intros ([r v1] & s1 & [H1 ->]%mlift_inv & H2)%bind_inv.
  apply (variable_set_name_again v n sz g) in H1 as (-> & Hv1 & Hd1);
    [|by eapply slot_wf_live, Hl; eapply slot_wf_lookup|done|done].
  rewrite bind_runs with (a := tt) (s' := set_slot i v1 s) in H2 by done.
  cbn [Z.eqb Z.ltb Z.compare] in H2.
  pose proof (set_live_slot_wf _ _ _ _ Hs Hi Hl Hv1) as Hs1.
  apply bind_inv in H2 as ([r v2] & s2 & [H2 ->]%mlift_inv & H3).
  rewrite bind_runs with (a := tt) (s' := set_slot i v2 (set_slot i v1 s)) in H3 by done.
  rewrite set_slot_set_slot in H3.
  apply variable_set_data_inv in H2 as [(Hr & -> & _)|[-> (d & -> & Hd)]];
    [| |done|pose proof (lw_datasz _ Hv1); lia].
  - destruct (r =? -2); [by injection H3 as _ <-|].
    rewrite (proj2 (Z.ltb_lt _ _) Hr) in H3. by injection H3 as _ <-.
  - cbn [Z.eqb Z.ltb Z.compare] in H3.
    rewrite bind_runs with (a := tt) (s' := set_slot i (with_attrs attrs (with_data (Some d)
      (zlen d) v1)) s) in H3 by (unfold mmodify; by rewrite set_slot_set_slot).
    injection H3 as _ <-. eapply set_live_slot_wf; [done..|].
    destruct (with_data_live d v1 Hv1 Hd). by constructor.
Qed.

Lemma storage_set_new_wf n sz g src dsz attrs :
  name_given n sz -> sz <= 256 -> dsz <= MAX_VARIABLE_DATA_SIZE -> zlen g = 16 ->
  0 <= attrs < 0x100000000 ->
  preserves storage_wf (storage_set_new (Some n) sz (Some g) (Some src) dsz attrs).
Proof.
  intros Hn Hsz Hd Hg Ha s st s' Hs. unfold storage_set_new.
  rewrite (bind_runs _ _ _ s s) by done.
  rewrite (bind_runs _ _ _ _ s) by (apply mlift_runs, find_empty_slot_ok, Hs).
  destruct (list_find _ _) as [[i v]|] eqn:E; [|by intros [= _ <-]].
  cbn [fmap option_fmap option_map fst]. apply list_find_Some in E as (Hi & Hl & _).
  rewrite (bind_runs _ _ _ v s) by by rewrite (mlift_runs _ _ _ (slot_at_ok _ _ _ Hi)).
  pose proof (slot_wf_free _ (slot_wf_lookup _ _ _ Hs Hi) Hl) as ->.
  intros ([r v1] & s1 & [H1 ->]%mlift_inv & H2)%bind_inv.
  rewrite bind_runs with (a := tt) (s' := set_slot i v1 s) in H2 by done.
  apply variable_create_noalloc_inv in H1 as [[Hr ->]|(-> & Hv1 & _)]; [| |done..].
  - rewrite set_slot_id in H2 by done. rewrite (proj2 (Z.ltb_lt _ _) Hr) in H2.
    by injection H2 as _ <-.
  - injection H2 as _ <-. cbn [variables total used storage_iter_index set_slot set_variables].
    pose proof (nlive_free_slot _ _ _ Hi Hl). rewrite (sw_len _ Hs), <-(sw_total _ Hs) in *.
    pose proof (storage_wf_counts _ Hs). rewrite !u64_id by clia. by eapply insert_slot_wf.
Qed.

Lemma storage_set_wf n sz g src dsz attrs :
  name_given n sz -> zlen g = 16 -> 0 <= attrs < 0x100000000 ->
  preserves storage_wf (storage_set (Some n) sz (Some g) src dsz attrs).
Proof.
  intros Hn Hg Ha. unfold storage_set. apply preserves_bind; [apply preserves_keeps; keeps|].
  intros u. destruct (_ || _) eqn:E; [auto with preserves|].
  apply orb_false_iff in E as [[E1 E2]%orb_false_iff _]. rewrite Z.gtb_ltb in E1, E2.
  apply Z.ltb_ge in E1, E2. destruct (_ || _); [by destruct Hn; apply storage_remove_wf|].
  destruct src as [src|]; [|auto with preserves]. pose proof (masked_attrs_range _ Ha).
  intros s st s' Hs Hrun. rewrite (bind_runs _ _ _ s s) in Hrun by done.
  pose proof (find_variable_pos n sz g (variables s) (sw_slots _ Hs)) as Hf.
  unfold find_variable in Hf.
  rewrite (bind_runs _ _ _ _ s) in Hrun by (destruct Hn; by apply mlift_runs, Hf).
  destruct (slot_of _ _) as [[i v]|] eqn:E; cbn [fmap option_fmap option_map fst] in Hrun.
  - apply slot_of_Some in E as [Hi [Hl Hk]]. by eapply storage_set_existing_wf.
  - eapply storage_set_new_wf; [..|exact Hs|exact Hrun]; done.
Qed.

Lemma storage_set_with_timestamp_wf n sz g src dsz attrs t :
  name_given n sz -> zlen g = 16 -> 0 <= attrs < 0x100000000 ->
  (forall x, t = Some x -> time_ok x) ->
  preserves storage_wf (storage_set_with_timestamp (Some n) sz (Some g) src dsz attrs t).
Proof.
  intros Hn Hg Ha Ht. unfold storage_set_with_timestamp.
  destruct src as [src|], t as [t|]; auto with preserves. specialize (Ht t eq_refl).
  apply preserves_bind; [by apply storage_set_wf|]. intros st. case_match; [auto with preserves|].
  intros s r s' Hs Hrun. destruct Hn as [Hsz Ho _].
  erewrite bind_runs in Hrun by by apply storage_get_var_ptr_ok.
  destruct (slot_of _ _) as [[i v]|] eqn:E; [|by injection Hrun as _ <-].
  apply slot_of_Some in E as [Hi [Hl _]].
  rewrite (bind_runs _ _ _ s s), (bind_runs _ _ _ v s) in Hrun
    by (done || by rewrite (mlift_runs _ _ _ (slot_at_ok _ _ _ Hi))).
  injection Hrun as _ <-. eapply set_live_slot_wf; [done..|].
  apply with_timestamp_live; [|done]. by eapply slot_wf_live, Hl; eapply slot_wf_lookup.
Qed.

End store.

(** ** Authenticated updates *)

(** The state of the authentication services: the store, and the mode. *)
Record auth_wf (s : auth_state) : Prop := {
  aw_store : storage_wf (au_store s);
  aw_mode : setup_mode s = SETUP_MODE \/ setup_mode s = USER_MODE
}.

Section auth.
Context `{Allocator} `{OpenSSL}.

Lemma on_store_wf {A} (m : M storage A) : preserves storage_wf m -> preserves auth_wf (on_store m).
Proof.
  intros Hm. apply preserves_mzoom with storage_wf; [by intros s []|by intros s t [] ?|done].
Qed.

Lemma set_data_wf d : preserves auth_wf (mmodify (set_data d)).
Proof. apply preserves_mmodify. by intros s []. Qed.

Lemma find_var_wf n sz g : preserves auth_wf (on_store (storage_get_var_ptr (Some n) sz (Some g))).
Proof. apply preserves_keeps, keeps_on_store, keeps_storage_get_var_ptr. Qed.

Lemma with_data_object_wf {A} (f : bytes -> outcome A) : preserves auth_wf (with_data_object f).
Proof. apply preserves_keeps, keeps_with_data_object. Qed.

Lemma verify_wf n sz g m a ty ts :
  preserves auth_wf (verify_time_based_payload n sz g m a ty ts).
Proof. apply preserves_keeps, keeps_verify. Qed.

Lemma store_set_wf n sz g src dsz attrs :
  name_given n sz -> zlen g = 16 -> 0 <= attrs < 0x100000000 ->
  preserves auth_wf (on_store (storage_set (Some n) sz (Some g) src dsz attrs)).
Proof. intros. by apply on_store_wf, storage_set_wf. Qed.

Lemma store_set_with_timestamp_wf n sz g src dsz attrs t :
  name_given n sz -> zlen g = 16 -> 0 <= attrs < 0x100000000 -> time_ok t ->
  preserves auth_wf
    (on_store (storage_set_with_timestamp (Some n) sz (Some g) src dsz attrs (Some t))).
Proof. intros. apply on_store_wf, storage_set_with_timestamp_wf; try done. by intros x [= <-]. Qed.

Hint Resolve set_data_wf find_var_wf with_data_object_wf verify_wf store_set_wf : preserves.

(** A platform mode variable's name. *)
Lemma mode_name_given name :
  name ∈ [EFI_SECURE_BOOT_MODE_NAME; EFI_SETUP_MODE_NAME; DEPLOYED_MODE_NAME] ->
  name_given name (sizeof_wchar name).
Proof.
  rewrite !elem_of_cons, elem_of_nil. intros [->|[->|[->|[]]]]; by constructor.
Qed.

Lemma update_platform_mode_wf mode : preserves auth_wf (update_platform_mode mode).
Proof.
  unfold update_platform_mode. apply preserves_lift_bind. intros [] Hm.
  assert (Hmode : u8 mode = SETUP_MODE \/ u8 mode = USER_MODE).
  { unfold oassert in Hm. destruct (_ || _) eqn:E; [|done].
    apply orb_true_iff in E as [->%Z.eqb_eq| ->%Z.eqb_eq]; auto. }
  apply preserves_bind; [apply preserves_mmodify; by intros s []|]. intros _.
  assert (Hset : forall name value,
    name ∈ [EFI_SECURE_BOOT_MODE_NAME; EFI_SETUP_MODE_NAME; DEPLOYED_MODE_NAME] ->
    preserves auth_wf (on_store (storage_set (Some name) (sizeof_wchar name)
      (Some gEfiGlobalVariableGuid) (Some [byte_of_Z value]) 1 RT_BS_ATTRS))).
  { intros name value Hn. apply store_set_wf; [by apply mode_name_given|done|by vm_compute]. }
  preserve; apply Hset; rewrite !elem_of_cons; auto.
Qed.

Context (n : bytes) (sz : Z) (g : EFI_GUID) (attrs : Z).
Context (Hn : name_given n sz) (Hg : zlen g = 16) (Ha : 0 <= attrs < 0x100000000).
#[local] Set Default Proof Using "Type*".

Lemma update_with_timestamp_wf off size :
  preserves auth_wf (auth_internal_update_variable_with_timestamp n sz g off size attrs).
Proof.
  unfold auth_internal_update_variable_with_timestamp.
  assert (Hset : forall size, preserves auth_wf (s <- mget ;;
    timestamp <- mlift (auth_TimeStamp (au_data s)) ;;
    on_store (storage_set_with_timestamp (Some n) sz (Some g)
                (Some (drop (Z.to_nat off) (au_data s))) size attrs (Some timestamp)))).
  { intros m. apply preserves_get_bind; intros s Hs. apply preserves_lift_bind; intros t Ht.
    apply store_set_with_timestamp_wf; try done. by eapply read_time_ok. }
  apply preserves_bind; [apply find_var_wf|]. intros [st var].
  apply preserves_get_bind; intros s Hs. cbv zeta.
  destruct var as [i|]; [|apply Hset]. destruct (has _ _); [|apply Hset].
  apply preserves_lift_bind; intros v Hv. apply preserves_lift_bind; intros l Hl.
  destruct l; [|apply Hset]. apply preserves_lift_bind; intros [[st1 d] m] _.
  apply preserves_bind; [apply set_data_wf|]; intros _.
  case_match; [apply preserves_ret|apply Hset].
Qed.

(** The slot a lookup returns is in use. *)
Definition slot_live (var : option nat) (s : auth_state) : Prop :=
  match var with
  | Some i => exists v, variables (au_store s) !! i = Some v /\ live_wf v
  | None => True
  end.

Lemma find_var_live :
  triple auth_wf (on_store (storage_get_var_ptr (Some n) sz (Some g)))
    (fun r s => auth_wf s /\ slot_live r.2 s).
Proof.
  intros s r s' Hs Hrun.
  destruct (get_var_ptr_stored s n sz g) as (r' & Hr & Hx);
    [apply Hs|apply Hn|apply Hn|done|].
  rewrite Hr in Hrun. injection Hrun as <- <-. split; [done|].
  destruct (stored s n sz g); [|by subst r'].
  destruct Hx as (i & w & -> & Hi & Hl & _). by exists w.
Qed.

Lemma set_slot_cert_wf i d :
  zlen d = 32 -> triple (fun s => auth_wf s /\ slot_live (Some i) s) (set_slot_cert i d)
                  (fun _ => auth_wf).
Proof.
  intros Hd s [] s' [[Hs Hm] (v & Hi & Hv)]. rewrite (set_slot_cert_ok s i v d) by done.
  intros [= <-]. constructor; [|done]. cbn.
  eapply set_live_slot_wf; [done|done|by apply live_wf_live|by apply with_cert_live].
Qed.

(** The digest of the signer is stored with the variable. *)
Lemma store_digest_wf is_del :
  preserves auth_wf
    ('(status, var) <- on_store (storage_get_var_ptr (Some n) sz (Some g)) ;;
     match var with
     | None => ret (status, None)
     | Some i =>
         '(status, digest) <- with_data_object sha256_from_auth ;;
         match digest with
         | None => ret (status, None)
         | Some d => set_slot_cert i d ;; ret (status, Some (is_del && (status =? EFI_SUCCESS)))
         end
     end).
Proof.
  eapply triple_bind; [apply find_var_live|]. intros [st var]. cbn [snd].
  destruct var as [i|]; [|by intros s a s' [Hs _] [= _ <-]].
  eapply (triple_bind _ _ (fun r s => (auth_wf s /\ slot_live (Some i) s) /\
    match r.2 with Some d => zlen d = 32 | None => True end)).
  { intros s [st1 d] s' Hs Hr. apply with_data_object_inv in Hr as [Hr ->]. split; [done|].
    destruct d as [d|]; [|done]. by apply sha256_from_auth_some in Hr as [_ ?]. }
  intros [st1 [d|]]; cbn [snd]; [|by intros s a s' [[Hs _] _] [= _ <-]].
  intros s a s' [Hs Hd] Hr. apply bind_inv in Hr as (u & s1 & Hr & Hr2). injection Hr2 as _ <-.
  by eapply (set_slot_cert_wf i d Hd).
Qed.

Lemma verify_and_update_wf data_size ty :
  preserves auth_wf (verify_time_based_payload_and_update n sz g data_size attrs ty).
Proof.
  unfold verify_time_based_payload_and_update.
  apply preserves_bind; [apply find_var_wf|]. intros [st var].
  apply preserves_get_bind; intros s Hs. apply preserves_bind; [preserve|]. intros ts.
  apply preserves_bind; [apply verify_wf|]. intros [st1 [[off size]|]]; [|apply preserves_ret].
  cbv zeta. apply preserves_bind; [apply update_with_timestamp_wf|]. intros st2.
  destruct (_ && _); [apply store_digest_wf|apply preserves_ret].
Qed.

Lemma update_unverified_wf data_size : preserves auth_wf (update_unverified n sz g data_size attrs).
Proof.
  unfold update_unverified. pose proof update_with_timestamp_wf. preserve.
Qed.

Lemma process_var_with_pk_wf data_size is_pk :
  preserves auth_wf (process_var_with_pk n sz g data_size attrs is_pk).
Proof.
  unfold process_var_with_pk. pose proof verify_and_update_wf. pose proof update_unverified_wf.
  pose proof update_platform_mode_wf. preserve.
Qed.

Lemma process_var_with_kek_wf data_size :
  preserves auth_wf (process_var_with_kek n sz g data_size attrs).
Proof.
  unfold process_var_with_kek. pose proof verify_and_update_wf. pose proof update_unverified_wf.
  preserve.
Qed.

Lemma process_variable_wf data_size : preserves auth_wf (process_variable n sz g data_size attrs).
Proof.
  unfold process_variable. pose proof verify_and_update_wf.
  pose proof (store_set_wf n sz g None 0 0 Hn Hg ltac:(lia)). preserve.
Qed.

Lemma auth_lib_process_variable_wf data_size :
  preserves auth_wf (auth_lib_process_variable n sz g data_size attrs).
Proof.
  unfold auth_lib_process_variable. pose proof process_var_with_pk_wf.
  pose proof process_var_with_kek_wf. pose proof process_variable_wf. preserve.
Qed.

End auth.

(** ** Iteration *)
Section iteration.
Context `{Allocator}.

Lemma storage_iter_loop_index fuel vars idx var r idx' :
  0 <= idx <= MAX_VAR_COUNT -> storage_iter_loop fuel vars idx var = Ok (r, idx') ->
  0 <= idx' <= MAX_VAR_COUNT.
Proof.
  revert idx var. induction fuel as [|fuel IH]; intros idx var Hi; cbn [storage_iter_loop];
    destruct (idx <? MAX_VAR_COUNT) eqn:E; try by intros [= _ <-].
  apply Z.ltb_lt in E. destruct (vars !! _) as [p|]; [|done].
  intros (valid & _ & Hr)%obind_inv. destruct (negb valid); [by eapply IH in Hr; [|lia]|].
  apply obind_inv in Hr as ([c v] & _ & Hr). destruct (c <? 0); injection Hr as _ <-; lia.
Qed.

Lemma storage_iter_wf var : preserves storage_wf (storage_iter var).
Proof.
  intros s r s' Hs. unfold storage_iter. rewrite (bind_runs _ _ _ s s) by done.
  intros ([x idx] & s1 & [Hl ->]%mlift_inv & Hr)%bind_inv.
  apply storage_iter_loop_index in Hl; [|apply Hs].
  assert (Hset : forall i, 0 <= i <= MAX_VAR_COUNT -> storage_wf (set_iter i s))
    by (intros i Hi; destruct Hs; by constructor).
  destruct x as [v|v]; [injection Hr as _ <-; apply Hset; clia|].
  destruct (idx >=? MAX_VAR_COUNT); injection Hr as _ <-; apply Hset; clia.
Qed.

End iteration.

(** ** The server *)

(** What a backend owes the store: its calls keep it well formed. *)
Class KeepsStore {E} (b : backend_t E) : Prop := {
  ks_set m : be_set b = Some m -> preserves (fun p => storage_wf (fst p)) m;
  ks_notify m : be_notify b = Some m -> preserves (fun p => storage_wf (fst p)) m;
  ks_save m : be_save b = Some m -> preserves (fun p => storage_wf (fst p)) m
}.

(** An invariant of the authentication services, with a page of its size. *)
Record server_inv {E} (I : auth_state -> Prop) (s : server E) : Prop := {
  sw_auth : I (sv_auth s);
  sw_page : zlen (comm_buf s) = SHMEM_SIZE
}.
Arguments sw_auth {_ _ _} _.
Arguments sw_page {_ _ _} _.

(** A writer leaves its object as large as it was. *)
Definition same_size (n : Z) (w : wbuf) : Prop := zlen (fst w) = n.

Lemma put_size n bs : preserves (same_size n) (put bs).
Proof.
  intros [mem off] [] s' Hs. unfold put. intros (mem' & Hw & [= <-])%obind_inv.
  unfold same_size in *. cbn [fst] in *. by rewrite (write_bytes_length _ _ _ _ Hw).
Qed.
#[export] Hint Resolve put_size : preserves.

Lemma put_from_size n src sz : preserves (same_size n) (put_from src sz).
Proof. unfold put_from. preserve. Qed.
#[export] Hint Resolve put_from_size : preserves.

Lemma serialize_uint32_size n x : preserves (same_size n) (serialize_uint32 x).
Proof. apply put_size. Qed.
Lemma serialize_uint64_size n x : preserves (same_size n) (serialize_uint64 x).
Proof. apply put_size. Qed.
Lemma serialize_uintn_size n x : preserves (same_size n) (serialize_uintn x).
Proof. apply put_size. Qed.
Lemma serialize_result_size n st : preserves (same_size n) (serialize_result st).
Proof. apply put_size. Qed.
Lemma serialize_guid_size n g : preserves (same_size n) (serialize_guid g).
Proof. apply put_from_size. Qed.
Lemma serialize_name_size n name sz : preserves (same_size n) (serialize_name name sz).
Proof. unfold serialize_name. preserve. Qed.
Lemma serialize_data_size n data sz : preserves (same_size n) (serialize_data data sz).
Proof. unfold serialize_data. preserve. Qed.
#[export] Hint Resolve serialize_uint32_size serialize_uint64_size serialize_uintn_size
  serialize_result_size serialize_guid_size serialize_name_size serialize_data_size : preserves.

Lemma serialize_buffer_too_small_size n x :
  preserves (same_size n) (serialize_buffer_too_small x).
Proof. unfold serialize_buffer_too_small. preserve. Qed.
#[export] Hint Resolve serialize_buffer_too_small_size : preserves.

Section server.
Context `{Allocator} `{OpenSSL} {E : Type} (backend : option (backend_t E)).
Context (I : auth_state -> Prop) (Hdata : forall d s, I s -> I (set_data d s)).
Abbreviation state_inv := (@server_inv E I).

Lemma reply_wf (m : M wbuf unit) :
  preserves (same_size SHMEM_SIZE) m -> preserves state_inv (reply m).
Proof.
  intros Hm. apply preserves_get_bind; intros s [Ha Hp].
  apply preserves_lift_bind; intros [u w] Hr. apply preserves_mmodify. intros s1 [Ha1 _].
  constructor; [done|]. cbn. by eapply (Hm (comm_buf s, 0)).
Qed.

Lemma reply_status_wf st : preserves state_inv (reply_status st).
Proof. apply reply_wf, put_size. Qed.

Lemma set_runtime_wf rt : preserves state_inv (mmodify (set_runtime rt)).
Proof. apply preserves_mmodify. by intros s []. Qed.

Lemma parse_keeps {A} (m : M bytes A) : keeps (parse (E := E) m).
Proof. unfold parse. keeps. Qed.

Lemma sv_on_store_keeps_wf {A} (m : M storage A) :
  keeps m -> preserves state_inv (sv_on_store m).
Proof. intros Hm. apply preserves_keeps. unfold sv_on_store. apply keeps_mzoom; [done|]. by intros [[]]. Qed.

Lemma slot_var_keeps slot : keeps (slot_var (E := E) slot).
Proof. unfold slot_var. keeps. Qed.

Lemma parse_wf {A} (m : M bytes A) : preserves state_inv (parse m).
Proof. apply preserves_keeps, parse_keeps. Qed.
Lemma slot_var_wf slot : preserves state_inv (slot_var slot).
Proof. apply preserves_keeps, slot_var_keeps. Qed.

Hint Extern 1 (preserves state_inv (reply _)) => apply reply_wf; preserve : preserves.
Hint Resolve reply_status_wf set_runtime_wf parse_wf slot_var_wf : preserves.

Lemma keeps_find_slot n sz g : keeps (storage_find_variable n sz g).
Proof using Type. unfold storage_find_variable. keeps. Qed.
Lemma keeps_next_variable rt n sz g : keeps (storage_next_variable rt n sz g).
Proof using Type. unfold storage_next_variable, storage_get_first. keeps. Qed.

Lemma serialize_get_error_wf var req : preserves state_inv (serialize_get_error var req).
Proof using Type.
  unfold serialize_get_error.
  preserve.
Qed.

Lemma debug_secure_boot_wf v : preserves state_inv (debug_secure_boot v).
Proof using Type. unfold debug_secure_boot. preserve. Qed.

Lemma handle_get_variable_wf : preserves state_inv handle_get_variable.
Proof using Type.
  unfold handle_get_variable, get_variable_body. pose proof serialize_get_error_wf.
  pose proof debug_secure_boot_wf.
  assert (forall n sz g, preserves state_inv
    (sv_on_store (storage_find_variable n sz g)))
    by (intros; apply sv_on_store_keeps_wf, keeps_find_slot).
  preserve.
Qed.

Lemma handle_query_variable_info_wf : preserves state_inv handle_query_variable_info.
Proof using Type.
  unfold handle_query_variable_info, query_variable_info_body.
  assert (preserves state_inv (sv_on_store storage_used))
    by (apply sv_on_store_keeps_wf; unfold storage_used; keeps).
  preserve.
Qed.

Lemma handle_get_next_variable_wf : preserves state_inv handle_get_next_variable.
Proof using Type.
  unfold handle_get_next_variable, get_next_variable_body.
  assert (forall rt n sz g, preserves state_inv
    (sv_on_store (storage_next_variable rt n sz g)))
    by (intros; apply sv_on_store_keeps_wf, keeps_next_variable).
  preserve.
Qed.

(** *** SetVariable *)

(** What the parser of [SetVariable] guarantees of a request. *)
Definition set_parsed_ok (r : EFI_STATUS * option (request * bool)) : Prop :=
  match r.2 with
  | Some (req, _) =>
      (exists name, req_name req = padded name /\ zlen name = req_namesz req) /\
      zlen (req_guid req) = 16 /\ 0 <= req_namesz req <= 256 /\
      0 <= req_attrs req < 0x100000000
  | None => True
  end.

Lemma yields_rd n : yields (rd n) (fun b => zlen b = n).
Proof.
  intros s b s' _. unfold rd. intros (c & Hr & [= <- <-])%obind_inv.
  by apply read_bytes_inv in Hr as (_ & _ & _ & _ & ?).
Qed.

Lemma yields_uint32 : yields unserialize_uint32 (fun x => 0 <= x < 0x100000000).
Proof.
  eapply yields_bind; [apply (yields_rd 4)|]. intros b Hb. apply yields_ret.
  pose proof (le_decode_range b) as R. replace (length b) with 4%nat in R; [done|].
  unfold zlen in Hb. lia.
Qed.

Lemma yields_data buf buflen :
  buflen < 0x8000000000000000 ->
  yields (unserialize_data buf buflen)
    (fun '(n, b) => n = -1 \/ 0 <= n <= buflen /\
       exists d, zlen d = n /\ b = d ++ drop (length d) buf).
Proof.
  intros Hl. unfold unserialize_data. eapply yields_bind; [apply yields_any|]. intros ptr _.
  eapply yields_bind; [apply yields_mlift; intros x Hx; exact (read_le_range _ _ _ _ Hx)|].
  intros size Hsize. destruct (_ || _) eqn:Eq; [apply yields_ret; auto|].
  apply orb_false_iff in Eq as [Eq _]. rewrite Z.gtb_ltb in Eq. apply Z.ltb_ge in Eq.
  eapply yields_bind; [apply yields_any|]. intros _ _.
  eapply yields_bind; [apply yields_rd|]. intros b Hb.
  eapply yields_bind; [apply yields_mlift; intros x Hx; exact Hx|]. intros b' Hw.
  cbv beta in *. apply yields_ret. rewrite s64_id by lia. right. split; [lia|]. exists b.
  split; [done|]. apply write_bytes_inv in Hw as (_ & _ & ->). cbn [take app].
  rewrite Z.add_0_l. unfold zlen. by rewrite Nat2Z.id.
Qed.

Lemma yields_set_request : yields unserialize_set_request set_parsed_ok.
Proof.
  unfold unserialize_set_request.
  eapply yields_bind; [apply yields_any|]. intros version _.
  eapply yields_bind; [apply yields_any|]. intros _ _.
  eapply yields_bind; [apply yields_any|]. intros command _.
  eapply yields_bind; [by apply yields_data|]. intros [sz name] Hname.
  destruct (s32 sz <? 0) eqn:E1; [by apply yields_ret|].
  destruct Hname as [->|(Hsz & nm & Hnm & ->)]; [by vm_compute in E1|].
  change MAX_VARIABLE_NAME_SIZE with 256 in Hsz.
  eapply yields_bind; [apply (yields_rd 16)|]. intros g Hg.
  eapply yields_bind; [apply yields_any|]. intros [dsz buffer] _.
  destruct (dsz <? 0); [by apply yields_ret|].
  eapply yields_bind; [apply yields_uint32|]. intros attrs Ha.
  eapply yields_bind; [apply yields_any|]. intros rt _. apply yields_ret.
  cbv beta in *. cbn. rewrite s32_id by lia. split_and!; try done; [by exists nm|lia..].
Qed.

(** A name whose first byte is not zero. *)
Lemma first_byte_given name first :
  zlen name <= 256 -> read_le 1 (padded name) 0 = Ok first -> first <> 0 ->
  name_given (padded name) (zlen name).
Proof.
  intros Hl Hr Hf. pose proof (zlen_padded name Hl). pose proof (zlen_nonneg name).
  rewrite padded_first in Hr by done. injection Hr as <-. constructor; [| lia|].
  - destruct name; [done|]. rewrite zlen_cons in *. pose proof (zlen_nonneg name). lia.
  - destruct (padded name) as [|b0 [|b1 rest]] eqn:Ep; [done|done|].
    assert (b0 = default x00 (head name)) as ->.
    { destruct name; [done|]. unfold padded in Ep. cbn in Ep. by injection Ep. }
    change (le_decode [default x00 (head name); b1] <> 0). cbn [le_decode].
    pose proof (Z_of_byte_range (default x00 (head name))). pose proof (Z_of_byte_range b1). lia.
Qed.

Lemma run_auth_inv {A} data (m : M auth_state A) :
  preserves I m -> preserves state_inv (run_auth data m).
Proof using Hdata.
  intros Hm. apply preserves_mzoom with I; [intros s [Hs _]; by apply Hdata| |done].
  intros s t [_ Hp] Ht. by constructor.
Qed.

(** The update a request that passed the checks leads to. *)
Definition update_keeps (req : request) : Prop :=
  name_given (req_name req) (req_namesz req) ->
  is_ro (Some (req_name req)) (req_namesz req) (Some (req_guid req)) = Ok false ->
  preserves I (auth_lib_process_variable (req_name req) (req_namesz req) (req_guid req)
                 (req_buffer_size req) (req_attrs req)) /\
  (is_secure_boot_variable (Some (req_name req)) (req_namesz req) (Some (req_guid req))
     = Ok false ->
   preserves state_inv
     (sv_on_store (storage_set (Some (req_name req)) (req_namesz req) (Some (req_guid req))
                     (Some (req_buffer req)) (req_buffer_size req) (req_attrs req)))).

(** The updates of the request in a page. *)
Definition updates_keep (page : bytes) : Prop :=
  forall st req rt rest,
    unserialize_set_request page = Ok ((st, Some (req, rt)), rest) ->
    set_parsed_ok (st, Some (req, rt)) -> update_keeps req.

Context (Hset : preserves state_inv (backend_set backend)).
Context (Hnotify : preserves state_inv (backend_notify backend)).

Lemma handle_set_variable_inv :
  triple (fun s => state_inv s /\ updates_keep (comm_buf s)) (handle_set_variable backend)
    (fun _ => state_inv).
Proof using Hdata Hset.
  intros s u s' [Hs Hup] Hrun. unfold handle_set_variable, set_variable_body in Hrun.
  apply bind_inv in Hrun as ([status parsed] & s1 & Hp & Hrun).
  pose proof (parse_keeps _ _ _ _ Hp) as ->.
  unfold parse in Hp. rewrite (bind_runs _ _ _ s s) in Hp by done.
  apply bind_inv in Hp as ([r rest] & s2 & [Hparse ->]%mlift_inv & [= ->]).
  pose proof (yields_set_request _ _ _ Logic.I Hparse) as Hok.
  destruct parsed as [[req rt]|]; [|by eapply reply_status_wf].
  pose proof (Hup _ _ _ _ Hparse Hok) as Hreq. clear Hparse Hup.
  destruct Hok as ((name & Hname & Hnsz) & Hg & Hsz & Ha).
  match type of Hrun with ?m s = _ => enough (Hm : preserves state_inv m) by by eapply Hm end.
  clear s u s' Hs Hrun.
  apply preserves_bind; [preserve|]. intros _. case_match; [preserve|].
  apply preserves_lift_bind. intros first Hfirst.
  destruct (_ || _) eqn:Eq; [preserve|]. apply orb_false_iff in Eq as [Eq _]. apply Z.eqb_neq in Eq.
  rewrite Hname in Hfirst.
  assert (Hn : name_given (req_name req) (req_namesz req))
    by (rewrite Hname, <-Hnsz; eapply first_byte_given; [lia|done|done]).
  apply preserves_lift_bind. intros [] Hro; [preserve|]. cbv zeta. case_match; [preserve|].
  destruct (Hreq Hn Hro) as [Hauth Hplain].
  apply (preserves_bind_pure _ _ (fun auth : bool => auth = false ->
    is_secure_boot_variable (Some (req_name req)) (req_namesz req) (Some (req_guid req))
      = Ok false)).
  { intros s auth s' Hs Hr. destruct (has _ _); [by injection Hr as <- <-|].
    apply mlift_inv in Hr as [Hr ->]. split; [|done]. by intros ->. }
  intros auth Hsb. apply preserves_bind; [|intros st; preserve].
  destruct auth; [by apply run_auth_inv|by apply Hplain, Hsb].
Qed.

Lemma requests_inv mapped :
  triple (fun s => state_inv s /\ updates_keep (comm_buf s))
    (xen_variable_server_handle_request backend mapped) (fun _ => state_inv).
Proof using Hdata Hset Hnotify.
  pose proof handle_get_variable_wf. pose proof handle_set_variable_inv as Hhandle.
  pose proof handle_get_next_variable_wf. pose proof handle_query_variable_info_wf.
  intros s u s' [Hs Hup] Hrun. unfold xen_variable_server_handle_request in Hrun.
  destruct (negb mapped); [by injection Hrun as _ <-|].
  apply bind_inv in Hrun as (version & s1 & Hp & Hrun).
  pose proof (parse_keeps _ _ _ _ Hp) as ->. destruct (negb _); [by eapply reply_status_wf|].
  apply bind_inv in Hrun as (command & s1 & Hp2 & Hrun).
  pose proof (parse_keeps _ _ _ _ Hp2) as ->.
  destruct (command =? COMMAND_GET_VARIABLE); [by eapply handle_get_variable_wf|].
  destruct (command =? COMMAND_SET_VARIABLE); [by eapply Hhandle|].
  match type of Hrun with ?m s = _ => enough (Hm : preserves state_inv m) by by eapply Hm end.
  preserve.
Qed.

End server.

(** *** Well-formed states *)
Section well_formed.
Context `{Allocator} `{OpenSSL} {E : Type} (backend : option (backend_t E)).
Context (Hbackend : forall b, backend = Some b -> KeepsStore b).

Definition server_wf : server E -> Prop := server_inv auth_wf.

Lemma sv_on_store_wf {A} (m : M storage A) :
  preserves storage_wf m -> preserves server_wf (sv_on_store m).
Proof using Type.
  intros Hm. apply preserves_mzoom with storage_wf; [by intros s [[]]| |done].
  intros s t [[Hs Hm2] Hp] Ht. by constructor.
Qed.

Lemma run_backend_wf {A} (m : M (storage * E) A) :
  preserves (fun p => storage_wf (fst p)) m -> preserves server_wf (run_backend m).
Proof using Type.
  intros Hm. apply preserves_mzoom with (fun p => storage_wf (fst p)); [by intros s [[]]| |done].
  intros s [st e] [[Hs Hm2] Hp] Ht. by constructor.
Qed.

Lemma backend_set_wf : preserves server_wf (backend_set backend).
Proof using Hbackend.
  unfold backend_set. destruct backend as [b|]; [|apply preserves_ret].
  destruct (Hbackend b eq_refl) as [Hset _ _]. destruct (be_set b) as [f|]; [|apply preserves_ret].
  apply preserves_bind; [|intros; apply preserves_ret]. by apply run_backend_wf, Hset.
Qed.
Lemma backend_notify_wf : preserves server_wf (backend_notify backend).
Proof using Hbackend.
  unfold backend_notify. destruct backend as [b|]; [|apply preserves_ret].
  destruct (Hbackend b eq_refl) as [_ Hnot _]. destruct (be_notify b) as [f|]; [|apply preserves_ret].
  by apply run_backend_wf, Hnot.
Qed.

Lemma updates_keep_wf page : @updates_keep _ _ E auth_wf page.
Proof using Type.
  intros st req rt rest _ (_ & Hg & _ & Ha) Hn _. split.
  - by apply auth_lib_process_variable_wf.
  - intros _. by apply sv_on_store_wf, storage_set_wf.
Qed.

Lemma requests_wf mapped : preserves server_wf (xen_variable_server_handle_request backend mapped).
Proof using Hbackend.
  intros s u s' Hs Hrun. eapply requests_inv; [by intros d ? []| | | |exact Hrun].
  - apply backend_set_wf.
  - apply backend_notify_wf.
  - split; [exact Hs|apply updates_keep_wf].
Qed.

(** C34: Every request keeps the state well formed.  Whatever bytes the guest
    has put into the page, when a request is answered the store is still an
    array of 128 slots each of which is free and zeroed or holds a well-formed
    variable, with the counters of the slots in use; the platform mode is one
    of the two; and the page has its size. *)
Theorem requests_keep_well_formed (s s' : server E) (mapped : bool) :
  server_wf s -> xen_variable_server_handle_request backend mapped s = Ok (tt, s') ->
  zlen (variables (sv_store s')) = MAX_VAR_COUNT /\
  Forall slot_wf (variables (sv_store s')) /\
  total (sv_store s') = nlive (variables (sv_store s')) /\
  used (sv_store s') = slot_cost * nlive (variables (sv_store s')) /\
  (setup_mode (sv_auth s') = SETUP_MODE \/ setup_mode (sv_auth s') = USER_MODE) /\
  zlen (comm_buf s') = SHMEM_SIZE.
Proof using Hbackend.
  intros Hs Hrun. destruct (requests_wf mapped s tt s' Hs Hrun) as [[[Hl Hw Ht Hu _] Hm] Hp].
  by split_and!.
Qed.

End well_formed.

(** ** At a concrete request *)
Lemma set_B_answered : exists s', handle (sample_server store_2 SETUP_MODE set_B) = Ok (tt, s').
Proof.
  rewrite (set_variable_runs None _ name_B guid_1 [x01; x02] 7 false) by set_page_of.
  change (set_guard name_B guid_1 7 =? EFI_SUCCESS) with true.
  destruct (@storage_set_refines zero_allocator store_2 (padded name_B) (zlen name_B) guid_1
              (padded_data [x01; x02]) 2 7) as (st & store' & Hrun & _);
    [apply zero_allocator_grants|exact store_2_inv|apply canonical_padded, name_B_ok|done|clia
    |by rewrite zlen_padded_data|done|].
  unfold set_update.
  change (has 7 _ || secure_boot_key (name_B, guid_1)) with false. cbv match.
  erewrite bind_runs by (unfold sv_on_store, mzoom; cbn [sv_store sv_auth set_runtime
    sample_server au_store]; change (zlen [x01; x02]) with 2; by rewrite Hrun).
  unfold set_finish. change (has 7 EFI_VARIABLE_NON_VOLATILE) with true. rewrite andb_true_r.
  rewrite (bind_runs _ _ _ tt (set_sv_store store' (set_runtime false
    (sample_server store_2 SETUP_MODE set_B)))) by by destruct (st =? EFI_SUCCESS).
  eexists. apply reply_status_ok. cbn [comm_buf set_sv_store set_sv_auth set_runtime sample_server].
  rewrite zlen_page_of; [done|]. vm_compute. discriminate.
Qed.

Lemma requests_keep_well_formed_witness :
  exists s', handle (sample_server store_2 SETUP_MODE set_B) = Ok (tt, s') /\
    zlen (variables (sv_store s')) = MAX_VAR_COUNT /\
    Forall slot_wf (variables (sv_store s')) /\
    total (sv_store s') = nlive (variables (sv_store s')) /\
    used (sv_store s') = slot_cost * nlive (variables (sv_store s')) /\
    (setup_mode (sv_auth s') = SETUP_MODE \/ setup_mode (sv_auth s') = USER_MODE) /\
    zlen (comm_buf s') = SHMEM_SIZE.
Proof.
  destruct set_B_answered as [s' Hs']. exists s'. split; [exact Hs'|].
  apply (@requests_keep_well_formed zero_allocator toy_openssl unit None
           ltac:(intros b Hb; discriminate Hb) (sample_server store_2 SETUP_MODE set_B) s' true);
    [|exact Hs'].
  constructor; [constructor; [exact (si_wf _ store_2_inv)|left; reflexivity]|].
  apply zlen_page_of. vm_compute. discriminate.
Defined.
