(* ===== verification/XapiBackend.v ===== *)
(** * The XAPI backend under the server

    What [src/xapi.c] promises to the server: its hooks only iterate over the
    store, so they keep it well formed, and its variables as they are. *)
From S2P Require Import Prelude EfiTypes Common UefiVariable Storage StorageInv Serializer.
From S2P Require Import Crypto SigList Auth CText Server Xapi Triples WellFormed.

Section lists.
Context `{Allocator} `{Base64}.

(** An invariant that iterating keeps. *)
Context (I : storage -> Prop) (Hiter : forall var, preserves I (storage_iter var)).
#[local] Set Default Proof Using "Type*".

Lemma retrieve_nonvolatile_keeps fuel cnt n vars tmp :
  preserves I (retrieve_nonvolatile_loop fuel cnt n vars tmp).
Proof.
  revert cnt vars tmp. induction fuel as [|fuel IH]; intros cnt vars tmp;
    cbn [retrieve_nonvolatile_loop]; preserve.
Qed.

Lemma retrieve_keeps fuel cnt n vars : preserves I (retrieve_loop fuel cnt n vars).
Proof.
  revert cnt vars. induction fuel as [|fuel IH]; intros cnt vars; cbn [retrieve_loop]; preserve.
Qed.

Lemma variable_list_bytes_keeps nonvolatile : preserves I (variable_list_bytes nonvolatile).
Proof.
  unfold variable_list_bytes, retrieve_nonvolatile_vars, retrieve_vars.
  pose proof retrieve_nonvolatile_keeps. pose proof retrieve_keeps. preserve.
Qed.

Lemma build_message_keeps buffer n : preserves I (build_set_efi_vars_message buffer n).
Proof.
  unfold build_set_efi_vars_message, variable_list_base64.
  pose proof variable_list_bytes_keeps. preserve.
Qed.

End lists.

Section backend.
Context {E : Type} `{Host E} `{Allocator} `{Base64} `{Libxml2} (interrupts : nat).
Context (I : storage -> Prop) (Hiter : forall var, preserves I (storage_iter var)).
#[local] Set Default Proof Using "Type*".

Abbreviation on_fst := (fun p : storage * xapi_state E => I (fst p)).

Lemma on_xapi_keeps {A} (m : M (xapi_state E) A) : preserves on_fst (on_xapi m).
Proof using Type.
  apply preserves_mzoom with (fun _ => True); [done|by intros [st x] ? ?|by intros ? ? ? ? ?].
Qed.
Lemma on_storage_keeps {A} (m : M storage A) : preserves I m -> preserves on_fst (on_storage m).
Proof using Type.
  intros Hm. apply preserves_mzoom with I; [done|by intros [st x] ? ?|done].
Qed.

Lemma xapi_set_keeps : preserves on_fst (xapi_set interrupts).
Proof.
  unfold xapi_set. pose proof (build_message_keeps I Hiter).
  assert (forall b n, preserves on_fst (on_storage (build_set_efi_vars_message b n)))
    by (intros; by apply on_storage_keeps).
  assert (forall A (m : M (xapi_state E) A), preserves on_fst (on_xapi m))
    by (intros; apply on_xapi_keeps).
  preserve.
Qed.

Lemma xapi_save_keeps : preserves on_fst xapi_save.
Proof.
  unfold xapi_save. pose proof (variable_list_bytes_keeps I Hiter false).
  assert (preserves on_fst (on_storage (variable_list_bytes false)))
    by (by apply on_storage_keeps).
  assert (forall A (m : M (xapi_state E) A), preserves on_fst (on_xapi m))
    by (intros; apply on_xapi_keeps).
  preserve.
Qed.

End backend.

(** Iterating leaves the variables and the counters as they are. *)
Lemma storage_iter_variables `{Allocator} (vars : list variable_t) (t u : Z) var :
  preserves (fun s => variables s = vars /\ total s = t /\ used s = u) (storage_iter var).
Proof.
  intros s r s' Hs. unfold storage_iter. rewrite (bind_runs _ _ _ s s) by done.
  intros ([x idx] & s1 & [_ ->]%mlift_inv & Hr)%bind_inv.
  destruct x as [v|v]; [by injection Hr as _ <-|].
  by destruct (idx >=? MAX_VAR_COUNT); injection Hr as _ <-.
Qed.

#[export] Instance xapidb_keeps_store {E} `{Host E} `{Allocator} `{Base64} `{Libxml2}
    (interrupts : nat) : KeepsStore (xapidb (E := E) interrupts).
Proof.
  constructor; intros m [= <-].
  - apply xapi_set_keeps, storage_iter_wf.
  - apply on_xapi_keeps.
  - apply xapi_save_keeps, storage_iter_wf.
Qed.
