(* ===== verification/Depriv.v ===== *)
(** * Dropping privileges

    [src/depriv.c].  The system calls are the class [Kernel]; the specification
    is the list of the calls made and what each must answer. *)
From Stdlib Require Import Strings.String.
From S2P Require Import Prelude CText.

Inductive resource : Type := RLIMIT_FSIZE | RLIMIT_NPROC.

(** The system calls, with the values they return; a [scmp_filter_ctx] is part
    of the kernel's state. *)
Class Kernel (W : Type) : Type := {
  sys_chroot : bytes -> W -> Z * W;
  sys_unshare : W -> Z * W;               (** new mount, IPC, network, UTS namespaces *)
  sys_setgid : Z -> W -> Z * W;
  sys_setgroups : list Z -> W -> Z * W;
  sys_setuid : Z -> W -> Z * W;
  sys_setrlimit : resource -> Z -> W -> Z * W;
  seccomp_init : W -> bool * W;           (** allowing what no rule forbids *)
  seccomp_rule_add : bytes -> W -> Z * W; (** killing the process on this call *)
  seccomp_load : W -> Z * W;
  seccomp_release : W -> W
}.

(** [SCMP_SYS (name)], by name. *)
Definition seccomp_blacklist : list bytes :=
  str <$> ["reboot"; "swapon"; "swapoff"; "syslog"; "mount"; "umount"; "kexec_load";
    "afs_syscall"; "break"; "ftime"; "getpmsg"; "gtty"; "lock"; "mpx"; "prof"; "profil";
    "putpmsg"; "security"; "stty"; "tuxcall"; "ulimit"; "vserver"; "readdir"; "_sysctl";
    "bdflush"; "unshare"; "create_module"; "get_kernel_syms"; "query_module"; "sgetmask";
    "ssetmask"; "sysfs"; "uselib"; "ustat"; "setuid"; "setgid"; "setpgid"; "setsid";
    "setreuid"; "setregid"; "setresuid"; "setresgid"; "setfsuid"; "setfsgid"; "clone"; "fork";
    "vfork"; "execve"; "getpriority"; "setpriority"; "sched_setparam"; "sched_getparam";
    "sched_setscheduler"; "sched_getscheduler"; "sched_setaffinity"; "sched_getaffinity";
    "sched_get_priority_max"; "sched_get_priority_min"]%string.

Section depriv.
Context {W : Type} `{Kernel W}.

Definition call {A} (f : W -> A * W) : M W A := fun w => Ok (f w).

(** The loop over the blacklist; a failing rule releases the filter. *)
Fixpoint add_rules (names : list bytes) : M W bool :=
  match names with
  | [] => ret true
  | name :: names' =>
      rc <- call (seccomp_rule_add name) ;;
      if rc <? 0 then call (fun w => (tt, seccomp_release w)) ;; ret false
      else add_rules names'
  end.

(** The last part, under [opt_depriv]. *)
Definition confine : M W bool :=
  call (sys_setrlimit RLIMIT_FSIZE (20 * 1024 * 1024)) ;;
  call (sys_setrlimit RLIMIT_NPROC 1) ;;
  ctx <- call seccomp_init ;;
  if negb ctx then ret false
  else
  added <- add_rules seccomp_blacklist ;;
  if negb added then ret false
  else
  rc <- call seccomp_load ;;
  call (fun w => (tt, seccomp_release w)) ;;
  ret (negb (rc <? 0)).

Definition drop_uid (opt_uid : Z) : M W bool :=
  if opt_uid =? 0 then ret true
  else
  r <- call (sys_setuid opt_uid) ;;
  if r <? 0 then ret false
  else
  r <- call (sys_setuid 0) ;;
  ret (r =? -1).

Definition drop_gid (opt_gid : Z) : M W bool :=
  if opt_gid =? 0 then ret true
  else
  r <- call (sys_setgid opt_gid) ;;
  if r <? 0 then ret false
  else
  r <- call (sys_setgroups [opt_gid]) ;;
  ret (negb (r <? 0)).

Definition drop_privileges (root : option bytes) (opt_depriv : bool) (opt_gid opt_uid : Z) :
    M W bool :=
  in_root <-
    match root with
    | Some path => dir <- mlift (c_string path) ;; r <- call (sys_chroot dir) ;; ret (negb (r <? 0))
    | None => ret true
    end ;;
  if negb in_root then ret false
  else
  unshared <- (if opt_depriv then r <- call sys_unshare ;; ret (negb (r <? 0)) else ret true) ;;
  if negb unshared then ret false
  else
  group <- drop_gid opt_gid ;;
  if negb group then ret false
  else
  user <- drop_uid opt_uid ;;
  if negb user then ret false
  else
  if opt_depriv then confine else ret true.

(** ** The specification *)

(** A call with the answers it may have, and whether the filter must be
    released when it has another. *)
Inductive step : Type :=
  | Chroot (dir : bytes) | Unshare | Setgid (g : Z) | Setgroups (gs : list Z) | Setuid (u : Z)
  | Setuid_refused            (** [setuid (0)] must fail *)
  | Limit (r : resource) (n : Z) | Filter | Forbid (name : bytes) | Load.

(** Was the answer the one wanted? *)
Definition perform (c : step) (w : W) : bool * W :=
  let done (r : Z * W) := (negb (r.1 <? 0), r.2) in
  match c with
  | Chroot dir => done (sys_chroot dir w)
  | Unshare => done (sys_unshare w)
  | Setgid g => done (sys_setgid g w)
  | Setgroups gs => done (sys_setgroups gs w)
  | Setuid u => done (sys_setuid u w)
  | Setuid_refused => let r := sys_setuid 0 w in (r.1 =? -1, r.2)
  | Limit r n => (true, (sys_setrlimit r n w).2)
  | Filter => seccomp_init w
  | Forbid name =>
      let r := seccomp_rule_add name w in
      if r.1 <? 0 then (false, seccomp_release r.2) else (true, r.2)
  | Load => let r := seccomp_load w in (negb (r.1 <? 0), seccomp_release r.2)
  end.

(** One after the other, up to the first that goes wrong. *)
Fixpoint perform_all (cs : list step) (w : W) : bool * W :=
  match cs with
  | [] => (true, w)
  | c :: cs' => let '(ok, w) := perform c w in if ok then perform_all cs' w else (false, w)
  end.

Definition confine_steps : list step :=
  [Limit RLIMIT_FSIZE 20971520; Limit RLIMIT_NPROC 1; Filter] ++
  (Forbid <$> seccomp_blacklist) ++ [Load].

Definition root_steps (root : option bytes) (opt_depriv : bool) (gid : Z) : list step :=
  match root with Some dir => [Chroot dir] | None => [] end ++
  (if opt_depriv then [Unshare] else []) ++
  (if gid =? 0 then [] else [Setgid gid; Setgroups [gid]]).
Definition user_steps (uid : Z) : list step :=
  if uid =? 0 then [] else [Setuid uid; Setuid_refused].

Definition depriv_steps (root : option bytes) (opt_depriv : bool) (gid uid : Z) : list step :=
  root_steps root opt_depriv gid ++ user_steps uid ++ (if opt_depriv then confine_steps else []).

End depriv.

(** ** The code performs the steps *)
Section proof.
Context {W : Type} `{Kernel W}.

Lemma perform_all_app cs1 cs2 w :
  perform_all (cs1 ++ cs2) w
  = let '(ok, w1) := perform_all cs1 w in if ok then perform_all cs2 w1 else (false, w1).
Proof.
  revert w. induction cs1 as [|c cs1 IH]; intros w; [done|]. cbn [app perform_all].
  destruct (perform c w) as [[] w1]; [apply IH|done].
Qed.

(** A part of the code that performs a list of steps. *)
Definition does (m : M W bool) (cs : list step) : Prop := forall w, m w = Ok (perform_all cs w).

Lemma does_then (m k : M W bool) cs1 cs2 :
  does m cs1 -> does k cs2 -> does (b <- m ;; if negb b then ret false else k) (cs1 ++ cs2).
Proof.
  intros Hm Hk w. unfold bind. rewrite Hm, perform_all_app.
  by destruct (perform_all cs1 w) as [[] w1]; cbn [negb].
Qed.

Lemma does_nothing : does (ret true) [].
Proof. done. Qed.

Lemma does_call f c :
  (forall w, perform c w = (negb ((f w).1 <? 0), (f w).2)) ->
  does (r <- call f ;; ret (negb (r <? 0))) [c].
Proof.
  intros Hc w. unfold bind, call, ret. cbn [perform_all]. rewrite Hc.
  destruct (f w) as [r w1]. cbn [fst snd]. by destruct (r <? 0).
Qed.

Lemma add_rules_does names : does (add_rules names) (Forbid <$> names).
Proof.
  induction names as [|name names IH]; intros w; [done|].
  cbn [add_rules fmap list_fmap perform_all perform]. unfold bind, call, ret.
  destruct (seccomp_rule_add name w) as [rc w1]. cbn [fst snd].
  destruct (rc <? 0); [done|apply IH].
Qed.

Lemma confine_does : does confine confine_steps.
Proof.
  intros w. unfold confine_steps. unfold confine, bind at 1, call at 1. cbn [app perform_all perform].
  destruct (sys_setrlimit RLIMIT_FSIZE _ w) as [r1 w1]. cbn [snd].
  unfold bind at 1, call at 1. destruct (sys_setrlimit RLIMIT_NPROC 1 w1) as [r2 w2]. cbn [snd].
  unfold bind at 1, call at 1. destruct (seccomp_init w2) as [ctx w3].
  destruct ctx; cbn [negb]; [|done]. unfold bind at 1. rewrite add_rules_does, perform_all_app.
  destruct (perform_all _ w3) as [[] w4]; cbn [negb]; [|done].
  cbn [perform_all perform]. unfold bind, call, ret.
  destruct (seccomp_load w4) as [rc w5]. cbn [fst snd]. by destruct (rc <? 0).
Qed.

Lemma drop_gid_does gid :
  does (drop_gid gid) (if gid =? 0 then [] else [Setgid gid; Setgroups [gid]]).
Proof.
  unfold drop_gid. destruct (gid =? 0); [apply does_nothing|]. intros w.
  cbn [perform_all perform]. unfold bind at 1, call at 1.
  destruct (sys_setgid gid w) as [r w1]. cbn [fst snd]. destruct (r <? 0); cbn [negb]; [done|].
  exact (does_call (sys_setgroups [gid]) (Setgroups [gid]) (fun _ => eq_refl) w1).
Qed.

Lemma drop_uid_does uid :
  does (drop_uid uid) (user_steps uid).
Proof.
  unfold drop_uid, user_steps. destruct (uid =? 0); [apply does_nothing|]. intros w.
  cbn [perform_all perform]. unfold bind, call, ret.
  destruct (sys_setuid uid w) as [r w1]. cbn [fst snd]. destruct (r <? 0); cbn [negb]; [done|].
  destruct (sys_setuid 0 w1) as [r2 w2]. cbn [fst snd]. by destruct (r2 =? -1).
Qed.

(** What a completed list of steps has done. *)
Lemma perform_all_done cs1 cs2 w w' :
  perform_all (cs1 ++ cs2) w = (true, w') ->
  exists w1, perform_all cs1 w = (true, w1) /\ perform_all cs2 w1 = (true, w').
Proof.
  rewrite perform_all_app. destruct (perform_all cs1 w) as [[] w1]; [|done]. by exists w1.
Qed.
Lemma perform_done c cs w w' :
  perform_all (c :: cs) w = (true, w') ->
  exists w1, perform c w = (true, w1) /\ perform_all cs w1 = (true, w').
Proof. cbn [perform_all]. destruct (perform c w) as [[] w1]; [|done]. by exists w1. Qed.

Lemma root_does (root : option (bytes * bytes)) :
  (forall path dir, root = Some (path, dir) -> c_string path = Ok dir) ->
  does (match fst <$> root with
        | Some path =>
            dir <- mlift (c_string path) ;; r <- call (sys_chroot dir) ;; ret (negb (r <? 0))
        | None => ret true
        end)
       (match snd <$> root with Some dir => [Chroot dir] | None => [] end).
Proof.
  intros Hr. destruct root as [[path dir]|]; cbn [fmap option_fmap option_map fst snd];
    [|apply does_nothing].
  intros w. rewrite (bind_runs _ _ _ dir w) by by apply mlift_runs, Hr.
  by apply (does_call (sys_chroot dir) (Chroot dir)).
Qed.

Lemma unshare_does (opt_depriv : bool) :
  does (if opt_depriv then r <- call sys_unshare ;; ret (negb (r <? 0)) else ret true)
       (if opt_depriv then [Unshare] else []).
Proof. destruct opt_depriv; [by apply (does_call sys_unshare Unshare)|apply does_nothing]. Qed.

Lemma drop_privileges_does (root : option (bytes * bytes)) opt_depriv gid uid :
  (forall path dir, root = Some (path, dir) -> c_string path = Ok dir) ->
  does (drop_privileges (fst <$> root) opt_depriv gid uid)
       (depriv_steps (snd <$> root) opt_depriv gid uid).
Proof.
  intros Hr. unfold drop_privileges, depriv_steps, root_steps. rewrite <-!app_assoc.
  apply does_then; [by apply root_does|]. apply does_then; [apply unshare_does|].
  apply does_then; [apply drop_gid_does|]. apply does_then; [apply drop_uid_does|].
  destruct opt_depriv; [apply confine_does|apply does_nothing].
Qed.

(** C39: [drop_privileges] performs its system calls in the one safe order (new
    root, new namespaces, group and supplementary groups, user, limits, the
    system call filter), stops at the first that does not answer as wanted and
    then returns false.  So when it returns true with a user other than root,
    regaining the user root has been tried and refused, after everything that
    needs root and before the filter that forbids trying was loaded. *)
Theorem drop_privileges_exact (root : option (bytes * bytes)) (opt_depriv : bool)
    (gid uid : Z) (w : W) :
  (forall path dir, root = Some (path, dir) -> c_string path = Ok dir) ->
  drop_privileges (fst <$> root) opt_depriv gid uid w
    = Ok (perform_all (depriv_steps (snd <$> root) opt_depriv gid uid) w) /\
  forall w', drop_privileges (fst <$> root) opt_depriv gid uid w = Ok (true, w') -> uid <> 0 ->
    exists w1 w2 w3,
      perform_all (root_steps (snd <$> root) opt_depriv gid) w = (true, w1) /\
      perform (Setuid uid) w1 = (true, w2) /\ sys_setuid 0 w2 = (-1, w3) /\
      perform_all (if opt_depriv then confine_steps else []) w3 = (true, w').
Proof.
  intros Hr. pose proof (drop_privileges_does root opt_depriv gid uid Hr) as Hd.
  split; [apply Hd|]. intros w'. rewrite Hd. intros [= Hw] Hu.
  unfold depriv_steps, user_steps in Hw. rewrite (proj2 (Z.eqb_neq _ _) Hu) in Hw.
  apply perform_all_done in Hw as (w1 & H1 & (w2 & H2 & (w3 & H3 & H4)%perform_done)%perform_done).
  exists w1, w2, w3. split_and!; [done|done| |done].
  cbn [perform] in H3. destruct (sys_setuid 0 w2) as [r w4]. cbn [fst snd] in H3.
  injection H3 as ->%Z.eqb_eq ->. done.
Qed.

End proof.

(** A kernel with the user as its state: only root can change it. *)
Definition toy_kernel : Kernel Z := {|
  sys_chroot _ w := (if w =? 0 then 0 else -1, w);
  sys_unshare w := (if w =? 0 then 0 else -1, w);
  sys_setgid _ w := (if w =? 0 then 0 else -1, w);
  sys_setgroups _ w := (if w =? 0 then 0 else -1, w);
  sys_setuid u w := if w =? 0 then (0, u) else (-1, w);
  sys_setrlimit _ _ w := (0, w);
  seccomp_init w := (true, w);
  seccomp_rule_add _ w := (0, w);
  seccomp_load w := (0, w);
  seccomp_release w := w
|}.
#[local] Existing Instance toy_kernel.

Definition jail : bytes := str "/var/jail".

Lemma jail_path : c_string (jail ++ [NUL]) = Ok jail.
Proof. vm_compute. reflexivity. Qed.

Lemma drop_privileges_exact_witness :
  let run := drop_privileges (Some (jail ++ [NUL])) true 100 1000 0 in
  run = Ok (perform_all (depriv_steps (Some jail) true 100 1000) 0) /\
  exists w1 w2 w3,
    perform_all (root_steps (Some jail) true 100) 0 = (true, w1) /\
    perform (Setuid 1000) w1 = (true, w2) /\ sys_setuid 0 w2 = (-1, w3) /\
    perform_all confine_steps w3 = (true, 1000).
Proof.
  destruct (@drop_privileges_exact Z toy_kernel (Some (jail ++ [NUL], jail)) true 100 1000 0)
    as [Hrun Huser]; [intros path dir [= <- <-]; exact jail_path|].
  split; [exact Hrun|]. apply (Huser 1000); [|discriminate].
  transitivity (Ok (perform_all (depriv_steps (Some jail) true 100 1000) 0)); [exact Hrun|].
  vm_compute. reflexivity.
Defined.
