(* ===== verification/Daemon.v ===== *)
(** * The daemon

    [src/uefistored.c]: the command line, the connection to the hypervisor, the
    start-up sequence that ends in the event loop, the handling of I/O
    requests, and the signal handler.

    The hypervisor's libraries, XenStore and the remaining system calls are the
    class [Xen], on the same world [W] as the backend's [Host] and the
    [Kernel] of [Depriv].  A handle is only null or not.  The page of I/O
    requests that the hypervisor shares with the daemon is part of the world, so
    the guest's writes to it are steps of the world; pages of guest memory are
    mapped as objects, whose contents go back when they are unmapped. *)
From Stdlib Require Import Strings.String.
From S2P Require Import Prelude LogLevel EfiTypes Common UefiVariable Storage Crypto SigList Auth AuthLib.
From S2P Require Import CText Server Xapi Depriv.

(** ** The hypervisor *)

(** Of Xen's public headers: one entry of the shared page. *)
Record ioreq : Type := mk_ioreq {
  iq_addr : Z;       (** [uint64_t] *)
  iq_data : Z;       (** [uint64_t] *)
  iq_size : Z;       (** [uint32_t] *)
  iq_vp_eport : Z;   (** [uint32_t] *)
  iq_state : Z;
  iq_type : Z
}.
Definition STATE_IOREQ_READY : Z := 1.
Definition STATE_IOREQ_INPROCESS : Z := 2.
Definition STATE_IORESP_READY : Z := 3.
Definition IOREQ_TYPE_PIO : Z := 0.

Inductive poll_result : Type :=
  | P_failed
  | P_interrupted           (** -1 with [EINTR] *)
  | P_timeout
  | P_events (pollin : bool).

Class Xen (W : Type) : Type := {
  xc_interface_open : W -> bool * W;
  xc_interface_close : W -> W;
  (** the value, [max_vcpu_id] and [domid] *)
  xc_domain_getinfo : Z -> W -> Z * Z * Z * W;
  xendevicemodel_open : W -> bool * W;
  xendevicemodel_close : W -> W;
  (** the value and the [ioservid_t] *)
  xendevicemodel_create_ioreq_server : Z -> W -> Z * Z * W;
  xendevicemodel_destroy_ioreq_server : Z -> Z -> W -> W;
  xendevicemodel_set_ioreq_server_state : Z -> Z -> Z -> W -> Z * W;
  xendevicemodel_map_io_range_to_ioreq_server : Z -> Z -> Z -> Z -> W -> Z * W;
  xenforeignmemory_open : W -> bool * W;
  xenforeignmemory_close : W -> W;
  xenforeignmemory_map_resource : Z -> Z -> W -> bool * W;
  xenforeignmemory_unmap_resource : W -> W;
  xenforeignmemory_map : Z -> list Z -> W -> option bytes * W;
  xenforeignmemory_unmap : list Z -> bytes -> W -> W;
  xentoolcore_restrict_all : Z -> W -> Z * W;
  xenevtchn_open : W -> bool * W;
  xenevtchn_close : W -> W;
  xenevtchn_bind_interdomain : Z -> Z -> W -> Z * W;
  xenevtchn_unbind : Z -> W -> W;
  xenevtchn_pending : W -> Z * W;
  xenevtchn_unmask : Z -> W -> W;
  xenevtchn_notify : Z -> W -> W;
  (** [shared_iopage->vcpu_ioreq[i]]; none beyond the page *)
  vcpu_ioreq : Z -> W -> option ioreq;
  set_ioreq_state : Z -> Z -> W -> W;
  sys_poll : W -> poll_result * W;
  sys_sigaction : Z -> W -> Z * W;
  xs_open : W -> bool * W;
  xs_read : bytes -> W -> option bytes * W;
  xs_write : bytes -> bytes -> W -> bool * W;
  sys_getpid : W -> Z * W;
  sys_open_rw : bytes -> W -> Z * W;
  sys_write_fd : Z -> bytes -> W -> Z * W;
  sys_close_fd : Z -> W -> W
}.

(** ** The key files *)
Definition AT_ATTRS : Z :=
  Z.lor EFI_VARIABLE_NON_VOLATILE
 (Z.lor EFI_VARIABLE_TIME_BASED_AUTHENTICATED_WRITE_ACCESS
 (Z.lor EFI_VARIABLE_BOOTSERVICE_ACCESS EFI_VARIABLE_RUNTIME_ACCESS)).

Definition DEFINE_AUTH_FILE (fname : bytes) (name : bytes) (guid : EFI_GUID) (attrs : Z) :
    auth_data :=
  mk_auth_data fname
    (mk_var (name ++ drop (length name) zero_name) (sizeof_wchar name) None 0 guid attrs
       zero_time zero_cert).

Definition initial_auth_files : list auth_data :=
  [DEFINE_AUTH_FILE (str "/var/lib/uefistored/db.auth") EFI_IMAGE_SECURITY_DATABASE
     gEfiImageSecurityDatabaseGuid AT_ATTRS;
   DEFINE_AUTH_FILE (str "/var/lib/uefistored/dbx.auth") EFI_IMAGE_SECURITY_DATABASE1
     gEfiImageSecurityDatabaseGuid AT_ATTRS;
   DEFINE_AUTH_FILE (str "/var/lib/uefistored/KEK.auth") EFI_KEY_EXCHANGE_KEY_NAME
     gEfiGlobalVariableGuid AT_ATTRS;
   DEFINE_AUTH_FILE (str "/var/lib/uefistored/PK.auth") EFI_PLATFORM_KEY_NAME
     gEfiGlobalVariableGuid AT_ATTRS].

(** ** State *)

(** The options. *)
Record options : Type := mk_options {
  domid : Z;                       (** [unsigned int] *)
  resume : bool;
  depriv : bool;
  uid : Z;
  gid : Z;
  root_path : option bytes;
  pidfile : option bytes;
  use_xapidb : bool                (** [backend] is [&xapidb], not null *)
}.

(** The handles, null or not. *)
Record handles : Type := mk_handles {
  xc_handle : bool;
  dmod : bool;
  fmem : bool;
  fmem_resource : bool;
  xce : bool
}.

(** The I/O port, with the copies [setup_portio] makes. *)
Record ioport : Type := mk_ioport {
  io_port_enabled : bool;
  io_port_size : Z;
  io_port_addr : Z;
  ioport_domid : Z                 (** [_domid] *)
}.

Record daemon (W : Type) : Type := mk_daemon {
  d_server : server (xapi_state W);
  d_options : options;
  d_handles : handles;
  d_ioport : ioport;
  vcpu_count : Z;
  ioreq_local_ports : option (list Z);
  ioservid : Z;
  enforcement_level : bool;
  auth_files : list auth_data
}.
Arguments mk_daemon {W} _ _ _ _ _ _ _ _ _.
Arguments d_server {W} _.
Arguments d_options {W} _.
Arguments d_handles {W} _.
Arguments d_ioport {W} _.
Arguments vcpu_count {W} _.
Arguments ioreq_local_ports {W} _.
Arguments ioservid {W} _.
Arguments enforcement_level {W} _.
Arguments auth_files {W} _.

Definition set_server {W} (s : server (xapi_state W)) (d : daemon W) : daemon W :=
  mk_daemon s (d_options d) (d_handles d) (d_ioport d) (vcpu_count d) (ioreq_local_ports d)
    (ioservid d) (enforcement_level d) (auth_files d).
Definition set_options {W} (o : options) (d : daemon W) : daemon W :=
  mk_daemon (d_server d) o (d_handles d) (d_ioport d) (vcpu_count d) (ioreq_local_ports d)
    (ioservid d) (enforcement_level d) (auth_files d).
Definition set_handles {W} (h : handles) (d : daemon W) : daemon W :=
  mk_daemon (d_server d) (d_options d) h (d_ioport d) (vcpu_count d) (ioreq_local_ports d)
    (ioservid d) (enforcement_level d) (auth_files d).
Definition set_ioport {W} (p : ioport) (d : daemon W) : daemon W :=
  mk_daemon (d_server d) (d_options d) (d_handles d) p (vcpu_count d) (ioreq_local_ports d)
    (ioservid d) (enforcement_level d) (auth_files d).
Definition set_ports {W} (n : Z) (ports : option (list Z)) (d : daemon W) : daemon W :=
  mk_daemon (d_server d) (d_options d) (d_handles d) (d_ioport d) n ports (ioservid d)
    (enforcement_level d) (auth_files d).
Definition set_ioservid {W} (i : Z) (d : daemon W) : daemon W :=
  mk_daemon (d_server d) (d_options d) (d_handles d) (d_ioport d) (vcpu_count d)
    (ioreq_local_ports d) i (enforcement_level d) (auth_files d).
Definition set_enforcement {W} (b : bool) (d : daemon W) : daemon W :=
  mk_daemon (d_server d) (d_options d) (d_handles d) (d_ioport d) (vcpu_count d)
    (ioreq_local_ports d) (ioservid d) b (auth_files d).
Definition set_auth_files {W} (l : list auth_data) (d : daemon W) : daemon W :=
  mk_daemon (d_server d) (d_options d) (d_handles d) (d_ioport d) (vcpu_count d)
    (ioreq_local_ports d) (ioservid d) (enforcement_level d) l.

(** The process when [main] starts; [level] is the level [logging_init] sets. *)
Definition initial_daemon {W} (level : loglevel_t) (w : W) : daemon W :=
  mk_daemon
    (mk_server (mk_auth storage_init 0 false true []) false [] level
       (mk_xapi None None None None 0 MAX_CREDIT w))
    (mk_options 0 false false 0 0 None None false)
    (mk_handles false false false false false)
    (mk_ioport false 0 0 (-1))
    1 None 0 false initial_auth_files.

(** What [getopt_long] returns: the character of an option, and [optarg]. *)
Abbreviation option_arg := (byte * option bytes)%type.

Section daemon.
Context {W : Type} `{Host W} `{Kernel W} `{Xen W} `{Allocator} `{OpenSSL} `{Base64} `{Libxml2}
  `{FileSystem} (interrupts : nat).

Abbreviation D A := (M (daemon W) A).

Definition world (d : daemon W) : W := host (sv_ext (d_server d)).
Definition set_world (w : W) (d : daemon W) : daemon W :=
  let s := d_server d in
  set_server (mk_server (sv_auth s) (efi_at_runtime s) (comm_buf s) (sv_loglevel s)
    (set_host w (sv_ext s))) d.

(** A call of a library or of the system. *)
Definition xen {A} (f : W -> A * W) : D A :=
  fun d => let '(a, w) := f (world d) in Ok (a, set_world w d).
Definition xen_ (f : W -> W) : D unit := xen (fun w => (tt, f w)).

Definition on_server {A} (m : M (server (xapi_state W)) A) : D A := mzoom d_server set_server m.
Definition on_auth {A} (m : M auth_state A) : D A :=
  on_server (mzoom sv_auth set_sv_auth m).
Definition on_store {A} (m : M storage A) : D A := on_server (sv_on_store m).

(** The backend in use. *)
Definition backend (d : daemon W) : option (backend_t (xapi_state W)) :=
  if use_xapidb (d_options d) then Some (xapidb interrupts) else None.

(** ** The backend's calls *)
Definition backend_parse_arg (arg : bytes) : D (Z + Z) :=
  d <- mget ;;
  if negb (use_xapidb (d_options d)) then ret (inr 1)       (** [exit (1)] *)
  else
  '(r, x) <- mlift (xapi_parse_arg arg (sv_ext (d_server d))) ;;
  let s := d_server d in
  mmodify (set_server (mk_server (sv_auth s) (efi_at_runtime s) (comm_buf s) (sv_loglevel s) x)) ;;
  ret (inl r).

Definition backend_init : D Z :=
  d <- mget ;;
  match backend d with
  | Some b => match be_init b with
              | Some f => on_server (run_backend (f (resume (d_options d))))
              | None => ret 0
              end
  | None => ret 0
  end.
Definition backend_save : D unit :=
  d <- mget ;;
  match backend d with
  | Some b => match be_save b with
              | Some f => on_server (run_backend f) ;; ret tt
              | None => ret tt
              end
  | None => ret tt
  end.
Definition backend_cleanup : D unit :=
  d <- mget ;;
  match backend d with
  | Some b => match be_cleanup b with
              | Some f => on_server (run_backend f)
              | None => ret tt
              end
  | None => ret tt
  end.
Definition daemon_set : D unit := d <- mget ;; on_server (backend_set (backend d)).
Definition daemon_notify : D Z := d <- mget ;; on_server (backend_notify (backend d)).

(** ** Secure boot *)
Definition secure_boot_on : D bool :=
  '(status, var) <- on_store (storage_get_var_ptr (Some EFI_SECURE_BOOT_MODE_NAME)
                       (sizeof_wchar EFI_SECURE_BOOT_MODE_NAME) (Some gEfiGlobalVariableGuid)) ;;
  match var with
  | None => ret false
  | Some i =>
      if negb (status =? EFI_SUCCESS) then ret false
      else
      d <- mget ;;
      v <- mlift (slot_at (sv_store (d_server d)) i) ;;
      data <- mlift (block_of (var_data v)) ;;
      b <- mlift (read_le 1 data 0) ;;
      ret (b =? 1)
  end.

Definition exists_var (name : bytes) (guid : EFI_GUID) : D bool :=
  on_store (storage_exists (Some name) (sizeof_wchar name) (Some guid)).

Definition sb_certs_exist : D bool :=
  pk <- exists_var EFI_PLATFORM_KEY_NAME gEfiGlobalVariableGuid ;;
  if negb pk then ret false
  else
  kek <- exists_var EFI_KEY_EXCHANGE_KEY_NAME gEfiGlobalVariableGuid ;;
  if negb kek then ret false
  else exists_var EFI_IMAGE_SECURITY_DATABASE gEfiImageSecurityDatabaseGuid.

(** ** Process id, XenStore *)
Definition write_pidfile : D Z :=
  d <- mget ;;
  match pidfile (d_options d) with
  | None => ret (-1)
  | Some file =>
      pid <- xen sys_getpid ;;
      '(len, pidstr) <- mlift (snprintf (replicate 21 NUL) 0 21 [Num (u32 pid)]) ;;
      if len <? 0 then ret (-1)
      else
      name <- mlift (c_string file) ;;
      fd <- xen (sys_open_rw name) ;;
      if fd <? 0 then ret (-1)
      else
      b <- mlift (read_bytes pidstr 0 len) ;;
      r <- xen (sys_write_fd fd b) ;;
      xen_ (sys_close_fd fd) ;;
      ret (if r <? 0 then -1 else 0)
  end.

(** [strncmp (data, value, len) == 0] for the data of a XenStore node, which is
    terminated. *)
Definition uefistored_xs_read_bool (xs_path : list piece) : D bool :=
  '(_, buf) <- mlift (snprintf (replicate 128 NUL) 0 128 xs_path) ;;
  path <- mlift (c_string buf) ;;
  data <- xen (xs_read path) ;;
  match data with
  | None => ret false
  | Some b => mlift (strncmp_eq (length b) (b ++ [NUL]) (str "true" ++ [NUL]))
  end.

(** [ret] is the value of the comparison, not the length. *)
Definition write_pid : D Z :=
  d <- mget ;;
  '(n, pidalive) <- mlift (snprintf (replicate 128 NUL) 0 128
     [Lit (str "/local/domain/"); Num (domid (d_options d)); Lit (str "/varstored-pid")]) ;;
  if n <? 0 then ret (-1)
  else
  pid <- xen sys_getpid ;;
  '(n, pidstr) <- mlift (snprintf (replicate 21 NUL) 0 21 [Num (u32 pid)]) ;;
  let r := Z.b2z (n <? 0) in
  if negb (r =? 0) then ret (-1)
  else
  path <- mlift (c_string pidalive) ;;
  b <- mlift (read_bytes pidstr 0 r) ;;
  ok <- xen (xs_write path b) ;;
  ret (if negb ok then -1 else 0).

(** ** The connection to the hypervisor *)
Definition xen_map_ioreq_server (d : Z) (ioservid : Z) : D Z :=
  s <- mget ;;
  if negb (fmem (d_handles s)) then mlift (Fault AssertFail)        (** [abort] *)
  else
  ok <- xen (xenforeignmemory_map_resource d ioservid) ;;
  if negb ok then ret (-1)
  else
  s <- mget ;;
  let h := d_handles s in
  mmodify (set_handles (mk_handles (xc_handle h) (dmod h) (fmem h) true (xce h))) ;;
  ret 0.

(** The copies are made before the test. *)
Definition setup_portio (dom ioservid : Z) : D Z :=
  d <- mget ;;
  let p := d_ioport d in
  mmodify (set_ioport (mk_ioport (io_port_enabled p) (io_port_size p) (io_port_addr p) dom)) ;;
  if io_port_enabled p then ret (-1)
  else
  mmodify (set_ioport (mk_ioport true 4 0x100 dom)) ;;
  r <- xen (xendevicemodel_map_io_range_to_ioreq_server dom ioservid 0x100 (0x100 + 4 - 1)) ;;
  ret (if r <? 0 then r else 0).

(** [start + i] in 64 bits for the [SHMEM_PAGES] pages. *)
Definition shmem_gfns (start : Z) : list Z :=
  (fun i => u64 (start + Z.of_nat i)) <$> seq 0 (Z.to_nat SHMEM_PAGES).

Definition map_guest_memory (start : Z) : D (option bytes) :=
  d <- mget ;;
  xen (xenforeignmemory_map (ioport_domid (d_ioport d)) (shmem_gfns start)).

(** ** I/O requests *)
(** The request is entry [vcpu] of the shared page. *)
Definition handle_ioreq (vcpu : Z) : D unit :=
  d <- mget ;;
  match vcpu_ioreq vcpu (world d) with
  | None => mlift (Fault OutOfBounds)
  | Some q =>
  let p := d_ioport d in
  if negb (io_port_enabled p) then ret tt
  else if negb ((io_port_addr p <=? iq_addr q)
                && (iq_addr q <? u64 (io_port_addr p + io_port_size p))) then ret tt
  else if negb (iq_size q =? 4) then ret tt
  else if negb (iq_type q =? IOREQ_TYPE_PIO) then ret tt
  else
  shmem <- map_guest_memory (iq_data q) ;;
  match shmem with
  | None => ret tt
  | Some page =>
      on_server (mmodify (set_comm_buf page)) ;;
      on_server (xen_variable_server_handle_request (backend d) true) ;;
      d <- mget ;;
      xen_ (xenforeignmemory_unmap (shmem_gfns (iq_data q)) (comm_buf (d_server d)))
  end
  end.

(** [port] is the local port; the shared page is mapped. *)
Definition handle_shared_iopage (port vcpu : Z) : D unit :=
  d <- mget ;;
  match vcpu_ioreq vcpu (world d) with
  | None => mlift (Fault OutOfBounds)
  | Some q =>
      if negb (iq_state q =? STATE_IOREQ_READY) then ret tt
      else
      xen_ (set_ioreq_state vcpu STATE_IOREQ_INPROCESS) ;;
      handle_ioreq vcpu ;;
      xen_ (set_ioreq_state vcpu STATE_IORESP_READY) ;;
      xen_ (xenevtchn_notify port)
  end.

(** ** The event loop *)

(** The inner loop over the virtual CPUs, from [i] on. *)
Fixpoint serve_vcpus (n : nat) (i port : Z) : D unit :=
  match n with
  | O => ret tt
  | S n' =>
      xen_ (xenevtchn_unmask port) ;;
      d <- mget ;;
      match ioreq_local_ports d with
      | None => mlift (Fault NullDeref)
      | Some ports =>
          match ports !! Z.to_nat i with
          | None => mlift (Fault OutOfBounds)
          | Some local =>
              (if local =? port then handle_shared_iopage port i else ret tt) ;;
              serve_vcpus n' (i + 1) port
          end
      end
  end.

(** One iteration; [Some code] when the process exits. *)
Definition handler_iteration : D (option Z) :=
  r <- xen sys_poll ;;
  match r with
  | P_failed => ret (Some 1)
  | P_events true =>
      port <- xen xenevtchn_pending ;;
      d <- mget ;;
      serve_vcpus (Z.to_nat (vcpu_count d)) 0 port ;;
      ret None
  | _ => ret None
  end.

(** [n] iterations of [handler_loop]. *)
Fixpoint handler_loop (n : nat) : D (option Z) :=
  match n with
  | O => ret None
  | S n' => r <- handler_iteration ;;
            match r with Some code => ret (Some code) | None => handler_loop n' end
  end.

(** ** Termination by a signal *)
Fixpoint unbind_ports (ports : list Z) : D unit :=
  match ports with
  | [] => ret tt
  | p :: ports' => (if p =? 0 then ret tt else xen_ (xenevtchn_unbind p)) ;; unbind_ports ports'
  end.

(** Up to the end of the process; the blocks it frees on the way are dropped. *)
Definition signal_handler : D unit :=
  d <- mget ;;
  (match ioreq_local_ports d with
   | Some ports => unbind_ports (take (Z.to_nat (vcpu_count d)) ports)
   | None => ret tt
   end) ;;
  daemon_set ;;
  backend_save ;;
  on_store storage_destroy ;;
  let h := d_handles d in
  (if fmem h && fmem_resource h then xen_ xenforeignmemory_unmap_resource else ret tt) ;;
  (if xce h then xen_ xenevtchn_close else ret tt) ;;
  (if fmem h then xen_ xenforeignmemory_close else ret tt) ;;
  (if dmod h then
     xen (xendevicemodel_set_ioreq_server_state (domid (d_options d)) (ioservid d) 0) ;;
     xen_ (xendevicemodel_destroy_ioreq_server (domid (d_options d)) (ioservid d)) ;;
     xen_ xendevicemodel_close
   else ret tt) ;;
  (if xc_handle h then xen_ xc_interface_close else ret tt) ;;
  backend_cleanup.

Definition SIGHUP : Z := 1.
Definition SIGINT : Z := 2.
Definition SIGABRT : Z := 6.
Definition SIGTERM : Z := 15.

(** The old actions, which nothing reads, are part of the world. *)
Definition install_sighandler (sig : Z) : D Z := xen (sys_sigaction sig).

Definition install_sighandlers : D Z :=
  r <- install_sighandler SIGINT ;;
  if r <? 0 then ret r
  else
  r <- install_sighandler SIGABRT ;;
  if r <? 0 then ret r
  else
  r <- install_sighandler SIGTERM ;;
  if r <? 0 then ret r
  else install_sighandler SIGHUP.

(** ** Options *)

Definition opt (c : string) : byte := match str c with b :: _ => b | [] => NUL end.

(** [strtol (optarg, &end, 0)] where [*end] must be the terminator. *)
Definition whole_number (arg : bytes) : outcome (option Z) :=
  let* (n, e) := strtol0 arg in
  match e with
  | [] => Fault OutOfBounds
  | b :: _ => Ok (if bool_decide (b = NUL) then Some (u32 n) else None)
  end.

(** [Some code] when the process exits. *)
Definition handle_option (o : option_arg) : D (option Z) :=
  let '(c, optarg) := o in
  d <- mget ;;
  let op := d_options d in
  let next (op : options) : D (option Z) := mmodify (set_options op) ;; ret None in
  if bool_decide (c = NUL) then ret None
  else if bool_decide (c = opt "d") then
    match optarg with
    | None => ret None
    | Some a =>
        n <- mlift (atoi a) ;;
        next (mk_options (u32 n) (resume op) (depriv op) (uid op) (gid op) (root_path op)
                (pidfile op) (use_xapidb op))
    end
  else if bool_decide (c = opt "r") then
    next (mk_options (domid op) true (depriv op) (uid op) (gid op) (root_path op) (pidfile op)
            (use_xapidb op))
  else if bool_decide (c = opt "n") then ret None
  else if bool_decide (c = opt "p") then
    next (mk_options (domid op) (resume op) true (uid op) (gid op) (root_path op) (pidfile op)
            (use_xapidb op))
  else if bool_decide (c = opt "u") then
    match optarg with
    | None => ret None
    | Some a =>
        n <- mlift (whole_number a) ;;
        match n with
        | None => ret (Some 1)
        | Some n => next (mk_options (domid op) (resume op) (depriv op) n (gid op) (root_path op)
                            (pidfile op) (use_xapidb op))
        end
    end
  else if bool_decide (c = opt "g") then
    match optarg with
    | None => ret None
    | Some a =>
        n <- mlift (whole_number a) ;;
        match n with
        | None => ret (Some 1)
        | Some n => next (mk_options (domid op) (resume op) (depriv op) (uid op) n (root_path op)
                            (pidfile op) (use_xapidb op))
        end
    end
  else if bool_decide (c = opt "c") then
    match optarg with
    | None => mlift (Fault NullDeref)
    | Some a =>
        s <- mlift (strdup a) ;;
        next (mk_options (domid op) (resume op) (depriv op) (uid op) (gid op) (Some s)
                (pidfile op) (use_xapidb op))
    end
  else if bool_decide (c = opt "i") then
    match optarg with
    | None => mlift (Fault NullDeref)
    | Some a =>
        s <- mlift (strdup a) ;;
        next (mk_options (domid op) (resume op) (depriv op) (uid op) (gid op) (root_path op)
                (Some s) (use_xapidb op))
    end
  else if bool_decide (c = opt "b") then
    match optarg with
    | None => mlift (Fault NullDeref)
    | Some a =>
        same <- mlift (strcmp_eq a (str "xapidb" ++ [NUL])) ;;
        if (same : bool) then
          next (mk_options (domid op) (resume op) (depriv op) (uid op) (gid op) (root_path op)
                  (pidfile op) true)
        else ret None
    end
  else if bool_decide (c = opt "a") then
    match optarg with
    | None => mlift (Fault NullDeref)
    | Some a =>
        r <- backend_parse_arg a ;;
        match r with
        | inr code => ret (Some code)
        | inl r => ret (if r <? 0 then Some 1 else None)
        end
    end
  else ret (Some 1).

Fixpoint parse_options (args : list option_arg) : D (option Z) :=
  match args with
  | [] => ret None
  | o :: args' => r <- handle_option o ;;
                  match r with Some code => ret (Some code) | None => parse_options args' end
  end.

(** ** [main] *)

(** Opening the handles; [false] is a jump to [err]. *)
Definition open_xen : D bool :=
  ok <- xen xc_interface_open ;;
  if negb ok then ret false
  else
  d <- mget ;;
  let dom := domid (d_options d) in
  '(r, max_vcpu_id, domid_found) <- xen (xc_domain_getinfo dom) ;;
  if r <? 0 then ret false
  else
  d <- mget ;;
  mmodify (set_ports (u32 (max_vcpu_id + 1)) (ioreq_local_ports d)) ;;
  if negb (dom =? domid_found) then ret false
  else
  xen_ xc_interface_close ;;
  dm <- xen xendevicemodel_open ;;
  if negb dm then ret false
  else
  fm <- xen xenforeignmemory_open ;;
  if negb fm then ret false
  else
  xe <- xen xenevtchn_open ;;
  if negb xe then ret false
  else
  mmodify (set_handles (mk_handles false true true false true)) ;;
  r <- xen (xentoolcore_restrict_all dom) ;;
  ret (negb (r <? 0)).

(** The I/O request server. *)
Definition open_ioreq_server : D bool :=
  d <- mget ;;
  let dom := domid (d_options d) in
  '(r, id) <- xen (xendevicemodel_create_ioreq_server dom) ;;
  if r <? 0 then ret false
  else
  mmodify (set_ioservid id) ;;
  r <- xen_map_ioreq_server dom id ;;
  if r <? 0 then ret false
  else
  r <- xen (xendevicemodel_set_ioreq_server_state dom id 1) ;;
  ret (negb (r <? 0)).

(** The event channel of each virtual CPU, from [i] on. *)
Fixpoint bind_ports (n : nat) (i : Z) (ports : list Z) : D bool :=
  match n with
  | O => ret true
  | S n' =>
      d <- mget ;;
      match vcpu_ioreq i (world d) with
      | None => mlift (Fault OutOfBounds)
      | Some q =>
          r <- xen (xenevtchn_bind_interdomain (domid (d_options d)) (iq_vp_eport q)) ;;
          if r <? 0 then ret false
          else
          let ports := <[Z.to_nat i := r]> ports in
          mmodify (set_ports (vcpu_count d) (Some ports)) ;;
          bind_ports n' (i + 1) ports
      end
  end.

Definition open_ports : D bool :=
  d <- mget ;;
  let n := vcpu_count d in
  match malloc (u64 (4 * n)) with
  | None => ret false
  | Some _ =>
      let ports := replicate (Z.to_nat n) 0 in
      mmodify (set_ports n (Some ports)) ;;
      ok <- bind_ports (Z.to_nat n) 0 ports ;;
      if negb ok then ret false
      else
      d <- mget ;;
      r <- setup_portio (domid (d_options d)) (ioservid d) ;;
      ret (negb (r <? 0))
  end.

(** The flags the host administrator has set. *)
Definition read_flags : D bool :=
  ok <- xen xs_open ;;
  if negb ok then ret false
  else
  d <- mget ;;
  let dom := domid (d_options d) in
  sb <- uefistored_xs_read_bool
          [Lit (str "/local/domain/"); Num dom; Lit (str "/platform/secureboot")] ;;
  on_auth (mmodify (fun s => mk_auth (au_store s) (setup_mode s) sb (auth_enforce s)
                               (au_data s))) ;;
  enforce <- uefistored_xs_read_bool
          [Lit (str "/local/domain/"); Num dom; Lit (str "/platform/auth-enforce")] ;;
  mmodify (set_enforcement enforce) ;;
  r <- write_pidfile ;;
  ret (negb (r <? 0)).

Definition run_kernel {A} (m : M W A) : D A := mzoom world set_world m.

(** The variables and the keys; [false] is a jump to [err]. *)
Definition load_state : D bool :=
  d <- mget ;;
  files <- mlift (auth_lib_load (Some (auth_files d))) ;;
  mmodify (set_auth_files (default [] files)) ;;
  let op := d_options d in
  dropped <- run_kernel (drop_privileges (root_path op) (depriv op) (gid op) (uid op)) ;;
  if negb dropped then ret false
  else
  r <- backend_init ;;
  if r <? 0 then ret false
  else
  d <- mget ;;
  status <- on_auth (auth_lib_initialize (auth_files d)) ;;
  ret (status =? EFI_SUCCESS).

(** With secure boot enabled the keys must be there; [false] is [exit (1)]. *)
Definition require_secure_boot : D bool :=
  d <- mget ;;
  if secure_boot_enabled (sv_auth (d_server d)) then
    on <- secure_boot_on ;;
    certs <- (if negb on then ret false else sb_certs_exist) ;;
    if negb certs then daemon_notify ;; ret false else ret true
  else ret true.

(** [main] up to the event loop: [None] when it is reached, [Some code] when the
    process has exited.  Every failure ends in [exit (1)]. *)
Definition start (argc : Z) (args : list option_arg) : D (option Z) :=
  if argc =? 1 then ret (Some 1)
  else
  install_sighandlers ;;
  r <- parse_options args ;;
  match r with
  | Some code => ret (Some code)
  | None =>
      ok <- open_xen ;;
      if negb ok then ret (Some 1)
      else
      ok <- open_ioreq_server ;;
      if negb ok then ret (Some 1)
      else
      ok <- open_ports ;;
      if negb ok then ret (Some 1)
      else
      ok <- read_flags ;;
      if negb ok then ret (Some 1)
      else
      ok <- load_state ;;
      if negb ok then ret (Some 1)
      else
      ok <- require_secure_boot ;;
      if negb ok then ret (Some 1)
      else
      daemon_set ;;
      r <- write_pid ;;
      ret (if r <? 0 then Some 1 else None)
  end.

(** [main], with [n] iterations of the event loop. *)
Definition main (argc : Z) (args : list option_arg) (n : nat) : D (option Z) :=
  r <- start argc args ;;
  match r with Some code => ret (Some code) | None => handler_loop n end.

End daemon.
