(* ===== verification/DaemonSamples.v ===== *)
(** * A sample machine for the daemon

    A guest with one virtual CPU, one request and one page; a kernel that knows
    the user; a XenStore that answers "true"; a disk with signed key files; no
    toolstack.  The theorems on the daemon are instantiated here. *)
From Stdlib Require Import Strings.String.
From S2P Require Import Prelude LogLevel EfiTypes Common UefiVariable Storage StorageInv Samples Crypto.
From S2P Require Import SigList Auth AuthLib AuthSamples CText Server Xapi XapiSamples.
From S2P Require Import Depriv Daemon.

(** The world. *)
Record machine : Type := mk_machine {
  m_user : Z;                     (** of the process *)
  m_request : ioreq;              (** of virtual CPU 0 *)
  m_page : bytes;                 (** the guest's memory *)
  m_written : list (bytes * bytes)   (** to XenStore *)
}.
Definition set_user u (m : machine) := mk_machine u (m_request m) (m_page m) (m_written m).
Definition set_request q (m : machine) := mk_machine (m_user m) q (m_page m) (m_written m).
Definition set_page p (m : machine) := mk_machine (m_user m) (m_request m) p (m_written m).

Definition root_only (m : machine) : Z * machine := (if m_user m =? 0 then 0 else -1, m).

Definition machine_kernel : Kernel machine := {|
  sys_chroot _ := root_only;
  sys_unshare := root_only;
  sys_setgid _ := root_only;
  sys_setgroups _ := root_only;
  sys_setuid u m := if m_user m =? 0 then (0, set_user u m) else (-1, m);
  sys_setrlimit _ _ m := (0, m);
  seccomp_init m := (true, m);
  seccomp_rule_add _ m := (0, m);
  seccomp_load m := (0, m);
  seccomp_release m := m
|}.

(** No files, no toolstack. *)
Definition machine_host : Host machine := {|
  fopen_r _ _ := false;
  fstat _ _ := None;
  fread _ _ _ := [];
  fopen_w _ _ := None;
  fwrite _ _ m := (-1, m);
  sys_socket m := (-1, m);
  sys_connect _ m := (-1, m);
  sys_write _ m := (-1, m);
  sys_read _ m := (R_bytes [], m);
  sys_close m := m;
  sys_time m := (0, m);
  sys_sleep _ m := m
|}.

Definition machine_xen : Xen machine := {|
  xc_interface_open m := (true, m);
  xc_interface_close m := m;
  xc_domain_getinfo dom m := (1, 0, dom, m);
  xendevicemodel_open m := (true, m);
  xendevicemodel_close m := m;
  xendevicemodel_create_ioreq_server _ m := (0, 9, m);
  xendevicemodel_destroy_ioreq_server _ _ m := m;
  xendevicemodel_set_ioreq_server_state _ _ _ m := (0, m);
  xendevicemodel_map_io_range_to_ioreq_server _ _ _ _ m := (0, m);
  xenforeignmemory_open m := (true, m);
  xenforeignmemory_close m := m;
  xenforeignmemory_map_resource _ _ m := (true, m);
  xenforeignmemory_unmap_resource m := m;
  xenforeignmemory_map _ gfns m :=
    (if zlen (m_page m) =? PAGE_SIZE * zlen gfns then Some (m_page m) else None, m);
  xenforeignmemory_unmap _ p m := set_page p m;
  xentoolcore_restrict_all _ m := (0, m);
  xenevtchn_open m := (true, m);
  xenevtchn_close m := m;
  xenevtchn_bind_interdomain _ _ m := (5, m);
  xenevtchn_unbind _ m := m;
  xenevtchn_pending m := (5, m);
  xenevtchn_unmask _ m := m;
  xenevtchn_notify _ m := m;
  vcpu_ioreq i m := if i =? 0 then Some (m_request m) else None;
  set_ioreq_state i st m :=
    let q := m_request m in
    set_request (mk_ioreq (iq_addr q) (iq_data q) (iq_size q) (iq_vp_eport q) st (iq_type q)) m;
  sys_poll m := (P_events true, m);
  sys_sigaction _ m := (0, m);
  xs_open m := (true, m);
  xs_read _ m := (Some (str "true"), m);
  xs_write p v m := (true, mk_machine (m_user m) (m_request m) (m_page m) ((p, v) :: m_written m));
  sys_getpid m := (77, m);
  sys_open_rw _ m := (4, m);
  sys_write_fd _ b m := (zlen b, m);
  sys_close_fd _ m := m
|}.

(** The disk: three key files, signed. *)
Definition machine_file (p : bytes) : option bytes :=
  if bool_decide (p = str "/var/lib/uefistored/dbx.auth") then None
  else Some (signed_AA time_2 list_AA).
Definition machine_files : FileSystem := {|
  fs_stat p := match machine_file p with Some c => (0, zlen c) | None => (-1, 0) end;
  fs_open p := match machine_file p with Some _ => 3 | None => -1 end;
  fs_read p n := match machine_file p with
                 | Some c => if n =? zlen c then (n, c) else (-1, [])
                 | None => (-1, [])
                 end
|}.

(** An XML library that understands nothing. *)
Definition no_libxml2 : Libxml2 := {|
  xmlDoc := unit;
  xmlNode := unit;
  xmlReadMemory _ := None;
  xmlXPathNewContext _ := false;
  xmlXPathEvalExpression _ _ := None;
  xmlChildrenNode _ := None;
  xmlNodeGetContent _ := None
|}.

#[export] Existing Instances machine_kernel machine_host machine_xen machine_files no_libxml2
  zero_allocator toy_openssl toy_base64.

Definition machine_0 : machine := mk_machine 0 (mk_ioreq 0 0 0 7 0 0) [] [].

Definition text_arg (c s : string) : option_arg := (opt c, Some (str s ++ [NUL])).
Definition machine_args : list option_arg := [text_arg "d" "3"; text_arg "i" "/run/pid"].

Definition started : bool :=
  match start 0 5 machine_args (initial_daemon LOGLEVEL_INFO machine_0) with
  | Ok (None, d) => secure_boot_enabled (sv_auth (d_server d))
  | _ => false
  end.
