(* ===== verification/DaemonSpec.v ===== *)
(** * What the daemon does

    The start-up requires the keys of secure boot, the event loop answers the
    requests and keeps the state well formed, and the flags are read from
    XenStore; what the command line sets and what is announced. *)
From Stdlib Require Import Strings.String.
From S2P Require Import Prelude LogLevel EfiTypes Common UefiVariable Storage StorageInv StorageSpec.
From S2P Require Import Crypto SigList Auth AuthLib CText Server ServerSpec Xapi Depriv Daemon.
From S2P Require Import Triples WellFormed XapiBackend.
From S2P Require Import Samples AuthSamples ServerSamples XapiSamples DaemonSamples.

Section daemon.
Context {W : Type} `{HH : Host W} `{HK : Kernel W} `{HX : Xen W} `{HA : Allocator}
  `{HO : OpenSSL} `{HB : Base64} `{HL : Libxml2} `{HF : FileSystem} (interrupts : nat).

Abbreviation store_of_daemon := (fun d : daemon W => sv_store (d_server d)).
Abbreviation auth_of := (fun d : daemon W => sv_auth (d_server d)).

(** ** Steps that leave the services alone *)

(** An assertion about the authentication services and the store. *)
Lemma xen_keeps (P : auth_state -> Prop) {A} (f : W -> A * W) :
  preserves (fun d => P (auth_of d)) (xen f).
Proof. intros d a d' Hd. unfold xen. destruct (f (world d)) as [b w]. by intros [= _ <-]. Qed.

Lemma xen__keeps (P : auth_state -> Prop) (f : W -> W) :
  preserves (fun d => P (auth_of d)) (xen_ f).
Proof. apply xen_keeps. Qed.

Lemma on_server_keeps (P : auth_state -> Prop) {A} (m : M (server (xapi_state W)) A) :
  preserves (fun s => P (sv_auth s)) m -> preserves (fun d => P (auth_of d)) (on_server m).
Proof.
  intros Hm. by apply preserves_mzoom with (fun s => P (sv_auth s)); [done|by intros d s|].
Qed.

(** *** The backend's hooks *)
Lemma run_backend_keeps (P : auth_state -> Prop) {A} (m : M (storage * xapi_state W) A) :
  (forall a, P a -> preserves (fun p => P (set_store (fst p) a)) m) ->
  preserves (fun s => P (sv_auth s)) (run_backend m).
Proof using Type.
  intros Hm s x s' Hs. unfold run_backend, mzoom.
  destruct (m (sv_store s, sv_ext s)) as [[b p]|] eqn:Er; [|done]. intros [= _ <-]. cbn [sv_auth].
  eapply (Hm (sv_auth s)); [done| |exact Er]. cbn [fst]. unfold sv_store.
  by destruct s as [[]].
Qed.

(** Assertions that [xapidb] keeps: on the variables and on the globals. *)
Definition variables_only (P : auth_state -> Prop) : Prop :=
  forall a var, P a -> preserves (fun st => P (set_store st a)) (storage_iter var).

Lemma daemon_set_keeps (P : auth_state -> Prop) :
  variables_only P -> preserves (fun d => P (auth_of d)) (daemon_set interrupts).
Proof.
  intros HP. unfold daemon_set, backend. apply preserves_get_bind; intros d Hd.
  apply on_server_keeps. unfold backend_set.
  destruct (use_xapidb (d_options d)); [|apply preserves_ret]. cbn [xapidb be_set].
  apply preserves_bind; [|intros; apply preserves_ret].
  apply run_backend_keeps. intros a Ha.
  eapply (xapi_set_keeps interrupts (fun st => P (set_store st a))). intros var. by apply HP.
Qed.

Lemma write_pid_keeps (P : auth_state -> Prop) :
  preserves (fun d => P (auth_of d)) write_pid.
Proof. unfold write_pid. pose proof (@xen_keeps P). preserve. Qed.

(** ** Start-up *)

(** The slot a lookup of the program finds. *)
Definition lookup (st : storage) (name : bytes) (guid : EFI_GUID) : outcome (option nat) :=
  find_variable (Some name) (sizeof_wchar name) (Some guid) (variables st).

(** The variable SecureBoot is 1, and the keys exist. *)
Definition keys_enrolled (st : storage) : Prop :=
  (exists i v rest, lookup st EFI_SECURE_BOOT_MODE_NAME gEfiGlobalVariableGuid = Ok (Some i) /\
     variables st !! i = Some v /\ var_data v = Some (x01 :: rest)) /\
  Forall (fun '(name, guid) => exists i, lookup st name guid = Ok (Some i))
    [(EFI_PLATFORM_KEY_NAME, gEfiGlobalVariableGuid);
     (EFI_KEY_EXCHANGE_KEY_NAME, gEfiGlobalVariableGuid);
     (EFI_IMAGE_SECURITY_DATABASE, gEfiImageSecurityDatabaseGuid)].

Definition secured (a : auth_state) : Prop :=
  secure_boot_enabled a = true -> keys_enrolled (au_store a).

Lemma read_byte_1 data : read_le 1 data 0 = Ok 1 -> exists rest, data = x01 :: rest.
Proof.
  intros (b & Hb & [= Hd])%obind_inv. apply read_bytes_inv in Hb as (_ & _ & _ & -> & Hl).
  destruct data as [|c data]; [done|]. exists data. f_equal.
  change (Z_of_byte c + 256 * 0 = 1) in Hd. apply Z_of_byte_inj. change (Z_of_byte x01) with 1. lia.
Qed.

Lemma on_store_run {A} (m : M storage A) (d d' : daemon W) a :
  keeps m -> on_store m d = Ok (a, d') -> m (store_of_daemon d) = Ok (a, store_of_daemon d) /\ d' = d.
Proof.
  intros Hm. unfold on_store, on_server, sv_on_store, mzoom.
  destruct (m (sv_store (d_server d))) as [[b st]|] eqn:E; [|done].
  intros [= <- <-]. pose proof E as ->%Hm. split; [done|].
  by destruct d as [[[] ? ? ?] ? ? ? ? ? ? ? ?].
Qed.

Lemma keeps_find name sz g : keeps (storage_find_variable name sz g).
Proof. unfold storage_find_variable. keeps. Qed.

Lemma find_variable_run name sz g st r :
  storage_find_variable name sz g st = Ok (r, st) -> find_variable name sz g (variables st) = Ok r.
Proof. unfold storage_find_variable, bind, mget, mlift. destruct (find_variable _ _ _ _); [|done]. by intros [= ->]. Qed.

Lemma secure_boot_on_true d d' :
  secure_boot_on d = Ok (true, d') ->
  d' = d /\ exists i v rest,
    lookup (store_of_daemon d) EFI_SECURE_BOOT_MODE_NAME gEfiGlobalVariableGuid = Ok (Some i) /\
    variables (store_of_daemon d) !! i = Some v /\ var_data v = Some (x01 :: rest).
Proof.
  unfold secure_boot_on. intros ([st var] & d1 & H1 & H2)%bind_inv.
  apply on_store_run in H1 as [H1 ->]; [|unfold storage_get_var_ptr; pose proof keeps_find; keeps].
  unfold storage_get_var_ptr in H1. apply bind_inv in H1 as (r & s1 & H1 & Hr).
  pose proof H1 as ->%keeps_find. apply find_variable_run in H1.
  injection Hr as Hr. destruct r as [i|]; injection Hr as <- <-; [|by injection H2].
  change (EFI_SUCCESS =? EFI_SUCCESS) with true in H2. cbn [negb] in H2.
  apply bind_inv in H2 as (d2 & d3 & [= <- <-] & H2).
  apply bind_inv in H2 as (v & d4 & [Hv ->]%mlift_inv & H2).
  apply bind_inv in H2 as (data & d5 & [Hdata ->]%mlift_inv & H2).
  apply bind_inv in H2 as (b & d6 & [Hb ->]%mlift_inv & H2).
  injection H2 as ->%Z.eqb_eq <-. split; [done|].
  unfold slot_at in Hv. destruct (variables _ !! i) as [w|] eqn:Ei; [|done]. injection Hv as ->.
  unfold block_of in Hdata. destruct (var_data v) as [blk|] eqn:Ed; [|done]. injection Hdata as ->.
  apply read_byte_1 in Hb as [rest ->]. by exists i, v, rest.
Qed.

Lemma exists_var_true name guid d d' :
  exists_var name guid d = Ok (true, d') ->
  d' = d /\ exists i, lookup (store_of_daemon d) name guid = Ok (Some i).
Proof.
  unfold exists_var. intros [H1 ->]%on_store_run; [|unfold storage_exists; pose proof keeps_find; keeps].
  split; [done|]. unfold storage_exists in H1. apply bind_inv in H1 as (r & s1 & H1 & Hr).
  pose proof H1 as ->%keeps_find. apply find_variable_run in H1. destruct r as [i|]; [|done].
  by exists i.
Qed.

Lemma sb_certs_exist_true d d' :
  sb_certs_exist d = Ok (true, d') ->
  d' = d /\ Forall (fun '(name, guid) => exists i, lookup (store_of_daemon d) name guid = Ok (Some i))
    [(EFI_PLATFORM_KEY_NAME, gEfiGlobalVariableGuid);
     (EFI_KEY_EXCHANGE_KEY_NAME, gEfiGlobalVariableGuid);
     (EFI_IMAGE_SECURITY_DATABASE, gEfiImageSecurityDatabaseGuid)].
Proof.
  unfold sb_certs_exist. intros (pk & d1 & H1 & H2)%bind_inv.
  destruct pk; cbn [negb] in H2; [|done]. apply exists_var_true in H1 as [-> Hpk].
  apply bind_inv in H2 as (kek & d2 & H2 & H3).
  destruct kek; cbn [negb] in H3; [|done]. apply exists_var_true in H2 as [-> Hkek].
  apply exists_var_true in H3 as [-> Hdb]. split; [done|]. by repeat constructor.
Qed.

Lemma require_secure_boot_true :
  triple (fun _ => True) (require_secure_boot interrupts)
    (fun ok d => ok = true -> secured (auth_of d)).
Proof.
  intros d ok d' _ Hr. unfold require_secure_boot in Hr.
  rewrite (bind_runs _ _ _ d d) in Hr by done.
  destruct (secure_boot_enabled (sv_auth (d_server d))) eqn:Esb; cycle 1.
  { injection Hr as <- <-. intros _ Ht. congruence. }
  apply bind_inv in Hr as (on & d1 & H1 & H2).
  apply bind_inv in H2 as (certs & d2 & H2 & H3).
  destruct on; cbn [negb] in H2; cycle 1.
  { injection H2 as <- <-. cbn [negb] in H3. apply bind_inv in H3 as (? & ? & _ & [= <- <-]). done. }
  apply secure_boot_on_true in H1 as [-> Hon].
  destruct certs; cbn [negb] in H3; cycle 1.
  { apply bind_inv in H3 as (? & ? & _ & [= <- <-]). done. }
  apply sb_certs_exist_true in H2 as [-> Hcerts]. injection H3 as <- <-.
  intros _ _. by split.
Qed.

Lemma secured_variables_only : variables_only secured.
Proof.
  intros a var Ha st r st' Hs Hr Hsb. specialize (Hs Hsb).
  destruct (storage_iter_variables (variables st) (total st) (used st) var st r st'
              ltac:(done) Hr) as (Hv & _).
  cbn [au_store set_store] in *. unfold keys_enrolled, lookup in *. by rewrite Hv.
Qed.

Lemma triple_skip {S A B} (m : M S A) (k : A -> M S B) Q :
  (forall a, triple (fun _ => True) (k a) Q) -> triple (fun _ => True) (bind m k) Q.
Proof. intros Hk. by eapply (triple_bind _ _ (fun _ _ => True)). Qed.

(** C35: With secure boot enabled by the host, the daemon serves requests only
    when the keys are there.  Whatever the options, the hypervisor, the key
    files, the saved state and the toolstack answer, when [main] reaches its
    event loop with secure boot enabled, the variable SecureBoot is 1 and PK,
    KEK and db exist. *)
Theorem startup_requires_keys (argc : Z) (args : list option_arg) (d d' : daemon W) :
  start interrupts argc args d = Ok (None, d') ->
  secure_boot_enabled (auth_of d') = true -> keys_enrolled (store_of_daemon d').
Proof.
  intros Hrun. revert Hrun.
  cut (triple (fun _ => True) (start interrupts argc args)
         (fun r d => r = None -> secured (auth_of d))).
  { intros Ht Hrun. by eapply Ht. }
  assert (Hdie : forall (P : daemon W -> Prop),
            triple P (ret (Some 1)) (fun r d => r = None -> secured (auth_of d)))
    by (by intros P s r s' _ [= <- _]).
  unfold start. destruct (argc =? 1); [apply Hdie|]. apply triple_skip. intros _.
  apply triple_skip. intros [code|].
  { by intros s r s' _ [= <- _]. }
  do 5 (apply triple_skip; intros []; cbn [negb]; [|apply Hdie]).
  eapply triple_bind; [apply require_secure_boot_true|]. intros []; cbn [negb]; [|apply Hdie].
  eapply triple_bind with (R := fun _ d => secured (auth_of d)).
  { intros s r s' Hs. by apply (daemon_set_keeps secured secured_variables_only), Hs. }
  intros []. eapply triple_bind; [apply (write_pid_keeps secured)|].
  intros r s a s' Hs [= _ <-] _. done.
Qed.

(** ** I/O requests *)

(** Is the request for this daemon? *)
Definition for_uefistored (p : ioport) (q : ioreq) : bool :=
  io_port_enabled p
  && ((io_port_addr p <=? iq_addr q) && (iq_addr q <? u64 (io_port_addr p + io_port_size p)))
  && (iq_size q =? 4) && (iq_type q =? IOREQ_TYPE_PIO).

Lemma handle_ioreq_cases vcpu (d : daemon W) q :
  vcpu_ioreq vcpu (world d) = Some q ->
  handle_ioreq interrupts vcpu d
  = if for_uefistored (d_ioport d) q then
      (shmem <- map_guest_memory (iq_data q) ;;
       match shmem with
       | None => ret tt
       | Some page =>
           on_server (mmodify (set_comm_buf page)) ;;
           on_server (xen_variable_server_handle_request (backend interrupts d) true) ;;
           d <- mget ;;
           xen_ (xenforeignmemory_unmap (shmem_gfns (iq_data q)) (comm_buf (d_server d)))
       end) d
    else Ok (tt, d).
Proof.
  intros Hq. unfold handle_ioreq. rewrite (bind_runs _ _ _ d d) by done. rewrite Hq. cbv zeta.
  unfold for_uefistored. destruct (io_port_enabled _); cbn [negb andb]; [|done].
  destruct (_ && _); cbn [negb andb]; [|done].
  destruct (iq_size q =? 4); cbn [negb andb]; [|done].
  by destruct (iq_type q =? IOREQ_TYPE_PIO).
Qed.

Lemma xen_run {A} (f : W -> A * W) (d : daemon W) a w :
  f (world d) = (a, w) -> xen f d = Ok (a, set_world w d).
Proof. intros Hf. unfold xen. by rewrite Hf. Qed.

Lemma world_set_world w (d : daemon W) : world (set_world w d) = w.
Proof. done. Qed.





(** ** The event loop *)

(** Mapped guest memory has the size of its pages. *)
Class GuestPages : Prop :=
  map_size dom gfns w page w1 :
    xenforeignmemory_map dom gfns w = (Some page, w1) -> zlen page = PAGE_SIZE * zlen gfns.

Abbreviation services_wf := (fun d : daemon W => auth_wf (auth_of d)).

Lemma map_guest_memory_page start :
  GuestPages ->
  triple services_wf (map_guest_memory start)
    (fun page d => (forall p, page = Some p -> zlen p = SHMEM_SIZE) /\ services_wf d).
Proof.
  intros HG d page d' Hd. unfold map_guest_memory. rewrite (bind_runs _ _ _ d d) by done.
  unfold xen. destruct (xenforeignmemory_map _ _ _) as [m w] eqn:Em. intros [= <- <-].
  split; [|done]. intros p ->. apply map_size in Em as ->. by vm_compute.
Qed.

Lemma serve_keeps page (d : daemon W) :
  zlen page = SHMEM_SIZE ->
  preserves services_wf
    (on_server (mmodify (set_comm_buf page)) ;;
     on_server (xen_variable_server_handle_request (backend interrupts d) true)).
Proof.
  intros Hp d1 a d2 Hd1 (x & d3 & [= _ <-] & Hrun)%bind_inv. revert Hrun.
  unfold on_server, mzoom. cbn [d_server set_server].
  destruct (xen_variable_server_handle_request _ _ _) as [[u s']|] eqn:Er; [|done].
  intros [= _ <-]. cbn [d_server set_server].
  apply sw_auth. refine (requests_wf (backend interrupts d) _ true _ u s' _ Er); [|by constructor].
  intros b. unfold backend. destruct (use_xapidb _); [|done]. intros [= <-].
  apply xapidb_keeps_store.
Qed.

Lemma handle_ioreq_keeps vcpu :
  GuestPages -> preserves services_wf (handle_ioreq interrupts vcpu).
Proof.
  intros HG d [] d' Hd Hrun. destruct (vcpu_ioreq vcpu (world d)) as [q|] eqn:Eq; cycle 1.
  { unfold handle_ioreq in Hrun. rewrite (bind_runs _ _ _ d d) in Hrun by done.
    by rewrite Eq in Hrun. }
  rewrite (handle_ioreq_cases vcpu d q Eq) in Hrun.
  destruct (for_uefistored _ _); [|by injection Hrun as <-].
  apply bind_inv in Hrun as (shmem & d1 & Hmap & Hrun).
  destruct (map_guest_memory_page _ HG _ _ _ Hd Hmap) as [Hpage Hd1].
  destruct shmem as [page|]; [|by injection Hrun as <-].
  rewrite <-bind_assoc in Hrun. revert Hrun.
  apply (preserves_bind services_wf); [by apply serve_keeps, Hpage| |exact Hd1].
  intros []. pose proof (xen__keeps auth_wf). preserve.
Qed.

Lemma handle_shared_iopage_keeps port vcpu :
  GuestPages -> preserves services_wf (handle_shared_iopage interrupts port vcpu).
Proof.
  intros HG. unfold handle_shared_iopage. pose proof (handle_ioreq_keeps vcpu HG).
  pose proof (xen__keeps auth_wf). preserve.
Qed.

Lemma serve_vcpus_keeps n i port :
  GuestPages -> preserves services_wf (serve_vcpus interrupts n i port).
Proof.
  intros HG. revert i. induction n as [|n IH]; intros i; cbn [serve_vcpus]; [preserve|].
  pose proof (xen__keeps auth_wf).
  pose proof (fun port vcpu => handle_shared_iopage_keeps port vcpu HG). preserve.
Qed.

Lemma handler_iteration_keeps :
  GuestPages -> preserves services_wf (handler_iteration interrupts).
Proof.
  intros HG. unfold handler_iteration. pose proof (@xen_keeps auth_wf).
  pose proof (fun n i port => serve_vcpus_keeps n i port HG). preserve.
Qed.

Lemma handler_loop_keeps n : GuestPages -> preserves services_wf (handler_loop interrupts n).
Proof.
  intros HG. pose proof (handler_iteration_keeps HG).
  induction n as [|n IH]; cbn [handler_loop]; preserve.
Qed.

(** ** XenStore *)

(** A node of the guest's directory. *)
Definition domain_path (d : daemon W) (node : string) : bytes :=
  str "/local/domain/" ++ decimal (domid (d_options d)) ++ str node.

Lemma domain_path_text d node :
  0 <= domid (d_options d) -> text_ok (str node) -> text_ok (domain_path d node).
Proof using Type.
  intros Hd Hn. apply text_app; [by apply text_check|]. apply text_app; [by apply decimal_text|done].
Qed.

Lemma zlen_domain_path d node :
  0 <= domid (d_options d) -> zlen (domain_path d node) <= 34 + zlen (str node).
Proof using Type.
  intros Hd. unfold domain_path. rewrite !zlen_app. pose proof (zlen_decimal _ Hd).
  change (zlen (str "/local/domain/")) with 14. lia.
Qed.

Lemma domain_path_printed d node :
  0 <= domid (d_options d) -> zlen (str node) <= 64 -> text_ok (str node) ->
  exists len buf,
    snprintf (replicate 128 NUL) 0 128
      [Lit (str "/local/domain/"); Num (domid (d_options d)); Lit (str node)] = Ok (len, buf) /\
    0 <= len /\ c_string buf = Ok (domain_path d node).
Proof using Type.
  intros Hd Hn Ht. pose proof (zlen_domain_path d node Hd).
  destruct (snprintf_ok [Lit (str "/local/domain/"); Num (domid (d_options d)); Lit (str node)]
              (domain_path d node) 128) as [rest Hr].
  { cbn [format obind]. by rewrite app_nil_r. }
  { unfold INT_MAX. lia. }
  do 2 eexists. split_and!; [exact Hr|apply zlen_nonneg|].
  by apply c_string_text, domain_path_text.
Qed.

(** What a flag is taken for: every beginning of the text [true], the empty one
    among them. *)
Definition flag_of (data : option bytes) : bool :=
  match data with
  | Some v => bool_decide (v `prefix_of` str "true")
  | None => false
  end.

Lemma read_bool_run (d : daemon W) node v w :
  0 <= domid (d_options d) -> zlen (str node) <= 64 -> text_ok (str node) ->
  xs_read (domain_path d node) (world d) = (v, w) -> (forall b, v = Some b -> text_ok b) ->
  uefistored_xs_read_bool
    [Lit (str "/local/domain/"); Num (domid (d_options d)); Lit (str node)] d
  = Ok (flag_of v, set_world w d).
Proof using Type.
  intros Hd Hn Ht Hx Hv. destruct (domain_path_printed d node Hd Hn Ht) as (len & buf & Hs & _ & Hc).
  unfold uefistored_xs_read_bool. rewrite (bind_runs _ _ _ _ d (mlift_runs _ _ _ Hs)).
  rewrite (bind_runs _ _ _ _ d (mlift_runs _ _ _ Hc)).
  rewrite (bind_runs _ _ _ _ _ (xen_run _ _ _ _ Hx)). destruct v as [b|]; [|done].
  apply mlift_runs, strncmp_text; [by apply Hv|by apply text_check].
Qed.

Lemma write_pidfile_keeps a e :
  preserves (fun d => auth_of d = a /\ enforcement_level d = e) write_pidfile.
Proof using Type.
  assert (Hx : forall A (f : W -> A * W),
            preserves (fun d => auth_of d = a /\ enforcement_level d = e) (xen f)).
  { intros A f d b d' Hd. unfold xen. destruct (f (world d)). by intros [= _ <-]. }
  unfold write_pidfile, xen_. preserve.
Qed.

(** The flags of the host administrator.  Whatever XenStore holds, the
    nodes of the guest's directory are read once each; secure boot is enabled,
    and the enforcement level set, exactly when the node exists and its value is
    a beginning of "true", so also when it is "t" or empty; and the flag that
    the authentication services test is left as it was. *)
Theorem flags_read (d d' : daemon W) (w1 w2 w3 : W) (v1 v2 : option bytes) (ok : bool) :
  0 <= domid (d_options d) ->
  xs_open (world d) = (true, w1) ->
  xs_read (domain_path d "/platform/secureboot") w1 = (v1, w2) ->
  xs_read (domain_path d "/platform/auth-enforce") w2 = (v2, w3) ->
  (forall b, v1 = Some b \/ v2 = Some b -> text_ok b) ->
  read_flags d = Ok (ok, d') ->
  secure_boot_enabled (auth_of d') = flag_of v1 /\ enforcement_level d' = flag_of v2 /\
  auth_enforce (auth_of d') = auth_enforce (auth_of d).
Proof using Type.
  intros Hd H1 H2 H3 Hv. unfold read_flags.
  rewrite (bind_runs _ _ _ _ _ (xen_run _ _ _ _ H1)). cbn [negb].
  rewrite (bind_runs _ _ _ (set_world w1 d) (set_world w1 d)) by done. cbv zeta.
  rewrite (bind_runs _ _ _ _ _ (read_bool_run (set_world w1 d) "/platform/secureboot" v1 w2 Hd ltac:(by vm_compute)
             ltac:(by apply text_check) H2 (fun b Hb => Hv b (or_introl Hb)))).
  set (d2 := set_server (set_sv_auth (mk_auth (au_store (auth_of d)) (setup_mode (auth_of d))
         (flag_of v1) (auth_enforce (auth_of d)) (au_data (auth_of d))) (d_server (set_world w2 d)))
         (set_world w2 d)).
  rewrite (bind_runs _ _ _ tt d2) by done.
  rewrite (bind_runs _ _ _ _ _ (read_bool_run d2 "/platform/auth-enforce" v2 w3 Hd
             ltac:(by vm_compute) ltac:(by apply text_check) H3 (fun b Hb => Hv b (or_intror Hb)))).
  rewrite (bind_runs _ _ _ tt (set_enforcement (flag_of v2) (set_world w3 d2))) by done.
  intros (r & d3 & Hr & [= _ <-])%bind_inv.
  apply (write_pidfile_keeps (auth_of d2) (flag_of v2)) in Hr as [-> ->]; [|done].
  done.
Qed.

(** The announcement has no process id.  When the options are in range,
    [write_pid] writes the node [varstored-pid] of the guest with an empty
    value, whatever the process id is, and fails only when XenStore does. *)
Theorem announced_without_pid (d : daemon W) (w1 w2 : W) (pid : Z) (ok : bool) :
  0 <= domid (d_options d) ->
  sys_getpid (world d) = (pid, w1) ->
  xs_write (domain_path d "/varstored-pid") [] w1 = (ok, w2) ->
  write_pid d = Ok (if ok then 0 else -1, set_world w2 d).
Proof using Type.
  intros Hd Hp Hx.
  destruct (domain_path_printed d "/varstored-pid" Hd ltac:(by vm_compute) ltac:(by apply text_check))
    as (len & buf & Hs & Hl & Hc).
  unfold write_pid. rewrite (bind_runs _ _ _ d d) by done.
  rewrite (bind_runs _ _ _ _ d (mlift_runs _ _ _ Hs)). zb.
  rewrite (bind_runs _ _ _ _ _ (xen_run _ _ _ _ Hp)).
  pose proof (u32_range pid). pose proof (zlen_decimal (u32 pid) ltac:(lia)).
  destruct (snprintf_ok [Num (u32 pid)] (decimal (u32 pid)) 21) as [rest Hr].
  { cbn [format obind]. by rewrite app_nil_r. }
  { unfold INT_MAX. lia. }
  rewrite (bind_runs _ _ _ _ _ (mlift_runs _ _ _ Hr)).
  pose proof (zlen_nonneg (decimal (u32 pid))). zb. cbn [Z.b2z negb Z.eqb].
  rewrite (bind_runs _ _ _ _ _ (mlift_runs _ _ _ Hc)).
  rewrite (bind_runs _ _ _ [] (set_world w1 d)).
  2: { apply mlift_runs. pose proof (zlen_nonneg (NUL :: rest)). rewrite read_bytes_ok; [done|lia..|]. rewrite zlen_app. lia. }
  rewrite (bind_runs _ _ _ ok (set_world w2 (set_world w1 d)) (xen_run _ (set_world w1 d) _ _ Hx)).
  by destruct ok.
Qed.

(** ** The command line *)
Lemma strdup_text cs : text_ok cs -> strdup (cs ++ [NUL]) = Ok (cs ++ [NUL]).
Proof using Type. intros Hc. unfold strdup. by rewrite c_string_text. Qed.

Lemma whole_number_decimal n :
  0 <= n <= LONG_MAX -> whole_number (decimal n ++ [NUL]) = Ok (Some (u32 n)).
Proof using Type. intros Hn. unfold whole_number. by rewrite strtol0_decimal. Qed.

Lemma atoi_decimal n : 0 <= n <= INT_MAX -> atoi (decimal n ++ [NUL]) = Ok n.
Proof using Type.
  unfold INT_MAX. intros Hn. unfold atoi. rewrite strtol_decimal by (unfold LONG_MAX; lia).
  cbn [obind]. by rewrite s32_id by lia.
Qed.

(** An option that has been handled. *)
Lemma parse_option o args (d d1 : daemon W) :
  handle_option o d = Ok (None, d1) -> parse_options (o :: args) d = parse_options args d1.
Proof using Type. intros Ho. cbn [parse_options]. by rewrite (bind_runs _ _ _ _ _ Ho). Qed.

Definition number_option (c : string) (n : Z) : option_arg := (opt c, Some (decimal n ++ [NUL])).
Definition text_option (c : string) (t : bytes) : option_arg := (opt c, Some (t ++ [NUL])).

(** One option: the options with one of them replaced. *)
Lemma option_d (d : daemon W) (n : Z) dm rs dp u g rp pf b :
  0 <= n <= INT_MAX ->
  handle_option (number_option "d" n) (set_options (mk_options dm rs dp u g rp pf b) d)
  = Ok (None, set_options (mk_options (u32 n) rs dp u g rp pf b) d).
Proof using Type. intros Hn. exact (bind_runs _ _ _ _ _ (mlift_runs _ _ _ (atoi_decimal n Hn))). Qed.

Lemma option_r (d : daemon W) dm rs dp u g rp pf b :
  handle_option (opt "r", None) (set_options (mk_options dm rs dp u g rp pf b) d)
  = Ok (None, set_options (mk_options dm true dp u g rp pf b) d).
Proof using Type. exact (bind_runs _ _ _ _ _ eq_refl). Qed.

Lemma option_p (d : daemon W) dm rs dp u g rp pf b :
  handle_option (opt "p", None) (set_options (mk_options dm rs dp u g rp pf b) d)
  = Ok (None, set_options (mk_options dm rs true u g rp pf b) d).
Proof using Type. exact (bind_runs _ _ _ _ _ eq_refl). Qed.

Lemma option_u (d : daemon W) (n : Z) dm rs dp u g rp pf b :
  0 <= n <= LONG_MAX ->
  handle_option (number_option "u" n) (set_options (mk_options dm rs dp u g rp pf b) d)
  = Ok (None, set_options (mk_options dm rs dp (u32 n) g rp pf b) d).
Proof using Type. intros Hn. exact (bind_runs _ _ _ _ _ (mlift_runs _ _ _ (whole_number_decimal n Hn))). Qed.

Lemma option_g (d : daemon W) (n : Z) dm rs dp u g rp pf b :
  0 <= n <= LONG_MAX ->
  handle_option (number_option "g" n) (set_options (mk_options dm rs dp u g rp pf b) d)
  = Ok (None, set_options (mk_options dm rs dp u (u32 n) rp pf b) d).
Proof using Type. intros Hn. exact (bind_runs _ _ _ _ _ (mlift_runs _ _ _ (whole_number_decimal n Hn))). Qed.

Lemma option_c (d : daemon W) (cs : bytes) dm rs dp u g rp pf b :
  text_ok cs ->
  handle_option (text_option "c" cs) (set_options (mk_options dm rs dp u g rp pf b) d)
  = Ok (None, set_options (mk_options dm rs dp u g (Some (cs ++ [NUL])) pf b) d).
Proof using Type. intros Hn. exact (bind_runs _ _ _ _ _ (mlift_runs _ _ _ (strdup_text cs Hn))). Qed.

Lemma option_i (d : daemon W) (cs : bytes) dm rs dp u g rp pf b :
  text_ok cs ->
  handle_option (text_option "i" cs) (set_options (mk_options dm rs dp u g rp pf b) d)
  = Ok (None, set_options (mk_options dm rs dp u g rp (Some (cs ++ [NUL])) b) d).
Proof using Type. intros Hn. exact (bind_runs _ _ _ _ _ (mlift_runs _ _ _ (strdup_text cs Hn))). Qed.

Lemma set_own_options (d : daemon W) : set_options (d_options d) d = d.
Proof using Type. by destruct d. Qed.

(** The command line is read back.  A domain, a user and a group printed in
    decimal and two paths, given with the flags that resume and that drop the
    privileges, are the options the daemon runs with; a user or a group that
    does not fit 32 bits is not refused but cut, so that 4294967296 is root. *)
Theorem options_read_back (d : daemon W) (dom u g : Z) (path file : bytes) :
  0 <= dom <= INT_MAX -> 0 <= u <= LONG_MAX -> 0 <= g <= LONG_MAX ->
  text_ok path -> text_ok file ->
  parse_options [number_option "d" dom; (opt "r", None); (opt "p", None); number_option "u" u;
                 number_option "g" g; text_option "c" path; text_option "i" file] d
  = Ok (None, set_options (mk_options dom true true (u32 u) (u32 g) (Some (path ++ [NUL]))
                             (Some (file ++ [NUL])) (use_xapidb (d_options d))) d).
Proof using Type.
  intros Hd Hu Hg Hp Hf.
  rewrite <-(set_own_options d) at 1. destruct (d_options d) as [dm rs dp u0 g0 rp pf b].
  cbn [use_xapidb].
  rewrite (parse_option _ _ _ _ (option_d _ _ _ _ _ _ _ _ _ _ Hd)).
  rewrite (parse_option _ _ _ _ (option_r _ _ _ _ _ _ _ _ _)).
  rewrite (parse_option _ _ _ _ (option_p _ _ _ _ _ _ _ _ _)).
  rewrite (parse_option _ _ _ _ (option_u _ _ _ _ _ _ _ _ _ _ Hu)).
  rewrite (parse_option _ _ _ _ (option_g _ _ _ _ _ _ _ _ _ _ Hg)).
  rewrite (parse_option _ _ _ _ (option_c _ _ _ _ _ _ _ _ _ _ Hp)).
  rewrite (parse_option _ _ _ _ (option_i _ _ _ _ _ _ _ _ _ _ Hf)).
  rewrite (u32_id dom) by (unfold INT_MAX in *; lia). reflexivity.
Qed.

End daemon.

(** ** At the sample machine *)
Lemma startup_requires_keys_witness :
  exists d, start 0 5 machine_args (initial_daemon LOGLEVEL_INFO machine_0) = Ok (None, d) /\
    secure_boot_enabled (sv_auth (d_server d)) = true /\ keys_enrolled (sv_store (d_server d)).
Proof.
  assert (H : started = true) by (vm_compute; reflexivity). unfold started in H.
  destruct (start 0 5 machine_args (initial_daemon LOGLEVEL_INFO machine_0)) as [[[code|] d]|] eqn:E;
    [discriminate| |discriminate].
  exists d. split; [reflexivity|]. split; [exact H|].
  exact (startup_requires_keys 0 5 machine_args (initial_daemon LOGLEVEL_INFO machine_0) d E H).
Defined.




(** Options with a domain and a file for the process id. *)
Definition daemon_named : daemon machine :=
  set_options (mk_options 3 false false 0 0 None (Some (str "/run/pid" ++ [NUL])) false)
    (initial_daemon LOGLEVEL_INFO machine_0).

Lemma flags_read_witness :
  exists ok d', read_flags daemon_named = Ok (ok, d') /\
    secure_boot_enabled (sv_auth (d_server d')) = true /\ enforcement_level d' = true /\
    auth_enforce (sv_auth (d_server d')) = true.
Proof.
  destruct (read_flags daemon_named) as [[ok d']|] eqn:E; [|vm_compute in E; discriminate].
  exists ok, d'. split; [reflexivity|].
  apply (flags_read daemon_named d' machine_0 machine_0 machine_0 (Some (str "true"))
           (Some (str "true")) ok); try reflexivity.
  - vm_compute. discriminate.
  - intros b [[= <-]|[= <-]]; apply text_check; reflexivity.
  - exact E.
Defined.

Lemma announced_without_pid_witness :
  write_pid daemon_named
  = Ok (0, set_world (mk_machine 0 (m_request machine_0) []
                        [(str "/local/domain/3/varstored-pid", [])]) daemon_named).
Proof.
  apply (announced_without_pid daemon_named machine_0 _ 77 true);
    [vm_compute; discriminate|reflexivity|reflexivity].
Defined.

Lemma options_read_back_witness :
  parse_options [number_option "d" 3; (opt "r", None); (opt "p", None);
                 number_option "u" 4294967296; number_option "g" 1000;
                 text_option "c" (str "/var/jail"); text_option "i" (str "/run/pid")]
    (initial_daemon LOGLEVEL_INFO machine_0)
  = Ok (None, set_options (mk_options 3 true true 0 1000 (Some (str "/var/jail" ++ [NUL]))
                             (Some (str "/run/pid" ++ [NUL])) false) (initial_daemon LOGLEVEL_INFO machine_0)).
Proof.
  apply (options_read_back (initial_daemon LOGLEVEL_INFO machine_0) 3 4294967296 1000 (str "/var/jail")
           (str "/run/pid"));
    try (vm_compute; split; discriminate); apply text_check; reflexivity.
Defined.
