(* ===== verification/StartupSpec.v ===== *)
(** * The start-up builds a well-formed state

    Every step of [main] before the event loop, the restored variables and the
    key files included, leaves the authentication services well formed; with
    the invariant of the event loop, every state of the daemon is. *)
From Stdlib Require Import Strings.String.
From S2P Require Import Prelude LogLevel EfiTypes Common UefiVariable Storage StorageInv StorageSpec.
From S2P Require Import Serializer Crypto SigList Auth AuthLib AuthSpec CText Server ServerSpec Xapi Depriv.
From S2P Require Import Daemon Triples WellFormed XapiBackend.
From S2P Require Import Samples AuthSamples XapiSamples DaemonSamples DaemonSpec.

(** ** The key files *)
Record file_ok (a : auth_data) : Prop := {
  fo_name : name_given (var_name (var a)) (var_namesz (var a));
  fo_guid : zlen (var_guid (var a)) = 16;
  fo_attrs : 0 <= var_attrs (var a) < 0x100000000
}.

Lemma initial_files_ok : Forall file_ok initial_auth_files.
Proof.
  unfold initial_auth_files. repeat constructor; try done; by vm_compute.
Qed.

Section keys.
Context `{HA : Allocator} `{HO : OpenSSL} `{HF : FileSystem}.

Lemma file_ok_data a d n : file_ok a -> file_ok (mk_auth_data (path a) (with_data d n (var a))).
Proof. by intros []. Qed.

Lemma load_auth_file a r a' : file_ok a -> load_auth a = Ok (r, a') -> file_ok a'.
Proof.
  intros Ha. unfold load_auth. destruct (fs_stat _) as [st size]. case_match; [by intros [= _ <-]|].
  case_match; [by intros [= _ <-]|]. cbv zeta. intros (u & _ & Hrun)%obind_inv. revert Hrun.
  destruct (malloc _) as [block|]; [|intros [= _ <-]; by apply file_ok_data].
  destruct (fs_read _ _) as [n content]. case_match; [intros [= _ <-]; by apply file_ok_data|].
  intros (b & _ & [= _ <-])%obind_inv. by apply file_ok_data.
Qed.

Lemma auth_lib_load_loop_files skip l l' :
  Forall file_ok l -> auth_lib_load_loop skip l = Ok l' -> Forall file_ok l'.
Proof.
  intros Hl. revert skip l'. induction Hl as [|a l Ha Hl IH]; intros skip l'; [by intros [= <-]|].
  cbn [auth_lib_load_loop]. intros (sk & _ & Hrun)%obind_inv. destruct sk.
  { apply obind_inv in Hrun as (rest & Hr & [= <-]). constructor; [done|by eapply IH]. }
  apply obind_inv in Hrun as ([r a'] & Ha' & Hrun). apply obind_inv in Hrun as (k & _ & Hrun).
  apply obind_inv in Hrun as (rest & Hr & [= <-]).
  constructor; [by eapply load_auth_file|by eapply IH].
Qed.

Lemma auth_lib_load_files l l' :
  Forall file_ok l -> auth_lib_load (Some l) = Ok l' -> Forall file_ok (default [] l').
Proof.
  intros Hl (r & Hr & [= <-])%obind_inv. by eapply auth_lib_load_loop_files.
Qed.

(** ** Enrolment *)
Lemma exists_wf n sz g : preserves auth_wf (Auth.on_store (storage_exists n sz g)).
Proof.
  apply preserves_keeps, keeps_on_store. unfold storage_exists. pose proof keeps_find. keeps.
Qed.

Lemma load_auth_files_wf l : Forall file_ok l -> preserves auth_wf (load_auth_files l).
Proof.
  induction 1 as [|a l [Hn Hg Ha] Hl IH]; cbn [load_auth_files]; [apply preserves_ret|].
  pose proof (fun size => auth_lib_process_variable_wf _ _ _ _ Hn Hg Ha size).
  pose proof set_data_wf. pose proof exists_wf. preserve.
Qed.

Lemma auth_lib_initialize_wf l : Forall file_ok l -> preserves auth_wf (auth_lib_initialize l).
Proof.
  intros Hl. unfold auth_lib_initialize. pose proof (load_auth_files_wf l Hl).
  pose proof exists_wf. pose proof update_platform_mode_wf.
  assert (Hset : forall name value size, name_given name (sizeof_wchar name) ->
            preserves auth_wf (Auth.on_store (storage_set (Some name) (sizeof_wchar name)
              (Some gEfiGlobalVariableGuid) (Some value) size RT_BS_ATTRS))).
  { intros. by apply store_set_wf. }
  pose proof (fun v s => Hset EFI_SIGNATURE_SUPPORT_NAME v s ltac:(by constructor)).
  pose proof (fun v s => Hset AUDIT_MODE_NAME v s ltac:(by constructor)).
  clear Hset. preserve.
Qed.

End keys.

(** ** The variables read back *)

(** What restoring a variable needs of it. *)
Record restored_ok (v : variable_t) : Prop := {
  ro_name : name_given (var_name v) (var_namesz v);
  ro_guid : zlen (var_guid v) = 16;
  ro_attrs : 0 <= var_attrs v < 0x100000000;
  ro_time : time_ok (var_timestamp v)
}.

(** Its name does not start with the zero character. *)
Definition named (v : variable_t) : Prop := char_at (var_name v) 0 <> 0.

Section restore.
Context `{HA : Allocator}.

Lemma cleanup_fails v namesz r v' : cleanup_name v namesz = Ok (r, v') -> r < 0.
Proof. intros (w & _ & [= <- _])%obind_inv. lia. Qed.

Lemma create_restored n sz src dsz g attrs t c r v :
  1 <= sz <= 256 -> 256 <= zlen n -> zlen g = 16 -> 0 <= attrs < 0x100000000 -> time_ok t ->
  zlen c = 32 ->
  variable_create_noalloc zero_var (Some n) sz (Some src) dsz (Some g) attrs (Some t) (Some c)
    = Ok (r, v) ->
  0 <= r -> named v -> restored_ok v.
Proof.
  intros Hsz Hn Hg Ha Ht Hc. unfold variable_create_noalloc.
  destruct (dsz =? 0); [by intros [= <- _]|]. intros ([r1 v1] & H1 & H2)%obind_inv.
  destruct (decide (sz = 1)) as [->|Hne]; [by apply one_byte_name in H1|].
  rewrite variable_set_name_ok in H1 by (done || lia). injection H1 as <- <-.
  cbn [Z.ltb Z.compare] in H2. apply obind_inv in H2 as ([r2 v2] & H2 & H3).
  apply variable_set_data_inv in H2 as [(Hr & -> & _)|[-> (d & -> & _)]]; [|..|done|cbn; clia].
  { rewrite (proj2 (Z.ltb_lt _ _) Hr) in H3. apply cleanup_fails in H3. lia. }
  cbn [Z.ltb Z.compare] in H3. rewrite variable_set_guid_ok in H3 by done.
  cbn [obind Z.ltb Z.compare variable_set_attrs variable_set_timestamp] in H3.
  rewrite variable_set_cert_ok in H3 by done. cbn [obind Z.ltb Z.compare] in H3.
  injection H3 as <- <-. intros _. unfold named.
  cbn [var_name with_name with_data with_guid with_attrs with_timestamp with_cert zero_var].
  set (name := take _ _ ++ _). intros Hf.
  assert (Hch : char_at name 0 = char_at n 0).
  { apply char_at_prefix with (sz := sz); [|lia|lia]. apply take_take_app_drop. unfold zlen in *. lia. }
  pose proof (sanitized_range n sz ltac:(constructor; [lia|lia|congruence])).
  constructor; try done. constructor; cbn [var_namesz var_name with_name with_data with_guid
    with_attrs with_timestamp with_cert zero_var]; [lia|unfold name, zero_name; zlia|done].
Qed.

Lemma yields_int n : yields (b <- rd n ;; ret (le_decode b)) (fun x => 0 <= x < 256 ^ n).
Proof.
  eapply yields_bind; [apply yields_rd|]. intros b Hb. apply yields_ret. cbv beta in Hb.
  rewrite <-Hb. apply le_decode_range.
Qed.

Lemma yields_time : yields unserialize_timestamp time_ok.
Proof.
  unfold unserialize_timestamp.
  do 11 (eapply yields_bind; [apply (yields_int _)|]; intros ? ?). by apply yields_ret.
Qed.

Lemma unserialize_restored :
  yields (unserialize_var_cached zero_var)
    (fun '(r, v) => 0 <= r -> named v -> restored_ok v).
Proof.
  unfold unserialize_var_cached.
  eapply yields_bind; [apply (yields_int 8)|]. intros sz Hsz. cbv beta in Hsz.
  destruct (_ || _) eqn:E; [apply yields_ret; intros; lia|].
  apply orb_false_iff in E as [E1%Z.eqb_neq E2]. rewrite Z.gtb_ltb in E2. apply Z.ltb_ge in E2.
  eapply yields_bind; [apply yields_any|]. intros b _.
  eapply yields_bind; [apply yields_mlift; intros x Hx; exact (write_bytes_length _ _ _ _ Hx)|].
  intros name Hname. cbv beta in Hname.
  eapply yields_bind; [apply yields_any|]. intros dsz _.
  destruct (dsz =? 0); [apply yields_ret; intros; lia|]. destruct (malloc dsz); [|apply yields_ret; intros; lia].
  eapply yields_bind; [apply yields_any|]. intros b' _.
  eapply yields_bind; [apply yields_any|]. intros data _.
  eapply yields_bind; [apply (yields_rd 16)|]. intros g Hg.
  eapply yields_bind; [apply yields_uint32|]. intros attrs Ha.
  eapply yields_bind; [apply yields_time|]. intros t Ht.
  eapply yields_bind; [apply (yields_rd 32)|]. intros c Hc.
  apply yields_mlift. intros [r v] Hrun. cbv beta in *.
  eapply create_restored; [..|exact Hrun]; try done.
  - unfold MAX_VARIABLE_NAME_SIZE in *. lia.
  - rewrite Hname. by vm_compute.
Qed.

(** The loop fills the array from its first element on. *)
Lemma from_bytes_restored fuel count done_ k :
  Forall (fun v => named v -> restored_ok v) done_ ->
  yields (from_bytes_loop fuel count (zlen done_) (done_ ++ replicate k zero_var))
    (fun '(out, vs) => forall i, out = Some i ->
       Forall (fun v => named v -> restored_ok v) (take (Z.to_nat i) vs)).
Proof.
  revert done_ k. induction fuel as [|fuel IH]; intros done_ k Hd; cbn [from_bytes_loop].
  - destruct (_ <? _); [by apply yields_mlift|]. apply yields_ret. intros i [= <-].
    unfold zlen. by rewrite Nat2Z.id, take_app_length.
  - destruct (_ <? _); cycle 1.
    { apply yields_ret. intros i [= <-]. unfold zlen. by rewrite Nat2Z.id, take_app_length. }
    unfold zlen at 1. rewrite Nat2Z.id, lookup_app_r, Nat.sub_diag by done.
    destruct k as [|k]; [by apply yields_mlift|]. cbn [replicate lookup list_lookup].
    eapply yields_bind; [apply unserialize_restored|]. intros [r v] Hv. cbv zeta.
    destruct (r <? 0) eqn:Er; [by apply yields_ret|]. apply Z.ltb_ge in Er.
    unfold zlen at 2. rewrite Nat2Z.id, insert_app_r_alt, Nat.sub_diag by done. cbn [insert list_insert].
    specialize (IH (done_ ++ [v]) k). rewrite zlen_app, <-app_assoc in IH. apply IH.
    apply Forall_app. split; [done|]. constructor; [by apply Hv|by constructor].
Qed.

(** What a read of the saved variables leaves in the array: of the variables it
    counts, those that have a name can be restored. *)
Definition readable (p : Z * list variable_t) : Prop :=
  Forall (fun v => named v -> restored_ok v) (take (Z.to_nat (fst p)) (snd p)).

Lemma none_readable r vs : r <= 0 -> readable (r, vs).
Proof. intros Hr. unfold readable. cbn [fst]. replace (Z.to_nat r) with O by lia. by constructor. Qed.

Lemma from_bytes_readable n k bs sz r vs :
  from_bytes_to_vars (Some (replicate k zero_var)) n bs sz = Ok (r, vs) ->
  readable (r, default (replicate k zero_var) vs).
Proof.
  unfold from_bytes_to_vars. destruct bs as [b|]; [|intros [= <- _]; apply none_readable; lia].
  intros ([hdr ptr] & _ & Hrun)%obind_inv. destruct (_ >? _); [injection Hrun as <- _; apply none_readable; lia|].
  apply obind_inv in Hrun as ([[out vs'] ptr'] & Hloop & Hrun).
  pose proof (from_bytes_restored _ _ [] k ltac:(by constructor) _ _ _ I Hloop) as Hl.
  cbv beta iota in Hl. destruct out as [i|]; [|injection Hrun as <- _; apply none_readable; lia].
  destruct (negb _); [injection Hrun as <- _; apply none_readable; lia|]. destruct (negb _); [injection Hrun as <- _; apply none_readable; lia|].
  injection Hrun as <- <-. destruct (i >? INT_MAX); [apply none_readable; lia|]. by apply Hl.
Qed.

End restore.

Section backend.
Context {E : Type} `{HH : Host E} `{HA : Allocator} `{HB : Base64} `{HL : Libxml2}
  (interrupts : nat).

Lemma read_file_readable k n fname :
  yields (xapi_variables_read_file (replicate k zero_var) n fname) readable.
Proof using Type.
  assert (Hnone : forall r, r <= 0 -> yields (@ret (xapi_state E) _ (r, replicate k zero_var)) readable)
    by (intros; by apply yields_ret, none_readable).
  unfold xapi_variables_read_file. destruct fname as [f|]; [|by apply Hnone].
  eapply yields_bind; [apply yields_any|]. intros path _.
  eapply yields_bind; [apply yields_any|]. intros x _.
  destruct (negb _); [by apply Hnone|]. destruct (fstat _ _); [|by apply Hnone].
  destruct (_ >? _); [by apply Hnone|]. destruct (malloc _); [|by apply Hnone]. cbv zeta.
  eapply yields_bind; [apply yields_any|]. intros mem _. destruct (negb _); [by apply Hnone|].
  eapply yields_bind; [apply yields_mlift; intros a Ha; exact Ha|]. intros [r vs] Hr.
  apply yields_ret. by eapply from_bytes_readable.
Qed.

Lemma request_readable k n :
  yields (xapi_variables_request interrupts (replicate k zero_var) n) readable.
Proof using Type.
  assert (Hnone : forall r, r <= 0 -> yields (@ret (xapi_state E) _ (r, replicate k zero_var)) readable)
    by (intros; by apply yields_ret, none_readable).
  unfold xapi_variables_request.
  eapply yields_bind; [apply yields_any|]. intros [r sid] _. destruct (r <? 0); [by apply Hnone|].
  eapply yields_bind; [apply yields_any|]. intros r2 _. destruct (r2 <? 0); [by apply Hnone|].
  destruct (malloc _); [|by apply Hnone].
  eapply yields_bind; [apply yields_any|]. intros [r3 b64] _. destruct (r3 <? 0); [by apply Hnone|].
  eapply yields_bind; [apply yields_any|]. intros _ _. destruct b64 as [text|]; [|by apply yields_mlift].
  eapply yields_bind; [apply yields_any|]. intros len _.
  eapply yields_bind; [apply yields_any|]. intros [r4 plain] _.
  destruct (r4 <? 0) eqn:E4; [apply Hnone; lia|].
  eapply yields_bind; [apply yields_mlift; intros a Ha; exact Ha|]. intros [r5 vs] Hr.
  apply yields_ret. by eapply from_bytes_readable.
Qed.

Lemma restore_variable_wf v : restored_ok v -> preserves storage_wf (restore_variable v).
Proof using Type.
  intros [Hn Hg Ha Ht]. unfold restore_variable. case_match.
  - apply storage_set_with_timestamp_wf; try done. by intros x [= <-].
  - by apply storage_set_wf.
Qed.

Lemma restore_variables_wf vs :
  Forall restored_ok vs -> preserves storage_wf (restore_variables vs).
Proof using Type.
  induction 1 as [|v vs Hv Hvs IH]; cbn [restore_variables]; [apply preserves_ret|].
  pose proof (restore_variable_wf v Hv). preserve.
Qed.

(** The saved state: what is read of it when the daemon starts, from the file or
    from the toolstack, are variables with a name. *)
Definition saved_state_named (resume : bool) : Prop :=
  forall x r vs x',
    (if resume then xapi_variables_read_file (replicate 128 zero_var) MAX_VAR_COUNT (resume_path x)
     else xapi_variables_request interrupts (replicate 128 zero_var) MAX_VAR_COUNT) x = Ok ((r, vs), x') ->
    Forall named (take (Z.to_nat r) vs).

Lemma xapi_init_wf resume :
  saved_state_named resume -> preserves (fun p => storage_wf (fst p)) (xapi_init interrupts resume).
Proof using Type.
  intros Hn s a s' Hs. unfold xapi_init. destruct (malloc _); [|by intros [= _ <-]].
  rewrite (bind_runs _ _ _ s s) by done. destruct (vm_uuid (snd s)); [|by intros [= _ <-]].
  cbv zeta. change (Z.to_nat MAX_VAR_COUNT) with 128%nat.
  intros ([r vs] & s1 & Hx & Hrun)%bind_inv.
  pose proof (on_xapi_keeps storage_wf _ _ _ _ Hs Hx) as Hs1. cbv beta in Hs1.
  unfold on_xapi, mzoom in Hx.
  match type of Hx with match ?m with _ => _ end = _ =>
    destruct m as [[[r' vs'] x']|] eqn:Em; [|done] end.
  injection Hx as <- <- _.
  assert (Hok : Forall restored_ok (take (Z.to_nat r') vs')).
  { assert (Hr : readable (r', vs')).
    { destruct resume; [by apply read_file_readable in Em|by apply request_readable in Em]. }
    pose proof (Hn _ _ _ _ Em) as Hnamed. unfold readable in Hr. cbn [fst snd] in Hr.
    revert Hr Hnamed. rewrite !Forall_forall. auto. }
  destruct (r' <? 0); [by injection Hrun as _ <-|].
  apply bind_inv in Hrun as (u & s2 & H2 & [= _ <-]).
  by apply (on_storage_keeps storage_wf _ (restore_variables_wf _ Hok) _ _ _ Hs1 H2).
Qed.

End backend.

(** ** The steps of [main] *)
Section main.
Context {W : Type} `{HH : Host W} `{HK : Kernel W} `{HX : Xen W} `{HA : Allocator}
  `{HO : OpenSSL} `{HB : Base64} `{HL : Libxml2} `{HF : FileSystem} (interrupts : nat).

(** Between the steps the services are well formed and the key files sound. *)
Definition starting (d : daemon W) : Prop :=
  auth_wf (sv_auth (d_server d)) /\ Forall file_ok (auth_files d).

Lemma starting_xen {A} (f : W -> A * W) : preserves starting (xen f).
Proof using Type. intros d a d' Hd. unfold xen. destruct (f (world d)). by intros [= _ <-]. Qed.

Lemma starting_server {A} (m : M (server (xapi_state W)) A) :
  preserves (fun s => auth_wf (sv_auth s)) m -> preserves starting (on_server m).
Proof using Type.
  intros Hm. apply preserves_mzoom with (fun s => auth_wf (sv_auth s)); [by intros d []| |done].
  by intros d s [].
Qed.

Lemma starting_auth {A} (m : M auth_state A) : preserves auth_wf m -> preserves starting (on_auth m).
Proof using Type.
  intros Hm. apply starting_server.
  by apply preserves_mzoom with auth_wf; [by intros s|by intros s a|].
Qed.

Lemma starting_set f :
  (forall d, starting d -> starting (f d)) -> preserves starting (mmodify f).
Proof using Type. apply preserves_mmodify. Qed.

(** A step that calls the hypervisor and sets the daemon's own fields. *)
Ltac start_step :=
  pose proof @starting_xen;
  repeat (preserve; try (apply starting_set; by intros ? ?)).

Lemma handle_option_starting o : preserves starting (handle_option o).
Proof using Type.
  unfold handle_option, backend_parse_arg. destruct o as [c optarg]. start_step.
  apply starting_set. intros d [_ Hf]. split; [|exact Hf]. by match goal with H : starting _ |- _ => apply H end.
Qed.

Lemma parse_options_starting args : preserves starting (parse_options args).
Proof using Type.
  pose proof handle_option_starting. induction args; cbn [parse_options]; start_step.
Qed.

Lemma install_sighandlers_starting : preserves starting install_sighandlers.
Proof using Type. unfold install_sighandlers, install_sighandler. start_step. Qed.

Lemma open_xen_starting : preserves starting open_xen.
Proof using Type. unfold open_xen, xen_. start_step. Qed.

Lemma open_ioreq_server_starting : preserves starting open_ioreq_server.
Proof using Type. unfold open_ioreq_server, xen_map_ioreq_server. start_step. Qed.

Lemma bind_ports_starting n i ports : preserves starting (bind_ports n i ports).
Proof using Type. revert i ports. induction n; intros i ports; cbn [bind_ports]; start_step. Qed.

Lemma open_ports_starting : preserves starting open_ports.
Proof using Type.
  unfold open_ports, setup_portio. pose proof bind_ports_starting. start_step.
Qed.

Lemma read_flags_starting : preserves starting read_flags.
Proof using Type.
  unfold read_flags, uefistored_xs_read_bool, write_pidfile, xen_.
  assert (forall sb, preserves starting (on_auth (mmodify (fun s => mk_auth (au_store s)
            (setup_mode s) sb (auth_enforce s) (au_data s))))).
  { intros sb. apply starting_auth, preserves_mmodify. by intros s []. }
  start_step.
Qed.

Lemma run_kernel_starting {A} (m : M W A) : preserves starting (run_kernel m).
Proof using Type.
  apply preserves_mzoom with (fun _ => True); [done|by intros d w ? ?|by intros ? ? ? ? ?].
Qed.

(** The saved state of either kind. *)
Context (Hsaved : forall resume, @saved_state_named W HH HA HB HL interrupts resume).

Lemma backend_init_starting : preserves starting (backend_init interrupts).
Proof using Hsaved.
  unfold backend_init. apply preserves_get_bind. intros d _. unfold backend.
  destruct (use_xapidb _); [|apply preserves_ret]. cbn [xapidb be_init].
  apply starting_server, (run_backend_keeps auth_wf). intros a [Ha Hm] p r p' Hp Hrun.
  constructor; [|done].
  exact (xapi_init_wf interrupts _ (Hsaved _) _ _ _ (aw_store _ Hp) Hrun).
Qed.

Lemma load_state_starting : preserves starting (load_state interrupts).
Proof using Hsaved.
  unfold load_state. apply preserves_get_bind. intros d [_ Hf].
  apply preserves_lift_bind. intros files Hl.
  pose proof (auth_lib_load_files _ _ Hf Hl) as Hf'.
  pose proof @run_kernel_starting. pose proof backend_init_starting.
  apply preserves_bind; [apply starting_set; intros d2 []; by split|]. intros _.
  cbv zeta.
  apply preserves_bind; [auto|]. intros []; cbn [negb]; [|apply preserves_ret].
  apply preserves_bind; [auto|]. intros r. case_match; [apply preserves_ret|].
  apply preserves_get_bind. intros d' [_ Hd'].
  apply preserves_bind; [by apply starting_auth, auth_lib_initialize_wf|].
  intros; apply preserves_ret.
Qed.

Lemma wf_variables_only : variables_only auth_wf.
Proof using Type.
  intros a var [Hs Hm] st r st' Hst Hrun. constructor; [|done].
  exact (storage_iter_wf var _ _ _ (aw_store _ Hst) Hrun).
Qed.

Lemma daemon_notify_keeps (P : auth_state -> Prop) :
  preserves (fun d : daemon W => P (sv_auth (d_server d))) (daemon_notify interrupts).
Proof using Type.
  unfold daemon_notify, backend. apply preserves_get_bind; intros d Hd.
  apply on_server_keeps. unfold backend_notify.
  destruct (use_xapidb (d_options d)); [|apply preserves_ret]. cbn [xapidb be_notify].
  apply run_backend_keeps. intros a Ha.
  apply preserves_mzoom with (fun _ => True); [done|by intros [st x] ? ?|by intros ? ? ? ? ?].
Qed.

Lemma require_secure_boot_keeps :
  preserves (fun d : daemon W => auth_wf (sv_auth (d_server d))) (require_secure_boot interrupts).
Proof using Type.
  unfold require_secure_boot. pose proof (daemon_notify_keeps auth_wf).
  assert (Hst : forall A (m : M storage A), keeps m ->
            preserves (fun d : daemon W => auth_wf (sv_auth (d_server d))) (on_store m)).
  { intros A m Hm d a d' Hd [_ ->]%on_store_run; done. }
  assert (preserves (fun d : daemon W => auth_wf (sv_auth (d_server d))) secure_boot_on).
  { unfold secure_boot_on. apply preserves_bind; [|intros [st var]; preserve].
    apply Hst. unfold storage_get_var_ptr. pose proof keeps_find. keeps. }
  assert (preserves (fun d : daemon W => auth_wf (sv_auth (d_server d))) sb_certs_exist).
  { unfold sb_certs_exist, exists_var. pose proof keeps_find.
    assert (forall n s g, preserves (fun d : daemon W => auth_wf (sv_auth (d_server d)))
              (on_store (storage_exists n s g))) by (intros; apply Hst; unfold storage_exists; keeps).
    preserve. }
  preserve.
Qed.

Lemma start_keeps argc args :
  triple starting (start interrupts argc args) (fun _ d => auth_wf (sv_auth (d_server d))).
Proof using Hsaved.
  assert (Hdie : triple starting (ret (Some 1))
            (fun (_ : option Z) (d : daemon W) => auth_wf (sv_auth (d_server d)))).
  { by intros d r d' [] [= _ <-]. }
  unfold start. destruct (argc =? 1); [done|].
  eapply triple_bind; [apply install_sighandlers_starting|]. intros ?.
  eapply triple_bind; [apply parse_options_starting|]. intros [code|].
  { by intros d r d' [] [= _ <-]. }
  eapply triple_bind; [apply open_xen_starting|]. intros []; cbn [negb]; [|exact Hdie].
  eapply triple_bind; [apply open_ioreq_server_starting|]. intros []; cbn [negb]; [|exact Hdie].
  eapply triple_bind; [apply open_ports_starting|]. intros []; cbn [negb]; [|exact Hdie].
  eapply triple_bind; [apply read_flags_starting|]. intros []; cbn [negb]; [|exact Hdie].
  eapply triple_bind; [apply load_state_starting|]. intros []; cbn [negb]; [|exact Hdie].
  intros d r d' [Hd _] Hrun.
  revert Hrun. apply (preserves_bind _ _ _ require_secure_boot_keeps); [|exact Hd].
  pose proof (daemon_set_keeps interrupts auth_wf wf_variables_only).
  pose proof (write_pid_keeps (W := W) auth_wf). intros []; preserve.
Qed.

(** C37: Every state of the daemon is well formed.  Whatever the command line,
    the log level, the hypervisor, the key files, the toolstack and the guest do, from the
    initial state of the process through the start-up and any number of
    iterations of the event loop, or to its exit, the store is a well-formed
    array with correct counters and the platform mode one of the two, provided
    that the saved state holds no nameless variable. *)
Theorem daemon_well_formed (argc : Z) (args : list option_arg) (n : nat)
    (level : loglevel_t) (w : W) (d : daemon W) (r : option Z) :
  GuestPages (W := W) ->
  main interrupts argc args n (initial_daemon level w) = Ok (r, d) ->
  auth_wf (sv_auth (d_server d)).
Proof using Hsaved.
  intros HG (r1 & d1 & H1 & H2)%bind_inv.
  assert (Hd1 : auth_wf (sv_auth (d_server d1))).
  { refine (start_keeps argc args (initial_daemon level w) _ _ _ H1). split; [|apply initial_files_ok].
    constructor; [apply storage_init_inv|by right]. }
  destruct r1 as [code|]; [by injection H2 as _ <-|].
  by apply (handler_loop_keeps interrupts n HG _ _ _ Hd1) in H2.
Qed.

End main.

(** ** At the sample machine *)
Lemma machine_pages : GuestPages (W := machine).
Proof.
  intros dom gfns w page w1. cbn [xenforeignmemory_map machine_xen].
  destruct (_ =? _) eqn:E; [|discriminate]. intros [= <- _]. by apply Z.eqb_eq.
Qed.

(** No answer is a success when no XML can be read. *)
Lemma never_success body b : success body = Ok b -> b = false.
Proof.
  unfold success. destruct body as [x|]; [|by intros [= <-]].
  intros (len & _ & H)%obind_inv. apply obind_inv in H as (text & _ & [= <-]). done.
Qed.

Lemma no_vm session : yields (xapi_vm_get_by_uuid (E := machine) 0 session) (fun r => r < 0).
Proof.
  unfold xapi_vm_get_by_uuid. destruct session as [s|]; [|apply yields_ret; lia].
  eapply yields_bind; [apply yields_any|]. intros x _.
  eapply yields_bind; [apply yields_any|]. intros [status response] _.
  destruct (negb _); [apply yields_ret; lia|].
  eapply yields_bind; [apply (yields_mlift _ (fun b => b = false))|].
  - intros b (body & _ & H)%obind_inv. by apply never_success in H.
  - intros b ->. apply yields_ret. lia.
Qed.

Lemma machine_saved resume : saved_state_named (E := machine) 0 resume.
Proof.
  intros x r vs x' Hrun. assert (Hr : r <= 0); cycle 1.
  { replace (Z.to_nat r) with O by lia. constructor. }
  destruct resume.
  - revert Hrun. unfold xapi_variables_read_file. destruct (resume_path x) as [f|]; [|by intros [= <- _ _]].
    intros (p & x1 & [_ ->]%mlift_inv & H)%bind_inv. by injection H as <- _ _.
  - cut (yields (xapi_variables_request (E := machine) 0 (replicate 128 zero_var) MAX_VAR_COUNT)
           (fun p => fst p <= 0)); [intros Hy; exact (Hy _ _ _ I Hrun)|]. clear.
    unfold xapi_variables_request. eapply yields_bind; [apply yields_any|]. intros [r sid] _.
    destruct (r <? 0); [by apply yields_ret|].
    eapply yields_bind; [apply no_vm|]. intros r2 Hr2. cbv beta in Hr2.
    rewrite (proj2 (Z.ltb_lt r2 0)) by done. by apply yields_ret.
Qed.

Lemma daemon_well_formed_witness :
  exists r d, main 0 5 machine_args 1 (initial_daemon LOGLEVEL_INFO machine_0) = Ok (r, d) /\
    auth_wf (sv_auth (d_server d)).
Proof.
  destruct (main 0 5 machine_args 1 (initial_daemon LOGLEVEL_INFO machine_0)) as [[r d]|] eqn:E;
    [|vm_compute in E; discriminate].
  exists r, d. split; [reflexivity|].
  exact (daemon_well_formed 0 machine_saved 5 machine_args 1 LOGLEVEL_INFO machine_0 d r machine_pages E).
Defined.
