(* ===== verification/Enrolment.v ===== *)
(** * The keys at start-up

    What [auth_lib_load] reads of the key files, and the mode in which
    [auth_lib_initialize] leaves the platform. *)
From S2P Require Import Prelude EfiTypes Common UefiVariable Storage StorageInv StorageSpec.
From S2P Require Import StorageTrace Crypto SigList Auth AuthLib AuthSpec AuthSecurity.
From S2P Require Import AuthSamples PlatformMode Daemon DaemonSamples.

(** ** Calls on other variables *)
Lemma spec_set_other k data attrs m st m' k' :
  spec_set k data attrs m = (st, m') -> k' <> k -> m' !! k' = m !! k'.
Proof.
  intros Hspec Hk. revert Hspec. unfold spec_set, spec_remove.
  repeat case_match; intros [= _ <-]; by simplify_map_eq.
Qed.

Lemma spec_set_with_timestamp_other k data attrs t m st m' k' :
  spec_set_with_timestamp k data attrs t m = (st, m') -> k' <> k -> m' !! k' = m !! k'.
Proof.
  unfold spec_set_with_timestamp. destruct (spec_set _ _ _ _) as [st1 m1] eqn:E. intros H Hk.
  rewrite <-(spec_set_other _ _ _ _ _ _ _ E Hk). revert H.
  repeat case_match; intros [= _ <-]; by simplify_map_eq.
Qed.

Section enrolment.
Context `{HA : Allocator} `{HO : OpenSSL}.

Definition same_others (k : key) (s s' : storage) : Prop :=
  storage_inv s' /\ forall k', k' <> k -> abs (variables s') !! k' = abs (variables s) !! k'.

(** A time-stamped update, of whatever size, is about its variable. *)
Lemma stamped_set_others s n sz g src dsz attrs t st s' :
  grants MAX_VARIABLE_DATA_SIZE -> storage_inv s -> canonical_name n sz -> zlen g = 16 ->
  0 <= dsz -> (dsz <= MAX_VARIABLE_DATA_SIZE -> dsz <= zlen src) -> 0 <= attrs < 0x100000000 ->
  time_ok t ->
  storage_set_with_timestamp (Some n) sz (Some g) (Some src) dsz attrs (Some t) s = Ok (st, s') ->
  same_others (arg_key n sz g) s s'.
Proof.
  intros G Hs Hn Hg Hd Hsrc Ha Ht Hrun.
  destruct (Z.leb_spec dsz MAX_VARIABLE_DATA_SIZE) as [Hle|Hgt].
  - destruct (storage_set_with_timestamp_refines s n sz g src dsz attrs t)
      as (st1 & s1 & H1 & Hi & Hspec & _); [done..|by apply Hsrc|done|done|].
    rewrite H1 in Hrun. injection Hrun as _ <-. split; [done|]. intros k' Hk.
    by eapply spec_set_with_timestamp_other.
  - assert (Hset : storage_set (Some n) sz (Some g) (Some src) dsz attrs s
                     = Ok (EFI_OUT_OF_RESOURCES, s)).
    { unfold storage_set, bind, storage_used, mgets, mget.
      by rewrite (Z.gtb_ltb dsz), (proj2 (Z.ltb_lt _ dsz)), orb_true_r by lia. }
    unfold storage_set_with_timestamp in Hrun. rewrite (bind_runs _ _ _ _ _ Hset) in Hrun.
    destruct (is_delete _ _); [by injection Hrun as _ <-|].
    destruct (stamp_refines s n sz g t) as (st1 & s1 & H1 & Hi & Hspec & _); [done..|].
    rewrite H1 in Hrun. injection Hrun as _ <-. split; [done|]. intros k' Hk. revert Hspec.
    destruct (abs (variables s) !! arg_key n sz g); intros [= _ ->]; by simplify_map_eq.
Qed.

(** An update that is not verified, of a variable whose appends are not filtered. *)
Lemma update_unverified_others s n sz g attrs st del s' :
  grants MAX_VARIABLE_DATA_SIZE -> storage_inv (au_store s) -> canonical_name n sz ->
  zlen g = 16 -> 0 <= attrs < 0x100000000 -> unfiltered n sz g attrs ->
  zlen (au_data s) <= MAX_VARIABLE_DATA_SIZE ->
  update_unverified n sz g (zlen (au_data s)) attrs s = Ok ((st, del), s') ->
  s' = set_store (au_store s') s /\ same_others (arg_key n sz g) (au_store s) (au_store s').
Proof.
  intros G Hs Hn Hg Ha Huf Hlen. unfold update_unverified.
  intros (off & s1 & H1 & Hrun)%bind_inv. apply with_data_object_inv in H1 as [Hoff ->].
  apply obind_inv in Hoff as (dw & Hdw & [= <-]).
  pose proof (read_le_range _ _ _ _ Hdw) as Hr. change (256 ^ Z.of_nat 4) with 0x100000000 in Hr.
  rewrite (u64_id (_ + dw)) in * by (unfold OFFSET_OF_AUTHINFO2; lia).
  set (off := OFFSET_OF_AUTHINFO2 + dw) in *. set (size := u64 _) in Hrun.
  assert (Hok : s = set_store (au_store s) s /\ same_others (arg_key n sz g) (au_store s) (au_store s))
    by (split; [by destruct s|by split]).
  apply bind_inv in Hrun as (st1 & s1 & H1 & Hrun). apply with_data_object_inv in H1 as [_ ->].
  destruct (negb _); [by injection Hrun as _ _ <-|].
  apply bind_inv in Hrun as (st2 & s2 & H2 & [= _ _ <-]).
  destruct (cn_arg _ _ Hn) as [Hsz Ho _].
  rewrite update_with_timestamp_plain in H2 by (apply Hs || done || lia).
  apply bind_inv in H2 as (t & s1 & [Ht ->]%mlift_inv & H2).
  unfold Auth.on_store, mzoom in H2.
  destruct (storage_set_with_timestamp _ _ _ _ _ _ _ _) as [[st3 s3]|] eqn:E; [|done].
  injection H2 as _ <-. split; [done|]. cbn [au_store set_store].
  refine (stamped_set_others _ _ _ _ _ _ _ _ _ _ G Hs Hn Hg _ _ Ha _ E);
    [apply u64_range| |by eapply read_time_ok].
  assert (Ho16 : 0 <= off < 0x200000000) by (unfold off, OFFSET_OF_AUTHINFO2; lia).
  unfold size, u64. pose proof (zlen_nonneg (au_data s)). clearbody off. intros Hle.
  destruct (Z.leb_spec off (zlen (au_data s))) as [Hin|Hout].
  - rewrite Z.mod_small by clia. rewrite zlen_drop by lia. lia.
  - exfalso. revert Hle. rewrite <-(Z.mod_add _ 1) by lia. rewrite Z.mod_small; clia.
Qed.

(** *** The other keys, in setup mode *)

(** A step about the variable [k] that keeps the globals. *)
Definition about (k : key) (s s' : auth_state) : Prop :=
  s' = set_store (au_store s') s /\ same_others k (au_store s) (au_store s').

Lemma about_refl k s : storage_inv (au_store s) -> about k s s.
Proof. intros Hs. split; [by destruct s|by split]. Qed.

Lemma about_trans k s1 s2 s3 : about k s1 s2 -> about k s2 s3 -> about k s1 s3.
Proof.
  intros [E1 [_ H1]] [E2 [H2 H3]]. split; [by rewrite E2, E1|]. split; [done|].
  intros k' Hk. by rewrite H3, H1.
Qed.

Section key.
Context (n : bytes) (sz : Z) (g : EFI_GUID) (attrs : Z) (G : grants MAX_VARIABLE_DATA_SIZE)
  (Hn : canonical_name n sz) (Hg : zlen g = 16) (Ha : 0 <= attrs < 0x100000000)
  (Huf : unfiltered n sz g attrs).

Lemma setup_with_pk s st s' :
  storage_inv (au_store s) -> setup_mode s = SETUP_MODE ->
  zlen (au_data s) <= MAX_VARIABLE_DATA_SIZE ->
  process_var_with_pk n sz g (zlen (au_data s)) attrs false s = Ok (st, s') ->
  about (arg_key n sz g) s s'.
Proof using G Hn Hg Ha Huf.
  intros Hs Hm Hd. unfold process_var_with_pk.
  destruct (key_attrs_missing attrs); [intros [= _ <-]; by apply about_refl|].
  unfold bind at 1, mget. cbv zeta. rewrite Hm. cbn [Z.eqb SETUP_MODE].
  intros ([st1 del] & s1 & H1 & H2)%bind_inv. rewrite andb_false_r in H2. injection H2 as _ <-.
  by eapply update_unverified_others.
Qed.

Lemma setup_with_kek s st s' :
  storage_inv (au_store s) -> setup_mode s = SETUP_MODE ->
  zlen (au_data s) <= MAX_VARIABLE_DATA_SIZE ->
  process_var_with_kek n sz g (zlen (au_data s)) attrs s = Ok (st, s') ->
  about (arg_key n sz g) s s'.
Proof using G Hn Hg Ha Huf.
  intros Hs Hm Hd. unfold process_var_with_kek.
  destruct (key_attrs_missing attrs); [intros [= _ <-]; by apply about_refl|].
  unfold bind at 1, mget. cbv zeta. rewrite Hm. cbn [Z.eqb SETUP_MODE USER_MODE].
  intros ([st1 del] & s1 & H1 & [= _ <-])%bind_inv.
  by eapply update_unverified_others.
Qed.

End key.

(** The name of a key file, in its structure. *)
Definition file_name (name : bytes) : bytes := name ++ drop (length name) zero_name.

Lemma KEK_dispatch data_size attrs :
  auth_lib_process_variable (file_name EFI_KEY_EXCHANGE_KEY_NAME) 6 gEfiGlobalVariableGuid
    data_size attrs
  = process_var_with_pk (file_name EFI_KEY_EXCHANGE_KEY_NAME) 6 gEfiGlobalVariableGuid
      data_size attrs false.
Proof. reflexivity. Qed.

Lemma PK_dispatch data_size attrs :
  auth_lib_process_variable (file_name EFI_PLATFORM_KEY_NAME) 4 gEfiGlobalVariableGuid
    data_size attrs
  = process_var_with_pk (file_name EFI_PLATFORM_KEY_NAME) 4 gEfiGlobalVariableGuid
      data_size attrs true.
Proof. reflexivity. Qed.

Lemma db_dispatch name sz data_size attrs :
  (name, sz) ∈ [(EFI_IMAGE_SECURITY_DATABASE, 4); (EFI_IMAGE_SECURITY_DATABASE1, 6)] ->
  auth_lib_process_variable (file_name name) sz gEfiImageSecurityDatabaseGuid data_size attrs
  = (status <- process_var_with_pk (file_name name) sz gEfiImageSecurityDatabaseGuid
                 data_size attrs false ;;
     if negb (status =? EFI_SUCCESS)
     then process_var_with_kek (file_name name) sz gEfiImageSecurityDatabaseGuid data_size attrs
     else ret status).
Proof.
  rewrite !elem_of_cons, elem_of_nil. intros [[= -> ->]|[[= -> ->]|[]]]; reflexivity.
Qed.

(** ** The key files *)

(** [a] is the file [a0] with the data that were read, if any. *)
Definition loaded (a0 a : auth_data) : Prop :=
  exists d m, var a = with_data d m (var a0) /\
    match d with Some b => zlen b = m /\ m <= MAX_VARIABLE_DATA_SIZE | None => True end.

Lemma exists_stored s n sz g :
  storage_inv (au_store s) -> 1 <= sz -> sz <= zlen n -> zlen g = 16 ->
  Auth.on_store (storage_exists (Some n) sz (Some g)) s
  = Ok (bool_decide (is_Some (stored s n sz g)), s).
Proof.
  intros Hs Hsz Ho Hg. unfold Auth.on_store, mzoom, storage_exists, storage_find_variable.
  rewrite bind_assoc, (bind_runs _ _ _ (au_store s) (au_store s)) by done.
  rewrite (bind_runs _ _ _ _ (au_store s))
    by (apply mlift_runs, find_variable_pos; [apply Hs|done..]).
  unfold stored. rewrite abs_lookup. unfold ret.
  replace (set_store (au_store s) s) with s by by destruct s. do 2 f_equal.
  by destruct (slot_of _ _) as [[i v]|].
Qed.

(** One file: skipped, or handed to [auth_lib_process_variable]. *)
Lemma load_file s a0 a l s' :
  storage_inv (au_store s) -> canonical_name (var_name (var a0)) (var_namesz (var a0)) ->
  zlen (var_guid (var a0)) = 16 -> loaded a0 a ->
  load_auth_files (a :: l) s = Ok (EFI_SUCCESS, s') ->
  load_auth_files l s = Ok (EFI_SUCCESS, s') \/
  exists data s1, zlen data <= MAX_VARIABLE_DATA_SIZE /\
    stored s (var_name (var a0)) (var_namesz (var a0)) (var_guid (var a0)) = None /\
    auth_lib_process_variable (var_name (var a0)) (var_namesz (var a0)) (var_guid (var a0))
      (zlen data) (var_attrs (var a0)) (set_data data s) = Ok (EFI_SUCCESS, s1) /\
    load_auth_files l s1 = Ok (EFI_SUCCESS, s').
Proof.
  intros Hs Hn Hg (d & m & Hv & Hd). destruct (cn_arg _ _ Hn) as [Hsz Ho _].
  cbn [load_auth_files]. cbv zeta. rewrite Hv.
  cbn [var_name var_namesz var_guid var_data var_datasz var_attrs with_data].
  assert (H1 : 1 <= var_namesz (var a0)) by lia.
  rewrite (bind_runs _ _ _ _ _ (exists_stored s _ _ _ Hs H1 Ho Hg)).
  case_bool_decide as Hx; [by left|]. apply eq_None_not_Some in Hx.
  destruct d as [b|]; [|by left]. destruct Hd as [<- Hd]. destruct (_ =? 0); [by left|].
  rewrite (bind_runs _ _ _ tt (set_data b s)) by done.
  intros (st & s1 & Hp & H2)%bind_inv. destruct (negb _) eqn:E; [by injection H2 as -> _|].
  apply negb_false_iff, Z.eqb_eq in E as ->. right. by exists b, s1.
Qed.

(** The platform before the PK is enrolled. *)
Record in_setup (pk : option value) (s : auth_state) : Prop := {
  is_store : storage_inv (au_store s);
  is_mode : setup_mode s = SETUP_MODE;
  is_PK : stored_PK s = pk
}.

Definition PK_key : key := arg_key EFI_PLATFORM_KEY_NAME 4 gEfiGlobalVariableGuid.

Lemma about_in_setup k pk data s s' :
  k <> PK_key -> in_setup pk s -> about k (set_data data s) s' -> in_setup pk s'.
Proof.
  intros Hk [Hs Hm Hp] [E [Hi Ho]]. constructor; [done|by rewrite E|].
  rewrite <-Hp. unfold stored_PK, stored. by rewrite Ho.
Qed.

Lemma key_name_ok name sz guid :
  (name, sz, guid) ∈ [(EFI_IMAGE_SECURITY_DATABASE, 4, gEfiImageSecurityDatabaseGuid);
    (EFI_IMAGE_SECURITY_DATABASE1, 6, gEfiImageSecurityDatabaseGuid);
    (EFI_KEY_EXCHANGE_KEY_NAME, 6, gEfiGlobalVariableGuid);
    (EFI_PLATFORM_KEY_NAME, 4, gEfiGlobalVariableGuid)] ->
  canonical_name (file_name name) sz /\ zlen guid = 16 /\
  (guid = gEfiImageSecurityDatabaseGuid \/ sz = 6 -> arg_key (file_name name) sz guid <> PK_key).
Proof.
  rewrite !elem_of_cons, elem_of_nil.
  intros [[= -> -> ->]|[[= -> -> ->]|[[= -> -> ->]|[[= -> -> ->]|[]]]]];
    (split; [constructor; [constructor|]; vm_compute; by split || discriminate|split; [done|]]).
  - intros _ He. apply (f_equal snd) in He. by vm_compute in He.
  - intros _ He. apply (f_equal snd) in He. by vm_compute in He.
  - intros _ He. apply (f_equal fst) in He. by vm_compute in He.
  - intros [He|He]; by vm_compute in He.
Qed.

Lemma AT_ATTRS_range : 0 <= AT_ATTRS < 0x100000000.
Proof. by vm_compute. Qed.

Lemma db_setup pk s name sz data st s1 :
  grants MAX_VARIABLE_DATA_SIZE ->
  (name, sz) ∈ [(EFI_IMAGE_SECURITY_DATABASE, 4); (EFI_IMAGE_SECURITY_DATABASE1, 6)] ->
  in_setup pk s -> zlen data <= MAX_VARIABLE_DATA_SIZE ->
  auth_lib_process_variable (file_name name) sz gEfiImageSecurityDatabaseGuid (zlen data)
    AT_ATTRS (set_data data s) = Ok (st, s1) ->
  in_setup pk s1.
Proof.
  intros G Hin Hs Hd. destruct (key_name_ok name sz gEfiImageSecurityDatabaseGuid) as (Hn & Hg & Hk).
  { revert Hin. rewrite !elem_of_cons, elem_of_nil. intros [[= -> ->]|[[= -> ->]|[]]]; auto. }
  rewrite db_dispatch by done. intros (st1 & s2 & H1 & H2)%bind_inv.
  assert (Hu : unfiltered (file_name name) sz gEfiImageSecurityDatabaseGuid AT_ATTRS) by by left.
  pose proof Hs as [Hi Hm _]. specialize (Hk (or_introl eq_refl)).
  assert (Hab : about (arg_key (file_name name) sz gEfiImageSecurityDatabaseGuid)
                  (set_data data s) s2).
  { by apply (setup_with_pk _ _ _ AT_ATTRS G Hn Hg AT_ATTRS_range Hu (set_data data s) st1). }
  pose proof (about_in_setup _ _ _ _ _ Hk Hs Hab) as Hs2.
  destruct (negb _); [|by injection H2 as _ <-].
  assert (Hd2 : au_data s2 = data) by by destruct Hab as [-> _].
  pose proof Hs2 as [Hi2 Hm2 _]. rewrite <-Hd2 in Hd, H2.
  apply (about_in_setup _ pk (au_data s2) s2 s1 Hk Hs2).
  replace (set_data (au_data s2) s2) with s2 by by destruct s2.
  by apply (setup_with_kek _ _ _ AT_ATTRS G Hn Hg AT_ATTRS_range Hu s2 st).
Qed.

Lemma KEK_setup pk s data st s1 :
  grants MAX_VARIABLE_DATA_SIZE -> in_setup pk s -> zlen data <= MAX_VARIABLE_DATA_SIZE ->
  auth_lib_process_variable (file_name EFI_KEY_EXCHANGE_KEY_NAME) 6 gEfiGlobalVariableGuid
    (zlen data) AT_ATTRS (set_data data s) = Ok (st, s1) ->
  in_setup pk s1.
Proof.
  intros G Hs Hd.
  destruct (key_name_ok EFI_KEY_EXCHANGE_KEY_NAME 6 gEfiGlobalVariableGuid) as (Hn & Hg & Hk);
    [rewrite !elem_of_cons; auto|].
  rewrite KEK_dispatch. intros Hr. pose proof Hs as [Hi Hm _].
  apply (about_in_setup _ pk data s s1 (Hk (or_intror eq_refl)) Hs).
  by apply (setup_with_pk _ _ _ AT_ATTRS G Hn Hg AT_ATTRS_range (or_introl eq_refl)
              (set_data data s) st).
Qed.

(** ** [auth_lib_initialize] *)
Definition db_files : list auth_data := take 3 initial_auth_files.

Lemma load_defined_file pk s fname name guid a l s' :
  canonical_name (file_name name) (sizeof_wchar name) -> zlen guid = 16 ->
  in_setup pk s -> loaded (DEFINE_AUTH_FILE fname name guid AT_ATTRS) a ->
  (forall data st s1, zlen data <= MAX_VARIABLE_DATA_SIZE ->
     auth_lib_process_variable (file_name name) (sizeof_wchar name) guid (zlen data) AT_ATTRS
       (set_data data s) = Ok (st, s1) -> in_setup pk s1) ->
  load_auth_files (a :: l) s = Ok (EFI_SUCCESS, s') ->
  exists s1, in_setup pk s1 /\ load_auth_files l s1 = Ok (EFI_SUCCESS, s').
Proof.
  intros Hn Hg Hs Ha Hp Hr. pose proof (is_store _ _ Hs) as Hi.
  destruct (load_file s (DEFINE_AUTH_FILE fname name guid AT_ATTRS) a l s' Hi Hn Hg Ha Hr)
    as [Hr'|(data & s1 & Hd & _ & H1 & Hr')]; [by exists s|].
  exists s1. split; [by eapply Hp|done].
Qed.

Lemma load_other_file pk s a0 a l s' :
  grants MAX_VARIABLE_DATA_SIZE -> a0 ∈ db_files -> in_setup pk s -> loaded a0 a ->
  load_auth_files (a :: l) s = Ok (EFI_SUCCESS, s') ->
  exists s1, in_setup pk s1 /\ load_auth_files l s1 = Ok (EFI_SUCCESS, s').
Proof.
  intros G Ha0 Hs Ha Hr.
  unfold db_files, initial_auth_files in Ha0. cbn [take] in Ha0.
  rewrite !elem_of_cons, elem_of_nil in Ha0.
  assert (Hk : Forall (fun name => canonical_name (file_name name) (sizeof_wchar name))
            [EFI_IMAGE_SECURITY_DATABASE; EFI_IMAGE_SECURITY_DATABASE1; EFI_KEY_EXCHANGE_KEY_NAME])
    by (repeat (constructor; [eapply key_name_ok; rewrite !elem_of_cons; by eauto|]); by constructor).
  rewrite !Forall_cons in Hk. destruct Hk as (Hdb & Hdbx & Hkek & _).
  destruct Ha0 as [->|[->|[->|[]]]];
    (eapply load_defined_file; [| |exact Hs|exact Ha| |exact Hr]; [assumption|done|]); intros data st s1 Hd.
  - apply (db_setup pk s EFI_IMAGE_SECURITY_DATABASE 4); [done|rewrite !elem_of_cons; auto|done..].
  - apply (db_setup pk s EFI_IMAGE_SECURITY_DATABASE1 6); [done|rewrite !elem_of_cons; auto|done..].
  - by apply (KEK_setup pk s).
Qed.

Lemma load_other_files pk files0 files l s s' :
  grants MAX_VARIABLE_DATA_SIZE -> files0 ⊆ db_files -> Forall2 loaded files0 files ->
  in_setup pk s -> load_auth_files (files ++ l) s = Ok (EFI_SUCCESS, s') ->
  exists s1, in_setup pk s1 /\ load_auth_files l s1 = Ok (EFI_SUCCESS, s').
Proof.
  intros G Hsub Hall. revert s. induction Hall as [|a0 a files0 files Ha Hall IH]; intros s Hs Hr.
  { by exists s. }
  cbn [app] in Hr. apply (load_other_file pk s a0) in Hr as (s1 & Hs1 & Hr); [|done|set_solver|done..].
  apply (IH ltac:(set_solver) s1 Hs1 Hr).
Qed.

(** The file of the PK comes last. *)
Lemma load_PK_file fname pk s a s' :
  grants MAX_VARIABLE_DATA_SIZE -> in_setup pk s ->
  loaded (DEFINE_AUTH_FILE fname EFI_PLATFORM_KEY_NAME gEfiGlobalVariableGuid AT_ATTRS) a ->
  load_auth_files [a] s = Ok (EFI_SUCCESS, s') ->
  storage_inv (au_store s') /\ (stored_PK s' = None -> setup_mode s' = SETUP_MODE).
Proof.
  intros G Hs Ha Hr. pose proof Hs as [Hi Hm Hp].
  assert (Hn : canonical_name (file_name EFI_PLATFORM_KEY_NAME) 4).
  { apply (key_name_ok EFI_PLATFORM_KEY_NAME 4 gEfiGlobalVariableGuid).
    rewrite !elem_of_cons. auto. }
  destruct (load_file s (DEFINE_AUTH_FILE fname EFI_PLATFORM_KEY_NAME gEfiGlobalVariableGuid AT_ATTRS)
              a [] s' Hi Hn eq_refl Ha Hr) as [Hr'|(data & s1 & Hd & Hnone & Hp1 & Hend)].
  { injection Hr' as <-. by split. }
  clear Hr. rename Hp1 into Hr. injection Hend as <-.
  change (auth_lib_process_variable (file_name EFI_PLATFORM_KEY_NAME) 4 gEfiGlobalVariableGuid
    (zlen data) AT_ATTRS (set_data data s) = Ok (EFI_SUCCESS, s1)) in Hr.
  rewrite PK_dispatch in Hr. apply (pk_update_mode (set_data data s)) in Hr as [Hmm Hinv];
    [|done|done|right; split; [done|exact Hnone]|split; [done|reflexivity]|exact AT_ATTRS_range|done].
  split; [done|]. intros Hnone'. destruct Hmm as [[_ Hx]|[Hx _]]; [|done].
  rewrite Hnone' in Hx. by destruct Hx.
Qed.

Lemma set_global_variable s name value size st s' :
  grants MAX_VARIABLE_DATA_SIZE -> storage_inv (au_store s) ->
  canonical_name name (sizeof_wchar name) -> 0 <= size <= MAX_VARIABLE_DATA_SIZE ->
  size <= zlen value ->
  global_key name <> PK_key ->
  Auth.on_store (storage_set (Some name) (sizeof_wchar name) (Some gEfiGlobalVariableGuid)
    (Some value) size RT_BS_ATTRS) s = Ok (st, s') ->
  storage_inv (au_store s') /\ setup_mode s' = setup_mode s /\ stored_PK s' = stored_PK s.
Proof.
  intros G Hs Hn Hsz Hv Hk. unfold Auth.on_store, mzoom.
  destruct (storage_set_refines (au_store s) name (sizeof_wchar name) gEfiGlobalVariableGuid
              value size RT_BS_ATTRS) as (st1 & s1 & -> & Hinv & Hspec & _);
    [done|done|done|done|done|done|by vm_compute|].
  intros [= _ <-]. split_and!; [done|done|]. symmetry in Hspec. unfold stored_PK, stored.
  eapply spec_set_other; [exact Hspec|]. intros E. by apply Hk.
Qed.

Lemma global_names_ok :
  Forall (fun name => canonical_name name (sizeof_wchar name) /\ global_key name <> PK_key)
    [EFI_SIGNATURE_SUPPORT_NAME; AUDIT_MODE_NAME].
Proof.
  repeat constructor; try (vm_compute; by split || discriminate);
    intros He; apply (f_equal fst) in He; by vm_compute in He.
Qed.

Context `{HF : FileSystem}.

Lemma load_auth_loaded a0 r a :
  var_data (var a0) = None -> load_auth a0 = Ok (r, a) -> loaded a0 a.
Proof.
  intros Hnone. unfold load_auth.
  assert (Hsame : loaded a0 a0).
  { exists None, (var_datasz (var a0)). split; [|done]. destruct (var a0). cbn in *. by subst. }
  destruct (fs_stat _) as [st size]. destruct (st <? 0); [by intros [= _ <-]|].
  destruct (_ <? 0); [by intros [= _ <-]|]. cbv zeta.
  intros (u & Hm & Hrun)%obind_inv. unfold oassert in Hm.
  destruct (u64 size <? _) eqn:E; [|done]. apply Z.ltb_lt in E. revert Hrun.
  destruct (malloc _) as [block|] eqn:Em; [|intros [= _ <-]; by exists None, (u64 size)].
  apply malloc_size in Em; [|apply u64_range].
  destruct (fs_read _ _) as [n content]. destruct (n <? 0).
  { intros [= _ <-]. exists (Some block), (u64 size). split; [done|]. lia. }
  intros (b & Hb & [= _ <-])%obind_inv. apply write_bytes_length in Hb.
  exists (Some b), (u64 size). split; [done|]. lia.
Qed.

Lemma auth_lib_load_loaded skip l l' :
  Forall (fun a => var_data (var a) = None) l -> auth_lib_load_loop skip l = Ok l' ->
  Forall2 loaded l l'.
Proof.
  intros Hl. revert skip l'. induction Hl as [|a l Ha Hl IH]; intros skip l'; [by intros [= <-]|].
  cbn [auth_lib_load_loop]. intros (sk & _ & Hrun)%obind_inv. destruct sk.
  { apply obind_inv in Hrun as (rest & Hr & [= <-]). constructor; [|by eapply IH].
    exists None, (var_datasz (var a)). split; [|done]. destruct (var a). cbn in *. by subst. }
  apply obind_inv in Hrun as ([r a'] & Ha' & Hrun). apply obind_inv in Hrun as (k & _ & Hrun).
  apply obind_inv in Hrun as (rest & Hr & [= <-]).
  constructor; [by eapply load_auth_loaded|by eapply IH].
Qed.

(** The files after the load: the first three, and the PK's. *)
Lemma initial_files_loaded files :
  auth_lib_load (Some initial_auth_files) = Ok (Some files) ->
  exists others a fname, files = others ++ [a] /\ Forall2 loaded db_files others /\
    loaded (DEFINE_AUTH_FILE fname EFI_PLATFORM_KEY_NAME gEfiGlobalVariableGuid AT_ATTRS) a.
Proof.
  intros (l & Hl & [= <-])%obind_inv.
  apply auth_lib_load_loaded in Hl; [|by repeat constructor].
  change initial_auth_files with (db_files ++ drop 3 initial_auth_files) in Hl.
  apply Forall2_app_inv_l in Hl as (others & last & Ho & Hlast & ->).
  apply Forall2_cons_inv_l in Hlast as (a & rest & Ha & Hrest & ->).
  apply Forall2_nil_inv_l in Hrest as ->. eexists others, a, _. split_and!; [done..|exact Ha].
Qed.

Lemma only_success (k : M auth_state EFI_STATUS) st s s' :
  (if negb (st =? EFI_SUCCESS) then ret st else k) s = Ok (EFI_SUCCESS, s') ->
  st = EFI_SUCCESS /\ k s = Ok (EFI_SUCCESS, s').
Proof.
  destruct (st =? EFI_SUCCESS) eqn:E; [by apply Z.eqb_eq in E|]. intros [= -> _]. done.
Qed.

(** C40: The mode matches the PK when the daemon starts.  From any store, the
    one restored from the saved state, and whatever the key files hold, when the
    initialization succeeds the platform is in user mode exactly when a PK is
    enrolled, be it restored or read from its file. *)
Theorem initial_mode_matches_PK (s s' : auth_state) (files : list auth_data) :
  grants MAX_VARIABLE_DATA_SIZE -> storage_inv (au_store s) ->
  auth_lib_load (Some initial_auth_files) = Ok (Some files) ->
  auth_lib_initialize files s = Ok (EFI_SUCCESS, s') ->
  mode_matches_PK s' /\ storage_inv (au_store s').
Proof.
  intros G Hs (others & pkf & fname & -> & Hothers & Hpkf)%initial_files_loaded.
  pose proof global_names_ok as Hg. rewrite !Forall_cons in Hg.
  destruct Hg as ([Hsn Hsk] & [Han Hak] & _). unfold auth_lib_initialize. cbv zeta.
  intros (st & s1 & H1 & Hr)%bind_inv.
  apply only_success in Hr as [-> Hr].
  apply set_global_variable in H1 as (Hs1 & _ & _); [|done|done|done|clia|by vm_compute|done].
  apply bind_inv in Hr as (st & s2 & H2 & Hr). apply only_success in Hr as [-> Hr].
  apply platform_mode_keeps_PK in H2 as (Hs2 & Hm2 & _); [|done|done|by right].
  apply bind_inv in Hr as (st & s3 & H3 & Hr). apply only_success in Hr as [-> Hr].
  destruct (load_other_files (stored_PK s2) db_files others [pkf] s2 s3) as (s4 & Hs4 & H4);
    [done|done|done|by split|done|].
  destruct (load_PK_file _ _ _ _ _ G Hs4 Hpkf H4) as [Hs3 Hm3].
  rewrite (bind_runs _ _ _ _ _ (exists_stored s3 EFI_PLATFORM_KEY_NAME 4 gEfiGlobalVariableGuid Hs3
             ltac:(lia) ltac:(by vm_compute) eq_refl)) in Hr.
  change (stored s3 _ _ _) with (stored_PK s3) in Hr.
  apply bind_inv in Hr as (st & s5 & H5 & Hr). apply only_success in Hr as [-> Hr].
  apply set_global_variable in Hr as (Hs' & Hm' & Hp'); [|done| |done|clia|by vm_compute|done].
  - split; [|done]. case_bool_decide as Hpk.
    + apply platform_mode_keeps_PK in H5 as (Hs5 & Hm5 & Hp5); [|done|done|by left].
      left. by rewrite Hm', Hp', Hp5.
    + injection H5 as <-. apply eq_None_not_Some in Hpk. right. rewrite Hm', Hp'. by split; [apply Hm3|].
  - case_bool_decide; [|by injection H5 as <-].
    by apply platform_mode_keeps_PK in H5 as (Hs5 & _ & _); [|done|done|left].
Qed.

(** ** [auth_lib_load] *)

(** Files that can be read as a whole, or are not there. *)
Definition files_are (file : bytes -> option bytes) : Prop :=
  forall p, match file p with
            | Some c => zlen c < MAX_VARIABLE_DATA_SIZE /\ 0 <= fst (fs_stat p) /\
                        snd (fs_stat p) = zlen c /\ 0 <= fs_open p /\
                        fs_read p (zlen c) = (zlen c, c)
            | None => fst (fs_stat p) < 0
            end.

Definition with_file (file : bytes -> option bytes) (a : auth_data) : auth_data :=
  match file (path a) with
  | Some c => mk_auth_data (path a) (with_data (Some c) (zlen c) (var a))
  | None => a
  end.

Lemma load_auth_file_ok file a :
  grants MAX_VARIABLE_DATA_SIZE -> files_are file ->
  exists r, load_auth a = Ok (r, with_file file a) /\ (r <? 0) = bool_decide (file (path a) = None).
Proof.
  intros G Hf. specialize (Hf (path a)). unfold load_auth, with_file.
  destruct (fs_stat (path a)) as [st size]. cbn [fst snd] in Hf.
  destruct (file (path a)) as [c|]; cycle 1.
  { exists st. by rewrite (proj2 (Z.ltb_lt st 0)) by done. }
  destruct Hf as (Hc & Hst & -> & Ho & Hread). pose proof (zlen_nonneg c).
  rewrite (proj2 (Z.ltb_ge st 0)), (proj2 (Z.ltb_ge (fs_open _) 0)) by done. cbv zeta.
  rewrite u64_id by clia. unfold oassert. rewrite (proj2 (Z.ltb_lt _ _) Hc). cbn [obind].
  destruct (G (zlen c)) as [block Hb]; [lia|]. rewrite Hb, Hread. apply malloc_size in Hb; [|done].
  rewrite (proj2 (Z.ltb_ge (zlen c) 0)) by done.
  rewrite write_bytes_full by done. exists st. by rewrite (proj2 (Z.ltb_ge st 0)) by done.
Qed.

(** A file that is not the KEK's and not skipped. *)
Lemma load_loop_file file skip a l :
  grants MAX_VARIABLE_DATA_SIZE -> files_are file ->
  (skip = true -> exists c, strcmp16 (Some (var_name (var a))) (Some EFI_PLATFORM_KEY_NAME) = Ok c /\
     c <> 0) ->
  (exists c, strcmp16 (Some (var_name (var a))) (Some EFI_KEY_EXCHANGE_KEY_NAME) = Ok c /\
     ((c =? 0) = true -> file (path a) <> None)) ->
  auth_lib_load_loop skip (a :: l)
  = let* rest := auth_lib_load_loop skip l in Ok (with_file file a :: rest).
Proof.
  intros G Hf Hpk (c & Hc & Hkek). cbn [auth_lib_load_loop].
  assert (Hskip : (if skip then let* c := strcmp16 (Some (var_name (var a)))
                     (Some EFI_PLATFORM_KEY_NAME) in Ok (c =? 0) else Ok false) = Ok false).
  { destruct skip; [|done]. destruct (Hpk eq_refl) as (c0 & -> & Hc0). cbn [obind].
    by rewrite (proj2 (Z.eqb_neq _ _) Hc0). }
  rewrite Hskip. cbn [obind]. destruct (load_auth_file_ok file a G Hf) as (r & -> & Hr).
  cbn [obind]. rewrite Hr. case_bool_decide as Hnone; cbn [obind]; [|by rewrite orb_false_r].
  rewrite Hc. cbn [obind]. destruct (c =? 0) eqn:E; [by destruct (Hkek eq_refl)|]. by rewrite orb_false_r.
Qed.

(** What is read of the key files.  When each of the four files can be read
    or is not there, every structure gets the content of its file, except that
    the PK's file is not read when the KEK's is missing.  A KEK file that is
    there but empty counts as read: then the PK is enrolled without a KEK. *)
Theorem keys_loaded (file : bytes -> option bytes) :
  grants MAX_VARIABLE_DATA_SIZE -> files_are file ->
  exists db dbx kek pk, initial_auth_files = [db; dbx; kek; pk] /\
    var_name (var kek) = file_name EFI_KEY_EXCHANGE_KEY_NAME /\
    var_name (var pk) = file_name EFI_PLATFORM_KEY_NAME /\
    auth_lib_load (Some initial_auth_files)
    = Ok (Some [with_file file db; with_file file dbx; with_file file kek;
                match file (path kek) with Some _ => with_file file pk | None => pk end]).
Proof.
  intros G Hf. do 4 eexists. split_and!; [reflexivity..|].
  unfold auth_lib_load, initial_auth_files.
  rewrite load_loop_file with (file := file) by (done || by eexists).
  rewrite load_loop_file with (file := file) by (done || by eexists).
  destruct (file (path _)) as [c|] eqn:Ekek.
  - rewrite load_loop_file with (file := file); [|done..|by exists 0; rewrite Ekek].
    by rewrite load_loop_file with (file := file) by (done || by eexists).
  - remember (DEFINE_AUTH_FILE _ EFI_PLATFORM_KEY_NAME _ _) as pk eqn:Epk.
    remember (DEFINE_AUTH_FILE _ EFI_KEY_EXCHANGE_KEY_NAME _ _) as kek eqn:Ek.
    cbn [auth_lib_load_loop obind].
    destruct (load_auth_file_ok file kek G Hf) as (r & -> & Hr). cbn [obind]. rewrite Hr, Ekek.
    cbn [bool_decide]. 
    assert (Hkek : strcmp16 (Some (var_name (var kek))) (Some EFI_KEY_EXCHANGE_KEY_NAME) = Ok 0)
      by by subst kek.
    assert (Hpk : strcmp16 (Some (var_name (var pk))) (Some EFI_PLATFORM_KEY_NAME) = Ok 0)
      by by subst pk.
    rewrite bool_decide_eq_true_2 by done. rewrite Hkek. cbn [obind orb Z.eqb]. by rewrite Hpk.
Qed.

End enrolment.

(** ** At the sample machine *)
Definition machine_keys : list auth_data :=
  match auth_lib_load (Some initial_auth_files) with Ok (Some l) => l | _ => [] end.
Definition fresh_auth : auth_state := mk_auth storage_init USER_MODE true true [].

Lemma initial_mode_matches_PK_witness :
  auth_lib_load (Some initial_auth_files) = Ok (Some machine_keys) /\
  exists s', auth_lib_initialize machine_keys fresh_auth = Ok (EFI_SUCCESS, s') /\
    mode_matches_PK s' /\ storage_inv (au_store s').
Proof.
  assert (Hl : auth_lib_load (Some initial_auth_files) = Ok (Some machine_keys))
    by (vm_compute; reflexivity).
  assert (H : succeeds (auth_lib_initialize machine_keys) fresh_auth = true)
    by (vm_compute; reflexivity).
  destruct (succeeds_run _ _ H) as [s' Hs']. split; [exact Hl|]. exists s'. split; [exact Hs'|].
  exact (initial_mode_matches_PK fresh_auth s' machine_keys (zero_allocator_grants _)
           storage_init_inv Hl Hs').
Defined.

Lemma machine_files_are : files_are machine_file.
Proof.
  intros p. unfold fs_stat, fs_open, fs_read, machine_files. cbn [fst snd].
  destruct (machine_file p) as [c|] eqn:E; [|done]. revert E. unfold machine_file.
  case_bool_decide; [done|]. intros [= <-]. repeat split; by vm_compute.
Qed.

Lemma keys_loaded_witness :
  exists db dbx kek pk, initial_auth_files = [db; dbx; kek; pk] /\
    auth_lib_load (Some initial_auth_files)
    = Ok (Some [with_file machine_file db; with_file machine_file dbx;
                with_file machine_file kek; with_file machine_file pk]).
Proof.
  destruct (keys_loaded machine_file (zero_allocator_grants _) machine_files_are)
    as (db & dbx & kek & pk & Hl & _ & _ & H).
  exists db, dbx, kek, pk. split; [exact Hl|]. injection Hl as <- <- <- <-. exact H.
Defined.
