(* ===== verification/Accepted.v ===== *)
(** * Accepted updates

    The converse of [AuthSecurity.v]: an update that is signed as it should be
    is accepted.  With a library that does not fail for lack of resources and
    keys that can be read, [verify_time_based_payload] accepts exactly the
    verified updates, and an accepted update of a key variable takes effect. *)
From S2P Require Import Prelude EfiTypes Common UefiVariable Storage StorageInv StorageSpec.
From S2P Require Import Requests Crypto SigList Auth AuthSamples AuthSpec AuthSecurity.
From S2P Require Import SignedData SigListSpec.

(** The [j]-th of the signatures of a run of them. *)
Lemma concat_lookup d off ss (sigs : list bytes) j sig :
  Forall (fun s => zlen s = ss) sigs -> sigs !! j = Some sig -> holds d off (concat sigs) ->
  zlen sig = ss /\ holds d (off + Z.of_nat j * ss) sig.
Proof.
  intros Hsigs Hj Hh. pose proof (take_drop_middle _ _ _ Hj) as Hmid.
  rewrite <-Hmid, concat_app in Hh. apply holds_app in Hh as [_ Hh].
  apply holds_sig in Hh as [Hh _].
  pose proof (proj1 (Forall_lookup _ _) Hsigs _ _ Hj) as Hsig. split; [done|].
  rewrite (zlen_concat_sigs ss) in Hh by by apply Forall_take.
  apply lookup_lt_Some in Hj. replace (zlen (take j sigs)) with (Z.of_nat j) in Hh;
    [by rewrite Z.mul_comm|]. unfold zlen. rewrite length_take. lia.
Qed.

(** The places [list_in] names in an encoded database are its lists. *)
Lemma list_in_encoded ls off rem :
  Forall list_ok ls -> list_in (encode_lists ls) (zlen (encode_lists ls)) off rem ->
  exists ls1 ls2, ls = ls1 ++ ls2 /\ off = zlen (encode_lists ls1) /\ rem = zlen (encode_lists ls2).
Proof.
  intros Hls. induction 1 as [|off rem size _ IH Hrem Hsize _]; [by exists [], ls|].
  destruct IH as (ls1 & ls2 & -> & -> & ->). destruct ls2 as [|l ls2]; [destruct (Z.lt_irrefl 0 Hrem)|].
  exists (ls1 ++ [l]), ls2. apply Forall_app in Hls as [_ [Hl _]%Forall_cons].
  rewrite (read_list_size _ _ l) in Hsize; [|done|].
  - injection Hsize as <-. rewrite encode_lists_app, !encode_lists_cons, !zlen_app.
    rewrite zlen_encode_list by done. change (encode_lists []) with (@nil byte).
    rewrite zlen_nil. split_and!; [by rewrite <-app_assoc|lia..].
  - exists (encode_lists ls1), (encode_lists ls2). by rewrite encode_lists_app.
Qed.

Section accepted.
Context `{Allocator} `{OpenSSL}.

(** ** The library does not run out of resources *)
Record resources : Prop := {
  rs_digest : EVP_add_digest = true;
  rs_store : X509_STORE_new = true;
  rs_add : forall cert, X509_STORE_add_cert cert = true;
  rs_bio : BIO_new = true;
  rs_write : forall b, zlen b < INT_MAX -> BIO_write b = zlen b
}.

(** The encoding of the signer's certificate has a length that is an [int]. *)
Definition der_fits (p : PKCS7) : Prop :=
  forall certs cert, PKCS7_get0_signers p = Some certs -> last certs = Some cert ->
  zlen (i2d_X509 cert) < INT_MAX.

#[local] Set Default Proof Using "Type*".
Section checks.
Context (R : resources) (G : grants INT_MAX).
Variables (p : PKCS7) (d c : bytes) (n : Z).
Hypothesis (Hn : 0 <= n < INT_MAX) (Hc : read_bytes d 0 n = Ok c).
Hypothesis (Hsigned : PKCS7_type_is_signed p = true).

Lemma pkcs7_verify_ok cert :
  pkcs7_verify (Some p) (Some cert) (Some d) n = Ok (PKCS7_verify p cert c).
Proof.
  unfold pkcs7_verify. rewrite Z.gtb_ltb, (proj2 (Z.ltb_ge _ n)) by lia.
  rewrite (rs_digest R), Hsigned, (rs_store R), (rs_add R), (rs_bio R). cbn [negb].
  rewrite (proj2 (Z.ltb_lt n INT_MAX)) by lia. cbn [oassert obind]. rewrite Hc. cbn [obind].
  destruct (read_bytes_inv _ _ _ _ Hc) as (_ & _ & _ & _ & Hl). rewrite (rs_write R) by lia.
  rewrite s32_id by (unfold INT_MAX in *; lia). by rewrite Hl, Z.eqb_refl.
Qed.

Lemma s64_sig_size ss : 16 <= ss < 0x80000000 ->
  Z.max 0 (s64 (u64 (ss - 16))) = ss - 16.
Proof using Type. intros Hs. rewrite u64_id, s64_id by lia. lia. Qed.

(** The certificate of a signature in a list of a database. *)
Definition sig_cert (sig : bytes) : option X509 := d2i_X509 (drop 16 sig).

Lemma sig_cert_read kek cert sig ss :
  16 <= ss < 0x80000000 -> zlen sig = ss -> holds kek cert sig ->
  X509_from_sig_data kek cert ss = Ok (sig_cert sig).
Proof using Type.
  intros Hss Hsig Hh.
  rewrite <-(take_drop 16 sig) in Hh. apply holds_app in Hh as [_ Hh].
  replace (zlen (take 16 sig)) with 16 in Hh by (rewrite zlen_take; lia).
  unfold X509_from_sig_data, X509_from_buf. change (sizeof_EFI_SIGNATURE_DATA - 1) with 16.
  rewrite s64_sig_size by done.
  by rewrite (holds_read _ _ _ _ Hh) by (rewrite zlen_drop; lia).
Qed.

Lemma verify_kek_certs_ok fuel kek ss cert i sigs :
  16 <= ss < 0x80000000 -> Forall (fun s => zlen s = ss /\ is_Some (sig_cert s)) sigs ->
  holds kek cert (concat sigs) -> (length sigs <= fuel)%nat ->
  verify_kek_certs fuel p kek ss d n cert i (i + zlen sigs)
  = Ok (existsb (fun x => PKCS7_verify p x c) (omap sig_cert sigs)).
Proof.
  intros Hss Hsigs. revert fuel cert i.
  induction Hsigs as [|sig sigs [Hsig [x Hx]] Hsigs IH]; intros fuel cert i Hh Hf.
  { rewrite zlen_nil, Z.add_0_r. destruct fuel; cbn [verify_kek_certs]; by rewrite Z.ltb_irrefl. }
  destruct fuel as [|fuel]; [cbn in Hf; lia|]. pose proof (zlen_nonneg sigs).
  cbn [verify_kek_certs]. rewrite zlen_cons, (proj2 (Z.ltb_lt i (i + _))) by lia.
  apply holds_sig in Hh as [Hsigh Hh].
  rewrite (sig_cert_read _ _ sig) by done. cbn [omap list_omap]. rewrite Hx. cbn [obind].
  rewrite pkcs7_verify_ok. cbn [obind existsb]. destruct (PKCS7_verify p x c); [done|].
  rewrite Hsig in Hh. rewrite Z.add_assoc.
  apply IH; [done|cbn in Hf; lia].
Qed.

(** The certificates of the X.509 lists of a database; a list whose certificates
    all parse. *)
Definition list_certs (l : siglist) : list X509 :=
  if compare_guid (l_type l) gEfiCertX509Guid then omap sig_cert (l_sigs l) else [].
Definition lists_certs (ls : list siglist) : list X509 := concat (list_certs <$> ls).

Definition certs_parse (l : siglist) : Prop :=
  l_type l = gEfiCertX509Guid ->
  16 <= l_size l /\ Forall (fun s => is_Some (sig_cert s)) (l_sigs l).

Lemma verify_kek_lists_ok fuel kek off ls :
  Forall list_ok ls -> Forall certs_parse ls -> holds kek off (encode_lists ls) ->
  (length ls <= fuel)%nat ->
  verify_kek_lists fuel p kek off (zlen (encode_lists ls)) d n
  = Ok (existsb (fun x => PKCS7_verify p x c) (lists_certs ls)).
Proof.
  intros Hls. revert fuel off.
  induction Hls as [|l ls Hl Hls IH]; intros fuel off Hparse Hh Hf; [by destruct fuel|].
  destruct fuel as [|fuel]; [cbn in Hf; lia|].
  apply Forall_cons in Hparse as [Hparse1 Hparse].
  rewrite encode_lists_cons in *. apply holds_app in Hh as [Hh1 Hh2].
  pose proof (list_total_bounds _ Hl) as B. pose proof (zlen_nonneg (encode_lists ls)).
  rewrite zlen_app, zlen_encode_list in * by done. cbn [verify_kek_lists].
  rewrite Z.gtb_ltb, (proj2 (Z.ltb_lt 0 (list_total l + zlen (encode_lists ls)))) by lia.
  rewrite (read_list_size _ _ _ Hl Hh1). cbn [obind].
  rewrite Z.geb_leb, (proj2 (Z.leb_le (list_total l) _)) by lia.
  rewrite (read_type _ _ _ Hl Hh1). cbn [obind].
  unfold lists_certs. cbn [fmap list_fmap concat]. rewrite existsb_app.
  fold (lists_certs ls).
  assert (Hone : (if compare_guid (l_type l) gEfiCertX509Guid then
     let* header_size := sl_SignatureHeaderSize kek off in
     let* signature_size := sl_SignatureSize kek off in
     let* cert_count := udiv (sigs_size (list_total l) header_size) signature_size in
     verify_kek_certs (Z.to_nat cert_count) p kek signature_size d n
       (off + sizeof_EFI_SIGNATURE_LIST + header_size) 0 cert_count
   else Ok false) = Ok (existsb (fun x => PKCS7_verify p x c) (list_certs l))).
  { unfold list_certs. destruct (compare_guid _ _) eqn:E; [|done].
    apply compare_guid_spec in E. destruct (Hparse1 E) as [H16 Hcerts].
    rewrite (read_header_size _ _ _ Hl Hh1), (read_signature_size _ _ _ Hl Hh1). cbn [obind].
    rewrite (sig_count_ok _ _ _ Hl Hh1). cbn [obind].
    pose proof (sigs_at _ _ _ Hl Hh1) as Hs. rewrite <-(Z.add_0_l (zlen (l_sigs l))).
    pose proof (lo_size _ Hl). apply verify_kek_certs_ok; [lia| |done|].
    - apply Forall_and. split; [apply Hl|done].
    - unfold zlen. lia. }
  rewrite Hone. cbn [obind]. destruct (existsb _ (list_certs l)); [done|]. cbn [orb].
  replace (list_total l + zlen (encode_lists ls) - list_total l)
    with (zlen (encode_lists ls)) by lia.
  apply IH; [done|done|cbn in Hf; lia].
Qed.

(** ** The verification by kind *)
Section kinds.
Variable (s : auth_state).
Hypothesis (Hs : storage_wf (au_store s)).
Hypothesis (Hp : pkcs7_from_auth (Some (au_data s)) = Ok (Some p)).

Lemma run_on_data {A} (f : bytes -> outcome A) a :
  f (au_data s) = Ok a -> with_data_object f s = Ok (a, s).
Proof using Type. intros Hf. unfold with_data_object, bind, mget, mlift. by rewrite Hf. Qed.

Lemma verify_pk_ok cert :
  der_fits p -> pk_trusts s p cert -> verify_pk d n s = Ok (PKCS7_verify p cert c, s).
Proof.
  intros Hder (x & certs & Hx & Hcerts & Hl & Hsame). unfold verify_pk.
  unfold bind at 1. rewrite (run_on_data _ _ Hp).
  cbn [pkcs7_get_top_cert_der pkcs7_get_top_cert]. rewrite Hcerts. unfold last_cert. rewrite Hl.
  cbn [X509_to_buf]. destruct (grants_block _ (zlen (i2d_X509 cert)) G) as (b & -> & _).
  { pose proof (Hder _ _ Hcerts Hl). pose proof (zlen_nonneg (i2d_X509 cert)). lia. }
  unfold bind at 1. rewrite find_variable_stored by (done || cbn; lia).
  change (stored s _ _ _) with (stored_PK s). rewrite Hx.
  unfold bind, mlift. rewrite Hsame. cbn [negb]. by rewrite pkcs7_verify_ok.
Qed.

Lemma verify_payload_ok off cert :
  payload_trusts s off cert -> verify_payload off d n s = Ok (PKCS7_verify p cert c, s).
Proof.
  intros (hs & ss & Hh & Hss & Hcert). apply run_on_data. rewrite Hh, Hss. cbn [obind].
  change (sizeof_EFI_SIGNATURE_DATA - 1) with 16. rewrite Hcert. cbn [obind]. rewrite Hp.
  apply pkcs7_verify_ok.
Qed.

Lemma signers_digest_ok certs cert digest :
  PKCS7_get0_signers p = Some certs -> last certs = Some cert ->
  sha256_priv_sig certs (Some cert) = Ok (EFI_SUCCESS, Some digest) ->
  signers_digest p = Ok (Some (cert, digest)).
Proof.
  intros Hcerts Hl Hd. unfold signers_digest, pkcs7_get_signers, last_cert.
  rewrite Hsigned, Hcerts. cbn [negb]. by rewrite Hl, Hd.
Qed.

Lemma verify_priv_ok nm sz g cert :
  2 <= sz -> sz <= zlen nm -> zlen g = 16 -> priv_trusts s nm sz g p cert ->
  verify_priv nm sz g d n s = Ok (PKCS7_verify p cert c, s).
Proof.
  intros Hsz Hnm Hg (certs & digest & Hcerts & Hl & Hd & Hsame). unfold verify_priv.
  unfold bind at 1. rewrite (run_on_data _ _ Hp).
  unfold bind at 1, mlift at 1. rewrite (signers_digest_ok _ _ _ Hcerts Hl Hd).
  destruct (get_var_ptr_stored s nm sz g) as ([st var] & Hrun & Hx); [done || lia..|].
  unfold bind at 1. rewrite Hrun. unfold bind at 1, mget. unfold bind at 1.
  destruct (stored s nm sz g) as [x|]; cycle 1.
  { injection Hx as -> ->. cbn [ret negb]. unfold mlift. by rewrite pkcs7_verify_ok. }
  destruct Hx as (i & v & [= -> ->] & Hi & Hw & _ & ->).
  destruct (auth_enforce s); cycle 1.
  { cbn [ret negb]. unfold mlift. by rewrite pkcs7_verify_ok. }
  apply sha256_priv_sig_some in Hd as [_ Hdl]. unfold bind, mlift. rewrite (slot_at_ok _ _ _ Hi).
  rewrite memcmp_eq_same by (done || apply Hw).
  rewrite bool_decide_true by (by symmetry; apply (Hsame (value_of v))). cbn [negb].
  by rewrite pkcs7_verify_ok.
Qed.

(** KEK: any certificate of its X.509 lists. *)
Definition kek_holds (ls : list siglist) : Prop :=
  exists x, stored_KEK s = Some x /\ val_data x = encode_lists ls /\
            Forall list_ok ls /\ Forall certs_parse ls.

Lemma verify_kek_ok ls :
  kek_holds ls ->
  verify_kek d n s = Ok (existsb (fun x => PKCS7_verify p x c) (lists_certs ls), s).
Proof.
  intros (x & Hx & Hd & Hls & Hparse). unfold verify_kek.
  unfold bind at 1. rewrite find_variable_stored by (done || cbn; lia).
  change (stored s _ _ _) with (stored_KEK s). rewrite Hx.
  unfold bind at 1. rewrite (run_on_data _ _ Hp). rewrite Hd. rewrite Z.gtb_ltb.
  destruct (Z.ltb_spec 0 (zlen (encode_lists ls))) as [Hpos|Hpos].
  - unfold bind, mlift. cbn [block_of]. rewrite verify_kek_lists_ok; [done..| |].
    + exists [], []. by rewrite app_nil_r.
    + pose proof (length_encode_lists _ Hls). lia.
  - destruct ls as [|l ls]; [done|]. pose proof (encode_lists_pos _ Hls ltac:(done)). lia.
Qed.

(** The certificates of [kek_trusts] are those. *)
Lemma kek_trusts_listed ls cert :
  kek_holds ls -> kek_trusts s cert -> In cert (lists_certs ls).
Proof using Type.
  intros (x & Hx & Hd & Hls & Hparse)
    (x' & off & rem & size & hs & ss & j & Hx' & Hin & Hrem & Ht & Hsz & _ & Hhs & Hss & Hj & Hcert).
  rewrite Hx in Hx'. injection Hx' as <-. rewrite Hd in *.
  apply list_in_encoded in Hin as (ls1 & ls2 & -> & -> & ->); [|done].
  destruct ls2 as [|l ls2]; [destruct (Z.lt_irrefl 0 Hrem)|].
  apply Forall_app in Hls as [_ [Hl _]%Forall_cons].
  apply Forall_app in Hparse as [_ [Hparse _]%Forall_cons].
  assert (Hh : holds (encode_lists (ls1 ++ l :: ls2)) (zlen (encode_lists ls1)) (encode_list l)).
  { exists (encode_lists ls1), (encode_lists ls2). by rewrite encode_lists_app. }
  rewrite (read_type _ _ _ Hl Hh) in Ht. injection Ht as Ht.
  rewrite (read_list_size _ _ _ Hl Hh) in Hsz. injection Hsz as <-.
  rewrite (read_header_size _ _ _ Hl Hh) in Hhs. injection Hhs as <-.
  rewrite (read_signature_size _ _ _ Hl Hh) in Hss. injection Hss as <-.
  destruct (Hparse Ht) as [H16 _]. pose proof (lo_size _ Hl).
  pose proof (sig_count_ok _ _ _ Hl Hh) as Hcount. unfold udiv in Hcount.
  rewrite (proj2 (Z.eqb_neq (l_size l) 0)) in Hcount by lia. injection Hcount as Hcount.
  rewrite Hcount in Hj.
  destruct (lookup_lt_is_Some_2 (l_sigs l) (Z.to_nat j)) as [sig Hsig]; [unfold zlen in Hj; lia|].
  pose proof (sigs_at _ _ _ Hl Hh) as Hsigs.
  apply (concat_lookup _ _ _ _ _ _ (lo_sigs _ Hl) Hsig) in Hsigs as [Hlen Hsigs].
  rewrite Z2Nat.id in Hsigs by lia.
  pose proof (sig_cert_read _ _ sig (l_size l) ltac:(lia) Hlen Hsigs) as Hread.
  unfold X509_from_sig_data in Hread. change (sizeof_EFI_SIGNATURE_DATA - 1) with 16 in Hread.
  rewrite Hread in Hcert.
  injection Hcert as Hcert. unfold lists_certs. rewrite fmap_app, concat_app. apply in_or_app. right.
  cbn [fmap list_fmap concat]. apply in_or_app. left. unfold list_certs.
  rewrite (proj2 (compare_guid_spec _ _) Ht). apply list_elem_of_In, list_elem_of_omap.
  exists sig. split; [by eapply list_elem_of_lookup_2|done].
Qed.

End kinds.
End checks.
(** ** Exactly the verified updates are accepted *)

(** A SignedData long enough to name its digest algorithm names SHA-256. *)
Definition sha256_declared (data : bytes) (attrs : Z) : Prop :=
  has attrs EFI_VARIABLE_TIME_BASED_AUTHENTICATED_WRITE_ACCESS = true ->
  forall sig_size wrapped wrapped_size,
    auth_sig_data_size data = Ok sig_size ->
    wrap_with_content_info (Some data) OFFSET_OF_AUTHINFO2_CERT_DATA sig_size 0
      = Ok (Some wrapped, wrapped_size) ->
    wrong_digest_oid wrapped wrapped_size = Ok false.

(** The descriptor's structure comes from the wrapped SignedData. *)
Lemma pkcs7_from_auth_wrapped a p sig_size :
  pkcs7_from_auth (Some a) = Ok (Some p) -> auth_sig_data_size a = Ok sig_size ->
  exists w wn, wrap_with_content_info (Some a) OFFSET_OF_AUTHINFO2_CERT_DATA sig_size 0
               = Ok (Some w, wn).
Proof using Type.
  unfold pkcs7_from_auth. intros Hr Hs. rewrite Hs in Hr. cbn [obind] in Hr.
  destruct (sig_size =? 0); [done|]. apply obind_inv in Hr as ([w wn] & Hw & Hr).
  destruct w as [w|]; [|done]. by exists w, wn.
Qed.

Lemma wrap_declared a attrs sig_size w wn s' :
  sha256_declared a attrs -> auth_sig_data_size a = Ok sig_size ->
  wrap_with_content_info (Some a) OFFSET_OF_AUTHINFO2_CERT_DATA sig_size 0
    = Ok (Some w, wn) ->
  (if has attrs EFI_VARIABLE_TIME_BASED_AUTHENTICATED_WRITE_ACCESS
   then mlift (wrong_digest_oid w wn) else ret false) s' = Ok (false, s' : auth_state).
Proof using Type.
  intros Ha Hs Hw. unfold sha256_declared in Ha. destruct (has _ _); [|done].
  unfold mlift. by rewrite (Ha eq_refl _ _ _ Hs Hw).
Qed.

Section update.
Context (R : resources) (G : grants INT_MAX).
Variables (s : auth_state) (nm : bytes) (cs : list Z) (sz : Z) (g : EFI_GUID) (attrs : Z).
Hypothesis (Hs : storage_wf (au_store s)) (Hsz : 2 <= sz) (Hnm : sz <= zlen nm).
Hypothesis (Hg : zlen g = 16) (Hcs : cstr16 nm cs) (Hlen : zlen nm < 0x10000000).
Hypothesis (Hdata : zlen (au_data s) < 0x10000000).

(** The keys an update is verified against can be read. *)
Definition signer_fits : Prop :=
  forall p, pkcs7_from_auth (Some (au_data s)) = Ok (Some p) -> der_fits p.
Definition readable (ty : auth_var_t) : Prop :=
  ty = AUTH_VAR_TYPE_KEK -> exists ls, kek_holds s ls.

Lemma verify_type_ok ty off p cert d (n : Z) :
  readable ty -> der_fits p -> pkcs7_from_auth (Some (au_data s)) = Ok (Some p) ->
  trusts ty s nm sz g off p cert -> verified_by p cert d n -> 0 <= n < INT_MAX ->
  match ty with
  | AUTH_VAR_TYPE_PK => verify_pk d n
  | AUTH_VAR_TYPE_PAYLOAD => verify_payload off d n
  | AUTH_VAR_TYPE_KEK => verify_kek d n
  | AUTH_VAR_TYPE_PRIV => verify_priv nm sz g d n
  end s = Ok (true, s).
Proof.
  intros Hkek Hder Hp Ht (c & Hc & Hsig & Hv) Hn. destruct ty; cbn [trusts] in Ht.
  - by rewrite (verify_pk_ok R G p d c n Hn Hc Hsig s Hs Hp cert Hder), Hv.
  - destruct (Hkek eq_refl) as [ls Hls].
    rewrite (verify_kek_ok R G p d c n Hn Hc Hsig s Hs Hp ls Hls).
    rewrite (proj2 (existsb_exists _ _)); [done|]. exists cert. split; [|done].
    by apply (kek_trusts_listed s).
  - by rewrite (verify_priv_ok R G p d c n Hn Hc Hsig s Hs Hp nm sz g cert), Hv by done.
  - by rewrite (verify_payload_ok R G p d c n Hn Hc Hsig s Hs Hp off cert), Hv by done.
Qed.

(** The content that is verified fits an [int]. *)
Lemma content_size_ok off size content csize :
  build_new_data (au_data s) nm g attrs off size = Ok (Some (content, csize)) ->
  16 <= zlen (au_data s) -> 0 <= csize < INT_MAX.
Proof.
  intros Hb Ha16. pose proof (build_new_data_payload _ _ _ _ _ _ _ Hb) as (Hoff & Hsize & Hin).
  pose proof (zlen_nonneg cs). assert (Hfit : 2 * zlen cs <= zlen nm).
  { destruct Hcs as [_ [r ->]]. autorewrite with zlen. pose proof (zlen_nonneg r). lia. }
  pose proof (build_new_data_ok (au_data s) nm g cs attrs off size) as Hb2.
  rewrite Hb in Hb2. injection (Hb2 ltac:(eapply grants_le; [done|unfold INT_MAX; lia])
    Hcs Hlen Hg Ha16 Hdata Hoff Hsize Hin) as -> ->. unfold INT_MAX. lia.
Qed.

(** An update in every respect other than the trust in its signer. *)
Record update_object (data_size : Z) (org : option EFI_TIME) (off size : Z) (p : PKCS7) : Prop := {
  uo_time : exists t, auth_TimeStamp (au_data s) = Ok t /\ timestamp_invalid t = false /\
    (forall o, org = Some o -> has attrs EFI_VARIABLE_APPEND_WRITE = false ->
      auth_internal_compare_timestamp t o = false);
  uo_type : auth_wCertificateType (au_data s) = Ok WIN_CERT_TYPE_EFI_GUID /\
            auth_CertType (au_data s) = Ok gEfiCertPkcs7Guid;
  uo_payload : exists sig_size, auth_sig_data_size (au_data s) = Ok sig_size /\
    off = 40 + sig_size /\ size = u64 (data_size - 40 - sig_size);
  uo_pkcs7 : pkcs7_from_auth (Some (au_data s)) = Ok (Some p);
  uo_format : check_signature_list_format nm g (au_data s) off size = Ok EFI_SUCCESS
}.

(** What [verify_time_based_payload] answers is what the verification by the
    kind of variable answers. *)
Lemma verify_answer ty data_size org off size p content csize (b : bool) :
  update_object data_size org off size p ->
  sha256_declared (au_data s) attrs ->
  build_new_data (au_data s) nm g attrs off size = Ok (Some (content, csize)) ->
  match ty with
  | AUTH_VAR_TYPE_PK => verify_pk content csize
  | AUTH_VAR_TYPE_PAYLOAD => verify_payload off content csize
  | AUTH_VAR_TYPE_KEK => verify_kek content csize
  | AUTH_VAR_TYPE_PRIV => verify_priv nm sz g content csize
  end s = Ok (b, s) ->
  verify_time_based_payload nm sz g data_size attrs ty org s
  = Ok (if b then (EFI_SUCCESS, Some (off, size)) else (EFI_SECURITY_VIOLATION, None), s).
Proof using Type.
  intros Huo Hsha Hb Hv. destruct Huo as [Htime [Hct Hcg] Hpay Hp Hfmt].
  destruct Htime as (t & Ht & Hti & Hlater). destruct Hpay as (sig_size & Hss & -> & ->).
  unfold verify_time_based_payload, bind at 1, mget. unfold bind at 1, mlift at 1. rewrite Ht, Hti.
  replace (match org with Some o => _ | None => false end) with false; cycle 1.
  { destruct org as [o|]; [|done]. destruct (has attrs EFI_VARIABLE_APPEND_WRITE) eqn:Ea; [done|].
    cbn [negb andb]. by rewrite (Hlater o eq_refl). }
  unfold bind at 1, mlift at 1. rewrite Hct, Hcg. cbn [obind or_else].
  rewrite Z.eqb_refl, (proj2 (compare_guid_spec _ _) eq_refl). cbn [negb].
  unfold bind at 1, mlift at 1. rewrite Hss.
  destruct (pkcs7_from_auth_wrapped _ _ _ Hp Hss) as (w & wn & Hw).
  unfold bind at 1, mlift at 1. rewrite Hw.
  unfold bind at 1. rewrite (wrap_declared _ _ _ _ _ _ Hsha Hss Hw).
  unfold bind at 1, mlift at 1. change OFFSET_OF_AUTHINFO2_CERT_DATA with 40. rewrite Hb.
  unfold bind at 1. rewrite Hv. destruct b; cbn [negb]; unfold bind, mlift.
  - by rewrite Hfmt.
  - by rewrite Hp.
Qed.

Lemma verify_accepts data_size ty org off size :
  readable ty -> signer_fits -> verified_update ty s nm sz g data_size attrs org off size ->
  sha256_declared (au_data s) attrs ->
  verify_time_based_payload nm sz g data_size attrs ty org s
  = Ok ((EFI_SUCCESS, Some (off, size)), s).
Proof.
  intros Hkek Hfits Hvu Hsha. pose proof Hvu as [Htime Htype Hpay _ Hfmt].
  destruct (vu_signed _ _ _ _ _ _ _ _ _ _ Hvu) as (content & csize & p & cert & Hb & Hp & Htr & Hver).
  pose proof (proj2 Htype) as (_ & _ & Hr & _)%read_bytes_inv.
  apply (verify_answer ty data_size org off size p content csize true); [done..|].
  apply (verify_type_ok ty off p cert); try done; [by apply Hfits|]. eapply content_size_ok; [done|lia].
Qed.

(** The test of the digest algorithm is behind every payload. *)
Lemma verify_declared data_size ty org st off size s' :
  verify_time_based_payload nm sz g data_size attrs ty org s = Ok ((st, Some (off, size)), s') ->
  sha256_declared (au_data s) attrs.
Proof using Type.
  unfold verify_time_based_payload. unfold bind at 1, mget.
  intros (t & s1 & [Ht ->]%mlift_inv & Hr)%bind_inv.
  destruct (timestamp_invalid t); [done|].
  match type of Hr with context [if ?c then _ else _] => destruct c; [done|] end.
  apply bind_inv in Hr as (c & s1 & [_ ->]%mlift_inv & Hr). destruct c; [done|].
  apply bind_inv in Hr as (sig_size & s1 & [Hsig ->]%mlift_inv & Hr).
  apply bind_inv in Hr as ([w wn] & s1 & [Hw ->]%mlift_inv & Hr).
  destruct w as [w|]; [|done].
  apply bind_inv in Hr as (wrong & s1 & Hoid & Hr).
  intros Ha sig_size' w' wn' Hsig' Hw'. rewrite Hsig in Hsig'. injection Hsig' as <-.
  rewrite Hw in Hw'. injection Hw' as <- <-. rewrite Ha in Hoid.
  apply mlift_inv in Hoid as [Hoid ->]. by destruct wrong.
Qed.

(** The comparison with the PK and its verification always come to an answer. *)
Definition PK_encoded : Prop :=
  forall x, stored_PK s = Some x ->
    exists l post, list_ok l /\ l_sigs l <> [] /\ val_data x = encode_list l ++ post.

Lemma cert_equals_esl_answers der l post :
  list_ok l -> l_sigs l <> [] -> zlen der < INT_MAX ->
  exists b, cert_equals_esl der (u32 (zlen der)) (encode_list l ++ post) = Ok b.
Proof using Type.
  intros Hl Hne Hder. assert (Hh : holds (encode_list l ++ post) 0 (encode_list l)) by (by exists [], post).
  unfold cert_equals_esl. rewrite (read_header_size _ _ _ Hl Hh), (read_signature_size _ _ _ Hl Hh).
  cbn [obind]. change (sizeof_EFI_SIGNATURE_DATA - 1) with 16. pose proof (zlen_nonneg der).
  rewrite u32_id by (unfold INT_MAX in *; lia).
  destruct (Z.eqb_spec (zlen der) (u64 (l_size l - 16))) as [E|]; cbn [negb]; [|by eexists].
  pose proof (lo_size _ Hl). pose proof (sigs_at _ _ _ Hl Hh) as Hsigs.
  destruct (Z.leb_spec 16 (l_size l)) as [H16|H16]; cycle 1.
  { exfalso. unfold u64 in E. rewrite <-(Z_mod_plus_full _ 1), Z.mod_small in E by lia.
    unfold INT_MAX in *. lia. }
  rewrite u64_id in E by lia. pose proof (lo_sigs _ Hl) as Hf.
  destruct (l_sigs l) as [|sig sigs]; [done|]. apply Forall_cons in Hf as [Hsig _].
  apply holds_sig in Hsigs as [Hs1 _]. apply holds_range in Hs1 as [R1 R2].
  unfold memcmp_eq. rewrite !read_bytes_ok by lia. cbn [obind]. by eexists.
Qed.

Lemma verify_pk_answers p d (n : Z) c :
  PK_encoded -> der_fits p -> pkcs7_from_auth (Some (au_data s)) = Ok (Some p) ->
  0 <= n < INT_MAX -> read_bytes d 0 n = Ok c -> exists b, verify_pk d n s = Ok (b, s).
Proof using R G Hs.
  intros Hpk Hder Hp Hn Hc. unfold verify_pk. unfold bind at 1. rewrite (run_on_data _ _ _ Hp).
  cbn [pkcs7_get_top_cert_der pkcs7_get_top_cert].
  destruct (PKCS7_get0_signers p) as [certs|] eqn:Ecerts; [|by eexists].
  unfold last_cert. destruct (last certs) as [cert|] eqn:El; [|by eexists].
  cbn [X509_to_buf]. pose proof (Hder _ _ Ecerts El). pose proof (zlen_nonneg (i2d_X509 cert)).
  destruct (grants_block _ (zlen (i2d_X509 cert)) G) as (b & -> & _); [lia|].
  unfold bind at 1. rewrite find_variable_stored by (done || cbn; lia).
  change (stored s _ _ _) with (stored_PK s).
  destruct (stored_PK s) as [x|] eqn:Ex; [|by eexists].
  destruct (Hpk x Ex) as (l & post & Hl & Hne & ->).
  destruct (cert_equals_esl_answers (i2d_X509 cert) l post) as [same Hsame]; [done..|].
  unfold bind, mlift. rewrite Hsame. destruct same; cbn [negb]; [|by eexists].
  rewrite (pkcs7_verify_ok R p d c n Hn Hc (pkcs7_from_auth_signed _ _ Hp)). by eexists.
Qed.

End update.

(** C8: Exactly the verified updates are accepted.  With a library that does
    not run out of resources and, for an update by KEK, a KEK that is a list of
    certificates that parse, [verify_time_based_payload] hands out a payload
    just when the data object is a verified update (a valid time stamp, later
    than the stored one unless the update appends, the PKCS#7 certificate type, a signature over name, GUID, attributes,
    time stamp and payload by a trusted certificate, a well-formed payload) whose
    SignedData names SHA-256; and it changes nothing. *)
Theorem verified_updates_accepted (s : auth_state) (n : bytes) (cs : list Z) (sz : Z)
    (g : EFI_GUID) (data_size attrs : Z) (ty : auth_var_t) (org : option EFI_TIME)
    (off size : Z) :
  resources -> grants INT_MAX -> storage_wf (au_store s) -> 2 <= sz -> sz <= zlen n ->
  zlen g = 16 -> cstr16 n cs -> zlen n < 0x10000000 -> zlen (au_data s) < 0x10000000 ->
  (ty = AUTH_VAR_TYPE_KEK -> exists ls, kek_holds s ls) -> signer_fits s ->
  verify_time_based_payload n sz g data_size attrs ty org s
    = Ok ((EFI_SUCCESS, Some (off, size)), s) <->
  verified_update ty s n sz g data_size attrs org off size /\ sha256_declared (au_data s) attrs.
Proof.
  intros R G Hs Hsz Hn Hg Hcs Hlen Hdata Hkek Hfits. split.
  - intros Hr. split; [by apply verify_ok in Hr as [_ ?]|by eapply verify_declared].
  - intros [Hvu Hsha]. by apply (verify_accepts R G s n cs).
Qed.

End accepted.

(** The replacement of the PK by a list that its own certificate signed. *)
Lemma verified_updates_accepted_witness :
  let s := user_state (signed_AA time_2 list_AA) in
  @verify_time_based_payload zero_allocator toy_openssl EFI_PLATFORM_KEY_NAME 4
    gEfiGlobalVariableGuid 86 key_attrs AUTH_VAR_TYPE_PK (Some time_1) s
    = Ok ((EFI_SUCCESS, Some (41, 45)), s) /\
  @verified_update zero_allocator toy_openssl AUTH_VAR_TYPE_PK s EFI_PLATFORM_KEY_NAME 4
    gEfiGlobalVariableGuid 86 key_attrs (Some time_1) 41 45 /\
  @sha256_declared zero_allocator (au_data s) key_attrs.
Proof.
  intros s.
  assert (Hrun : @verify_time_based_payload zero_allocator toy_openssl EFI_PLATFORM_KEY_NAME 4
    gEfiGlobalVariableGuid 86 key_attrs AUTH_VAR_TYPE_PK (Some time_1) s
    = Ok ((EFI_SUCCESS, Some (41, 45)), s)) by (vm_compute; reflexivity).
  split; [exact Hrun|]. revert Hrun.
  apply (@verified_updates_accepted zero_allocator toy_openssl s EFI_PLATFORM_KEY_NAME
           [0x50; 0x4b] 4 gEfiGlobalVariableGuid 86 key_attrs AUTH_VAR_TYPE_PK (Some time_1) 41 45);
    [constructor; reflexivity|apply zero_allocator_grants|exact (si_wf _ store_PK_inv)|lia
    |vm_compute; discriminate|reflexivity|apply cstr16_L; repeat constructor
    |reflexivity|reflexivity|discriminate|].
  intros p Hp certs cert [= <-] [= <-].
  assert (p = content_info_header 1 ++ [xaa]) as ->; [|reflexivity].
  vm_compute in Hp. injection Hp as <-. reflexivity.
Defined.
