(* ===== verification/AuthObject.v ===== *)
(** * The layout of a signed update

    A time-based authenticated update as signing tools write it: the time
    stamp, the [WIN_CERTIFICATE_UEFI_GUID] header, the SignedData and the
    payload; and what the functions of [src/uefi/auth.c] and
    [src/uefi/pkcs7_verify.c] read from it. *)
From S2P Require Import Prelude EfiTypes Common UefiVariable Storage StorageInv StorageSpec.
From S2P Require Import Requests Crypto SigList Auth AuthSamples AuthSpec AuthSecurity.
From S2P Require Import SignedData SigListSpec Accepted.

Definition auth_object (t : EFI_TIME) (sig payload : bytes) : bytes :=
  time_bytes t ++ le_encode 4 (24 + zlen sig) ++ le_encode 2 0x200 ++
  le_encode 2 WIN_CERT_TYPE_EFI_GUID ++ gEfiCertPkcs7Guid ++ sig ++ payload.

Lemma zlen_gEfiCertPkcs7Guid : zlen gEfiCertPkcs7Guid = 16.
Proof. done. Qed.

Lemma zlen_auth_object t sig payload : zlen (auth_object t sig payload) = 40 + zlen sig + zlen payload.
Proof.
  unfold auth_object. rewrite !zlen_app, zlen_time_bytes, !zlen_le_encode, zlen_gEfiCertPkcs7Guid.
  lia.
Qed.

(** The next field of a structure in memory. *)
Ltac next_field H H1 k :=
  apply holds_app in H as [H1 H]; rewrite zlen_le_encode in H;
  match type of H with holds ?d (?o + Z.of_nat ?n) ?x =>
    replace (o + Z.of_nat n) with k in H by lia
  end.

Lemma read_time_holds d off t : holds d off (time_bytes t) -> time_ok t -> read_time d off = Ok t.
Proof.
  intros Hh Ht. unfold time_bytes in Hh. unfold time_ok in Ht. unfold read_time.
  next_field Hh H1 (off + 2). next_field Hh H2 (off + 3). next_field Hh H3 (off + 4).
  next_field Hh H4 (off + 5). next_field Hh H5 (off + 6). next_field Hh H6 (off + 7).
  next_field Hh H7 (off + 8). next_field Hh H8 (off + 12). next_field Hh H9 (off + 14).
  next_field Hh H10 (off + 15).
  rewrite (holds_read_le _ _ _ _ H1) by lia. cbn [obind].
  rewrite (holds_read_le _ _ _ _ H2) by lia. cbn [obind].
  rewrite (holds_read_le _ _ _ _ H3) by lia. cbn [obind].
  rewrite (holds_read_le _ _ _ _ H4) by lia. cbn [obind].
  rewrite (holds_read_le _ _ _ _ H5) by lia. cbn [obind].
  rewrite (holds_read_le _ _ _ _ H6) by lia. cbn [obind].
  rewrite (holds_read_le _ _ _ _ H7) by lia. cbn [obind].
  rewrite (holds_read_le _ _ _ _ H8) by lia. cbn [obind].
  rewrite (holds_read_le _ _ _ _ H9) by lia. cbn [obind].
  rewrite (holds_read_le _ _ _ _ H10) by lia. cbn [obind].
  rewrite (holds_read_le _ _ _ _ Hh) by lia. by destruct t.
Qed.

(** ** The fields *)
Section object.
#[local] Set Default Proof Using "Type*".
Variables (t : EFI_TIME) (sig payload : bytes).
Hypothesis (Ht : time_ok t) (Hsig : 17 <= zlen sig < 0x1000000).

Abbreviation data := (auth_object t sig payload).

Lemma object_parts :
  holds data 0 (time_bytes t) /\ holds data 16 (le_encode 4 (24 + zlen sig)) /\
  holds data 22 (le_encode 2 WIN_CERT_TYPE_EFI_GUID) /\ holds data 24 gEfiCertPkcs7Guid /\
  holds data 40 sig /\ holds data (40 + zlen sig) payload.
Proof using Type.
  assert (Hh : holds data 0 data) by (exists [], []; by rewrite app_nil_r).
  unfold auth_object in Hh at 2. apply holds_app in Hh as [H1 Hh]. rewrite zlen_time_bytes in Hh.
  change (0 + 16) with 16 in Hh.
  next_field Hh H2 20. next_field Hh H3 22. next_field Hh H4 24.
  apply holds_app in Hh as [H5 Hh]. rewrite zlen_gEfiCertPkcs7Guid in Hh.
  change (24 + 16) with 40 in Hh. by apply holds_app in Hh as [H6 Hh].
Qed.

Lemma object_time : auth_TimeStamp data = Ok t.
Proof. destruct object_parts as (P & _). by apply read_time_holds. Qed.

Lemma object_type :
  auth_wCertificateType data = Ok WIN_CERT_TYPE_EFI_GUID /\
  auth_CertType data = Ok gEfiCertPkcs7Guid.
Proof.
  destruct object_parts as (_ & _ & P & Q & _). split.
  - by apply (holds_read_le _ _ _ _ P).
  - by apply (holds_read _ _ _ _ Q).
Qed.

Lemma object_sig_size : auth_sig_data_size data = Ok (zlen sig).
Proof.
  destruct object_parts as (_ & P & _). unfold auth_sig_data_size, auth_dwLength.
  rewrite (holds_read_le _ _ _ _ P) by lia. cbn [obind]. unfold OFFSET_OF_CERTDATA.
  rewrite u32_id by lia. f_equal. lia.
Qed.

(** The bytes of a part of the object. *)
Lemma holds_bytes d off b :
  holds d off b -> take (Z.to_nat (zlen b)) (drop (Z.to_nat off) d) = b.
Proof using Type.
  intros Hh. pose proof (holds_range _ _ _ Hh) as [R1 R2].
  pose proof (holds_read _ _ _ _ Hh eq_refl) as Hr. pose proof (zlen_nonneg b).
  rewrite read_bytes_ok in Hr by lia. by injection Hr.
Qed.

Lemma object_payload :
  take (Z.to_nat (zlen payload)) (drop (Z.to_nat (40 + zlen sig)) data) = payload.
Proof. by apply holds_bytes, object_parts. Qed.

Lemma object_content cs g attrs :
  signed_content data g cs attrs (40 + zlen sig) (zlen payload)
  = wchars cs ++ g ++ le_encode 4 attrs ++ time_bytes t ++ payload.
Proof.
  unfold signed_content. rewrite object_payload. by do 4 f_equal.
Qed.

(** ** The SignedData *)

(** A ContentInfo as it is, anything else behind the DER header of one. *)
Definition content_info_of : bytes :=
  match is_content_info sig 0 (zlen sig) with
  | Ok true => sig
  | _ => content_info_header (zlen sig) ++ sig
  end.

Lemma zlen_content_info_of : zlen sig <= zlen content_info_of <= zlen sig + 19.
Proof using Type.
  unfold content_info_of. destruct (is_content_info _ _ _) as [[]|];
    rewrite ?zlen_app, ?zlen_content_info_header; lia.
Qed.

Lemma is_content_info_answers d off n :
  17 <= n -> 0 <= off -> off + n <= zlen d -> exists b, is_content_info d off n = Ok b.
Proof using Type.
  intros Hn Ho Hd. unfold is_content_info, byte_differs, or_else, read_le, memcmp_eq.
  rewrite (proj2 (Z.ltb_ge n 16)) by lia. cbn [obind].
  rewrite !(read_bytes_ok d) by lia. cbn [obind].
  change (read_bytes mOidValue 0 9) with (Ok mOidValue).
  cbn [obind]. repeat case_match; by eexists.
Qed.

Section wrapped.
Context `{Allocator} `{OpenSSL}.
Context (G : grants INT_MAX).

Lemma object_wrapped w :
  wrap_with_content_info (Some data) OFFSET_OF_AUTHINFO2_CERT_DATA (zlen sig) w
  = Ok (Some content_info_of, zlen content_info_of).
Proof.
  change OFFSET_OF_AUTHINFO2_CERT_DATA with 40.
  destruct object_parts as (_ & _ & _ & _ & P & _). pose proof (holds_range _ _ _ P) as [_ R].
  pose proof (holds_bytes _ _ _ P) as Hb.
  pose proof (is_content_info_sub data 40 (zlen sig) ltac:(lia) R ltac:(lia)) as Hsub.
  rewrite Hb in Hsub. unfold content_info_of. rewrite Hsub.
  destruct (is_content_info_answers data 40 (zlen sig)) as [[] Hi]; [lia..| |]; rewrite Hi.
  - rewrite (wrap_info_ok data 40 (zlen sig)); [by rewrite Hb| |lia..|done].
    eapply grants_le; [done|unfold INT_MAX; lia].
  - rewrite (wrap_plain_ok data 40 (zlen sig)); [| |lia..|done].
    + by rewrite Hb, zlen_app, zlen_content_info_header, (Z.add_comm 19).
    + eapply grants_le; [done|unfold INT_MAX; lia].
Qed.

Lemma object_pkcs7 p :
  d2i_PKCS7 content_info_of = Some p -> PKCS7_type_is_signed p = true ->
  pkcs7_from_auth (Some data) = Ok (Some p).
Proof.
  intros Hp Hs. unfold pkcs7_from_auth. rewrite object_sig_size. cbn [obind].
  rewrite (proj2 (Z.eqb_neq (zlen sig) 0)) by lia. rewrite object_wrapped. cbn [obind].
  pose proof zlen_content_info_of.
  rewrite s32_id, Z.max_r, read_bytes_full by lia. cbn [obind]. by rewrite Hp, Hs.
Qed.

Lemma object_declared attrs :
  wrong_digest_oid content_info_of (zlen content_info_of) = Ok false ->
  sha256_declared data attrs.
Proof.
  intros Hoid _ sig_size w wn Hs Hw. rewrite object_sig_size in Hs. injection Hs as <-.
  rewrite object_wrapped in Hw. by injection Hw as <- <-.
Qed.

End wrapped.
End object.
