(* ===== verification/KeyUpdates.v ===== *)
(** * Updates of the keys take effect

    An update of PK, KEK or a signature database that is signed as it should
    be, in user mode: it is accepted, and the store then holds its payload, its
    time stamp and the digest of its signer. *)
From S2P Require Import Prelude EfiTypes Common UefiVariable Storage StorageInv StorageSpec.
From S2P Require Import Samples Requests Crypto SigList Auth AuthSamples AuthSpec.
From S2P Require Import AuthSecurity SignedData SigListSpec Accepted AuthObject.

Section accepted.
Context `{Allocator} `{OpenSSL}.
#[local] Set Default Proof Using "Type*".

(** ** The effect of an accepted update *)

(** Room for the variable: it exists with these attributes, or a slot is free. *)
Definition has_room (k : key) (attrs : Z) (m : var_map) : Prop :=
  match m !! k with
  | Some x => val_attrs x = attrs
  | None => Z.of_nat (size m) < MAX_VAR_COUNT
  end.

(** A time-stamped set that neither appends nor deletes. *)
Lemma spec_set_plain k payload attrs t m :
  has attrs EFI_VARIABLE_APPEND_WRITE = false -> attrs <> 0 -> payload <> [] ->
  has_room k attrs m ->
  exists x, spec_set_with_timestamp k payload attrs t m = (EFI_SUCCESS, <[k := x]> m) /\
    val_attrs x = attrs /\ val_data x = payload /\ val_time x = t.
Proof using Type.
  intros Ha Hnz Hp Hroom. unfold spec_set_with_timestamp, spec_set, has_room in *.
  assert (E0 : (zlen payload =? 0) = false).
  { apply Z.eqb_neq. intros E. by apply Hp, zlen_nil_inv. }
  rewrite Ha, ldiff_unset, E0, (proj2 (Z.eqb_neq _ _) Hnz) by done. cbn [negb andb orb].
  assert (Ed : is_delete attrs (zlen payload) = false).
  { unfold is_delete. by rewrite E0, (proj2 (Z.eqb_neq _ _) Hnz). }
  rewrite Ed. destruct (m !! k) as [x|] eqn:Ek.
  - rewrite Hroom, Z.eqb_refl. cbn [negb updated_data]. rewrite lookup_insert_eq.
    rewrite insert_insert_eq. eexists. split_and!; [done..].
  - rewrite (proj2 (Z.eqb_neq _ MAX_VAR_COUNT)) by lia. cbn [orb]. rewrite lookup_insert_eq.
    rewrite insert_insert_eq. eexists. split_and!; [done..].
Qed.

Lemma spec_update_plain k payload attrs t d m :
  has attrs EFI_VARIABLE_APPEND_WRITE = false -> attrs <> 0 -> payload <> [] ->
  has_room k attrs m ->
  spec_update k payload attrs t false (EFI_SUCCESS, Some d) m
  = (EFI_SUCCESS, Some false, <[k := mk_value attrs payload t d]> m).
Proof using Type.
  intros Ha Hnz Hp Hroom. unfold spec_update.
  destruct (spec_set_plain k payload attrs t m) as (x & -> & Hx1 & Hx2 & Hx3); [done..|].
  cbn [negb andb Z.eqb EFI_SUCCESS]. rewrite lookup_insert_eq, insert_insert_eq.
  unfold with_val_cert. by rewrite Hx1, Hx2, Hx3.
Qed.

Lemma spec_update_status k payload attrs t st m del m' :
  spec_update k payload attrs t false (st, None) m = (EFI_SUCCESS, del, m') -> st = EFI_SUCCESS.
Proof using Type.
  unfold spec_update. destruct (spec_set_with_timestamp _ _ _ _ _) as [st1 m1].
  destruct (st1 =? EFI_SUCCESS) eqn:E; cbn [negb andb];
    [|intros [= -> _ _]; by rewrite Z.eqb_refl in E].
  destruct (m1 !! k); [|done]. by intros [= -> _ _].
Qed.

Section effect.
Context (G : grants MAX_VARIABLE_DATA_SIZE).
Variables (s : auth_state) (n : bytes) (sz : Z) (g : EFI_GUID) (attrs : Z).
Variables (off size : Z) (t : EFI_TIME) (d : bytes).
Hypothesis (Hs : storage_inv (au_store s)) (Hn : canonical_name n sz) (Hg : zlen g = 16).
Hypothesis (Ha : 0 < attrs < 0x100000000) (Happ : has attrs EFI_VARIABLE_APPEND_WRITE = false).
Hypothesis (Hoff : 0 <= off) (Hsize : 0 < size <= MAX_VARIABLE_DATA_SIZE).
Hypothesis (Hin : off + size <= zlen (au_data s)) (Ht : auth_TimeStamp (au_data s) = Ok t).
Hypothesis (Hd : sha256_from_auth (au_data s) = Ok (EFI_SUCCESS, Some d)).
Hypothesis (Hroom : has_room (arg_key n sz g) attrs (abs (variables (au_store s)))).

Definition update_payload : bytes := take (Z.to_nat size) (drop (Z.to_nat off) (au_data s)).

Lemma update_payload_nonempty : update_payload <> [].
Proof.
  intros E. apply (f_equal zlen) in E. unfold update_payload in E.
  rewrite zlen_nil, zlen_take, zlen_drop in E by lia. lia.
Qed.

Lemma apply_update_runs :
  exists s', apply_update n sz g off size attrs false s = Ok ((EFI_SUCCESS, Some false), s').
Proof.
  destruct (cn_arg _ _ Hn) as [Hsz Ho _]. unfold apply_update.
  unfold bind at 1. rewrite update_with_timestamp_plain by (apply Hs || done || lia || by left).
  unfold bind at 1, mlift at 1. rewrite Ht. unfold on_store at 1, mzoom.
  destruct (storage_set_with_timestamp_refines (au_store s) n sz g
              (drop (Z.to_nat off) (au_data s)) size attrs t)
    as (st1 & store1 & -> & Hinv & Hspec & _); try done; [lia|zlia|lia|by eapply read_time_ok|].
  destruct (spec_set_plain (arg_key n sz g) update_payload attrs t
              (abs (variables (au_store s)))) as (x & Hx & _); [done|lia| |done|].
  { apply update_payload_nonempty. }
  unfold update_payload in Hx. rewrite Hx in Hspec. injection Hspec as -> Habs.
  cbn [Z.eqb EFI_SUCCESS negb andb]. set (s1 := set_store store1 s).
  destruct (get_var_ptr_stored s1 n sz g) as ([st2 var] & Hrun & Hslot); [apply Hinv|lia|done..|].
  unfold bind at 1. rewrite Hrun. unfold stored in Hslot. cbn [au_store s1 set_store] in Hslot.
  rewrite Habs, lookup_insert_eq in Hslot. destruct Hslot as (i & v & [= -> ->] & Hi & Hv & _).
  unfold bind at 1. rewrite (run_on_data s1 _ _ Hd).
  pose proof (sha256_from_auth_some _ _ _ Hd) as [_ Hdl].
  unfold bind. rewrite (set_slot_cert_ok s1 _ _ _ Hi Hv Hdl). by eexists.
Qed.

(** The store then holds the payload, the time stamp and the digest. *)
Lemma apply_update_ok :
  exists s', apply_update n sz g off size attrs false s = Ok ((EFI_SUCCESS, Some false), s') /\
    s' = set_store (au_store s') s /\ storage_inv (au_store s') /\
    abs (variables (au_store s'))
    = <[arg_key n sz g := mk_value attrs update_payload t d]> (abs (variables (au_store s))).
Proof.
  destruct apply_update_runs as [s' Hr]. exists s'. split; [done|].
  pose proof Hr as Hr0.
  apply (apply_update_refines _ _ _ _ _ _ _ t) in Hr as (Hinv & He & digest & Hdig & Hspec);
    try done; [|lia|by left|lia]. split_and!; [done..|].
  fold update_payload in Hspec.
  destruct digest as [st [d'|]].
  - rewrite Hd in Hdig. injection Hdig as <- <-. symmetry in Hspec.
    rewrite spec_update_plain in Hspec; [by injection Hspec|done|lia| |done].
    apply update_payload_nonempty.
  - exfalso. symmetry in Hspec. by apply spec_update_status in Hspec.
Qed.

End effect.

(** ** The calls around the update *)
Lemma update_answer s n sz g data_size attrs ty st payload :
  storage_inv (au_store s) -> 2 <= sz -> sz <= zlen n -> zlen g = 16 ->
  verify_time_based_payload n sz g data_size attrs ty (val_time <$> stored s n sz g) s
    = Ok ((st, payload), s) ->
  verify_time_based_payload_and_update n sz g data_size attrs ty s
  = match payload with
    | None => Ok ((st, None), s)
    | Some (off, size) =>
        apply_update n sz g off size attrs
          (bool_decide (is_Some (stored s n sz g)) && (size =? 0)
           && negb (has attrs EFI_VARIABLE_APPEND_WRITE)) s
    end.
Proof using Type.
  intros Hs Hsz Hn Hg Hv. unfold verify_time_based_payload_and_update.
  destruct (get_var_ptr_stored s n sz g) as ([fst_ var] & Hrun & Hx); [apply Hs|lia|done..|].
  unfold bind at 1. rewrite Hrun. unfold bind at 1, mget. unfold bind at 1.
  destruct (stored s n sz g) as [x|].
  - destruct Hx as (i & v & [= -> ->] & Hi & _ & _ & ->).
    unfold bind at 1, mlift at 1. rewrite (slot_at_ok _ _ _ Hi). unfold ret at 1.
    unfold bind at 1. change (val_time <$> Some (value_of v)) with (Some (var_timestamp v)) in Hv. rewrite Hv.
    destruct payload as [[off size]|]; [|done]. by rewrite bool_decide_true.
  - injection Hx as -> ->. unfold ret at 1. unfold bind at 1. change (val_time <$> @None value) with (@None EFI_TIME) in Hv.
    rewrite Hv.
    destruct payload as [[off size]|]; [|done]. by rewrite bool_decide_false by by intros [].
Qed.

(** The processing by the PK and by KEK in user mode, when it does not delete. *)
Lemma process_pk_user n sz g data_size attrs is_pk s st del s' :
  key_attrs_missing attrs = false -> setup_mode s = USER_MODE -> setup_mode s' = USER_MODE ->
  del <> Some true ->
  verify_time_based_payload_and_update n sz g data_size attrs AUTH_VAR_TYPE_PK s
    = Ok ((st, del), s') ->
  process_var_with_pk n sz g data_size attrs is_pk s = Ok (st, s').
Proof using Type.
  intros Ha Hm Hm' Hdel Hv. unfold process_var_with_pk. rewrite Ha. unfold bind at 1, mget. cbv zeta.
  rewrite Hm. cbn [Z.eqb USER_MODE SETUP_MODE]. unfold bind at 1. unfold bind at 1. rewrite Hv.
  unfold ret at 1. destruct del as [[]|]; [done| |];
    (destruct (_ && is_pk); [|done]); unfold bind, mget; rewrite Hm';
    cbn [Z.eqb USER_MODE SETUP_MODE andb negb]; done.
Qed.

Lemma process_kek_user n sz g data_size attrs s st del s' :
  key_attrs_missing attrs = false -> setup_mode s = USER_MODE ->
  verify_time_based_payload_and_update n sz g data_size attrs AUTH_VAR_TYPE_KEK s
    = Ok ((st, del), s') ->
  process_var_with_kek n sz g data_size attrs s = Ok (st, s').
Proof using Type.
  intros Ha Hm Hv. unfold process_var_with_kek. rewrite Ha. unfold bind at 1, mget.
  rewrite Hm. cbn [Z.eqb USER_MODE]. unfold bind. by rewrite Hv.
Qed.

(** The dispatch on the name of a key variable. *)
Lemma dispatch_key n cs sz g data_size attrs is_pk s :
  cstr16 n cs -> zlen n < 0x10000000 -> checked_name g cs = Some is_pk ->
  auth_lib_process_variable n sz g data_size attrs s
  = (if compare_guid g gEfiGlobalVariableGuid
     then process_var_with_pk n sz g data_size attrs is_pk
     else
       status <- process_var_with_pk n sz g data_size attrs false ;;
       if negb (status =? EFI_SUCCESS) then process_var_with_kek n sz g data_size attrs
       else ret status) s /\
  (compare_guid g gEfiGlobalVariableGuid = false -> g = gEfiImageSecurityDatabaseGuid).
Proof using Type.
  intros Hn Hz. unfold checked_name, auth_lib_process_variable. cbv zeta.
  unfold EFI_PLATFORM_KEY_NAME, EFI_KEY_EXCHANGE_KEY_NAME, EFI_IMAGE_SECURITY_DATABASE,
    EFI_IMAGE_SECURITY_DATABASE1, EFI_IMAGE_SECURITY_DATABASE2.
  rewrite !(named_ok n cs) by (done || (by repeat constructor) || (by vm_compute)).
  destruct (compare_guid g gEfiGlobalVariableGuid) eqn:Eg.
  - unfold bind, mlift. destruct (bool_decide (cs = [80; 75])); [by intros [= <-]|].
    destruct (bool_decide (cs = [75; 69; 75])); [by intros [= <-]|done].
  - destruct (compare_guid g gEfiImageSecurityDatabaseGuid) eqn:Ed; [|done].
    apply compare_guid_spec in Ed as Hdb. rewrite !or_else_ok.
    destruct (bool_decide_reflect (cs ∈ [[100; 98]; [100; 98; 120]; [100; 98; 116]])) as [Hin|]; [|done].
    intros _. split; [|done]. unfold bind, mlift.
    replace (bool_decide _ || _) with true; [done|]. symmetry.
    rewrite !elem_of_cons, elem_of_nil in Hin. destruct Hin as [->|[->|[->|[]]]]; done.
Qed.


(** A call on a key variable. *)
Record key_call (s : auth_state) (n : bytes) (cs : list Z) (sz : Z) (g : EFI_GUID)
    (attrs : Z) : Prop := {
  kc_store : storage_inv (au_store s);
  kc_name : canonical_name n sz;
  kc_chars : cstr16 n cs;
  kc_len : zlen n < 0x10000000;
  kc_guid : zlen g = 16;
  kc_key : is_Some (checked_name g cs);
  kc_attrs : 0 < attrs < 0x100000000;
  kc_access : key_attrs_missing attrs = false;
  kc_data : zlen (au_data s) <= MAX_VARIABLE_DATA_SIZE
}.
#[global] Arguments kc_store {s n cs sz g attrs}.
#[global] Arguments kc_name {s n cs sz g attrs}.
#[global] Arguments kc_chars {s n cs sz g attrs}.
#[global] Arguments kc_len {s n cs sz g attrs}.
#[global] Arguments kc_guid {s n cs sz g attrs}.
#[global] Arguments kc_key {s n cs sz g attrs}.
#[global] Arguments kc_attrs {s n cs sz g attrs}.
#[global] Arguments kc_access {s n cs sz g attrs}.
#[global] Arguments kc_data {s n cs sz g attrs}.

(** The update of a key variable: well-formed lists and a SignedData. *)
Record key_update (s : auth_state) (cs : list Z) (g : EFI_GUID) (t : EFI_TIME)
    (sig : bytes) (ls : list siglist) (p : PKCS7) (d : bytes) : Prop := {
  ku_data : au_data s = auth_object t sig (encode_lists ls);
  ku_some : ls <> [];
  ku_lists : Forall list_ok ls;
  ku_certs : Forall (fun l => l_type l = gEfiCertX509Guid -> l_sigs l <> []) ls;
  ku_verdict : forall is_pk, checked_name g cs = Some is_pk -> verdict ls is_pk = EFI_SUCCESS;
  ku_time : time_ok t;
  ku_valid : timestamp_invalid t = false;
  ku_sig : 17 <= zlen sig;
  ku_pkcs7 : d2i_PKCS7 (content_info_of sig) = Some p;
  ku_signed : PKCS7_type_is_signed p = true;
  ku_sha256 : wrong_digest_oid (content_info_of sig) (zlen (content_info_of sig)) = Ok false;
  ku_signer : exists top, signers_digest p = Ok (Some (top, d))
}.
#[global] Arguments ku_data {s cs g t sig ls p d}.
#[global] Arguments ku_some {s cs g t sig ls p d}.
#[global] Arguments ku_lists {s cs g t sig ls p d}.
#[global] Arguments ku_certs {s cs g t sig ls p d}.
#[global] Arguments ku_verdict {s cs g t sig ls p d}.
#[global] Arguments ku_time {s cs g t sig ls p d}.
#[global] Arguments ku_valid {s cs g t sig ls p d}.
#[global] Arguments ku_sig {s cs g t sig ls p d}.
#[global] Arguments ku_pkcs7 {s cs g t sig ls p d}.
#[global] Arguments ku_signed {s cs g t sig ls p d}.
#[global] Arguments ku_sha256 {s cs g t sig ls p d}.
#[global] Arguments ku_signer {s cs g t sig ls p d}.

(** Later than what is stored, unless it appends. *)
Definition later (s : auth_state) (n : bytes) (sz : Z) (g : EFI_GUID) (attrs : Z)
    (t : EFI_TIME) : Prop :=
  has attrs EFI_VARIABLE_APPEND_WRITE = false ->
  forall x, stored s n sz g = Some x -> time_key (val_time x) < time_key t.

(** What is signed, and who may sign it: the PK, and for a signature database
    also a certificate of the KEK. *)
Definition key_content (cs : list Z) (g : EFI_GUID) (attrs : Z) (t : EFI_TIME)
    (ls : list siglist) : bytes :=
  wchars cs ++ g ++ le_encode 4 attrs ++ time_bytes t ++ encode_lists ls.

Definition trusted_signer (s : auth_state) (g : EFI_GUID) (p : PKCS7) (cert : X509) : Prop :=
  pk_trusts s p cert \/
  (g = gEfiImageSecurityDatabaseGuid /\ PK_encoded s /\
   exists keks, kek_holds s keks /\ In cert (lists_certs keks)).

Section call.
Context (G : grants INT_MAX).
Variables (s : auth_state) (n : bytes) (cs : list Z) (sz : Z) (g : EFI_GUID) (attrs : Z).
Variables (t : EFI_TIME) (sig : bytes) (ls : list siglist) (p : PKCS7) (d : bytes).
Hypothesis (C : key_call s n cs sz g attrs) (U : key_update s cs g t sig ls p d).
Hypothesis (Hlater : later s n sz g attrs t).

Abbreviation data_size := (zlen (au_data s)).
Abbreviation off := (40 + zlen sig).
Abbreviation size := (zlen (encode_lists ls)).

(** The sizes. *)
Lemma call_sizes :
  2 <= sz /\ sz <= zlen n /\ data_size = off + size /\ 28 <= size /\
  17 <= zlen sig < 0x1000000 /\ off + size <= MAX_VARIABLE_DATA_SIZE.
Proof.
  destruct (cn_arg _ _ (kc_name C)) as [[Hsz _] Ho _].
  pose proof (kc_data C) as Hd.
  rewrite (ku_data U) in *. rewrite zlen_auth_object in *.
  pose proof (encode_lists_pos _ (ku_lists U) (ku_some U)).
  pose proof (ku_sig U).
  unfold MAX_VARIABLE_DATA_SIZE, KB in *. lia.
Qed.

Lemma call_pkcs7 : pkcs7_from_auth (Some (au_data s)) = Ok (Some p).
Proof.
  destruct call_sizes as (_ & _ & _ & _ & Hsig & _). rewrite (ku_data U).
  apply (object_pkcs7 _ _ _ (ku_time U) Hsig G); apply U.
Qed.

Lemma call_object :
  update_object s n g attrs data_size (val_time <$> stored s n sz g) off size p.
Proof.
  destruct call_sizes as (Hsz & Ho & Hd & Hs & Hsig & Hmax).
  pose proof (ku_time U) as Ht. pose proof call_pkcs7 as Hp.
  pose proof (ku_data U) as Hdata.
  constructor; [| | |exact Hp|].
  - exists t. rewrite Hdata. split_and!; [by apply object_time|apply U|].
    intros o Ho' Happ. destruct (stored s n sz g) as [x|] eqn:Ex; [|done]. injection Ho' as <-.
    rewrite compare_timestamp_key; [|done|].
    + apply Z.leb_gt. by apply Hlater.
    + destruct (get_var_ptr_stored s n sz g) as (r & _ & Hx); [apply C|lia|done|apply C|].
      rewrite Ex in Hx. destruct Hx as (i & v & _ & _ & Hv & _ & ->). apply Hv.
  - rewrite Hdata. by apply object_type.
  - exists (zlen sig). rewrite Hdata at 1. split_and!; [by apply (object_sig_size t)|done|].
    rewrite Hd, u64_id by (unfold MAX_VARIABLE_DATA_SIZE, KB in *; lia). lia.
  - destruct (kc_key C) as [is_pk Hk].
    pose proof (ku_verdict U is_pk Hk) as Hver.
    set (pre := take (Z.to_nat off) (au_data s)).
    assert (Hpre : au_data s = pre ++ encode_lists ls ++ [] /\ off = zlen pre).
    { unfold pre. rewrite zlen_take, app_nil_r. split; [|lia].
      pose proof (object_payload t sig (encode_lists ls) Ht Hsig) as Hp2. rewrite <-Hdata in Hp2.
      rewrite take_ge in Hp2 by (rewrite length_drop; unfold zlen in *; lia).
      by rewrite <-Hp2, take_drop. }
    destruct Hpre as [-> ->].
    rewrite (format_check_ok n cs); try apply C; try apply U.
    + by rewrite Hk, Hver.
    + unfold MAX_VARIABLE_DATA_SIZE, KB in *. lia.
Qed.

Lemma call_content :
  build_new_data (au_data s) n g attrs off size
  = Ok (Some (key_content cs g attrs t ls, zlen (key_content cs g attrs t ls))) /\
  zlen (key_content cs g attrs t ls) < INT_MAX.
Proof.
  destruct call_sizes as (Hsz & Ho & Hd & Hs & Hsig & Hmax).
  pose proof (ku_data U) as Hdata.
  pose proof (kc_chars C) as Hcs. pose proof (kc_len C) as Hlen.
  pose proof (zlen_nonneg cs). assert (Hfit : 2 * zlen cs <= zlen n).
  { destruct Hcs as [_ [r ->]]. autorewrite with zlen. pose proof (zlen_nonneg r). lia. }
  assert (Hz : zlen (key_content cs g attrs t ls) = 2 * zlen cs + 36 + size).
  { unfold key_content. rewrite !zlen_app, zlen_wchars, zlen_le_encode, zlen_time_bytes.
    rewrite (kc_guid C). lia. }
  rewrite Hz. unfold MAX_VARIABLE_DATA_SIZE, KB, INT_MAX in *. split; [|lia].
  rewrite (build_new_data_ok _ _ _ cs); try done; try lia; try apply C.
  - rewrite Hdata. unfold key_content.
    by rewrite (object_content t sig _ (ku_time U) Hsig).
  - eapply grants_le; [exact G|unfold INT_MAX; lia].
Qed.

Lemma call_declared : sha256_declared (au_data s) attrs.
Proof.
  destruct call_sizes as (_ & _ & _ & _ & Hsig & _). rewrite (ku_data U).
  apply (object_declared _ _ _ (ku_time U) Hsig G), U.
Qed.

Lemma call_signer : sha256_from_auth (au_data s) = Ok (EFI_SUCCESS, Some d).
Proof.
  unfold sha256_from_auth. rewrite call_pkcs7. cbn [obind].
  destruct (ku_signer U) as [top Htop]. by rewrite Htop.
Qed.

(** Whatever a kind of update does once it is accepted. *)
Section outcome.
Variable (done_with : auth_state -> Prop).
Hypothesis (Huser : setup_mode s = USER_MODE).
Hypothesis (Hmode : forall s', done_with s' -> setup_mode s' = USER_MODE).
Hypothesis (Hdone : forall ty,
  verify_time_based_payload n sz g data_size attrs ty (val_time <$> stored s n sz g) s
    = Ok ((EFI_SUCCESS, Some (off, size)), s) ->
  exists s', verify_time_based_payload_and_update n sz g data_size attrs ty s
             = Ok ((EFI_SUCCESS, Some false), s') /\ done_with s').

Lemma call_verified ty (b : bool) :
  match ty with
  | AUTH_VAR_TYPE_PK => verify_pk (key_content cs g attrs t ls) (zlen (key_content cs g attrs t ls))
  | AUTH_VAR_TYPE_PAYLOAD =>
      verify_payload off (key_content cs g attrs t ls) (zlen (key_content cs g attrs t ls))
  | AUTH_VAR_TYPE_KEK => verify_kek (key_content cs g attrs t ls) (zlen (key_content cs g attrs t ls))
  | AUTH_VAR_TYPE_PRIV =>
      verify_priv n sz g (key_content cs g attrs t ls) (zlen (key_content cs g attrs t ls))
  end s = Ok (b, s) ->
  exists s', verify_time_based_payload_and_update n sz g data_size attrs ty s
             = Ok (if b then (EFI_SUCCESS, Some false) else (EFI_SECURITY_VIOLATION, None), s') /\
    if b then done_with s' else s' = s.
Proof.
  intros Hv. destruct call_sizes as (Hsz & Ho & _).
  pose proof (verify_answer s n sz g attrs ty data_size _ off size p _ _ b call_object call_declared
    (proj1 call_content) Hv) as Ha.
  destruct b; [by apply Hdone|]. exists s.
  by rewrite (update_answer _ _ _ _ _ _ _ _ _ (kc_store C) Hsz Ho (kc_guid C) Ha).
Qed.

(** By the PK: what the verification answers decides. *)
Lemma call_by_pk (b is_pk : bool) :
  verify_pk (key_content cs g attrs t ls) (zlen (key_content cs g attrs t ls)) s = Ok (b, s) ->
  exists s', process_var_with_pk n sz g data_size attrs is_pk s
             = Ok (if b then EFI_SUCCESS else EFI_SECURITY_VIOLATION, s') /\
    if b then done_with s' else s' = s.
Proof.
  intros Hv. destruct (call_verified AUTH_VAR_TYPE_PK b Hv) as (s' & Hr & Hu). exists s'.
  split; [|done].
  apply (process_pk_user _ _ _ _ _ _ _ _ (if b then Some false else None));
    [apply C|exact Huser| |by destruct b|by destruct b].
  destruct b; [by apply Hmode|by subst s'].
Qed.

(** A call whose signature verifies against a trusted certificate succeeds. *)
Lemma call_succeeds cert :
  resources -> der_fits p -> trusted_signer s g p cert ->
  PKCS7_verify p cert (key_content cs g attrs t ls) = true ->
  exists s', auth_lib_process_variable n sz g data_size attrs s = Ok (EFI_SUCCESS, s') /\
             done_with s'.
Proof.
  intros R Hder Htrust Hver. destruct call_content as [_ Hmax].
  pose proof (zlen_nonneg (key_content cs g attrs t ls)) as Hpos. pose proof call_pkcs7 as Hp.
  pose proof (read_bytes_full (key_content cs g attrs t ls)) as Hread.
  pose proof (si_wf _ (kc_store C)) as Hs.
  assert (Hpk : forall is_pk, pk_trusts s p cert -> exists s',
    process_var_with_pk n sz g data_size attrs is_pk s = Ok (EFI_SUCCESS, s') /\ done_with s').
  { intros is_pk Hpk. apply (call_by_pk true is_pk).
    rewrite (verify_pk_ok R G p _ _ _ (conj Hpos Hmax) Hread (ku_signed U) s Hs Hp cert Hder Hpk).
    by rewrite Hver. }
  destruct (kc_key C) as [is_pk Hk].
  destruct (dispatch_key n cs sz g data_size attrs is_pk s (kc_chars C) (kc_len C) Hk) as [-> Hdb].
  destruct (compare_guid g gEfiGlobalVariableGuid) eqn:Eg.
  { destruct Htrust as [Ht|[-> _]]; [by apply Hpk|]. by apply compare_guid_spec, guids_differ in Eg. }
  destruct Htrust as [Ht|(_ & Henc & keks & Hkek & Hin)].
  { destruct (Hpk false Ht) as (s' & Hr & Hu). exists s'. split; [|done].
    unfold bind. by rewrite Hr. }
  destruct (verify_pk_answers R G s Hs p _ _ _ Henc Hder Hp (conj Hpos Hmax) Hread) as [b Hb].
  destruct (call_by_pk b false Hb) as (s' & Hr & Hu).
  destruct b; [exists s'; split; [unfold bind; by rewrite Hr|done]|]. subst s'.
  pose proof (verify_kek_ok R G p _ _ _ (conj Hpos Hmax) Hread (ku_signed U) s Hs Hp keks Hkek) as Hv.
  replace (existsb _ _) with true in Hv by (symmetry; apply existsb_exists; by exists cert).
  destruct (call_verified AUTH_VAR_TYPE_KEK true Hv) as (s' & Hr' & Hu). exists s'. split; [|done].
  unfold bind. rewrite Hr. cbn [negb Z.eqb EFI_SECURITY_VIOLATION EFI_SUCCESS].
  apply (process_kek_user _ _ _ _ _ _ _ (Some false)); [apply C|exact Huser|done].
Qed.

End outcome.

(** ** Replacing the value *)
Definition updated (s' : auth_state) : Prop :=
  s' = set_store (au_store s') s /\ storage_inv (au_store s') /\
  abs (variables (au_store s'))
  = <[arg_key n sz g := mk_value attrs (encode_lists ls) t d]> (abs (variables (au_store s))).

(** A payload that was accepted is stored. *)
Lemma accepted_stored ty :
  has attrs EFI_VARIABLE_APPEND_WRITE = false ->
  has_room (arg_key n sz g) attrs (abs (variables (au_store s))) ->
  verify_time_based_payload n sz g data_size attrs ty (val_time <$> stored s n sz g) s
    = Ok ((EFI_SUCCESS, Some (off, size)), s) ->
  exists s', verify_time_based_payload_and_update n sz g data_size attrs ty s
             = Ok ((EFI_SUCCESS, Some false), s') /\ updated s'.
Proof.
  intros Happ Hroom Hv. destruct call_sizes as (Hsz & Ho & Hd & Hs & Hsig & Hmax).
  rewrite (update_answer s n sz g data_size attrs ty _ _ (kc_store C) Hsz Ho (kc_guid C) Hv).
  rewrite (proj2 (Z.eqb_neq size 0)), andb_false_r by lia. cbn [andb].
  pose proof (ku_data U) as Hdata.
  pose proof (object_time t sig (encode_lists ls) (ku_time U) Hsig) as Ht.
  pose proof (object_payload t sig (encode_lists ls) (ku_time U) Hsig) as Hp.
  rewrite <-Hdata in Ht, Hp.
  assert (G' : grants MAX_VARIABLE_DATA_SIZE) by (eapply grants_le; [exact G|vm_compute; discriminate]).
  destruct (apply_update_ok G' s n sz g attrs off size t d (kc_store C) (kc_name C) (kc_guid C)
    (kc_attrs C) Happ ltac:(lia) ltac:(lia) ltac:(lia) Ht call_signer Hroom) as (s' & Hr & He & Hi & Ha).
  exists s'. unfold update_payload in Ha. rewrite Hp in Ha. done.
Qed.

End call.

(** C9: A correctly signed update of a key takes effect.  In user mode, let the
    data object be an update as signing tools write it, of PK, KEK, db, dbx or
    dbt: a valid time later than the stored one, a SignedData with SHA-256, and
    well-formed signature lists; and let OpenSSL verify the signature over name,
    GUID, attributes, time and lists against the PK's certificate or, for a
    signature database, a certificate of the KEK.  Then
    [auth_lib_process_variable] succeeds and exactly that variable changes: it
    holds the lists, the time stamp and the digest of the signer. *)
Theorem signed_key_update_takes_effect (s : auth_state) (n : bytes) (cs : list Z) (sz : Z)
    (g : EFI_GUID) (attrs : Z) (t : EFI_TIME) (sig : bytes) (ls : list siglist) (p : PKCS7)
    (d : bytes) (cert : X509) :
  resources -> grants INT_MAX -> der_fits p ->
  setup_mode s = USER_MODE -> key_call s n cs sz g attrs -> key_update s cs g t sig ls p d ->
  has attrs EFI_VARIABLE_APPEND_WRITE = false ->
  (forall x, stored s n sz g = Some x -> time_key (val_time x) < time_key t) ->
  has_room (arg_key n sz g) attrs (abs (variables (au_store s))) ->
  trusted_signer s g p cert -> PKCS7_verify p cert (key_content cs g attrs t ls) = true ->
  exists s',
    auth_lib_process_variable n sz g (zlen (au_data s)) attrs s = Ok (EFI_SUCCESS, s') /\
    s' = set_store (au_store s') s /\ storage_inv (au_store s') /\
    abs (variables (au_store s'))
    = <[arg_key n sz g := mk_value attrs (encode_lists ls) t d]> (abs (variables (au_store s))).
Proof.
  intros R G Hder Huser C U Happ Hlater Hroom Htrust Hver.
  apply (call_succeeds G s n cs sz g attrs t sig ls p d C U (fun _ => Hlater)
           (updated s n sz g attrs t ls d) Huser) with (cert := cert); try done.
  - by intros s' (-> & _).
  - intros ty Hv. by apply (accepted_stored G s n cs sz g attrs t sig ls p d C U (fun _ => Hlater)).
Qed.

End accepted.

(** ** An update of db signed by a key exchange key *)

(** The PK is the certificate AA; the KEK holds the certificate of seventeen
    bytes BB, which signs the update. *)
Definition cert_BB : bytes := replicate 17 xbb.
Definition keks_BB : list siglist :=
  [mk_siglist gEfiCertX509Guid [] 33 [replicate 16 x00 ++ cert_BB]].
Definition var_KEK : variable_t :=
  created EFI_KEY_EXCHANGE_KEY_NAME 6 (encode_lists keks_BB) 61 gEfiGlobalVariableGuid key_attrs
    (Some time_1) (Some (replicate 32 x00)).
Definition store_keys : storage := store_of [var_PK; var_KEK].
Definition db_state : auth_state :=
  mk_auth store_keys USER_MODE true true (auth_object time_2 cert_BB (encode_lists old_lists)).

Lemma var_KEK_ok : live_wf var_KEK /\ canonical var_KEK.
Proof.
  assert (Hn : canonical_name EFI_KEY_EXCHANGE_KEY_NAME 6) by (by repeat constructor).
  split; [|by apply created_canonical].
  apply created_live_wf; try done; try apply Hn; try clia.
  - intros t [= <-]. unfold time_ok; cbn; lia.
  - by intros c [= <-].
Qed.

Lemma store_keys_inv : storage_inv store_keys.
Proof.
  destruct var_PK_ok as [L1 C1], var_KEK_ok as [L2 C2].
  unfold store_keys. apply store_of_inv; [by apply Forall_cons_2, Forall_singleton..| |cbn; lia].
  apply NoDup_cons. split; [|apply NoDup_singleton]. rewrite list_elem_of_singleton.
  by vm_compute.
Qed.

Lemma toy_resources : @resources toy_openssl.
Proof. by constructor. Qed.

Lemma db_call : key_call db_state EFI_IMAGE_SECURITY_DATABASE [0x64; 0x62] 4
                  gEfiImageSecurityDatabaseGuid key_attrs.
Proof.
  constructor; try done; try (vm_compute; congruence).
  - exact store_keys_inv.
  - apply cstr16_L. by repeat constructor.
Qed.

Lemma db_update :
  @key_update zero_allocator toy_openssl db_state [0x64; 0x62] gEfiImageSecurityDatabaseGuid time_2 cert_BB old_lists (content_info_header 17 ++ cert_BB)
    (take 32 (cert_BB ++ cert_BB ++ replicate 32 x00)).
Proof.
  constructor; try done.
  - apply sample_lists_ok.
  - by repeat constructor.
  - by intros is_pk [= <-].
  - by eexists.
Qed.

(** The certificate BB may sign databases of a store with these keys. *)
Lemma BB_trusted (s : auth_state) :
  stored_PK s = Some (value_of var_PK) -> stored_KEK s = Some (value_of var_KEK) ->
  @trusted_signer toy_openssl s gEfiImageSecurityDatabaseGuid (content_info_header 17 ++ cert_BB)
    cert_BB.
Proof.
  intros Hpk Hkek. right. split; [done|]. split.
  - intros x Hx. rewrite Hpk in Hx. injection Hx as <-.
    exists (mk_siglist gEfiCertX509Guid [] 17 [sig_AA]), [].
    split; [repeat constructor; vm_compute; congruence|done].
  - exists keks_BB. split; [|by left]. eexists. split; [exact Hkek|]. split; [done|].
    split; [repeat constructor; vm_compute; congruence|]. constructor; [|done].
    intros _. split; [done|]. constructor; [|done]. by eexists.
Qed.

Lemma db_signer :
  @trusted_signer toy_openssl db_state gEfiImageSecurityDatabaseGuid
    (content_info_header 17 ++ cert_BB) cert_BB.
Proof. by apply BB_trusted; vm_compute. Qed.

Lemma signed_key_update_takes_effect_witness :
  exists s',
    @auth_lib_process_variable zero_allocator toy_openssl EFI_IMAGE_SECURITY_DATABASE 4
      gEfiImageSecurityDatabaseGuid (zlen (au_data db_state)) key_attrs db_state
      = Ok (EFI_SUCCESS, s') /\
    s' = set_store (au_store s') db_state /\ storage_inv (au_store s') /\
    abs (variables (au_store s'))
    = <[arg_key EFI_IMAGE_SECURITY_DATABASE 4 gEfiImageSecurityDatabaseGuid :=
          mk_value key_attrs (encode_lists old_lists) time_2
            (take 32 (cert_BB ++ cert_BB ++ replicate 32 x00))]>
        (abs (variables (au_store db_state))).
Proof.
  apply (@signed_key_update_takes_effect zero_allocator toy_openssl db_state
           EFI_IMAGE_SECURITY_DATABASE [0x64; 0x62] 4 gEfiImageSecurityDatabaseGuid key_attrs
           time_2 cert_BB old_lists (content_info_header 17 ++ cert_BB)
           (take 32 (cert_BB ++ cert_BB ++ replicate 32 x00)) cert_BB);
    [exact toy_resources|apply zero_allocator_grants| |reflexivity|exact db_call|exact db_update|reflexivity
    |intros x Hx; vm_compute in Hx; discriminate|vm_compute; reflexivity|exact db_signer
    |reflexivity].
  intros certs cert [= <-] [= <-]. reflexivity.
Defined.
