(* ===== verification/KeyAppends.v ===== *)
(** * Appends to the signature databases

    A signed update with the append bit: the signatures that are new are added
    to KEK, db, dbx or dbt, and the time stamp becomes that of the update, also
    when it is older than the stored one. *)
From S2P Require Import Prelude EfiTypes Common UefiVariable Storage StorageInv StorageSpec.
From S2P Require Import Samples Requests Crypto SigList Auth AuthSamples AuthSpec.
From S2P Require Import AuthSecurity SignedData SigListSpec Accepted AuthObject KeyUpdates.

(** ** The variables whose appends are filtered *)
Lemma is_var_ok v cs ds :
  live_wf v -> var_namesz v = 2 * zlen cs -> take (Z.to_nat (var_namesz v)) (var_name v) = wchars cs ->
  is_var v (L ds) = Ok (bool_decide (wchars cs = wchars ds)).
Proof.
  intros Hv Hn Hname. unfold is_var. rewrite sizeof_wchar_L.
  pose proof (lw_name _ Hv). pose proof (lw_namesz _ Hv).
  destruct (Z.eqb_spec (var_namesz v) (2 * zlen ds)) as [E|E].
  - rewrite memcmp_eq_ok by (rewrite ?zlen_L; lia). change (Z.to_nat 0) with 0%nat.
    rewrite !drop_0, Hname. unfold L. do 2 f_equal.
    replace (Z.to_nat (var_namesz v)) with (length (wchars ds)); [by rewrite take_app_length|].
    pose proof (zlen_wchars ds). unfold zlen in *. lia.
  - rewrite bool_decide_false; [done|]. intros Heq. apply E. rewrite Hn.
    apply (f_equal zlen) in Heq. by rewrite !zlen_wchars in Heq.
Qed.

Lemma is_signature_list_ok v cs g :
  live_wf v -> var_key v = (wchars cs, g) -> var_namesz v = 2 * zlen cs ->
  checked_name g cs = Some false -> is_signature_list_var v = Ok true.
Proof.
  intros Hv [= Hname Hg] Hn. unfold checked_name, is_signature_list_var. rewrite Hg.
  unfold EFI_KEY_EXCHANGE_KEY_NAME, EFI_IMAGE_SECURITY_DATABASE,
    EFI_IMAGE_SECURITY_DATABASE1, EFI_IMAGE_SECURITY_DATABASE2.
  rewrite !(is_var_ok v cs) by done. rewrite !or_else_ok.
  destruct (compare_guid g gEfiGlobalVariableGuid) eqn:Eg.
  - apply compare_guid_spec in Eg as ->.
    change (compare_guid gEfiGlobalVariableGuid gEfiImageSecurityDatabaseGuid) with false.
    destruct (bool_decide (cs = [80; 75])); [done|].
    destruct (bool_decide_reflect (cs = [75; 69; 75])) as [->|]; [|done]. done.
  - destruct (compare_guid g gEfiImageSecurityDatabaseGuid); [|done].
    destruct (bool_decide_reflect (cs ∈ [[100; 98]; [100; 98; 120]; [100; 98; 116]])) as [Hin|]; [|done].
    rewrite !elem_of_cons, elem_of_nil in Hin. by destruct Hin as [->|[->|[->|[]]]].
Qed.

Section appends.
Context `{Allocator} `{OpenSSL}.
#[local] Set Default Proof Using "All".

(** The digest of the signer is written into the slot of the variable. *)
Lemma digest_step s n sz g y d :
  storage_inv (au_store s) -> 2 <= sz -> sz <= zlen n -> zlen g = 16 ->
  stored s n sz g = Some y -> sha256_from_auth (au_data s) = Ok (EFI_SUCCESS, Some d) ->
  exists st', 
    ('(status, var) <- on_store (storage_get_var_ptr (Some n) sz (Some g)) ;;
     match var with
     | None => ret (status, None)
     | Some i =>
         '(status, digest) <- with_data_object sha256_from_auth ;;
         match digest with
         | None => ret (status, None)
         | Some d => set_slot_cert i d ;; ret (status, Some (false && (status =? EFI_SUCCESS)))
         end
     end) s = Ok ((EFI_SUCCESS, Some false), set_store st' s) /\
    storage_inv st' /\
    abs (variables st') = <[arg_key n sz g := with_val_cert d y]> (abs (variables (au_store s))).
Proof using Type.
  intros Hs Hsz Hn Hg Hy Hd.
  destruct (get_var_ptr_stored s n sz g) as (r & Hrun & Hx); [apply Hs|lia|done..|].
  rewrite Hy in Hx. destruct Hx as (i & v & -> & Hi & Hv & Hk & ->).
  pose proof (sha256_from_auth_some _ _ _ Hd) as [_ Hdl].
  eexists. split; [|split].
  - unfold bind at 1. rewrite Hrun. unfold bind at 1. rewrite (run_on_data s _ _ Hd).
    unfold bind. rewrite (set_slot_cert_ok s _ _ _ Hi Hv Hdl). done.
  - apply (set_slot_inv _ _ v); [done|done|by apply live_wf_live|by apply with_cert_live| |done].
    destruct (slot_canonical_live _ _ _ Hs Hi (live_wf_live _ Hv)). by constructor.
  - cbn [variables set_slot set_variables].
    rewrite (abs_insert _ _ v); [|apply Hs|done|by apply live_wf_live, with_cert_live|done|].
    + by rewrite <-Hk.
    + intros Hl. by rewrite (live_wf_live _ Hv) in Hl.
Qed.

(** A time-stamped append to a variable that has room for it. *)
Lemma spec_append_plain k data attrs t m x :
  has attrs EFI_VARIABLE_APPEND_WRITE = true -> attrs <> 0 -> data <> [] -> m !! k = Some x ->
  val_attrs x = Z.ldiff attrs EFI_VARIABLE_APPEND_WRITE ->
  zlen (val_data x) + zlen data <= MAX_VARIABLE_DATA_SIZE ->
  spec_set_with_timestamp k data attrs t m
  = (EFI_SUCCESS, <[k := mk_value (val_attrs x) (val_data x ++ data) t (val_cert x)]> m).
Proof using Type.
  intros Happ Hnz Hne Hk Hattrs Hmax. unfold spec_set_with_timestamp, spec_set.
  assert (E0 : (zlen data =? 0) = false) by (apply Z.eqb_neq; intros E; by apply Hne, zlen_nil_inv).
  rewrite Happ, E0, (proj2 (Z.eqb_neq _ _) Hnz), Hk, Hattrs, Z.eqb_refl. cbn [negb andb orb].
  unfold updated_data. rewrite Z.gtb_ltb, (proj2 (Z.ltb_ge _ _)) by done.
  unfold is_delete. rewrite E0, (proj2 (Z.eqb_neq _ _) Hnz). cbn [orb].
  rewrite lookup_insert_eq, insert_insert_eq. unfold with_val_time, with_val_data.
  cbn [val_attrs val_data val_cert]. by rewrite Hattrs.
Qed.

Section call.
Context (G : grants INT_MAX).
Variables (s : auth_state) (n : bytes) (cs : list Z) (sz : Z) (g : EFI_GUID) (attrs : Z).
Variables (t : EFI_TIME) (sig : bytes) (ls olds : list siglist) (p : PKCS7) (d : bytes).
Variable (x : value).
Hypothesis (C : key_call s n cs sz g attrs) (U : key_update s cs g t sig ls p d).
Hypothesis (Happ : has attrs EFI_VARIABLE_APPEND_WRITE = true).
Hypothesis (Hname : checked_name g cs = Some false) (Hsz : sz = 2 * zlen cs).
Hypothesis (Hx : stored s n sz g = Some x) (Hattrs : val_attrs x = Z.ldiff attrs EFI_VARIABLE_APPEND_WRITE).
Hypothesis (Hold : val_data x = encode_lists olds) (Holds : Forall list_ok olds).

(** What is appended, the data object after the filter, and the new value. *)
Definition added : bytes := encode_lists (filter_lists olds ls).
Definition filtered_data : bytes := auth_object t sig (overwrite added (encode_lists ls)).
Definition appended_value : value :=
  if decide (added = []) then with_val_cert d x
  else mk_value (val_attrs x) (val_data x ++ added) t d.

Hypothesis (Hmax : zlen (val_data x) + zlen added <= MAX_VARIABLE_DATA_SIZE).

Lemma append_later : later s n sz g attrs t.
Proof using Happ. intros Ha. congruence. Qed.

Lemma append_sizes :
  2 <= sz /\ sz <= zlen n /\ zlen (au_data s) = 40 + zlen sig + zlen (encode_lists ls) /\
  17 <= zlen sig < 0x1000000 /\ 40 + zlen sig + zlen (encode_lists ls) <= MAX_VARIABLE_DATA_SIZE.
Proof using All.
  by destruct (call_sizes G s n cs sz g attrs t sig ls p d C U append_later)
    as (? & ? & ? & _ & ? & ?).
Qed.

Lemma append_key : arg_key n sz g = (wchars cs, g).
Proof using All.
  unfold arg_key. f_equal. destruct (kc_chars C) as [_ [r Hr]]. rewrite Hr.
  replace (Z.to_nat sz) with (length (wchars cs)); [by rewrite take_app_length|].
  pose proof (zlen_wchars cs). unfold zlen in *. lia.
Qed.

Lemma zlen_added : zlen added <= zlen (encode_lists ls).
Proof using All. apply zlen_filter_lists, (ku_lists U). Qed.

(** The filter edits the payload in place. *)
Lemma filter_runs :
  FilterSignatureList (val_data x) (zlen (val_data x)) (au_data s) (40 + zlen sig)
    (zlen (encode_lists ls)) = Ok (EFI_SUCCESS, filtered_data, zlen added).
Proof.
  destruct append_sizes as (_ & _ & Hd & Hsig & Hlen). pose proof (ku_data U) as Hdata.
  set (pre := time_bytes t ++ le_encode 4 (24 + zlen sig) ++ le_encode 2 0x200 ++
    le_encode 2 WIN_CERT_TYPE_EFI_GUID ++ gEfiCertPkcs7Guid ++ sig).
  assert (Hobj : forall b, auth_object t sig b = pre ++ b ++ []).
  { intros b. unfold auth_object, pre. rewrite app_nil_r, <-!app_assoc. done. }
  assert (Hpre : 40 + zlen sig = zlen pre).
  { pose proof (zlen_auth_object t sig []) as Hz. rewrite Hobj, !app_nil_r, zlen_nil in Hz. lia. }
  rewrite Hdata, Hold, Hpre, (Hobj (encode_lists ls)).
  rewrite (filter_signature_list_ok olds ls (encode_lists olds) pre []); [|done|apply U| |].
  - unfold filtered_data. by rewrite Hobj.
  - exists [], []. by rewrite app_nil_r.
  - eapply grants_le; [exact G|]. unfold MAX_VARIABLE_DATA_SIZE, KB, INT_MAX in *. lia.
Qed.

(** The update of the store: the lists that remain, or nothing. *)
Lemma append_update :
  exists st',
    auth_internal_update_variable_with_timestamp n sz g (40 + zlen sig) (zlen (encode_lists ls))
      attrs s = Ok (EFI_SUCCESS, set_store st' (set_data filtered_data s)) /\
    storage_inv st' /\
    abs (variables st')
    = if decide (added = []) then abs (variables (au_store s))
      else <[arg_key n sz g := mk_value (val_attrs x) (val_data x ++ added) t (val_cert x)]>
             (abs (variables (au_store s))).
Proof.
  destruct append_sizes as (Hsz2 & Ho & Hd & Hsig & Hlen). pose proof zlen_added as Hadd.
  unfold auth_internal_update_variable_with_timestamp.
  destruct (get_var_ptr_stored s n sz g) as (r & Hrun & Hslot);
    [apply (kc_store C)|lia|done|apply (kc_guid C)|].
  rewrite Hx in Hslot. destruct Hslot as (i & v & -> & Hi & Hv & Hk & Hval).
  unfold bind at 1. rewrite Hrun. unfold bind at 1, mget at 1. cbv zeta. rewrite Happ.
  unfold bind at 1, mlift at 1. rewrite (slot_at_ok _ _ _ Hi).
  assert (Hnsz : var_namesz v = 2 * zlen cs).
  { rewrite <-Hsz. apply (has_key_namesz v n sz g); [by apply live_slot_wf|lia|done|].
    split; [by apply live_wf_live|done]. }
  unfold bind at 1, mlift at 1. rewrite append_key in Hk.
  rewrite (is_signature_list_ok v cs g Hv Hk Hnsz Hname).
  destruct (lw_data _ Hv) as (dv & Hdv & Hdsz).
  assert (Hvd : val_data x = dv) by (rewrite Hval; by apply val_data_of).
  rewrite Hdv, <-Hdsz, <-Hvd. unfold bind at 1, mlift at 1. rewrite filter_runs.
  unfold bind at 1, mmodify.
  destruct (decide (added = [])) as [E|E].
  { rewrite E. cbn [zlen length Z.of_nat Z.eqb ret]. exists (au_store s). split_and!; [|apply C|done].
    done. }
  rewrite (proj2 (Z.eqb_neq (zlen added) 0)) by (intros E2; by apply E, zlen_nil_inv).
  unfold bind at 1, mget. cbn [au_data set_data]. unfold bind at 1, mlift.
  unfold filtered_data at 1. rewrite (object_time t sig _ (ku_time U) Hsig).
  unfold on_store, mzoom. cbn [au_store set_data].
  assert (Hdrop : drop (Z.to_nat (40 + zlen sig)) filtered_data = overwrite added (encode_lists ls)).
  { pose proof (object_payload t sig (overwrite added (encode_lists ls)) (ku_time U) Hsig) as Hp.
    rewrite take_ge in Hp; [done|]. rewrite length_drop.
    pose proof (zlen_auth_object t sig (overwrite added (encode_lists ls))). unfold zlen in *. lia. }
  rewrite Hdrop. pose proof (zlen_overwrite added (encode_lists ls) Hadd) as Hover.
  pose proof (zlen_nonneg added). unfold MAX_VARIABLE_DATA_SIZE, KB in Hlen.
  destruct (storage_set_with_timestamp_refines (au_store s) n sz g
              (overwrite added (encode_lists ls)) (zlen added) attrs t)
    as (st1 & store1 & -> & Hinv & Hspec & _);
    [eapply grants_le; [exact G|vm_compute; discriminate]|apply C|apply C|apply C
    |unfold MAX_VARIABLE_DATA_SIZE, KB; lia|lia|pose proof (kc_attrs C); lia|apply (ku_time U)|].
  assert (Htake : take (Z.to_nat (zlen added)) (overwrite added (encode_lists ls)) = added).
  { unfold overwrite. replace (Z.to_nat (zlen added)) with (length added) by (unfold zlen; lia).
    apply take_app_length. }
  rewrite Htake in Hspec.
  rewrite (spec_append_plain _ _ _ _ _ x) in Hspec; try done; [|pose proof (kc_attrs C); lia].
  injection Hspec as -> Habs. exists store1. done.
Qed.

(** The state after the append. *)
Definition appended (s' : auth_state) : Prop :=
  exists st', s' = set_store st' (set_data filtered_data s) /\ storage_inv st' /\
    abs (variables st') = <[arg_key n sz g := appended_value]> (abs (variables (au_store s))).

Lemma filtered_signer : sha256_from_auth filtered_data = Ok (EFI_SUCCESS, Some d).
Proof.
  destruct append_sizes as (_ & _ & _ & Hsig & _). unfold sha256_from_auth, filtered_data.
  rewrite (object_pkcs7 _ _ _ (ku_time U) Hsig G p (ku_pkcs7 U) (ku_signed U)). cbn [obind].
  destruct (ku_signer U) as [top Htop]. by rewrite Htop.
Qed.

Lemma accepted_appended ty :
  verify_time_based_payload n sz g (zlen (au_data s)) attrs ty (val_time <$> stored s n sz g) s
    = Ok ((EFI_SUCCESS, Some (40 + zlen sig, zlen (encode_lists ls))), s) ->
  exists s', verify_time_based_payload_and_update n sz g (zlen (au_data s)) attrs ty s
             = Ok ((EFI_SUCCESS, Some false), s') /\ appended s'.
Proof.
  intros Hv. destruct append_sizes as (Hsz2 & Ho & _).
  rewrite (update_answer s n sz g _ attrs ty _ _ (kc_store C) Hsz2 Ho (kc_guid C) Hv).
  rewrite Happ, andb_false_r. unfold apply_update.
  destruct append_update as (st1 & Hrun & Hinv & Habs). unfold bind at 1. rewrite Hrun.
  cbn [Z.eqb EFI_SUCCESS negb andb].
  set (s1 := set_store st1 (set_data filtered_data s)).
  set (y := if decide (added = []) then x
            else mk_value (val_attrs x) (val_data x ++ added) t (val_cert x)).
  assert (Hy : stored s1 n sz g = Some y).
  { unfold stored, y. cbn [au_store s1 set_store]. rewrite Habs.
    destruct (decide (added = [])); [exact Hx|apply lookup_insert_eq]. }
  destruct (digest_step s1 n sz g y d Hinv Hsz2 Ho (kc_guid C) Hy filtered_signer)
    as (st2 & Hrun2 & Hinv2 & Habs2).
  exists (set_store st2 s1). split; [exact Hrun2|]. exists st2. split_and!; [done|done|].
  rewrite Habs2. cbn [au_store s1 set_store]. rewrite Habs. unfold y, appended_value.
  destruct (decide (added = [])); [done|]. by rewrite insert_insert_eq.
Qed.

End call.

(** C10: A correctly signed append adds the new signatures.  In user mode, let
    the data object be an update with the append bit, of KEK, db, dbx or dbt,
    whose signature verifies against the PK or, for a database, a certificate
    of the KEK.  Then [auth_lib_process_variable] succeeds and exactly that
    variable changes: the signatures its lists do not hold yet are added at the
    end and the time stamp is that of the update, earlier or later than the
    stored one; without new signatures the value and the time stamp stay.  The
    digest of the signer is stored in both cases. *)
Theorem signed_append_takes_effect (s : auth_state) (n : bytes) (cs : list Z) (sz : Z)
    (g : EFI_GUID) (attrs : Z) (t : EFI_TIME) (sig : bytes) (ls olds : list siglist)
    (p : PKCS7) (d : bytes) (cert : X509) (x : value) :
  resources -> grants INT_MAX -> der_fits p ->
  setup_mode s = USER_MODE -> key_call s n cs sz g attrs -> key_update s cs g t sig ls p d ->
  has attrs EFI_VARIABLE_APPEND_WRITE = true ->
  checked_name g cs = Some false -> sz = 2 * zlen cs ->
  stored s n sz g = Some x -> val_attrs x = Z.ldiff attrs EFI_VARIABLE_APPEND_WRITE ->
  val_data x = encode_lists olds -> Forall list_ok olds ->
  zlen (val_data x) + zlen (encode_lists (filter_lists olds ls)) <= MAX_VARIABLE_DATA_SIZE ->
  trusted_signer s g p cert -> PKCS7_verify p cert (key_content cs g attrs t ls) = true ->
  exists s',
    auth_lib_process_variable n sz g (zlen (au_data s)) attrs s = Ok (EFI_SUCCESS, s') /\
    setup_mode s' = USER_MODE /\ storage_inv (au_store s') /\
    abs (variables (au_store s'))
    = <[arg_key n sz g :=
          if decide (encode_lists (filter_lists olds ls) = []) then with_val_cert d x
          else mk_value (val_attrs x) (val_data x ++ encode_lists (filter_lists olds ls)) t d]>
        (abs (variables (au_store s))).
Proof.
  intros R G Hder Huser C U Happ Hname Hsz Hx Hattrs Hold Holds Hmax Htrust Hver.
  assert (Hl : later s n sz g attrs t) by (intros Ha; congruence).
  destruct (call_succeeds G s n cs sz g attrs t sig ls p d C U Hl
              (appended s n sz g t sig ls olds d x) Huser) with (cert := cert)
    as (s' & Hr & st' & -> & Hinv & Habs); try done.
  - by intros s' (st' & -> & _).
  - intros ty Hv. by apply (accepted_appended G s n cs sz g attrs t sig ls olds p d x C U).
  - eexists. split; [exact Hr|]. split_and!; [exact Huser|exact Hinv|exact Habs].
Qed.

End appends.

(** ** An append to db with an older time

    The stored db has the time stamp [time_2]; the append is a year older. *)
Definition var_db : variable_t :=
  created EFI_IMAGE_SECURITY_DATABASE 4 (encode_lists old_lists) 45 gEfiImageSecurityDatabaseGuid
    key_attrs (Some time_2) (Some (replicate 32 x00)).
Definition value_db : value := mk_value key_attrs (encode_lists old_lists) time_2 (replicate 32 x00).
Definition store_db : storage := store_of [var_PK; var_KEK; var_db].
Definition append_attrs : Z := Z.lor key_attrs EFI_VARIABLE_APPEND_WRITE.
Definition append_state : auth_state :=
  mk_auth store_db USER_MODE true true (auth_object time_1 cert_BB (encode_lists new_lists)).

Lemma store_db_inv : storage_inv store_db.
Proof.
  destruct var_PK_ok as [L1 C1], var_KEK_ok as [L2 C2].
  assert (Hn : canonical_name EFI_IMAGE_SECURITY_DATABASE 4) by (by repeat constructor).
  assert (L3 : live_wf var_db).
  { apply created_live_wf; try done; try apply Hn; try clia.
    - intros t [= <-]. unfold time_ok; cbn; lia.
    - by intros c [= <-]. }
  assert (C3 : canonical var_db) by (by apply created_canonical).
  unfold store_db. apply store_of_inv; [| |apply (bool_decide_eq_true_1 _); by vm_compute|cbn; lia].
  - by apply Forall_cons_2, Forall_cons_2, Forall_singleton.
  - by apply Forall_cons_2, Forall_cons_2, Forall_singleton.
Qed.

Lemma append_call : key_call append_state EFI_IMAGE_SECURITY_DATABASE [0x64; 0x62] 4
                      gEfiImageSecurityDatabaseGuid append_attrs.
Proof.
  constructor; try done; try (vm_compute; congruence).
  - exact store_db_inv.
  - apply cstr16_L. by repeat constructor.
Qed.

Lemma append_object :
  @key_update zero_allocator toy_openssl append_state [0x64; 0x62] gEfiImageSecurityDatabaseGuid
    time_1 cert_BB new_lists (content_info_header 17 ++ cert_BB)
    (take 32 (cert_BB ++ cert_BB ++ replicate 32 x00)).
Proof.
  constructor; try done.
  - apply sample_lists_ok.
  - by repeat constructor.
  - by intros is_pk [= <-].
  - by eexists.
Qed.

Lemma append_signer :
  @trusted_signer toy_openssl append_state gEfiImageSecurityDatabaseGuid
    (content_info_header 17 ++ cert_BB) cert_BB.
Proof. by apply BB_trusted; vm_compute. Qed.

Lemma signed_append_takes_effect_witness :
  exists s',
    @auth_lib_process_variable zero_allocator toy_openssl EFI_IMAGE_SECURITY_DATABASE 4
      gEfiImageSecurityDatabaseGuid (zlen (au_data append_state)) append_attrs append_state
      = Ok (EFI_SUCCESS, s') /\
    setup_mode s' = USER_MODE /\ storage_inv (au_store s') /\
    abs (variables (au_store s'))
    = <[arg_key EFI_IMAGE_SECURITY_DATABASE 4 gEfiImageSecurityDatabaseGuid :=
          if decide (encode_lists (filter_lists old_lists new_lists) = [])
          then with_val_cert (take 32 (cert_BB ++ cert_BB ++ replicate 32 x00)) value_db
          else mk_value (val_attrs value_db)
                 (val_data value_db ++ encode_lists (filter_lists old_lists new_lists)) time_1
                 (take 32 (cert_BB ++ cert_BB ++ replicate 32 x00))]>
        (abs (variables (au_store append_state))).
Proof.
  apply (@signed_append_takes_effect zero_allocator toy_openssl append_state
           EFI_IMAGE_SECURITY_DATABASE [0x64; 0x62] 4 gEfiImageSecurityDatabaseGuid append_attrs
           time_1 cert_BB new_lists old_lists (content_info_header 17 ++ cert_BB)
           (take 32 (cert_BB ++ cert_BB ++ replicate 32 x00)) cert_BB value_db);
    [exact toy_resources|apply zero_allocator_grants| |reflexivity|exact append_call|exact append_object
    |reflexivity|reflexivity|reflexivity|vm_compute; reflexivity|reflexivity|reflexivity
    |exact (proj1 sample_lists_ok)|vm_compute; discriminate|exact append_signer|reflexivity].
  intros certs cert [= <-] [= <-]. reflexivity.
Defined.
