(* ===== verification/KeyEnrolment.v ===== *)
(** * Enrolment of the platform key

    In setup mode an update of PK that is signed with the key it carries
    enrols it: the variable is stored, the platform enters user mode, and the
    variables that publish the mode say so. *)
From S2P Require Import Prelude EfiTypes Common UefiVariable Storage StorageInv StorageSpec.
From S2P Require Import Samples Requests Crypto SigList Auth AuthSamples AuthSpec.
From S2P Require Import AuthSecurity PlatformMode SignedData SigListSpec.
From S2P Require Import Accepted AuthObject KeyUpdates.

(** ** The variables that publish the mode *)

(** They exist, as [auth_lib_initialize] leaves them. *)
Definition mode_variables (m : var_map) : Prop :=
  forall k, is_mode_key k -> exists x, m !! k = Some x /\ val_attrs x = RT_BS_ATTRS.

Lemma spec_set_byte k b m x :
  m !! k = Some x -> val_attrs x = RT_BS_ATTRS ->
  spec_set k [b] RT_BS_ATTRS m = (EFI_SUCCESS, <[k := with_val_data [b] x]> m).
Proof. intros Hk Hx. unfold spec_set. rewrite Hk. cbn -[insert]. by rewrite Hx. Qed.

Lemma mode_variables_insert k x m :
  mode_variables m -> (is_mode_key k -> val_attrs x = RT_BS_ATTRS) -> mode_variables (<[k := x]> m).
Proof.
  intros Hm Hx k' Hk'. destruct (decide (k = k')) as [<-|Hne].
  - exists x. rewrite lookup_insert_eq. by split; [|apply Hx].
  - rewrite lookup_insert_ne by done. by apply Hm.
Qed.

(** So the mode can always be published. *)
Lemma spec_mode_succeeds mode sbe m :
  mode_variables m -> exists m', spec_mode mode sbe m = (EFI_SUCCESS, m').
Proof.
  intros Hm. unfold spec_mode.
  assert (Hstep : forall m name b, mode_variables m -> is_mode_key (global_key name) ->
    exists m1, spec_set (global_key name) [b] RT_BS_ATTRS m = (EFI_SUCCESS, m1) /\
               mode_variables m1).
  { intros m0 name b Hm0 Hk. destruct (Hm0 _ Hk) as (x & Hx & Ha).
    rewrite (spec_set_byte _ _ _ _ Hx Ha). eexists. split; [done|].
    by apply mode_variables_insert. }
  destruct (Hstep m EFI_SECURE_BOOT_MODE_NAME
    (byte_of_Z (if mode =? USER_MODE then Z.b2z sbe else 0)) Hm ltac:(by left)) as (m1 & -> & H1).
  cbn [negb Z.eqb EFI_SUCCESS].
  destruct (Hstep m1 EFI_SETUP_MODE_NAME (byte_of_Z mode) H1 ltac:(by right; left)) as (m2 & -> & H2).
  cbn [negb Z.eqb EFI_SUCCESS].
  destruct (Hstep m2 DEPLOYED_MODE_NAME (byte_of_Z (if mode =? SETUP_MODE then 1 else 0)) H2
    ltac:(by right; right)) as (m3 & -> & _).
  by exists m3.
Qed.

Section enrolment.
Context `{Allocator} `{OpenSSL}.
#[local] Set Default Proof Using "Type*".

(** The certificate that a list of the payload starts with. *)
Lemma payload_carries s off l ls sig rest cert :
  list_ok l -> holds (au_data s) off (encode_lists (l :: ls)) -> l_sigs l = sig :: rest ->
  16 <= l_size l -> sig_cert sig = Some cert -> payload_trusts s off cert.
Proof.
  intros Hl Hh Hsigs H16 Hcert. rewrite encode_lists_cons in Hh. apply holds_app in Hh as [Hh _].
  pose proof (lo_size _ Hl) as Hsz.
  assert (Hsig : zlen sig = l_size l).
  { pose proof (lo_sigs _ Hl) as Hall. rewrite Hsigs in Hall. by apply Forall_cons in Hall as [? _]. }
  exists (zlen (l_header l)), (l_size l).
  rewrite (read_header_size _ _ _ Hl Hh), (read_signature_size _ _ _ Hl Hh). split_and!; [done..|].
  pose proof (sigs_at _ _ _ Hl Hh) as Hs. rewrite Hsigs in Hs. apply holds_sig in Hs as [Hs _].
  rewrite <-Hcert. rewrite <-(sig_cert_read _ _ _ (l_size l) ltac:(lia) Hsig Hs). done.
Qed.

(** The end of a PK update that enrols. *)
Lemma process_pk_setup n sz g data_size attrs s s1 :
  key_attrs_missing attrs = false -> setup_mode s = SETUP_MODE -> setup_mode s1 = SETUP_MODE ->
  verify_time_based_payload_and_update n sz g data_size attrs AUTH_VAR_TYPE_PAYLOAD s
    = Ok ((EFI_SUCCESS, Some false), s1) ->
  process_var_with_pk n sz g data_size attrs true s = update_platform_mode USER_MODE s1.
Proof using Type.
  intros Ha Hm Hm1 Hv. unfold process_var_with_pk. rewrite Ha. unfold bind at 1, mget. cbv zeta.
  rewrite Hm, Z.eqb_refl. unfold bind at 1. unfold bind at 1. rewrite Hv.
  unfold ret at 1. cbv beta iota. rewrite Z.eqb_refl. cbn [andb]. unfold bind at 1, mget.
  by rewrite Hm1, Z.eqb_refl.
Qed.

(** An update signed with the key it carries is stored. *)
Lemma carried_update_stored s n cs sz g attrs t sig l ls first rest p d cert :
  resources -> grants INT_MAX -> key_call s n cs sz g attrs ->
  key_update s cs g t sig (l :: ls) p d -> later s n sz g attrs t ->
  has attrs EFI_VARIABLE_APPEND_WRITE = false ->
  has_room (arg_key n sz g) attrs (abs (variables (au_store s))) ->
  l_sigs l = first :: rest -> 16 <= l_size l -> sig_cert first = Some cert ->
  PKCS7_verify p cert (key_content cs g attrs t (l :: ls)) = true ->
  exists s1,
    verify_time_based_payload_and_update n sz g (zlen (au_data s)) attrs AUTH_VAR_TYPE_PAYLOAD s
      = Ok ((EFI_SUCCESS, Some false), s1) /\
    updated s n sz g attrs t (l :: ls) d s1.
Proof using Type.
  intros R G C U Hlater Happ Hroom Hsigs H16 Hcert Hver.
  destruct (call_content G s n cs sz g attrs t sig (l :: ls) p d C U Hlater) as [Hbuild Hmax].
  pose proof (call_sizes G s n cs sz g attrs t sig (l :: ls) p d C U Hlater) as (_ & _ & _ & _ & Hsig & _).
  apply (accepted_stored G s n cs sz g attrs t sig (l :: ls) p d C U Hlater); [done..|].
  apply (verify_answer s n sz g attrs AUTH_VAR_TYPE_PAYLOAD _ _ _ _ p _ _ true
           (call_object G s n cs sz g attrs t sig (l :: ls) p d C U Hlater)
           (call_declared G s n cs sz g attrs t sig (l :: ls) p d C U Hlater) Hbuild).
  pose proof (zlen_nonneg (key_content cs g attrs t (l :: ls))) as Hpos.
  rewrite (verify_payload_ok R G p _ _ _ (conj Hpos Hmax) (read_bytes_full _) (ku_signed U) s
             (si_wf _ (kc_store C))
             (call_pkcs7 G s n cs sz g attrs t sig (l :: ls) p d C U Hlater) _ cert); [by rewrite Hver|].
  pose proof (ku_lists U) as [Hl _]%Forall_cons.
  apply (payload_carries s _ l ls first rest); [done| |done..].
  rewrite (ku_data U). by apply object_parts.
Qed.

(** C11: Secure boot can be set up.  In setup mode, let the data object be an
    update of PK as signing tools write it: a valid time later than that of a
    stored PK, a SignedData with SHA-256, a well-formed list; and let OpenSSL
    verify the signature over name, GUID, attributes, time and list against
    the certificate that the list itself carries.  Then
    [auth_lib_process_variable] succeeds and the platform is in user mode: PK
    holds the list, SetupMode and DeployedMode are 0, SecureBoot is 1 when
    secure boot is enabled, and every other variable is as it was. *)
Theorem platform_key_enrolled (s : auth_state) (n : bytes) (attrs : Z) (t : EFI_TIME)
    (sig : bytes) (l : siglist) (ls : list siglist) (first : bytes) (rest : list bytes)
    (p : PKCS7) (d : bytes) (cert : X509) :
  resources -> grants INT_MAX -> setup_mode s = SETUP_MODE -> names_PK n ->
  key_call s n [0x50; 0x4b] 4 gEfiGlobalVariableGuid attrs ->
  key_update s [0x50; 0x4b] gEfiGlobalVariableGuid t sig (l :: ls) p d ->
  has attrs EFI_VARIABLE_APPEND_WRITE = false ->
  (forall x, stored_PK s = Some x -> time_key (val_time x) < time_key t) ->
  has_room (global_key EFI_PLATFORM_KEY_NAME) attrs (abs (variables (au_store s))) ->
  mode_variables (abs (variables (au_store s))) ->
  l_sigs l = first :: rest -> 16 <= l_size l -> sig_cert first = Some cert ->
  PKCS7_verify p cert (key_content [0x50; 0x4b] gEfiGlobalVariableGuid attrs t (l :: ls)) = true ->
  exists s',
    auth_lib_process_variable n 4 gEfiGlobalVariableGuid (zlen (au_data s)) attrs s
      = Ok (EFI_SUCCESS, s') /\
    setup_mode s' = USER_MODE /\ storage_inv (au_store s') /\
    stored_PK s' = Some (mk_value attrs (encode_lists (l :: ls)) t d) /\
    holds_byte (abs (variables (au_store s'))) (global_key EFI_SECURE_BOOT_MODE_NAME)
      (if secure_boot_enabled s then x01 else x00) /\
    holds_byte (abs (variables (au_store s'))) (global_key EFI_SETUP_MODE_NAME) x00 /\
    holds_byte (abs (variables (au_store s'))) (global_key DEPLOYED_MODE_NAME) x00 /\
    forall k, ~ is_mode_key k -> k <> global_key EFI_PLATFORM_KEY_NAME ->
      abs (variables (au_store s')) !! k = abs (variables (au_store s)) !! k.
Proof.
  intros R G Hm Hn C U Happ Hlater Hroom Hvars Hsigs H16 Hcert Hver.
  pose proof (np_key _ Hn) as Hk.
  change (global_key EFI_PLATFORM_KEY_NAME) with (arg_key EFI_PLATFORM_KEY_NAME 4 gEfiGlobalVariableGuid)
    in *.
  destruct (carried_update_stored s n [0x50; 0x4b] 4 gEfiGlobalVariableGuid attrs t sig l ls first
    rest p d cert) as (s1 & Hr & He & Hi & Ha); try done.
  { intros _ x. unfold stored. rewrite Hk. apply Hlater. }
  { by rewrite Hk. }
  rewrite Hk in Ha.
  assert (G' : grants MAX_VARIABLE_DATA_SIZE) by (eapply grants_le; [exact G|vm_compute; discriminate]).
  destruct (update_platform_mode_refines s1 USER_MODE G' Hi) as (st & s' & Hr' & Hi' & He' & Hspec);
    [by left|].
  destruct (spec_mode_succeeds USER_MODE (secure_boot_enabled s1) (abs (variables (au_store s1))))
    as [m' Hm'].
  { rewrite Ha. apply mode_variables_insert; [done|]. intros Hpk. by destruct PK_not_mode_key. }
  rewrite Hm' in Hspec. injection Hspec as -> <-.
  apply spec_mode_success in Hm' as (Hsb & Hset & Hdep & Hrest).
  exists s'. split.
  { destruct (dispatch_key n [0x50; 0x4b] 4 gEfiGlobalVariableGuid (zlen (au_data s)) attrs true s
      (kc_chars C) (kc_len C) eq_refl) as [-> _].
    rewrite (proj2 (compare_guid_spec _ _) eq_refl).
    rewrite (process_pk_setup _ _ _ _ _ s s1); [done|apply C|done|by rewrite He|done]. }
  split_and!; [by rewrite He'|done| | |done|done|].
  - unfold stored_PK, stored. rewrite Hrest by apply PK_not_mode_key. by rewrite Ha, lookup_insert_eq.
  - replace (secure_boot_enabled s1) with (secure_boot_enabled s) in Hsb by by rewrite He.
    by destruct (secure_boot_enabled s).
  - intros k Hk1 Hk2. rewrite Hrest by done. by rewrite Ha, lookup_insert_ne by done.
Qed.

End enrolment.

(** ** A machine in setup mode

    The mode variables are those of setup mode, secure boot is enabled; the
    update carries and is signed with the certificate BB. *)
Definition mode_var (name : bytes) (b : byte) : variable_t :=
  created name (sizeof_wchar name) [b] 1 gEfiGlobalVariableGuid RT_BS_ATTRS None None.
Definition mode_vars : list variable_t :=
  [mode_var EFI_SECURE_BOOT_MODE_NAME x00; mode_var EFI_SETUP_MODE_NAME x01;
   mode_var DEPLOYED_MODE_NAME x01].
Definition setup_state : auth_state :=
  mk_auth (store_of mode_vars) SETUP_MODE true true
    (auth_object time_1 cert_BB (encode_lists keks_BB)).

Lemma mode_var_ok name b :
  canonical_name name (sizeof_wchar name) -> live_wf (mode_var name b) /\ canonical (mode_var name b).
Proof.
  intros Hn. split; [|by apply created_canonical].
  apply created_live_wf; try done; try apply Hn; try clia.
Qed.

Lemma setup_store_inv : storage_inv (store_of mode_vars).
Proof.
  destruct mode_names_ok as (N1 & N2 & N3).
  destruct (mode_var_ok _ x00 N1) as [L1 C1], (mode_var_ok _ x01 N2) as [L2 C2],
    (mode_var_ok _ x01 N3) as [L3 C3].
  apply store_of_inv; [| |apply (bool_decide_eq_true_1 _); by vm_compute|cbn; lia];
    by apply Forall_cons_2, Forall_cons_2, Forall_singleton.
Qed.

Lemma setup_mode_variables : mode_variables (abs (variables (au_store setup_state))).
Proof. intros k [->|[->| ->]]; (eexists; split; [vm_compute; reflexivity|reflexivity]). Qed.

Lemma setup_call : key_call setup_state EFI_PLATFORM_KEY_NAME [0x50; 0x4b] 4 gEfiGlobalVariableGuid
                     key_attrs.
Proof.
  constructor; try done; try (vm_compute; congruence).
  - exact setup_store_inv.
  - apply cstr16_L. by repeat constructor.
Qed.

Lemma setup_update :
  @key_update zero_allocator toy_openssl setup_state [0x50; 0x4b] gEfiGlobalVariableGuid time_1
    cert_BB keks_BB (content_info_header 17 ++ cert_BB)
    (take 32 (cert_BB ++ cert_BB ++ replicate 32 x00)).
Proof.
  constructor; try done.
  - repeat constructor; vm_compute; congruence.
  - by repeat constructor.
  - by intros is_pk [= <-].
  - by eexists.
Qed.

Lemma platform_key_enrolled_witness :
  exists s',
    @auth_lib_process_variable zero_allocator toy_openssl EFI_PLATFORM_KEY_NAME 4
      gEfiGlobalVariableGuid (zlen (au_data setup_state)) key_attrs setup_state
      = Ok (EFI_SUCCESS, s') /\
    setup_mode s' = USER_MODE /\ storage_inv (au_store s') /\
    stored_PK s' = Some (mk_value key_attrs (encode_lists keks_BB) time_1
                           (take 32 (cert_BB ++ cert_BB ++ replicate 32 x00))) /\
    holds_byte (abs (variables (au_store s'))) (global_key EFI_SECURE_BOOT_MODE_NAME) x01 /\
    holds_byte (abs (variables (au_store s'))) (global_key EFI_SETUP_MODE_NAME) x00 /\
    holds_byte (abs (variables (au_store s'))) (global_key DEPLOYED_MODE_NAME) x00 /\
    forall k, ~ is_mode_key k -> k <> global_key EFI_PLATFORM_KEY_NAME ->
      abs (variables (au_store s')) !! k = abs (variables (au_store setup_state)) !! k.
Proof.
  apply (@platform_key_enrolled zero_allocator toy_openssl setup_state EFI_PLATFORM_KEY_NAME
           key_attrs time_1 cert_BB (mk_siglist gEfiCertX509Guid [] 33 [replicate 16 x00 ++ cert_BB])
           [] (replicate 16 x00 ++ cert_BB) [] (content_info_header 17 ++ cert_BB)
           (take 32 (cert_BB ++ cert_BB ++ replicate 32 x00)) cert_BB);
    [exact toy_resources|apply zero_allocator_grants|reflexivity
    |split; [exact PK_name_ok|reflexivity]|exact setup_call|exact setup_update|reflexivity
    |intros x Hx; vm_compute in Hx; discriminate|vm_compute; reflexivity
    |exact setup_mode_variables|reflexivity|vm_compute; discriminate|reflexivity|reflexivity].
Defined.
