(* ===== verification/Session.v ===== *)
(** * Sessions of a guest

    A guest writes one request after the other into the page and reads the
    replies.  Over a whole session the server is the abstract store of
    [StorageSpec]: [session_refines_store] composes the replies to the single
    requests.  [guest_enumeration] is the loop of a guest that asks for one name
    after the other, run through the page. *)
From S2P Require Import Prelude LogLevel EfiTypes Common UefiVariable Storage StorageInv StorageSpec.
From S2P Require Import StorageTrace Samples Serializer SerializerSpec Crypto SigList Auth Server.
From S2P Require Import Requests AuthSamples ServerSamples ServerSpec SetVariable.

(** ** The calls of a guest and their abstract answers *)
Inductive guest_call : Type :=
  | GetVariable (name : bytes) (g : EFI_GUID) (size : Z) (rt : bool)
  | SetVariable (name : bytes) (g : EFI_GUID) (data : bytes) (attrs : Z) (rt : bool)
  | QueryVariableInfo (attrs : Z).

Definition request_of (c : guest_call) : bytes :=
  match c with
  | GetVariable name g size rt => get_request name g size rt
  | SetVariable name g data attrs rt => set_request name g data attrs rt
  | QueryVariableInfo attrs =>
      le_encode 4 1 ++ le_encode 4 COMMAND_QUERY_VARIABLE_INFO ++ le_encode 4 attrs
  end.

(** The bytes of the reply and the store afterwards. *)
Definition spec_reply (c : guest_call) (m : var_map) : bytes * var_map :=
  match c with
  | GetVariable name g size rt => (get_reply size (spec_get rt (name, g) m), m)
  | SetVariable name g data attrs _ =>
      if set_guard name g attrs =? EFI_SUCCESS then
        let '(st, m') := spec_set (name, g) data attrs m in (le_encode 8 st, m')
      else (le_encode 8 (set_guard name g attrs), m)
  | QueryVariableInfo attrs => (query_reply attrs m, m)
  end.

Fixpoint spec_session (cs : list guest_call) (m : var_map) : list bytes * var_map :=
  match cs with
  | [] => ([], m)
  | c :: cs' =>
      let '(r, m1) := spec_reply c m in
      let '(rs, m2) := spec_session cs' m1 in (r :: rs, m2)
  end.

(** The calls: arguments that fit the protocol's fields, and for an update that
    passes the checks a name that does not end in a zero character and no
    authentication. *)
Definition guest_call_ok (c : guest_call) : Prop :=
  match c with
  | GetVariable name g size _ =>
      1 <= zlen name <= 256 /\ zlen g = 16 /\ 0 <= size < 0x10000000000000000
  | SetVariable name g data attrs _ =>
      zlen name <= 256 /\ zlen g = 16 /\ zlen data <= MAX_VARIABLE_DATA_SIZE /\
      0 <= attrs < 0x100000000 /\
      (set_guard name g attrs = EFI_SUCCESS ->
       canonical_name name (zlen name) /\ secure_boot_key (name, g) = false /\
       has attrs EFI_VARIABLE_TIME_BASED_AUTHENTICATED_WRITE_ACCESS = false)
  | QueryVariableInfo attrs => 0 <= attrs < 0x100000000
  end.

(** A page with the request of a call at its start. *)
Definition page_for (c : guest_call) (page : bytes) : Prop :=
  zlen page = SHMEM_SIZE /\ exists rest, page = request_of c ++ rest.

(** ** The server over a session *)

(** What a backend owes a session: telling it of a change returns, and leaves the
    stored variables as they are. *)
Class SavesQuietly {E} (b : backend_t E) : Prop :=
  saves_quietly m : be_set b = Some m -> forall st e, storage_inv st ->
    exists r st' e', m (st, e) = Ok (r, (st', e')) /\ storage_inv st' /\
      abs (variables st') = abs (variables st).

Section session.
Context `{Allocator} `{OpenSSL} {E : Type} (backend : option (backend_t E)).
Context (Hbackend : forall b, backend = Some b -> SavesQuietly b).
Abbreviation state := (server E).

(** One request: the page as the guest left it, and as the server leaves it. *)
Definition serve (page : bytes) : M state bytes :=
  mmodify (set_comm_buf page) ;;
  xen_variable_server_handle_request backend true ;;
  s <- mget ;; ret (comm_buf s).

Fixpoint serve_all (pages : list bytes) : M state (list bytes) :=
  match pages with
  | [] => ret []
  | p :: pages' => r <- serve p ;; rs <- serve_all pages' ;; ret (r :: rs)
  end.

Lemma serve_ok page (s s' : state) :
  xen_variable_server_handle_request backend true (set_comm_buf page s) = Ok (tt, s') ->
  serve page s = Ok (comm_buf s', s').
Proof using Type.
  intros Hr. unfold serve. unfold bind at 1, mmodify. by erewrite bind_runs by exact Hr.
Qed.

(** The end of an update: the backend is told, the reply written. *)
Lemma set_finish_ok attrs st (s : state) :
  storage_inv (sv_store s) -> 8 <= zlen (comm_buf s) ->
  exists s', set_finish backend attrs st s = Ok (tt, s') /\ sv_loglevel s' = sv_loglevel s /\
    storage_inv (sv_store s') /\ abs (variables (sv_store s')) = abs (variables (sv_store s)) /\
    comm_buf s' = overwrite (le_encode 8 st) (comm_buf s).
Proof using Hbackend.
  intros Hs Hl. unfold set_finish.
  assert (Hdone : forall s1 : state, comm_buf s1 = comm_buf s -> storage_inv (sv_store s1) ->
    abs (variables (sv_store s1)) = abs (variables (sv_store s)) ->
    sv_loglevel s1 = sv_loglevel s ->
    exists s', reply_status st s1 = Ok (tt, s') /\ sv_loglevel s' = sv_loglevel s /\
      storage_inv (sv_store s') /\ abs (variables (sv_store s')) = abs (variables (sv_store s)) /\
      comm_buf s' = overwrite (le_encode 8 st) (comm_buf s)).
  { intros s1 Hb Hi Ha Hq. rewrite reply_status_ok by by rewrite Hb.
    eexists. split_and!; [done|done|done|done|]. cbn. by rewrite Hb. }
  destruct (_ && _); [|erewrite bind_runs by done; by apply Hdone].
  unfold backend_set. destruct backend as [b|]; [|erewrite bind_runs by done; by apply Hdone].
  destruct (be_set b) as [m|] eqn:Em; [|erewrite bind_runs by done; by apply Hdone].
  destruct (Hbackend b eq_refl m Em (sv_store s) (sv_ext s) Hs) as (r & st' & e' & Hrun & Hi & Ha).
  rewrite (bind_runs _ _ _ tt (mk_server (set_store st' (sv_auth s)) (efi_at_runtime s)
    (comm_buf s) (sv_loglevel s) e')); [by apply Hdone|].
  unfold run_backend, bind, mzoom. by rewrite Hrun.
Qed.

Lemma get_variable_full (s : state) name g size rt rest :
  storage_inv (sv_store s) -> 1 <= zlen name <= 256 -> zlen g = 16 ->
  0 <= size < 0x10000000000000000 ->
  comm_buf s = get_request name g size rt ++ rest -> zlen (comm_buf s) = SHMEM_SIZE -> quiet s ->
  xen_variable_server_handle_request backend true s
  = Ok (tt, set_comm_buf (overwrite (get_reply size (spec_get rt (name, g)
                                                       (abs (variables (sv_store s)))))
                            (comm_buf s)) (set_runtime rt s)).
Proof using Type.
  intros Hs Hn Hg Hz Hb Hl Hq. rewrite (get_variable_replies backend s name g size rt rest) by done.
  unfold spec_get. destruct (_ !! _) as [x|]; [|done]. unfold rt_deny_access.
  by destruct (_ && _).
Qed.

Lemma query_full (s : state) attrs rest :
  storage_inv (sv_store s) -> 0 <= attrs < 0x100000000 ->
  comm_buf s = le_encode 4 1 ++ le_encode 4 COMMAND_QUERY_VARIABLE_INFO ++ le_encode 4 attrs ++
               rest ->
  zlen (comm_buf s) = SHMEM_SIZE ->
  xen_variable_server_handle_request backend true s
  = Ok (tt, set_comm_buf (overwrite (query_reply attrs (abs (variables (sv_store s))))
                            (comm_buf s)) s).
Proof using Type. intros. by rewrite (query_variable_info_replies backend s attrs rest). Qed.

(** One request of a session. *)
Lemma call_refines c page (s : state) :
  grants MAX_VARIABLE_DATA_SIZE -> storage_inv (sv_store s) -> quiet s -> guest_call_ok c ->
  page_for c page ->
  exists s', serve page s
      = Ok (overwrite (spec_reply c (abs (variables (sv_store s)))).1 page, s') /\
    quiet s' /\ storage_inv (sv_store s') /\
    abs (variables (sv_store s')) = (spec_reply c (abs (variables (sv_store s)))).2.
Proof using Hbackend.
  intros G Hs Hq Hc [Hl [rest Hp]]. set (s0 := set_comm_buf page s).
  assert (Hl0 : zlen (comm_buf s0) = SHMEM_SIZE) by done.
  destruct c as [name g size rt|name g data attrs rt|attrs]; cbn [request_of] in Hp.
  - destruct Hc as (Hn & Hg & Hz).
    rewrite (serve_ok page s (set_comm_buf (overwrite (get_reply size (spec_get rt (name, g)
      (abs (variables (sv_store s))))) page) (set_runtime rt s0))).
    { eexists. split; [done|]. by split. }
    fold s0. rewrite (get_variable_full s0 name g size rt rest) by done. done.
  - destruct Hc as (Hn & Hg & Hd & Ha & Hok). cbn [spec_reply].
    assert (Hset : set_page s0 name g data attrs rt)
      by (constructor; try done; by exists rest).
    destruct (set_guard name g attrs =? EFI_SUCCESS) eqn:Eg; cycle 1.
    { apply Z.eqb_neq in Eg. erewrite serve_ok; cycle 1.
      - fold s0. rewrite (set_variable_runs backend _ _ _ _ _ _ Hset), (proj2 (Z.eqb_neq _ _) Eg).
        apply reply_status_ok. change (comm_buf _) with page. rewrite Hl. by vm_compute.
      - eexists. split; [reflexivity|]. by split. }
    apply Z.eqb_eq in Eg. destruct (Hok Eg) as (Hcan & Hsb & Ht).
    destruct (set_variable_plain backend s0 name g data attrs rt) as (st & store' & Hrun & Hi & Hspec);
      [done..|]. change (sv_store s0) with (sv_store s) in Hspec. rewrite <-Hspec.
    clear Hspec.
    destruct (set_finish_ok attrs st (set_sv_store store' (set_runtime rt s0)))
      as (s' & Hf & Hq' & Hi' & Ha' & Hb'); [done|change (comm_buf _) with page; rewrite Hl; by vm_compute|].
    exists s'. rewrite (serve_ok page s s') by (fold s0; by rewrite Hrun). cbn [fst snd].
    rewrite Hb'. unfold quiet. rewrite Hq'. by split_and!.
  - cbn [spec_reply]. erewrite serve_ok; cycle 1.
    + fold s0. apply (query_full s0 attrs rest); [done|done| |done].
      change (comm_buf s0) with page. by rewrite Hp, <-!app_assoc.
    + eexists. split; [reflexivity|]. by split.
Qed.

(** C18: A session of a guest is a session with the abstract store.  Whatever
    the order of its requests (GetVariable, QueryVariableInfo, and SetVariable
    that is refused by the checks, or that asks for no authentication under a
    name that does not end in a zero character), with a backend that returns and
    leaves the variables alone, below the log level DEBUG, every request is
    answered; the replies are, one by one, the bytes of the abstract store's
    answers, at the start of the page the guest had written; and the server ends
    with the abstract store's variables. *)
Theorem session_refines_store (calls : list guest_call) (pages : list bytes) (s : state) :
  grants MAX_VARIABLE_DATA_SIZE -> storage_inv (sv_store s) -> quiet s ->
  Forall guest_call_ok calls -> Forall2 page_for calls pages ->
  exists s',
    serve_all pages s
      = Ok (zip_with overwrite (spec_session calls (abs (variables (sv_store s)))).1 pages, s') /\
    abs (variables (sv_store s')) = (spec_session calls (abs (variables (sv_store s)))).2 /\
    storage_inv (sv_store s').
Proof using Hbackend.
  intros G Hs Hq Hcalls Hpages. revert s Hs Hq. induction Hpages as [|c page calls pages Hp _ IH];
    intros s Hs Hq; [by exists s|]. apply Forall_cons in Hcalls as [Hc Hcalls].
  destruct (call_refines c page s G Hs Hq Hc Hp) as (s1 & H1 & Hq1 & Hi1 & Ha1).
  destruct (IH Hcalls s1 Hi1 Hq1) as (s2 & H2 & Ha2 & Hi2). exists s2.
  cbn [serve_all spec_session]. rewrite (bind_runs _ _ _ _ _ H1), (bind_runs _ _ _ _ _ H2).
  rewrite Ha1 in Ha2 |- *. destruct (spec_reply _ _) as [r m1]. cbn [fst snd] in *.
  destruct (spec_session calls m1) as [rs m2]. by split_and!.
Qed.

(** ** Enumeration through the page

    The guest's loop: it asks for the variable after the one it received last,
    starting from the empty name, and reads name and GUID from the reply. *)
Definition next_page (name : bytes) (g : EFI_GUID) (rt : bool) : bytes :=
  page_of (get_next_request 258 name g rt).

Definition read_next_reply (page : bytes) : option key :=
  if le_decode (take 8 page) =? EFI_SUCCESS then
    let n := Z.to_nat (le_decode (take 8 (drop 8 page))) in
    Some (take n (drop 16 page), take 16 (drop (16 + n) page))
  else None.

Fixpoint guest_loop (fuel : nat) (rt : bool) (name : bytes) (g : EFI_GUID) :
    M state (list key) :=
  match fuel with
  | O => mlift (Fault OutOfFuel)
  | S fuel' =>
      r <- serve (next_page name g rt) ;;
      match read_next_reply r with
      | None => ret []
      | Some k => rest <- guest_loop fuel' rt k.1 k.2 ;; ret (k :: rest)
      end
  end.

Lemma read_success name g page :
  zlen name < 0x10000000000000000 -> zlen g = 16 ->
  read_next_reply (overwrite (le_encode 8 EFI_SUCCESS ++ data_field name ++ g) page)
  = Some (name, g).
Proof using Type.
  intros Hn Hg. pose proof (zlen_nonneg name). unfold read_next_reply, overwrite, data_field.
  rewrite <-!app_assoc.
  rewrite take_app_length' by by rewrite length_le_encode.
  change (le_decode (le_encode 8 EFI_SUCCESS) =? EFI_SUCCESS) with true. cbv iota.
  change 16%nat with (8 + 8)%nat. rewrite <-!drop_drop.
  rewrite (drop_app_length' (le_encode 8 EFI_SUCCESS)) by by rewrite length_le_encode.
  rewrite take_app_length', le_decode_encode by (by rewrite length_le_encode || lia).
  rewrite drop_app_length' by by rewrite length_le_encode.
  rewrite take_app_length' by (unfold zlen; lia).
  rewrite drop_app_length' by (unfold zlen; lia).
  by rewrite take_app_length' by (unfold zlen in Hg; lia).
Qed.

Lemma serve_next rt name g (s : state) :
  storage_inv (sv_store s) -> zlen name <= 256 -> zlen g = 16 ->
  exists r s', serve (next_page name g rt) s = Ok (r, s') /\ sv_store s' = sv_store s /\
    read_next_reply r
    = var_key <$> next_found rt (padded name) (zlen name) g (variables (sv_store s)).
Proof using Type.
  intros Hs Hn Hg. set (page := next_page name g rt).
  assert (Hl : zlen page = SHMEM_SIZE).
  { apply zlen_page_of. unfold get_next_request, data_field. zlia. }
  eexists _, _. split; [|split]; cycle 1.
  3: { apply serve_ok. apply (get_next_replies backend (set_comm_buf page s) 258 name g rt
         (page_rest (get_next_request 258 name g rt))); done. }
  - done.
  - cbn [comm_buf set_comm_buf set_runtime sv_store sv_auth].
    destruct (next_found _ _ _ _ _) as [v|] eqn:En; [|done].
    apply next_found_live in En; [|apply Hs].
    pose proof (lw_namesz _ En). pose proof (lw_name _ En).
    rewrite (proj2 (Z.ltb_ge _ _)) by lia.
    rewrite read_success; [done|zlia|apply En].
Qed.

Lemma guest_loop_from fuel rt (s : state) i v :
  storage_inv (sv_store s) -> variables (sv_store s) !! i = Some v -> live v = true ->
  (length (drop (S i) (variables (sv_store s))) < fuel)%nat ->
  exists s', guest_loop fuel rt (var_key v).1 (var_key v).2 s
    = Ok (var_key <$> filter (accessible rt) (drop (S i) (variables (sv_store s))), s') /\
    sv_store s' = sv_store s.
Proof using Type.
  intros Hs Hi Hl Hf. revert s i v Hs Hi Hl Hf.
  induction fuel as [|fuel IH]; intros s i v Hs Hi Hl Hf; [lia|]. cbn [guest_loop].
  pose proof (slot_wf_live _ (slot_wf_lookup _ _ _ Hs Hi) Hl) as Hw.
  pose proof (lw_namesz _ Hw). pose proof (lw_name _ Hw).
  assert (Hz : zlen (var_key v).1 = var_namesz v) by (cbn; zlia).
  destruct (serve_next rt (var_key v).1 (var_key v).2 s) as (r & s1 & R1 & Hst & Hr);
    [done|lia|apply Hw|].
  rewrite (bind_runs _ _ _ _ _ R1), Hr. clear R1 Hr. unfold next_found.
  rewrite arg_key_padded by done. rewrite (char_at_prefix _ (var_name v) (var_namesz v));
    [|by rewrite take_padded|lia|lia].
  pose proof (lw_first _ Hw). rewrite (proj2 (Z.eqb_neq (char_at _ 0) 0)) by done.
  rewrite (proj2 (Z.eqb_neq (zlen _) 0)) by lia. cbn [orb].
  rewrite <-surjective_pairing, (slot_of_unique _ _ i v); [|apply Hs|done|by split].
  rewrite (list_find_filter _ (drop (S i) _)).
  destruct (list_find _ _) as [[j w]|] eqn:Ef; cbn [fmap option_fmap option_map snd]; [|by exists s1].
  apply list_find_Some in Ef as (Hj & [Hlw _] & _). rewrite lookup_drop in Hj.
  destruct (IH s1 (S i + j)%nat w) as (s2 & R2 & Hst2); [by rewrite Hst|by rewrite Hst|done| |].
  - rewrite Hst. apply lookup_lt_Some in Hj. rewrite length_drop in *. lia.
  - exists s2. rewrite (bind_runs _ _ _ _ _ R2), Hst, Hst2, drop_drop. split; [|done].
    cbn [fmap list_fmap]. unfold ret. do 6 f_equal. lia.
Qed.

(** C19: Enumeration through the page.  A guest that asks for one name after the
    other, starting from the empty name and sending back what it received,
    receives each variable accessible in the current phase exactly once, in the
    order of the slots, and is told that there are no more after at most 129
    requests; the store does not change. *)
Theorem guest_enumeration (rt : bool) (g : EFI_GUID) (s : state) :
  storage_inv (sv_store s) -> zlen g = 16 ->
  exists s', guest_loop 129 rt [] g s
    = Ok (var_key <$> filter (accessible rt) (variables (sv_store s)), s') /\
    sv_store s' = sv_store s /\
    NoDup (var_key <$> filter (accessible rt) (variables (sv_store s))).
Proof using Type.
  intros Hs Hg. pose proof (keys_NoDup (accessible rt) (variables (sv_store s)) (si_unique _ Hs)
    ltac:(by intros v [Hv _])) as Hnd.
  change 129%nat with (S 128). cbn [guest_loop].
  destruct (serve_next rt [] g s) as (r & s1 & R1 & Hst & Hr); [done..|].
  rewrite (bind_runs _ _ _ _ _ R1), Hr. clear R1 Hr. unfold next_found.
  change (zlen [] =? 0) with true. rewrite orb_true_r.
  rewrite list_find_filter in *.
  destruct (list_find _ _) as [[j w]|] eqn:Ef; cbn [fmap option_fmap option_map snd]; [|by exists s1].
  apply list_find_Some in Ef as (Hj & [Hlw _] & _).
  destruct (guest_loop_from 128 rt s1 j w) as (s2 & R2 & Hst2);
    [by rewrite Hst|by rewrite Hst|done| |].
  - rewrite Hst, length_drop. pose proof (sw_len _ Hs). apply lookup_lt_Some in Hj. clia.
  - exists s2. rewrite (bind_runs _ _ _ _ _ R2), Hst, Hst2. by split_and!.
Qed.

End session.

(** ** At concrete inputs *)

(** A backend that counts the changes it is told of. *)
Definition counting_backend : backend_t Z :=
  mk_backend Z None None None (Some (fun '(st, n) => Ok (0, (st, n + 1)))) None.

#[export] Instance counting_saves_quietly : SavesQuietly counting_backend.
Proof. intros m [= <-] st e Hs. by exists 0, st, (e + 1). Qed.

Definition counting_server (request : bytes) : server Z :=
  mk_server (mk_auth store_2 SETUP_MODE true true []) false (page_of request) LOGLEVEL_INFO 0.

(** B is created, read, refused as a read-only variable, and the room asked
    for. *)
Definition session_B : list guest_call :=
  [SetVariable name_B guid_1 [x01; x02] 7 false;
   GetVariable name_B guid_1 10 true;
   SetVariable (chars_of EFI_SETUP_MODE_NAME) gEfiGlobalVariableGuid [x01] 7 false;
   QueryVariableInfo 7].

Lemma session_B_ok : Forall guest_call_ok session_B.
Proof.
  pose proof name_B_ok.
  repeat (apply Forall_cons; split); [..|by apply Forall_nil]; cbn [guest_call_ok];
    split_and?; try (vm_compute; split; congruence); try (by vm_compute); try done.
Qed.

Lemma pages_for_calls calls :
  Forall (fun c => zlen (request_of c) <= 65536) calls ->
  Forall2 page_for calls (page_of ∘ request_of <$> calls).
Proof.
  induction 1 as [|c calls Hc _ IH]; cbn [fmap list_fmap]; constructor; [|done].
  split; [by apply zlen_page_of|by eexists].
Qed.

Lemma session_refines_store_witness :
  exists s',
    @serve_all zero_allocator toy_openssl Z (Some counting_backend)
      (page_of ∘ request_of <$> session_B) (counting_server [])
      = Ok (zip_with overwrite (spec_session session_B (abs (variables store_2))).1
              (page_of ∘ request_of <$> session_B), s') /\
    abs (variables (sv_store s')) = (spec_session session_B (abs (variables store_2))).2 /\
    storage_inv (sv_store s').
Proof.
  apply (@session_refines_store zero_allocator toy_openssl Z (Some counting_backend)
           ltac:(intros b Hb; injection Hb as <-; exact counting_saves_quietly)
           session_B (page_of ∘ request_of <$> session_B) (counting_server []));
    [apply zero_allocator_grants|exact store_2_inv|reflexivity|exact session_B_ok|].
  apply pages_for_calls.
  repeat (apply Forall_cons; split); [vm_compute; discriminate..|by apply Forall_nil].
Defined.

Lemma guest_enumeration_witness :
  exists s', @guest_loop zero_allocator toy_openssl unit None 129 true [] zero_guid
      (sample_server store_2 SETUP_MODE [])
    = Ok (var_key <$> filter (accessible true) (variables store_2), s') /\
    sv_store s' = store_2 /\ NoDup (var_key <$> filter (accessible true) (variables store_2)).
Proof.
  apply (@guest_enumeration zero_allocator toy_openssl unit None true zero_guid
           (sample_server store_2 SETUP_MODE [])); [exact store_2_inv|reflexivity].
Defined.
