(* ===== verification/Protected.v ===== *)
(** * Protected variables over a session

    The secure boot variables (PK, KEK, db, dbx, dbt) and the read-only ones
    (SecureBoot, SetupMode, AuditMode, DeployedMode, SignatureSupport) under
    whatever a guest writes into the page, request after request.  In user mode,
    against an adversary who holds no key whose signatures verify against the
    enrolled PK or a certificate of the KEK, they keep their values: the
    adversary may store, change and delete other variables, private ones
    included.  The one gap, the names with their terminator of C24, is the
    hypothesis [no_terminated_name]. *)
From S2P Require Import Prelude EfiTypes Common UefiVariable Storage StorageInv StorageSpec.
From S2P Require Import Serializer Crypto SigList Auth AuthSpec AuthSecurity CText Server Xapi.
From S2P Require Import Requests Samples AuthSamples ServerSamples ServerSpec SetVariable Triples.
From S2P Require Import WellFormed XapiBackend Session.

(** ** Slots that hold a key *)

(** The slots that hold the key [k] are the same in both arrays. *)
Definition same_slots (k : key) (vars vars' : list variable_t) : Prop :=
  forall i v, has_key k v -> vars !! i = Some v <-> vars' !! i = Some v.

#[export] Instance same_slots_equivalence k : Equivalence (same_slots k).
Proof.
  split.
  - by intros vars i v _.
  - intros a b H i v Hv. by rewrite (H i v Hv).
  - intros a b c H1 H2 i v Hv. by rewrite (H1 i v Hv), (H2 i v Hv).
Qed.

Lemma same_slots_insert k vars i v v' :
  vars !! i = Some v -> ~ has_key k v -> ~ has_key k v' -> same_slots k vars (<[i:=v']> vars).
Proof.
  intros Hi Hv Hv' j w Hw. destruct (decide (i = j)) as [<-|Hij].
  - rewrite list_lookup_insert_eq by by eapply lookup_lt_Some. split; congruence.
  - by rewrite list_lookup_insert_ne.
Qed.

Lemma same_slots_slot_of k vars vars' : same_slots k vars vars' -> slot_of k vars = slot_of k vars'.
Proof.
  intros Hs. assert (Hle : forall a b, same_slots k a b -> forall i v,
    slot_of k a = Some (i, v) -> slot_of k b = Some (i, v)).
  { intros a b Hab i v (Hi & Hk & Hmin)%list_find_Some. apply list_find_Some. split_and!.
    - by apply (Hab i v Hk).
    - done.
    - intros j w Hj Hji Hw. eapply (Hmin j w); [by apply (Hab j w Hw)|done|done]. }
  destruct (slot_of k vars) as [[i v]|] eqn:E1; [symmetry; by eapply Hle|].
  destruct (slot_of k vars') as [[i v]|] eqn:E2; [|done].
  apply (Hle vars' vars) in E2; [congruence|by symmetry].
Qed.

Lemma same_slots_abs k vars vars' : same_slots k vars vars' -> abs vars !! k = abs vars' !! k.
Proof. intros Hs. by rewrite !abs_lookup, (same_slots_slot_of k vars vars'). Qed.

(** ** Calls of the store that leave a key alone

    [leaves k n sz g]: neither the name given nor what is stored for it is [k]. *)
Record leaves (k : key) (n : bytes) (sz : Z) (g : EFI_GUID) : Prop := {
  lv_given : arg_key n sz g <> k;
  lv_stored : arg_key n (sanitized n sz) g <> k
}.

Section store.
Context `{Allocator} (k : key).

(** [untouched m]: from a well-formed store, [m] leaves the slots of [k]. *)
Definition untouched {A} (m : M storage A) : Prop :=
  forall s a s', storage_wf s -> m s = Ok (a, s') -> same_slots k (variables s) (variables s').

Lemma storage_remove_untouched n sz g :
  1 <= sz -> sz <= zlen n -> zlen g = 16 -> arg_key n sz g <> k ->
  untouched (storage_remove (Some n) sz (Some g)).
Proof.
  intros Hsz Hn Hg Hk s st s' Hs. rewrite storage_remove_ok by done.
  destruct (slot_of _ _) as [[i v]|] eqn:E; intros [= _ <-]; [|done]. cbn [variables].
  apply slot_of_Some in E as [Hi [Hl Hkv]].
  eapply same_slots_insert; [done|intros [_ ?]; congruence|by intros [? _]].
Qed.

(** A slot of another key, rewritten with another key. *)
Lemma set_slot_untouched s i v v' :
  variables s !! i = Some v -> ~ has_key k v -> ~ has_key k v' ->
  same_slots k (variables s) (variables (set_slot i v' s)).
Proof using Type. apply same_slots_insert. Qed.

Lemma storage_set_existing_untouched i v n sz g src dsz attrs append s st s' :
  storage_wf s -> variables s !! i = Some v -> live v = true -> var_key v = arg_key n sz g ->
  name_given n sz -> leaves k n sz g ->
  storage_set_existing i (Some n) sz (Some src) dsz attrs append s = Ok (st, s') ->
  same_slots k (variables s) (variables s').
Proof.
  intros Hs Hi Hl Hk Hn [Hk1 Hk2]. unfold storage_set_existing.
  rewrite (bind_runs _ _ _ s s), (bind_runs _ _ _ v s) by
    (done || by rewrite (mlift_runs _ _ _ (slot_at_ok _ _ _ Hi))).
  destruct (negb _); [by intros [= _ <-]|].
  intros ([r v1] & s1 & [H1 ->]%mlift_inv & H2)%bind_inv.
  pose proof (slot_wf_live _ (slot_wf_lookup _ _ _ Hs Hi) Hl) as Hw.
  assert (Hne : ~ has_key k v) by (intros [_ ?]; congruence).
  assert (Hkey : var_key v1 = arg_key n (sanitized n sz) g /\ data_ok v1 /\
                 0 <= var_datasz v1 <= MAX_VARIABLE_DATA_SIZE /\ r = 0).
  { destruct (decide (sz = 1)) as [->|Hne1]; [by apply one_byte_name in H1|].
    destruct Hn as [Hs1 Ho Hf]. pose proof (lw_namesz _ Hw).
    assert (Hsz : var_namesz v = sz).
    { eapply (has_key_namesz v n sz g); [by apply live_slot_wf|lia|done|by split]. }
    rewrite variable_set_name_ok in H1 by (apply Hw || lia). injection H1 as <- <-.
    pose proof (lw_datasz _ Hw). pose proof (live_wf_data_ok _ Hw).
    split_and!; [|done|cbn; lia|cbn; lia|done].
    unfold var_key, arg_key. cbn [var_namesz var_name var_guid with_name].
    apply (f_equal snd) in Hk. cbn in Hk. rewrite Hk. f_equal.
    assert (sanitized n sz <= sz) by (unfold sanitized; destruct (_ =? 0); lia).
    rewrite take_app_le by (rewrite length_take; unfold zlen in *; lia).
    rewrite take_take, Nat.min_l; [done|lia]. }
  destruct Hkey as (Hkey & Hd & Hdsz & ->).
  assert (Hne1 : ~ has_key k v1) by (intros [_ ?]; congruence).
  rewrite bind_runs with (a := tt) (s' := set_slot i v1 s) in H2 by done.
  cbn [Z.eqb Z.ltb Z.compare] in H2.
  apply bind_inv in H2 as ([r v2] & s2 & [H2 ->]%mlift_inv & H3).
  rewrite bind_runs with (a := tt) (s' := set_slot i v2 (set_slot i v1 s)) in H3 by done.
  rewrite set_slot_set_slot in H3.
  apply variable_set_data_inv in H2 as [(Hr & -> & _)|[-> (d & -> & Hdd)]]; [| |done|done].
  - destruct (r =? -2); [|rewrite (proj2 (Z.ltb_lt _ _) Hr) in H3]; injection H3 as _ <-;
      by eapply set_slot_untouched.
  - cbn [Z.eqb Z.ltb Z.compare] in H3.
    rewrite bind_runs with (a := tt) (s' := set_slot i (with_attrs attrs (with_data (Some d)
      (zlen d) v1)) s) in H3 by (unfold mmodify; by rewrite set_slot_set_slot).
    injection H3 as _ <-. eapply set_slot_untouched; [done|done|].
    intros [_ E]. by apply Hk2; rewrite <-Hkey.
Qed.

Lemma storage_set_new_untouched n sz g src dsz attrs :
  name_given n sz -> sz <= 256 -> dsz <= MAX_VARIABLE_DATA_SIZE -> zlen g = 16 ->
  0 <= attrs < 0x100000000 -> leaves k n sz g ->
  untouched (storage_set_new (Some n) sz (Some g) (Some src) dsz attrs).
Proof.
  intros Hn Hsz Hd Hg Ha [_ Hk] s st s' Hs. unfold storage_set_new.
  rewrite (bind_runs _ _ _ s s) by done.
  rewrite (bind_runs _ _ _ _ s) by (apply mlift_runs, find_empty_slot_ok, Hs).
  destruct (list_find _ _) as [[i v]|] eqn:E; [|by intros [= _ <-]].
  cbn [fmap option_fmap option_map fst]. apply list_find_Some in E as (Hi & Hl & _).
  rewrite (bind_runs _ _ _ v s) by by rewrite (mlift_runs _ _ _ (slot_at_ok _ _ _ Hi)).
  pose proof (slot_wf_free _ (slot_wf_lookup _ _ _ Hs Hi) Hl) as ->.
  assert (Hz : ~ has_key k zero_var) by by intros [? _].
  intros ([r v1] & s1 & [H1 ->]%mlift_inv & H2)%bind_inv.
  rewrite bind_runs with (a := tt) (s' := set_slot i v1 s) in H2 by done.
  apply variable_create_noalloc_inv in H1 as [[Hr ->]|(-> & Hv1 & Hkey)]; [| |done..].
  - rewrite set_slot_id in H2 by done. rewrite (proj2 (Z.ltb_lt _ _) Hr) in H2.
    by injection H2 as _ <-.
  - injection H2 as _ <-. eapply same_slots_insert; [done|done|]. intros [_ ?]. congruence.
Qed.

Lemma storage_set_untouched n sz g src dsz attrs :
  name_given n sz -> zlen g = 16 -> 0 <= attrs < 0x100000000 -> leaves k n sz g ->
  untouched (storage_set (Some n) sz (Some g) src dsz attrs).
Proof.
  intros Hn Hg Ha Hk s st s' Hs. unfold storage_set.
  rewrite (bind_runs _ _ _ (used s) s) by done.
  destruct (_ || _) eqn:E; [by intros [= _ <-]|].
  apply orb_false_iff in E as [[E1 E2]%orb_false_iff _]. rewrite Z.gtb_ltb in E1, E2.
  apply Z.ltb_ge in E1, E2. pose proof (lv_given _ _ _ _ Hk).
  destruct (_ || _); [destruct Hn; by eapply storage_remove_untouched|].
  destruct src as [src|]; [|by intros [= _ <-]]. pose proof (masked_attrs_range _ Ha).
  intros Hrun. rewrite (bind_runs _ _ _ s s) in Hrun by done.
  pose proof (find_variable_pos n sz g (variables s) (sw_slots _ Hs)) as Hf.
  unfold find_variable in Hf.
  rewrite (bind_runs _ _ _ _ s) in Hrun by (destruct Hn; by apply mlift_runs, Hf).
  destruct (slot_of _ _) as [[i v]|] eqn:E; cbn [fmap option_fmap option_map fst] in Hrun.
  - apply slot_of_Some in E as [Hi [Hl Hkv]]. by eapply storage_set_existing_untouched.
  - eapply storage_set_new_untouched; [..|exact Hs|exact Hrun]; done.
Qed.

(** The slot a name is found in, changed without its key. *)
Lemma change_slot_untouched s n sz g i v v' :
  slot_of (arg_key n sz g) (variables s) = Some (i, v) -> arg_key n sz g <> k ->
  var_key v' = var_key v -> same_slots k (variables s) (variables (set_slot i v' s)).
Proof using Type.
  intros [Hi [Hl Hkv]]%slot_of_Some Hk Hv. apply (same_slots_insert k _ i v); [done|..];
    intros [_ ?]; congruence.
Qed.

Lemma storage_set_with_timestamp_untouched n sz g src dsz attrs t :
  name_given n sz -> zlen g = 16 -> 0 <= attrs < 0x100000000 -> leaves k n sz g ->
  untouched (storage_set_with_timestamp (Some n) sz (Some g) src dsz attrs t).
Proof.
  intros Hn Hg Ha Hk s r s' Hs. unfold storage_set_with_timestamp.
  destruct src as [src|], t as [t|]; try by intros [= _ <-].
  intros (st & s1 & H1 & Hrun)%bind_inv.
  pose proof (storage_set_wf n sz g (Some src) dsz attrs Hn Hg Ha s st s1 Hs H1) as Hs1.
  transitivity (variables s1); [by eapply storage_set_untouched|].
  destruct (is_delete _ _); [by injection Hrun as _ <-|]. destruct Hn as [Hsz Ho _].
  erewrite bind_runs in Hrun by by apply storage_get_var_ptr_ok.
  destruct (slot_of _ _) as [[i v]|] eqn:E; [|by injection Hrun as _ <-].
  pose proof E as [Hi _]%slot_of_Some.
  rewrite (bind_runs _ _ _ s1 s1), (bind_runs _ _ _ v s1) in Hrun
    by (done || by rewrite (mlift_runs _ _ _ (slot_at_ok _ _ _ Hi))).
  injection Hrun as _ <-. by eapply change_slot_untouched; [|apply Hk|].
Qed.

End store.

(** ** The authentication services *)
Definition protected_key (k : key) : bool := secure_boot_key k || read_only_key k.

(** A name that no protected variable is stored for. *)
Definition private_name (n : bytes) (sz : Z) (g : EFI_GUID) : Prop :=
  forall k, protected_key k = true -> leaves k n sz g.

Section auth.
Context `{Allocator} `{OpenSSL}.

(** Nobody but the owner can sign for the certificates enrolled in [s]. *)
Definition no_signatures (s : auth_state) : Prop :=
  forall p cert c, pk_trusts s p cert \/ kek_trusts s cert -> PKCS7_verify p cert c = false.

Context (s0 : auth_state) (Htrust : no_signatures s0).

(** User mode, with the protected variables of [s0]. *)
Record guarded (s : auth_state) : Prop := {
  gd_wf : auth_wf s;
  gd_mode : setup_mode s = USER_MODE;
  gd_same : forall k, protected_key k = true ->
              same_slots k (variables (au_store s0)) (variables (au_store s))
}.

(** The enrolled PK and KEK are those of [s0], and so is the trust in them. *)
Lemma guarded_trusts s :
  guarded s ->
  (forall p cert, pk_trusts s p cert -> pk_trusts s0 p cert) /\
  (forall cert, kek_trusts s cert -> kek_trusts s0 cert).
Proof using Type.
  intros Hs.
  assert (Hpk : stored_PK s = stored_PK s0)
    by (symmetry; apply same_slots_abs, (gd_same _ Hs); by vm_compute).
  assert (Hkek : stored_KEK s = stored_KEK s0)
    by (symmetry; apply same_slots_abs, (gd_same _ Hs); by vm_compute).
  unfold pk_trusts, kek_trusts. by rewrite Hpk, Hkek.
Qed.

(** A verified update for the PK or the KEK is out of reach. *)
Lemma no_verified_update ty s n sz g data_size attrs org off size :
  guarded s -> ty = AUTH_VAR_TYPE_PK \/ ty = AUTH_VAR_TYPE_KEK ->
  ~ verified_update ty s n sz g data_size attrs org off size.
Proof using Htrust.
  intros Hs Hty Hv. destruct (guarded_trusts s Hs) as [Hpk Hkek].
  destruct (vu_signed _ _ _ _ _ _ _ _ _ _ Hv) as (content & csize & p & cert & _ & _ & Ht & c & _ & _ & Hc).
  rewrite Htrust in Hc; [done|]. destruct Hty as [->| ->]; auto.
Qed.

Lemma key_update_guarded n sz g data_size attrs is_pk :
  2 <= sz -> sz <= zlen n -> zlen g = 16 ->
  preserves guarded (process_var_with_pk n sz g data_size attrs is_pk) /\
  preserves guarded (process_var_with_kek n sz g data_size attrs).
Proof using Htrust.
  intros Hsz Hn Hg. split; intros s st s' Hs Hr.
  - apply process_var_with_pk_user in Hr as [[-> _]|(off & size & Hv)];
      [done| |apply Hs|done|done|done|apply Hs].
    exfalso. eapply no_verified_update; [exact Hs|by left|exact Hv].
  - apply process_var_with_kek_user in Hr as [[-> _]|(off & size & Hv)];
      [done| |apply Hs|done|done|done|apply Hs].
    exfalso. eapply no_verified_update; [exact Hs|by right|exact Hv].
Qed.

(** A call of the store that keeps it well formed and the protected variables as
    they are. *)
Lemma on_store_guarded {A} (m : M storage A) :
  preserves storage_wf m -> (forall k, protected_key k = true -> untouched k m) ->
  preserves guarded (on_store m).
Proof using Type.
  intros Hwf Hm s a s' [[Hw Hmode] Hu Hsame] Hr. unfold on_store, mzoom in Hr.
  destruct (m (au_store s)) as [[b st]|] eqn:E; [|done]. injection Hr as <- <-.
  constructor; [constructor; [by eapply Hwf|done]|done|].
  intros k Hk. transitivity (variables (au_store s)); [by apply Hsame|]. by eapply Hm.
Qed.

Lemma guarded_keeps {A} (m : M auth_state A) : keeps m -> preserves guarded m.
Proof using Type. apply preserves_keeps. Qed.

Section private.
Context (n : bytes) (sz : Z) (g : EFI_GUID) (attrs : Z).
Context (Hn : name_given n sz) (Hg : zlen g = 16) (Ha : 0 <= attrs < 0x100000000)
  (Hp : private_name n sz g).
#[local] Set Default Proof Using "Type*".

Lemma store_set_guarded src dsz a :
  0 <= a < 0x100000000 ->
  preserves guarded (on_store (storage_set (Some n) sz (Some g) src dsz a)).
Proof.
  intros Hr. apply on_store_guarded; [by apply storage_set_wf|].
  intros k Hk. apply storage_set_untouched; try done. by apply Hp.
Qed.

Lemma store_set_with_timestamp_guarded src dsz t :
  time_ok t ->
  preserves guarded
    (on_store (storage_set_with_timestamp (Some n) sz (Some g) src dsz attrs (Some t))).
Proof.
  intros Ht. apply on_store_guarded.
  - apply storage_set_with_timestamp_wf; try done. by intros x [= <-].
  - intros k Hk. apply storage_set_with_timestamp_untouched; try done. by apply Hp.
Qed.

Lemma find_var_guarded :
  preserves guarded (on_store (storage_get_var_ptr (Some n) sz (Some g))).
Proof. apply guarded_keeps, keeps_on_store, keeps_storage_get_var_ptr. Qed.

Lemma update_with_timestamp_guarded off size :
  preserves guarded (auth_internal_update_variable_with_timestamp n sz g off size attrs).
Proof.
  unfold auth_internal_update_variable_with_timestamp.
  assert (Hset : forall size, preserves guarded (s <- mget ;;
    timestamp <- mlift (auth_TimeStamp (au_data s)) ;;
    on_store (storage_set_with_timestamp (Some n) sz (Some g)
                (Some (drop (Z.to_nat off) (au_data s))) size attrs (Some timestamp)))).
  { intros m. apply preserves_get_bind; intros s Hs. apply preserves_lift_bind; intros t Ht.
    apply store_set_with_timestamp_guarded. by eapply read_time_ok. }
  assert (Hdata : forall d, preserves guarded (mmodify (set_data d))).
  { intros d. apply preserves_mmodify. intros [] []. constructor; [|done|done].
    destruct gd_wf0. by constructor. }
  apply preserves_bind; [apply find_var_guarded|]. intros [st var].
  apply preserves_get_bind; intros s Hs. cbv zeta.
  destruct var as [i|]; [|apply Hset]. destruct (has _ _); [|apply Hset].
  apply preserves_lift_bind; intros v Hv. apply preserves_lift_bind; intros l Hl.
  destruct l; [|apply Hset]. apply preserves_lift_bind; intros [[st1 d] m] _.
  apply preserves_bind; [apply Hdata|]; intros _.
  case_match; [apply preserves_ret|apply Hset].
Qed.

(** The slot a lookup of the name returns. *)
Lemma find_var_slot :
  triple guarded (on_store (storage_get_var_ptr (Some n) sz (Some g)))
    (fun r s => guarded s /\
       match r.2 with
       | Some i => exists v, slot_of (arg_key n sz g) (variables (au_store s)) = Some (i, v)
       | None => True
       end).
Proof.
  intros s r s' Hs Hrun. unfold on_store, mzoom in Hrun.
  rewrite storage_get_var_ptr_ok in Hrun by (apply Hs || apply Hn || done).
  replace (set_store (au_store s) s) with s in Hrun by by destruct s.
  destruct (slot_of _ _) as [[i v]|] eqn:E; injection Hrun as <- <-; split; try done.
  by exists v.
Qed.

Lemma set_slot_cert_guarded i d :
  zlen d = 32 ->
  triple (fun s => guarded s /\
            exists v, slot_of (arg_key n sz g) (variables (au_store s)) = Some (i, v))
    (set_slot_cert i d) (fun _ => guarded).
Proof.
  intros Hd s u s' [Hs (v & Hv)] Hr. pose proof Hv as [Hi [Hl Hk]]%slot_of_Some.
  pose proof (slot_wf_live _ (slot_wf_lookup _ _ _ (aw_store _ (gd_wf _ Hs)) Hi) Hl) as Hw.
  assert (Hwf : auth_wf s').
  { eapply (set_slot_cert_wf i d Hd s u); [|exact Hr]. split; [apply Hs|by exists v]. }
  rewrite (set_slot_cert_ok s i v d) in Hr by done. injection Hr as _ <-.
  destruct Hs as [_ Hmode Hsame]. constructor; [done|done|]. intros k Hpk.
  transitivity (variables (au_store s)); [by apply Hsame|]. cbn [au_store set_store].
  eapply change_slot_untouched; [exact Hv|by apply Hp|done].
Qed.

Lemma store_digest_guarded is_del :
  preserves guarded
    ('(status, var) <- on_store (storage_get_var_ptr (Some n) sz (Some g)) ;;
     match var with
     | None => ret (status, None)
     | Some i =>
         '(status, digest) <- with_data_object sha256_from_auth ;;
         match digest with
         | None => ret (status, None)
         | Some d => set_slot_cert i d ;; ret (status, Some (is_del && (status =? EFI_SUCCESS)))
         end
     end).
Proof.
  eapply triple_bind; [apply find_var_slot|]. intros [st [i|]]; cbn [snd];
    [|by intros s a s' [Hs _] [= _ <-]].
  intros s a s' [Hs Hv] Hr. apply bind_inv in Hr as ([st1 d] & s1 & [Hd ->]%with_data_object_inv & Hr).
  destruct d as [d|]; [|by injection Hr as _ <-].
  apply bind_inv in Hr as (u & s2 & Hr & Hr2). injection Hr2 as _ <-.
  eapply set_slot_cert_guarded; [by apply sha256_from_auth_some in Hd as [_ ?]|by split|exact Hr].
Qed.

Lemma private_update_guarded data_size :
  preserves guarded (verify_time_based_payload_and_update n sz g data_size attrs
                       AUTH_VAR_TYPE_PRIV).
Proof.
  unfold verify_time_based_payload_and_update.
  apply preserves_bind; [apply find_var_guarded|]. intros [st var].
  apply preserves_get_bind; intros s Hs. apply preserves_bind; [preserve|]. intros ts.
  apply preserves_bind; [apply guarded_keeps, keeps_verify|].
  intros [st1 [[off size]|]]; [|apply preserves_ret].
  cbv zeta. apply preserves_bind; [apply update_with_timestamp_guarded|]. intros st2.
  destruct (_ && _); [apply store_digest_guarded|apply preserves_ret].
Qed.

Lemma process_variable_guarded data_size :
  preserves guarded (process_variable n sz g data_size attrs).
Proof.
  unfold process_variable. pose proof private_update_guarded. pose proof find_var_guarded.
  pose proof (store_set_guarded None 0 0 ltac:(lia)).
  pose proof (fun src dsz => store_set_guarded src dsz attrs Ha). preserve.
Qed.

End private.

(** The names that pass for a key variable have at least two bytes, and the others
    are no protected variable's. *)
Record name_cases (n : bytes) (sz : Z) (g : EFI_GUID) : Prop := {
  nc_key : is_key_variable n g -> 2 <= sz;
  nc_private : ~ is_key_variable n g -> private_name n sz g
}.

Lemma or_else_true a b : or_else a b = Ok true -> a = Ok true \/ b = Ok true.
Proof using Type. unfold or_else. intros ([] & Ha & Hb)%obind_inv; auto. Qed.

Lemma auth_lib_process_variable_guarded n sz g attrs data_size :
  name_given n sz -> zlen g = 16 -> 0 <= attrs < 0x100000000 -> name_cases n sz g ->
  preserves guarded (auth_lib_process_variable n sz g data_size attrs).
Proof using Htrust.
  intros Hn Hg Ha [Hkey Hpriv]. unfold auth_lib_process_variable.
  assert (Hpk : is_key_variable n g -> forall is_pk,
    preserves guarded (process_var_with_pk n sz g data_size attrs is_pk) /\
    preserves guarded (process_var_with_kek n sz g data_size attrs))
    by (intros Hk is_pk; apply key_update_guarded; [by apply Hkey|apply Hn|done]).
  apply preserves_lift_bind; intros [] H1.
  { unfold compare_guid in H1. destruct (bool_decide (g = _)) eqn:Eg; [|done].
    apply bool_decide_eq_true in Eg. apply obind_inv in H1 as (c & Hc & [= ->%Z.eqb_eq]).
    apply Hpk. left. auto. }
  apply preserves_lift_bind; intros [] H2.
  { unfold compare_guid in H2. destruct (bool_decide (g = _)) eqn:Eg; [|done].
    apply bool_decide_eq_true in Eg. apply obind_inv in H2 as (c & Hc & [= ->%Z.eqb_eq]).
    apply Hpk. left. auto. }
  apply preserves_lift_bind; intros [] H3.
  { unfold compare_guid in H3. destruct (bool_decide (g = _)) eqn:Eg; [|done].
    apply bool_decide_eq_true in Eg.
    assert (Hk : is_key_variable n g).
    { right. split; [done|].
      apply or_else_true in H3 as [H3|[H3|H3]%or_else_true];
        apply obind_inv in H3 as (c & Hc & [= ->%Z.eqb_eq]); auto. }
    destruct (Hpk Hk false). preserve. }
  apply process_variable_guarded; [done..|]. apply Hpriv. intros Hk.
  destruct Hk as [[-> Hk]|[-> Hk]]; unfold named in Hk.
  - rewrite (proj2 (compare_guid_spec _ _) eq_refl) in H1, H2.
    destruct Hk as [Hk|Hk]; rewrite Hk in *; done.
  - rewrite (proj2 (compare_guid_spec _ _) eq_refl) in H3.
    apply or_else_false in H3 as [E1 [E2 E3]%or_else_false].
    destruct Hk as [Hk|[Hk|Hk]]; rewrite Hk in *; done.
Qed.

End auth.

(** ** The names of requests *)
Lemma protected_names k :
  protected_key k = true ->
  exists str, k.1 = chars_of str /\
    str ∈ read_only_names ++
          [EFI_PLATFORM_KEY_NAME; EFI_KEY_EXCHANGE_KEY_NAME; EFI_IMAGE_SECURITY_DATABASE;
           EFI_IMAGE_SECURITY_DATABASE1; EFI_IMAGE_SECURITY_DATABASE2].
Proof.
  unfold protected_key, secure_boot_key, read_only_key.
  rewrite !orb_true_iff, !andb_true_iff, !bool_decide_eq_true, !list_elem_of_fmap.
  intros [[(_ & str & E & Hs)|(_ & str & E & Hs)]|(_ & str & E & Hs)]; exists str;
    (split; [exact E|]); apply elem_of_app; auto; right;
    rewrite !elem_of_cons in *; rewrite elem_of_nil in *; tauto.
Qed.

Lemma protected_even k : protected_key k = true -> Z.even (zlen k.1) = true.
Proof.
  intros (str & -> & Hs)%protected_names. revert str Hs. apply Forall_forall. by repeat constructor.
Qed.

(** A secure boot variable is a key variable to the authentication services. *)
Lemma secure_boot_is_key name g :
  secure_boot_key (name, g) = true -> is_key_variable (padded name) g.
Proof.
  unfold secure_boot_key. cbn [fst snd fmap list_fmap].
  rewrite orb_true_iff, !andb_true_iff, !bool_decide_eq_true, !elem_of_cons, elem_of_nil.
  intros [[-> [->|[->|[]]]]|[-> [->|[->|[->|[]]]]]]; unfold is_key_variable, named;
    [left|left|right|right|right]; (split; [done|]);
    [left|right|left|right; left|right; right]; by vm_compute.
Qed.

(** A name of one byte is not the name of a key. *)
Lemma named_long name cs :
  zlen name <= 256 -> literal cs -> 2 <= zlen cs -> named (padded name) (L cs) ->
  2 <= zlen name.
Proof.
  intros Hn [Hcs Hmax] Hl Hc. pose proof (zlen_padded name Hn) as Hp. unfold named in Hc.
  pose proof Hc as (sz & (n & (ds & Hds & _)%strlen16_inv & _)%obind_inv & _)%obind_inv.
  destruct (strcmp16_cstr _ _ _ _ Hds (cstr16_L cs Hcs)) as (r & Hr & Heq);
    [lia|rewrite zlen_L; lia|].
  rewrite Hc in Hr. injection Hr as <-. apply proj1 in Heq. specialize (Heq eq_refl). subst ds.
  destruct cs as [|c [|d cs]]; [by vm_compute in Hl|by vm_compute in Hl|].
  destruct (decide (2 <= zlen name)) as [|Hlt]; [done|]. exfalso.
  apply Forall_cons in Hcs as [_ [Hd _]%Forall_cons]. destruct Hds as [_ [rest E]].
  assert (Hz : take 2 (drop 2 (padded name)) = [x00; x00]).
  { destruct name as [|b [|b2 name]]; [done|done|]. rewrite !zlen_cons in Hlt.
    pose proof (zlen_nonneg name). lia. }
  rewrite E in Hz. cbn [wchars] in Hz. rewrite <-!app_assoc in Hz.
  rewrite drop_app_length', take_app_length' in Hz by by rewrite length_le_encode.
  apply (f_equal le_decode) in Hz. rewrite le_decode_encode in Hz by (unfold char16_ok in Hd; lia).
  unfold char16_ok in Hd. change (le_decode [x00; x00]) with 0 in Hz. lia.
Qed.

Lemma key_variable_long name g :
  zlen name <= 256 -> is_key_variable (padded name) g -> 2 <= zlen name.
Proof.
  intros Hn [[_ [Hk|Hk]]|[_ [Hk|[Hk|Hk]]]]; revert Hk; unfold EFI_PLATFORM_KEY_NAME,
    EFI_KEY_EXCHANGE_KEY_NAME, EFI_IMAGE_SECURITY_DATABASE, EFI_IMAGE_SECURITY_DATABASE1,
    EFI_IMAGE_SECURITY_DATABASE2; (apply named_long;
    [done|split; [by repeat constructor|vm_compute; discriminate]|vm_compute; discriminate]).
Qed.

(** The names with their terminator, the gap of the comparison. *)
Definition terminated (name : bytes) (g : EFI_GUID) : Prop :=
  exists k, protected_key k = true /\ g = k.2 /\ name = k.1 ++ [x00; x00].

Lemma zero_char b0 b1 : le_decode [b0; b1] = 0 -> [b0; b1] = [x00; x00].
Proof.
  cbn [le_decode]. pose proof (Z_of_byte_range b0). pose proof (Z_of_byte_range b1). intros E.
  rewrite (Z_of_byte_inj b0 x00), (Z_of_byte_inj b1 x00); [done|..];
    change (Z_of_byte x00) with 0; lia.
Qed.

Lemma private_name_padded name g :
  zlen name <= 256 -> name_given (padded name) (zlen name) ->
  protected_key (name, g) = false -> ~ terminated name g ->
  private_name (padded name) (zlen name) g.
Proof.
  intros Hn Hg Hp Ht k Hk. assert (Hne : (name, g) <> k) by congruence.
  split; [by rewrite arg_key_padded|]. unfold sanitized.
  destruct (Z.eqb_spec (char_at (padded name) (zlen name / 2 - 1)) 0) as [Hc|Hc];
    [|by rewrite arg_key_padded]. intros E. pose proof (protected_even k Hk) as Hev.
  destruct (decide (zlen name < 4)) as [Hlt|Hge].
  { apply (ng_first _ _ Hg). pose proof (ng_size _ _ Hg). unfold char_at in Hc |- *.
    assert (zlen name / 2 < 2) by (apply Z.div_lt_upper_bound; lia).
    by replace (Z.to_nat (2 * (zlen name / 2 - 1))) with (Z.to_nat (2 * 0)) in Hc by lia. }
  apply Ht. exists k. split; [done|]. rewrite <-E in Hev |- *. split; [done|].
  unfold arg_key in *. cbn [fst] in *.
  assert (Htake : take (Z.to_nat (zlen name - 2)) (padded name)
                  = take (Z.to_nat (zlen name - 2)) name).
  { unfold padded. rewrite take_app_le; [done|]. unfold zlen in *. lia. }
  rewrite Htake in *.
  assert (Hz : zlen (take (Z.to_nat (zlen name - 2)) name) = zlen name - 2)
    by (rewrite zlen_take; lia).
  rewrite Hz in Hev. rewrite <-(take_drop (Z.to_nat (zlen name - 2)) name) at 1. f_equal.
  assert (Hl : length (drop (Z.to_nat (zlen name - 2)) name) = 2%nat)
    by (rewrite length_drop; unfold zlen in *; lia).
  destruct (drop _ name) as [|b0 [|b1 [|]]] eqn:Ed; try done. apply zero_char.
  rewrite <-Hc. unfold char_at. f_equal.
  replace (Z.to_nat (2 * (zlen name / 2 - 1))) with (Z.to_nat (zlen name - 2)); cycle 1.
  - apply Z.even_spec in Hev as [m Hm].
    assert (zlen name / 2 = m + 1) as -> by (symmetry; apply Z.div_unique with 0; lia).
    f_equal. lia.
  - unfold padded. rewrite drop_app_le, Ed by (unfold zlen in *; lia). done.
Qed.

Lemma name_cases_padded name g :
  zlen name <= 256 -> name_given (padded name) (zlen name) ->
  read_only_key (name, g) = false -> ~ terminated name g ->
  name_cases (padded name) (zlen name) g.
Proof.
  intros Hn Hg Hro Ht. split; [by apply key_variable_long|]. intros Hk.
  apply private_name_padded; [done|done| |done]. unfold protected_key.
  rewrite Hro, orb_false_r. destruct (secure_boot_key (name, g)) eqn:E; [|done].
  by apply secure_boot_is_key in E.
Qed.

(** ** The server *)

(** What a backend owes the stored variables: its calls leave them alone. *)
Class KeepsVariables {E} (b : backend_t E) : Prop := {
  kv_set m vars : be_set b = Some m ->
    preserves (fun p => storage_wf (fst p) /\ variables (fst p) = vars) m;
  kv_notify m vars : be_notify b = Some m ->
    preserves (fun p => storage_wf (fst p) /\ variables (fst p) = vars) m
}.

(** A page that holds no update of a protected variable's name with its
    terminator. *)
Definition no_terminated_name (page : bytes) : Prop :=
  forall st req rt rest,
    unserialize_set_request page = Ok ((st, Some (req, rt)), rest) ->
    ~ terminated (take (Z.to_nat (req_namesz req)) (req_name req)) (req_guid req).

Section server.
Context `{Allocator} `{OpenSSL} {E : Type} (backend : option (backend_t E)).
Context (Hbackend : forall b, backend = Some b -> KeepsVariables b).
Context (s0 : auth_state) (Htrust : no_signatures s0).

Abbreviation secured := (@server_inv E (guarded s0)).

Lemma guarded_set_data d s : guarded s0 s -> guarded s0 (set_data d s).
Proof using Type. intros [[Hw Hm1] Hm Hsame]. by constructor. Qed.

Lemma sv_on_store_guarded {A} (m : M storage A) :
  preserves storage_wf m -> (forall k, protected_key k = true -> untouched k m) ->
  preserves secured (sv_on_store m).
Proof using Type.
  intros Hwf Hm s a s' [Ha Hp] Hr. unfold sv_on_store, mzoom in Hr.
  destruct (m (sv_store s)) as [[b st]|] eqn:Em; [|done]. injection Hr as <- <-.
  constructor; [|done]. eapply (on_store_guarded s0 m Hwf Hm (sv_auth s) b); [done|].
  unfold on_store, mzoom. change (au_store (sv_auth s)) with (sv_store s). by rewrite Em.
Qed.

(** A backend call that leaves the variables alone. *)
Lemma run_backend_guarded {A} (m : M (storage * E) A) :
  (forall vars, preserves (fun p => storage_wf (fst p) /\ variables (fst p) = vars) m) ->
  preserves secured (run_backend m).
Proof using Type.
  intros Hm s a s' [[[Hw Hm1] Hmode Hsame] Hp] Hr. unfold run_backend, mzoom in Hr.
  destruct (m (sv_store s, sv_ext s)) as [[b [st e]]|] eqn:Em; [|done]. injection Hr as <- <-.
  destruct (Hm (variables (sv_store s)) (sv_store s, sv_ext s) b (st, e)) as [Hw' Hv]; [by split|done|].
  constructor; [|done]. constructor; [by constructor|done|]. intros k Hk.
  cbn [sv_auth au_store set_store fst] in *. rewrite Hv. by apply Hsame.
Qed.

Lemma backend_set_guarded : preserves secured (backend_set backend).
Proof using Hbackend.
  unfold backend_set. destruct backend as [b|]; [|apply preserves_ret].
  destruct (be_set b) as [m|] eqn:Em; [|apply preserves_ret].
  apply preserves_bind; [|intros; apply preserves_ret]. apply run_backend_guarded. intros vars.
  destruct (Hbackend b eq_refl) as [Hk _]. by apply Hk.
Qed.

Lemma backend_notify_guarded : preserves secured (backend_notify backend).
Proof using Hbackend.
  unfold backend_notify. destruct backend as [b|]; [|apply preserves_ret].
  destruct (be_notify b) as [m|] eqn:Em; [|apply preserves_ret]. apply run_backend_guarded.
  intros vars. destruct (Hbackend b eq_refl) as [_ Hk]. by apply Hk.
Qed.

Lemma updates_guarded page :
  no_terminated_name page -> @updates_keep _ _ E (guarded s0) page.
Proof using Htrust.
  intros Ht st req rt rest Hparse ((name & Hname & Hsz) & Hg & Hl & Ha) Hn Hro.
  specialize (Ht _ _ _ _ Hparse). rewrite Hname, <-Hsz in *.
  rewrite take_padded in Ht by done. rewrite is_ro_key in Hro by (done || lia).
  injection Hro as Hro. split.
  - apply auth_lib_process_variable_guarded; [done..|]. apply name_cases_padded; [lia|done..].
  - intros Hsb. rewrite is_secure_boot_variable_key in Hsb by (done || lia).
    injection Hsb as Hsb. apply sv_on_store_guarded; [by apply storage_set_wf|].
    intros k Hk. apply storage_set_untouched; [done..|].
    apply private_name_padded; [lia|done| |done|done]. unfold protected_key. by rewrite Hsb, Hro.
Qed.

Lemma serve_guarded page :
  zlen page = SHMEM_SIZE -> no_terminated_name page -> preserves secured (serve backend page).
Proof using Hbackend Htrust.
  intros Hl Ht s r s' [Ha _] Hrun. unfold serve in Hrun.
  rewrite (bind_runs _ _ _ tt (set_comm_buf page s)) in Hrun by done.
  apply bind_inv in Hrun as (u & s1 & Hreq & Hrun).
  rewrite (bind_runs _ _ _ s1 s1) in Hrun by done. injection Hrun as _ <-.
  eapply requests_inv; [apply guarded_set_data|apply backend_set_guarded
    |apply backend_notify_guarded| |exact Hreq].
  split; [by constructor|by apply updates_guarded].
Qed.

Lemma session_guarded pages :
  Forall (fun page => zlen page = SHMEM_SIZE /\ no_terminated_name page) pages ->
  preserves secured (serve_all backend pages).
Proof using Hbackend Htrust.
  induction 1 as [|page pages [Hl Ht] _ IH]; cbn [serve_all]; [apply preserves_ret|].
  apply preserves_bind; [by apply serve_guarded|]. intros r.
  apply preserves_bind; [exact IH|]. intros rs. apply preserves_ret.
Qed.

End server.

(** C3: The keys survive an adversary.  In user mode, whatever a guest writes
    into the page, request after request, PK, KEK, db, dbx, dbt, SecureBoot,
    SetupMode, AuditMode, DeployedMode and SignatureSupport keep their values
    (or stay absent) and the platform stays in user mode, as long as no
    signature verifies against the PK's certificate or a certificate of the
    KEK; the one kind of request left out is an update of one of these names
    written with its terminator. *)
Theorem protected_variables_survive `{Allocator} `{OpenSSL} {E : Type}
    (backend : option (backend_t E)) (pages replies : list bytes) (s s' : server E) :
  (forall b, backend = Some b -> KeepsVariables b) ->
  server_wf s -> setup_mode (sv_auth s) = USER_MODE -> no_signatures (sv_auth s) ->
  Forall (fun page => zlen page = SHMEM_SIZE /\ no_terminated_name page) pages ->
  serve_all backend pages s = Ok (replies, s') ->
  setup_mode (sv_auth s') = USER_MODE /\
  forall k, protected_key k = true ->
    abs (variables (sv_store s')) !! k = abs (variables (sv_store s)) !! k.
Proof.
  intros Hb [Ha Hp] Hm Ht Hpages Hrun.
  destruct (session_guarded backend Hb (sv_auth s) Ht pages Hpages s replies s') as [[_ Hm' Hk] _];
    [|done|].
  - constructor; [|done]. constructor; [done|done|]. by intros k _.
  - split; [done|]. intros k Hpk. symmetry. by apply same_slots_abs, Hk.
Qed.

(** ** The XAPI backend and a concrete session *)
#[export] Instance xapidb_keeps_variables {E} `{Host E} `{Allocator} `{Base64} `{Libxml2}
    (interrupts : nat) : KeepsVariables (xapidb (E := E) interrupts).
Proof.
  constructor; intros m vars [= <-];
    [|apply (on_xapi_keeps (fun st => storage_wf st /\ variables st = vars))].
  apply (xapi_set_keeps interrupts (fun st => storage_wf st /\ variables st = vars)).
  intros var st r st' [Hw Hv] Hr. split; [by eapply storage_iter_wf|].
  by eapply (storage_iter_variables vars (total st) (used st) var).
Qed.

(** A guest without the key of the PK overwrites the PK, then creates B. *)
Definition unsigned_PK : bytes := set_request PK_name gEfiGlobalVariableGuid list_BB 7 false.
Definition adversary_pages : list bytes := [page_of unsigned_PK; page_of set_B].
Definition victim : server unit := sample_server store_PK USER_MODE [].

Lemma adversary_has_no_signatures : @no_signatures adversary_openssl (sv_auth victim).
Proof.
  intros p cert c Ht. cbn [PKCS7_verify adversary_openssl toy_with]. apply andb_false_iff. right.
  apply negb_false_iff, bool_decide_eq_true.
  assert (Hpk : stored_PK (sv_auth victim) = Some (value_of var_PK)) by (by vm_compute).
  assert (Hkek : stored_KEK (sv_auth victim) = None) by (by vm_compute).
  destruct Ht as [(x & certs & Hx & _ & _ & He)|(x & off & rem & size & hs & ss & j & Hx & _)];
    [|congruence]. rewrite Hpk in Hx. injection Hx as <-. cbn [i2d_X509 adversary_openssl toy_with] in He.
  unfold cert_equals_esl in He. apply obind_inv in He as (hs & Hhs & He).
  apply obind_inv in He as (ss & Hss & He). vm_compute in Hhs, Hss. injection Hhs as <-. injection Hss as <-.
  destruct (u32 _ =? _) eqn:El; [|done]. apply Z.eqb_eq in El. cbn [negb] in He. rewrite El in He.
  unfold memcmp_eq in He. apply obind_inv in He as (a & Ha & He).
  apply obind_inv in He as (b & Hb & [= <-%bool_decide_eq_true]).
  vm_compute in Ha. injection Ha as <-. apply read_bytes_inv in Hb as (_ & _ & _ & Hb & _).
  destruct cert; [done|]. change (Z.to_nat (u64 _)) with 1%nat in Hb. by injection Hb as <-.
Qed.

Lemma no_terminated_set_request name g data attrs rt rest :
  zlen name <= 256 -> zlen g = 16 -> zlen data <= MAX_VARIABLE_DATA_SIZE ->
  0 <= attrs < 0x100000000 -> ~ terminated name g ->
  no_terminated_name (set_request name g data attrs rt ++ rest).
Proof.
  intros Hn Hg Hd Ha Ht st req rt' rest' Hp. revert Ht.
  rewrite (parses_set_request name g data attrs rt) in Hp by done. injection Hp as _ <- _ _.
  cbn [req_name req_namesz req_guid]. by rewrite take_padded.
Qed.

Lemma not_terminated name g :
  Forall (fun str => name <> chars_of str ++ [x00; x00])
    (read_only_names ++ [EFI_PLATFORM_KEY_NAME; EFI_KEY_EXCHANGE_KEY_NAME;
       EFI_IMAGE_SECURITY_DATABASE; EFI_IMAGE_SECURITY_DATABASE1; EFI_IMAGE_SECURITY_DATABASE2]) ->
  ~ terminated name g.
Proof.
  intros Hf (k & (str & Hk & Hin)%protected_names & _ & ->). rewrite Forall_forall in Hf.
  apply (Hf str Hin). by rewrite Hk.
Qed.

Lemma adversary_pages_ok :
  Forall (fun page => zlen page = SHMEM_SIZE /\ no_terminated_name page) adversary_pages.
Proof.
  repeat (apply Forall_cons; split); [split..|by apply Forall_nil];
    try (apply zlen_page_of; vm_compute; discriminate);
    (apply no_terminated_set_request; [by vm_compute..|vm_compute; split; congruence|];
     apply not_terminated; repeat constructor; by vm_compute).
Qed.

(** The update of the PK is refused: it asks for no authentication. *)
Lemma unsigned_PK_update (s : server unit) :
  @set_update zero_allocator adversary_openssl unit PK_name gEfiGlobalVariableGuid list_BB 7 s
  = Ok (EFI_INVALID_PARAMETER, set_sv_auth (set_data (padded_data list_BB) (sv_auth s)) s).
Proof.
  unfold set_update. change (has 7 _ || secure_boot_key (PK_name, _)) with true. cbv iota.
  unfold run_auth, mzoom. generalize (set_data (padded_data list_BB) (sv_auth s)). intros a.
  unfold auth_lib_process_variable.
  rewrite (bind_runs _ _ _ true a); [reflexivity|].
  apply mlift_runs. vm_compute. reflexivity.
Qed.

Definition after_PK (s : server unit) : server unit :=
  set_comm_buf (overwrite (le_encode 8 EFI_INVALID_PARAMETER) (page_of unsigned_PK))
    (set_sv_auth (set_data (padded_data list_BB) (sv_auth s))
       (set_runtime false (set_comm_buf (page_of unsigned_PK) s))).

Lemma unsigned_PK_refused (s : server unit) :
  @serve zero_allocator adversary_openssl unit None (page_of unsigned_PK) s
  = Ok (comm_buf (after_PK s), after_PK s).
Proof.
  apply serve_ok.
  assert (Hl : zlen (page_of unsigned_PK) = SHMEM_SIZE)
    by (apply zlen_page_of; vm_compute; discriminate).
  rewrite (set_variable_runs None _ PK_name gEfiGlobalVariableGuid list_BB 7 false) by set_page_of.
  change (set_guard PK_name gEfiGlobalVariableGuid 7 =? EFI_SUCCESS) with true. cbv iota.
  rewrite (bind_runs _ _ _ _ _ (unsigned_PK_update _)).
  apply reply_status_ok. cbn [comm_buf set_sv_auth set_runtime set_comm_buf].
  rewrite Hl. vm_compute. discriminate.
Qed.

Lemma adversary_session :
  exists replies s', @serve_all zero_allocator adversary_openssl unit None adversary_pages victim
    = Ok (replies, s').
Proof.
  unfold adversary_pages. cbn [serve_all].
  destruct (@call_refines zero_allocator adversary_openssl unit None ltac:(by intros b)
    (SetVariable name_B guid_1 [x01; x02] 7 false) (page_of set_B) (after_PK victim))
    as (s2 & R2 & _).
  - apply zero_allocator_grants.
  - exact store_PK_inv.
  - reflexivity.
  - repeat split; try (vm_compute; congruence); try done.
  - split; [apply zlen_page_of; vm_compute; discriminate|by eexists].
  - eexists _, s2. rewrite (bind_runs _ _ _ _ _ (unsigned_PK_refused victim)).
    erewrite bind_runs; [reflexivity|]. by rewrite (bind_runs _ _ _ _ _ R2).
Qed.

Lemma protected_variables_survive_witness :
  exists replies s', @serve_all zero_allocator adversary_openssl unit None adversary_pages victim
      = Ok (replies, s') /\
    setup_mode (sv_auth s') = USER_MODE /\
    forall k, protected_key k = true ->
      abs (variables (sv_store s')) !! k = abs (variables store_PK) !! k.
Proof.
  destruct adversary_session as (replies & s' & Hrun). exists replies, s'. split; [exact Hrun|].
  apply (@protected_variables_survive zero_allocator adversary_openssl unit None adversary_pages
           replies victim s' ltac:(by intros b)); [|done|exact adversary_has_no_signatures
           |exact adversary_pages_ok|exact Hrun].
  constructor; [constructor; [exact (si_wf _ store_PK_inv)|by right]|].
  apply zlen_page_of. vm_compute. discriminate.
Defined.
