(* ===== verification/Log.v ===== *)
(** * Logging

    [src/log.c] and the macros of [inc/log.h], with the other functions of the
    program that only print: [storage_print_all] of src/storage.c, [printargs]
    of src/uefistored.c and [debug_request] of src/xen_variable_server.c.

    The console is the level and what was printed to the two streams.  The
    configuration file is read through the class [GKeyFile] of GLib's
    functions.  Printing reads the objects it is given, so that it can fault:
    [dprint_name] does, at the level DEBUG, for a name that fills its object. *)
From Stdlib Require Import Strings.String.
From S2P Require Import Prelude LogLevel EfiTypes Common CText UefiVariable Storage.

(** ** Level and streams *)
Record console : Type := mk_console {
  loglevel : loglevel_t;
  con_stdout : bytes;
  con_stderr : bytes
}.

Definition console_init : console := mk_console LOGLEVEL_INFO [] [].

Definition set_loglevel (l : loglevel_t) : M console unit :=
  mmodify (fun c => mk_console l (con_stdout c) (con_stderr c)).

(** [fprintf (stdout, ...)] and [fprintf (stderr, ...)], flushed. *)
Definition print_stdout (ps : list piece) : M console unit :=
  text <- mlift (format ps) ;;
  mmodify (fun c => mk_console (loglevel c) (con_stdout c ++ text) (con_stderr c)).
Definition print_stderr (ps : list piece) : M console unit :=
  text <- mlift (format ps) ;;
  mmodify (fun c => mk_console (loglevel c) (con_stdout c) (con_stderr c ++ text)).

(** [if (loglevel >= level) { ... }] *)
Definition at_level (level : loglevel_t) (m : M console unit) : M console unit :=
  c <- mget ;; if level_num level <=? level_num (loglevel c) then m else ret tt.

(** The macros. *)
Definition ERROR (ps : list piece) : M console unit :=
  at_level LOGLEVEL_ERROR (print_stderr (Lit (str "uefistored:ERROR: ") :: ps)).
Definition WARNING (ps : list piece) : M console unit :=
  at_level LOGLEVEL_WARNING (print_stderr (Lit (str "uefistored:WARNING: ") :: ps)).
Definition INFO (ps : list piece) : M console unit :=
  at_level LOGLEVEL_INFO (print_stdout (Lit (str "uefistored:INFO: ") :: ps)).
Definition DBG (func : bytes) (line : Z) (ps : list piece) : M console unit :=
  at_level LOGLEVEL_DEBUG
    (print_stdout [Lit (str "uefistored:DEBUG:"); Lit func; Lit (str ":"); Num line;
                   Lit (str ": ")] ;;
     print_stdout ps).
Definition DPRINTF (ps : list piece) : M console unit := at_level LOGLEVEL_DEBUG (print_stdout ps).

(** The conversion [%02x] (and [%02llx]) of a non-negative number: at least two
    hexadecimal digits, at most those of 64 bits. *)
Definition hex_char (d : Z) : byte := byte_of_Z (if d <? 10 then 0x30 + d else 0x61 + (d - 10)).

Fixpoint hex_digits (fuel : nat) (z : Z) : bytes :=
  match fuel with
  | O => []
  | S fuel' => if z <? 16 then [hex_char z]
               else hex_digits fuel' (z / 16) ++ [hex_char (z mod 16)]
  end.

Definition hex2 (z : Z) : bytes :=
  if z <? 16 then [x30; hex_char z] else hex_digits 16 z.
Definition Hex (z : Z) : piece := Lit (hex2 z).

(** [if (loglevel < LOGLEVEL_DEBUG || !p) return;] *)
Definition when_debug {A} (p : option A) (m : A -> M console unit) : M console unit :=
  c <- mget ;;
  if level_num (loglevel c) <? level_num LOGLEVEL_DEBUG then ret tt
  else match p with None => ret tt | Some a => m a end.

(** ** Names, data, variables *)
Definition zero_chars : bytes := replicate 256 x00.

Definition dprint_name (name : option bytes) (namesz : Z) : M console unit :=
  when_debug name (fun n =>
    buf <- mlift (uc2_ascii_safe (Some n) namesz (Some zero_chars) MAX_VARIABLE_NAME_SIZE) ;;
    DPRINTF [Str buf; Lit (str " ("); Num namesz; Lit (str ")")]).

Fixpoint dprint_data_loop (fuel : nat) (p : bytes) (datasz i : Z) : M console unit :=
  if i <? datasz then
    match fuel with
    | O => mlift (Fault OutOfFuel)
    | S fuel' =>
        b <- mlift (read_le 1 p i) ;;
        DPRINTF [Lit (str "0x"); Hex b; Lit (str " ")] ;;
        (if i <? u64 (datasz - 1) then DPRINTF [Lit (str ", ")] else ret tt) ;;
        dprint_data_loop fuel' p datasz (i + 1)
    end
  else ret tt.

Definition dprint_data (data : option bytes) (datasz : Z) : M console unit :=
  when_debug data (fun p =>
    DPRINTF [Lit (str "data("); Num datasz; Lit (str ")=[")] ;;
    dprint_data_loop (Z.to_nat datasz) p datasz 0 ;;
    DPRINTF [Lit (str "]"); Lit [x0a]]).

Definition dprint_variable (var : option variable_t) : M console unit :=
  when_debug var (fun v =>
    dprint_name (Some (var_name v)) (var_namesz v) ;;
    g <- mlift (read_le 8 (var_guid v) 0) ;;
    DPRINTF [Lit (str ", guid=0x"); Hex g] ;;
    DPRINTF [Lit (str ", attrs=0x"); Hex (var_attrs v); Lit (str ", ")] ;;
    dprint_data (var_data v) (var_datasz v) ;;
    (if has (var_attrs v) EFI_VARIABLE_TIME_BASED_AUTHENTICATED_WRITE_ACCESS then
       let t := var_timestamp v in
       DPRINTF [Lit (str ", Time<Year="); Num (Year t); Lit (str ", Month="); Num (Month t);
                Lit (str ", Day="); Num (Day t); Lit (str ", Hour="); Num (Hour t);
                Lit (str ", Minute="); Num (Minute t); Lit (str ", Second="); Num (Second t);
                Lit (str ">")]
     else ret tt) ;;
    DPRINTF [Lit [x0a]]).

(** The loop over [&vars[i]]: an index beyond the array is a fault. *)
Fixpoint dprint_variables (vars : list variable_t) (n : nat) : M console unit :=
  match n with
  | O => ret tt
  | S n' =>
      match vars with
      | [] => mlift (Fault OutOfBounds)
      | v :: vars' => dprint_variable (Some v) ;; dprint_variables vars' n'
      end
  end.

Definition dprint_variable_list (vars : option (list variable_t)) (n : nat) : M console unit :=
  when_debug vars (fun vs => dprint_variables vs n).

(** ** [storage_print_all] *)
Fixpoint print_slots (vars : list variable_t) (i : Z) : M console unit :=
  match vars with
  | [] => ret tt
  | v :: vars' =>
      DPRINTF [Num i; Lit (str ": ")] ;;
      dprint_variable (Some v) ;;
      print_slots vars' (i + 1)
  end.

Definition storage_print_all (s : storage) : M console unit :=
  DBG (str "storage_print_all") 355 [Lit (str "All UEFI Variables:"); Lit [x0a]] ;;
  print_slots (variables s) 0 ;;
  DPRINTF [Lit [x0a]].

(** ** [printargs] *)
Fixpoint print_args (argv : list bytes) : M console unit :=
  match argv with
  | [] => ret tt
  | a :: argv' => DPRINTF [Str (Some a); Lit (str " ")] ;; print_args argv'
  end.

Definition printargs (argv : list bytes) : M console unit :=
  DPRINTF [Lit [x0a]; Lit (str "args: ")] ;; print_args argv ;; DPRINTF [Lit [x0a]].

(** ** [debug_request]: what would print is compiled out. *)
Definition debug_request {A} (req : option A) : M console unit :=
  when_debug req (fun _ => ret tt).

(** ** Configuration

    GLib's key files: whether a call sets the error is the second part of its
    result. *)
Class GKeyFile (K : Type) : Type := {
  g_key_file_new : option K;
  g_key_file_load_from_file : K -> bytes -> bool * bool * K;
  g_key_file_get_string : K -> bytes -> bytes -> option bytes * bool
}.

Definition CONFIG_PATH : bytes := str "/etc/uefistored/uefistored.conf".

(** The chain of comparisons on the value. *)
Definition set_level_from (val : bytes) : M console unit :=
  error <- mlift (strncmp_eq 5 val (str "ERROR")) ;;
  if (error : bool) then set_loglevel LOGLEVEL_ERROR
  else
  warning <- mlift (strncmp_eq 7 val (str "WARNING")) ;;
  if (warning : bool) then set_loglevel LOGLEVEL_WARNING
  else
  debug <- mlift (strncmp_eq 5 val (str "DEBUG")) ;;
  if (debug : bool) then set_loglevel LOGLEVEL_DEBUG
  else
  info <- mlift (strncmp_eq 4 val (str "INFO")) ;;
  if (info : bool) then set_loglevel LOGLEVEL_INFO
  else
  set_loglevel LOGLEVEL_INFO ;;
  INFO [Str (Some val); Lit (str " not valid loglevel, defaulting to INFO"); Lit [x0a]].

(** What follows the label [out]. *)
Definition logging_out (err : bool) : M console unit :=
  if err then
    set_loglevel LOGLEVEL_INFO ;;
    INFO [Lit CONFIG_PATH; Lit (str " not found, defaulting to loglevel=INFO"); Lit [x0a]]
  else ret tt.

Definition logging_init {K} `{GKeyFile K} : M console unit :=
  match g_key_file_new with
  | None => logging_out false
  | Some k =>
      let '(loaded, err, k) := g_key_file_load_from_file k CONFIG_PATH in
      if negb loaded then logging_out err
      else if err then logging_out err
      else
      let '(val, err) := g_key_file_get_string k (str "default") (str "loglevel") in
      match val with
      | Some v => if err then logging_out err else set_level_from v ;; logging_out err
      | None => logging_out err
      end
  end.
