(* ===== verification/LogSpec.v ===== *)
(** * Logging: what is printed

    Below the level DEBUG the printing functions do nothing, whatever they are
    given, so that leaving their calls out of the rest of the development is
    exact at those levels.  At DEBUG a dump of data can be read back, a name is
    printed when it is terminated within its object, and a name that fills its
    object is read past its end.  The level comes from the configuration file. *)
From Stdlib Require Import Strings.String.
From S2P Require Import Prelude LogLevel EfiTypes Common CText UefiVariable Storage Log.

(** ** Printing at a level *)
Definition shown (text : bytes) (c : console) : console :=
  mk_console (loglevel c) (con_stdout c ++ text) (con_stderr c).

Lemma shown_app a b c : shown b (shown a c) = shown (a ++ b) c.
Proof. unfold shown. cbn. by rewrite app_assoc. Qed.
Lemma shown_nil c : shown [] c = c.
Proof. unfold shown. rewrite app_nil_r. by destruct c. Qed.
Lemma shown_level text c : loglevel (shown text c) = loglevel c.
Proof. done. Qed.

Lemma DPRINTF_debug ps text c :
  loglevel c = LOGLEVEL_DEBUG -> format ps = Ok text -> DPRINTF ps c = Ok (tt, shown text c).
Proof.
  intros Hl Hf. unfold DPRINTF, at_level, bind at 1, mget. rewrite Hl.
  unfold print_stdout, bind, mlift. by rewrite Hf.
Qed.

Lemma DPRINTF_quiet ps c : loglevel c <> LOGLEVEL_DEBUG -> DPRINTF ps c = Ok (tt, c).
Proof. intros Hl. unfold DPRINTF, at_level, bind, mget. by destruct (loglevel c). Qed.

Lemma when_debug_quiet {A} (p : option A) m c :
  loglevel c <> LOGLEVEL_DEBUG -> when_debug p m c = Ok (tt, c).
Proof. intros Hl. unfold when_debug, bind, mget. by destruct (loglevel c). Qed.

Lemma when_debug_runs {A} (a : A) m c :
  loglevel c = LOGLEVEL_DEBUG -> when_debug (Some a) m c = m a c.
Proof. intros Hl. unfold when_debug, bind, mget. by rewrite Hl. Qed.

(** Below DEBUG nothing is printed and nothing is read: none of the printing
    functions changes the console or faults, whatever its arguments. *)
Lemma print_slots_quiet vars i c :
  loglevel c <> LOGLEVEL_DEBUG -> print_slots vars i c = Ok (tt, c).
Proof.
  intros Hl. revert i. induction vars as [|v vars IH]; intros i; [done|]. cbn [print_slots].
  erewrite bind_runs by by apply DPRINTF_quiet. erewrite bind_runs by by apply when_debug_quiet.
  apply IH.
Qed.

Lemma print_args_quiet argv c : loglevel c <> LOGLEVEL_DEBUG -> print_args argv c = Ok (tt, c).
Proof.
  intros Hl. induction argv as [|a argv IH]; [done|]. cbn [print_args].
  by erewrite bind_runs by by apply DPRINTF_quiet.
Qed.

Theorem silent_below_debug (c : console) name namesz data datasz var vars n s argv
    (req : option Z) :
  loglevel c <> LOGLEVEL_DEBUG ->
  dprint_name name namesz c = Ok (tt, c) /\ dprint_data data datasz c = Ok (tt, c) /\
  dprint_variable var c = Ok (tt, c) /\ dprint_variable_list vars n c = Ok (tt, c) /\
  storage_print_all s c = Ok (tt, c) /\ printargs argv c = Ok (tt, c) /\
  debug_request req c = Ok (tt, c).
Proof.
  intros Hl. split_and!; try by apply when_debug_quiet.
  - unfold storage_print_all.
    erewrite (bind_runs _ _ c tt c) by (unfold DBG, at_level, bind, mget; by destruct (loglevel c)).
    erewrite bind_runs by by apply print_slots_quiet. by apply DPRINTF_quiet.
  - unfold printargs. erewrite bind_runs by by apply DPRINTF_quiet.
    erewrite bind_runs by by apply print_args_quiet. by apply DPRINTF_quiet.
Qed.

(** ** Dumps of data *)
Fixpoint dump_bytes (data : bytes) : bytes :=
  match data with
  | [] => []
  | b :: data' =>
      str "0x" ++ hex2 (Z_of_byte b) ++ str " " ++
      (if bool_decide (data' = []) then [] else str ", ") ++ dump_bytes data'
  end.

Definition dump_text (data : bytes) : bytes :=
  str "data(" ++ decimal (zlen data) ++ str ")=[" ++ dump_bytes data ++ str "]" ++ [x0a].

(** Reading such a list of numbers, up to what is not one. *)
Fixpoint read_dump (s : bytes) : bytes :=
  match s with
  | x30 :: x78 :: h :: l :: x20 :: s' =>
      match hex_digit_of h, hex_digit_of l with
      | Some a, Some b =>
          byte_of_Z (a * 16 + b) ::
          match s' with
          | x2c :: x20 :: s'' => read_dump s''
          | _ => []
          end
      | _, _ => []
      end
  | _ => []
  end.

Lemma hex_char_read d : 0 <= d < 16 -> hex_digit_of (hex_char d) = Some d.
Proof.
  intros Hd. assert (E : d ∈ seqZ 0 16) by (apply elem_of_seqZ; lia). clear Hd. revert d E.
  apply Forall_forall, (bool_decide_unpack _). by vm_compute.
Qed.

(** The digits of a byte. *)
Lemma hex2_byte b :
  hex2 (Z_of_byte b) = [hex_char (Z_of_byte b / 16); hex_char (Z_of_byte b mod 16)].
Proof. by destruct b. Qed.

Lemma read_dump_bytes data rest :
  (forall s, rest <> x2c :: s) -> (data = [] -> read_dump rest = []) ->
  read_dump (dump_bytes data ++ rest) = data.
Proof.
  intros Hr Hn. induction data as [|b data IH]; [by apply Hn|]. pose proof (Z_of_byte_range b) as Hb.
  assert (Hd : 0 <= Z_of_byte b / 16 < 16)
    by (split; [apply Z.div_pos; lia|apply Z.div_lt_upper_bound; lia]).
  pose proof (Z.mod_pos_bound (Z_of_byte b) 16 ltac:(lia)) as Hm.
  cbn [dump_bytes]. rewrite hex2_byte. unfold str. cbn [list_byte_of_string app].
  cbn -[hex_char hex_digit_of dump_bytes Z.div Z.modulo]. rewrite !hex_char_read by done.
  replace (Z_of_byte b / 16 * 16 + Z_of_byte b mod 16) with (Z_of_byte b)
    by (pose proof (Z.div_mod (Z_of_byte b) 16); lia).
  rewrite byte_of_Z_of_byte. f_equal. case_bool_decide as He.
  - subst data. cbn [dump_bytes app]. destruct rest as [|r0 rest]; [done|].
    destruct (decide (r0 = x2c)) as [->|Hne]; [by destruct (Hr rest)|].
    by destruct r0.
  - cbn [app]. apply IH. done.
Qed.

Lemma dump_loop_ok fuel pre data post datasz c :
  loglevel c = LOGLEVEL_DEBUG -> (length data <= fuel)%nat ->
  datasz = zlen pre + zlen data -> datasz < 0x10000000000000000 ->
  dprint_data_loop fuel (pre ++ data ++ post) datasz (zlen pre) c
  = Ok (tt, shown (dump_bytes data) c).
Proof.
  intros Hl Hf Hd Hmax. revert pre fuel c Hl Hf Hd.
  induction data as [|b data IH]; intros pre fuel c Hl Hf Hd.
  { rewrite zlen_nil in Hd. destruct fuel; cbn [dprint_data_loop dump_bytes];
      rewrite (proj2 (Z.ltb_ge _ _)), shown_nil by lia; done. }
  destruct fuel as [|fuel]; [cbn in Hf; lia|]. rewrite zlen_cons in Hd.
  pose proof (zlen_nonneg data). pose proof (zlen_nonneg pre).
  cbn [dprint_data_loop]. rewrite (proj2 (Z.ltb_lt _ _)) by lia.
  erewrite bind_runs; cycle 1.
  { apply mlift_runs. unfold read_le. change (Z.of_nat 1) with (zlen [b]).
    change ((b :: data) ++ post) with ([b] ++ data ++ post).
    rewrite read_bytes_app. cbn [obind le_decode].
    by rewrite Z.mul_0_r, Z.add_0_r. }
  erewrite bind_runs by (apply DPRINTF_debug; [done|reflexivity]).
  rewrite u64_id by lia.
  set (sep := if bool_decide (data = []) then [] else str ", ").
  rewrite (bind_runs _ _ _ tt (shown sep (shown (str "0x" ++ hex2 (Z_of_byte b) ++ str " ") c)));
    cycle 1.
  { unfold sep. destruct data as [|b' data].
    - rewrite zlen_nil in Hd. rewrite (proj2 (Z.ltb_ge (zlen pre) (datasz - 1))) by lia.
      by rewrite shown_nil.
    - rewrite zlen_cons in Hd. pose proof (zlen_nonneg data).
      rewrite (proj2 (Z.ltb_lt (zlen pre) (datasz - 1))) by lia.
      apply DPRINTF_debug; [done|]. cbn [format obind]. by rewrite app_nil_r. }
  replace (pre ++ (b :: data) ++ post) with ((pre ++ [b]) ++ data ++ post)
    by by rewrite <-app_assoc.
  replace (zlen pre + 1) with (zlen (pre ++ [b])) by by rewrite zlen_app.
  rewrite IH; [|done|cbn in Hf; lia|rewrite zlen_app, zlen_cons, zlen_nil; lia].
  rewrite !shown_app. cbn [dump_bytes]. fold sep. by rewrite <-!app_assoc.
Qed.

Lemma dprint_data_ok p datasz c :
  loglevel c = LOGLEVEL_DEBUG -> 0 <= datasz <= zlen p -> zlen p < 0x10000000000000000 ->
  dprint_data (Some p) datasz c = Ok (tt, shown (dump_text (take (Z.to_nat datasz) p)) c).
Proof.
  intros Hl Hd Hp. unfold dprint_data. rewrite when_debug_runs by done.
  erewrite bind_runs by (apply DPRINTF_debug; [done|reflexivity]).
  set (data := take (Z.to_nat datasz) p).
  assert (Hz : zlen data = datasz) by (unfold data; rewrite zlen_take; lia).
  erewrite bind_runs; cycle 1.
  { rewrite <-(take_drop (Z.to_nat datasz) p). fold data.
    apply (dump_loop_ok _ [] data); [done|unfold zlen in Hz; lia|by rewrite Hz|lia]. }
  erewrite DPRINTF_debug by (done || reflexivity). rewrite !shown_app. do 3 f_equal.
  unfold dump_text. rewrite Hz, <-!app_assoc. done.
Qed.

(** At DEBUG the dump of a data object shows every byte of it: it can be read
    back from what is printed. *)
Theorem data_dump_read_back (p : bytes) (datasz : Z) (c : console) :
  loglevel c = LOGLEVEL_DEBUG -> 0 <= datasz <= zlen p -> zlen p < 0x10000000000000000 ->
  exists dump,
    dprint_data (Some p) datasz c
      = Ok (tt, mk_console LOGLEVEL_DEBUG
                  (con_stdout c ++ str "data(" ++ decimal datasz ++ str ")=[" ++ dump)
                  (con_stderr c)) /\
    read_dump dump = take (Z.to_nat datasz) p.
Proof.
  intros Hl Hd Hp. exists (dump_bytes (take (Z.to_nat datasz) p) ++ str "]" ++ [x0a]).
  rewrite dprint_data_ok by done. unfold shown, dump_text. rewrite Hl, zlen_take, Z2Nat.id by lia.
  rewrite Z.min_l by lia. split; [done|]. by apply read_dump_bytes.
Qed.

(** ** Names *)

(** The characters of a name that [char] can hold. *)
Definition plain_char (c : Z) : Prop := 0 < c < 256.
Definition narrow (cs : list Z) : bytes := byte_of_Z <$> cs.

Lemma plain_char16 cs : Forall plain_char cs -> Forall char16_ok cs.
Proof. intros H. eapply Forall_impl; [exact H|]. unfold plain_char, char16_ok. cbv beta. lia. Qed.

Lemma narrow_text cs : Forall plain_char cs -> text_ok (narrow cs).
Proof.
  intros Hcs. apply Forall_fmap. eapply Forall_impl; [exact Hcs|]. intros c Hc E.
  apply (f_equal Z_of_byte) in E. rewrite Z_of_byte_of_Z, Z.mod_small in E;
    unfold plain_char in Hc; [change (Z_of_byte NUL) with 0 in E; lia|lia].
Qed.

Lemma wchars_app a b : wchars (a ++ b) = wchars a ++ wchars b.
Proof. induction a as [|c a IH]; [done|]. cbn [app wchars]. by rewrite IH, app_assoc. Qed.

Lemma read_char before c rest :
  0 <= c < 0x10000 ->
  read_le 2 (wchars before ++ le_encode 2 c ++ rest) (2 * zlen before) = Ok c.
Proof.
  intros Hc. unfold read_le. rewrite <-zlen_wchars, <-(zlen_le_encode 2 c), read_bytes_app.
  cbn [obind]. by rewrite le_decode_encode.
Qed.

(** The loop of [uc2_ascii_safe], from the characters converted so far. *)
Lemma uc2_loop_step fuel before c rest out tail uc2_len len :
  0 < c < 0x10000 -> zlen before < uc2_len -> zlen before < len -> zlen out = zlen before ->
  uc2_ascii_loop (S fuel) (wchars before ++ le_encode 2 c ++ rest) uc2_len (out ++ x00 :: tail) len
    (zlen before)
  = uc2_ascii_loop fuel (wchars before ++ le_encode 2 c ++ rest) uc2_len
      ((out ++ [byte_of_Z c]) ++ tail) len (zlen before + 1).
Proof.
  intros Hc H1 H2 Ho. cbn [uc2_ascii_loop]. rewrite (proj2 (Z.ltb_lt _ uc2_len)) by done.
  rewrite (proj2 (Z.ltb_lt _ len)) by done. cbn [andb]. rewrite read_char by lia. cbn [obind].
  rewrite (proj2 (Z.eqb_neq c 0)) by lia. rewrite <-Ho.
  change (out ++ x00 :: tail) with (out ++ [x00] ++ tail).
  rewrite write_mid by done. cbn [obind]. by rewrite <-app_assoc.
Qed.

(** The loop stops at the terminator, at the bounds, or outside the object. *)
Lemma uc2_loop_ok fuel before cs rest k uc2_len len :
  Forall plain_char cs -> zlen before + zlen cs <= uc2_len ->
  zlen before + zlen cs <= len -> (length cs <= k)%nat -> (length cs < fuel)%nat ->
  forall out, zlen out = zlen before ->
  uc2_ascii_loop fuel (wchars (before ++ cs) ++ rest) uc2_len
    (out ++ replicate k x00) len (zlen before)
  = uc2_ascii_loop (fuel - length cs) (wchars (before ++ cs) ++ rest) uc2_len
      (out ++ narrow cs ++ replicate (k - length cs) x00) len (zlen before + zlen cs).
Proof.
  intros Hcs. revert fuel before k. induction Hcs as [|c cs Hc Hcs IH];
    intros fuel before k Hu Hl Hk Hf out Ho.
  { cbn [narrow fmap list_fmap app length]. by rewrite !Nat.sub_0_r, zlen_nil, Z.add_0_r. }
  destruct fuel as [|fuel]; [cbn in Hf; lia|]. destruct k as [|k]; [cbn in Hk; lia|].
  rewrite zlen_cons in Hu, Hl. pose proof (zlen_nonneg cs). cbn [length] in *.
  assert (E : wchars (before ++ c :: cs) ++ rest
              = wchars before ++ le_encode 2 c ++ wchars cs ++ rest)
    by (rewrite wchars_app; cbn [wchars]; by rewrite <-!app_assoc).
  cbn [replicate]. rewrite E, uc2_loop_step by (unfold plain_char in Hc; lia || done).
  rewrite <-E. replace (before ++ c :: cs) with ((before ++ [c]) ++ cs) by by rewrite <-app_assoc.
  replace (zlen before + 1) with (zlen (before ++ [c])) by by rewrite zlen_app.
  rewrite IH; [|rewrite zlen_app, zlen_cons, zlen_nil; lia..|lia|lia|rewrite !zlen_app; by rewrite Ho].
  cbn [narrow fmap list_fmap]. rewrite <-!app_assoc. cbn [app Nat.sub].
  f_equal. rewrite zlen_app, !zlen_cons, zlen_nil. lia.
Qed.

Lemma uc2_from_start cs rest uc2_len :
  Forall plain_char cs -> zlen cs <= uc2_len -> zlen cs < 256 ->
  uc2_ascii_loop (S (length (wchars cs ++ rest))) (wchars cs ++ rest) uc2_len zero_chars 256 0
  = uc2_ascii_loop (S (length (wchars cs ++ rest)) - length cs) (wchars cs ++ rest) uc2_len
      (narrow cs ++ replicate (256 - length cs) x00) 256 (zlen cs).
Proof.
  intros Hcs H1 H2. pose proof (zlen_wchars cs) as Hw.
  refine (uc2_loop_ok _ [] cs rest 256 uc2_len 256 Hcs _ _ _ _ [] eq_refl);
    unfold zlen in *; rewrite ?length_app; cbn [length]; lia.
Qed.

Lemma uc2_ascii_safe_ok cs rest uc2_len :
  Forall plain_char cs -> zlen cs < 256 -> zlen cs <= uc2_len ->
  uc2_ascii_safe (Some (wchars cs ++ le_encode 2 0 ++ rest)) uc2_len (Some zero_chars) 256
  = Ok (Some (narrow cs ++ NUL :: replicate (255 - length cs) x00)).
Proof.
  intros Hcs H256 Hlen. unfold uc2_ascii_safe. rewrite uc2_from_start by done.
  set (u := wchars cs ++ le_encode 2 0 ++ rest).
  pose proof (zlen_wchars cs) as Hw.
  destruct (S (length u) - length cs)%nat as [|fuel] eqn:Ef.
  { unfold u, zlen in *. rewrite length_app in Ef. lia. }
  assert (Hstop : uc2_ascii_loop (S fuel) u uc2_len (narrow cs ++ replicate (256 - length cs) x00)
                    256 (zlen cs)
                  = Ok (narrow cs ++ replicate (256 - length cs) x00, zlen cs)).
  { cbn [uc2_ascii_loop]. destruct (_ && _); [|done]. unfold u. by rewrite read_char. }
  rewrite Hstop. cbn [obind].
  replace (256 - length cs)%nat with (S (255 - length cs)) by (unfold zlen in H256; lia).
  cbn [replicate]. change (x00 :: replicate (255 - length cs) x00)
    with ([x00] ++ replicate (255 - length cs) x00).
  rewrite write_mid; [done| |done]. unfold narrow, zlen. by rewrite length_fmap.
Qed.

(** A name whose characters are below 256 and which is terminated within its
    object is printed as it is. *)
Theorem name_printed (cs : list Z) (rest : bytes) (namesz : Z) (c : console) :
  loglevel c = LOGLEVEL_DEBUG -> Forall plain_char cs -> zlen cs < 256 -> zlen cs <= namesz ->
  dprint_name (Some (wchars cs ++ le_encode 2 0 ++ rest)) namesz c
  = Ok (tt, mk_console LOGLEVEL_DEBUG
              (con_stdout c ++ narrow cs ++ str " (" ++ decimal namesz ++ str ")")
              (con_stderr c)).
Proof.
  intros Hl Hcs H256 Hlen. unfold dprint_name. rewrite when_debug_runs by done.
  erewrite bind_runs by (apply mlift_runs, uc2_ascii_safe_ok; done).
  erewrite DPRINTF_debug; [|done|].
  - unfold shown. rewrite Hl. reflexivity.
  - cbn [format]. rewrite c_string_text by by apply narrow_text. cbn [obind].
    by rewrite app_nil_r.
Qed.

(** A name that fills its object without a terminator, with its size in bytes
    given where the number of characters is meant, is read past the end. *)
Theorem full_name_read_past_end (cs : list Z) (namesz : Z) (c : console) :
  loglevel c = LOGLEVEL_DEBUG -> Forall plain_char cs -> 0 < zlen cs < 256 ->
  namesz = zlen (wchars cs) -> dprint_name (Some (wchars cs)) namesz c = Fault OutOfBounds.
Proof.
  intros Hl Hcs H256 ->. rewrite zlen_wchars. unfold dprint_name. rewrite when_debug_runs by done.
  unfold bind, mlift, uc2_ascii_safe. change MAX_VARIABLE_NAME_SIZE with 256.
  pose proof (uc2_from_start cs [] (2 * zlen cs) Hcs ltac:(lia) ltac:(lia)) as Hs.
  rewrite app_nil_r in Hs. rewrite Hs.
  pose proof (zlen_wchars cs) as Hw.
  destruct (S (length (wchars cs)) - length cs)%nat as [|fuel] eqn:Ef;
    [unfold zlen in Hw; lia|].
  cbn [uc2_ascii_loop]. rewrite (proj2 (Z.ltb_lt (zlen cs) (2 * zlen cs))) by lia.
  rewrite (proj2 (Z.ltb_lt (zlen cs) 256)) by lia. cbn [andb]. unfold read_le.
  rewrite read_bytes_oob; [done|]. rewrite Hw. lia.
Qed.

(** ** The level *)

(** The level a value selects: the first of the names it begins with. *)
Definition level_of (val : bytes) : loglevel_t :=
  if bool_decide (str "ERROR" `prefix_of` val) then LOGLEVEL_ERROR
  else if bool_decide (str "WARNING" `prefix_of` val) then LOGLEVEL_WARNING
  else if bool_decide (str "DEBUG" `prefix_of` val) then LOGLEVEL_DEBUG
  else LOGLEVEL_INFO.

(** The characters of the value of the key [loglevel] in the group [default],
    when the file can be read and has it. *)
Definition configured {K} `{GKeyFile K} (k : K) : option bytes :=
  let '(loaded, _, k) := g_key_file_load_from_file k CONFIG_PATH in
  if loaded then
    (fun val => take (length val - 1) val)
      <$> fst (g_key_file_get_string k (str "default") (str "loglevel"))
  else None.

(** GLib's documented behaviour: a call fails exactly when it sets the error,
    and a string is terminated. *)
Class GKeyFileLaws (K : Type) `{GKeyFile K} : Prop := {
  load_error : forall k path, let '(loaded, err, _) := g_key_file_load_from_file k path in
                 err = negb loaded;
  string_error : forall k group key, let '(val, err) := g_key_file_get_string k group key in
                 err = negb (bool_decide (is_Some val));
  string_text : forall k group key val err,
                 g_key_file_get_string k group key = (Some val, err) ->
                 exists cs, text_ok cs /\ val = cs ++ [NUL]
}.

Lemma strncmp_literal lit val :
  text_ok lit -> text_ok val ->
  strncmp_eq (length lit) (val ++ [NUL]) lit = Ok (bool_decide (lit `prefix_of` val)).
Proof.
  intros Hlit. revert val. induction Hlit as [|x lit Hx _ IH]; intros val Hval.
  { rewrite bool_decide_eq_true_2; [done|apply prefix_nil]. }
  cbn [length]. destruct Hval as [|y val Hy Hval]; cbn [app strncmp_eq].
  { rewrite (bool_decide_eq_false_2 (NUL = x)) by congruence. cbn [negb].
    rewrite bool_decide_eq_false_2; [done|]. by intros ?%prefix_nil_inv. }
  destruct (decide (x = y)) as [<-|Hxy].
  - rewrite bool_decide_eq_true_2, (bool_decide_eq_false_2 (x = NUL)) by done. cbn [negb].
    rewrite IH by done. f_equal. apply bool_decide_ext.
    split; [apply prefix_cons|apply prefix_cons_inv_2].
  - rewrite bool_decide_eq_false_2 by congruence. cbn [negb].
    rewrite bool_decide_eq_false_2; [done|]. by intros ?%prefix_cons_inv_1.
Qed.

(** What the program says about the configuration. *)
Definition config_message (val : option bytes) : bytes :=
  match val with
  | None => CONFIG_PATH ++ str " not found, defaulting to loglevel=INFO" ++ [x0a]
  | Some cs => cs ++ str " not valid loglevel, defaulting to INFO" ++ [x0a]
  end.
Definition unknown_level (cs : bytes) : bool :=
  bool_decide (level_of cs = LOGLEVEL_INFO) && negb (bool_decide (str "INFO" `prefix_of` cs)).

Definition configured_console (val : option bytes) (c : console) : console :=
  match val with
  | Some cs =>
      mk_console (level_of cs)
        (con_stdout c ++ if unknown_level cs
                         then str "uefistored:INFO: " ++ config_message (Some cs) else [])
        (con_stderr c)
  | None => mk_console LOGLEVEL_INFO
              (con_stdout c ++ str "uefistored:INFO: " ++ config_message None) (con_stderr c)
  end.

Lemma set_level_from_ok cs c :
  text_ok cs -> set_level_from (cs ++ [NUL]) c = Ok (tt, configured_console (Some cs) c).
Proof.
  intros Hcs. unfold set_level_from, configured_console, unknown_level, level_of.
  assert (Hlit : forall lit, forallb (fun c => negb (bool_decide (c = NUL))) lit = true ->
    forall c0 : console, mlift (strncmp_eq (length lit) (cs ++ [NUL]) lit) c0
      = Ok (bool_decide (lit `prefix_of` cs), c0)).
  { intros lit Hl c0. apply mlift_runs, strncmp_literal; [by apply text_check|done]. }
  erewrite bind_runs by by apply (Hlit (str "ERROR")).
  case_bool_decide; [by rewrite app_nil_r|].
  erewrite bind_runs by by apply (Hlit (str "WARNING")).
  case_bool_decide; [by rewrite app_nil_r|].
  erewrite bind_runs by by apply (Hlit (str "DEBUG")).
  case_bool_decide; [by rewrite app_nil_r|].
  erewrite bind_runs by by apply (Hlit (str "INFO")).
  rewrite (bool_decide_eq_true_2 (LOGLEVEL_INFO = _)) by done.
  case_bool_decide; cbn [andb negb]; [by rewrite app_nil_r|].
  unfold set_loglevel, mmodify, bind at 1, INFO, at_level, bind at 1, mget. cbn match.
  unfold print_stdout, bind, mlift. cbn [format]. rewrite c_string_text by done. cbn [obind].
  unfold mmodify. cbn [con_stdout con_stderr loglevel config_message]. by rewrite app_nil_r.
Qed.

Lemma logging_out_found c : logging_out true c = Ok (tt, configured_console None c).
Proof.
  unfold logging_out, set_loglevel, mmodify, bind at 1, INFO, at_level, bind at 1, mget.
  reflexivity.
Qed.

(** The configuration decides the level.  With a key file at hand the level
    becomes that of the first of the names ERROR, WARNING, DEBUG the value of
    [loglevel] begins with, and INFO otherwise; that there is no file or no
    value, and that the value begins with none of the four names, is reported
    on the standard output; without a key file nothing changes. *)
Theorem level_configured {K} `{GKeyFileLaws K} (c : console) :
  logging_init c
  = Ok (tt, match g_key_file_new with
            | None => c
            | Some k => configured_console (configured k) c
            end).
Proof.
  unfold logging_init, configured. destruct g_key_file_new as [k|]; [|done].
  pose proof (load_error k CONFIG_PATH) as Hload.
  destruct (g_key_file_load_from_file k CONFIG_PATH) as [[loaded err] k']. subst err.
  destruct loaded; cbn [negb]; [|by rewrite logging_out_found].
  pose proof (string_error k' (str "default") (str "loglevel")) as Hval.
  pose proof (string_text k' (str "default") (str "loglevel")) as Htext.
  destruct (g_key_file_get_string _ _ _) as [[val|] err]; cbn [fst] in *; subst err.
  - destruct (Htext val _ eq_refl) as (cs & Hcs & ->).
    rewrite bool_decide_eq_true_2 by by eexists. cbn [negb fmap option_fmap option_map].
    erewrite bind_runs by by apply set_level_from_ok. cbn [logging_out].
    rewrite length_app. cbn [length]. by rewrite Nat.add_sub, take_app_length.
  - rewrite bool_decide_eq_false_2 by by intros [? ?]. by rewrite logging_out_found.
Qed.

(** ** At concrete inputs *)
Definition debug_console : console := mk_console LOGLEVEL_DEBUG [] [].

(** A key file with one value. *)
#[local] Instance sample_key_file : GKeyFile bytes := {
  g_key_file_new := Some [];
  g_key_file_load_from_file _ path :=
    if bool_decide (path = CONFIG_PATH) then (true, false, str "DEBUGGING" ++ [NUL])
    else (false, true, []);
  g_key_file_get_string k group key :=
    if bool_decide (k = str "DEBUGGING" ++ [NUL] /\ group = str "default" /\ key = str "loglevel")
    then (Some k, false) else (None, true)
}.

#[local] Instance sample_key_file_laws : GKeyFileLaws bytes.
Proof.
  constructor.
  - intros k path. cbn. by case_bool_decide.
  - intros k group key. cbn. by case_bool_decide.
  - intros k group key val err. cbn. case_bool_decide as Hk; [|done]. intros [= <- _].
    exists (str "DEBUGGING"). split; [by apply text_check|apply Hk].
Qed.

Lemma level_configured_witness :
  logging_init console_init
  = Ok (tt, configured_console (configured (K := bytes) []) console_init).
Proof. exact (level_configured (K := bytes) console_init). Defined.

Lemma silent_below_debug_witness :
  dprint_name (Some []) 4 console_init = Ok (tt, console_init) /\
  dprint_data (Some []) 4 console_init = Ok (tt, console_init) /\
  dprint_variable (Some zero_var) console_init = Ok (tt, console_init) /\
  dprint_variable_list (Some []) 4 console_init = Ok (tt, console_init) /\
  storage_print_all storage_init console_init = Ok (tt, console_init) /\
  printargs [[]] console_init = Ok (tt, console_init) /\
  debug_request (Some 1) console_init = Ok (tt, console_init).
Proof.
  apply (silent_below_debug console_init (Some []) 4 (Some []) 4 (Some zero_var) (Some []) 4
           storage_init [[]] (Some 1)). discriminate.
Defined.

Lemma data_dump_read_back_witness :
  exists dump,
    dprint_data (Some [x01; xab; xff]) 2 debug_console
      = Ok (tt, mk_console LOGLEVEL_DEBUG
                  ([] ++ str "data(" ++ decimal 2 ++ str ")=[" ++ dump) []) /\
    read_dump dump = take (Z.to_nat 2) [x01; xab; xff].
Proof.
  apply (data_dump_read_back [x01; xab; xff] 2 debug_console);
    [reflexivity|vm_compute; split; discriminate|reflexivity].
Defined.

(** A name of 128 characters. *)
Definition full_name : list Z := replicate 128 0x41.

Lemma full_name_read_past_end_witness :
  dprint_name (Some (wchars full_name)) 256 debug_console = Fault OutOfBounds.
Proof.
  apply (full_name_read_past_end full_name 256 debug_console);
    [reflexivity|apply Forall_replicate; split; reflexivity|split; reflexivity|reflexivity].
Defined.

Lemma name_printed_witness :
  dprint_name (Some (wchars [0x50; 0x4b] ++ le_encode 2 0 ++ [])) 4 debug_console
  = Ok (tt, mk_console LOGLEVEL_DEBUG
              ([] ++ narrow [0x50; 0x4b] ++ str " (" ++ decimal 4 ++ str ")") []).
Proof.
  apply (name_printed [0x50; 0x4b] [] 4 debug_console);
    [reflexivity|repeat constructor|reflexivity|discriminate].
Defined.
