(* ===== verification/CertCallbacks.v ===== *)
(** * Certificates outside the verification of updates

    The parts of [src/uefi/pkcs7_verify.c] that no update goes through:
    [pkcs7_print], which shows the certificates of a structure that failed to
    verify at the level DEBUG, and [X509_verify_cb], the callback installed for
    versions of OpenSSL that cannot be told to ignore validity times. *)
From Stdlib Require Import Strings.String.
From S2P Require Import Prelude LogLevel EfiTypes Common CText UefiVariable Crypto Log LogSpec AuthSamples.

(** ** [pkcs7_print]

    The fields of a PKCS#7 structure and the printing functions. *)
Class X509Printing `{OpenSSL} : Type := {
  (** [OBJ_obj2nid (pkcs7->type)] *)
  PKCS7_nid : PKCS7 -> Z;
  (** [pkcs7->d.sign], and its [cert], each of which may be null *)
  PKCS7_sign : PKCS7 -> option (option (list X509));
  PKCS7_signed_and_enveloped : PKCS7 -> option (option (list X509));
  (** the text [X509_print] appends *)
  X509_print : X509 -> bytes
}.

Definition NID_pkcs7_signed : Z := 22.
Definition NID_pkcs7_signedAndEnveloped : Z := 24.

Section print.
Context `{Allocator} `{X509Printing}.

(** The certificates shown; null when the type is another one. *)
Definition printed_certs (pkcs7 : PKCS7) : option (list X509) :=
  let i := PKCS7_nid pkcs7 in
  if i =? NID_pkcs7_signed then
    match PKCS7_sign pkcs7 with Some cert => cert | None => None end
  else if i =? NID_pkcs7_signedAndEnveloped then
    match PKCS7_signed_and_enveloped pkcs7 with Some cert => cert | None => None end
  else None.

(** What the memory BIO holds after the loop. *)
Definition certs_text (certs : option (list X509)) : bytes :=
  match certs with
  | None => []
  | Some cs => concat ((fun x => X509_print x ++ [x0a]) <$> cs)
  end.

Definition pkcs7_print (pkcs7 : PKCS7) : M console Z :=
  c <- mget ;;
  if level_num (loglevel c) <? level_num LOGLEVEL_DEBUG then ret 0
  else if negb BIO_new then
    ERROR [Lit (str "failed to create new BIO"); Lit [x0a]] ;; ret (-1)
  else
    let text := certs_text (printed_certs pkcs7) in
    let len := zlen text in
    buf <- mlift (block_of (malloc len)) ;;
    buf <- mlift (memcpy buf 0 text 0 (u64 (len - 1))) ;;
    buf <- mlift (write_bytes buf (u64 (len - 1)) [x00]) ;;
    INFO [Str (Some buf)] ;;
    ret 0.

(** Without a certificate to show the length wraps around: a structure that
    carries none, which anybody can send, ends the process at the level DEBUG. *)
Theorem print_without_certificates (pkcs7 : PKCS7) (c : console) :
  loglevel c = LOGLEVEL_DEBUG -> BIO_new = true -> certs_text (printed_certs pkcs7) = [] ->
  exists f, pkcs7_print pkcs7 c = Fault f.
Proof.
  intros Hl Hb Ht. unfold pkcs7_print, bind at 1, mget. rewrite Hl, Hb. cbn [negb]. rewrite Ht.
  change (level_num LOGLEVEL_DEBUG <? level_num LOGLEVEL_DEBUG) with false. cbv match zeta.
  unfold bind, mlift. destruct (block_of (malloc (zlen []))) as [b|f]; [|by exists f].
  unfold memcpy. rewrite read_bytes_oob; [by eexists|by vm_compute].
Qed.

(** Otherwise the text is printed but for its last character. *)
Theorem certificates_printed (pkcs7 : PKCS7) (text : bytes) (c : console) :
  loglevel c = LOGLEVEL_DEBUG -> BIO_new = true -> text_ok text ->
  certs_text (printed_certs pkcs7) = text ++ [x0a] -> zlen text < 0x80000000 ->
  grants 0x80000000 ->
  pkcs7_print pkcs7 c
  = Ok (0, mk_console LOGLEVEL_DEBUG (con_stdout c ++ str "uefistored:INFO: " ++ text)
             (con_stderr c)).
Proof.
  intros Hl Hb Htext Ht Hmax G. unfold pkcs7_print, bind at 1, mget. rewrite Hl, Hb. cbn [negb].
  rewrite Ht. change (level_num LOGLEVEL_DEBUG <? level_num LOGLEVEL_DEBUG) with false.
  cbv match zeta. pose proof (zlen_nonneg text) as Hn.
  assert (Hz : zlen (text ++ [x0a]) = zlen text + 1) by by rewrite zlen_app.
  destruct (grants_block 0x80000000 (zlen (text ++ [x0a]))) as (b & Hm & Hlb); [done|lia|].
  rewrite Hm. cbn [block_of]. unfold bind at 1, mlift. rewrite Hz, Z.add_simpl_r, u64_id by lia.
  unfold bind at 1. rewrite memcpy_first by lia. unfold bind at 1.
  unfold zlen at 1 2. rewrite Nat2Z.id, take_app_length.
  rewrite write_last; [|done|rewrite zlen_drop, Hlb, Hz; unfold zlen; cbn [length]; lia].
  unfold INFO, at_level, bind at 1, bind at 1, mget. rewrite Hl. cbn match.
  unfold print_stdout, bind, mlift. cbn [format]. rewrite c_string_text by done.
  cbn [obind]. rewrite app_nil_r. unfold mmodify, ret. cbn. by rewrite Hl.
Qed.

End print.

(** ** [X509_verify_cb] *)
Section callback.
Context `{Allocator} {X509 : Type}.
(** [sizeof (X509_OBJECT)], a structure of OpenSSL *)
Context (sizeof_X509_OBJECT : Z) (Hsizeof : 0 <= sizeof_X509_OBJECT).

(** The fields of [X509_STORE_CTX] the callback reads, and
    [X509_OBJECT_retrieve_match] on its store. *)
Record X509_STORE_CTX : Type := mk_store_ctx {
  ctx_error : Z;
  ctx_current_cert : option X509;
  ctx_chain : list X509;
  ctx_match : option X509 -> bool
}.

Definition X509_V_ERR_UNABLE_TO_GET_ISSUER_CERT : Z := 2.
Definition X509_V_ERR_CERT_NOT_YET_VALID : Z := 9.
Definition X509_V_ERR_CERT_HAS_EXPIRED : Z := 10.
Definition X509_V_ERR_UNABLE_TO_GET_ISSUER_CERT_LOCALLY : Z := 20.
Definition X509_V_ERR_UNABLE_TO_VERIFY_LEAF_SIGNATURE : Z := 21.
Definition X509_V_ERR_CERT_UNTRUSTED : Z := 27.

(** The search through the chain. *)
Fixpoint chain_match (ctx : X509_STORE_CTX) (certs : list X509) (status : Z) : Z :=
  match certs with
  | [] => status
  | x :: certs' => if ctx_match ctx (Some x) then 1 else chain_match ctx certs' status
  end.

Definition X509_verify_cb (status : Z) (ctx : X509_STORE_CTX) : Z :=
  let error := ctx_error ctx in
  let found :=
    if (error =? X509_V_ERR_UNABLE_TO_GET_ISSUER_CERT)
       || (error =? X509_V_ERR_UNABLE_TO_GET_ISSUER_CERT_LOCALLY) then
      match malloc sizeof_X509_OBJECT with
      | None => None
      | Some _ =>
          Some (if ctx_match ctx (ctx_current_cert ctx) then 1
                else if error =? X509_V_ERR_UNABLE_TO_GET_ISSUER_CERT_LOCALLY
                then chain_match ctx (ctx_chain ctx) status
                else status)
      end
    else Some status in
  match found with
  | None => 0
  | Some status =>
      if (error =? X509_V_ERR_CERT_UNTRUSTED)
         || (error =? X509_V_ERR_UNABLE_TO_VERIFY_LEAF_SIGNATURE)
         || (error =? X509_V_ERR_CERT_HAS_EXPIRED)
         || (error =? X509_V_ERR_CERT_NOT_YET_VALID)
      then 1 else status
  end.

Lemma chain_match_spec ctx certs status :
  chain_match ctx certs status
  = if existsb (fun x => ctx_match ctx (Some x)) certs then 1 else status.
Proof. induction certs as [|x certs IH]; [done|]. cbn. by destruct (ctx_match ctx (Some x)). Qed.

(** A certificate OpenSSL refused is accepted for four kinds of error only: it
    is outside its validity times or not trusted, or its issuer is missing and
    it, or (when looked for locally) one of its chain, is in the store. *)
Theorem callback_accepts (ctx : X509_STORE_CTX) :
  grants sizeof_X509_OBJECT ->
  X509_verify_cb 0 ctx = 1 <->
  ctx_error ctx ∈ [X509_V_ERR_CERT_UNTRUSTED; X509_V_ERR_UNABLE_TO_VERIFY_LEAF_SIGNATURE;
                   X509_V_ERR_CERT_HAS_EXPIRED; X509_V_ERR_CERT_NOT_YET_VALID] \/
  (ctx_error ctx ∈ [X509_V_ERR_UNABLE_TO_GET_ISSUER_CERT;
                    X509_V_ERR_UNABLE_TO_GET_ISSUER_CERT_LOCALLY] /\
   ctx_match ctx (ctx_current_cert ctx) = true) \/
  (ctx_error ctx = X509_V_ERR_UNABLE_TO_GET_ISSUER_CERT_LOCALLY /\
   exists x, x ∈ ctx_chain ctx /\ ctx_match ctx (Some x) = true).
Proof using Hsizeof.
  intros G. destruct (grants_block sizeof_X509_OBJECT sizeof_X509_OBJECT) as (b & Hm & _);
    [done|lia|]. unfold X509_verify_cb. rewrite Hm, chain_match_spec.
  rewrite !elem_of_cons, !elem_of_nil.
  assert (Hex : existsb (fun x => ctx_match ctx (Some x)) (ctx_chain ctx) = true <->
                exists x, x ∈ ctx_chain ctx /\ ctx_match ctx (Some x) = true).
  { rewrite existsb_exists. by setoid_rewrite <-list_elem_of_In. }
  rewrite <-Hex. clear Hex Hm.
  destruct (existsb _ _), (ctx_match ctx (ctx_current_cert ctx));
    unfold X509_V_ERR_CERT_UNTRUSTED, X509_V_ERR_UNABLE_TO_VERIFY_LEAF_SIGNATURE,
      X509_V_ERR_CERT_HAS_EXPIRED, X509_V_ERR_CERT_NOT_YET_VALID,
      X509_V_ERR_UNABLE_TO_GET_ISSUER_CERT, X509_V_ERR_UNABLE_TO_GET_ISSUER_CERT_LOCALLY;
    repeat match goal with |- context [?a =? ?b] => destruct (Z.eqb_spec a b) end; cbn [orb];
    intuition (congruence || lia).
Qed.

End callback.

(** ** At concrete inputs *)

(** An expired certificate, and one whose issuer is in the store. *)
Definition expired_ctx : X509_STORE_CTX := mk_store_ctx 10 (Some [xaa]) [] (fun _ => false).
Definition issuer_ctx : X509_STORE_CTX :=
  mk_store_ctx 20 (Some [xaa]) [[xbb]] (fun c => bool_decide (c = Some [xbb])).

Lemma callback_accepts_witness :
  @X509_verify_cb zero_allocator bytes 16 0 issuer_ctx = 1 /\
  @X509_verify_cb zero_allocator bytes 16 0 expired_ctx = 1.
Proof.
  split; apply (@callback_accepts zero_allocator bytes 16 ltac:(lia));
    [apply zero_allocator_grants| |apply zero_allocator_grants|].
  - right. right. split; [reflexivity|]. exists [xbb]. split; [|reflexivity].
    apply list_elem_of_here.
  - left. do 2 apply list_elem_of_further. apply list_elem_of_here.
Defined.

(** A structure without certificates. *)
#[local] Instance toy_printing : @X509Printing toy_openssl := {|
  PKCS7_nid := (fun _ => 22) : @PKCS7 toy_openssl -> Z;
  PKCS7_sign := fun _ => Some None;
  PKCS7_signed_and_enveloped := fun _ => None;
  X509_print := fun c => c
|}.

Lemma print_without_certificates_witness :
  exists f, @pkcs7_print zero_allocator toy_openssl toy_printing [] debug_console = Fault f.
Proof.
  apply (@print_without_certificates zero_allocator toy_openssl toy_printing [] debug_console);
    reflexivity.
Defined.
