(* ===== verification/Concurrent.v ===== *)
(** * A guest that writes while its request is handled

    The page is shared memory: the guest may change any byte of it at any time.
    Here a reader fetches the page byte by byte, and the guest is a function that
    gives the page at each fetch.  Every handler reads each byte of the page at
    most once ([single_fetch]), so that what it parses is what it would have
    parsed from a page the guest does not touch; but the dispatcher and the
    handler both read the version and the command, and these may differ. *)
From S2P Require Import Prelude LogLevel EfiTypes Common UefiVariable Storage StorageInv.
From S2P Require Import Serializer SerializerSpec Crypto SigList Auth Server Requests.
From S2P Require Import Samples AuthSamples ServerSamples ServerSpec SetVariable Triples WellFormed.

(** ** Readers of shared memory *)

(** The number of fetches so far, and where the pointer is in the page. *)
Record cursor : Type := mk_cursor { clock : nat; position : Z }.

Section readers.
Context (guest : nat -> bytes).

(** One byte, as the guest has it at this moment. *)
Definition fetch_byte : M cursor bytes :=
  fun c => let* b := read_bytes (guest (clock c)) (position c) 1 in
           Ok (b, mk_cursor (S (clock c)) (position c + 1)).

Fixpoint fetch (n : nat) : M cursor bytes :=
  match n with
  | O => ret []
  | S n' => b <- fetch_byte ;; rest <- fetch n' ;; ret (b ++ rest)
  end.

Definition fetch_uint32 : M cursor Z := b <- fetch 4 ;; ret (le_decode b).
Definition fetch_uint64 : M cursor Z := b <- fetch 8 ;; ret (le_decode b).
Definition fetch_boolean : M cursor bool := b <- fetch 1 ;; ret (negb (le_decode b =? 0)).
Definition fetch_guid : M cursor EFI_GUID := fetch 16.

(** The pointer does not move when the size is refused. *)
Definition fetch_data (buf : bytes) (buflen : Z) : M cursor (Z * bytes) :=
  ptr <- mgets position ;;
  b <- fetch 8 ;;
  let size := le_decode b in
  if (size >? buflen) || (size >? 0xffffffffffffffff) then
    mmodify (fun c => mk_cursor (clock c) ptr) ;; ret (-1, buf)
  else
  b <- fetch (Z.to_nat size) ;;
  buf' <- mlift (write_bytes buf 0 b) ;;
  ret (s64 size, buf').

Definition fetch_get_request : M cursor (EFI_STATUS * option (request * bool)) :=
  version <- fetch_uint32 ;;
  if negb (version =? UEFISTORED_VERSION) then ret (EFI_UNSUPPORTED, None)
  else
  command <- fetch_uint32 ;;
  '(namesz, name) <- fetch_data zero_req_name MAX_VARIABLE_NAME_SIZE ;;
  if s32 namesz <? 0 then ret (EFI_OUT_OF_RESOURCES, None)
  else
  guid <- fetch_guid ;;
  buffer_size <- fetch_uint64 ;;
  rt <- fetch_boolean ;;
  ret (EFI_SUCCESS,
       Some (mk_request version command (s32 namesz) name (s64 buffer_size) zero_buffer guid 0,
             rt)).

Definition fetch_set_request : M cursor (EFI_STATUS * option (request * bool)) :=
  version <- fetch_uint32 ;;
  mlift (oassert (version =? UEFISTORED_VERSION)) ;;
  command <- fetch_uint32 ;;
  '(namesz, name) <- fetch_data zero_req_name MAX_VARIABLE_NAME_SIZE ;;
  if s32 namesz <? 0 then ret (EFI_OUT_OF_RESOURCES, None)
  else
  guid <- fetch_guid ;;
  '(buffer_size, buffer) <- fetch_data zero_buffer MAX_VARIABLE_DATA_SIZE ;;
  if buffer_size <? 0 then ret (EFI_OUT_OF_RESOURCES, None)
  else
  attrs <- fetch_uint32 ;;
  rt <- fetch_boolean ;;
  ret (EFI_SUCCESS,
       Some (mk_request version command (s32 namesz) name buffer_size buffer guid attrs, rt)).

Definition fetch_get_next_request : M cursor (Z * option (request * bool)) :=
  version <- fetch_uint32 ;;
  mlift (oassert (version =? 1)) ;;
  command <- fetch_uint32 ;;
  buffer_size <- fetch_uint64 ;;
  '(namesz, name) <- fetch_data zero_req_name MAX_VARIABLE_NAME_SIZE ;;
  if s32 namesz <? 0 then ret (-1, None)
  else
  guid <- fetch_guid ;;
  rt <- fetch_boolean ;;
  ret (0, Some (mk_request version command (s32 namesz) name (s64 buffer_size) zero_buffer guid
                  0, rt)).

End readers.

(** ** Requests

    The replies go to the page as the guest has it by then. *)
Section requests.
Context `{Allocator} `{OpenSSL} {E : Type} (backend : option (backend_t E)).
Context (guest : nat -> bytes).

Definition read_page {A} (c : cursor) (vm : M cursor A) : M (server E) (A * cursor) :=
  '(a, c') <- mlift (vm c) ;; mmodify (set_comm_buf (guest (clock c'))) ;; ret (a, c').

(** A new pointer to the start of the page. *)
Definition restart (c : cursor) : cursor := mk_cursor (clock c) 0.

Definition racing_query_variable_info (c : cursor) : M (server E) unit :=
  '(version, c) <- read_page (restart c) (fetch_uint32 guest) ;;
  if negb (version =? UEFISTORED_VERSION) then reply_status EFI_DEVICE_ERROR
  else
  '(command, c) <- read_page c (fetch_uint32 guest) ;;
  if negb (command =? COMMAND_QUERY_VARIABLE_INFO) then reply_status EFI_DEVICE_ERROR
  else
  '(attrs, _) <- read_page c (fetch_uint32 guest) ;;
  query_variable_info_body attrs.

(** The [switch] over the commands, after the version and the command. *)
Definition racing_handler (command : Z) (c : cursor) : M (server E) unit :=
  if command =? COMMAND_GET_VARIABLE then
    '(r, _) <- read_page (restart c) (fetch_get_request guest) ;; get_variable_body r
  else if command =? COMMAND_SET_VARIABLE then
    '(r, _) <- read_page (restart c) (fetch_set_request guest) ;; set_variable_body backend r
  else if command =? COMMAND_GET_NEXT_VARIABLE then
    '(r, _) <- read_page (restart c) (fetch_get_next_request guest) ;; get_next_variable_body r
  else if command =? COMMAND_QUERY_VARIABLE_INFO then racing_query_variable_info c
  else if command =? COMMAND_NOTIFY_SB_FAILURE then
    r <- backend_notify backend ;;
    if r <? 0 then reply_status EFI_DEVICE_ERROR else reply_status EFI_SUCCESS
  else ret tt.

Definition racing_handle_request : M (server E) unit :=
  '(version, c) <- read_page (mk_cursor 0 0) (fetch_uint32 guest) ;;
  if negb (version =? 1) then reply_status EFI_DEVICE_ERROR
  else
  '(command, c) <- read_page c (fetch_uint32 guest) ;;
  racing_handler command c.

End requests.

(** ** Every byte is fetched once

    [single_fetch lock vm m]: what [vm] reads from the page under the guest's
    hands is what [m] reads from some bytes [w] in its place, whatever follows
    them; and when [lock] holds of the result, the pointer is behind [w]. *)
Definition single_fetch {A} (guest : nat -> bytes) (lock : A -> bool) (vm : M cursor A)
    (m : M bytes A) : Prop :=
  forall c, 0 <= position c <= SHMEM_SIZE ->
  exists w, position c + zlen w <= SHMEM_SIZE /\
    forall rest, position c + zlen w + zlen rest = SHMEM_SIZE ->
      match vm c with
      | Ok (a, c') => exists s', m (w ++ rest) = Ok (a, s') /\
          (lock a = true -> position c' = position c + zlen w /\ s' = rest)
      | Fault f => m (w ++ rest) = Fault f
      end.

Definition locked {A} (a : A) : bool := true.

Section single_fetch.
Context (guest : nat -> bytes) (Hsize : forall t, zlen (guest t) = SHMEM_SIZE).
Abbreviation fetches := (single_fetch guest).
#[local] Set Default Proof Using "Type".

Lemma fetches_ret {A} lock (a : A) : fetches lock (ret a) (ret a).
Proof.
  intros c Hc. exists []. split; [rewrite zlen_nil; lia|]. intros rest _. cbn [app].
  exists rest. split; [done|]. intros _. split; [rewrite zlen_nil; lia|done].
Qed.

Lemma fetches_lift {A} (o : outcome A) : fetches locked (mlift o) (mlift o).
Proof.
  intros c Hc. exists []. split; [rewrite zlen_nil; lia|]. intros rest _.
  cbn [app]. unfold mlift. destruct o; [|done]. exists rest. split; [done|].
  intros _. split; [rewrite zlen_nil; lia|done].
Qed.

Lemma fetches_bind {A B} lock lock' (vm : M cursor A) m (vk : A -> M cursor B) k :
  fetches lock vm m ->
  (forall a, lock a = true -> fetches lock' (vk a) (k a)) ->
  (forall a, lock a = false -> exists b, vk a = ret b /\ k a = ret b /\ lock' b = false) ->
  fetches lock' (bind vm vk) (bind m k).
Proof.
  intros Hm Hk Hend c Hc. destruct (Hm c Hc) as (w1 & Hw1 & H1). unfold bind at 1.
  destruct (vm c) as [[a c1]|f] eqn:E; cycle 1.
  { exists w1. split; [done|]. intros rest Hr. unfold bind. by rewrite (H1 rest Hr). }
  destruct (lock a) eqn:El.
  - pose proof (zlen_nonneg w1).
    destruct (H1 (replicate (Z.to_nat (SHMEM_SIZE - position c - zlen w1)) x00))
      as (s1 & _ & Hl); [rewrite zlen_replicate; lia|]. destruct (Hl eq_refl) as [Hp _]. clear s1 Hl.
    destruct (Hk a El c1) as (w2 & Hw2 & H2); [lia|]. exists (w1 ++ w2). rewrite zlen_app.
    split; [lia|]. intros rest Hr. rewrite <-app_assoc.
    destruct (H1 (w2 ++ rest)) as (s1 & R1 & Hl1); [rewrite zlen_app; lia|].
    destruct (Hl1 eq_refl) as [_ ->]. unfold bind. rewrite R1.
    specialize (H2 rest ltac:(lia)). destruct (vk a c1) as [[b c2]|f]; [|done].
    destruct H2 as (s2 & R2 & Hl2). exists s2. split; [done|]. intros Hb.
    destruct (Hl2 Hb) as [Hp2 ->]. split; [lia|done].
  - destruct (Hend a El) as (b & Evk & Ek & Hb). exists w1. split; [done|]. intros rest Hr.
    destruct (H1 rest Hr) as (s1 & R1 & _). rewrite Evk. unfold bind. rewrite R1, Ek.
    exists s1. split; [done|]. by rewrite Hb.
Qed.

(** The usual case: the pointer stays where it belongs. *)
Lemma fetches_next {A B} lock' (vm : M cursor A) m (vk : A -> M cursor B) k :
  fetches locked vm m -> (forall a, fetches lock' (vk a) (k a)) ->
  fetches lock' (bind vm vk) (bind m k).
Proof. intros Hm Hk. eapply fetches_bind; [exact Hm|by intros a _|done]. Qed.

Lemma fetches_map {A B} (vm : M cursor A) m (f : A -> B) :
  fetches locked vm m -> fetches locked (a <- vm ;; ret (f a)) (a <- m ;; ret (f a)).
Proof. intros Hm. apply fetches_next; [exact Hm|]. intros a. apply fetches_ret. Qed.

(** [n] bytes. *)
Lemma fetch_run n : forall c, 0 <= position c <= SHMEM_SIZE ->
  exists w, position c + zlen w <= SHMEM_SIZE /\
    match fetch guest n c with
    | Ok (b, c') => b = w /\ zlen w = Z.of_nat n /\ position c' = position c + zlen w
    | Fault f => f = OutOfBounds /\ position c + zlen w = SHMEM_SIZE /\ zlen w < Z.of_nat n
    end.
Proof using Hsize.
  induction n as [|n IH]; intros c Hc; cbn [fetch].
  { exists []. rewrite zlen_nil. split; [lia|]. split_and!; [done|done|lia]. }
  unfold bind at 1, fetch_byte. destruct (decide (position c < SHMEM_SIZE)) as [Hlt|Hge]; cycle 1.
  { exists []. rewrite zlen_nil. split; [lia|]. unfold read_bytes.
    rewrite Hsize, (proj2 (Z.leb_gt (position c + 1) SHMEM_SIZE)), andb_false_r by lia.
    cbn [obind]. split_and!; [done|lia|lia]. }
  rewrite read_bytes_ok by (rewrite ?Hsize; lia). cbn [obind].
  set (b := take _ _). assert (Hb : zlen b = 1).
  { unfold b. pose proof (Hsize (clock c)). rewrite zlen_take, zlen_drop. lia. }
  destruct (IH (mk_cursor (S (clock c)) (position c + 1))) as (w & Hw & Hf);
    [cbn [position]; lia|]. cbn [position] in *. exists (b ++ w). rewrite zlen_app, Hb.
  split; [lia|]. unfold bind. destruct (fetch guest n _) as [[b' c']|f].
  - destruct Hf as (-> & Hn & Hp). split_and!; [done|lia|lia].
  - destruct Hf as (-> & Hp & Hn). split_and!; [done|lia|lia].
Qed.

Lemma fetches_fetch n : fetches locked (fetch guest n) (rd (Z.of_nat n)).
Proof using Hsize.
  intros c Hc. destruct (fetch_run n c Hc) as (w & Hw & Hf). exists w. split; [done|].
  intros rest Hr. pose proof (zlen_nonneg rest).
  destruct (fetch guest n c) as [[b c']|f].
  - destruct Hf as (-> & Hn & Hp). exists rest. rewrite (parses_rd w (Z.of_nat n)) by done.
    split; [done|]. by split.
  - destruct Hf as (-> & Hp & Hn). assert (zlen rest = 0) as ->%zlen_nil_inv by lia.
    unfold rd, read_bytes. rewrite app_nil_r.
    by rewrite (proj2 (Z.leb_gt (0 + Z.of_nat n) (zlen w))), andb_false_r by lia.
Qed.

(** ** The parsers *)
Lemma fetches_uint32 : fetches locked (fetch_uint32 guest) unserialize_uint32.
Proof using Hsize. apply fetches_map, (fetches_fetch 4). Qed.
Lemma fetches_uint64 : fetches locked (fetch_uint64 guest) unserialize_uint64.
Proof using Hsize. apply fetches_map, (fetches_fetch 8). Qed.
Lemma fetches_boolean : fetches locked (fetch_boolean guest) unserialize_boolean.
Proof using Hsize. apply fetches_map, (fetches_fetch 1). Qed.
Lemma fetches_guid : fetches locked (fetch_guid guest) unserialize_guid.
Proof using Hsize. apply (fetches_fetch 16). Qed.

(** A field whose size is refused leaves the pointer in front of it. *)
Definition accepted (r : Z * bytes) : bool := negb (r.1 =? -1).

Lemma fetches_data buf buflen :
  buflen < 0x8000000000000000 ->
  fetches accepted (fetch_data guest buf buflen) (unserialize_data buf buflen).
Proof using Hsize.
  intros Hl c Hc. unfold fetch_data, bind at 1, mgets.
  destruct (fetch_run 8 c Hc) as (w & Hw & Hf).
  destruct (fetch guest 8 c) as [[b c1]|f] eqn:Ef; cycle 1.
  { destruct Hf as (-> & Hp & Hn). exists w. split; [done|]. intros rest Hr.
    assert (zlen rest = 0) as ->%zlen_nil_inv by (pose proof (zlen_nonneg rest); lia).
    unfold bind at 1. rewrite Ef.
    unfold unserialize_data, bind, mget, mlift, read_le, read_bytes. rewrite app_nil_r.
    by rewrite (proj2 (Z.leb_gt (0 + Z.of_nat 8) (zlen w))), andb_false_r by lia. }
  destruct Hf as (-> & Hn & Hp).
  assert (Hread : forall rest, read_le 8 (w ++ rest) 0 = Ok (le_decode w)).
  { intros rest. unfold read_le. rewrite read_bytes_prefix by (pose proof (zlen_nonneg rest); zlia).
    cbn [obind]. by rewrite <-Hn, take_app_length' by (unfold zlen; lia). }
  destruct ((le_decode w >? buflen) || (le_decode w >? 0xffffffffffffffff)) eqn:Eq.
  - exists w. split; [done|]. intros rest Hr. unfold bind at 1. rewrite Ef. cbv zeta. rewrite Eq.
    exists (w ++ rest). split; [|done]. unfold unserialize_data.
    rewrite (bind_runs mget _ _ (w ++ rest) (w ++ rest)) by done.
    by rewrite (bind_runs _ _ _ _ _ (mlift_runs _ _ _ (Hread rest))), Eq.
  - assert (Hsize8 : 0 <= le_decode w <= buflen).
    { apply orb_false_iff in Eq as [Eq _]. rewrite Z.gtb_ltb in Eq. apply Z.ltb_ge in Eq.
      pose proof (le_decode_range w). lia. }
    assert (Hrest : fetches accepted
      (b <- fetch guest (Z.to_nat (le_decode w)) ;; buf' <- mlift (write_bytes buf 0 b) ;;
       ret (s64 (le_decode w), buf'))
      (b <- rd (le_decode w) ;; buf' <- mlift (write_bytes buf 0 b) ;;
       ret (s64 (le_decode w), buf'))).
    { pose proof (fetches_fetch (Z.to_nat (le_decode w))) as Hf. rewrite Z2Nat.id in Hf by lia.
      apply fetches_next; [exact Hf|]. intros b. apply fetches_next; [apply fetches_lift|].
      intros buf'. apply fetches_ret. }
    destruct (Hrest c1) as (w2 & Hw2 & Hf2); [pose proof (zlen_nonneg w); lia|]. clear Hrest.
    exists (w ++ w2). rewrite zlen_app. split; [lia|]. intros rest Hr. rewrite <-app_assoc.
    unfold bind at 1. rewrite Ef. cbv zeta. rewrite Eq.
    assert (Hm : unserialize_data buf buflen (w ++ w2 ++ rest)
      = (b <- rd (le_decode w) ;; buf' <- mlift (write_bytes buf 0 b) ;;
         ret (s64 (le_decode w), buf')) (w2 ++ rest)).
    { unfold unserialize_data.
      rewrite (bind_runs mget _ _ (w ++ w2 ++ rest) (w ++ w2 ++ rest)) by done.
      rewrite (bind_runs _ _ _ _ _ (mlift_runs _ _ _ (Hread (w2 ++ rest)))), Eq.
      by rewrite (bind_runs (rd 8) _ _ w (w2 ++ rest)) by by apply (parses_rd w 8). }
    rewrite Hm. specialize (Hf2 rest ltac:(lia)). destruct (bind (fetch _ _) _ c1) as [[r c2]|f]; [|exact Hf2].
    destruct Hf2 as (s' & R2 & Hl2). exists s'. split; [exact R2|]. intros Ha.
    destruct (Hl2 Ha) as [Hp2 ->]. split; [lia|done].
Qed.

(** A request was parsed. *)
Definition parsed {A B} (r : A * option B) : bool :=
  match r.2 with Some _ => true | None => false end.

(** A field, after which the code stops when its size was refused. *)
Lemma fetches_field {B} buf buflen lock (vk : Z * bytes -> M cursor B) k :
  buflen < 0x8000000000000000 -> (forall r, fetches lock (vk r) (k r)) ->
  (forall b, exists r, vk (-1, b) = ret r /\ k (-1, b) = ret r /\ lock r = false) ->
  fetches lock (bind (fetch_data guest buf buflen) vk) (bind (unserialize_data buf buflen) k).
Proof using Hsize.
  intros Hl Hk Hend. eapply fetches_bind; [by apply fetches_data|by intros a _|].
  intros [n b] Ha%negb_false_iff%Z.eqb_eq. cbn [fst] in Ha. subst n. apply Hend.
Qed.

(** Follow the structure of a parser. *)
Ltac fetch_steps :=
  repeat first
    [ apply fetches_ret
    | apply fetches_lift
    | apply fetches_next; [solve [apply fetches_uint32 | apply fetches_uint64
        | apply fetches_boolean | apply fetches_guid | apply fetches_lift]|intros ?]
    | apply fetches_field; [done|intros [? ?]|intros ?; eexists; split_and!; reflexivity]
    | case_match ].

Lemma fetches_get_request : fetches parsed (fetch_get_request guest) unserialize_get_request.
Proof using Hsize. unfold fetch_get_request, unserialize_get_request. fetch_steps. Qed.
Lemma fetches_set_request : fetches parsed (fetch_set_request guest) unserialize_set_request.
Proof using Hsize. unfold fetch_set_request, unserialize_set_request. fetch_steps. Qed.
Lemma fetches_get_next_request :
  fetches parsed (fetch_get_next_request guest) unserialize_get_next_request.
Proof using Hsize.
  unfold fetch_get_next_request, unserialize_get_next_request, unserialize_uintn. fetch_steps.
Qed.

(** What a parser makes of the page, it makes of a page that stays the same. *)
Lemma fetched_page {A} lock (vm : M cursor A) m t :
  fetches lock vm m ->
  exists page, zlen page = SHMEM_SIZE /\
    match vm (mk_cursor t 0) with
    | Ok (a, _) => exists s', m page = Ok (a, s')
    | Fault f => m page = Fault f
    end.
Proof using Type.
  intros Hm. destruct (Hm (mk_cursor t 0)) as (w & Hw & Hf); [by vm_compute|].
  cbn [position] in *. exists (w ++ replicate (Z.to_nat (SHMEM_SIZE - zlen w)) x00).
  split; [rewrite zlen_app, zlen_replicate; lia|].
  specialize (Hf (replicate (Z.to_nat (SHMEM_SIZE - zlen w)) x00)).
  destruct (vm _) as [[a c]|f]; [|apply Hf; rewrite zlen_replicate; lia].
  destruct Hf as (s' & Hs & _); [rewrite zlen_replicate; lia|]. by exists s'.
Qed.

End single_fetch.
