(* ===== verification/ConcurrentSpec.v ===== *)
(** * A guest that writes while its request is handled: theorems

    What the handlers do after they have parsed does not depend on the page
    ([page_blind]), so that a request under the hands of the guest has the
    outcome of one in a page that stays as it is, is refused, or stops the
    daemon by an assertion ([concurrent_requests]). *)
From S2P Require Import Prelude LogLevel EfiTypes Common UefiVariable Storage StorageInv.
From S2P Require Import Serializer SerializerSpec Crypto SigList Auth Server Requests Samples.
From S2P Require Import AuthSamples ServerSamples ServerSpec SetVariable Triples WellFormed.
From S2P Require Import Concurrent.

(** ** Computations that do not look at the page

    Two states that differ in the page only: the bytes [r] of the reply lie over
    the pages [p1] and [p2]. *)
Definition replied (p1 p2 b1 b2 : bytes) : Prop :=
  exists r, zlen r <= SHMEM_SIZE /\ b1 = overwrite r p1 /\ b2 = overwrite r p2.

Lemma overwrite_nil p : overwrite [] p = p.
Proof. unfold overwrite. cbn [app length]. apply drop_0. Qed.

Lemma overwrite_overwrite w r p :
  overwrite w (overwrite r p) = overwrite (w ++ drop (length w) r) p.
Proof.
  unfold overwrite. rewrite length_app, length_drop, <-app_assoc. f_equal.
  destruct (decide (length w <= length r)%nat).
  - rewrite drop_app_le by lia. f_equal.
    by replace (length w + (length r - length w))%nat with (length r) by lia.
  - rewrite (drop_ge r) by lia. rewrite drop_app_ge, drop_drop by lia. cbn [app].
    by replace (length w + (length r - length w))%nat
      with (length r + (length w - length r))%nat by lia.
Qed.

Lemma put_over w bs p :
  zlen p = SHMEM_SIZE -> zlen w <= SHMEM_SIZE ->
  put bs (overwrite w p, zlen w)
  = if zlen w + zlen bs <=? SHMEM_SIZE
    then Ok (tt, (overwrite (w ++ bs) p, zlen (w ++ bs))) else Fault OutOfBounds.
Proof.
  intros Hp Hw. unfold put. pose proof (zlen_nonneg w). pose proof (zlen_nonneg bs).
  assert (Hl : zlen (overwrite w p) = SHMEM_SIZE) by (rewrite zlen_overwrite; lia).
  destruct (Z.leb_spec (zlen w + zlen bs) SHMEM_SIZE) as [Hle|Hgt]; cycle 1.
  { unfold write_bytes.
    by rewrite Hl, (proj2 (Z.leb_gt (zlen w + zlen bs) SHMEM_SIZE)), andb_false_r by lia. }
  rewrite write_bytes_ok by lia. cbn [obind]. rewrite zlen_app. do 3 f_equal.
  unfold overwrite. rewrite length_app, <-app_assoc, <-drop_drop. f_equal; [|f_equal].
  - rewrite take_app_length' by (unfold zlen; lia). done.
  - replace (Z.to_nat (zlen w + zlen bs)) with (length w + length bs)%nat by (unfold zlen; lia).
    rewrite <-drop_drop, drop_app_length. by rewrite drop_drop.
Qed.

(** A writer, over two pages: the same bytes, or the same fault. *)
Definition writes_blindly {A} (m : M wbuf A) : Prop :=
  forall p1 p2 w, zlen p1 = SHMEM_SIZE -> zlen p2 = SHMEM_SIZE -> zlen w <= SHMEM_SIZE ->
    match m (overwrite w p1, zlen w), m (overwrite w p2, zlen w) with
    | Ok (a1, b1), Ok (a2, b2) => a1 = a2 /\ exists w', zlen w' <= SHMEM_SIZE /\
        b1 = (overwrite w' p1, zlen w') /\ b2 = (overwrite w' p2, zlen w')
    | Fault f1, Fault f2 => f1 = f2
    | _, _ => False
    end.

Lemma blind_put bs : writes_blindly (put bs).
Proof.
  intros p1 p2 w H1 H2 Hw. rewrite !put_over by done.
  destruct (Z.leb_spec (zlen w + zlen bs) SHMEM_SIZE); [|done]. split; [done|].
  exists (w ++ bs). by rewrite zlen_app.
Qed.

Lemma blind_writes_bind {A B} (m : M wbuf A) (k : A -> M wbuf B) :
  writes_blindly m -> (forall a, writes_blindly (k a)) -> writes_blindly (bind m k).
Proof.
  intros Hm Hk p1 p2 w H1 H2 Hw. specialize (Hm p1 p2 w H1 H2 Hw). unfold bind.
  destruct (m (overwrite w p1, zlen w)) as [[a1 b1]|f1], (m (overwrite w p2, zlen w)) as [[a2 b2]|f2];
    [|done|done|done].
  destruct Hm as (-> & w' & Hw' & -> & ->). by apply Hk.
Qed.

Lemma blind_put_from src n : writes_blindly (put_from src n).
Proof.
  intros p1 p2 w H1 H2 Hw. unfold put_from, bind at 1 2, mlift.
  destruct (read_bytes src 0 n) as [b|f]; [|done]. by apply blind_put.
Qed.

Lemma blind_writer_ret {A} (a : A) : writes_blindly (ret a).
Proof. intros p1 p2 w H1 H2 Hw. split; [done|]. by exists w. Qed.

Create HintDb blind discriminated.
#[export] Hint Constants Opaque : blind.
#[export] Hint Resolve blind_put blind_put_from blind_writer_ret : blind.

(** The writers of the replies. *)
Ltac writer :=
  repeat match goal with
  | |- writes_blindly (bind _ _) => apply blind_writes_bind; [|intros ?]
  | |- writes_blindly _ => solve [eauto 1 with blind nocore]
  end.

Lemma blind_result st : writes_blindly (serialize_result st).
Proof. apply blind_put. Qed.
Lemma blind_uint32 x : writes_blindly (serialize_uint32 x).
Proof. apply blind_put. Qed.
Lemma blind_uint64 x : writes_blindly (serialize_uint64 x).
Proof. apply blind_put. Qed.
Lemma blind_guid g : writes_blindly (serialize_guid g).
Proof. apply blind_put_from. Qed.
Lemma blind_data d n : writes_blindly (serialize_data d n).
Proof. unfold serialize_data. writer. Qed.
Lemma blind_name d n : writes_blindly (serialize_name d n).
Proof. unfold serialize_name. writer. Qed.
#[export] Hint Resolve blind_result blind_uint32 blind_uint64 blind_guid blind_data blind_name
  : blind.
Lemma blind_buffer_too_small n : writes_blindly (serialize_buffer_too_small n).
Proof. unfold serialize_buffer_too_small, serialize_uintn. writer. Qed.
#[export] Hint Resolve blind_buffer_too_small : blind.

Section blind.
Context `{Allocator} `{OpenSSL} {E : Type} (backend : option (backend_t E)).
Context (p1 p2 : bytes) (Hp1 : zlen p1 = SHMEM_SIZE) (Hp2 : zlen p2 = SHMEM_SIZE).

Record same_but_page (s1 s2 : server E) : Prop := {
  sb_auth : sv_auth s1 = sv_auth s2;
  sb_runtime : efi_at_runtime s1 = efi_at_runtime s2;
  sb_loglevel : sv_loglevel s1 = sv_loglevel s2;
  sb_ext : sv_ext s1 = sv_ext s2;
  sb_page : replied p1 p2 (comm_buf s1) (comm_buf s2)
}.

(** The outcomes of the same computation over the two pages. *)
Definition same_outcome {A} (o1 o2 : outcome (A * server E)) : Prop :=
  match o1, o2 with
  | Ok (a1, s1), Ok (a2, s2) => a1 = a2 /\ same_but_page s1 s2
  | Fault f1, Fault f2 => f1 = f2
  | _, _ => False
  end.

Definition page_blind {A} (m : M (server E) A) : Prop :=
  forall s1 s2, same_but_page s1 s2 -> same_outcome (m s1) (m s2).

Lemma blind_ret {A} (a : A) : page_blind (ret a).
Proof. by intros s1 s2 Hs. Qed.

Lemma blind_lift {A} (o : outcome A) : page_blind (mlift o).
Proof. intros s1 s2 Hs. unfold mlift. by destruct o. Qed.

Lemma blind_bind {A B} (m : M (server E) A) (k : A -> M (server E) B) :
  page_blind m -> (forall a, page_blind (k a)) -> page_blind (bind m k).
Proof.
  intros Hm Hk s1 s2 Hs. specialize (Hm s1 s2 Hs). unfold bind.
  destruct (m s1) as [[a1 t1]|f1], (m s2) as [[a2 t2]|f2]; [|done|done|done].
  destruct Hm as [-> Ht]. by apply Hk.
Qed.

(** The state is read for other things than the page. *)
Lemma blind_get {B} (k : server E -> M (server E) B) :
  (forall s, page_blind (k s)) -> (forall s1 s2, same_but_page s1 s2 -> k s1 = k s2) ->
  page_blind (bind mget k).
Proof.
  intros Hk Heq s1 s2 Hs. rewrite !(bind_runs mget _ _ _ _ eq_refl), (Heq s1 s2 Hs). by apply Hk.
Qed.

Lemma blind_set_runtime rt : page_blind (mmodify (set_runtime rt)).
Proof. intros s1 s2 []. split; [done|]. by constructor. Qed.

Lemma blind_run_auth {A} data (m : M auth_state A) : page_blind (run_auth data m).
Proof.
  intros s1 s2 [Ha Hr Hv He Hp]. unfold run_auth, mzoom. rewrite Ha.
  destruct (m _) as [[a t]|f]; [|done]. split; [done|]. by constructor.
Qed.

Lemma blind_on_store {A} (m : M storage A) : page_blind (sv_on_store m).
Proof.
  intros s1 s2 [Ha Hr Hv He Hp]. unfold sv_on_store, mzoom, sv_store. rewrite Ha.
  destruct (m _) as [[a t]|f]; [|done]. split; [done|].
  unfold set_sv_store. rewrite Ha. by constructor.
Qed.

Lemma blind_backend {A} (m : M (storage * E) A) : page_blind (run_backend m).
Proof.
  intros s1 s2 [Ha Hr Hv He Hp]. unfold run_backend, mzoom, sv_store. rewrite Ha, He.
  destruct (m _) as [[a t]|f]; [|done]. split; [done|]. rewrite Hr, Hv. by constructor.
Qed.

Lemma blind_reply (m : M wbuf unit) : writes_blindly m -> page_blind (reply m).
Proof using Hp1 Hp2.
  intros Hm s1 s2 [Ha Hr Hv He (r & Hl & Hb1 & Hb2)]. unfold reply, bind, mget, mlift, mmodify.
  specialize (Hm (overwrite r p1) (overwrite r p2) []).
  rewrite !overwrite_nil, <-Hb1, <-Hb2 in Hm. change (zlen []) with 0 in Hm.
  specialize (Hm ltac:(rewrite Hb1, zlen_overwrite; lia) ltac:(rewrite Hb2, zlen_overwrite; lia)
    ltac:(by vm_compute)).
  destruct (m (comm_buf s1, 0)) as [[u1 b1]|f1], (m (comm_buf s2, 0)) as [[u2 b2]|f2];
    [|done|done|done]. destruct Hm as (_ & w & Hw & -> & ->). split; [done|].
  constructor; [done|done|done|done|]. exists (w ++ drop (length w) r).
  cbn [fst snd comm_buf set_comm_buf]. rewrite Hb1, Hb2, !overwrite_overwrite.
  split; [|done]. rewrite zlen_app. unfold zlen in *. rewrite length_drop. lia.
Qed.

Lemma blind_reply_status st : page_blind (reply_status st).
Proof using Hp1 Hp2. apply blind_reply, blind_put. Qed.

Lemma blind_slot_var slot : page_blind (slot_var slot).
Proof.
  unfold slot_var. destruct slot as [i|]; [|apply blind_ret].
  apply blind_get; [intros s|intros s1 s2 [Ha _ _ _ _]; cbv beta; unfold sv_store; by rewrite Ha].
  apply blind_bind; [apply blind_lift|]. intros v. apply blind_ret.
Qed.

Hint Resolve blind_ret blind_lift blind_set_runtime blind_run_auth blind_on_store blind_backend
  blind_reply_status blind_slot_var : blind.

(** Follow the structure of a handler's body. *)
Ltac blind :=
  repeat match goal with
  | |- page_blind (reply _) => apply blind_reply; writer
  | |- page_blind (bind _ _) => apply blind_bind; [|intros ?]
  | |- page_blind (let _ := _ in _) => cbv zeta
  | |- page_blind _ => solve [eauto 1 with blind nocore]
  | |- page_blind _ => case_match
  end.

Lemma blind_get_error var req : page_blind (serialize_get_error var req).
Proof using Hp1 Hp2.
  unfold serialize_get_error. apply blind_get; [intros s|intros s1 s2 [_ Hr _ _ _]; cbv beta; by rewrite Hr].
  blind.
Qed.
Hint Resolve blind_get_error : blind.

Lemma blind_secure_boot v : page_blind (debug_secure_boot v).
Proof.
  unfold debug_secure_boot.
  apply blind_get; [intros s|intros s1 s2 [_ _ Hv _ _]; cbv beta; by rewrite Hv]. blind.
Qed.
Hint Resolve blind_secure_boot : blind.

Lemma blind_get_variable r : page_blind (get_variable_body r).
Proof using Hp1 Hp2. unfold get_variable_body. blind. Qed.
Lemma blind_query attrs : page_blind (query_variable_info_body attrs).
Proof using Hp1 Hp2. unfold query_variable_info_body. blind. Qed.
Lemma blind_get_next r : page_blind (get_next_variable_body r).
Proof using Hp1 Hp2. unfold get_next_variable_body. blind. Qed.
Lemma blind_backend_set : page_blind (backend_set backend).
Proof. unfold backend_set. blind. Qed.
Lemma blind_backend_notify : page_blind (backend_notify backend).
Proof. unfold backend_notify. blind. Qed.
Hint Resolve blind_backend_set blind_backend_notify : blind.
Lemma blind_set_variable r : page_blind (set_variable_body backend r).
Proof using Hp1 Hp2. unfold set_variable_body. blind. Qed.

End blind.

(** ** The version and the command of a page *)
Lemma page_header page :
  8 <= zlen page ->
  exists v c rest, 0 <= v < 0x100000000 /\ 0 <= c < 0x100000000 /\
    page = le_encode 4 v ++ le_encode 4 c ++ rest.
Proof.
  intros Hl. exists (le_decode (take 4 page)), (le_decode (take 4 (drop 4 page))), (drop 8 page).
  assert (L1 : length (take 4 page) = 4%nat) by (rewrite length_take; unfold zlen in Hl; lia).
  assert (L2 : length (take 4 (drop 4 page)) = 4%nat)
    by (rewrite length_take, length_drop; unfold zlen in Hl; lia).
  pose proof (le_decode_range (take 4 page)) as R1.
  pose proof (le_decode_range (take 4 (drop 4 page))) as R2. rewrite L1 in R1. rewrite L2 in R2.
  split; [done|]. split; [done|].
  pose proof (le_encode_decode (take 4 page)) as E1.
  pose proof (le_encode_decode (take 4 (drop 4 page))) as E2. rewrite L1 in E1. rewrite L2 in E2.
  rewrite E1, E2. change 8%nat with (4 + 4)%nat. by rewrite <-drop_drop, !take_drop.
Qed.

Lemma run_uint32 {A} (k : Z -> M bytes A) x rest :
  0 <= x < 0x100000000 ->
  bind unserialize_uint32 k (le_encode 4 x ++ rest) = k x rest.
Proof. intros Hx. by rewrite (bind_runs _ _ _ _ _ (parses_uint32 x Hx rest)). Qed.

(** What the parsers of the handlers make of a page with version [v] and command
    [c]. *)
Section headers.
Context (v c : Z) (rest : bytes) (Hv : 0 <= v < 0x100000000) (Hc : 0 <= c < 0x100000000).
Abbreviation page := (le_encode 4 v ++ le_encode 4 c ++ rest).
#[local] Set Default Proof Using "Type*".

Lemma get_request_header st p s' :
  unserialize_get_request page = Ok ((st, p), s') ->
  match p with
  | None => st <> EFI_SUCCESS
  | Some (req, _) => v = 1 /\ req_command req = c
  end.
Proof.
  unfold unserialize_get_request. rewrite run_uint32 by done.
  destruct (Z.eqb_spec v UEFISTORED_VERSION) as [->|]; cbn [negb]; [|by intros [= <- <- _]].
  rewrite run_uint32 by done. intros ([n name] & s1 & _ & Hr)%bind_inv.
  destruct (s32 n <? 0); [by injection Hr as <- <- _|].
  do 3 apply bind_inv in Hr as (? & ? & _ & Hr). by injection Hr as <- <- _.
Qed.

Lemma set_request_header st p s' :
  unserialize_set_request page = Ok ((st, p), s') ->
  v = 1 /\ match p with None => st <> EFI_SUCCESS | Some (req, _) => req_command req = c end.
Proof.
  unfold unserialize_set_request. rewrite run_uint32 by done.
  destruct (Z.eqb_spec v UEFISTORED_VERSION) as [->|]; [|done].
  rewrite (bind_runs _ _ _ tt _) by done. rewrite run_uint32 by done.
  intros ([n name] & s1 & _ & Hr)%bind_inv. split; [done|].
  destruct (s32 n <? 0); [by injection Hr as <- <- _|].
  apply bind_inv in Hr as (? & ? & _ & Hr). apply bind_inv in Hr as ([m d] & ? & _ & Hr).
  destruct (m <? 0); [by injection Hr as <- <- _|].
  do 2 apply bind_inv in Hr as (? & ? & _ & Hr). by injection Hr as <- <- _.
Qed.

Lemma get_next_request_header r p s' :
  unserialize_get_next_request page = Ok ((r, p), s') ->
  v = 1 /\ match p with None => True | Some (req, _) => req_version req = 1 /\ req_command req = c end.
Proof.
  unfold unserialize_get_next_request. rewrite run_uint32 by done.
  destruct (Z.eqb_spec v 1) as [->|]; [|done].
  rewrite (bind_runs _ _ _ tt _) by done. rewrite run_uint32 by done.
  intros (size & s1 & _ & Hr)%bind_inv. apply bind_inv in Hr as ([n name] & s2 & _ & Hr).
  split; [done|]. destruct (s32 n <? 0); [by injection Hr as <- <- _|].
  do 2 apply bind_inv in Hr as (? & ? & _ & Hr). by injection Hr as <- <- _.
Qed.

(** On a page of its size the parsers only fail by their assertion. *)
Lemma get_request_runs : 297 <= zlen page -> exists r, unserialize_get_request page = Ok r.
Proof using Type.
  intros Hl. destruct (get_request_consumes page Hl) as (r & s' & Hr & _). by eexists.
Qed.

Lemma set_request_fault f :
  33085 <= zlen page -> unserialize_set_request page = Fault f -> f = AssertFail.
Proof.
  intros Hl. unfold unserialize_set_request. rewrite run_uint32 by done.
  destruct (Z.eqb_spec v UEFISTORED_VERSION) as [->|]; [|by intros [= <-]].
  rewrite (bind_runs _ _ _ tt _) by done. rewrite run_uint32 by done.
  intros Hr. exfalso. revert Hr.
  match goal with |- ?m rest = _ -> _ => enough (Hm : consumes m 33077 (fun _ => True)) end.
  { destruct (Hm rest) as (r & s' & -> & _); [|done]. rewrite !zlen_app, !zlen_le_encode in Hl. lia. }
  consume_step 264. intros [n b] _. destruct (s32 n <? 0); [by apply consumes_ret|].
  consume_step 16. intros g _. consume_step 32776. intros [m d] _.
  destruct (m <? 0); [by apply consumes_ret|].
  consume_step 4. intros a _. consume_step 1. intros rt _. by apply consumes_ret.
Qed.

Lemma get_next_request_fault f :
  297 <= zlen page -> unserialize_get_next_request page = Fault f -> f = AssertFail.
Proof.
  intros Hl. unfold unserialize_get_next_request. rewrite run_uint32 by done.
  destruct (Z.eqb_spec v 1) as [->|]; [|by intros [= <-]].
  rewrite (bind_runs _ _ _ tt _) by done. rewrite run_uint32 by done.
  intros Hr. exfalso. revert Hr.
  match goal with |- ?m rest = _ -> _ => enough (Hm : consumes m 289 (fun _ => True)) end.
  { destruct (Hm rest) as (r & s' & -> & _); [|done]. rewrite !zlen_app, !zlen_le_encode in Hl. lia. }
  consume_step 8. intros size _. consume_step 264. intros [n b] _.
  destruct (s32 n <? 0); [by apply consumes_ret|].
  consume_step 16. intros g _. consume_step 1. intros rt _. by apply consumes_ret.
Qed.

End headers.

(** ** One request *)
Section races.
Context `{Allocator} `{OpenSSL} {E : Type} (backend : option (backend_t E)).
Context (guest : nat -> bytes) (Hsize : forall t, zlen (guest t) = SHMEM_SIZE).
Abbreviation sequential := (xen_variable_server_handle_request backend true).

(** The outcome is the one of a request in a page that stays as it is. *)
Definition as_if_still (s : server E) (o : outcome (unit * server E)) : Prop :=
  exists final page, zlen final = SHMEM_SIZE /\ zlen page = SHMEM_SIZE /\
    same_outcome final page o (sequential (set_comm_buf page s)).

(** The request is refused: only an error status is written. *)
Definition refused (s : server E) (o : outcome (unit * server E)) : Prop :=
  exists st rt page, st <> EFI_SUCCESS /\ zlen page = SHMEM_SIZE /\
    o = Ok (tt, set_comm_buf (overwrite (le_encode 8 st) page) (set_runtime rt s)).

Definition settled (s : server E) (o : outcome (unit * server E)) : Prop :=
  as_if_still s o \/ refused s o \/ o = Fault AssertFail.

#[local] Set Default Proof Using "Type*".

Lemma settled_blind s (m : M (server E) unit) final page :
  zlen final = SHMEM_SIZE -> zlen page = SHMEM_SIZE ->
  page_blind final page m ->
  sequential (set_comm_buf page s) = m (set_comm_buf page s) ->
  settled s (m (set_comm_buf final s)).
Proof using Type.
  intros Hf Hp Hm Hseq. left. exists final, page. split_and!; [done|done|]. rewrite Hseq.
  apply Hm. constructor; [done|done|done|done|]. exists []. by rewrite !overwrite_nil.
Qed.

Lemma settled_status s st final :
  zlen final = SHMEM_SIZE -> st <> EFI_SUCCESS ->
  settled s (reply_status st (set_comm_buf final s)).
Proof using Type.
  intros Hf Hst. right. left. exists st, (efi_at_runtime s), final. split_and!; [done|done|].
  rewrite reply_status_ok by (cbn [comm_buf set_comm_buf]; rewrite Hf; by vm_compute).
  by destruct s.
Qed.

Lemma settled_status_runtime s st rt final :
  zlen final = SHMEM_SIZE -> st <> EFI_SUCCESS ->
  settled s (reply_status st (set_runtime rt (set_comm_buf final s))).
Proof using Type.
  intros Hf Hst. right. left. exists st, rt, final. split_and!; [done|done|].
  by rewrite reply_status_ok by (cbn [comm_buf set_runtime set_comm_buf]; rewrite Hf; by vm_compute).
Qed.

Lemma read_page_run {A} c (vm : M cursor A) (s : server E) :
  match vm c with
  | Ok (a, c') => read_page guest c vm s = Ok ((a, c'), set_comm_buf (guest (clock c')) s)
  | Fault f => read_page guest c vm s = Fault f
  end.
Proof using Type. unfold read_page, bind, mlift. by destruct (vm c) as [[a c']|f]. Qed.

Lemma read_page_uint32 c (s : server E) :
  0 <= position c -> position c + 4 <= SHMEM_SIZE ->
  exists x c', 0 <= x < 0x100000000 /\ position c' = position c + 4 /\
    read_page guest c (fetch_uint32 guest) s = Ok ((x, c'), set_comm_buf (guest (clock c')) s).
Proof.
  intros Hc Hl. pose proof (read_page_run c (fetch_uint32 guest) s) as Hr.
  unfold fetch_uint32 in Hr at 1. unfold bind at 1 in Hr.
  destruct (fetch_run guest Hsize 4 c) as (w & Hw & Hf); [clia|].
  destruct (fetch guest 4 c) as [[b c']|f]; [|lia]. destruct Hf as (-> & Hn & Hp).
  exists (le_decode w), c'. split_and!; [| |lia|exact Hr];
    pose proof (le_decode_range w) as R; replace (length w) with 4%nat in R by (unfold zlen in Hn; lia);
    lia.
Qed.

(** A handler that parses a page with the version and the command it expects. *)
Lemma settled_handler {A} c cmd lock (vm : M cursor A) m (body : A -> M (server E) unit) q s :
  single_fetch guest lock vm m ->
  0 <= cmd < 0x100000000 -> handler backend cmd = (r <- parse m ;; body r) ->
  (forall final page a, zlen final = SHMEM_SIZE -> zlen page = SHMEM_SIZE ->
     page_blind final page (body a)) ->
  (forall v cc rest, 0 <= v < 0x100000000 -> 0 <= cc < 0x100000000 -> v <> 1 \/ cc <> cmd ->
     zlen (le_encode 4 v ++ le_encode 4 cc ++ rest) = SHMEM_SIZE ->
     match m (le_encode 4 v ++ le_encode 4 cc ++ rest) with
     | Ok (a, _) => forall final, zlen final = SHMEM_SIZE ->
         settled s (body a (set_comm_buf final s))
     | Fault f => f = AssertFail
     end) ->
  settled s (('(r, _) <- read_page guest (restart c) vm ;; body r) (set_comm_buf q s)).
Proof.
  intros Hfetch Hcmd Hh Hblind Hother.
  destruct (fetched_page guest lock vm m (clock c) Hfetch) as (page & Hl & Hp).
  destruct (page_header page) as (v & cc & rest & Hv & Hcc & Epage); [rewrite Hl; by vm_compute|].
  pose proof (read_page_run (restart c) vm (set_comm_buf q s)) as Hr.
  change (mk_cursor (clock c) 0) with (restart c) in Hp. unfold bind at 1.
  destruct (decide (v = 1 /\ cc = cmd)) as [[-> ->]|Hne].
  - assert (Hseq : sequential (set_comm_buf page s) = (r <- parse m ;; body r) (set_comm_buf page s))
      by (rewrite <-Hh; by eapply dispatch).
    destruct (vm (restart c)) as [[a c']|f]; rewrite Hr.
    + destruct Hp as (s' & Hp). change (set_comm_buf _ (set_comm_buf q s))
        with (set_comm_buf (guest (clock c')) s).
      apply (settled_blind s (body a) _ page); [done|done|by apply Hblind|].
      rewrite Hseq. apply bind_runs. unfold parse, bind, mget, mlift.
      cbn [comm_buf set_comm_buf]. by rewrite Hp.
    + left. exists page, page. split_and!; [done|done|]. rewrite Hseq.
      unfold parse, bind, mget, mlift. cbn [comm_buf set_comm_buf]. by rewrite Hp.
  - assert (Hvc : v <> 1 \/ cc <> cmd) by (destruct (decide (v = 1)); [right|by left]; tauto).
    rewrite Epage in Hl. specialize (Hother v cc rest Hv Hcc Hvc Hl). rewrite <-Epage in Hother.
    destruct (vm (restart c)) as [[a c']|f]; rewrite Hr.
    + destruct Hp as (s' & Hp). rewrite Hp in Hother.
      change (set_comm_buf _ (set_comm_buf q s)) with (set_comm_buf (guest (clock c')) s).
      by apply Hother.
    + rewrite Hp in Hother. subst f. by right; right.
Qed.


Lemma settled_query c q (s : server E) :
  settled s (racing_query_variable_info guest c (set_comm_buf q s)).
Proof.
  unfold racing_query_variable_info.
  destruct (read_page_uint32 (restart c) (set_comm_buf q s)) as (v & c1 & Hv & Hp1 & R1);
    [by vm_compute|by vm_compute|]. rewrite (bind_runs _ _ _ _ _ R1).
  destruct (Z.eqb_spec v UEFISTORED_VERSION) as [->|]; cbn [negb]; [|by apply (settled_status s)].
  cbn [position restart] in Hp1.
  match goal with |- context [bind (read_page guest c1 _) _ ?t] =>
    destruct (read_page_uint32 c1 t) as (cc & c2 & Hcc & Hp2 & R2); [lia|rewrite Hp1; by vm_compute|] end.
  rewrite (bind_runs _ _ _ _ _ R2).
  destruct (Z.eqb_spec cc COMMAND_QUERY_VARIABLE_INFO) as [->|]; cbn [negb]; [|by apply (settled_status s)].
  match goal with |- context [bind (read_page guest c2 _) _ ?t] =>
    destruct (read_page_uint32 c2 t) as (attrs & c3 & Hat & Hp3 & R3);
      [lia|rewrite Hp2, Hp1; by vm_compute|] end.
  rewrite (bind_runs _ _ _ _ _ R3).
  set (head := le_encode 4 1 ++ le_encode 4 COMMAND_QUERY_VARIABLE_INFO ++ le_encode 4 attrs).
  set (page := head ++ replicate (Z.to_nat (SHMEM_SIZE - 12)) x00).
  assert (Hl : zlen page = SHMEM_SIZE).
  { unfold page, head. rewrite !zlen_app, !zlen_le_encode, zlen_replicate. by vm_compute. }
  change (set_comm_buf _ _) with (set_comm_buf (guest (clock c3)) s).
  apply (settled_blind s (query_variable_info_body attrs) _ page); [done|done|by apply blind_query|].
  rewrite (dispatch backend COMMAND_QUERY_VARIABLE_INFO
    (le_encode 4 attrs ++ replicate (Z.to_nat (SHMEM_SIZE - 12)) x00)); [|done|].
  - change (handler backend COMMAND_QUERY_VARIABLE_INFO) with (@handle_query_variable_info E).
    unfold handle_query_variable_info.
    rewrite (bind_runs _ _ _ 1 (set_comm_buf page s)) by
      (eapply parse_ok; [by apply parses_uint32|by unfold page, head; cbn [comm_buf set_comm_buf]; rewrite <-!app_assoc]).
    change (negb (1 =? UEFISTORED_VERSION)) with false. cbv iota.
    rewrite (bind_runs _ _ _ COMMAND_QUERY_VARIABLE_INFO (set_comm_buf page s)) by
      (eapply (parse_ok _ (le_encode 4 1 ++ le_encode 4 COMMAND_QUERY_VARIABLE_INFO));
       [eapply parses_bind; by apply parses_uint32
       |by unfold page, head; cbn [comm_buf set_comm_buf]; rewrite <-!app_assoc]).
    change (negb (_ =? COMMAND_QUERY_VARIABLE_INFO)) with false. cbv iota.
    apply bind_runs. eapply (parse_ok _ head); [|done].
    eapply parses_bind; [by apply parses_uint32|]. eapply parses_bind; by apply parses_uint32.
  - unfold page, head. cbn [comm_buf set_comm_buf]. by rewrite <-!app_assoc.
Qed.

(** The handlers, on a page whose version or command is not the expected one. *)
Lemma settled_get c q (s : server E) :
  settled s (('(r, _) <- read_page guest (restart c) (fetch_get_request guest) ;;
              get_variable_body r) (set_comm_buf q s)).
Proof.
  apply (settled_handler c COMMAND_GET_VARIABLE parsed _ unserialize_get_request);
    [by apply fetches_get_request|done|done|intros; by apply blind_get_variable|].
  intros v cc rest Hv Hcc Hne Hl.
  destruct (get_request_runs v cc rest) as [[[st p] s'] Hr]; [rewrite Hl; by vm_compute|].
  rewrite Hr. apply get_request_header in Hr; [|done|done]. intros final Hf.
  destruct p as [[req rt]|]; [|by apply (settled_status s)]. destruct Hr as [-> Hc].
  cbn [get_variable_body]. rewrite (bind_runs _ _ _ tt (set_runtime rt (set_comm_buf final s))) by done.
  rewrite Hc, (proj2 (Z.eqb_neq cc _)) by tauto. by apply (settled_status_runtime s).
Qed.

Lemma settled_set c q (s : server E) :
  settled s (('(r, _) <- read_page guest (restart c) (fetch_set_request guest) ;;
              set_variable_body backend r) (set_comm_buf q s)).
Proof.
  apply (settled_handler c COMMAND_SET_VARIABLE parsed _ unserialize_set_request);
    [by apply fetches_set_request|done|done|intros; by apply blind_set_variable|].
  intros v cc rest Hv Hcc Hne Hl.
  destruct (unserialize_set_request _) as [[[st p] s']|f] eqn:Hr; cycle 1.
  { eapply set_request_fault; [exact Hv|exact Hcc|rewrite Hl; by vm_compute|exact Hr]. }
  apply set_request_header in Hr as [-> Hr]; [|done|done]. intros final Hf.
  destruct p as [[req rt]|]; [|by apply (settled_status s)].
  cbn [set_variable_body]. rewrite (bind_runs _ _ _ tt (set_runtime rt (set_comm_buf final s))) by done.
  rewrite Hr, (proj2 (Z.eqb_neq cc _)) by tauto. by apply (settled_status_runtime s).
Qed.

Lemma settled_get_next c q (s : server E) :
  settled s (('(r, _) <- read_page guest (restart c) (fetch_get_next_request guest) ;;
              get_next_variable_body r) (set_comm_buf q s)).
Proof.
  apply (settled_handler c COMMAND_GET_NEXT_VARIABLE parsed _ unserialize_get_next_request);
    [by apply fetches_get_next_request|done|done|intros; by apply blind_get_next|].
  intros v cc rest Hv Hcc Hne Hl.
  destruct (unserialize_get_next_request _) as [[[st p] s']|f] eqn:Hr; cycle 1.
  { eapply get_next_request_fault; [exact Hv|exact Hcc|rewrite Hl; by vm_compute|exact Hr]. }
  apply get_next_request_header in Hr as [-> Hr]; [|done|done]. intros final Hf.
  destruct p as [[req rt]|]; [|by apply (settled_status s)]. destruct Hr as [Hver Hr].
  right; right. cbn [get_next_variable_body].
  rewrite (bind_runs _ _ _ tt (set_runtime rt (set_comm_buf final s))) by done.
  rewrite Hver, (bind_runs _ _ _ tt (set_runtime rt (set_comm_buf final s))) by done.
  rewrite Hr, (proj2 (Z.eqb_neq cc _)) by tauto. done.
Qed.

(** The other commands. *)
Lemma settled_rest cmd final (s : server E) (m : M (server E) unit) :
  zlen final = SHMEM_SIZE -> 0 <= cmd < 0x100000000 -> handler backend cmd = m ->
  (forall page, zlen page = SHMEM_SIZE -> page_blind final page m) ->
  settled s (m (set_comm_buf final s)).
Proof using Type.
  intros Hf Hc Hm Hb.
  set (page := le_encode 4 1 ++ le_encode 4 cmd ++ replicate (Z.to_nat (SHMEM_SIZE - 8)) x00).
  assert (Hl : zlen page = SHMEM_SIZE).
  { unfold page. rewrite !zlen_app, !zlen_le_encode, zlen_replicate. by vm_compute. }
  apply (settled_blind s m final page); [done|done|by apply Hb|].
  rewrite <-Hm. by eapply dispatch.
Qed.

Lemma settled_request (s : server E) :
  settled s (racing_handle_request backend guest s).
Proof.
  unfold racing_handle_request.
  destruct (read_page_uint32 (mk_cursor 0 0) s) as (v & c1 & Hv & Hp1 & R1);
    [by vm_compute|by vm_compute|]. rewrite (bind_runs _ _ _ _ _ R1).
  destruct (v =? 1); cbn [negb]; [|by apply (settled_status s)]. cbn [position] in Hp1.
  match goal with |- context [bind (read_page guest c1 _) _ ?t] =>
    destruct (read_page_uint32 c1 t) as (cmd & c2 & Hc & Hp2 & R2); [lia|rewrite Hp1; by vm_compute|] end.
  rewrite (bind_runs _ _ _ _ _ R2). clear R1 R2.
  change (set_comm_buf _ (set_comm_buf _ s)) with (set_comm_buf (guest (clock c2)) s).
  unfold racing_handler. destruct (cmd =? COMMAND_GET_VARIABLE) eqn:E1; [apply settled_get|].
  destruct (cmd =? COMMAND_SET_VARIABLE) eqn:E2; [apply settled_set|].
  destruct (cmd =? COMMAND_GET_NEXT_VARIABLE) eqn:E3; [apply settled_get_next|].
  destruct (cmd =? COMMAND_QUERY_VARIABLE_INFO) eqn:E4; [apply settled_query|].
  destruct (cmd =? COMMAND_NOTIFY_SB_FAILURE) eqn:E5;
    (eapply (settled_rest cmd); [done|done|unfold handler; by rewrite E1, E2, E3, E4, E5|]);
    intros page Hl; [|apply blind_ret].
  apply blind_bind; [apply blind_backend_notify|]. intros r.
  destruct (r <? 0); by apply blind_reply_status.
Qed.

(** C20: A guest that writes while its request is handled.  Whatever it
    writes to the page, byte by byte, between any two fetches of the server, the
    request has the outcome it would have had in some page that the guest leaves
    alone (the same status, the same change of the store, of the mode and of
    the backend, the same bytes of the reply); or it is refused with an error
    status and no change but that of the run-time flag; or an assertion stops the
    daemon. *)
Theorem concurrent_requests (s : server E) :
  as_if_still s (racing_handle_request backend guest s) \/
  refused s (racing_handle_request backend guest s) \/
  racing_handle_request backend guest s = Fault AssertFail.
Proof. apply settled_request. Qed.

End races.

(** C4: The invariants survive such a guest.  From a well-formed state, whatever
    the guest writes while its request is handled, the state is well formed when
    the request has been answered: the array of 128 slots, each free and zeroed
    or holding a well-formed variable, the counters, the mode, the page. *)
Theorem concurrent_requests_keep_well_formed `{Allocator} `{OpenSSL} {E : Type}
    (backend : option (backend_t E)) (guest : nat -> bytes) (s s' : server E) :
  (forall t, zlen (guest t) = SHMEM_SIZE) ->
  (forall b, backend = Some b -> KeepsStore b) -> server_wf s ->
  racing_handle_request backend guest s = Ok (tt, s') -> server_wf s'.
Proof.
  intros Hsize Hb Hs Hrun. pose proof (settled_request backend guest Hsize s) as Hst.
  rewrite Hrun in Hst. destruct Hst as [(final & page & Hf & Hp & Ho)|[Hr|Hr]]; [| |done].
  - destruct (xen_variable_server_handle_request _ _ _) as [[u s2]|f] eqn:Er; [|done].
    destruct Ho as [_ [Ha _ _ _ (r & Hl & Hp1 & _)]].
    eapply requests_wf in Er; [|done|constructor; [apply Hs|exact Hp]].
    constructor; [rewrite Ha; apply Er|]. by rewrite Hp1, zlen_overwrite, Hf by lia.
  - destruct Hr as (st & rt & page & _ & Hl & [= ->]). constructor; [apply Hs|].
    cbn [comm_buf set_comm_buf].
    rewrite zlen_overwrite; [done|rewrite Hl; by vm_compute].
Qed.

(** ** A race that stops the daemon *)

(** The guest does not write for a while. *)
Lemma fetch_still guest page n : forall c,
  (forall i, (i < n)%nat -> guest (clock c + i)%nat = page) ->
  0 <= position c -> position c + Z.of_nat n <= zlen page ->
  fetch guest n c = Ok (take n (drop (Z.to_nat (position c)) page),
                        mk_cursor (clock c + n) (position c + Z.of_nat n)).
Proof.
  induction n as [|n IH]; intros [t p] Hg Hp Hl; cbn [fetch clock position] in *.
  { by rewrite take_0, Nat.add_0_r, Z.add_0_r. }
  unfold bind at 1, fetch_byte. cbn [clock position].
  pose proof (Hg 0%nat ltac:(lia)) as H0. rewrite Nat.add_0_r in H0. rewrite H0.
  rewrite read_bytes_ok by lia. cbn [obind].
  rewrite (bind_runs _ _ _ _ _ (IH (mk_cursor (S t) (p + 1))
    ltac:(intros i Hi; cbn [clock]; rewrite <-(Hg (S i)) by lia; f_equal; lia)
    ltac:(cbn [position]; lia) ltac:(cbn [position]; lia))).
  cbn [clock position]. unfold ret. do 2 f_equal.
  - change (Z.to_nat 1) with 1%nat. replace (Z.to_nat (p + 1)) with (Z.to_nat p + 1)%nat by lia.
    rewrite <-drop_drop. change (S n) with (1 + n)%nat. apply take_take_drop.
  - f_equal; lia.
Qed.

Lemma fetch_uint32_still guest page c x tail :
  (forall i, (i < 4)%nat -> guest (clock c + i)%nat = page) ->
  0 <= position c -> drop (Z.to_nat (position c)) page = le_encode 4 x ++ tail ->
  0 <= x < 0x100000000 ->
  fetch_uint32 guest c = Ok (x, mk_cursor (clock c + 4) (position c + 4)).
Proof.
  intros Hg Hp Hd Hx. unfold fetch_uint32.
  assert (Hl : position c + Z.of_nat 4 <= zlen page).
  { apply (f_equal zlen) in Hd. rewrite zlen_drop, zlen_app, zlen_le_encode in Hd.
    pose proof (zlen_nonneg tail). pose proof (zlen_nonneg page). lia. }
  rewrite (bind_runs _ _ _ _ _ (fetch_still guest page 4 c Hg Hp Hl)), Hd.
  rewrite take_app_length' by by rewrite length_le_encode. unfold ret.
  by rewrite le_decode_encode by done.
Qed.

(** A guest that changes the page once the dispatcher has read the command. *)
Section switch.
Context `{Allocator} `{OpenSSL} {E : Type} (backend : option (backend_t E)).
Context (command version : Z) (before after rest rest' : bytes).
Context (Hc : 0 <= command < 0x100000000) (Hv : 0 <= version < 0x100000000).
Context (Hbefore : before = le_encode 4 1 ++ le_encode 4 command ++ rest).
Context (Hafter : after = le_encode 4 version ++ rest').

Definition switching_guest (t : nat) : bytes := if (t <? 8)%nat then before else after.

Lemma switching_dispatch (s : server E) :
  racing_handle_request backend switching_guest s
  = racing_handler backend switching_guest command (mk_cursor 8 8) (set_comm_buf after s).
Proof using Hc Hbefore.
  assert (Hearly : forall t, (t < 8)%nat -> switching_guest t = before)
    by (intros t Ht; unfold switching_guest; by rewrite (proj2 (Nat.ltb_lt t 8)) by lia).
  assert (F1 : fetch_uint32 switching_guest (mk_cursor 0 0) = Ok (1, mk_cursor 4 4)).
  { apply (fetch_uint32_still _ before (mk_cursor 0 0) 1 (le_encode 4 command ++ rest));
      [|done|by rewrite Hbefore|done]. intros i Hi. apply Hearly. cbn [clock]. lia. }
  assert (F2 : fetch_uint32 switching_guest (mk_cursor 4 4) = Ok (command, mk_cursor 8 8)).
  { apply (fetch_uint32_still _ before (mk_cursor 4 4) command rest); [|done| |done].
    - intros i Hi. apply Hearly. cbn [clock]. lia.
    - rewrite Hbefore. cbn [position]. by rewrite drop_app_length' by by rewrite length_le_encode. }
  unfold racing_handle_request. unfold bind at 1.
  pose proof (read_page_run switching_guest (mk_cursor 0 0) (fetch_uint32 switching_guest) s) as R1.
  rewrite F1 in R1. rewrite R1. change (negb (1 =? 1)) with false. cbv iota. unfold bind at 1.
  match goal with |- context [read_page _ (mk_cursor 4 4) _ ?t] =>
    pose proof (read_page_run switching_guest (mk_cursor 4 4) (fetch_uint32 switching_guest) t)
      as R2 end.
  rewrite F2 in R2. by rewrite R2.
Qed.

Lemma switching_version : fetch_uint32 switching_guest (mk_cursor 8 0) = Ok (version, mk_cursor 12 4).
Proof using Hv Hafter.
  apply (fetch_uint32_still _ after (mk_cursor 8 0) version rest'); [|done|by rewrite Hafter|done].
  intros i Hi. unfold switching_guest. cbn [clock]. by rewrite (proj2 (Nat.ltb_ge _ _)) by lia.
Qed.

End switch.

(** C23: A guest that sends a SetVariable or GetNextVariableName request
    and changes the version before the handler reads it again makes an assertion
    fail: the daemon stops. *)
Theorem racing_guest_stops_daemon `{Allocator} `{OpenSSL} {E : Type}
    (backend : option (backend_t E)) (command version : Z) (before after rest rest' : bytes)
    (s : server E) :
  command = COMMAND_SET_VARIABLE \/ command = COMMAND_GET_NEXT_VARIABLE ->
  0 <= version < 0x100000000 -> version <> 1 ->
  before = le_encode 4 1 ++ le_encode 4 command ++ rest -> after = le_encode 4 version ++ rest' ->
  racing_handle_request backend (switching_guest before after) s = Fault AssertFail.
Proof.
  intros Hcmd Hv Hne Hbefore Hafter.
  rewrite (switching_dispatch backend command before after rest) by
    (done || by destruct Hcmd as [-> | ->]).
  pose proof (switching_version version before after rest' Hv Hafter) as F3.
  set (guest := switching_guest before after) in *.
  assert (Hset : fetch_set_request guest (mk_cursor 8 0) = Fault AssertFail).
  { unfold fetch_set_request. rewrite (bind_runs _ _ _ _ _ F3).
    unfold UEFISTORED_VERSION. rewrite (proj2 (Z.eqb_neq version 1)) by done. done. }
  assert (Hnext : fetch_get_next_request guest (mk_cursor 8 0) = Fault AssertFail).
  { unfold fetch_get_next_request. rewrite (bind_runs _ _ _ _ _ F3).
    rewrite (proj2 (Z.eqb_neq version 1)) by done. done. }
  change (mk_cursor 8 0) with (restart (mk_cursor 8 8)) in Hset, Hnext.
  destruct Hcmd as [-> | ->]; unfold racing_handler;
    cbn -[restart bind read_page fetch_set_request fetch_get_next_request];
    unfold bind at 1, read_page, bind at 1, mlift; by rewrite ?Hset, ?Hnext.
Qed.

(** ** At concrete guests

    A page replaced by one of version 2 after eight fetches. *)
Definition version_2 : bytes := le_encode 4 2.
Definition impatient (request : bytes) : nat -> bytes :=
  switching_guest (page_of request) (page_of version_2).

Lemma impatient_size request :
  zlen request <= 65536 -> forall t, zlen (impatient request t) = SHMEM_SIZE.
Proof.
  intros Hl t. unfold impatient, switching_guest. destruct (t <? 8)%nat; by apply zlen_page_of.
Qed.

Lemma concurrent_requests_witness :
  let s := sample_server store_2 SETUP_MODE [] in
  let o := @racing_handle_request zero_allocator toy_openssl unit None (impatient set_B) s in
  @as_if_still zero_allocator toy_openssl unit None s o \/ refused s o \/ o = Fault AssertFail.
Proof.
  apply (@concurrent_requests zero_allocator toy_openssl unit None (impatient set_B)).
  apply impatient_size. vm_compute. discriminate.
Defined.

Lemma page_of_header a b x :
  page_of (a ++ b ++ x) = a ++ b ++ (x ++ page_rest (a ++ b ++ x)).
Proof. unfold page_of. by rewrite <-!app_assoc. Qed.

Lemma get_A_page :
  exists rest, page_of get_A = le_encode 4 1 ++ le_encode 4 COMMAND_GET_VARIABLE ++ rest.
Proof. eexists. unfold get_A, get_request. apply page_of_header. Qed.
Lemma set_B_page :
  exists rest, page_of set_B = le_encode 4 1 ++ le_encode 4 COMMAND_SET_VARIABLE ++ rest.
Proof. eexists. unfold set_B, set_request. apply page_of_header. Qed.
Lemma version_2_page : page_of version_2 = le_encode 4 2 ++ page_rest version_2.
Proof. unfold page_of. by unfold version_2 at 1. Qed.

(** A GetVariable request is refused. *)
Lemma switching_get `{Allocator} `{OpenSSL} version before after rest rest' (s : server unit) :
  0 <= version < 0x100000000 -> version <> 1 ->
  before = le_encode 4 1 ++ le_encode 4 COMMAND_GET_VARIABLE ++ rest ->
  after = le_encode 4 version ++ rest' -> 8 <= zlen after ->
  racing_handle_request None (switching_guest before after) s
  = Ok (tt, set_comm_buf (overwrite (le_encode 8 EFI_UNSUPPORTED) after)
              (set_comm_buf (switching_guest before after 12) s)).
Proof.
  intros Hv Hne Hb Ha Hl. rewrite (switching_dispatch None COMMAND_GET_VARIABLE before after rest)
    by done. pose proof (switching_version version before after rest' Hv Ha) as F3.
  set (guest := switching_guest before after) in *.
  assert (Hget : fetch_get_request guest (restart (mk_cursor 8 8))
                 = Ok ((EFI_UNSUPPORTED, None), mk_cursor 12 4)).
  { unfold fetch_get_request. rewrite (bind_runs _ _ _ _ _ F3).
    unfold UEFISTORED_VERSION. by rewrite (proj2 (Z.eqb_neq version 1)) by done. }
  pose proof (read_page_run guest (restart (mk_cursor 8 8)) (fetch_get_request guest)
    (set_comm_buf after s)) as Hr. rewrite Hget in Hr.
  unfold racing_handler. change (COMMAND_GET_VARIABLE =? COMMAND_GET_VARIABLE) with true. cbv iota.
  rewrite (bind_runs _ _ _ _ _ Hr). cbn [get_variable_body]. by rewrite reply_status_ok.
Qed.

Lemma impatient_get :
  exists s', @racing_handle_request zero_allocator toy_openssl unit None (impatient get_A)
    (sample_server store_2 SETUP_MODE []) = Ok (tt, s').
Proof.
  destruct get_A_page as [rest Hget]. eexists.
  apply (@switching_get zero_allocator toy_openssl 2 (page_of get_A) (page_of version_2) rest
    (page_rest version_2)); [lia|discriminate|exact Hget|exact version_2_page|].
  rewrite zlen_page_of; vm_compute; discriminate.
Qed.

Lemma concurrent_requests_keep_well_formed_witness :
  exists s', @racing_handle_request zero_allocator toy_openssl unit None (impatient get_A)
      (sample_server store_2 SETUP_MODE []) = Ok (tt, s') /\ server_wf s'.
Proof.
  destruct impatient_get as [s' Hrun]. exists s'. split; [exact Hrun|].
  apply (@concurrent_requests_keep_well_formed zero_allocator toy_openssl unit None
           (impatient get_A) (sample_server store_2 SETUP_MODE []) s');
    [apply impatient_size; vm_compute; discriminate|by intros b| |exact Hrun].
  constructor; [constructor; [exact (si_wf _ store_2_inv)|by left]|].
  apply zlen_page_of. vm_compute. discriminate.
Defined.

Lemma racing_guest_stops_daemon_witness :
  @racing_handle_request zero_allocator toy_openssl unit None (impatient set_B)
    (sample_server store_2 SETUP_MODE []) = Fault AssertFail.
Proof.
  destruct set_B_page as [rest Hset].
  apply (@racing_guest_stops_daemon zero_allocator toy_openssl unit None COMMAND_SET_VARIABLE 2
           (page_of set_B) (page_of version_2) rest (page_rest version_2));
    [left; reflexivity|lia|discriminate|exact Hset|exact version_2_page].
Defined.
