(* ===== verification/Heap.v ===== *)
(** * The heap blocks of the variables

    In [UefiVariable] and [Storage] the data of a variable is part of the
    structure, although [uint8_t *data] points to a block of the heap.  Here are
    the operations of [src/variable.c], [src/storage.c] and the functions of
    [src/xapi.c] that list the variables once more with the pointer as it is: a
    heap of blocks, [malloc], [realloc] and [free], with dangling pointers,
    double frees and blocks that nobody frees.  [HeapSpec] shows that
    the store uses its blocks properly, and so that the other files may leave
    them out; and that the functions of [src/xapi.c] lose theirs. *)
From S2P Require Import Prelude EfiTypes Common UefiVariable Storage Serializer Xapi.

(** ** Blocks *)
Abbreviation loc := positive.
Abbreviation heap := (gmap loc bytes).

(** Where the next block goes: any address that is not in use. *)
Class Addresses : Type := {
  address : heap -> Z -> loc;
  address_fresh : forall h n, h !! address h n = None
}.

(** The least one, for instance. *)
#[export] Program Instance least_address : Addresses := {|
  address := fun h _ => fresh (dom h)
|}.
Next Obligation. intros h n. apply not_elem_of_dom, is_fresh. Qed.

(** A pointer argument: to an object of the caller, or to a block. *)
Inductive pointer : Type :=
  | Obj (b : bytes)
  | Blk (l : loc).

Section blocks.
Context `{Allocator} `{Addresses}.

Definition alloc_block (b : bytes) : M heap (option loc) :=
  fun h => let l := address h (zlen b) in Ok (Some l, <[l := b]> h).

Definition heap_malloc (n : Z) : M heap (option loc) :=
  match malloc n with
  | None => ret None
  | Some b => alloc_block b
  end.

(** The contents of a block. *)
Definition load (p : option loc) : M heap bytes :=
  fun h => match p with
           | None => Fault NullDeref
           | Some l => match h !! l with Some b => Ok (b, h) | None => Fault OutOfBounds end
           end.

Definition heap_free (p : option loc) : M heap unit :=
  fun h => match p with
           | None => Ok (tt, h)
           | Some l => match h !! l with
                       | Some _ => Ok (tt, delete l h)
                       | None => Fault InvalidFree
                       end
           end.

(** When the request is refused the old block stays. *)
Definition heap_realloc (p : option loc) (n : Z) : M heap (option loc) :=
  match p with
  | None => heap_malloc n
  | Some l =>
      h <- mget ;;
      match h !! l with
      | None => mlift (Fault InvalidFree)
      | Some old =>
          match realloc (Some old) n with
          | None => ret None
          | Some b => heap_free p ;; alloc_block b
          end
      end
  end.

Definition load_pointer (p : pointer) : M heap bytes :=
  match p with
  | Obj b => ret b
  | Blk l => load (Some l)
  end.

(** [memcpy (p + off, src, n)] *)
Definition copy_to_block (p : option loc) (off : Z) (src : pointer) (n : Z) : M heap unit :=
  block <- load p ;;
  data <- load_pointer src ;;
  block <- mlift (memcpy block off data 0 n) ;;
  mmodify (fun h => match p with Some l => <[l := block]> h | None => h end).

End blocks.

(** ** Variables

    The structure with its pointer; the [var_data] of [hv_fields] is not
    used and [None]. *)
Record hvar : Type := mk_hvar {
  hv_fields : variable_t;
  hv_data : option loc
}.

Definition zero_hvar : hvar := mk_hvar zero_var None.

Definition set_data_fields (p : option loc) (datasz : Z) (var : hvar) : hvar :=
  mk_hvar (with_data None datasz (hv_fields var)) p.

Section variables.
Context `{Allocator} `{Addresses}.

(** An operation that does not look at the data. *)
Definition on_fields (f : variable_t -> outcome (Z * variable_t)) (var : hvar) :
    M heap (Z * hvar) :=
  '(r, v) <- mlift (f (hv_fields var)) ;; ret (r, mk_hvar v (hv_data var)).

Definition heap_set_data (var : hvar) (data : option pointer) (datasz : Z) (append : bool) :
    M heap (Z * hvar) :=
  match data with
  | None => ret (-1, var)
  | Some src =>
      let oldsz := var_datasz (hv_fields var) in
      if datasz =? 0 then ret (-1, var)
      else if datasz >? MAX_VARIABLE_DATA_SIZE then ret (-2, var)
      else if negb append then
        p <- (if negb (oldsz =? datasz) then heap_free (hv_data var) ;; heap_malloc datasz
              else ret (hv_data var)) ;;
        copy_to_block p 0 src datasz ;;
        ret (0, set_data_fields p datasz var)
      else
        let newsz := u64 (oldsz + datasz) in
        if newsz >? MAX_VARIABLE_DATA_SIZE then ret (-12, var)
        else
        p <- heap_realloc (hv_data var) newsz ;;
        copy_to_block p oldsz src datasz ;;
        ret (0, set_data_fields p newsz var)
  end.

(** The labels [cleanup_name] and [cleanup_data]. *)
Definition heap_cleanup_name (var : hvar) (namesz : Z) : M heap (Z * hvar) :=
  on_fields (fun v => cleanup_name v namesz) var.
Definition heap_cleanup_data (var : hvar) (namesz datasz : Z) : M heap (Z * hvar) :=
  copy_to_block (hv_data var) 0 (Obj (replicate (Z.to_nat datasz) x00)) datasz ;;
  heap_cleanup_name var namesz.

Definition heap_create_noalloc (var : hvar) (name : option bytes) (namesz : Z)
    (data : option pointer) (datasz : Z) (guid : option EFI_GUID) (attrs : Z)
    (timestamp : option EFI_TIME) (cert : option bytes) : M heap (Z * hvar) :=
  match name, data, guid with
  | Some _, Some _, Some _ =>
      if datasz =? 0 then ret (-1, var)
      else
      '(r, var) <- on_fields (fun v => variable_set_name v name namesz) var ;;
      if r <? 0 then ret (-1, var)
      else
      '(r, var) <- heap_set_data var data datasz false ;;
      if r <? 0 then heap_cleanup_name var namesz
      else
      '(r, var) <- on_fields (fun v => variable_set_guid v guid) var ;;
      if r <? 0 then heap_cleanup_data var namesz datasz
      else
      '(r, var) <- on_fields (fun v => Ok (variable_set_attrs v attrs)) var ;;
      if r <? 0 then heap_cleanup_data var namesz datasz
      else
      '(r, var) <- on_fields (fun v => Ok match timestamp with
                                          | Some _ => variable_set_timestamp v timestamp
                                          | None => (0, v)
                                          end) var ;;
      if r <? 0 then heap_cleanup_data var namesz datasz
      else
      '(r, var) <- on_fields (fun v => match cert with
                                       | Some _ => variable_set_cert v cert
                                       | None => Ok (0, v)
                                       end) var ;;
      if r <? 0 then heap_cleanup_data var namesz datasz
      else ret (0, var)
  | _, _, _ => ret (-1, var)
  end.

Definition heap_destroy_noalloc (var : hvar) : M heap hvar :=
  heap_free (hv_data var) ;; ret zero_hvar.

Definition heap_copy (dst src : hvar) : M heap (Z * hvar) :=
  let from := hv_fields src in
  '(r, dst) <- on_fields (fun v => variable_set_name v (Some (var_name from)) (var_namesz from))
                 dst ;;
  if r <? 0 then ret (r, dst)
  else
  '(r, dst) <- heap_set_data dst (Blk <$> hv_data src) (var_datasz from) false ;;
  if r <? 0 then ret (r, dst)
  else
  '(r, dst) <- on_fields (fun v => variable_set_guid v (Some (var_guid from))) dst ;;
  if r <? 0 then ret (r, dst)
  else
  '(r, dst) <- on_fields (fun v => Ok (variable_set_attrs v (var_attrs from))) dst ;;
  if r <? 0 then ret (r, dst) else ret (0, dst).

End variables.

(** ** The store *)
Record hstorage : Type := mk_hstorage {
  hs_heap : heap;
  hs_variables : list hvar;
  hs_total : Z;
  hs_used : Z;
  hs_iter : Z
}.

Definition set_heap (h : heap) (s : hstorage) : hstorage :=
  mk_hstorage h (hs_variables s) (hs_total s) (hs_used s) (hs_iter s).
Definition set_hslot (i : nat) (v : hvar) (s : hstorage) : hstorage :=
  mk_hstorage (hs_heap s) (<[i := v]> (hs_variables s)) (hs_total s) (hs_used s) (hs_iter s).
Definition set_hcounts (total used : Z) (s : hstorage) : hstorage :=
  mk_hstorage (hs_heap s) (hs_variables s) total used (hs_iter s).
Definition set_hiter (i : Z) (s : hstorage) : hstorage :=
  mk_hstorage (hs_heap s) (hs_variables s) (hs_total s) (hs_used s) i.

Definition on_heap {A} (m : M heap A) : M hstorage A := mzoom hs_heap set_heap m.

(** The structures without their pointers, in which variables are looked for. *)
Definition slot_fields (s : hstorage) : list variable_t := hv_fields <$> hs_variables s.

Section storage.
Context `{Allocator} `{Addresses}.

(** An operation on the structure in slot [i]. *)
Definition on_hslot (i : nat) (m : hvar -> M heap (Z * hvar)) : M hstorage Z :=
  s <- mget ;;
  match hs_variables s !! i with
  | None => mlift (Fault OutOfBounds)
  | Some v => '(r, v) <- on_heap (m v) ;; mmodify (set_hslot i v) ;; ret r
  end.

Fixpoint heap_destroy_all (vs : list hvar) : M heap (list hvar) :=
  match vs with
  | [] => ret []
  | v :: vs' => v <- heap_destroy_noalloc v ;; rest <- heap_destroy_all vs' ;; ret (v :: rest)
  end.

Definition heap_storage_destroy : M hstorage unit :=
  s <- mget ;;
  vs <- on_heap (heap_destroy_all (hs_variables s)) ;;
  mmodify (fun s => mk_hstorage (hs_heap s) vs 0 0 (hs_iter s)).

(** The status, and the values of [*attrs], [data] and [*data_size]. *)
Definition heap_storage_get (efi_at_runtime : bool) (name : option bytes) (namesz : Z)
    (guid : option EFI_GUID) (attrs : option Z) (data : bytes) (data_size : option Z) :
    M hstorage (EFI_STATUS * (option Z * bytes * option Z)) :=
  let out st := ret (st, (attrs, data, data_size)) in
  match name, guid, data_size, attrs with
  | Some _, Some _, Some dsz, Some _ =>
      s <- mget ;;
      var <- mlift (find_variable name namesz guid (slot_fields s)) ;;
      match var with
      | None => out EFI_NOT_FOUND
      | Some i =>
          match hs_variables s !! i with
          | None => mlift (Fault OutOfBounds)
          | Some v =>
              let datasz := var_datasz (hv_fields v) in
              if rt_deny_access efi_at_runtime (var_attrs (hv_fields v)) then out EFI_NOT_FOUND
              else if dsz <? datasz then
                ret (EFI_BUFFER_TOO_SMALL, (attrs, data, Some datasz))
              else if dsz >? MAX_SHARED_OVMF_MEM then out EFI_DEVICE_ERROR
              else
              src <- on_heap (load (hv_data v)) ;;
              d <- mlift (memcpy data 0 src 0 datasz) ;;
              ret (EFI_SUCCESS, (Some (var_attrs (hv_fields v)), d, Some datasz))
          end
      end
  | _, _, _, _ => out EFI_DEVICE_ERROR
  end.

(** The loop of [storage_iter]. *)
Fixpoint heap_iter_loop (fuel : nat) (vars : list hvar) (idx : Z) (var : hvar) :
    M heap ((hvar + hvar) * Z) :=
  if idx <? MAX_VAR_COUNT then
    match fuel with
    | O => mlift (Fault OutOfFuel)
    | S fuel' =>
        match vars !! Z.to_nat idx with
        | None => mlift (Fault OutOfBounds)
        | Some p =>
            valid <- mlift (variable_is_valid (hv_fields p)) ;;
            if negb valid then heap_iter_loop fuel' vars (idx + 1) var
            else
            '(r, var) <- heap_copy var p ;;
            ret (if r <? 0 then inl var else inr var, idx + 1)
        end
    end
  else ret (inr var, idx).

Definition heap_storage_iter (var : hvar) : M hstorage (EFI_STATUS * hvar) :=
  s <- mget ;;
  '(r, idx) <- on_heap (heap_iter_loop (Z.to_nat MAX_VAR_COUNT) (hs_variables s) (hs_iter s)
                          var) ;;
  match r with
  | inl var => mmodify (set_hiter 0) ;; ret (EFI_DEVICE_ERROR, var)
  | inr var =>
      if idx >=? MAX_VAR_COUNT then mmodify (set_hiter 0) ;; ret (EFI_NOT_FOUND, var)
      else mmodify (set_hiter idx) ;; ret (EFI_SUCCESS, var)
  end.

Definition heap_storage_remove (name : option bytes) (namesz : Z) (guid : option EFI_GUID) :
    M hstorage EFI_STATUS :=
  match name, guid with
  | Some n, Some g =>
      s <- mget ;;
      found <- mlift (find_variable_loop n namesz g (slot_fields s)) ;;
      match found with
      | None => ret EFI_NOT_FOUND
      | Some i =>
          on_hslot i (fun v => v <- heap_destroy_noalloc v ;; ret (0, v)) ;;
          mmodify (fun s => set_hcounts (u64 (hs_total s - 1)) (u64 (hs_used s - slot_cost)) s) ;;
          ret EFI_SUCCESS
      end
  | _, _ => ret EFI_DEVICE_ERROR
  end.

(** [storage_set] when the variable exists, in slot [i]. *)
Definition heap_set_existing (i : nat) (name : option bytes) (namesz : Z)
    (data : option pointer) (datasz attrs : Z) (append : bool) : M hstorage EFI_STATUS :=
  s <- mget ;;
  match hs_variables s !! i with
  | None => mlift (Fault OutOfBounds)
  | Some v =>
      if negb (var_attrs (hv_fields v) =? attrs) then ret EFI_INVALID_PARAMETER
      else
      r <- on_hslot i (on_fields (fun v => variable_set_name v name namesz)) ;;
      if r =? -2 then ret EFI_OUT_OF_RESOURCES
      else if r <? 0 then ret EFI_DEVICE_ERROR
      else
      r <- on_hslot i (fun v => heap_set_data v data datasz append) ;;
      if r =? -2 then ret EFI_OUT_OF_RESOURCES
      else if r <? 0 then ret EFI_DEVICE_ERROR
      else
      on_hslot i (on_fields (fun v => Ok (0, with_attrs attrs v))) ;;
      ret EFI_SUCCESS
  end.

(** [storage_set] when it does not. *)
Definition heap_set_new (name : option bytes) (namesz : Z) (guid : option EFI_GUID)
    (data : option pointer) (datasz attrs : Z) : M hstorage EFI_STATUS :=
  s <- mget ;;
  empty <- mlift (find_empty_slot (slot_fields s)) ;;
  match empty with
  | None => ret EFI_DEVICE_ERROR
  | Some i =>
      r <- on_hslot i (fun v => heap_create_noalloc v name namesz data datasz guid attrs None
                                  None) ;;
      if r <? 0 then ret EFI_DEVICE_ERROR
      else
      mmodify (fun s => set_hcounts (u64 (hs_total s + 1)) (u64 (hs_used s + slot_cost)) s) ;;
      ret EFI_SUCCESS
  end.

Definition heap_storage_set (name : option bytes) (namesz : Z) (guid : option EFI_GUID)
    (data : option pointer) (datasz attrs : Z) : M hstorage EFI_STATUS :=
  match name, guid with
  | Some n, Some g =>
      used <- mgets hs_used ;;
      if (namesz >? MAX_VARIABLE_NAME_SIZE) || (datasz >? MAX_VARIABLE_DATA_SIZE)
         || (u64 (datasz + namesz + used) >? MAX_STORAGE_SIZE)
      then ret EFI_OUT_OF_RESOURCES
      else
      let append := has attrs EFI_VARIABLE_APPEND_WRITE in
      if ((datasz =? 0) && negb append) || (attrs =? 0) then heap_storage_remove name namesz guid
      else
      match data with
      | None => ret EFI_DEVICE_ERROR
      | Some _ =>
          let attrs := Z.ldiff attrs EFI_VARIABLE_APPEND_WRITE in
          s <- mget ;;
          found <- mlift (find_variable_loop n namesz g (slot_fields s)) ;;
          match found with
          | Some i => heap_set_existing i name namesz data datasz attrs append
          | None => heap_set_new name namesz guid data datasz attrs
          end
      end
  | _, _ => ret EFI_DEVICE_ERROR
  end.

Definition heap_set_with_timestamp (name : option bytes) (namesz : Z)
    (guid : option EFI_GUID) (data : option pointer) (datasz attrs : Z)
    (timestamp : option EFI_TIME) : M hstorage EFI_STATUS :=
  match name, data, guid, timestamp with
  | Some _, Some _, Some _, Some _ =>
      status <- heap_storage_set name namesz guid data datasz attrs ;;
      if is_delete attrs datasz then ret status
      else
      s <- mget ;;
      var <- mlift (find_variable name namesz guid (slot_fields s)) ;;
      match var with
      | None => ret EFI_NOT_FOUND
      | Some i =>
          r <- on_hslot i (on_fields (fun v => Ok (variable_set_timestamp v timestamp))) ;;
          ret (if r <? 0 then EFI_DEVICE_ERROR else EFI_SUCCESS)
      end
  | _, _, _, _ => ret EFI_DEVICE_ERROR
  end.

End storage.

(** ** The lists of [src/xapi.c]

    The array [vars] and the structure [tmp] are local; the array is freed at
    the end, the blocks its elements point to are not. *)
Section lists.
Context `{Allocator} `{Addresses}.

Fixpoint heap_retrieve_nonvolatile_loop (fuel : nat) (cnt n : Z) (vars : list hvar)
    (tmp : hvar) : M hstorage (Z * list hvar) :=
  if cnt <? n then
    match fuel with
    | O => mlift (Fault OutOfFuel)
    | S fuel' =>
        '(status, tmp) <- heap_storage_iter tmp ;;
        if status =? EFI_DEVICE_ERROR then ret (s32 cnt, vars)
        else if status =? EFI_NOT_FOUND then ret (if cnt >? INT_MAX then -1 else s32 cnt, vars)
        else
        mlift (oassert (status =? EFI_SUCCESS)) ;;
        if has (var_attrs (hv_fields tmp)) EFI_VARIABLE_NON_VOLATILE then
          match vars !! Z.to_nat cnt with
          | None => mlift (Fault OutOfBounds)
          | Some dst =>
              '(_, dst) <- on_heap (heap_copy dst tmp) ;;
              heap_retrieve_nonvolatile_loop fuel' (cnt + 1) n (<[Z.to_nat cnt := dst]> vars)
                zero_hvar
          end
        else heap_retrieve_nonvolatile_loop fuel' cnt n vars tmp
    end
  else ret (if cnt >? INT_MAX then -1 else s32 cnt, vars).

Definition heap_retrieve_nonvolatile_vars (n : Z) : M hstorage (Z * list hvar) :=
  heap_retrieve_nonvolatile_loop (S (Z.to_nat MAX_VAR_COUNT)) 0 n
    (replicate (Z.to_nat n) zero_hvar) zero_hvar.

Fixpoint heap_retrieve_loop (fuel : nat) (cnt n : Z) (vars : list hvar) :
    M hstorage (Z * list hvar) :=
  if cnt <? n then
    match fuel with
    | O => mlift (Fault OutOfFuel)
    | S fuel' =>
        match vars !! Z.to_nat cnt with
        | None => mlift (Fault OutOfBounds)
        | Some next =>
            '(status, next) <- heap_storage_iter next ;;
            let vars := <[Z.to_nat cnt := next]> vars in
            if status =? EFI_DEVICE_ERROR then ret (s32 status, vars)
            else if status =? EFI_NOT_FOUND
            then ret (if cnt >? INT_MAX then -1 else s32 cnt, vars)
            else
            mlift (oassert (status =? EFI_SUCCESS)) ;;
            heap_retrieve_loop fuel' (cnt + 1) n vars
        end
    end
  else ret (if cnt >? INT_MAX then -1 else s32 cnt, vars).

Definition heap_retrieve_vars (n : Z) : M hstorage (Z * list hvar) :=
  heap_retrieve_loop (S (Z.to_nat MAX_VAR_COUNT)) 0 n (replicate (Z.to_nat n) zero_hvar).

(** The structures with the contents of their blocks. *)
Fixpoint load_vars (vs : list hvar) : M heap (list variable_t) :=
  match vs with
  | [] => ret []
  | v :: vs' =>
      data <- match hv_data v with
              | None => ret None
              | Some l => b <- load (Some l) ;; ret (Some b)
              end ;;
      rest <- load_vars vs' ;;
      ret (with_data data (var_datasz (hv_fields v)) (hv_fields v) :: rest)
  end.

(** The block returned, with [ *size]. *)
Definition heap_variable_list_bytes (nonvolatile : bool) : M hstorage (option loc * Z) :=
  match malloc (MAX_VAR_COUNT * sizeof_variable_t) with
  | None => mlift (Fault NullDeref)
  | Some _ =>
      '(n, vars) <- (if nonvolatile then heap_retrieve_nonvolatile_vars MAX_VAR_COUNT
                     else heap_retrieve_vars MAX_VAR_COUNT) ;;
      if n <=? 0 then ret (None, 0)
      else
      let vars := take (Z.to_nat n) vars in
      let size := list_size (hv_fields <$> vars) in
      block <- on_heap (heap_malloc size) ;;
      match block with
      | None => ret (None, size)
      | Some l =>
          vs <- on_heap (load_vars vars) ;;
          bytes <- on_heap (load block) ;;
          '(r, (bytes, _)) <- mlift (serialize_variable_list size vs (bytes, 0)) ;;
          on_heap (mmodify (<[l := bytes]>)) ;;
          if r <? 0 then on_heap (heap_free block) ;; ret (None, size) else ret (block, size)
      end
  end.

End lists.

Section text.
Context `{Allocator} `{Addresses} `{Base64}.

Definition heap_variable_list_base64 : M hstorage (option bytes) :=
  '(block, size) <- heap_variable_list_bytes true ;;
  match block with
  | None => ret None
  | Some _ =>
      bytes <- on_heap (load block) ;;
      base64 <- mlift (bytes_to_base64 bytes size) ;;
      on_heap (heap_free block) ;;
      ret base64
  end.

End text.
