(* ===== verification/HeapVar.v ===== *)
(** * A variable and its block

    What it means that a structure with a pointer holds a variable, and that the
    operations of src/variable.c on such a structure do what they do on the
    variable, changing no block but its own. *)
From S2P Require Import Prelude EfiTypes Common UefiVariable Heap.

(** ** A structure and the variable it holds *)
Definition bare (p : variable_t) : variable_t := with_data None (var_datasz p) p.

Definition block_is (h : heap) (ptr : option loc) (data : option bytes) : Prop :=
  match ptr, data with
  | None, None => True
  | Some l, Some b => h !! l = Some b
  | _, _ => False
  end.

Record rep (h : heap) (v : hvar) (p : variable_t) : Prop := {
  rep_fields : hv_fields v = bare p;
  rep_data : block_is h (hv_data v) (var_data p)
}.

(** An operation on a structure changes no block but the structure's own: it
    gives up the old one or keeps it, and a new one was free before. *)
Record moved (h : heap) (v : hvar) (h' : heap) (v' : hvar) : Prop := {
  mv_other l : hv_data v <> Some l -> hv_data v' <> Some l -> h' !! l = h !! l;
  mv_new l : hv_data v' = Some l -> hv_data v = Some l \/ h !! l = None;
  mv_old l : hv_data v = Some l -> hv_data v' <> Some l -> h' !! l = None
}.

Lemma moved_refl h v v' : hv_data v' = hv_data v -> moved h v h v'.
Proof. intros E. constructor; rewrite ?E; auto. by intros l ->. Qed.

Lemma moved_trans h v h1 v1 h2 v2 : moved h v h1 v1 -> moved h1 v1 h2 v2 -> moved h v h2 v2.
Proof.
  intros [O1 N1 D1] [O2 N2 D2]. constructor.
  - intros l Hv Hv2. destruct (decide (hv_data v1 = Some l)) as [E|E].
    + rewrite D2 by done. destruct (N1 l E) as [?|Hn]; done.
    + by rewrite O2, O1.
  - intros l Hv2. destruct (decide (hv_data v = Some l)) as [E|E]; [by left|right].
    destruct (N2 l Hv2) as [Hv1|Hn].
    + by destruct (N1 l Hv1).
    + destruct (decide (hv_data v1 = Some l)) as [E1|E1]; [by destruct (N1 l E1)|].
      by rewrite <-(O1 l E E1).
  - intros l Hv Hv2. destruct (decide (hv_data v1 = Some l)) as [E|E]; [by apply D2|].
    rewrite O2 by done. by apply D1.
Qed.

(** What a pointer argument points to, apart from the structure's own block. *)
Definition reads (h : heap) (src : pointer) (d : bytes) : Prop :=
  match src with Obj b => b = d | Blk l => h !! l = Some d end.
Definition apart (v : hvar) (src : pointer) : Prop :=
  match src with Obj _ => True | Blk l => hv_data v <> Some l end.

Lemma reads_moved h v h' v' src d :
  moved h v h' v' -> reads h src d -> apart v src -> reads h' src d /\ apart v' src.
Proof.
  intros [O N D]. destruct src as [b|l]; cbn; [done|]. intros Hl Hv.
  assert (hv_data v' <> Some l) by (intros [?|?]%N; congruence). split; [|done].
  by rewrite O.
Qed.

Lemma load_pointer_ok h src d : reads h src d -> load_pointer src h = Ok (d, h).
Proof. destruct src as [b|l]; cbn; [by intros ->|]. unfold load. by intros ->. Qed.

Section simulation.
Context `{Allocator} `{Addresses}.

(** [simulates h v hm pm]: from the heap [h] and the structure [v] the
    computation [hm] does what [pm] says. *)
Definition simulates (h : heap) (v : hvar) (hm : M heap (Z * hvar))
    (pm : outcome (Z * variable_t)) : Prop :=
  forall r p', pm = Ok (r, p') ->
  exists v' h', hm h = Ok ((r, v'), h') /\ rep h' v' p' /\ moved h v h' v'.

Lemma simulates_ret h v p r : rep h v p -> simulates h v (ret (r, v)) (Ok (r, p)).
Proof. intros Hr r' p' [= <- <-]. exists v, h. split_and!; [done|done|by apply moved_refl]. Qed.

Lemma simulates_bind h v hm pm hk pk :
  simulates h v hm pm ->
  (forall r v1 p1 h1, rep h1 v1 p1 -> moved h v h1 v1 -> simulates h1 v1 (hk (r, v1)) (pk (r, p1))) ->
  simulates h v (bind hm hk) (obind pm pk).
Proof.
  intros Hm Hk r p' ((r1 & p1) & E1 & E2)%obind_inv.
  destruct (Hm r1 p1 E1) as (v1 & h1 & R1 & Hr1 & M1).
  destruct (Hk r1 v1 p1 h1 Hr1 M1 r p' E2) as (v2 & h2 & R2 & Hr2 & M2).
  exists v2, h2. rewrite (bind_runs _ _ _ _ _ R1). split_and!; [done|done|].
  by eapply moved_trans.
Qed.

(** Operations that do not look at the data. *)
Definition data_blind (f : variable_t -> outcome (Z * variable_t)) : Prop :=
  forall p r p', f p = Ok (r, p') ->
    var_data p' = var_data p /\ f (bare p) = Ok (r, bare p').

Lemma simulates_fields h v p f :
  rep h v p -> data_blind f -> simulates h v (on_fields f v) (f p).
Proof.
  intros [Hf Hd] Hb r p' E. destruct (Hb p r p' E) as [Ed Eb].
  exists (mk_hvar (bare p') (hv_data v)), h. unfold on_fields. rewrite Hf.
  rewrite (bind_runs _ _ _ _ _ (mlift_runs _ _ _ Eb)). split_and!; [done| |by apply moved_refl].
  constructor; [done|]. cbn. by rewrite Ed.
Qed.

Lemma blind_set_name name namesz : data_blind (fun v => variable_set_name v name namesz).
Proof.
  intros p r p'. unfold variable_set_name. destruct name as [src|]; [|by intros [= <- <-]].
  destruct (namesz >? _); [by intros [= <- <-]|]. destruct (namesz =? 0); [by intros [= <- <-]|].
  cbn [bare with_data var_name].
  destruct (memcpy _ _ _ _ _) as [n|]; cbn [obind]; [|done]. unfold sanitize_namesz.
  change (name_char (with_name n namesz (bare p))) with (name_char (with_name n namesz p)).
  cbn [with_name var_namesz]. destruct (name_char _ _) as [c|]; cbn [obind]; [|done].
  destruct (c =? 0); by intros [= <- <-].
Qed.

Lemma blind_set_guid guid : data_blind (fun v => variable_set_guid v guid).
Proof.
  intros p r p'. unfold variable_set_guid. destruct guid as [g|]; [|by intros [= <- <-]].
  cbn [bare with_data var_guid]. destruct (memcpy _ _ _ _ _); cbn [obind]; [|done].
  by intros [= <- <-].
Qed.

Lemma blind_set_cert cert :
  data_blind (fun v => match cert with Some _ => variable_set_cert v cert | None => Ok (0, v) end).
Proof.
  intros p r p'. destruct cert as [c|]; [|by intros [= <- <-]]. unfold variable_set_cert.
  cbn [bare with_data var_cert]. destruct (memcpy _ _ _ _ _); cbn [obind]; [|done].
  by intros [= <- <-].
Qed.

Lemma blind_set_attrs attrs : data_blind (fun v => Ok (variable_set_attrs v attrs)).
Proof. by intros p r p' [= <- <-]. Qed.

Lemma blind_set_timestamp ts :
  data_blind (fun v => Ok match ts with Some _ => variable_set_timestamp v ts | None => (0, v) end).
Proof. intros p r p'. by destruct ts; intros [= <- <-]. Qed.

Lemma blind_cleanup_name namesz : data_blind (fun v => cleanup_name v namesz).
Proof.
  intros p r p'. unfold cleanup_name, clear_name. cbn [bare with_data var_name].
  destruct (write_bytes _ _ _); cbn [obind]; [|done]. by intros [= <- <-].
Qed.

Lemma simulates_update h v p f hk pk :
  data_blind (fun v => Ok (f v)) -> rep h v p ->
  (forall r v1 p1 h1, rep h1 v1 p1 -> moved h v h1 v1 -> simulates h1 v1 (hk (r, v1)) (pk r p1)) ->
  simulates h v (bind (on_fields (fun v => Ok (f v)) v) hk) (let '(r, p1) := f p in pk r p1).
Proof.
  intros Hb Hr Hk. replace (let '(r, p1) := f p in pk r p1)
    with (obind (Ok (f p)) (fun x => let '(r, p1) := x in pk r p1)) by done.
  apply simulates_bind; [exact (simulates_fields _ _ _ _ Hr Hb)|]. exact Hk.
Qed.

(** ** Blocks *)
Lemma alloc_block_ok h b :
  exists l, h !! l = None /\ alloc_block b h = Ok (Some l, <[l := b]> h).
Proof. exists (address h (zlen b)). split; [apply address_fresh|done]. Qed.

Lemma copy_to_block_ok h l blk off src d n b' :
  h !! l = Some blk -> reads h src d -> memcpy blk off d 0 n = Ok b' ->
  copy_to_block (Some l) off src n h = Ok (tt, <[l := b']> h).
Proof.
  intros Hl Hs Hm. unfold copy_to_block, load.
  rewrite (bind_runs _ _ h blk h) by by rewrite Hl.
  rewrite (bind_runs _ _ _ _ _ (load_pointer_ok _ _ _ Hs)).
  by rewrite (bind_runs _ _ _ _ _ (mlift_runs _ _ _ Hm)).
Qed.

(** The block of a structure is released and another one filled. *)
Lemma moved_realloc h v l b fields :
  (if hv_data v is Some l0 then delete l0 h else h) !! l = None ->
  moved h v (<[l := b]> (if hv_data v is Some l0 then delete l0 h else h)) (mk_hvar fields (Some l)).
Proof.
  intros Hl. constructor; cbn [hv_data].
  - intros l1 H1 H2. rewrite lookup_insert_ne by congruence.
    destruct (hv_data v) as [l0|]; [|done]. by rewrite lookup_delete_ne by congruence.
  - intros l1 [= <-]. destruct (hv_data v) as [l0|]; [|by right].
    destruct (decide (l0 = l)) as [->|]; [by left|right]. by rewrite lookup_delete_ne in Hl.
  - intros l1 -> H2. rewrite lookup_insert_ne by congruence. apply lookup_delete_eq.
Qed.

Lemma moved_write h v l b fields :
  hv_data v = Some l -> moved h v (<[l := b]> h) (mk_hvar fields (Some l)).
Proof.
  intros Hl. constructor; cbn [hv_data]; rewrite ?Hl.
  - intros l1 H1 _. by rewrite lookup_insert_ne by congruence.
  - auto.
  - by intros l1 H1 H2.
Qed.

Lemma heap_free_ok h v p : rep h v p ->
  heap_free (hv_data v) h = Ok (tt, if hv_data v is Some l0 then delete l0 h else h).
Proof.
  intros [_ Hd]. unfold heap_free. destruct (hv_data v) as [l|]; [|done].
  cbn in Hd. destruct (var_data p); [|done]. by rewrite Hd.
Qed.

(** [memcpy] into a fresh block, after the old one has been released. *)
Lemma fill_new_block h v p src d b off n b' fields :
  rep h v p -> reads h src d -> apart v src -> memcpy b off d 0 n = Ok b' ->
  exists l h0 h1 h', heap_free (hv_data v) h = Ok (tt, h0) /\
    alloc_block b h0 = Ok (Some l, h1) /\ copy_to_block (Some l) off src n h1 = Ok (tt, h') /\
    h' !! l = Some b' /\ moved h v h' (mk_hvar fields (Some l)).
Proof.
  intros Hr Hs Ha Hm.
  set (h0 := if hv_data v is Some l0 then delete l0 h else h).
  destruct (alloc_block_ok h0 b) as (l & Hl & R).
  pose proof (moved_realloc h v l b fields Hl) as M. fold h0 in M.
  destruct (reads_moved _ _ _ _ _ _ M Hs Ha) as [Hs2 _].
  exists l, h0, (<[l := b]> h0), (<[l := b']> h0).
  split_and!; [by apply (heap_free_ok _ _ p)|done| |apply lookup_insert_eq|by apply (moved_realloc h v l b')].
  rewrite (copy_to_block_ok _ l b off src d n b' (lookup_insert_eq _ _ _) Hs2 Hm).
  by rewrite insert_insert_eq.
Qed.

Lemma rep_written h v p h' l n b' :
  rep h v p -> h' !! l = Some b' -> rep h' (set_data_fields (Some l) n v) (with_data (Some b') n p).
Proof. intros [Hf _] Hl. constructor; [|done]. cbn [set_data_fields hv_fields]. by rewrite Hf. Qed.

Lemma store_data_block p off d n p' :
  store_data p off d n = Ok p' ->
  exists blk b', var_data p = Some blk /\ memcpy blk off d 0 n = Ok b' /\
    p' = with_data (Some b') (var_datasz p) p.
Proof.
  unfold store_data. destruct (var_data p) as [blk|]; [|done].
  intros (b' & E & [= <-])%obind_inv. by exists blk, b'.
Qed.

(** Replacing the data: the block is kept when the size is the same. *)
Lemma simulates_replace h v p src d n :
  rep h v p -> reads h src d -> apart v src ->
  simulates h v
    (ptr <- (if negb (var_datasz p =? n) then heap_free (hv_data v) ;; heap_malloc n
             else ret (hv_data v)) ;;
     copy_to_block ptr 0 src n ;; ret (0, set_data_fields ptr n v))
    (let block := if negb (var_datasz p =? n) then malloc n else var_data p in
     let* p' := store_data (with_data block n p) 0 d n in Ok (0, p')).
Proof.
  intros Hr Hs Ha r p' (q & (blk & b' & Eb & Em & ->)%store_data_block & [= <- <-])%obind_inv.
  cbn [with_data var_data var_datasz] in *. destruct (negb _).
  - destruct (fill_new_block h v p src d blk 0 n b' (with_data None n (hv_fields v)) Hr Hs Ha Em)
      as (l & h0 & h1 & h' & R0 & R1 & R2 & Hl & M).
    eexists _, h'. split; [|split; [exact (rep_written h v p h' l n b' Hr Hl)|exact M]].
    unfold heap_malloc. rewrite Eb. rewrite bind_assoc, (bind_runs _ _ _ _ _ R0).
    by rewrite (bind_runs _ _ _ _ _ R1), (bind_runs _ _ _ _ _ R2).
  - destruct (hv_data v) as [l|] eqn:El; pose proof (rep_data _ _ _ Hr) as Hd;
      rewrite El, Eb in Hd; [|done].
    eexists _, (<[l := b']> h). split.
    + rewrite (bind_runs _ _ _ _ _ (eq_refl : ret (Some l) h = Ok (Some l, h))).
      by rewrite (bind_runs _ _ _ _ _ (copy_to_block_ok _ l blk 0 src d n b' Hd Hs Em)).
    + split; [exact (rep_written h v p _ l n b' Hr (lookup_insert_eq _ _ _))|by apply moved_write].
Qed.

(** Appending. *)
Lemma simulates_append h v p src d n newsz :
  rep h v p -> reads h src d -> apart v src ->
  simulates h v
    (ptr <- heap_realloc (hv_data v) newsz ;;
     copy_to_block ptr (var_datasz p) src n ;; ret (0, set_data_fields ptr newsz v))
    (let block := realloc (var_data p) newsz in
     let* p' := store_data (with_data block (var_datasz p) p) (var_datasz p) d n in
     Ok (0, with_data (var_data p') newsz p')).
Proof.
  intros Hr Hs Ha r p' (q & (blk & b' & Eb & Em & ->)%store_data_block & [= <- <-])%obind_inv.
  cbn [with_data var_data var_datasz] in *.
  destruct (fill_new_block h v p src d blk (var_datasz p) n b' (with_data None newsz (hv_fields v))
    Hr Hs Ha Em) as (l & h0 & h1 & h' & R0 & R1 & R2 & Hl & M).
  eexists _, h'. split; [|split; [exact (rep_written h v p h' l newsz b' Hr Hl)|exact M]].
  assert (R : heap_realloc (hv_data v) newsz h = Ok (Some l, h1)).
  { pose proof (rep_data _ _ _ Hr) as Hd. unfold heap_realloc.
    destruct (hv_data v) as [l0|]; destruct (var_data p) as [old|]; try done; cbn in Hd.
    - rewrite (bind_runs mget _ h h h) by done. rewrite Hd, Eb.
      by rewrite (bind_runs _ _ _ _ _ R0).
    - injection R0 as <-. unfold realloc in Eb. destruct (malloc newsz) as [f|] eqn:Ef; [|done].
      injection Eb as <-. unfold heap_malloc. rewrite Ef. cbn [length] in R1.
      by rewrite drop_0, take_nil in R1. }
  by rewrite (bind_runs _ _ _ _ _ R), (bind_runs _ _ _ _ _ R2).
Qed.

Lemma simulates_set_data h v p src d datasz append :
  rep h v p -> reads h src d -> apart v src ->
  simulates h v (heap_set_data v (Some src) datasz append)
    (variable_set_data p (Some d) datasz append).
Proof.
  intros Hr Hs Ha. unfold heap_set_data, variable_set_data.
  assert (Esz : var_datasz (hv_fields v) = var_datasz p) by by rewrite (rep_fields _ _ _ Hr).
  rewrite Esz. pose proof (fun r => simulates_ret h v p r Hr) as Hkeep.
  destruct (datasz =? 0); [by apply Hkeep|]. destruct (datasz >? _); [by apply Hkeep|].
  destruct append; cbn [negb]; [|by apply simulates_replace].
  destruct (u64 _ >? _); [by apply Hkeep|]. by apply simulates_append.
Qed.

(** ** Operations on structures *)
Lemma simulates_cleanup_name h v p namesz :
  rep h v p -> simulates h v (heap_cleanup_name v namesz) (cleanup_name p namesz).
Proof. intros Hr. exact (simulates_fields _ _ _ _ Hr (blind_cleanup_name namesz)). Qed.

Lemma simulates_cleanup_data h v p namesz n :
  rep h v p -> simulates h v (heap_cleanup_data v namesz n) (cleanup_data p namesz n).
Proof.
  intros Hr r p' (q & (blk & b' & Eb & Em & ->)%store_data_block & E)%obind_inv.
  pose proof (rep_data _ _ _ Hr) as Hd. rewrite Eb in Hd.
  destruct (hv_data v) as [l|] eqn:El; [|done]. cbn in Hd.
  assert (Hr1 : rep (<[l := b']> h) v (with_data (Some b') (var_datasz p) p)).
  { constructor; [by rewrite (rep_fields _ _ _ Hr)|]. rewrite El. apply lookup_insert_eq. }
  assert (M1 : moved h v (<[l := b']> h) v).
  { destruct v as [fs ptr]. cbn in El. subst ptr. by apply moved_write. }
  destruct (simulates_cleanup_name _ _ _ namesz Hr1 r p' E) as (v2 & h2 & R2 & Hr2 & M2).
  exists v2, h2. split; [|split; [done|by eapply moved_trans]].
  unfold heap_cleanup_data. rewrite El.
  by rewrite (bind_runs _ _ _ _ _ (copy_to_block_ok h l blk 0 (Obj _) _ n b' Hd eq_refl Em)).
Qed.

Lemma simulates_create h v p name namesz src d datasz guid attrs ts cert :
  rep h v p -> reads h src d -> apart v src ->
  simulates h v (heap_create_noalloc v name namesz (Some src) datasz guid attrs ts cert)
    (variable_create_noalloc p name namesz (Some d) datasz guid attrs ts cert).
Proof.
  intros Hr Hs Ha. unfold heap_create_noalloc, variable_create_noalloc.
  destruct name as [n|]; [|by apply simulates_ret]. destruct guid as [g|]; [|by apply simulates_ret].
  destruct (datasz =? 0); [by apply simulates_ret|].
  apply simulates_bind; [exact (simulates_fields _ _ _ _ Hr (blind_set_name _ _))|].
  intros r v1 p1 h1 Hr1 M1. destruct (reads_moved _ _ _ _ _ _ M1 Hs Ha) as [Hs1 Ha1].
  destruct (r <? 0); [by apply simulates_ret|].
  apply simulates_bind; [by apply simulates_set_data|].
  clear r. intros r v2 p2 h2 Hr2 _. destruct (r <? 0); [by apply simulates_cleanup_name|].
  apply simulates_bind; [exact (simulates_fields _ _ _ _ Hr2 (blind_set_guid _))|].
  clear r. intros r v3 p3 h3 Hr3 _. destruct (r <? 0); [by apply simulates_cleanup_data|].
  apply (simulates_update _ _ _ _ _ _ (blind_set_attrs attrs) Hr3).
  clear r. intros r v4 p4 h4 Hr4 _. destruct (r <? 0); [by apply simulates_cleanup_data|].
  apply (simulates_update _ _ _ _ _ _ (blind_set_timestamp ts) Hr4).
  clear r. intros r v5 p5 h5 Hr5 _. destruct (r <? 0); [by apply simulates_cleanup_data|].
  apply simulates_bind; [exact (simulates_fields _ _ _ _ Hr5 (blind_set_cert cert))|].
  clear r. intros r v6 p6 h6 Hr6 _. destruct (r <? 0); [by apply simulates_cleanup_data|].
  by apply simulates_ret.
Qed.

Lemma heap_destroy_ok h v p : rep h v p ->
  exists h', heap_destroy_noalloc v h = Ok (zero_hvar, h') /\ rep h' zero_hvar zero_var /\
    moved h v h' zero_hvar.
Proof.
  intros Hr. eexists. unfold heap_destroy_noalloc.
  rewrite (bind_runs _ _ _ _ _ (heap_free_ok _ _ _ Hr)). split; [done|]. split; [done|].
  constructor; cbn [hv_data zero_hvar]; [|done|].
  - intros l Hl _. destruct (hv_data v) as [l0|]; [|done]. by rewrite lookup_delete_ne by congruence.
  - intros l -> _. apply lookup_delete_eq.
Qed.

(** The source is another structure. *)
Lemma simulates_copy h v p w q :
  rep h v p -> rep h w q -> (forall l, hv_data w = Some l -> hv_data v <> Some l) ->
  simulates h v (heap_copy v w) (variable_copy p q).
Proof.
  intros Hr Hw Hne. unfold heap_copy, variable_copy. rewrite (rep_fields _ _ _ Hw).
  cbn [bare with_data var_name var_namesz var_datasz var_guid var_attrs].
  apply simulates_bind; [exact (simulates_fields _ _ _ _ Hr (blind_set_name _ _))|].
  intros r v1 p1 h1 Hr1 M1. destruct (r <? 0); [by apply simulates_ret|].
  pose proof (rep_data _ _ _ Hw) as Hd.
  apply simulates_bind.
  { destruct (hv_data w) as [l|], (var_data q) as [d|]; try done; [|by apply simulates_ret].
    destruct (reads_moved h v h1 v1 (Blk l) d M1 Hd (Hne l eq_refl)). by apply simulates_set_data. }
  clear r. intros r v2 p2 h2 Hr2 _. destruct (r <? 0); [by apply simulates_ret|].
  apply simulates_bind; [exact (simulates_fields _ _ _ _ Hr2 (blind_set_guid _))|].
  clear r. intros r v3 p3 h3 Hr3 _. destruct (r <? 0); [by apply simulates_ret|].
  apply (simulates_update _ _ _ _ _ _ (blind_set_attrs (var_attrs q)) Hr3).
  clear r. intros r v4 p4 h4 Hr4 _. destruct (r <? 0); by apply simulates_ret.
Qed.

End simulation.
