(* ===== verification/HeapSpec.v ===== *)
(** * The store uses its blocks properly

    A simulation: started with structures whose pointers are to blocks that
    hold the data, every operation of [Heap] does what the operation of
    [Storage] does, so that it touches no block that has been freed and frees
    none twice; afterwards the blocks in the heap are those it does not own, as
    they were, and one for every variable stored. *)
From S2P Require Import Prelude EfiTypes Common UefiVariable Storage StorageInv Samples.
From S2P Require Import StorageSpec StorageTrace Heap HeapVar.

(** ** Ownership

    The structures [vs] hold the variables [ps]; each has its own block, and
    the rest of the heap is [F]. *)
Record owned (F h : heap) (vs : list hvar) (ps : list variable_t) : Prop := {
  ow_rep : Forall2 (rep h) vs ps;
  ow_distinct i j v w l : vs !! i = Some v -> vs !! j = Some w ->
    hv_data v = Some l -> hv_data w = Some l -> i = j;
  ow_frame l : (forall v, v ∈ vs -> hv_data v <> Some l) -> h !! l = F !! l;
  ow_apart l v : v ∈ vs -> hv_data v = Some l -> F !! l = None
}.

Lemma rep_block h v p l : rep h v p -> hv_data v = Some l -> is_Some (h !! l).
Proof. intros [_ Hd] E. rewrite E in Hd. destruct (var_data p); [|done]. cbn in Hd. by eexists. Qed.

Lemma rep_same h h' v p : rep h v p -> (forall l, hv_data v = Some l -> h' !! l = h !! l) -> rep h' v p.
Proof.
  intros [Hf Hd] Hs. constructor; [done|]. unfold block_is in *.
  destruct (hv_data v) as [l|]; [|done]. destruct (var_data p); [|done]. by rewrite Hs.
Qed.

Lemma owned_block F h vs ps v l :
  owned F h vs ps -> v ∈ vs -> hv_data v = Some l -> is_Some (h !! l).
Proof.
  intros Ho (i & Hi)%list_elem_of_lookup E. destruct (Forall2_lookup_l _ _ _ _ _ (ow_rep _ _ _ _ Ho) Hi)
    as (p & _ & Hr). by eapply rep_block.
Qed.

(** What is free in the heap belongs to nobody. *)
Lemma owned_fresh F h vs ps l :
  owned F h vs ps -> h !! l = None -> (forall v, v ∈ vs -> hv_data v <> Some l) /\ F !! l = None.
Proof.
  intros Ho Hl. assert (Hno : forall v, v ∈ vs -> hv_data v <> Some l).
  { intros v Hv E. destruct (owned_block _ _ _ _ _ _ Ho Hv E). congruence. }
  split; [done|]. by rewrite <-(ow_frame _ _ _ _ Ho).
Qed.

Lemma owned_update F h vs ps i v h' v' p' :
  owned F h vs ps -> vs !! i = Some v -> rep h' v' p' -> moved h v h' v' ->
  owned F h' (<[i := v']> vs) (<[i := p']> ps).
Proof.
  intros Ho Hi Hr [MO MN MD]. pose proof (list_elem_of_lookup_2 _ _ _ Hi) as Hv.
  assert (Hnew : forall l, hv_data v' = Some l -> hv_data v = Some l \/
            ((forall w, w ∈ vs -> hv_data w <> Some l) /\ F !! l = None)).
  { intros l E. destruct (MN l E) as [?|Hn]; [by left|right]. by eapply owned_fresh. }
  assert (Hdiff : forall j w l, vs !! j = Some w -> j <> i -> hv_data w = Some l ->
            hv_data v <> Some l /\ hv_data v' <> Some l).
  { intros j w l Hj Hji E. assert (hv_data v <> Some l).
    { intros E2. by apply Hji, (ow_distinct _ _ _ _ Ho j i w v l). }
    split; [done|]. intros E2. destruct (Hnew l E2) as [?|[Hn _]]; [done|].
    by apply (Hn w (list_elem_of_lookup_2 _ _ _ Hj)). }
  constructor.
  - apply Forall2_same_length_lookup. split; [rewrite !length_insert; by eapply Forall2_length, Ho|].
    intros j w q Hw Hq. apply list_lookup_insert_Some in Hw as [(<- & <- & _)|(Hne & Hw)].
    + apply list_lookup_insert_Some in Hq as [(_ & <- & _)|(? & _)]; done.
    + rewrite list_lookup_insert_ne in Hq by done.
      pose proof (Forall2_lookup_lr _ _ _ _ _ _ (ow_rep _ _ _ _ Ho) Hw Hq) as Hrw.
      apply (rep_same h); [done|]. intros l E. apply not_eq_sym in Hne.
      destruct (Hdiff j w l Hw Hne E). by apply MO.
  - intros j k w x l Hj Hk Ew Ex.
    apply list_lookup_insert_Some in Hj as [(<- & <- & _)|(Nj & Hj)];
    apply list_lookup_insert_Some in Hk as [(<- & <- & _)|(Nk & Hk)]; [done|..].
    + by destruct (Hdiff k x l Hk (not_eq_sym Nk) Ex).
    + by destruct (Hdiff j w l Hj (not_eq_sym Nj) Ew).
    + by apply (ow_distinct _ _ _ _ Ho j k w x l).
  - intros l Hno. assert (Hv' : hv_data v' <> Some l).
    { apply Hno, list_elem_of_lookup. exists i. by eapply list_lookup_insert_eq, lookup_lt_Some. }
    destruct (decide (hv_data v = Some l)) as [E|E].
    { rewrite (MD l E Hv'). by rewrite (ow_apart _ _ _ _ Ho l v Hv E). }
    rewrite (MO l E Hv'). apply (ow_frame _ _ _ _ Ho).
    intros w (j & Hj)%list_elem_of_lookup E2. destruct (decide (j = i)) as [->|Hne]; [congruence|].
    apply (Hno w); [|done]. apply list_elem_of_lookup. exists j. by rewrite list_lookup_insert_ne.
  - intros l w (j & Hj)%list_elem_of_lookup E.
    apply list_lookup_insert_Some in Hj as [(_ & <- & _)|(Nj & Hj)].
    + destruct (Hnew l E) as [E2|[_ Hn]]; [|done]. by apply (ow_apart _ _ _ _ Ho l v).
    + by apply (ow_apart _ _ _ _ Ho l w (list_elem_of_lookup_2 _ _ _ Hj)).
Qed.

(** A pointer argument into the rest of the heap. *)
Lemma owned_reads F h vs ps v src d :
  owned F h vs ps -> v ∈ vs -> reads F src d -> reads h src d /\ apart v src.
Proof.
  intros Ho Hv. destruct src as [b|l]; cbn; [done|]. intros Hl.
  assert (Hno : forall w, w ∈ vs -> hv_data w <> Some l).
  { intros w Hw E. pose proof (ow_apart _ _ _ _ Ho l w Hw E). congruence. }
  split; [|by apply Hno]. by rewrite (ow_frame _ _ _ _ Ho).
Qed.

(** ** The store

    [ls] are local structures, holding [qs], beside those of the array. *)
Record holds (F : heap) (ls : list hvar) (qs : list variable_t) (hs : hstorage) (s : storage) :
    Prop := {
  ho_owned : owned F (hs_heap hs) (ls ++ hs_variables hs) (qs ++ variables s);
  ho_local : length ls = length qs;
  ho_total : hs_total hs = total s;
  ho_used : hs_used hs = used s;
  ho_iter : hs_iter hs = storage_iter_index s
}.

Lemma holds_slots F ls qs hs s : holds F ls qs hs s ->
  Forall2 (rep (hs_heap hs)) ls qs /\ Forall2 (rep (hs_heap hs)) (hs_variables hs) (variables s).
Proof.
  intros H. apply Forall2_app_inv; [apply H|]. apply (ow_rep _ _ _ _ (ho_owned _ _ _ _ _ H)).
Qed.

Lemma holds_fields F ls qs hs s : holds F ls qs hs s -> slot_fields hs = bare <$> variables s.
Proof.
  intros [_ Hf]%holds_slots. unfold slot_fields.
  induction Hf as [|v p vs ps Hv _ IH]; [done|]. cbn. f_equal; [apply Hv|done].
Qed.

Lemma holds_slot F ls qs hs s i p : holds F ls qs hs s -> variables s !! i = Some p ->
  exists v, hs_variables hs !! i = Some v /\ rep (hs_heap hs) v p.
Proof.
  intros [_ Hf]%holds_slots Hi. destruct (Forall2_lookup_r _ _ _ _ _ Hf Hi) as (v & Hv & Hr). by exists v.
Qed.

Lemma holds_set_slot F ls qs hs s i v h' v' p' :
  holds F ls qs hs s -> hs_variables hs !! i = Some v -> rep h' v' p' ->
  moved (hs_heap hs) v h' v' ->
  holds F ls qs (set_hslot i v' (set_heap h' hs)) (set_slot i p' s).
Proof.
  intros H Hi Hr M. pose proof (ho_local _ _ _ _ _ H) as Hl. constructor; try apply H.
  cbn [hs_heap hs_variables set_hslot set_heap variables set_slot set_variables].
  pose proof (owned_update F (hs_heap hs) _ _ (length ls + i) v h' v' p' (ho_owned _ _ _ _ _ H)) as Ho.
  rewrite (insert_app_r ls), Hl, (insert_app_r qs) in Ho. apply Ho; [|done..].
  by rewrite <-Hl, lookup_app_r, Nat.add_comm, Nat.add_sub by lia.
Qed.

Lemma holds_reads F ls qs hs s i v src d :
  holds F ls qs hs s -> hs_variables hs !! i = Some v -> reads F src d ->
  reads (hs_heap hs) src d /\ apart v src.
Proof.
  intros H Hi. eapply owned_reads; [apply (ho_owned _ _ _ _ _ H)|].
  apply elem_of_app. right. by eapply list_elem_of_lookup_2.
Qed.

(** [follows hs s hm pm]: from here the computation on the store with a heap
    does what the one on the store does. *)
Definition follows {A} (F : heap) (ls : list hvar) (qs : list variable_t) (hs : hstorage)
    (s : storage) (hm : M hstorage A) (pm : M storage A) : Prop :=
  holds F ls qs hs s -> forall a s', pm s = Ok (a, s') ->
  exists hs', hm hs = Ok (a, hs') /\ holds F ls qs hs' s'.

Lemma follows_ret {A} F ls qs hs s (a : A) : follows F ls qs hs s (ret a) (ret a).
Proof. intros H b s' [= <- <-]. by exists hs. Qed.

Lemma follows_bind {A B} F ls qs hs s hm pm (hk : A -> M hstorage B) pk :
  follows F ls qs hs s hm pm ->
  (forall a hs1 s1, pm s = Ok (a, s1) -> follows F ls qs hs1 s1 (hk a) (pk a)) ->
  follows F ls qs hs s (bind hm hk) (bind pm pk).
Proof.
  intros Hm Hk H b s' (a & s1 & R1 & R2)%bind_inv.
  destruct (Hm H a s1 R1) as (hs1 & E1 & H1).
  destruct (Hk a hs1 s1 R1 H1 b s' R2) as (hs2 & E2 & H2).
  exists hs2. by rewrite (bind_runs _ _ _ _ _ E1).
Qed.

Lemma follows_lift {A B} F ls qs hs s (o : outcome A) (hk : A -> M hstorage B) pk :
  (forall a, o = Ok a -> follows F ls qs hs s (hk a) (pk a)) ->
  follows F ls qs hs s (bind (mlift o) hk) (bind (mlift o) pk).
Proof.
  intros Hk H b s' (a & s1 & R1 & R2)%bind_inv. unfold mlift in R1. destruct o as [x|]; [|done].
  injection R1 as -> ->. exact (Hk a eq_refl H b s' R2).
Qed.

Lemma follows_get {A} F ls qs hs s (hk : hstorage -> M hstorage A) pk :
  (holds F ls qs hs s -> follows F ls qs hs s (hk hs) (pk s)) ->
  follows F ls qs hs s (bind mget hk) (bind mget pk).
Proof. intros Hk H b s' R. exact (Hk H H b s' R). Qed.

(** Names and GUIDs are looked for in the fields. *)
Lemma find_variable_bare n sz g vs :
  find_variable_loop n sz g (bare <$> vs) = find_variable_loop n sz g vs.
Proof. induction vs as [|v vs IH]; [done|]. cbn. by rewrite IH. Qed.

Lemma find_empty_bare vs : find_empty_slot (bare <$> vs) = find_empty_slot vs.
Proof. induction vs as [|v vs IH]; [done|]. cbn. by rewrite IH. Qed.

Section store.
Context `{Allocator} `{Addresses} (F : heap) (ls : list hvar) (qs : list variable_t).
Abbreviation mirrors := (follows F ls qs).

(** The search for a variable. *)
Lemma follows_find {A} hs s n sz g (hk : option nat -> M hstorage A) pk :
  (forall r, mirrors hs s (hk r) (pk r)) ->
  mirrors hs s (bind (mlift (find_variable_loop n sz g (slot_fields hs))) hk)
    (bind (mlift (find_variable_loop n sz g (variables s))) pk).
Proof.
  intros Hk H2. rewrite (holds_fields _ _ _ _ _ H2), find_variable_bare.
  revert H2. apply follows_lift. auto.
Qed.

(** An operation on the structure in a slot. *)
Lemma on_hslot_ok hs s i v hm pm r p' :
  holds F ls qs hs s -> hs_variables hs !! i = Some v ->
  simulates (hs_heap hs) v (hm v) pm -> pm = Ok (r, p') ->
  exists hs', on_hslot i hm hs = Ok (r, hs') /\ holds F ls qs hs' (set_slot i p' s) /\
    hs_total hs' = hs_total hs.
Proof.
  intros H2 Hv Hs E. destruct (Hs r p' E) as (v' & h' & R & Hr & M).
  exists (set_hslot i v' (set_heap h' hs)). split; [|split; [by eapply holds_set_slot|done]].
  unfold on_hslot. rewrite (bind_runs mget _ hs hs hs) by done. rewrite Hv.
  unfold on_heap. rewrite (bind_runs _ _ hs (r, v') (set_heap h' hs)); [done|].
  unfold mzoom. by rewrite R.
Qed.

Lemma follows_slot {A} hs s i (hk : hvar -> M hstorage A) pk :
  (forall v p, hs_variables hs !! i = Some v -> variables s !! i = Some p ->
     rep (hs_heap hs) v p -> mirrors hs s (hk v) (pk p)) ->
  mirrors hs s
    (match hs_variables hs !! i with None => mlift (Fault OutOfBounds) | Some v => hk v end)
    (p <- mlift (slot_at s i) ;; pk p).
Proof.
  intros Hk H2 a s' (p & s1 & R1 & R2)%bind_inv. unfold mlift at 1, slot_at in R1.
  destruct (variables s !! i) as [q|] eqn:Hq; [|done]. injection R1 as -> <-.
  destruct (holds_slot _ _ _ _ _ _ _ H2 Hq) as (v & Hv & Hr). rewrite Hv.
  by apply (Hk v p Hv eq_refl Hr H2).
Qed.

Lemma follows_on_slot {A} hs s i p hm pm (hk : Z -> M hstorage A) pk :
  variables s !! i = Some p ->
  (forall v, holds F ls qs hs s -> hs_variables hs !! i = Some v -> rep (hs_heap hs) v p ->
     simulates (hs_heap hs) v (hm v) pm) ->
  (forall r p' hs1, variables (set_slot i p' s) !! i = Some p' ->
     mirrors hs1 (set_slot i p' s) (hk r) (pk r p')) ->
  mirrors hs s (r <- on_hslot i hm ;; hk r)
    ('(r, p') <- mlift pm ;; mmodify (set_slot i p') ;; pk r p').
Proof.
  intros Hp Hs Hk H2 a s' ((r & p') & s2 & R2 & R3)%bind_inv. unfold mlift in R2.
  destruct pm as [x|] eqn:Ep; [|done]. injection R2 as -> <-.
  destruct (holds_slot _ _ _ _ _ _ _ H2 Hp) as (v & Hv & Hr).
  destruct (on_hslot_ok hs s i v hm (Ok (r, p')) r p' H2 Hv (Hs v H2 Hv Hr) eq_refl)
    as (hs' & R & H3 & _).
  rewrite (bind_runs _ _ _ _ _ R). refine (Hk r p' hs' _ H3 a s' R3).
  eapply list_lookup_insert_eq, lookup_lt_Some, Hp.
Qed.

(** [storage_remove] *)
Lemma follows_remove hs s name namesz guid :
  mirrors hs s (heap_storage_remove name namesz guid) (storage_remove name namesz guid).
Proof.
  unfold heap_storage_remove, storage_remove.
  destruct name as [n|]; [|apply follows_ret]. destruct guid as [g|]; [|apply follows_ret].
  apply follows_get. intros _. apply follows_find. intros [i|]; [|apply follows_ret].
  intros H2 a s' (p & s1 & R1 & R2)%bind_inv. unfold mlift, slot_at in R1.
  destruct (variables s !! i) as [q|] eqn:Hq; [|done]. injection R1 as -> <-.
  destruct (holds_slot _ _ _ _ _ _ _ H2 Hq) as (v & Hv & Hr).
  destruct (heap_destroy_ok _ _ _ Hr) as (h' & Rd & Hr' & M).
  destruct (on_hslot_ok hs s i v (fun v => v <- heap_destroy_noalloc v ;; ret (0, v))
    (Ok (0, zero_var)) 0 zero_var H2 Hv) as (hs' & R & H3 & _); [|done|].
  { intros r p' [= <- <-]. exists zero_hvar, h'. by rewrite (bind_runs _ _ _ _ _ Rd). }
  rewrite (bind_runs _ _ _ _ _ R). injection R2 as <- <-. eexists. split; [done|].
  destruct H3 as [Ho Hl Ht Hu Hi]. constructor; cbn in *; [done|done|by rewrite Ht|by rewrite Hu|done].
Qed.

(** [storage_set] *)
Lemma follows_set_existing hs s i name namesz src d datasz attrs append :
  reads F src d ->
  mirrors hs s (heap_set_existing i name namesz (Some src) datasz attrs append)
    (storage_set_existing i name namesz (Some d) datasz attrs append).
Proof.
  intros Hsrc. unfold heap_set_existing, storage_set_existing. apply follows_get. intros _.
  apply follows_slot. intros v p Hv Hp Hr. rewrite (rep_fields _ _ _ Hr).
  change (var_attrs (bare p)) with (var_attrs p).
  destruct (negb _); [apply follows_ret|].
  apply (follows_on_slot _ _ _ p); [done| |].
  { intros w _ _ Hw. exact (simulates_fields _ _ _ _ Hw (blind_set_name _ _)). }
  intros r1 p1 hs1 Hp1. destruct (r1 =? -2); [apply follows_ret|].
  destruct (r1 <? 0); [apply follows_ret|].
  apply (follows_on_slot _ _ _ p1); [done| |].
  { intros w H2 Hw Hrw. destruct (holds_reads _ _ _ _ _ _ _ _ _ H2 Hw Hsrc).
    by apply simulates_set_data. }
  intros r2 p2 hs2 Hp2. destruct (r2 =? -2); [apply follows_ret|].
  destruct (r2 <? 0); [apply follows_ret|].
  change (bind (mmodify (set_slot i (with_attrs attrs p2))) (fun _ => ret EFI_SUCCESS))
    with ('(r, p') <- mlift (Ok (0, with_attrs attrs p2)) ;;
          mmodify (set_slot i p') ;; (fun _ _ => ret EFI_SUCCESS : M storage EFI_STATUS) r p').
  apply (follows_on_slot _ _ _ p2); [done| |intros; apply follows_ret].
  intros w _ _ Hw. exact (simulates_fields _ _ _ _ Hw (blind_set_attrs attrs)).
Qed.

Lemma follows_set_new hs s name namesz guid src d datasz attrs :
  reads F src d ->
  mirrors hs s (heap_set_new name namesz guid (Some src) datasz attrs)
    (storage_set_new name namesz guid (Some d) datasz attrs).
Proof.
  intros Hsrc. unfold heap_set_new, storage_set_new. apply follows_get. intros H2.
  rewrite (holds_fields _ _ _ _ _ H2), find_empty_bare. apply follows_lift.
  intros [i|] _; [|apply follows_ret].
  intros H3 a s' (p & s1 & R1 & R2)%bind_inv. unfold mlift at 1, slot_at in R1.
  destruct (variables s !! i) as [q|] eqn:Hq; [|done]. injection R1 as -> <-.
  revert a s' R2. apply (follows_on_slot _ _ _ p); [done| | |done].
  { intros w H4 Hw Hrw. destruct (holds_reads _ _ _ _ _ _ _ _ _ H4 Hw Hsrc).
    by apply simulates_create. }
  intros r1 p1 hs1 _. destruct (r1 <? 0); [apply follows_ret|].
  intros [Ho Hl Ht Hu Hi] a s' [= <- <-]. eexists. split; [done|].
  constructor; cbn in *; [done|done|by rewrite Ht|by rewrite Hu|done].
Qed.

Lemma follows_set hs s name namesz guid src d datasz attrs :
  reads F src d ->
  mirrors hs s (heap_storage_set name namesz guid (Some src) datasz attrs)
    (storage_set name namesz guid (Some d) datasz attrs).
Proof.
  intros Hsrc. unfold heap_storage_set, storage_set, storage_used.
  destruct name as [n|]; [|apply follows_ret]. destruct guid as [g|]; [|apply follows_ret].
  intros H2. change (bind (mgets hs_used) ?k) with (bind mget (fun s => k (hs_used s))).
  change (bind (mgets used) ?k) with (bind mget (fun s => k (used s))).
  revert H2. apply follows_get. intros H2. rewrite (ho_used _ _ _ _ _ H2).
  destruct (_ || _); [apply follows_ret|]. cbv zeta.
  destruct (_ || _); [apply follows_remove|].
  apply follows_get. intros _. apply follows_find.
  intros [i|]; [by apply follows_set_existing|by apply follows_set_new].
Qed.

Lemma follows_set_with_timestamp hs s name namesz guid src d datasz attrs ts :
  reads F src d ->
  mirrors hs s (heap_set_with_timestamp name namesz guid (Some src) datasz attrs ts)
    (storage_set_with_timestamp name namesz guid (Some d) datasz attrs ts).
Proof.
  intros Hsrc. unfold heap_set_with_timestamp, storage_set_with_timestamp.
  destruct name as [n|]; [|apply follows_ret]. destruct guid as [g|]; [|apply follows_ret].
  destruct ts as [t|]; [|apply follows_ret].
  apply follows_bind; [by apply follows_set|]. intros st hs1 s1 _.
  destruct (is_delete _ _); [apply follows_ret|].
  unfold storage_get_var_ptr, storage_find_variable, find_variable.
  intros H2. destruct (find_variable_loop n namesz g (variables s1)) as [[i|]|f] eqn:E; cycle 1.
  - intros a s' R. unfold bind, mget, mlift in R. rewrite E in R. injection R as <- <-.
    exists hs1. unfold bind, mget, mlift. by rewrite (holds_fields _ _ _ _ _ H2), find_variable_bare, E.
  - intros a s' R. unfold bind, mget, mlift in R. by rewrite E in R.
  - intros a s' R. unfold bind at 1 2 3, mget at 1, mlift at 1, ret at 1 in R. rewrite E in R.
    rewrite (bind_runs mget _ s1 s1 s1) in R by done.
    apply bind_inv in R as (p & s2 & R1 & R2). unfold mlift, slot_at in R1.
    destruct (variables s1 !! i) as [q|] eqn:Hq; [|done]. injection R1 as -> <-.
    rewrite (bind_runs mget _ hs1 hs1 hs1) by done. rewrite (holds_fields _ _ _ _ _ H2), find_variable_bare, E.
    destruct (holds_slot _ _ _ _ _ _ _ H2 Hq) as (v & Hv & Hr).
    destruct (on_hslot_ok hs1 s1 i v (on_fields (fun v => Ok (variable_set_timestamp v (Some t))))
      (Ok (0, with_timestamp t p)) 0 (with_timestamp t p) H2 Hv) as (hs' & R & H3 & _); [|done|].
    { exact (simulates_fields _ _ _ _ Hr (blind_set_timestamp (Some t))). }
    injection R2 as <- <-. exists hs'. split; [|done].
    rewrite (bind_runs _ _ hs1 (Some i) hs1) by done. by rewrite (bind_runs _ _ _ _ _ R).
Qed.

(** [storage_get] *)
Lemma follows_storage_get hs s rt name namesz guid attrs data dsz :
  mirrors hs s (heap_storage_get rt name namesz guid attrs data dsz)
    (storage_get rt name namesz guid attrs data dsz).
Proof.
  unfold heap_storage_get, storage_get.
  destruct name as [n|]; [|apply follows_ret]. destruct guid as [g|]; [|apply follows_ret].
  destruct dsz as [dsz|]; [|apply follows_ret]. destruct attrs as [at_|]; [|apply follows_ret].
  intros H2 a s' R. unfold storage_find_variable in R. rewrite bind_assoc in R. revert a s' R.
  revert H2. apply follows_get. intros _. unfold find_variable. apply follows_find.
  intros [i|]; [|apply follows_ret].
  change (bind mget ?k) with (fun s => (k s : M storage _) s). cbv beta.
  intros H2. revert H2.
  apply follows_slot. intros v p Hv Hp Hr. rewrite (rep_fields _ _ _ Hr).
  cbn [bare with_data var_attrs var_datasz].
  destruct (rt_deny_access _ _); [apply follows_ret|].
  destruct (dsz <? _); [apply follows_ret|]. destruct (dsz >? _); [apply follows_ret|].
  intros H2 a s' (src & s1 & R1 & R2)%bind_inv. unfold mlift, block_of in R1.
  pose proof (rep_data _ _ _ Hr) as Hd. destruct (var_data p) as [d|]; [|done]. injection R1 as -> <-.
  destruct (hv_data v) as [l|]; [|done]. cbn in Hd.
  rewrite (bind_runs _ _ hs src hs).
  - revert H2 a s' R2. apply follows_lift. intros. apply follows_ret.
  - unfold on_heap, mzoom, load. rewrite Hd. by destruct hs.
Qed.

(** [storage_destroy] *)
Lemma heap_destroy_all_ok vs ps : forall h ws rs,
  owned F h (ws ++ vs) (rs ++ ps) -> length ws = length rs ->
  exists h', heap_destroy_all vs h = Ok ((fun _ => zero_hvar) <$> vs, h') /\
    owned F h' (ws ++ ((fun _ => zero_hvar) <$> vs)) (rs ++ (variable_destroy_noalloc <$> ps)).
Proof.
  revert ps. induction vs as [|v vs IH]; intros ps h ws rs Ho Hl;
    destruct (Forall2_app_inv _ _ _ _ _ Hl (ow_rep _ _ _ _ Ho)) as [_ Hf];
    inversion Hf as [|? p ? ps' Hr Hf']; subst; cbn [heap_destroy_all fmap list_fmap]; [by exists h|].
  destruct (heap_destroy_ok _ _ _ Hr) as (h1 & R1 & Hr1 & M1).
  pose proof (owned_update _ _ _ _ (length ws) v h1 zero_hvar zero_var Ho
    ltac:(by rewrite lookup_app_r, Nat.sub_diag by lia) Hr1 M1) as Ho1.
  rewrite Hl in Ho1 at 2. rewrite !insert_app_r_alt, !Nat.sub_diag in Ho1 by lia.
  cbn [insert list_insert] in Ho1.
  destruct (IH ps' h1 (ws ++ [zero_hvar]) (rs ++ [zero_var])) as (h2 & R2 & Ho2).
  { by rewrite <-!app_assoc. }
  { rewrite !length_app. cbn. lia. }
  exists h2. rewrite (bind_runs _ _ _ _ _ R1), (bind_runs _ _ _ _ _ R2).
  rewrite <-!app_assoc in Ho2. by split.
Qed.

Lemma follows_destroy hs s : mirrors hs s heap_storage_destroy storage_destroy.
Proof.
  intros H2 a s' [= <- <-]. pose proof (ho_local _ _ _ _ _ H2) as Hl.
  destruct (heap_destroy_all_ok _ _ _ _ _ (ho_owned _ _ _ _ _ H2) Hl) as (h' & R & Ho).
  eexists. unfold heap_storage_destroy. rewrite (bind_runs mget _ hs hs hs) by done.
  rewrite (bind_runs _ _ hs ((fun _ => zero_hvar) <$> hs_variables hs) (set_heap h' hs));
    [|unfold on_heap, mzoom; by rewrite R].
  split; [done|]. constructor; cbn; [exact Ho|done|done|done|apply (ho_iter _ _ _ _ _ H2)].
Qed.

(** [storage_iter] copies into a local structure. *)
Lemma heap_iter_loop_ok fuel h vars ps v p r i : forall idx,
  Forall2 (rep h) vars ps -> rep h v p ->
  (forall w l, w ∈ vars -> hv_data w = Some l -> hv_data v <> Some l) ->
  storage_iter_loop fuel ps idx p = Ok (r, i) ->
  exists r' h', heap_iter_loop fuel vars idx v h = Ok ((r', i), h') /\
    match r, r' with
    | inl p', inl v' | inr p', inr v' => rep h' v' p' /\ moved h v h' v'
    | _, _ => False
    end.
Proof.
  induction fuel as [|fuel IH]; intros idx Hf Hr Hne; cbn [storage_iter_loop heap_iter_loop];
    destruct (idx <? MAX_VAR_COUNT); [done| | |];
    try (intros [= <- <-]; exists (inr v), h; split_and!; [done|done|by apply moved_refl]).
  destruct (ps !! Z.to_nat idx) as [q|] eqn:Hq; [|done].
  destruct (Forall2_lookup_r _ _ _ _ _ Hf Hq) as (w & Hw & Hrw). rewrite Hw.
  rewrite (rep_fields _ _ _ Hrw). change (variable_is_valid (bare q)) with (variable_is_valid q).
  destruct (variable_is_valid q) as [valid|]; [|done]. cbn [obind].
  rewrite (bind_runs (mlift (Ok valid)) _ h valid h) by done.
  destruct (negb valid); [by apply IH|]. intros ((r1 & p1) & E1 & E2)%obind_inv.
  destruct (simulates_copy h v p w q Hr Hrw) with (r := r1) (p' := p1)
    as (v1 & h1 & R1 & Hr1 & M1); [|done|].
  { intros l. apply Hne. by eapply list_elem_of_lookup_2. }
  rewrite (bind_runs _ _ _ _ _ R1).
  destruct (r1 <? 0); injection E2 as <- <-; by eexists _, h1.
Qed.

Lemma holds_local hs s j v : holds F ls qs hs s -> ls !! j = Some v ->
  exists p, qs !! j = Some p /\ rep (hs_heap hs) v p.
Proof. intros [Hf _]%holds_slots Hj. by apply (Forall2_lookup_l _ _ _ _ _ Hf). Qed.

Lemma holds_set_local hs s j v h' v' p' :
  holds F ls qs hs s -> ls !! j = Some v -> rep h' v' p' -> moved (hs_heap hs) v h' v' ->
  holds F (<[j := v']> ls) (<[j := p']> qs) (set_heap h' hs) s.
Proof.
  intros H2 Hj Hr M. pose proof (ho_local _ _ _ _ _ H2) as Hl.
  pose proof (lookup_lt_Some _ _ _ Hj). constructor; try apply H2.
  - cbn [hs_heap hs_variables set_heap].
    pose proof (owned_update F (hs_heap hs) _ _ j v h' v' p' (ho_owned _ _ _ _ _ H2)) as Ho.
    rewrite !insert_app_l in Ho by lia. apply Ho; [by apply lookup_app_l_Some|done..].
  - by rewrite !length_insert.
Qed.

Lemma local_apart hs s j v w l :
  holds F ls qs hs s -> ls !! j = Some v -> w ∈ hs_variables hs -> hv_data w = Some l ->
  hv_data v <> Some l.
Proof.
  intros H2 Hj (i & Hi)%list_elem_of_lookup Ew Ev. pose proof (lookup_lt_Some _ _ _ Hj).
  assert (j = (length ls + i)%nat); [|lia].
  apply (ow_distinct _ _ _ _ (ho_owned _ _ _ _ _ H2) _ _ v w l); [by apply lookup_app_l_Some| |done|done].
  by rewrite lookup_app_r, Nat.add_comm, Nat.add_sub by lia.
Qed.

Lemma iter_follows hs s j v p st p' s' :
  holds F ls qs hs s -> ls !! j = Some v -> qs !! j = Some p ->
  storage_iter p s = Ok ((st, p'), s') ->
  exists v' hs', heap_storage_iter v hs = Ok ((st, v'), hs') /\
    holds F (<[j := v']> ls) (<[j := p']> qs) hs' s'.
Proof.
  intros H2 Hj Hq R. unfold storage_iter in R.
  rewrite (bind_runs mget _ s s s) in R by done.
  apply bind_inv in R as ((r & i) & s1 & R1 & R2). unfold mlift in R1.
  destruct (storage_iter_loop _ _ _ _) as [x|] eqn:E; [|done]. injection R1 as -> <-.
  destruct (holds_local _ _ _ _ H2 Hj) as (q & Hq2 & Hr). assert (q = p) as -> by congruence.
  destruct (holds_slots _ _ _ _ _ H2) as [_ Hf].
  destruct (heap_iter_loop_ok (Z.to_nat MAX_VAR_COUNT) (hs_heap hs) _ _ v p r i
    (storage_iter_index s) Hf Hr) as (r' & h' & R' & Hrr); [|exact E|].
  { intros w l Hw. by apply (local_apart hs s j). }
  rewrite <-(ho_iter _ _ _ _ _ H2) in R'.
  assert (Hhs : heap_storage_iter v hs = (match r' with
    | inl var => mmodify (set_hiter 0) ;; ret (EFI_DEVICE_ERROR, var)
    | inr var => if i >=? MAX_VAR_COUNT then mmodify (set_hiter 0) ;; ret (EFI_NOT_FOUND, var)
                 else mmodify (set_hiter i) ;; ret (EFI_SUCCESS, var)
    end) (set_heap h' hs)).
  { unfold heap_storage_iter. rewrite (bind_runs mget _ hs hs hs) by done.
    rewrite (bind_runs _ _ hs (r', i) (set_heap h' hs)); [done|].
    unfold on_heap, mzoom. by rewrite R'. }
  rewrite Hhs. destruct r as [q|q], r' as [w|w]; try done; destruct Hrr as [Hrr M];
    pose proof (holds_set_local _ _ _ _ _ _ _ H2 Hj Hrr M) as H3.
  - injection R2 as <- <- <-. eexists _, _. split; [done|]. destruct H3. by constructor.
  - destruct (i >=? MAX_VAR_COUNT); injection R2 as <- <- <-; eexists _, _;
      (split; [done|]); destruct H3; by constructor.
Qed.

End store.

(** ** The bytes in the heap *)
Definition heap_bytes (h : heap) : Z := map_fold (fun _ b n => zlen b + n) 0 h.

Lemma heap_bytes_insert h l b :
  h !! l = None -> heap_bytes (<[l := b]> h) = zlen b + heap_bytes h.
Proof. intros Hl. apply (map_fold_insert_L (fun _ b n => zlen b + n)); [intros; lia|done]. Qed.

Definition data_size (p : variable_t) : Z :=
  match var_data p with Some d => zlen d | None => 0 end.
Fixpoint data_bytes (ps : list variable_t) : Z :=
  match ps with
  | [] => 0
  | p :: ps' => data_size p + data_bytes ps'
  end.

Lemma data_bytes_app ps rs : data_bytes (ps ++ rs) = data_bytes ps + data_bytes rs.
Proof. induction ps as [|p ps IH]; [done|]. cbn [data_bytes app]. lia. Qed.

(** A structure that is given up: its block becomes part of the rest. *)
Definition given (F : heap) (v : hvar) (p : variable_t) : heap :=
  match hv_data v, var_data p with
  | Some l, Some d => <[l := d]> F
  | _, _ => F
  end.

Lemma owned_drop F h v p vs ps :
  owned F h (v :: vs) (p :: ps) ->
  owned (given F v p) h vs ps /\ heap_bytes (given F v p) = heap_bytes F + data_size p.
Proof.
  intros [Hr Hd Hf Ha]. inversion Hr as [|? ? ? ? Hv Hvs]; subst.
  assert (Hin : forall w, w ∈ vs -> w ∈ v :: vs) by (intros; by apply list_elem_of_further).
  assert (Hne : forall w l, w ∈ vs -> hv_data v = Some l -> hv_data w <> Some l).
  { intros w l (i & Hi)%list_elem_of_lookup E E2. by assert (O = S i) by by apply (Hd O (S i) v w l). }
  pose proof (rep_data _ _ _ Hv) as Hb. unfold given, data_size.
  destruct (hv_data v) as [l|] eqn:El, (var_data p) as [d|]; try done; cbn in Hb.
  - assert (HF : F !! l = None) by (apply (Ha l v); [apply list_elem_of_here|done]).
    split; [|rewrite heap_bytes_insert by done; lia]. constructor; [done| | |].
    + intros i j w x l' Hi Hj Ew Ex. by assert (S i = S j) as [= ->] by by apply (Hd (S i) (S j) w x l').
    + intros l' Hno. destruct (decide (l' = l)) as [->|Hl]; [by rewrite lookup_insert_eq|].
      rewrite lookup_insert_ne by done. apply Hf.
      intros w [->|Hw]%elem_of_cons; [congruence|by apply Hno].
    + intros l' w Hw E. rewrite lookup_insert_ne by (intros ->; by apply (Hne w l')).
      apply (Ha l' w); [by apply Hin|done].
  - split; [|lia]. constructor; [done| | |].
    + intros i j w x l' Hi Hj Ew Ex. by assert (S i = S j) as [= ->] by by apply (Hd (S i) (S j) w x l').
    + intros l' Hno. apply Hf. intros w [->|Hw]%elem_of_cons; [congruence|by apply Hno].
    + intros l' w Hw E. apply (Ha l' w); [by apply Hin|done].
Qed.

Lemma owned_drops F h vs ps ws rs :
  owned F h (vs ++ ws) (ps ++ rs) -> length vs = length ps ->
  exists F', owned F' h ws rs /\ heap_bytes F' = heap_bytes F + data_bytes ps.
Proof.
  revert F ps. induction vs as [|v vs IH]; intros F [|p ps] Ho Hl; try done.
  { exists F. split; [done|]. cbn. lia. }
  apply owned_drop in Ho as [Ho Hb]. injection Hl as Hl.
  destruct (IH _ _ Ho Hl) as (F' & Ho' & Hb'). exists F'. split; [done|]. cbn [data_bytes]. lia.
Qed.

(** The heap holds the rest, and the data of the variables. *)
Lemma owned_bytes F h vs ps : owned F h vs ps -> heap_bytes h = heap_bytes F + data_bytes ps.
Proof.
  intros Ho. pose proof (Forall2_length _ _ _ (ow_rep _ _ _ _ Ho)) as Hl.
  destruct (owned_drops F h vs ps [] []) as (F' & [_ _ Hf _] & Hb); [by rewrite !app_nil_r|done|].
  assert (h = F') as -> by (apply map_eq; intros l; apply Hf; by intros v ?%not_elem_of_nil). done.
Qed.

Lemma owned_nothing F h vs ps :
  owned F h vs ps -> (forall p, p ∈ ps -> var_data p = None) -> h = F.
Proof.
  intros Ho Hn. apply map_eq. intros l. apply (ow_frame _ _ _ _ Ho).
  intros v (i & Hi)%list_elem_of_lookup E.
  destruct (Forall2_lookup_l _ _ _ _ _ (ow_rep _ _ _ _ Ho) Hi) as (p & Hp & [_ Hd]).
  rewrite E, (Hn p) in Hd; [done|]. by eapply list_elem_of_lookup_2.
Qed.

(** ** Histories *)

(** A call, with the pointer to its data in place of the data. *)
Definition heap_exec_call `{Allocator} `{Addresses} (c : store_call) (src : pointer) :
    M hstorage answer :=
  match c with
  | CallGet rt n sz g a buf dsz =>
      '(st, out) <- heap_storage_get rt (Some n) sz (Some g) (Some a) buf (Some dsz) ;;
      ret (st, Some out)
  | CallSet n sz g _ dsz attrs =>
      st <- heap_storage_set (Some n) sz (Some g) (Some src) dsz attrs ;; ret (st, None)
  | CallSetTs n sz g _ dsz attrs t =>
      st <- heap_set_with_timestamp (Some n) sz (Some g) (Some src) dsz attrs (Some t) ;;
      ret (st, None)
  | CallRemove n sz g => st <- heap_storage_remove (Some n) sz (Some g) ;; ret (st, None)
  | CallDestroy => heap_storage_destroy ;; ret (EFI_SUCCESS, None)
  end.

Fixpoint heap_exec_calls `{Allocator} `{Addresses} (cs : list (store_call * pointer)) :
    M hstorage (list answer) :=
  match cs with
  | [] => ret []
  | (c, src) :: cs' =>
      a <- heap_exec_call c src ;; rest <- heap_exec_calls cs' ;; ret (a :: rest)
  end.

(** The pointer is to the data, in an object or in a block of the caller. *)
Definition call_reads (F : heap) (x : store_call * pointer) : Prop :=
  match x.1 with
  | CallSet _ _ _ d _ _ | CallSetTs _ _ _ d _ _ _ => reads F x.2 d
  | _ => True
  end.

(** The store at the start of the process, in a heap with the blocks [F]. *)
Definition hstorage_init (F : heap) : hstorage :=
  mk_hstorage F (replicate (Z.to_nat MAX_VAR_COUNT) zero_hvar) 0 0 0.

Lemma holds_init F : holds F [] [] (hstorage_init F) storage_init.
Proof.
  constructor; [|done..]. constructor; cbn [app hs_variables hs_heap hstorage_init variables storage_init].
  - by apply Forall2_replicate.
  - by intros i j v w l [-> _]%lookup_replicate.
  - done.
  - by intros l v [-> _]%elem_of_replicate.
Qed.

Section histories.
Context `{Allocator} `{Addresses} (F : heap).

Lemma follows_call hs s c src :
  call_reads F (c, src) -> follows F [] [] hs s (heap_exec_call c src) (exec_call c).
Proof.
  intros Hr. destruct c; cbn [heap_exec_call exec_call]; cbn in Hr;
    (apply follows_bind; [|intros ? ? ? _; repeat case_match; apply follows_ret]).
  - apply follows_storage_get.
  - by apply follows_set.
  - by apply follows_set_with_timestamp.
  - apply follows_remove.
  - apply follows_destroy.
Qed.

Lemma follows_calls cs : forall hs s,
  Forall (call_reads F) cs ->
  follows F [] [] hs s (heap_exec_calls cs) (exec_calls (fst <$> cs)).
Proof.
  induction cs as [|[c src] cs IH]; intros hs s Hcs; [apply follows_ret|].
  inversion Hcs; subst. cbn [heap_exec_calls exec_calls fmap list_fmap fst].
  apply follows_bind; [by apply follows_call|]. intros a hs1 s1 _.
  apply follows_bind; [by apply IH|]. intros rest hs2 s2 _. apply follows_ret.
Qed.

(** C6: The store and the heap.  Whatever the calls (get, set, set with time
    stamp, remove, destroy, with readable arguments within the size limits and
    names that do not end in a zero character) and wherever their data lies, in an object or in a block of the caller, the store with its pointers
    answers as the abstract map does: it never touches a block that has been
    freed and frees none twice.  Afterwards every variable has a block of its
    own with its data, every other block is as it was, nothing is lost, and
    when no variable is left the heap is what it was at the start. *)
Theorem store_owns_its_blocks (cs : list (store_call * pointer)) :
  grants MAX_VARIABLE_DATA_SIZE -> Forall call_ok (fst <$> cs) -> Forall (call_reads F) cs ->
  exists answers hs s,
    heap_exec_calls cs (hstorage_init F) = Ok (answers, hs) /\
    (answers, abs (variables s)) = spec_calls (fst <$> cs) ∅ /\ storage_inv s /\
    owned F (hs_heap hs) (hs_variables hs) (variables s) /\
    heap_bytes (hs_heap hs) = heap_bytes F + data_bytes (variables s) /\
    (total s = 0 -> hs_heap hs = F).
Proof.
  intros G Hok Hr.
  destruct (exec_calls_refine _ storage_init G storage_init_inv Hok) as (answers & s & R & Hs & Hsp).
  destruct (follows_calls cs _ _ Hr (holds_init F) _ _ R) as (hs & Rh & Hh).
  pose proof (ho_owned _ _ _ _ _ Hh) as Ho. cbn [app] in Ho.
  exists answers, hs, s. split_and!; [done|exact Hsp|done|done|by eapply owned_bytes|].
  intros Ht. eapply owned_nothing; [exact Ho|]. intros p (i & Hi)%list_elem_of_lookup.
  destruct (live p) eqn:Hl.
  - pose proof (nlive_live_slot _ _ _ Hi Hl). rewrite (sw_total _ Hs) in Ht. lia.
  - by rewrite (slot_wf_free _ (slot_wf_lookup _ _ _ Hs Hi) Hl).
Qed.

End histories.

(** ** At a concrete input *)

(** A variable is stored from a block of the caller, read and removed. *)
Definition block_1 : heap := {[5%positive := [x08; x09]]}.
Definition calls_2 : list store_call :=
  [CallSet name_A 2 guid_1 [x08; x09] 2 7; CallSet name_A 2 guid_1 [x07] 1 0x47;
   CallGet false name_A 2 guid_1 0 [x00; x00; x00] 3; CallRemove name_A 2 guid_1].
Definition heap_calls_2 : list (store_call * pointer) :=
  zip calls_2 [Blk 5; Obj [x07]; Obj []; Obj []].

Lemma calls_2_ok : Forall call_ok calls_2.
Proof.
  pose proof name_A_ok. pose proof (cn_arg _ _ name_A_ok).
  repeat (apply Forall_cons; split); [..|apply Forall_nil; done];
    cbn [call_ok]; split_and?; try done; clia.
Qed.

Lemma store_owns_its_blocks_witness :
  exists answers hs s,
    @heap_exec_calls zero_allocator _ heap_calls_2 (hstorage_init block_1) = Ok (answers, hs) /\
    (answers, abs (variables s)) = spec_calls calls_2 ∅ /\ storage_inv s /\
    owned block_1 (hs_heap hs) (hs_variables hs) (variables s) /\
    heap_bytes (hs_heap hs) = heap_bytes block_1 + data_bytes (variables s) /\
    (total s = 0 -> hs_heap hs = block_1).
Proof.
  apply (@store_owns_its_blocks zero_allocator _ block_1 heap_calls_2);
    [apply zero_allocator_grants|apply calls_2_ok|].
  repeat (apply Forall_cons; split); [reflexivity..|apply Forall_nil; done].
Defined.
