(* ===== verification/HeapLeak.v ===== *)
(** * The blocks that the lists lose

    [variable_list_bytes] of [src/xapi.c] copies the variables it lists, and
    frees the array of copies but not the blocks the copies own; and
    [retrieve_nonvolatile_vars] clears the structure it copies from without
    freeing its block.  Every list of the non-volatile variables leaves two
    copies of their data in the heap. *)
From S2P Require Import Prelude EfiTypes Common UefiVariable Storage StorageInv Samples.
From S2P Require Import StorageSpec StorageTrace Serializer SerializerSpec CText Server Xapi.
From S2P Require Import XapiSamples Persistence XapiNet Heap HeapVar HeapSpec.

(** ** Local structures come and go *)
Lemma holds_give F v p ls qs hs s :
  holds F (v :: ls) (p :: qs) hs s ->
  holds (given F v p) ls qs hs s /\ heap_bytes (given F v p) = heap_bytes F + data_size p.
Proof.
  intros [Ho Hl Ht Hu Hi]. apply owned_drop in Ho as [Ho Hb]. split; [|done].
  injection Hl as Hl. by constructor.
Qed.

Lemma owned_zero F h vs ps : owned F h vs ps -> owned F h (zero_hvar :: vs) (zero_var :: ps).
Proof.
  intros [Hr Hd Hf Ha]. constructor.
  - by constructor.
  - intros [|i] [|j] v w l Hi Hj Ev Ew; cbn in Hi, Hj; [done| | |f_equal; by apply (Hd i j v w l)].
    + injection Hi as <-. done.
    + injection Hj as <-. done.
  - intros l Hno. apply Hf. intros v Hv. by apply Hno, list_elem_of_further.
  - intros l v [->|Hv]%elem_of_cons E; [done|]. by apply (Ha l v).
Qed.

Lemma holds_take F ls qs hs s :
  holds F ls qs hs s -> holds F (zero_hvar :: ls) (zero_var :: qs) hs s.
Proof. intros [Ho Hl Ht Hu Hi]. constructor; try done; [by apply owned_zero|cbn; by f_equal]. Qed.

Lemma holds_takes F hs s n :
  holds F [] [] hs s -> holds F (replicate n zero_hvar) (replicate n zero_var) hs s.
Proof. intros H. induction n as [|n IH]; [done|]. by apply holds_take. Qed.

(** A change of a block that no structure points to. *)
Lemma holds_elsewhere F ls qs hs s l F' h' :
  holds F ls qs hs s -> (forall v, v ∈ ls ++ hs_variables hs -> hv_data v <> Some l) ->
  (forall l', l' <> l -> h' !! l' = hs_heap hs !! l' /\ F' !! l' = F !! l') -> h' !! l = F' !! l ->
  holds F' ls qs (set_heap h' hs) s.
Proof.
  intros [[Hr Hd Hf Ha] Hl Ht Hu Hi] Hno Hsame Hel. constructor; try done. constructor.
  - apply Forall2_same_length_lookup. split; [by eapply Forall2_length|]. intros i v p Hv Hp.
    apply (rep_same (hs_heap hs)); [by eapply Forall2_lookup_lr|]. intros l' E.
    apply Hsame. intros ->. by apply (Hno v); [eapply list_elem_of_lookup_2|].
  - done.
  - intros l' Hl'. destruct (decide (l' = l)) as [->|Hne]; [done|].
    destruct (Hsame l' Hne) as [E1 E2]. cbn [hs_heap set_heap]. rewrite E1, E2. by apply Hf.
  - intros l' v Hv E. rewrite (proj2 (Hsame l' ltac:(intros ->; by apply (Hno v)))). by apply (Ha l' v).
Qed.

Lemma holds_alloc F ls qs hs s l b :
  holds F ls qs hs s -> hs_heap hs !! l = None ->
  holds (<[l := b]> F) ls qs (set_heap (<[l := b]> (hs_heap hs)) hs) s /\ F !! l = None.
Proof.
  intros H Hl. destruct (owned_fresh _ _ _ _ _ (ho_owned _ _ _ _ _ H) Hl) as [Hno HF].
  split; [|done]. apply (holds_elsewhere F _ _ _ _ l); [done|done| |by rewrite !lookup_insert_eq].
  intros l' Hne. by rewrite !lookup_insert_ne by done.
Qed.

Lemma rest_unowned F ls qs hs s l b :
  holds F ls qs hs s -> F !! l = Some b ->
  (forall v, v ∈ ls ++ hs_variables hs -> hv_data v <> Some l) /\ hs_heap hs !! l = Some b.
Proof.
  intros H Hl. assert (Hno : forall v, v ∈ ls ++ hs_variables hs -> hv_data v <> Some l).
  { intros v Hv E. pose proof (ow_apart _ _ _ _ (ho_owned _ _ _ _ _ H) l v Hv E). congruence. }
  split; [done|]. by rewrite (ow_frame _ _ _ _ (ho_owned _ _ _ _ _ H)).
Qed.

Lemma holds_write F ls qs hs s l b b' :
  holds F ls qs hs s -> F !! l = Some b ->
  holds (<[l := b']> F) ls qs (set_heap (<[l := b']> (hs_heap hs)) hs) s.
Proof.
  intros H Hl. destruct (rest_unowned _ _ _ _ _ _ _ H Hl) as [Hno _].
  apply (holds_elsewhere F _ _ _ _ l); [done|done| |by rewrite !lookup_insert_eq].
  intros l' Hne. by rewrite !lookup_insert_ne by done.
Qed.

Lemma holds_free F ls qs hs s l b :
  holds F ls qs hs s -> F !! l = Some b ->
  holds (delete l F) ls qs (set_heap (delete l (hs_heap hs)) hs) s.
Proof.
  intros H Hl. destruct (rest_unowned _ _ _ _ _ _ _ H Hl) as [Hno _].
  apply (holds_elsewhere F _ _ _ _ l); [done|done| |by rewrite !lookup_delete_eq].
  intros l' Hne. by rewrite !lookup_delete_ne by done.
Qed.

(** What [load_vars] reads. *)
Lemma bare_filled p : with_data (var_data p) (var_datasz (bare p)) (bare p) = p.
Proof. by destruct p. Qed.

Lemma load_vars_ok h vs ps : Forall2 (rep h) vs ps -> load_vars vs h = Ok (ps, h).
Proof.
  induction 1 as [|v p vs ps [Hf Hd] _ IH]; [done|]. cbn [load_vars].
  assert (Hl : match hv_data v with
               | None => ret None
               | Some l => b <- load (Some l) ;; ret (Some b)
               end h = Ok (var_data p, h)).
  { destruct (hv_data v) as [l|], (var_data p) as [d|]; try done. cbn in Hd.
    unfold bind, load. by rewrite Hd. }
  rewrite (bind_runs _ _ _ _ _ Hl), (bind_runs _ _ _ _ _ IH), Hf. by rewrite bare_filled.
Qed.

(** ** The copies *)
Section retrieve.
Context `{Allocator} `{Addresses} (G : grants MAX_VARIABLE_DATA_SIZE).
#[local] Set Default Proof Using "Type*".

(** A local structure is copied to another one. *)
Lemma local_copy F tmp ls ptmp qs hs s j dst pdst r pdst' :
  holds F (tmp :: ls) (ptmp :: qs) hs s -> ls !! j = Some dst -> qs !! j = Some pdst ->
  variable_copy pdst ptmp = Ok (r, pdst') ->
  exists dst' hs', on_heap (heap_copy dst tmp) hs = Ok ((r, dst'), hs') /\
    holds F (tmp :: <[j := dst']> ls) (ptmp :: <[j := pdst']> qs) hs' s.
Proof using Type.
  intros H2 Hj Hq E. destruct (holds_slots _ _ _ _ _ H2) as [Hf _].
  inversion Hf as [|? ? ? ? Htmp Hls]; subst.
  pose proof (Forall2_lookup_lr _ _ _ _ _ _ Hls Hj Hq) as Hdst.
  destruct (simulates_copy (hs_heap hs) dst pdst tmp ptmp Hdst Htmp) with (r := r) (p' := pdst')
    as (dst' & h' & R & Hr & M); [|done|].
  { intros l Et Ed. pose proof (lookup_lt_Some _ _ _ Hj).
    assert (O = S j); [|done].
    apply (ow_distinct _ _ _ _ (ho_owned _ _ _ _ _ H2) _ _ tmp dst l); [done| |done|done].
    cbn. by apply lookup_app_l_Some. }
  exists dst', (set_heap h' hs). split; [unfold on_heap, mzoom; by rewrite R|].
  by apply (holds_set_local F (tmp :: ls) (ptmp :: qs) hs s (S j) dst h' dst' pdst').
Qed.

Lemma data_size_copied dst v : data_size (copied dst v) = data_size v.
Proof using Type. done. Qed.

(** A non-volatile variable goes into the next element of the array; the block
    of the structure it was copied from is lost. *)
Lemma variable_listed F tmp vars ptmp acc hs s v :
  live_wf v -> canonical v -> blank ptmp -> (length acc < 128)%nat ->
  holds F (tmp :: vars) (copied ptmp v :: acc ++ replicate (128 - length acc) zero_var) hs s ->
  exists dst dst' hs' F', vars !! length acc = Some dst /\
    on_heap (heap_copy dst tmp) hs = Ok ((0, dst'), hs') /\
    holds F' (zero_hvar :: <[length acc := dst']> vars)
      (zero_var :: (acc ++ [saved v]) ++ replicate (128 - length (acc ++ [saved v])) zero_var) hs' s /\
    heap_bytes F' = heap_bytes F + data_size v.
Proof.
  intros Hl Hc Hb Hn H2. destruct (holds_slots _ _ _ _ _ H2) as [Hls _].
  inversion Hls as [|? ? ? ? Htmp Hvars]; subst.
  assert (Hq : (acc ++ replicate (128 - length acc) zero_var) !! length acc = Some zero_var)
    by (apply lookup_next; lia).
  destruct (Forall2_lookup_r _ _ _ _ _ Hvars Hq) as (dst & Hj & _).
  destruct (local_copy F tmp vars _ _ hs _ (length acc) dst zero_var 0 (saved v) H2 Hj Hq)
    as (dst' & hs' & R & H3).
  { rewrite copy_ok; [by rewrite copied_again|done|apply zero_var_blank|by apply copied_live|].
    exact (copied_last ptmp v Hl Hc). }
  rewrite insert_next in H3 by lia. apply holds_give in H3 as [H3 Hb3].
  exists dst, dst', hs', (given F tmp (copied ptmp v)). split_and!; [done|done| |done].
  apply holds_take. rewrite length_app, Nat.sub_add_distr. exact H3.
Qed.

(** The non-volatile variables: as many bytes as they hold are lost while they
    are copied. *)
Lemma retrieve_nonvolatile_leaks fuel F s hs idx acc tmp vars ptmp :
  storage_inv s -> storage_iter_index s = Z.of_nat idx -> blank ptmp ->
  (length acc <= idx)%nat -> (idx <= 127)%nat -> (127 < idx + fuel)%nat ->
  holds F (tmp :: vars) (ptmp :: acc ++ replicate (128 - length acc) zero_var) hs s ->
  let all := acc ++ copies nonvolatile idx s in
  exists vars' hs' F',
    heap_retrieve_nonvolatile_loop fuel (Z.of_nat (length acc)) 128 vars tmp hs
    = Ok ((zlen all, vars'), hs') /\
    holds F' vars' (all ++ replicate (128 - length all) zero_var) hs' (set_iter 0 s) /\
    heap_bytes F + data_bytes (copies nonvolatile idx s) <= heap_bytes F'.
Proof.
  revert F s hs idx acc tmp vars ptmp. induction fuel as [|fuel IH];
    intros F s hs idx acc tmp vars ptmp Hs Hidx Htmp Hd Hi Hf H2; [lia|].
  cbn [heap_retrieve_nonvolatile_loop]. zb.
  pose proof (storage_iter_ok G s idx ptmp Hs Hidx Hi Htmp) as Hit.
  unfold copies. rewrite (filter_find _ (fun v => live v = true)) by by intros v [].
  destruct (list_find _ _) as [[k v]|] eqn:E; cycle 1.
  { destruct Hit as [ptmp' Hit].
    destruct (iter_follows F _ _ hs s 0 tmp ptmp EFI_NOT_FOUND ptmp' (set_iter 0 s) H2 eq_refl eq_refl Hit)
      as (tmp' & hs' & R & H3).
    rewrite (bind_runs _ _ _ _ _ R). cbv beta iota.
    change (EFI_NOT_FOUND =? EFI_DEVICE_ERROR) with false. rewrite Z.eqb_refl.
    cbn [fmap list_fmap]. rewrite app_nil_r. unfold ret, INT_MAX. zb. rewrite s32_id by lia.
    apply holds_give in H3 as [H3 Hb]. exists vars, hs', (given F tmp' ptmp').
    split_and!; [done|exact H3|]. rewrite Hb. cbn [data_bytes].
    assert (0 <= data_size ptmp'); [|lia]. unfold data_size. destruct (var_data ptmp'); [apply zlen_nonneg|done]. }
  destruct (reported_step _ _ _ _ Hs E) as (Hlv & Hcv & Hle & Hdrop).
  destruct (iter_follows F _ _ hs s 0 tmp ptmp _ _ _ H2 eq_refl eq_refl Hit) as (tmp1 & hs1 & R1 & H3).
  cbn [insert list_insert] in H3. rewrite (bind_runs _ _ _ _ _ R1). cbv beta iota.
  change (EFI_SUCCESS =? EFI_DEVICE_ERROR) with false.
  change (EFI_SUCCESS =? EFI_NOT_FOUND) with false. cbn match.
  rewrite (bind_runs _ _ hs1 tt hs1) by done. rewrite Hdrop.
  destruct (holds_slots _ _ _ _ _ H3) as [Hl3 _]. inversion Hl3 as [|? ? ? ? Htmp1 Hvars]; subst.
  rewrite (rep_fields _ _ _ Htmp1). change (var_attrs (bare (copied ptmp v))) with (var_attrs v).
  pose proof (set_iter_inv (Z.of_nat (idx + k + 1)) s Hs ltac:(lia)) as Hs'.
  pose proof (live_wf_live _ Hlv). rewrite filter_cons.
  destruct (has (var_attrs v) EFI_VARIABLE_NON_VOLATILE) eqn:Env; cycle 1.
  { rewrite decide_False by (intros [_ ?]; congruence).
    apply (IH F (set_iter (Z.of_nat (idx + k + 1)) s) hs1 (idx + k + 1)%nat acc tmp1 vars
             (copied ptmp v)); [done|done|by apply copied_blank|lia|lia|lia|exact H3]. }
  rewrite decide_True by done. rewrite Nat2Z.id.
  destruct (variable_listed F tmp1 vars ptmp acc hs1 _ v Hlv Hcv Htmp ltac:(lia) H3)
    as (dst & dst' & hs2 & F1 & Hj & R2 & H4 & Hb).
  rewrite Hj, (bind_runs _ _ _ _ _ R2).
  assert (Elen : length (acc ++ [saved v]) = S (length acc)) by (rewrite length_app; cbn; lia).
  destruct (IH F1 _ hs2 (idx + k + 1)%nat (acc ++ [saved v]) zero_hvar
      (<[length acc := dst']> vars) zero_var Hs' eq_refl zero_var_blank)
    as (vars' & hs' & F' & R & H5 & Hb'); [rewrite Elen; lia|lia|lia|exact H4|].
  rewrite Elen, Nat2Z.inj_succ in R. unfold copies in R, H5, Hb'.
  cbn [fmap list_fmap]. rewrite <-(app_assoc acc [saved v] (saved <$> _)) in R, H5.
  exists vars', hs', F'. split_and!; [exact R|exact H5|]. cbn [data_bytes].
  change (data_size (saved v)) with (data_size v).
  change (reported (set_iter _ s)) with (reported s) in Hb'. lia.
Qed.

End retrieve.

(** ** The list *)
Section lists.
Context `{Allocator} `{Addresses} `{Base64} (G : grants MESSAGE_MAX) (Hb64 : base64_text).
#[local] Set Default Proof Using "Type*".

Lemma on_heap_runs {A} (m : M heap A) hs a h' :
  m (hs_heap hs) = Ok (a, h') -> on_heap m hs = Ok (a, set_heap h' hs).
Proof using Type. intros R. unfold on_heap, mzoom. by rewrite R. Qed.

Lemma set_heap_same hs : set_heap (hs_heap hs) hs = hs.
Proof using Type. by destruct hs. Qed.

(** The size of the list does not depend on the data, only on its size. *)
Lemma list_size_bare vs : list_size (bare <$> vs) = list_size vs.
Proof using Type.
  unfold list_size. generalize sizeof_variable_list_header.
  induction vs as [|v vs IH]; intros z; [done|]. cbn [fmap list_fmap fold_left]. by rewrite IH.
Qed.

Lemma held_fields h vs ps : Forall2 (rep h) vs ps -> hv_fields <$> vs = bare <$> ps.
Proof using Type. induction 1 as [|v p vs ps [Hf _] _ IH]; [done|]. cbn. by rewrite Hf, IH. Qed.

Lemma data_bytes_nonneg ps : 0 <= data_bytes ps.
Proof using Type.
  induction ps as [|p ps IH]; cbn [data_bytes]; [done|].
  assert (0 <= data_size p); [|lia]. unfold data_size. destruct (var_data p); [apply zlen_nonneg|done].
Qed.

Lemma dropped_locals F ls qs hs s :
  holds F ls qs hs s ->
  exists F', holds F' [] [] hs s /\ heap_bytes F' = heap_bytes F + data_bytes qs.
Proof using Type.
  intros [Ho Hl Ht Hu Hi]. destruct (owned_drops _ _ _ _ _ _ Ho Hl) as (F' & Ho' & Hb).
  exists F'. split; [by constructor|done].
Qed.

(** The block that is filled with the list. *)
Lemma list_block hs F s vs all :
  holds F [] [] hs s -> Forall2 (rep (hs_heap hs)) vs all -> Forall live_wf all ->
  zlen all <= 128 -> 24 <= zlen (list_bytes all) <= LIST_MAX ->
  exists l hs',
    (block <- on_heap (heap_malloc (zlen (list_bytes all))) ;;
     match block with
     | None => ret (None, zlen (list_bytes all))
     | Some l =>
         vs <- on_heap (load_vars vs) ;;
         bytes <- on_heap (load block) ;;
         '(r, (bytes, _)) <- mlift (serialize_variable_list (zlen (list_bytes all)) vs (bytes, 0)) ;;
         on_heap (mmodify (<[l := bytes]>)) ;;
         if r <? 0 then on_heap (heap_free block) ;; ret (None, zlen (list_bytes all))
         else ret (block, zlen (list_bytes all))
     end) hs = Ok ((Some l, zlen (list_bytes all)), hs') /\
    holds (<[l := list_bytes all]> F) [] [] hs' s /\ F !! l = None.
Proof.
  intros H2 Hvs Hl Hn Hr. pose proof (grants_list G) as Gl.
  destruct (grants_block LIST_MAX (zlen (list_bytes all))) as (b & Hm & Hb); [done|lia|].
  unfold heap_malloc. rewrite Hm. destruct (alloc_block_ok (hs_heap hs) b) as (l & Hfree & Ra).
  rewrite (bind_runs _ _ _ _ _ (on_heap_runs _ _ _ _ Ra)).
  destruct (holds_alloc _ _ _ _ _ _ b H2 Hfree) as [H3 HF].
  set (hs1 := set_heap (<[l := b]> (hs_heap hs)) hs) in *.
  assert (Hload : load_vars vs (hs_heap hs1) = Ok (all, hs_heap hs1)).
  { apply load_vars_ok. eapply Forall2_impl; [exact Hvs|]. intros v p Hv.
    apply (rep_same (hs_heap hs)); [done|]. intros l' E.
    destruct (rep_block _ _ _ _ Hv E) as [x Hx]. apply lookup_insert_ne. congruence. }
  rewrite (bind_runs _ _ _ _ _ (on_heap_runs _ _ _ _ Hload)), set_heap_same.
  assert (Hb1 : load (Some l) (hs_heap hs1) = Ok (b, hs_heap hs1)).
  { unfold load. cbn [hs1 hs_heap set_heap]. by rewrite lookup_insert_eq. }
  rewrite (bind_runs _ _ _ _ _ (on_heap_runs _ _ _ _ Hb1)), set_heap_same.
  erewrite (bind_runs (mlift (serialize_variable_list _ _ _))); cycle 1.
  { apply mlift_runs, emits_whole; [|exact Hb]. apply emits_list; [done| |lia].
    unfold list_bytes. rewrite zlen_app, zlen_header. lia. }
  cbv beta iota. eexists l, _. split; [|split; [|done]]; cycle 1.
  { rewrite <-(insert_insert_eq F l (list_bytes all) b).
    eapply holds_write; [exact H3|apply lookup_insert_eq]. }
  rewrite (bind_runs _ _ hs1 tt (set_heap (<[l := list_bytes all]> (hs_heap hs1)) hs1)) by done.
  done.
Qed.

(** The list is the one of [variable_list_bytes], in a block of its own; twice
    as many bytes as the variables hold stay behind. *)
Lemma list_bytes_leaks F hs s :
  storage_inv s -> storage_iter_index s = 0 -> holds F [] [] hs s -> listed true s <> [] ->
  exists l hs' F',
    heap_variable_list_bytes true hs = Ok ((Some l, zlen (list_bytes (listed true s))), hs') /\
    holds (<[l := list_bytes (listed true s)]> F') [] [] hs' s /\ F' !! l = None /\
    heap_bytes F + 2 * data_bytes (listed true s) <= heap_bytes F'.
Proof.
  intros Hs Hidx H2 Hne. pose proof (grants_list G) as Gl. pose proof (grants_data Gl) as Gd.
  unfold heap_variable_list_bytes.
  destruct (grants_block LIST_MAX (MAX_VAR_COUNT * sizeof_variable_t)) as (blk & Hblk & _);
    [done|unfold LIST_MAX, sizeof_variable_t; clia|]. rewrite Hblk. clear blk Hblk.
  destruct (retrieve_nonvolatile_leaks Gd 129 F s hs 0 [] zero_hvar (replicate 128 zero_hvar) zero_var)
    as (vars & hs1 & F1 & R1 & H3 & Hb1); [done|done|apply zero_var_blank|cbn; lia|lia|lia| |].
  { apply holds_take. by apply (holds_takes F hs s 128). }
  cbn [app] in R1, H3. rewrite (set_iter_same s Hidx) in H3.
  change (copies nonvolatile 0 s) with (listed true s) in R1, H3, Hb1.
  change (heap_retrieve_nonvolatile_vars MAX_VAR_COUNT)
    with (heap_retrieve_nonvolatile_loop 129 (Z.of_nat (length (@nil variable_t))) 128
            (replicate 128 zero_hvar) zero_hvar). cbv iota.
  rewrite (bind_runs _ _ _ _ _ R1). cbv beta iota.
  destruct (listed_ok true s Hs) as (Hl & Hc & Hn).
  set (all := listed true s) in *. pose proof (list_bytes_range _ Hl ltac:(lia)) as Hr.
  assert (Hpos : 0 < zlen all).
  { destruct all as [|v l]; [done|]. rewrite zlen_cons. pose proof (zlen_nonneg l). lia. }
  zb. replace (Z.to_nat (zlen all)) with (length all) by (unfold zlen; lia).
  destruct (holds_slots _ _ _ _ _ H3) as [Hvars _].
  pose proof (Forall2_take _ _ _ (length all) Hvars) as Htake. rewrite take_app_length in Htake.
  rewrite (held_fields _ _ _ Htake), list_size_bare, list_size_ok by (done || clia).
  destruct (dropped_locals _ _ _ _ _ H3) as (F2 & H4 & Hb2). rewrite data_bytes_app in Hb2.
  destruct (list_block hs1 F2 s (take (length all) vars) all H4 Htake Hl ltac:(lia) Hr)
    as (l & hs2 & R2 & H5 & Hno).
  exists l, hs2, F2. split; [exact R2|]. split_and!; [done|done|].
  pose proof (data_bytes_nonneg (replicate (128 - length all) zero_var)). lia.
Qed.

(** The text that is sent; the block of the list is freed. *)
Lemma text_leaks F hs s :
  storage_inv s -> storage_iter_index s = 0 -> holds F [] [] hs s -> listed true s <> [] ->
  exists text hs' F',
    heap_variable_list_base64 hs = Ok (Some text, hs') /\
    variable_list_base64 s = Ok (Some text, s) /\ holds F' [] [] hs' s /\
    heap_bytes F + 2 * data_bytes (listed true s) <= heap_bytes F'.
Proof.
  intros Hs Hidx H2 Hne.
  destruct (variable_list_base64_ok G Hb64 s Hs Hidx Hne) as (text & _ & _ & _ & _ & R).
  destruct (list_bytes_leaks F hs s Hs Hidx H2 Hne) as (l & hs1 & F1 & R1 & H3 & Hno & Hb).
  assert (Ht : bytes_to_base64 (list_bytes (listed true s)) (zlen (list_bytes (listed true s)))
               = Ok (Some (text ++ [NUL]))).
  { unfold variable_list_base64 in R.
    erewrite bind_runs in R by (by apply variable_list_bytes_ok; [apply grants_list|..]).
    destruct (listed true s) as [|v vs] eqn:El; [done|]. rewrite <-El in *. unfold mlift in R.
    cbv beta iota in R. destruct (bytes_to_base64 _ _); [|done]. by injection R as ->. }
  exists (text ++ [NUL]), (set_heap (delete l (hs_heap hs1)) hs1), F1.
  destruct (rest_unowned _ _ _ _ _ _ _ H3 (lookup_insert_eq _ _ _)) as [_ Hl].
  split_and!; [|done| |done]; cycle 1.
  { rewrite <-(delete_insert_id F1 l (list_bytes (listed true s))) by done.
    eapply holds_free; [exact H3|apply lookup_insert_eq]. }
  unfold heap_variable_list_base64. rewrite (bind_runs _ _ _ _ _ R1). cbv beta iota.
  assert (Rl : load (Some l) (hs_heap hs1) = Ok (list_bytes (listed true s), hs_heap hs1))
    by (unfold load; by rewrite Hl).
  rewrite (bind_runs _ _ _ _ _ (on_heap_runs _ _ _ _ Rl)), set_heap_same, Ht.
  rewrite (bind_runs (mlift _) _ hs1 (Some (text ++ [NUL])) hs1) by done.
  rewrite (bind_runs _ _ hs1 tt (set_heap (delete l (hs_heap hs1)) hs1)); [done|].
  apply on_heap_runs. unfold heap_free. by rewrite Hl.
Qed.

(** The list is made [k] times. *)
Fixpoint heap_texts (k : nat) : M hstorage unit :=
  match k with
  | O => ret tt
  | S k' => heap_variable_list_base64 ;; heap_texts k'
  end.

End lists.

(** C38: Lists leak.  Whenever the variables are sent to the toolstack, which
    every accepted request that sets a non-volatile variable asks for, the
    blocks of two copies of the non-volatile variables stay in the heap:
    nothing points to them any more, and after [k] lists the heap has grown by
    at least twice [k] times the data of these variables, although the store
    has not changed.  There is no bound on what a guest can make the daemon
    lose. *)
Theorem lists_leak `{Allocator} `{Addresses} `{Base64} (k : nat) (F : heap) (hs : hstorage)
    (s : storage) :
  grants MESSAGE_MAX -> base64_text -> storage_inv s -> storage_iter_index s = 0 ->
  holds F [] [] hs s -> listed true s <> [] ->
  exists hs' F',
    heap_texts k hs = Ok (tt, hs') /\ holds F' [] [] hs' s /\
    heap_bytes (hs_heap hs) + 2 * Z.of_nat k * data_bytes (listed true s)
      <= heap_bytes (hs_heap hs') /\
    0 < data_bytes (listed true s).
Proof.
  intros G Hb64 Hs Hidx H2 Hne.
  assert (Hall : forall hs0 F0, holds F0 [] [] hs0 s ->
    heap_bytes (hs_heap hs0) = heap_bytes F0 + data_bytes (variables s)).
  { intros hs0 F0 H0'. exact (owned_bytes _ _ _ _ (ho_owned _ _ _ _ _ H0')). }
  assert (Hpos : 0 < data_bytes (listed true s)).
  { destruct (listed_ok true s Hs) as (Hl & _ & _). destruct (listed true s) as [|v vs]; [done|].
    inversion Hl as [|? ? Hv _]; subst. cbn [data_bytes]. pose proof (data_bytes_nonneg vs).
    unfold data_size. destruct (lw_data _ Hv) as (d & -> & Hd). pose proof (lw_datasz _ Hv). lia. }
  assert (Hk : exists hs' F', heap_texts k hs = Ok (tt, hs') /\ holds F' [] [] hs' s /\
    heap_bytes F + 2 * Z.of_nat k * data_bytes (listed true s) <= heap_bytes F').
  { revert hs F H2. induction k as [|k IH]; intros hs F H2; [exists hs, F; split_and!; [done|done|lia]|].
    destruct (text_leaks G Hb64 F hs s Hs Hidx H2 Hne) as (text & hs1 & F1 & R1 & _ & H3 & Hb1).
    destruct (IH hs1 F1 H3) as (hs2 & F2 & R2 & H4 & Hb2).
    exists hs2, F2. cbn [heap_texts]. rewrite (bind_runs _ _ _ _ _ R1). split_and!; [done|done|lia]. }
  destruct Hk as (hs' & F' & R & H4 & Hb). exists hs', F'.
  rewrite (Hall _ _ H2), (Hall _ _ H4). split_and!; [done|done|lia|done].
Qed.

(** ** At a concrete input *)

Lemma owned_put F h vs ps l p d :
  owned F h vs ps -> h !! l = None -> var_data p = Some d ->
  owned F (<[l := d]> h) (mk_hvar (bare p) (Some l) :: vs) (p :: ps).
Proof.
  intros Ho Hl Hd. apply owned_zero in Ho.
  pose proof (owned_update F h _ _ 0 zero_hvar (<[l := d]> h) (mk_hvar (bare p) (Some l)) p Ho
    eq_refl) as Hu. apply Hu.
  - constructor; [done|]. cbn. rewrite Hd. apply lookup_insert_eq.
  - by apply (moved_realloc h zero_hvar l d).
Qed.

(** The store of the two variables, in a heap of two blocks. *)
Definition hstore_2 : hstorage :=
  mk_hstorage (<[1%positive := [x07]]> (<[2%positive := [x08]]> ∅))
    (mk_hvar (bare var_1) (Some 1%positive) :: mk_hvar (bare var_2) (Some 2%positive)
     :: replicate 126 zero_hvar) 2 66048 0.

Lemma hstore_2_holds : holds ∅ [] [] hstore_2 store_2.
Proof.
  constructor; [|done..]. cbn [app hs_heap hs_variables hstore_2 variables store_2].
  apply owned_put; [|done|done]. apply owned_put; [|done|done].
  generalize 126%nat. intros n. induction n as [|n IH]; [|by apply owned_zero].
  constructor; [constructor|done|done|].
  intros l v Hv. by apply not_elem_of_nil in Hv.
Qed.

Lemma lists_leak_witness :
  exists hs' F',
    @heap_texts zero_allocator _ toy_base64 3 hstore_2 = Ok (tt, hs') /\ holds F' [] [] hs' store_2 /\
    heap_bytes (hs_heap hstore_2) + 2 * Z.of_nat 3 * data_bytes (listed true store_2)
      <= heap_bytes (hs_heap hs') /\
    0 < data_bytes (listed true store_2).
Proof.
  apply (@lists_leak zero_allocator _ toy_base64 3 ∅ hstore_2 store_2 (zero_allocator_grants _)
           toy_base64_text store_2_inv eq_refl hstore_2_holds). discriminate.
Defined.
